(* ===== verification/_CoqProject ===== *)
-Q . S2P
Prelude.v
Xcm.v
Frame.v
Traits.v
AccessSegregator.v
BasicFeeHandler.v
PercentageFeeHandler.v
FeeHandlerRouter.v
Encode.v
Eip712.v
SigningFacts.v
Keccak.v
Bridge.v
BridgeNonces.v
BridgeDeposit.v
BridgeExecute.v
BridgeAdmin.v
DepositData.v
Conservation.v
System.v
Relay.v
Typing.v
Supply.v
Holding.v
Network.v
Channel.v
Circulation.v
Mesh.v
DecimalConverter.v
Migration.v
ParachainInfo.v
Rpc.v
Weights.v
RuntimeWeights.v
NodeSpec.v
NodeService.v
NodeServiceFacts.v
NodeBenchmarking.v
Forwarder.v
XcmBridge.v
XcmBridgeFacts.v
RuntimeCommon.v
NodeCommand.v
NodeCommandFacts.v
StandaloneRuntime.v
ParachainRuntime.v
XcmConfig.v
FrameParams.v
BridgeMock.v
TypingRuntimes.v
Pegs.v
Adapters.v
StandaloneLedger.v
ParachainLedger.v
Scenario.v
NetworkScenario.v
MeshScenario.v
StandaloneScenario.v
ParachainScenario.v
TestKit.v
PalletTests.v
BridgeTests.v
ForwarderTests.v
XcmTests.v
MockParams.v
Benchmarks.v
BridgeProps.v
DepositProps.v
SigningProps.v
AdminProps.v
FeeProps.v
RuntimeProps.v
XcmProps.v
NetworkProps.v
MeshProps.v
NodeProps.v
