(* ===== verification/Prelude.v ===== *)
(** * The Sygma substrate pallets: a verification development

    ** The program

    Sygma is a bridge.  On a Substrate chain it is a set of FRAME pallets:

    - the bridge pallet ([bridge/src/lib.rs]) takes deposits of assets towards other
      domains, and executes batches of proposals from other domains that carry a
      signature of the MPC address over their EIP-712 digest ([bridge/src/eip712.rs],
      [bridge/src/encode.rs]); [bridge/src/migration.rs] migrates its storage once;
    - three fee pallets quote the fee of a deposit ([basic-fee-handler],
      [percentage-fee-handler], and [fee-handler-router], which picks one of them);
    - the access segregator ([access-segregator]) decides who may call the
      administrative extrinsics of all of them;
    - the bridge forwarder and its asset transactor ([bridge-forwarder]) credit local
      accounts and forward assets meant for other worlds to the bridge pallet, and
      those meant for other parachains to the XCM bridge pallet ([xcm-bridge]);
    - two runtimes ([substrate-node/parachain/runtime], [substrate-node/standalone/runtime])
      and the mock runtime of the bridge's tests ([bridge/src/mock.rs]) configure the
      pallets: tables of assets, decimal conversion, parsers of destinations, the
      reserve check, the transactor;
    - [parachain-info], [runtime-api], [rpc] and the [weights.rs] files are around them;
      the nodes ([substrate-node/*/node]) start the runtimes from a chain specification.

    The pallets call each other through the traits of [traits/src/lib.rs].

    ** The model

    Code is a function in the monad [M E S A] of this file: it returns [Ok], an [Err]
    value or [Panic], and a state; a failed call keeps the state it reached unless it
    is wrapped in [transactional], as in the source.  All pallets share one state,
    [Frame.World L]: the storage of each pallet, the events, and a ledger of type [L]
    that only the asset transactor touches.  Machine integers are [Z] with their
    bounds, [checked_add] and wrap-around written out; [usize] has 32 bits, as in the
    runtime's wasm.  Bytes are numbers below 256.

    The traits are classes ([Traits.v]); a pallet's [Config] is a class too
    ([BridgeConfig], [AccessConfig], ...), and a runtime is an instance.  What does not
    belong to the repository is a parameter with its documented behaviour: hashing and
    key recovery ([Crypto]), the [ethabi] encoder ([EthAbi]), the SCALE codec of
    locations ([LocationCodec]), the [fixed] crate ([FixedU112F16]), functions of the
    XCM crates ([XcmLocations], [XcmReanchor], the weigher and the executor), the
    balance and asset adapters ([TransactAsset] with [TransactorExt], which says that
    an adapter leaves the pallets' storage alone, and [AssetLedger], which says that
    it debits and credits balances).  [Scenario.v] implements all of them by plain
    functions, so the laws are consistent and everything runs.

    ** Files

    - [Prelude]: integers, bytes, the monad, its inversion lemmas and tactics.
    - [Xcm], [Frame], [Traits]: the vocabulary, the state, the interfaces.
    - [AccessSegregator], [BasicFeeHandler], [PercentageFeeHandler],
      [FeeHandlerRouter]: one file per pallet, with closed forms of the calls.
    - [Encode], [Eip712], [SigningFacts]: packed encoding, the signing digest against
      the definition of the EIP-712 standard, what a digest binds.  [Keccak]: Keccak-256
      and [encodeType] as specified, and the constants of the code evaluated against them.
    - [Bridge]: every helper and extrinsic of the bridge pallet.  [BridgeNonces]: the
      bit field of used nonces as a set.  [BridgeDeposit]: the relational
      specification [deposit_effect] and the preorder [ext] of what deposits change.
      [BridgeExecute]: the specification of proposals and batches and the invariant of
      the execution history.  [BridgeAdmin]: administration.  [DepositData]: the layout
      of deposit data.  [Conservation]: balances.
    - [System]: the calls of all pallets as steps on the shared state, the invariant
      [chain_inv] and its preservation along every sequence of calls.
    - [Relay] (deposits as announced proposals, executions as paid ones), [Typing] and
      [TypingRuntimes] (the ranges of the Rust types, kept by every call; the runtimes
      are typed configurations), [Supply] (what executions mint), [Holding] (what locks
      and unlocks move on a holding account), [Network] (two chains, the relayers and
      the MPC between them, as one step relation), [Channel] (an abstract pair of channels,
      and the network as an implementation of it), [Circulation] (what circulates of a
      resource on a chain that holds it in reserve or wraps it), [Mesh] (the network of any
      number of chains, each with its own ledger and configuration), [Pegs] (the tables of
      the runtimes as such representations): the composition.
    - [Adapters] (the currency and the fungibles adapter as one transactor: which pallet
      keeps an asset, what the pair debits and credits), [StandaloneLedger] (the
      standalone runtime on top of the two pallets) and [ParachainLedger] (the parachain
      with its forwarding transactor, on batches for local recipients).
    - [DecimalConverter], [RuntimeCommon], [StandaloneRuntime] (Module [Standalone]),
      [ParachainRuntime] (Module [Para]), [BridgeMock] (Module [Mock]): the runtimes.
    - [Forwarder], [XcmBridge], [XcmBridgeFacts]: the forwarder, the transactor and the
      XCM bridge.  [XcmConfig] (Modules [ParaXcm] and [StandaloneXcm]): accounts and
      dispatch origins of XCM locations, filters, limits, queues and the barrier.
    - [Migration], [ParachainInfo], [Rpc], [Weights] (benchmarked weights of the calls),
      [RuntimeWeights] (time, block weights and the fee polynomial of the runtimes,
      Modules [ParaWeights] and [StandaloneWeights]): the rest.
    - [FrameParams] (Modules [StandaloneFrame] and [ParaFrame]): the parameters the
      runtimes give the FRAME pallets, the deposits, the transaction extensions, and the
      runtime APIs as a table of what their methods call.
    - [NodeSpec] (Modules [StandaloneNode] and [ParaNode]): the chain specifications of
      the nodes, their genesis states, and the choices of the command line.
      [NodeService] (Modules [StandaloneService] and [ParaService]) and [NodeCommand]
      (Modules [StandaloneCommand] and [ParaCommand]): the start of a node and the
      subcommands, in the monad of this file over a trace of the calls into the client;
      [NodeServiceFacts], [NodeCommandFacts]: the traces they can leave.
      [NodeBenchmarking]: the extrinsics of the benchmark commands.
    - [Scenario]: concrete parameters and a small chain on which domain 1 is
      registered, a deposit is made and a signed batch is executed.  [NetworkScenario]:
      two such chains, a deposit on one and its payment on the other.  [MeshScenario]:
      three of them, and a transfer that goes on from the second to the third.
      [StandaloneScenario], [ParachainScenario]: the two pallets behind their adapters,
      under either runtime.
    - [TestKit], [PalletTests] (Modules [AccessTests], [BasicFeeTests],
      [PercentageFeeTests], [RouterTests]), [BridgeTests]: the unit tests of the access,
      fee and bridge pallets as programs of the model, all of which pass.
      [ForwarderTests], [XcmTests]: those of the forwarder and of the XCM bridge with
      their mocks; an interpreter of XCM programs over the ledgers of three parachains
      takes the place of the executor and the simulator.  [MockParams] (a Module per mock):
      the pallet tables and FRAME parameters of the mocks, the relay chain of the XCM mock
      network included.  [Benchmarks]: the benchmarks of all pallets, run on the standalone
      runtime.
    - [BridgeProps], [DepositProps], [SigningProps], [AdminProps], [FeeProps],
      [RuntimeProps], [XcmProps], [NetworkProps], [MeshProps], [NodeProps]: the
      properties, each with a run on concrete data.

    ** What is shown

    - Replay and nonces ([BridgeProps], [DepositProps]): on every reachable state each
      proposal is executed at most once, exactly when its bit is set; executed
      proposals stay executed and are only reported ever after; deposit nonces are consecutive and never wrap.
    - Deposits and proposals: exact relational specifications, every error path, the
      balances that move, one outcome event per proposal of a batch.
    - The network ([NetworkProps], [MeshProps]): two chains and their relayers refine a pair of
      channels that deliver each transfer at most once, unaltered, in any order; over
      any interleaving of typed calls on two chains, a
      chain pays only announced deposits of the other, each at most once; what circulates
      of a resource on all chains of a network together, however many they are, never
      grows, whatever the routes, the decimals, the fees and the rounding, but by payments
      in the name of domains outside the network; a deposit the
      other chain can pay is deliverable at once, moves the right balances and is paid
      exactly once ever after; the balance of a holding account covers what was locked;
      storage and events stay in the range of their types.  Assumed of the relayers and
      the MPC, which are not in the repository: a signed batch holds, of the proposals
      in the name of a chain of the network, announced ones only; for delivery, that the holder
      of the MPC key can sign the digest of a batch.  The theorem on circulation also
      assumes that no call is signed by a holding account, which has no key.  On the
      standalone chain the same is shown of the balances and assets pallets themselves,
      from what the adapters document, and on the parachain of its foreign assets for
      batches that pay local recipients, since a forward that fails keeps what it was
      credited (these chains start with no id written, which reads as 100; no proof uses
      it); the balances pallet burns the dust of an account
      that falls below the existential deposit, and the laws of [Adapters] are for
      operations that leave none.
    - Signing ([SigningProps]): the digest is the EIP-712 digest; equal digests mean
      equal batches or an exhibited hash collision; only signed batches run.  The type
      strings and the precomputed type hashes are those of the standard ([Keccak]).
    - Administration ([AdminProps]): administrative storage changes by calls of
      entitled origins only; grants are exclusive; the MPC address is written once;
      pausing stops deposits and executions; domains and chain ids stay paired.
    - Fees and decimals ([FeeProps]): quotes are exact up to the saturation at 128 bits,
      clamped and monotone; the
      conversion to and from 18 decimals is exact scaling and creates no value.
    - Runtimes ([RuntimeProps]): the tables are consistent, destinations are read back,
      the invariants hold with the parachain's own transactor, the migration runs once.
    - Genesis ([NodeProps]): the chains the nodes know by name start with the invariants,
      the endowments and the keys their specification says, and with the bridge closed.
    - Nodes ([NodeProps]): whatever the client answers, a node joins the network exactly
      when its start succeeds, as its last action, with the tasks its configuration asks
      for; a failed start reports the error of the last call; no subcommand joins.
    - XCM ([XcmProps]): the effect of a transfer and the route of its message.  On the
      parachain ([XcmConfig]) no message acts as root or for an account other than the one
      of its location, and no two chains share an account.
    - Behaviour that looks unintended is proved as it is: the native asset of the
      parachain is refused by its own currency adapter, a failed execution keeps the
      reserve debited, forwards to other worlds fail on the parachain, and so do
      forwards of foreign assets to other parachains, overlong keys panic, the division
      branch of the decimal conversion has no range guard, the collator measures its
      machine also when told not to.

    ** Bounds and fuel

    The only recursion that is not structural is the knot of the parachain: its asset
    transactor calls the bridge pallet, which calls the transactor.  The definition is
    cut at a depth; [forwarding_ends] shows that depth 1 is the fixed point.  The
    theorems on decimals assume at most 51 decimals, the limit up to which the powers
    of ten the code computes fit the fixed-point type; the tables of the runtimes stay
    below it.

    ** What is not modelled

    FRAME, cumulus, the Substrate client and the XCM crates themselves: how a barrier
    judges a message, how an executor runs it, how the fee of a transaction is charged and
    how a block is executed are their code; the runtimes only choose their parts and set
    their parameters, which is what [XcmConfig], [FrameParams] and [MockParams] hold.  Type
    aliases and type parameters that only name types of these crates have no counterpart.
    The registration of assets in the tests is left out, since the ledgers of the model do
    not need it.  What runs inside the tasks of a node (networking, consensus, the
    transaction pool) is not in the repository, nor are the relayers and the MPC.  Debug
    assertions of the crates are off, as in a release build. *)

From stdpp Require Export base tactics numbers list list_numbers option gmap strings.
From Stdlib Require Export Ascii ZArith Lia.
From Stdlib Require String.

Declare Scope sygma_scope.
Delimit Scope sygma_scope with sygma.
Open Scope sygma_scope.
Open Scope Z_scope.

(** ** Bytes and machine integers

    A byte is a [Z] in [[0, 256)], a byte string (a [Vec<u8>], a slice or an
    array) a list of bytes.  An integer of width [w] is a [Z] in [[0, 2^w)]. *)

Abbreviation bytes := (list Z) (only parsing).

Definition u8_max : Z := 2 ^ 8 - 1.
Definition u32_max : Z := 2 ^ 32 - 1.
Definition u64_max : Z := 2 ^ 64 - 1.
Definition u128_max : Z := 2 ^ 128 - 1.
Definition u256_max : Z := 2 ^ 256 - 1.
(** The runtime is compiled to wasm32: [usize] has 32 bits there. *)
Definition usize_max : Z := u32_max.

Definition is_u (max z : Z) : Prop := 0 <= z <= max.
Definition is_ub (max z : Z) : bool := (0 <=? z) && (z <=? max).
Definition is_byte (b : Z) : Prop := 0 <= b < 2 ^ 8.

Global Instance is_u_dec max z : Decision (is_u max z).
Proof. unfold is_u. apply _. Defined.
Global Instance is_byte_dec b : Decision (is_byte b).
Proof. unfold is_byte. apply _. Defined.

(** [z as uN] and the wrapping conversions. *)
Definition wrap (w z : Z) : Z := z mod 2 ^ w.
(** [a.saturating_mul(b)] and [a.checked_add(b)] at a maximum. *)
Definition saturating_mul (max a b : Z) : Z := Z.min max (a * b).
Definition checked_add (max a b : Z) : option Z :=
  if a + b <=? max then Some (a + b) else None.
(** [TryFrom] between unsigned widths. *)
Definition try_into (max z : Z) : option Z := if z <=? max then Some z else None.
(** [10u128.saturating_pow(n)] and the like. *)
Definition saturating_pow (max b n : Z) : Z := Z.min max (b ^ n).

(** [b"..."]: the bytes of an ASCII literal. *)
Definition ascii_byte (c : ascii) : Z := Z.of_N (N_of_ascii c).
Definition b_ (s : string) : bytes := ascii_byte <$> String.list_ascii_of_string s.

(** [hex!["..."]]: the bytes of a literal. *)
Definition hex_digit (c : ascii) : Z :=
  let n := ascii_byte c in
  if (48 <=? n) && (n <=? 57) then n - 48
  else if (97 <=? n) && (n <=? 102) then n - 87
  else n - 55.
Fixpoint hex_bytes (ds : list ascii) : bytes :=
  match ds with
  | hi :: lo :: ds => (16 * hex_digit hi + hex_digit lo) :: hex_bytes ds
  | _ => []
  end.
Definition hex (s : string) : bytes := hex_bytes (String.list_ascii_of_string s).

(** Big-endian positional notation on [n] bytes. *)
Definition to_be (n z : Z) : bytes := reverse (Z_to_little_endian n 8 z).
Definition from_be (bs : bytes) : Z := little_endian_to_Z 8 (reverse bs).

Global Arguments to_be : simpl never.
Global Arguments from_be : simpl never.
Global Arguments b_ : simpl never.
Global Arguments hex : simpl never.

(** [data[i..j]] for [i <= j <= data.len()]; callers guard the bounds. *)
Definition slice {A} (i j : nat) (l : list A) : list A := take (j - i) (drop i l).

Lemma to_be_length n z : 0 <= n -> length (to_be n z) = Z.to_nat n.
Proof.
  intros Hn. unfold to_be. rewrite length_reverse.
  pose proof (length_Z_to_little_endian n 8 z Hn). lia.
Qed.

Lemma to_be_bytes n z : 0 <= n -> Forall is_byte (to_be n z).
Proof.
  intros Hn. unfold to_be. apply Forall_reverse.
  eapply Forall_impl; [apply Z_to_little_endian_bound; lia|].
  intros b Hb. exact Hb.
Qed.

Lemma from_be_to_be n z : 0 <= n -> 0 <= z < 2 ^ (n * 8) -> from_be (to_be n z) = z.
Proof.
  intros Hn Hz. unfold from_be, to_be. rewrite reverse_involutive.
  rewrite little_endian_to_Z_to_little_endian by lia. by rewrite Z.mod_small.
Qed.

Lemma to_be_from_be bs :
  Forall is_byte bs -> to_be (Z.of_nat (length bs)) (from_be bs) = bs.
Proof.
  intros Hb. unfold from_be, to_be.
  rewrite Z_to_little_endian_to_Z; [by rewrite reverse_involutive| |lia|].
  - by rewrite length_reverse.
  - by apply Forall_reverse.
Qed.

Lemma from_be_bound bs :
  Forall is_byte bs -> 0 <= from_be bs < 2 ^ (Z.of_nat (length bs) * 8).
Proof.
  intros Hb. unfold from_be. rewrite <- (length_reverse bs).
  apply little_endian_to_Z_bound; [lia|]. by apply Forall_reverse.
Qed.

Lemma from_be_inj bs1 bs2 :
  Forall is_byte bs1 -> Forall is_byte bs2 -> length bs1 = length bs2 ->
  from_be bs1 = from_be bs2 -> bs1 = bs2.
Proof.
  intros H1 H2 Hl He. rewrite <- (to_be_from_be bs1), <- (to_be_from_be bs2) by done.
  congruence.
Qed.

Lemma to_be_inj n z1 z2 :
  0 <= n -> 0 <= z1 < 2 ^ (n * 8) -> 0 <= z2 < 2 ^ (n * 8) ->
  to_be n z1 = to_be n z2 -> z1 = z2.
Proof.
  intros Hn H1 H2 He. rewrite <- (from_be_to_be n z1), <- (from_be_to_be n z2) by done.
  by rewrite He.
Qed.

(** ** Fallible, panicking and stateful code

    Rust code that returns a [Result] or panics has an [outcome]; code that
    reads and writes the chain state is a function [M E S A] from the state to
    an outcome and the state it leaves, on an error too: FRAME storage writes
    made before an [Err] stay unless a storage layer rolls them back. *)

Inductive outcome (E A : Type) : Type :=
| Ok (a : A)
| Err (e : E)
| Panic.
Arguments Ok {E A} a.
Arguments Err {E A} e.
Arguments Panic {E A}.

Definition M (E S A : Type) : Type := S -> outcome E A * S.

Global Instance M_ret {E S} : MRet (M E S) := fun A a s => (Ok a, s).
Global Instance M_bind {E S} : MBind (M E S) := fun A B k m s =>
  match m s with
  | (Ok a, s') => k a s'
  | (Err e, s') => (Err e, s')
  | (Panic, s') => (Panic, s')
  end.

Section Primitives.
Context {E S : Type}.

Definition fail {A} (e : E) : M E S A := fun s => (Err e, s).
Definition panic {A} : M E S A := fun s => (Panic, s).
Definition gets {A} (f : S -> A) : M E S A := fun s => (Ok (f s), s).
Definition modify (f : S -> S) : M E S unit := fun s => (Ok tt, f s).
(** [ensure!(b, e)] *)
Definition ensure (b : bool) (e : E) : M E S unit := if b then mret tt else fail e.
(** [o.ok_or(e)?] *)
Definition ok_or {A} (o : option A) (e : E) : M E S A :=
  match o with Some a => mret a | None => fail e end.
(** A pure computation that may fail or panic. *)
Definition lift {A} (r : outcome E A) : M E S A := fun s => (r, s).
(** [#[transactional]]: the storage written by a call that returns [Err] is rolled back. *)
Definition transactional {A} (m : M E S A) : M E S A := fun s =>
  match m s with
  | (Err e, _) => (Err e, s)
  | r => r
  end.
End Primitives.

(** [m.map_err(f)] *)
Definition map_err {E E' S A} (f : E -> E') (m : M E S A) : M E' S A := fun s =>
  match m s with
  | (Ok a, s') => (Ok a, s')
  | (Err e, s') => (Err (f e), s')
  | (Panic, s') => (Panic, s')
  end.

(** ** Inversion of runs *)

Section Inversion.
Context {E S : Type}.
Implicit Types (s t u : S) (e : E).

Lemma bind_ok {A B} (m : M E S A) (k : A -> M E S B) s a t :
  m s = (Ok a, t) -> (m ≫= k) s = k a t.
Proof. intros H. unfold mbind, M_bind. by rewrite H. Qed.

Lemma bind_err {A B} (m : M E S A) (k : A -> M E S B) s e t :
  m s = (Err e, t) -> (m ≫= k) s = (Err e, t).
Proof. intros H. unfold mbind, M_bind. by rewrite H. Qed.

Lemma bind_ok_inv {A B} (m : M E S A) (k : A -> M E S B) s b u :
  (m ≫= k) s = (Ok b, u) -> exists a t, m s = (Ok a, t) /\ k a t = (Ok b, u).
Proof.
  unfold mbind, M_bind. destruct (m s) as [[a|e|] t] eqn:Hm; naive_solver.
Qed.

(** Two programs agree when they do after every result of their first part. *)
Lemma bind_congr {A B} (m : M E S A) (k1 k2 : A -> M E S B) s :
  (forall a t, m s = (Ok a, t) -> k1 a t = k2 a t) -> (m ≫= k1) s = (m ≫= k2) s.
Proof. intros Hk. unfold mbind, M_bind. destruct (m s) as [[]] eqn:Hm; eauto. Qed.

Lemma ensure_ok_inv b e s r u :
  ensure b e s = (Ok r, u) -> b = true /\ u = s.
Proof. destruct b; unfold ensure, fail, mret, M_ret; naive_solver. Qed.

Lemma ok_or_ok_inv {A} (o : option A) e s a u :
  ok_or o e s = (Ok a, u) -> o = Some a /\ u = s.
Proof. destruct o; unfold ok_or, fail, mret, M_ret; naive_solver. Qed.

Lemma lift_ok_inv {A} (r : outcome E A) s a u :
  lift r s = (Ok a, u) -> r = Ok a /\ u = s.
Proof. unfold lift. naive_solver. Qed.

Lemma transactional_ok_inv {A} (m : M E S A) s a u :
  transactional m s = (Ok a, u) -> m s = (Ok a, u).
Proof. unfold transactional. destruct (m s) as [[]]; naive_solver. Qed.

Lemma transactional_ok {A} (m : M E S A) s a u :
  m s = (Ok a, u) -> transactional m s = (Ok a, u).
Proof. unfold transactional. by intros ->. Qed.

Lemma bind_cases {A B} (m : M E S A) (k : A -> M E S B) s r u :
  (m ≫= k) s = (r, u) ->
  (exists a t, m s = (Ok a, t) /\ k a t = (r, u)) \/
  (exists e, m s = (Err e, u) /\ r = Err e) \/ (m s = (Panic, u) /\ r = Panic).
Proof.
  unfold mbind, M_bind. destruct (m s) as [[a|e|] t] eqn:Hm; naive_solver.
Qed.

Lemma transactional_err {A} (m : M E S A) s e u :
  transactional m s = (Err e, u) -> u = s.
Proof. unfold transactional. destruct (m s) as [[]]; naive_solver. Qed.
End Inversion.

(** A run by its result and its final state, so that a concrete result can be computed
    without computing the state. *)
Lemma run_result {R S} (run : R * S) r : run.1 = r -> run = (r, run.2).
Proof. by destruct run; intros <-. Qed.

Lemma map_err_ok_inv {E E' S A} (f : E -> E') (m : M E S A) s a u :
  map_err f m s = (Ok a, u) -> m s = (Ok a, u).
Proof. unfold map_err. destruct (m s) as [[]]; naive_solver. Qed.

(** [inv_run H] breaks a hypothesis [H : m s = (Ok a, s')] into the successful
    runs of its parts. *)
Ltac inv_run_step H :=
  lazymatch type of H with
  | (mbind _ _) _ = (Ok _, _) =>
      let a := fresh "a" in let t := fresh "t" in let H1 := fresh "Hrun" in
      apply bind_ok_inv in H as (a & t & H1 & H); inv_run_step H1
  | ensure _ _ _ = (Ok _, _) =>
      let Hu := fresh in apply ensure_ok_inv in H as [H Hu]; subst
  | ok_or _ _ _ = (Ok _, _) =>
      let Hu := fresh in apply ok_or_ok_inv in H as [H Hu]; subst
  | lift _ _ = (Ok _, _) =>
      let Hu := fresh in apply lift_ok_inv in H as [H Hu]; subst
  | (match ?p with pair _ _ => _ end) _ = (Ok _, _) => destruct p; simpl in H
  | transactional _ _ = (Ok _, _) => apply transactional_ok_inv in H; inv_run_step H
  | map_err _ _ _ = (Ok _, _) => apply map_err_ok_inv in H
  | gets _ _ = (Ok _, _) => unfold gets in H; simplify_eq
  | modify _ _ = (Ok _, _) => unfold modify in H; simplify_eq
  | mret _ _ = (Ok _, _) => unfold mret, M_ret in H; simplify_eq
  | _ => idtac
  end.
Ltac inv_run H := repeat (progress inv_run_step H);
  repeat match goal with u : unit |- _ => destruct u end.

(** [run] evaluates the monad's primitives in the goal. *)
Ltac run := cbv beta delta [mbind M_bind mret M_ret gets modify ensure ok_or fail
  panic lift transactional map_err] iota.
