(* ===== verification/Xcm.v ===== *)
(** * The XCM vocabulary the pallets speak

    The data of the [xcm] crate (not under [src/]) as the sources construct and
    match it: locations, junctions, assets.  Variants the sources never name are
    kept apart under one [Other*] constructor each.  The crate's functions are
    parameters: the classes at the end state the documented behaviour of the
    ones the sources call. *)

From S2P Require Import Prelude.

Inductive NetworkId := Polkadot | OtherNetwork (code : Z).
Inductive BodyId := Executive | Defense | OtherBody (code : Z).

Inductive Junction :=
| Parachain (id : Z)
| AccountId32 (network : option NetworkId) (id : bytes)
| AccountKey20 (network : option NetworkId) (key : bytes)
| PalletInstance (index : Z)
| GeneralIndex (index : Z)
| GeneralKey (length : Z) (data : bytes)
| Plurality (id : BodyId) (part : Z)
| OtherJunction (code : Z).

Inductive Junctions :=
| Here
| X1 (a : Junction)
| X2 (a b : Junction)
| X3 (a b c : Junction)
| X4 (a b c d : Junction)
| X5 (a b c d e : Junction)
| X6 (a b c d e f : Junction)
| X7 (a b c d e f g : Junction)
| X8 (a b c d e f g h : Junction).

Record MultiLocation := ML { parents : Z; interior : Junctions }.

Inductive AssetId := Concrete (l : MultiLocation) | Abstract (data : bytes).
Inductive Fungibility := Fungible (amount : Z) | NonFungible (inst : Z).
Record MultiAsset := MA { asset_id : AssetId; asset_fun : Fungibility }.

(** [XcmError]: the variant the sources build, and the others. *)
Inductive XcmError := FailedToTransactAsset (msg : bytes) | OtherXcmError (code : Z).

(** [MultiLocation::here()], [::parent()] and the [From] conversions. *)
Definition loc_here : MultiLocation := ML 0 Here.
Definition loc_parent : MultiLocation := ML 1 Here.
Definition loc_of_junction (j : Junction) : MultiLocation := ML 0 (X1 j).
Definition loc_of_account (id : bytes) : MultiLocation :=
  loc_of_junction (AccountId32 None id).
Definition asset_of (id : AssetId) (amount : Z) : MultiAsset := MA id (Fungible amount).

Definition junctions_list (js : Junctions) : list Junction :=
  match js with
  | Here => []
  | X1 a => [a]
  | X2 a b => [a; b]
  | X3 a b c => [a; b; c]
  | X4 a b c d => [a; b; c; d]
  | X5 a b c d e => [a; b; c; d; e]
  | X6 a b c d e f => [a; b; c; d; e; f]
  | X7 a b c d e f g => [a; b; c; d; e; f; g]
  | X8 a b c d e f g h => [a; b; c; d; e; f; g; h]
  end.

Definition list_junctions (l : list Junction) : Junctions :=
  match l with
  | [] => Here
  | [a] => X1 a
  | [a; b] => X2 a b
  | [a; b; c] => X3 a b c
  | [a; b; c; d] => X4 a b c d
  | [a; b; c; d; e] => X5 a b c d e
  | [a; b; c; d; e; f] => X6 a b c d e f
  | [a; b; c; d; e; f; g] => X7 a b c d e f g
  | a :: b :: c :: d :: e :: f :: g :: h :: _ => X8 a b c d e f g h
  end.

Lemma list_junctions_list js : list_junctions (junctions_list js) = js.
Proof. by destruct js. Qed.

(** ** Decidable equality and countability: storage maps are keyed by assets *)

Global Instance NetworkId_eq_dec : EqDecision NetworkId.
Proof. solve_decision. Defined.
Global Instance BodyId_eq_dec : EqDecision BodyId.
Proof. solve_decision. Defined.
Global Instance Junction_eq_dec : EqDecision Junction.
Proof. solve_decision. Defined.
Global Instance Junctions_eq_dec : EqDecision Junctions.
Proof. solve_decision. Defined.
Global Instance MultiLocation_eq_dec : EqDecision MultiLocation.
Proof. solve_decision. Defined.
Global Instance AssetId_eq_dec : EqDecision AssetId.
Proof. solve_decision. Defined.
Global Instance Fungibility_eq_dec : EqDecision Fungibility.
Proof. solve_decision. Defined.
Global Instance MultiAsset_eq_dec : EqDecision MultiAsset.
Proof. solve_decision. Defined.
Global Instance XcmError_eq_dec : EqDecision XcmError.
Proof. solve_decision. Defined.

Global Instance NetworkId_countable : Countable NetworkId.
Proof.
  refine (inj_countable'
    (fun n => match n with Polkadot => inl tt | OtherNetwork c => inr c end)
    (fun s => match s with inl _ => Polkadot | inr c => OtherNetwork c end) _).
  by intros [].
Defined.

Global Instance BodyId_countable : Countable BodyId.
Proof.
  refine (inj_countable'
    (fun n => match n with
      Executive => inl true | Defense => inl false | OtherBody c => inr c end)
    (fun s => match s with
      inl true => Executive | inl false => Defense | inr c => OtherBody c end) _).
  by intros [].
Defined.

Global Instance Junction_countable : Countable Junction.
Proof.
  refine (inj_countable'
    (fun j => match j with
     | Parachain i => inl (inl (inl i))
     | PalletInstance i => inl (inl (inr i))
     | GeneralIndex i => inl (inr (inl i))
     | OtherJunction i => inl (inr (inr i))
     | AccountId32 n i => inr (inl (inl (n, i)))
     | AccountKey20 n i => inr (inl (inr (n, i)))
     | GeneralKey n i => inr (inr (inl (n, i)))
     | Plurality n i => inr (inr (inr (n, i)))
     end)
    (fun s => match s with
     | inl (inl (inl i)) => Parachain i
     | inl (inl (inr i)) => PalletInstance i
     | inl (inr (inl i)) => GeneralIndex i
     | inl (inr (inr i)) => OtherJunction i
     | inr (inl (inl (n, i))) => AccountId32 n i
     | inr (inl (inr (n, i))) => AccountKey20 n i
     | inr (inr (inl (n, i))) => GeneralKey n i
     | inr (inr (inr (n, i))) => Plurality n i
     end) _).
  by intros [].
Defined.

Global Instance Junctions_countable : Countable Junctions.
Proof. exact (inj_countable' junctions_list list_junctions list_junctions_list). Defined.

Global Instance MultiLocation_countable : Countable MultiLocation.
Proof.
  refine (inj_countable' (fun l => (parents l, interior l)) (fun p => ML p.1 p.2) _).
  by intros [].
Defined.

Global Instance AssetId_countable : Countable AssetId.
Proof.
  refine (inj_countable'
    (fun a => match a with Concrete l => inl l | Abstract d => inr d end)
    (fun s => match s with inl l => Concrete l | inr d => Abstract d end) _).
  by intros [].
Defined.

(** ** Well-formed values: the ranges the Rust types enforce *)

Definition is_array (n : nat) (d : bytes) : Prop := length d = n /\ Forall is_byte d.
Global Instance is_array_dec n d : Decision (is_array n d).
Proof. unfold is_array. apply _. Defined.

Definition junction_wf (j : Junction) : Prop :=
  match j with
  | Parachain i => is_u u32_max i
  | AccountId32 _ d => is_array 32 d
  | AccountKey20 _ d => is_array 20 d
  | PalletInstance i => is_u u8_max i
  | GeneralIndex i => is_u u128_max i
  | GeneralKey n d => is_u u8_max n /\ is_array 32 d
  | Plurality _ _ | OtherJunction _ => True
  end.

Global Instance junction_wf_dec j : Decision (junction_wf j).
Proof. destruct j; simpl; apply _. Defined.

Definition location_wf (l : MultiLocation) : Prop :=
  is_u u8_max (parents l) /\ Forall junction_wf (junctions_list (interior l)).

Global Instance location_wf_dec l : Decision (location_wf l).
Proof. unfold location_wf. apply _. Defined.

(** ** Functions of the crates *)

(** [MultiLocation::first_interior] and [Junctions::split_first]. *)
Class XcmLocations := {
  first_interior : MultiLocation -> option Junction;
  split_first : Junctions -> Junctions * option Junction;
  first_interior_spec l : first_interior l = head (junctions_list (interior l));
  split_first_spec js :
    junctions_list (split_first js).1 = tail (junctions_list js) /\
    (split_first js).2 = head (junctions_list js)
}.

(** SCALE: [Encode] and [Decode] of a location.  [decode] reads a location from
    the front of its input and leaves the rest unread. *)
Class LocationCodec := {
  loc_encode : MultiLocation -> bytes;
  loc_decode : bytes -> option MultiLocation;
  loc_decode_encode l rest :
    location_wf l -> loc_decode (loc_encode l ++ rest) = Some l
}.

(** [MultiAsset::reanchored(target, context)]. *)
Class XcmReanchor := {
  reanchored : MultiAsset -> MultiLocation -> Junctions -> option MultiAsset
}.

Lemma split_first_rest `{XcmLocations} (js : Junctions) :
  (split_first js).1 = list_junctions (tail (junctions_list js)).
Proof.
  destruct (split_first_spec js) as [Hl _]. by rewrite <- Hl, list_junctions_list.
Qed.
