(* ===== verification/Frame.v ===== *)
(** * The runtime's shared data: origins, errors, events and storage

    The type aliases and enums of [traits/src/lib.rs] and of the pallets
    ([#[pallet::error]], [#[pallet::event]], [#[pallet::storage]]), the sums
    [construct_runtime!] builds from them, and the chain state all pallets share. *)

From S2P Require Import Prelude Xcm.

(** ** [traits/src/lib.rs] *)

Abbreviation DomainID := Z (only parsing).      (* u8 *)
Abbreviation DepositNonce := Z (only parsing).  (* u64 *)
Abbreviation ResourceId := bytes (only parsing).   (* [u8; 32] *)
Abbreviation ChainID := Z (only parsing).       (* U256 *)
Abbreviation MpcAddress := bytes (only parsing).   (* [u8; 20] *)
(** [AccountId: From<[u8; 32]> + Into<[u8; 32]>]: an account is its 32 bytes. *)
Abbreviation AccountId := bytes (only parsing).

Inductive TransferType := FungibleTransfer | NonFungibleTransfer | GenericTransfer.

(** [MpcAddress::default()], and [Clear::is_clear]: equality with the default. *)
Definition mpc_default : MpcAddress := replicate 20 0.
Definition is_clear (a : MpcAddress) : bool := bool_decide (a = mpc_default).

(** [Weight]: reference time and proof size. *)
Record Weight := from_parts { ref_time : Z; proof_size : Z }.

(** ** Origins *)

Inductive RawOrigin := Root | Signed (who : AccountId) | OtherOrigin (code : Z).

(** [ensure_signed(origin)] *)
Definition ensure_signed (o : RawOrigin) : option AccountId :=
  match o with Signed who => Some who | _ => None end.

(** ** Errors *)

Inductive AccessError := AccessUnimplemented | GrantAccessFailed.
Inductive BasicFeeError := BasicUnimplemented | BasicAccessDenied.
Inductive PercentageFeeError :=
  PercentageUnimplemented | PercentageAccessDenied | FeeRateOutOfRange | InvalidFeeBound.
Inductive RouterError := RouterAccessDenied | RouterUnimplemented.
Inductive XcmBridgeError :=
  FailToWeightMessage | XcmExecutionFailed | InvalidDestination | UnknownTransferType
| CannotReanchor | NoXcmMinFeeSet | AssetReservedLocationNotFound.
Inductive BridgeError :=
  AccessDenied | BadMpcSignature | InsufficientBalance | TransactFailed | FeeTooExpensive
| MissingMpcAddress | MpcAddrNotUpdatable | ErrBridgePaused | ErrBridgeUnpaused
| MissingFeeConfig | AssetNotBound | ProposalAlreadyComplete | EmptyProposalList
| TransactorFailed | InvalidDepositData | DestDomainNotSupported | DestChainIDNotMatch
| ExtractDestDataFailed | DecimalConversionFail | DepositNonceOverflow
| NoLiquidityHolderAccountBound | BridgeUnimplemented.

Inductive DispatchError :=
| BadOrigin
| ModAccess (e : AccessError)
| ModBasicFee (e : BasicFeeError)
| ModPercentageFee (e : PercentageFeeError)
| ModRouter (e : RouterError)
| ModBridge (e : BridgeError)
| ModXcmBridge (e : XcmBridgeError)
| OtherDispatch (code : Z).

Global Instance AccessError_eq_dec : EqDecision AccessError.
Proof. solve_decision. Defined.
Global Instance BasicFeeError_eq_dec : EqDecision BasicFeeError.
Proof. solve_decision. Defined.
Global Instance PercentageFeeError_eq_dec : EqDecision PercentageFeeError.
Proof. solve_decision. Defined.
Global Instance RouterError_eq_dec : EqDecision RouterError.
Proof. solve_decision. Defined.
Global Instance XcmBridgeError_eq_dec : EqDecision XcmBridgeError.
Proof. solve_decision. Defined.
Global Instance BridgeError_eq_dec : EqDecision BridgeError.
Proof. solve_decision. Defined.
Global Instance DispatchError_eq_dec : EqDecision DispatchError.
Proof. solve_decision. Defined.

(** ** Events *)

Inductive FeeHandlerType := BasicFeeHandler | PercentageFeeHandler | DynamicFeeHandler.

Inductive AccessEvent :=
| AccessGranted (pallet_index : Z) (extrinsic_name : bytes) (who : AccountId).
Inductive BasicFeeEvent :=
| FeeSet (domain : DomainID) (asset : AssetId) (amount : Z).
Inductive PercentageFeeEvent :=
| FeeRateSet (domain : DomainID) (asset : AssetId)
    (rate_basis_point fee_lower_bound fee_upper_bound : Z).
Inductive RouterEvent :=
| FeeHandlerSet (domain : DomainID) (asset : AssetId) (handler_type : FeeHandlerType).
Inductive XcmBridgeEvent :=
| XCMTransferSend (asset : MultiAsset) (origin dest : MultiLocation).
Inductive ForwarderEvent :=
| XCMTransferForward (asset : MultiAsset) (origin dest : MultiLocation)
| OtherWorldTransferForward (asset : MultiAsset) (origin dest : MultiLocation).

Inductive BridgeEvent :=
| Deposit (dest_domain_id : DomainID) (resource_id : ResourceId) (deposit_nonce : DepositNonce)
    (sender : AccountId) (transfer_type : TransferType)
    (deposit_data handler_response : bytes)
| ProposalExecution (origin_domain_id : DomainID) (deposit_nonce : DepositNonce)
    (data_hash : bytes)
| FailedHandlerExecution (error : bytes) (origin_domain_id : DomainID)
    (deposit_nonce : DepositNonce)
| Retry (deposit_on_block_height : Z) (dest_domain_id : DomainID) (sender : AccountId)
| BridgePaused (dest_domain_id : DomainID)
| BridgeUnpaused (dest_domain_id : DomainID)
| RegisterDestDomain (sender : AccountId) (domain_id : DomainID) (chain_id : ChainID)
| UnregisterDestDomain (sender : AccountId) (domain_id : DomainID) (chain_id : ChainID)
| FeeCollected (fee_payer : AccountId) (dest_domain_id : DomainID) (resource_id : ResourceId)
    (fee_amount : Z) (fee_asset_id : AssetId)
| AllBridgePaused (sender : AccountId)
| AllBridgeUnpaused (sender : AccountId).

Inductive RuntimeEvent :=
| EvAccess (e : AccessEvent)
| EvBasicFee (e : BasicFeeEvent)
| EvPercentageFee (e : PercentageFeeEvent)
| EvRouter (e : RouterEvent)
| EvBridge (e : BridgeEvent)
| EvXcmBridge (e : XcmBridgeEvent)
| EvForwarder (e : ForwarderEvent)
| EvOther (code : Z).

Global Instance FeeHandlerType_eq_dec : EqDecision FeeHandlerType.
Proof. solve_decision. Defined.
Global Instance TransferType_eq_dec : EqDecision TransferType.
Proof. solve_decision. Defined.
Global Instance BridgeEvent_eq_dec : EqDecision BridgeEvent.
Proof. solve_decision. Defined.
Global Instance AccessEvent_eq_dec : EqDecision AccessEvent.
Proof. solve_decision. Defined.
Global Instance BasicFeeEvent_eq_dec : EqDecision BasicFeeEvent.
Proof. solve_decision. Defined.
Global Instance PercentageFeeEvent_eq_dec : EqDecision PercentageFeeEvent.
Proof. solve_decision. Defined.
Global Instance RouterEvent_eq_dec : EqDecision RouterEvent.
Proof. solve_decision. Defined.
Global Instance XcmBridgeEvent_eq_dec : EqDecision XcmBridgeEvent.
Proof. solve_decision. Defined.
Global Instance ForwarderEvent_eq_dec : EqDecision ForwarderEvent.
Proof. solve_decision. Defined.
Global Instance RuntimeEvent_eq_dec : EqDecision RuntimeEvent.
Proof. solve_decision. Defined.

(** ** Storage

    A [StorageMap] is a finite map; with [ValueQuery] a missing key reads as the
    default of its type.  [ledger] stands for the state of the pallets that hold
    the assets (balances, assets, message queues), which are not under [src/]. *)

Record BridgeStorage := {
  DepositCounts : gmap DomainID DepositNonce;
  IsPaused : gmap DomainID bool;
  MpcAddr : MpcAddress;
  UsedNonces : gmap (DomainID * Z) Z;
  DestDomainIds : gmap DomainID bool;
  DestChainIds : gmap DomainID ChainID;
  BridgeStorageVersion : Z
}.

Record World (L : Type) := {
  ExtrinsicAccess : gmap (Z * bytes) AccountId;
  AssetFees : gmap (DomainID * AssetId) Z;
  AssetFeeRate : gmap (DomainID * AssetId) (Z * Z * Z);
  HandlerType : gmap (DomainID * AssetId) FeeHandlerType;
  ParachainId : option Z;
  bridge : BridgeStorage;
  events : list RuntimeEvent;
  ledger : L
}.
Arguments ExtrinsicAccess {L}.
Arguments AssetFees {L}.
Arguments AssetFeeRate {L}.
Arguments HandlerType {L}.
Arguments ParachainId {L}.
Arguments bridge {L}.
Arguments events {L}.
Arguments ledger {L}.

(** [get] of a [ValueQuery] map. *)
Definition get_or {K V} `{Countable K} (d : V) (m : gmap K V) (k : K) : V :=
  default d (m !! k).

Section Writes.
Context {L : Type}.
Implicit Type w : World L.

Definition set_access (f : gmap (Z * bytes) AccountId -> gmap (Z * bytes) AccountId) w :=
  {| ExtrinsicAccess := f (ExtrinsicAccess w); AssetFees := AssetFees w;
     AssetFeeRate := AssetFeeRate w; HandlerType := HandlerType w;
     ParachainId := ParachainId w; bridge := bridge w; events := events w;
     ledger := ledger w |}.
Definition set_fees (f : gmap (DomainID * AssetId) Z -> gmap (DomainID * AssetId) Z) w :=
  {| ExtrinsicAccess := ExtrinsicAccess w; AssetFees := f (AssetFees w);
     AssetFeeRate := AssetFeeRate w; HandlerType := HandlerType w;
     ParachainId := ParachainId w; bridge := bridge w; events := events w;
     ledger := ledger w |}.
Definition set_rates
    (f : gmap (DomainID * AssetId) (Z * Z * Z) -> gmap (DomainID * AssetId) (Z * Z * Z)) w :=
  {| ExtrinsicAccess := ExtrinsicAccess w; AssetFees := AssetFees w;
     AssetFeeRate := f (AssetFeeRate w); HandlerType := HandlerType w;
     ParachainId := ParachainId w; bridge := bridge w; events := events w;
     ledger := ledger w |}.
Definition set_handlers
    (f : gmap (DomainID * AssetId) FeeHandlerType ->
         gmap (DomainID * AssetId) FeeHandlerType) w :=
  {| ExtrinsicAccess := ExtrinsicAccess w; AssetFees := AssetFees w;
     AssetFeeRate := AssetFeeRate w; HandlerType := f (HandlerType w);
     ParachainId := ParachainId w; bridge := bridge w; events := events w;
     ledger := ledger w |}.
Definition set_parachain_id (i : option Z) w :=
  {| ExtrinsicAccess := ExtrinsicAccess w; AssetFees := AssetFees w;
     AssetFeeRate := AssetFeeRate w; HandlerType := HandlerType w;
     ParachainId := i; bridge := bridge w; events := events w;
     ledger := ledger w |}.
Definition set_bridge (f : BridgeStorage -> BridgeStorage) w :=
  {| ExtrinsicAccess := ExtrinsicAccess w; AssetFees := AssetFees w;
     AssetFeeRate := AssetFeeRate w; HandlerType := HandlerType w;
     ParachainId := ParachainId w; bridge := f (bridge w); events := events w;
     ledger := ledger w |}.
Definition add_event (e : RuntimeEvent) w :=
  {| ExtrinsicAccess := ExtrinsicAccess w; AssetFees := AssetFees w;
     AssetFeeRate := AssetFeeRate w; HandlerType := HandlerType w;
     ParachainId := ParachainId w; bridge := bridge w; events := events w ++ [e];
     ledger := ledger w |}.
Definition set_ledger (l : L) w :=
  {| ExtrinsicAccess := ExtrinsicAccess w; AssetFees := AssetFees w;
     AssetFeeRate := AssetFeeRate w; HandlerType := HandlerType w;
     ParachainId := ParachainId w; bridge := bridge w; events := events w;
     ledger := l |}.

(** [Self::deposit_event(e)] *)
Definition deposit_event {E} (e : RuntimeEvent) : M E (World L) unit :=
  modify (add_event e).
End Writes.

Definition set_counts f (b : BridgeStorage) : BridgeStorage :=
  {| DepositCounts := f (DepositCounts b); IsPaused := IsPaused b; MpcAddr := MpcAddr b;
     UsedNonces := UsedNonces b; DestDomainIds := DestDomainIds b;
     DestChainIds := DestChainIds b; BridgeStorageVersion := BridgeStorageVersion b |}.
Definition set_paused f (b : BridgeStorage) : BridgeStorage :=
  {| DepositCounts := DepositCounts b; IsPaused := f (IsPaused b); MpcAddr := MpcAddr b;
     UsedNonces := UsedNonces b; DestDomainIds := DestDomainIds b;
     DestChainIds := DestChainIds b; BridgeStorageVersion := BridgeStorageVersion b |}.
Definition set_mpc a (b : BridgeStorage) : BridgeStorage :=
  {| DepositCounts := DepositCounts b; IsPaused := IsPaused b; MpcAddr := a;
     UsedNonces := UsedNonces b; DestDomainIds := DestDomainIds b;
     DestChainIds := DestChainIds b; BridgeStorageVersion := BridgeStorageVersion b |}.
Definition set_used f (b : BridgeStorage) : BridgeStorage :=
  {| DepositCounts := DepositCounts b; IsPaused := IsPaused b; MpcAddr := MpcAddr b;
     UsedNonces := f (UsedNonces b); DestDomainIds := DestDomainIds b;
     DestChainIds := DestChainIds b; BridgeStorageVersion := BridgeStorageVersion b |}.
Definition set_domains f g (b : BridgeStorage) : BridgeStorage :=
  {| DepositCounts := DepositCounts b; IsPaused := IsPaused b; MpcAddr := MpcAddr b;
     UsedNonces := UsedNonces b; DestDomainIds := f (DestDomainIds b);
     DestChainIds := g (DestChainIds b); BridgeStorageVersion := BridgeStorageVersion b |}.
Definition set_version v (b : BridgeStorage) : BridgeStorage :=
  {| DepositCounts := DepositCounts b; IsPaused := IsPaused b; MpcAddr := MpcAddr b;
     UsedNonces := UsedNonces b; DestDomainIds := DestDomainIds b;
     DestChainIds := DestChainIds b; BridgeStorageVersion := v |}.

Definition empty_bridge : BridgeStorage :=
  {| DepositCounts := ∅; IsPaused := ∅; MpcAddr := mpc_default; UsedNonces := ∅;
     DestDomainIds := ∅; DestChainIds := ∅; BridgeStorageVersion := 0 |}.

(** The state of a chain whose pallets have stored nothing. *)
Definition empty_world {L} (l : L) : World L :=
  {| ExtrinsicAccess := ∅; AssetFees := ∅; AssetFeeRate := ∅; HandlerType := ∅;
     ParachainId := None; bridge := empty_bridge; events := []; ledger := l |}.

(** [bridge] as pallet code writes it: one storage item at a time. *)
Definition bget {E L A} (f : BridgeStorage -> A) : M E (World L) A :=
  gets (fun w => f (bridge w)).
Definition bset {E L} (f : BridgeStorage -> BridgeStorage) : M E (World L) unit :=
  modify (set_bridge f).

(** [inv_frame H]: [inv_run] through the storage accessors. *)
Ltac inv_frame H := unfold bget, bset, deposit_event in H; inv_run H.
(** [run_frame]: [run] through the storage accessors. *)
Ltac run_frame := unfold bget, bset, deposit_event; run.
