(* ===== verification/Traits.v ===== *)
(** * The interfaces between the pallets

    The traits of [traits/src/lib.rs], and the two traits of the XCM crates the
    pallets are configured with ([TransactAsset], [ContainsPair]), as classes over
    the shared state.  A client's theorems are proved against these; the files of
    the implementing components give the instances. *)

From S2P Require Import Prelude Xcm Frame.

Section Traits.
Context (L : Type).
Abbreviation W := (World L).

(** [ExtractDestinationData] *)
Class ExtractDestinationData := {
  extract_dest : MultiLocation -> outcome DispatchError (option (bytes * DomainID))
}.

(** [FeeHandler]: the fee is read from the storage of the handler's pallet. *)
Class FeeHandler := {
  get_fee : W -> DomainID -> MultiAsset -> option Z
}.

(** [DecimalConverter] *)
Class DecimalConverter := {
  convert_to : MultiAsset -> outcome DispatchError (option Z);
  convert_from : MultiAsset -> outcome DispatchError (option MultiAsset)
}.

(** [AssetTypeIdentifier] *)
Class AssetTypeIdentifier := {
  is_native_asset : W -> MultiAsset -> bool
}.

(** [TransactorForwarder] *)
Class TransactorForwarder := {
  xcm_transactor_forwarder : bytes -> MultiAsset -> MultiLocation -> M DispatchError W unit;
  other_world_transactor_forwarder :
    bytes -> MultiAsset -> MultiLocation -> M DispatchError W unit
}.

(** [Bridge] *)
Class Bridge := {
  transfer : bytes -> MultiAsset -> MultiLocation -> option Weight -> M DispatchError W unit
}.

(** [AssetReserveLocationParser] *)
Class AssetReserveLocationParser := {
  reserved_location : MultiAsset -> option MultiLocation
}.

(** [ContainsPair<MultiAsset, MultiLocation>] of frame-support. *)
Class ContainsPair := {
  contains : MultiAsset -> MultiLocation -> bool
}.

(** [TransactAsset] of the XCM executor: what, who, and the message id of the
    [XcmContext].  [withdraw_asset] returns the assets taken out of the ledger. *)
Class TransactAsset := {
  withdraw_asset :
    MultiAsset -> MultiLocation -> option bytes -> M XcmError W (list MultiAsset);
  deposit_asset : MultiAsset -> MultiLocation -> bytes -> M XcmError W unit
}.
End Traits.
Arguments get_fee {L _}.
Arguments is_native_asset {L _}.
Arguments xcm_transactor_forwarder {L _}.
Arguments other_world_transactor_forwarder {L _}.
Arguments transfer {L _}.
Arguments withdraw_asset {L _}.
Arguments deposit_asset {L _}.

(** [impl FeeHandler for ()] *)
Definition unit_fee_handler {L} : FeeHandler L := {| get_fee _ _ _ := None |}.

(** [XcmContext::with_message_id([0; 32])] *)
Definition no_message : bytes := replicate 32 0.
