(* ===== verification/AccessSegregator.v ===== *)
(** * The access segregator pallet ([access-segregator/src/lib.rs])

    One account may hold the right to call one registered extrinsic; the bridge
    committee may call all of them. *)

From S2P Require Import Prelude Xcm Frame Traits.

(** [Config] of the pallet: [BridgeCommitteeOrigin], [PalletIndex], [Extrinsics]. *)
Class AccessConfig := {
  bridge_committee_origin : RawOrigin -> bool;
  access_pallet_index : Z;
  extrinsics : list (Z * bytes)
}.

Section AccessSegregator.
Context {L : Type} `{AccessConfig}.
Abbreviation W := (World L).
Implicit Types (w : W) (origin : RawOrigin) (idx : Z) (name : bytes).

Definition has_registered (pallet_index : Z) (extrinsic_name : bytes) : bool :=
  existsb (fun e => bool_decide (e = (pallet_index, extrinsic_name))) extrinsics.

Definition has_access w (pallet_index : Z) (extrinsic_name : bytes)
    (origin : RawOrigin) : bool :=
  if bridge_committee_origin origin then true else
  match ensure_signed origin with
  | None => false
  | Some caller =>
      has_registered pallet_index extrinsic_name &&
      match ExtrinsicAccess w !! (pallet_index, extrinsic_name) with
      | Some who => bool_decide (who = caller)
      | None => false
      end
  end.

Definition grant_access (origin : RawOrigin) (pallet_index : Z)
    (extrinsic_name : bytes) (who : AccountId) : M DispatchError W unit :=
  allowed ← gets (fun w => has_access w access_pallet_index (b_ "grant_access") origin);
  ensure allowed (ModAccess GrantAccessFailed);;
  modify (set_access <[(pallet_index, extrinsic_name) := who]>);;
  deposit_event (EvAccess (AccessGranted pallet_index extrinsic_name who)).

Lemma has_registered_spec idx name :
  has_registered idx name = true <-> (idx, name) ∈ extrinsics.
Proof.
  unfold has_registered. rewrite existsb_exists. split.
  - intros (e & He & Hd). apply bool_decide_eq_true in Hd as ->. by apply list_elem_of_In.
  - intros He. exists (idx, name). rewrite <- list_elem_of_In. split; [done|].
    by apply bool_decide_eq_true.
Qed.

(** Who may call a guarded extrinsic: the committee, or the one account the
    extrinsic was granted to, provided the runtime registers the extrinsic. *)
Definition may_call w idx name origin : Prop :=
  bridge_committee_origin origin = true \/
  exists who, origin = Signed who /\ (idx, name) ∈ extrinsics /\
              ExtrinsicAccess w !! (idx, name) = Some who.

Lemma has_access_may_call w idx name origin :
  has_access w idx name origin = true <-> may_call w idx name origin.
Proof.
  unfold has_access, may_call. destruct (bridge_committee_origin origin) eqn:Hc.
  - split; [by left|done].
  - destruct origin as [|caller|c]; simpl; try (split; [done|intros [?|(?&?&?)]; done]).
    rewrite andb_true_iff, has_registered_spec. split.
    + intros [Hr Hm]. right. exists caller.
      destruct (ExtrinsicAccess w !! _); [|done].
      apply bool_decide_eq_true in Hm as ->. done.
    + intros [?|(who & [= <-] & Hr & Hm)]; [done|]. rewrite Hm.
      by rewrite bool_decide_eq_true_2.
Qed.

Global Instance may_call_dec w idx name origin : Decision (may_call w idx name origin).
Proof.
  destruct (has_access w idx name origin) eqn:Ha.
  - left. by apply has_access_may_call.
  - right. rewrite <- has_access_may_call. by rewrite Ha.
Defined.

(** The guard reads the pallet's own storage and nothing else. *)
Lemma has_access_ext w w' idx name origin :
  ExtrinsicAccess w' = ExtrinsicAccess w ->
  has_access w' idx name origin = has_access w idx name origin.
Proof. intros He. unfold has_access. by rewrite He. Qed.

Lemma grant_access_run origin idx name who w :
  grant_access origin idx name who w =
  if has_access w access_pallet_index (b_ "grant_access") origin
  then (Ok tt, add_event (EvAccess (AccessGranted idx name who))
                 (set_access <[(idx, name) := who]> w))
  else (Err (ModAccess GrantAccessFailed), w).
Proof. unfold grant_access. run. by destruct (has_access _ _ _ _). Qed.
End AccessSegregator.
