(* ===== verification/BasicFeeHandler.v ===== *)
(** * The basic fee handler pallet ([basic-fee-handler/src/lib.rs])

    A flat fee per destination domain and asset. *)

From S2P Require Import Prelude Xcm Frame Traits AccessSegregator.

(** [Config] of the pallet: [PalletIndex]. *)
Class BasicFeeConfig := { basic_pallet_index : Z }.

Section BasicFeeHandler.
Context {L : Type} `{AccessConfig} `{BasicFeeConfig}.
Abbreviation W := (World L).
Implicit Types (w : W) (origin : RawOrigin).

Definition set_fee (origin : RawOrigin) (domain : DomainID) (asset : AssetId)
    (amount : Z) : M DispatchError W unit :=
  allowed ← gets (fun w => has_access w basic_pallet_index (b_ "set_fee") origin);
  ensure allowed (ModBasicFee BasicAccessDenied);;
  modify (set_fees <[(domain, asset) := amount]>);;
  deposit_event (EvBasicFee (FeeSet domain asset amount)).

(** [FeeHandler for Pallet<T>] *)
Definition basic_get_fee w (domain : DomainID) (asset : MultiAsset) : option Z :=
  AssetFees w !! (domain, asset_id asset).

Definition basic_fee_handler : FeeHandler L := {| get_fee := basic_get_fee |}.

Lemma set_fee_run origin d a amount w :
  set_fee origin d a amount w =
  if has_access w basic_pallet_index (b_ "set_fee") origin
  then (Ok tt, add_event (EvBasicFee (FeeSet d a amount))
                 (set_fees <[(d, a) := amount]> w))
  else (Err (ModBasicFee BasicAccessDenied), w).
Proof. unfold set_fee. run. by destruct (has_access _ _ _ _). Qed.
End BasicFeeHandler.
