(* ===== verification/PercentageFeeHandler.v ===== *)
(** * The percentage fee handler pallet ([percentage-fee-handler/src/lib.rs])

    A fee rate in basis points per destination domain and asset, clamped to a
    stored interval.  The product saturates at [u128::MAX]. *)

From S2P Require Import Prelude Xcm Frame Traits AccessSegregator.

(** [Config] of the pallet: [PalletIndex]. *)
Class PercentageFeeConfig := { percentage_pallet_index : Z }.

Section PercentageFeeHandler.
Context {L : Type} `{AccessConfig} `{PercentageFeeConfig}.
Abbreviation W := (World L).
Implicit Types (w : W) (origin : RawOrigin).

Definition set_fee_rate (origin : RawOrigin) (domain : DomainID) (asset : AssetId)
    (fee_rate_basis_point fee_lower_bound fee_upper_bound : Z)
    : M DispatchError W unit :=
  allowed ← gets (fun w => has_access w percentage_pallet_index (b_ "set_fee_rate") origin);
  ensure allowed (ModPercentageFee PercentageAccessDenied);;
  ensure (fee_rate_basis_point <? 10000) (ModPercentageFee FeeRateOutOfRange);;
  ensure (fee_lower_bound <? fee_upper_bound) (ModPercentageFee InvalidFeeBound);;
  modify (set_rates <[(domain, asset) :=
    (fee_rate_basis_point, fee_lower_bound, fee_upper_bound)]>);;
  deposit_event (EvPercentageFee (FeeRateSet domain asset fee_rate_basis_point
    fee_lower_bound fee_upper_bound)).

(** [FeeHandler for Pallet<T>] *)
Definition percentage_get_fee w (domain : DomainID) (asset : MultiAsset) : option Z :=
  match asset_fun asset with
  | Fungible amount =>
      match AssetFeeRate w !! (domain, asset_id asset) with
      | None => None
      | Some (fee_rate_basis_point, fee_lower_bound, fee_upper_bound) =>
          let fee_amount := saturating_mul u128_max amount fee_rate_basis_point / 10000 in
          if fee_upper_bound <? fee_amount then Some fee_upper_bound
          else if fee_amount <? fee_lower_bound then Some fee_lower_bound
          else Some fee_amount
      end
  | NonFungible _ => None
  end.

Definition percentage_fee_handler : FeeHandler L := {| get_fee := percentage_get_fee |}.

(** What [set_fee_rate] lets into the storage. *)
Definition rate_ok (r : Z * Z * Z) : Prop :=
  match r with (rate, lo, hi) => rate < 10000 /\ lo < hi end.
Definition rates_ok w : Prop := map_Forall (fun _ r => rate_ok r) (AssetFeeRate w).

Lemma set_fee_rate_run origin d a rate lo hi w :
  set_fee_rate origin d a rate lo hi w =
  if negb (has_access w percentage_pallet_index (b_ "set_fee_rate") origin)
  then (Err (ModPercentageFee PercentageAccessDenied), w)
  else if negb (rate <? 10000) then (Err (ModPercentageFee FeeRateOutOfRange), w)
  else if negb (lo <? hi) then (Err (ModPercentageFee InvalidFeeBound), w)
  else (Ok tt, add_event (EvPercentageFee (FeeRateSet d a rate lo hi))
                 (set_rates <[(d, a) := (rate, lo, hi)]> w)).
Proof.
  unfold set_fee_rate. run.
  destruct (has_access _ _ _ _), (rate <? 10000), (lo <? hi); reflexivity.
Qed.

Lemma set_fee_rate_rates_ok origin d a rate lo hi w r w' :
  rates_ok w -> set_fee_rate origin d a rate lo hi w = (r, w') -> rates_ok w'.
Proof.
  intros Hok. rewrite set_fee_rate_run. repeat case_match; intros [= <- <-]; try done.
  apply map_Forall_insert_2; [|done]. simpl. split; lia.
Qed.

(** The fee is the rate's share of the amount, clamped to the interval. *)
Definition clamp (lo hi x : Z) : Z := Z.max lo (Z.min hi x).

Lemma clamp_range lo hi x : lo <= hi -> lo <= clamp lo hi x <= hi.
Proof. unfold clamp. lia. Qed.
Lemma clamp_mono lo hi x y : x <= y -> clamp lo hi x <= clamp lo hi y.
Proof. unfold clamp. lia. Qed.

Lemma percentage_get_fee_clamp w d a amount rate lo hi :
  AssetFeeRate w !! (d, a) = Some (rate, lo, hi) -> lo <= hi ->
  percentage_get_fee w d (asset_of a amount) =
  Some (clamp lo hi (Z.min u128_max (amount * rate) / 10000)).
Proof.
  intros Hr Hb. unfold percentage_get_fee, clamp, saturating_mul; simpl. rewrite Hr.
  repeat case_match; f_equal; lia.
Qed.
End PercentageFeeHandler.
