(* ===== verification/FeeHandlerRouter.v ===== *)
(** * The fee handler router pallet ([fee-handler-router/src/lib.rs])

    Chooses the fee strategy of a destination domain and asset.  [get_fee] calls
    the basic and the percentage pallet directly; the dynamic strategy is not
    implemented and has no fee. *)

From S2P Require Import Prelude Xcm Frame Traits AccessSegregator BasicFeeHandler.
From S2P Require Import PercentageFeeHandler.

(** [Config] of the pallet: [PalletIndex]. *)
Class RouterConfig := { router_pallet_index : Z }.

Section FeeHandlerRouter.
Context {L : Type} `{AccessConfig} `{RouterConfig}.
Abbreviation W := (World L).
Implicit Types (w : W) (origin : RawOrigin).

Definition set_fee_handler (origin : RawOrigin) (domain : DomainID) (asset : AssetId)
    (handler_type : FeeHandlerType) : M DispatchError W unit :=
  allowed ← gets (fun w => has_access w router_pallet_index (b_ "set_fee_handler") origin);
  ensure allowed (ModRouter RouterAccessDenied);;
  modify (set_handlers <[(domain, asset) := handler_type]>);;
  deposit_event (EvRouter (FeeHandlerSet domain asset handler_type)).

(** [FeeHandler for Pallet<T>] *)
Definition router_get_fee w (domain : DomainID) (asset : MultiAsset) : option Z :=
  match HandlerType w !! (domain, asset_id asset) with
  | Some BasicFeeHandler => basic_get_fee w domain asset
  | Some PercentageFeeHandler => percentage_get_fee w domain asset
  | Some DynamicFeeHandler => None
  | None => None
  end.

Definition fee_handler_router : FeeHandler L := {| get_fee := router_get_fee |}.

Lemma set_fee_handler_run origin d a h w :
  set_fee_handler origin d a h w =
  if has_access w router_pallet_index (b_ "set_fee_handler") origin
  then (Ok tt, add_event (EvRouter (FeeHandlerSet d a h)) (set_handlers <[(d, a) := h]> w))
  else (Err (ModRouter RouterAccessDenied), w).
Proof. unfold set_fee_handler. run. by destruct (has_access _ _ _ _). Qed.

(** A fee quoted by the router depends on the three fee storages only. *)
Lemma router_get_fee_ext w w' d a :
  HandlerType w' = HandlerType w -> AssetFees w' = AssetFees w ->
  AssetFeeRate w' = AssetFeeRate w -> router_get_fee w' d a = router_get_fee w d a.
Proof.
  intros Hh Hf Hr.
  unfold router_get_fee, basic_get_fee, percentage_get_fee. by rewrite Hh, Hf, Hr.
Qed.
End FeeHandlerRouter.
