(* ===== verification/Encode.v ===== *)
(** * Solidity's packed encoding ([bridge/src/encode.rs]) *)

From S2P Require Import Prelude.

(** [SolidityDataType]; a string or slice is its bytes, a [U256] a [Z], and
    [TakeLastXBytes] the number of bits it holds. *)
Inductive SolidityDataType :=
| SString (s : bytes)
| SAddress (a : bytes)
| SBytes (b : bytes)
| SBool (b : bool)
| SNumber (n : Z)
| SNumberWithShift (n : Z) (to_take : Z).

(** [U256.0]: four 64-bit limbs, the least significant first. *)
Definition u256_limbs (n : Z) : list Z := Z_to_little_endian 4 64 n.
Definition u64_to_be_bytes (b : Z) : bytes := to_be 8 b.

(** [iter().skip(n)]: every element is skipped when [n] exceeds the length. *)
Definition iter_skip {A} (n : Z) (l : list A) : list A :=
  if Z.of_nat (length l) <=? n then [] else drop (Z.to_nat n) l.

(** [usize] subtraction as compiled for release: it wraps. *)
Definition usize_sub (a b : Z) : Z := (a - b) mod (usize_max + 1).

Definition pack (data_type : SolidityDataType) : bytes :=
  match data_type with
  | SString s => s
  | SAddress a => a
  | SNumber n =>
      fold_left (fun res b => res ++ u64_to_be_bytes b) (reverse (u256_limbs n)) []
  | SBytes b => b
  | SBool b => if b then [1] else [0]
  | SNumberWithShift n to_take =>
      let local_res :=
        fold_left (fun acc i => acc ++ u64_to_be_bytes i) (reverse (u256_limbs n)) [] in
      let to_skip := usize_sub (Z.of_nat (length local_res)) (to_take / 8) in
      iter_skip to_skip local_res
  end.

(** The vector of packed items, joined with an empty separator. *)
Definition encode_packed (items : list SolidityDataType) : bytes :=
  concat (fold_left (fun acc i => acc ++ [pack i]) items []).

Lemma fold_left_snoc_map {A B} (f : A -> B) (l : list A) (acc : list B) :
  fold_left (fun acc i => acc ++ [f i]) l acc = acc ++ (f <$> l).
Proof.
  revert acc. induction l as [|x l IH]; intros acc; simpl.
  - by rewrite app_nil_r.
  - rewrite IH. by rewrite <- app_assoc.
Qed.

Lemma fold_left_app_concat {A B} (f : A -> list B) (l : list A) (acc : list B) :
  fold_left (fun res b => res ++ f b) l acc = acc ++ concat (f <$> l).
Proof.
  revert acc. induction l as [|x l IH]; intros acc; simpl.
  - by rewrite app_nil_r.
  - rewrite IH. by rewrite <- app_assoc.
Qed.

(** Packing is a homomorphism: the items' encodings side by side. *)
Lemma encode_packed_concat items : encode_packed items = concat (pack <$> items).
Proof. unfold encode_packed. by rewrite fold_left_snoc_map. Qed.

Lemma encode_packed_app l1 l2 : encode_packed (l1 ++ l2) = encode_packed l1 ++ encode_packed l2.
Proof. rewrite !encode_packed_concat. by rewrite fmap_app, concat_app. Qed.

(** Splitting a number in [m] words of [k * 8] bits and each word in [k] bytes is
    splitting it in [m * k] bytes. *)
Lemma little_endian_app m1 m2 n z :
  0 <= m1 -> 0 <= m2 -> 0 <= n ->
  Z_to_little_endian (m1 + m2) n z =
  Z_to_little_endian m1 n z ++ Z_to_little_endian m2 n (z ≫ (m1 * n)).
Proof.
  intros Hm1 Hm2 Hn. revert z.
  refine (natlike_ind (fun m1 => forall z, Z_to_little_endian (m1 + m2) n z =
    Z_to_little_endian m1 n z ++ Z_to_little_endian m2 n (z ≫ (m1 * n))) _ _ m1 Hm1).
  - intros z. by rewrite Z_to_little_endian_0, Z.mul_0_l, Z.shiftr_0_r.
  - intros m Hm IH z. rewrite Z.add_succ_l, !Z_to_little_endian_succ by lia. simpl. f_equal.
    rewrite IH, Z.shiftr_shiftr by nia. do 3 f_equal. lia.
Qed.

Lemma little_endian_ones m n k z :
  0 <= m -> 0 <= n -> m * n <= k ->
  Z_to_little_endian m n (Z.land z (Z.ones k)) = Z_to_little_endian m n z.
Proof.
  intros Hm Hn. revert k z.
  refine (natlike_ind (fun m => forall k z, m * n <= k ->
    Z_to_little_endian m n (Z.land z (Z.ones k)) = Z_to_little_endian m n z) _ _ m Hm).
  - intros k z _. by rewrite !Z_to_little_endian_0.
  - intros m' Hm' IH k z Hk. rewrite !Z_to_little_endian_succ by lia. f_equal.
    + rewrite !Z.land_ones by nia. apply Z.mod_mod_divide.
      exists (2 ^ (k - n)). rewrite <- Z.pow_add_r by nia. f_equal. lia.
    + rewrite Z.shiftr_land.
      replace (Z.ones k ≫ n) with (Z.ones (k - n)); [apply IH; nia|].
      rewrite Z.shiftr_div_pow2, Z.ones_div_pow2 by nia. done.
Qed.

Lemma limbs_bytes m k z :
  0 <= m -> 0 <= k ->
  concat ((fun b => Z_to_little_endian k 8 b) <$> Z_to_little_endian m (k * 8) z) =
  Z_to_little_endian (m * k) 8 z.
Proof.
  intros Hm Hk. revert z.
  refine (natlike_ind (fun m => forall z,
    concat ((fun b => Z_to_little_endian k 8 b) <$> Z_to_little_endian m (k * 8) z) =
    Z_to_little_endian (m * k) 8 z) _ _ m Hm).
  - intros z. by rewrite Z.mul_0_l, !Z_to_little_endian_0.
  - intros m' Hm' IH z. rewrite Z_to_little_endian_succ by nia. simpl. rewrite IH.
    rewrite little_endian_ones by nia.
    replace (Z.succ m' * k) with (k + m' * k) by lia.
    by rewrite little_endian_app by nia.
Qed.

Lemma reverse_concat {A} (ls : list (list A)) :
  reverse (concat ls) = concat (reverse <$> reverse ls).
Proof.
  induction ls as [|l ls IH]; simpl; [done|].
  rewrite reverse_app, reverse_cons, fmap_app, concat_app, IH. simpl. by rewrite app_nil_r.
Qed.

(** The limb loop writes the 32 bytes of the number, the most significant first. *)
Lemma limb_loop_be n :
  fold_left (fun res b => res ++ u64_to_be_bytes b) (reverse (u256_limbs n)) [] = to_be 32 n.
Proof.
  rewrite fold_left_app_concat. simpl. unfold to_be, u64_to_be_bytes, u256_limbs, to_be.
  pose proof (limbs_bytes 4 8 n) as Hl. change (4 * 8) with 32 in Hl.
  change (8 * 8) with 64 in Hl. rewrite <- Hl by lia. rewrite reverse_concat, <- fmap_reverse.
  by rewrite <- list_fmap_compose.
Qed.

Lemma pack_number n : pack (SNumber n) = to_be 32 n.
Proof. apply limb_loop_be. Qed.

Lemma pack_number_with_shift n bits :
  0 <= bits <= 256 ->
  pack (SNumberWithShift n bits) = drop (Z.to_nat (32 - bits / 8)) (to_be 32 n).
Proof.
  intros Hb. assert (0 <= bits / 8 <= 32) as Hd.
  { split; [apply Z.div_pos; lia|]. apply Z.div_le_upper_bound; lia. }
  unfold pack. rewrite limb_loop_be. unfold iter_skip, usize_sub, usize_max, u32_max.
  rewrite to_be_length by lia. rewrite Z2Nat.id by lia.
  rewrite Z.mod_small by lia. destruct (32 <=? 32 - bits / 8) eqn:He; [|done].
  rewrite drop_ge; [done|]. rewrite to_be_length by lia. lia.
Qed.
