(* ===== verification/Eip712.v ===== *)
(** * EIP-712 signing of proposals
    ([bridge/src/eip712.rs] and the signing functions of [bridge/src/lib.rs])

    Hashing, signature recovery and the ABI encoder are host functions and crates
    that are not under [src/]: they are parameters. *)

From S2P Require Import Prelude Xcm Frame Encode.

(** [sp_io::hashing] and [sp_io::crypto]. *)
Class Crypto := {
  keccak_256 : bytes -> bytes;
  blake2_256 : bytes -> bytes;
  (** signature of 65 bytes, message of 32 bytes; the 64-byte public key *)
  secp256k1_ecdsa_recover : bytes -> bytes -> option bytes;
  keccak_256_array x : is_array 32 (keccak_256 x);
  blake2_256_array x : is_array 32 (blake2_256 x)
}.

(** [ethabi::token::Token], the variants the sources build. *)
Inductive Token := TUint (n : Z) | TFixedBytes (b : bytes) | TAddress (a : bytes).

(** The 32-byte word of a static token in the contract ABI. *)
Definition abi_word (t : Token) : bytes :=
  match t with
  | TUint n => to_be 32 n
  | TFixedBytes b => b
  | TAddress a => replicate 12 0 ++ a
  end.
Definition abi_static (t : Token) : Prop :=
  match t with
  | TUint n => is_u u256_max n
  | TFixedBytes b => is_array 32 b
  | TAddress a => is_array 20 a
  end.

(** [ethabi::encode]: static tokens are encoded as their words in sequence. *)
Class EthAbi := {
  abi_encode : list Token -> bytes;
  abi_encode_static ts :
    Forall abi_static ts -> abi_encode ts = concat (abi_word <$> ts)
}.

(** [EIP712_DOMAIN_TYPE_HASH] and its variant with a salt. *)
Definition EIP712_DOMAIN_TYPE_HASH : bytes := [
  139; 115; 195; 198; 155; 184; 254; 61; 81; 46; 204; 76; 247; 89; 204; 121; 35; 159; 123; 23;
  155; 15; 250; 202; 169; 167; 93; 82; 43; 57; 64; 15].
Definition EIP712_DOMAIN_TYPE_HASH_WITH_SALT : bytes := [
  216; 124; 214; 239; 121; 212; 226; 185; 94; 21; 206; 138; 191; 115; 45; 181; 30; 199; 113; 241;
  202; 46; 220; 207; 34; 164; 108; 114; 154; 197; 100; 114].

Record EIP712Domain := {
  dom_name : bytes;
  dom_version : bytes;
  dom_chain_id : Z;
  dom_verifying_contract : bytes;
  dom_salt : option bytes
}.

Record Proposal := {
  origin_domain_id : DomainID;
  deposit_nonce : DepositNonce;
  resource_id : ResourceId;
  data : bytes
}.

Global Instance Proposal_eq_dec : EqDecision Proposal.
Proof. solve_decision. Defined.

Definition proposal_wf (p : Proposal) : Prop :=
  is_u u8_max (origin_domain_id p) /\ is_u u64_max (deposit_nonce p) /\
  is_array 32 (resource_id p) /\ Forall is_byte (data p).

Global Instance proposal_wf_dec p : Decision (proposal_wf p).
Proof. unfold proposal_wf. apply _. Defined.

(** [flatten] writes out the words of a token list. *)
Ltac flatten :=
  rewrite ?fmap_cons, ?fmap_nil; cbn [concat abi_word pack]; rewrite ?app_nil_r.

Section Signing.
Context `{Crypto} `{EthAbi}.
(** [T::EIP712ChainID] and [T::DestVerifyingContractAddress]. *)
Context (eip712_chain_id : ChainID) (verifying_contract : bytes).

Definition separator (d : EIP712Domain) : bytes :=
  let domain_type_hash :=
    match dom_salt d with
    | Some _ => EIP712_DOMAIN_TYPE_HASH_WITH_SALT
    | None => EIP712_DOMAIN_TYPE_HASH
    end in
  let tokens :=
    [TUint (from_be domain_type_hash);
     TUint (from_be (keccak_256 (dom_name d)));
     TUint (from_be (keccak_256 (dom_version d)));
     TUint (dom_chain_id d);
     TAddress (dom_verifying_contract d)] in
  let tokens :=
    match dom_salt d with
    | Some salt => tokens ++ [TUint (from_be salt)]
    | None => tokens
    end in
  keccak_256 (abi_encode tokens).

Definition public_key_to_address (public_key : bytes) : bytes :=
  slice 12 32 (keccak_256 public_key).

Definition proposals_type : string :=
  "Proposals(Proposal[] proposals)Proposal(uint8 originDomainID,uint64 depositNonce,bytes32 resourceID,bytes data)".
Definition proposal_type : string :=
  "Proposal(uint8 originDomainID,uint64 depositNonce,bytes32 resourceID,bytes data)".

Definition construct_ecdsa_signing_proposals_data (proposals : list Proposal) : bytes :=
  let proposals_typehash := keccak_256 (b_ proposals_type) in
  let proposal_typehash := keccak_256 (b_ proposal_type) in
  match proposals with
  | [] => replicate 32 0
  | _ :: _ =>
      let keccak_data :=
        fold_left (fun acc prop =>
          acc ++ [keccak_256 (abi_encode
            [TFixedBytes proposal_typehash;
             TUint (origin_domain_id prop);
             TUint (deposit_nonce prop);
             TFixedBytes (resource_id prop);
             TFixedBytes (keccak_256 (data prop))])]) proposals [] in
      let final_keccak_data :=
        fold_left (fun acc data => fold_left (fun acc d => acc ++ [d]) data acc)
          keccak_data [] in
      let hashed_keccak_data := keccak_256 (encode_packed [SBytes final_keccak_data]) in
      let struct_hash := keccak_256 (abi_encode
        [TFixedBytes proposals_typehash; TFixedBytes hashed_keccak_data]) in
      let eip712_domain :=
        {| dom_name := b_ "Bridge"; dom_version := b_ "3.1.0";
           dom_chain_id := eip712_chain_id;
           dom_verifying_contract := verifying_contract;
           dom_salt := None |} in
      let domain_separator := separator eip712_domain in
      keccak_256 (encode_packed
        [SString [25; 1]; SBytes domain_separator; SBytes struct_hash])
  end.

(** [signature.try_into::<[u8; 65]>()], recovery, and the address comparison. *)
Definition verify_by_mpc_address (mpc_addr : MpcAddress) (signing_message signature : bytes)
    : bool :=
  if Nat.eqb (length signature) 65 then
    match secp256k1_ecdsa_recover signature signing_message with
    | Some pubkey => bool_decide (public_key_to_address pubkey = mpc_addr)
    | None => false
    end
  else false.

(** ** The EIP-712 reference: [hashStruct] and the domain separator of the standard *)

Definition spec_proposal_preimage (p : Proposal) : bytes :=
  keccak_256 (b_ proposal_type) ++ to_be 32 (origin_domain_id p) ++
  to_be 32 (deposit_nonce p) ++ resource_id p ++ keccak_256 (data p).
Definition spec_batch (ps : list Proposal) : bytes :=
  concat ((fun p => keccak_256 (spec_proposal_preimage p)) <$> ps).
Definition spec_struct_preimage (ps : list Proposal) : bytes :=
  keccak_256 (b_ proposals_type) ++ keccak_256 (spec_batch ps).
Definition spec_domain_preimage : bytes :=
  EIP712_DOMAIN_TYPE_HASH ++ keccak_256 (b_ "Bridge") ++ keccak_256 (b_ "3.1.0") ++
  to_be 32 eip712_chain_id ++ replicate 12 0 ++ verifying_contract.
Definition spec_digest_preimage (ps : list Proposal) : bytes :=
  [25; 1] ++ keccak_256 spec_domain_preimage ++ keccak_256 (spec_struct_preimage ps).
Definition spec_digest (ps : list Proposal) : bytes := keccak_256 (spec_digest_preimage ps).

Lemma keccak_length x : length (keccak_256 x) = 32%nat.
Proof. apply keccak_256_array. Qed.

Lemma keccak_word x : to_be 32 (from_be (keccak_256 x)) = keccak_256 x.
Proof.
  destruct (keccak_256_array x) as [Hl Hb].
  rewrite <- (to_be_from_be (keccak_256 x)) at 2 by done. by rewrite Hl.
Qed.

Lemma from_be_u256 b : is_array 32 b -> is_u u256_max (from_be b).
Proof.
  intros [Hl Hb]. pose proof (from_be_bound b Hb) as Hr. rewrite Hl in Hr.
  unfold is_u, u256_max. change (Z.of_nat 32 * 8) with 256 in Hr. lia.
Qed.

Lemma is_u_weaken m1 m2 z : m1 <= m2 -> is_u m1 z -> is_u m2 z.
Proof. unfold is_u. lia. Qed.

Lemma concat_snoc_flatten {A} (ls : list (list A)) (acc : list A) :
  fold_left (fun acc l => fold_left (fun acc d => acc ++ [d]) l acc) ls acc =
  acc ++ concat ls.
Proof.
  revert acc. induction ls as [|l ls IH]; intros acc; simpl; [by rewrite app_nil_r|].
  rewrite IH, (fold_left_snoc_map id), list_fmap_id. by rewrite app_assoc.
Qed.

Lemma separator_spec :
  is_u u256_max eip712_chain_id -> is_array 20 verifying_contract ->
  separator {| dom_name := b_ "Bridge"; dom_version := b_ "3.1.0";
               dom_chain_id := eip712_chain_id;
               dom_verifying_contract := verifying_contract; dom_salt := None |} =
  keccak_256 spec_domain_preimage.
Proof.
  intros Hc Hv. unfold separator, spec_domain_preimage. simpl dom_salt. cbv iota zeta.
  rewrite abi_encode_static.
  - f_equal. flatten. rewrite !keccak_word.
    change (to_be 32 (from_be EIP712_DOMAIN_TYPE_HASH)) with EIP712_DOMAIN_TYPE_HASH.
    reflexivity.
  - rewrite !Forall_cons, Forall_nil. simpl. split_and!; try done;
      apply from_be_u256, keccak_256_array.
Qed.

Lemma proposal_hash_spec p :
  proposal_wf p ->
  abi_encode [TFixedBytes (keccak_256 (b_ proposal_type)); TUint (origin_domain_id p);
              TUint (deposit_nonce p); TFixedBytes (resource_id p);
              TFixedBytes (keccak_256 (data p))] = spec_proposal_preimage p.
Proof.
  intros (Hd & Hn & Hr & _). rewrite abi_encode_static.
  - unfold spec_proposal_preimage. by flatten.
  - rewrite !Forall_cons, Forall_nil. simpl. split_and!; try done;
      try apply keccak_256_array.
    + eapply is_u_weaken; [|apply Hd]. vm_compute. congruence.
    + eapply is_u_weaken; [|apply Hn]. vm_compute. congruence.
Qed.

Lemma construct_spec ps :
  is_u u256_max eip712_chain_id -> is_array 20 verifying_contract ->
  ps <> [] -> Forall proposal_wf ps ->
  construct_ecdsa_signing_proposals_data ps = spec_digest ps.
Proof.
  intros Hc Hv Hne Hwf. unfold construct_ecdsa_signing_proposals_data.
  destruct ps as [|p0 ps0]; [done|]. remember (p0 :: ps0) as ps eqn:Hps.
  cbv zeta. rewrite separator_spec by done.
  rewrite (fold_left_snoc_map (fun prop => keccak_256 (abi_encode _))).
  rewrite concat_snoc_flatten, !app_nil_l.
  assert ((fun prop => keccak_256 (abi_encode
      [TFixedBytes (keccak_256 (b_ proposal_type)); TUint (origin_domain_id prop);
       TUint (deposit_nonce prop); TFixedBytes (resource_id prop);
       TFixedBytes (keccak_256 (data prop))])) <$> ps =
    (fun p => keccak_256 (spec_proposal_preimage p)) <$> ps) as ->.
  { apply list_fmap_ext. intros i p Hp. f_equal. apply proposal_hash_spec.
    by eapply Forall_lookup_1. }
  unfold spec_digest, spec_digest_preimage, spec_struct_preimage, spec_batch.
  rewrite !encode_packed_concat. flatten. rewrite abi_encode_static; [by flatten|].
  rewrite !Forall_cons, Forall_nil. simpl. split_and!; try done; apply keccak_256_array.
Qed.
End Signing.
