(* ===== verification/SigningFacts.v ===== *)
(** * What a signature binds

    Two batches with the same digest are the same batch, unless two of the byte
    strings hashed on the way collide. *)

From S2P Require Import Prelude Xcm Frame Encode Eip712.

Lemma concat_inj_length {A} (n : nat) (ls ks : list (list A)) :
  (0 < n)%nat -> Forall (fun l => length l = n) ls -> Forall (fun l => length l = n) ks ->
  concat ls = concat ks -> ls = ks.
Proof.
  intros Hn Hl. revert ks. induction Hl as [|l ls Hl _ IH]; intros ks Hk He.
  - destruct Hk as [|k ks Hk _]; [done|]. simpl in He.
    apply (f_equal length) in He. rewrite length_app in He. simpl in He. lia.
  - destruct Hk as [|k ks Hk Hks].
    + apply (f_equal length) in He. simpl in He. rewrite length_app in He. simpl in He. lia.
    + simpl in He. apply app_inj_1 in He as [-> He]; [|lia]. f_equal. by apply IH.
Qed.

Lemma fmap_inj_on {A B} (f : A -> B) (l k : list A) :
  (forall x y, x ∈ l -> y ∈ k -> f x = f y -> x = y) -> f <$> l = f <$> k -> l = k.
Proof.
  revert k. induction l as [|x l IH]; intros [|y k] Hf He; try done.
  rewrite !fmap_cons in He. injection He as Hx He. f_equal.
  - apply Hf; [apply list_elem_of_here..|done].
  - apply IH; [|done]. intros x' y' Hx' Hy'. apply Hf; by apply list_elem_of_further.
Qed.

Section Binding.
Context `{Crypto} (eip712_chain_id : ChainID) (verifying_contract : bytes).

(** The byte strings hashed for the digest of a batch. *)
Definition digest_preimages (ps : list Proposal) : list bytes :=
  spec_digest_preimage eip712_chain_id verifying_contract ps ::
  spec_struct_preimage ps :: spec_batch ps ::
  (spec_proposal_preimage <$> ps) ++ (data <$> ps).

(** No two different strings of the lists have the same hash. *)
Definition collision_free (xs ys : list bytes) : Prop :=
  forall x y, x ∈ xs -> y ∈ ys -> keccak_256 x = keccak_256 y -> x = y.

Lemma collision_or_free xs ys :
  collision_free xs ys \/
  exists x y, x ∈ xs /\ y ∈ ys /\ x <> y /\ keccak_256 x = keccak_256 y.
Proof.
  destruct (decide (Exists (fun x => Exists (fun y => x <> y /\ keccak_256 x = keccak_256 y) ys)
    xs)) as [He|He].
  - right. apply Exists_exists in He as (x & Hx & He).
    apply Exists_exists in He as (y & Hy & He). by exists x, y.
  - left. intros x y Hx Hy Hk. destruct (decide (x = y)) as [|Hne]; [done|]. destruct He.
    apply Exists_exists. exists x. split; [done|]. apply Exists_exists. by exists y.
Qed.

Lemma proposal_preimage_inj p q :
  proposal_wf p -> proposal_wf q ->
  spec_proposal_preimage p = spec_proposal_preimage q ->
  origin_domain_id p = origin_domain_id q /\ deposit_nonce p = deposit_nonce q /\
  resource_id p = resource_id q /\ keccak_256 (data p) = keccak_256 (data q).
Proof.
  unfold proposal_wf, is_u, u8_max, u64_max. intros (Hd & Hn & [Hr _] & _) (Hd' & Hn' & [Hr' _] & _).
  unfold spec_proposal_preimage. intros He.
  apply app_inj_1 in He as [_ He]; [|done].
  apply app_inj_1 in He as [Ed He]; [|by rewrite !to_be_length].
  apply app_inj_1 in He as [En He]; [|by rewrite !to_be_length].
  apply app_inj_1 in He as [Er Ek]; [|lia].
  apply to_be_inj in Ed, En; try lia. done.
Qed.

Lemma digest_inj ps qs :
  Forall proposal_wf ps -> Forall proposal_wf qs ->
  collision_free (digest_preimages ps) (digest_preimages qs) ->
  spec_digest eip712_chain_id verifying_contract ps =
  spec_digest eip712_chain_id verifying_contract qs -> ps = qs.
Proof.
  intros Hp Hq Hc Hd. unfold digest_preimages in Hc.
  assert (Hin : forall rs x, x ∈ (spec_proposal_preimage <$> rs) ++ (data <$> rs) ->
            x ∈ digest_preimages rs).
  { intros rs x Hx. do 3 apply list_elem_of_further. done. }
  apply Hc in Hd; [|apply list_elem_of_here..].
  apply app_inj_1 in Hd as [_ Hd]; [|done]. apply app_inj_1 in Hd as [_ Hd]; [|done].
  apply Hc in Hd; [|apply list_elem_of_further, list_elem_of_here..].
  apply app_inj_1 in Hd as [_ Hd]; [|done].
  apply Hc in Hd; [|do 2 apply list_elem_of_further; apply list_elem_of_here..].
  apply (concat_inj_length 32) in Hd; [|lia|apply Forall_fmap, Forall_true; intros;
    apply keccak_length..].
  apply fmap_inj_on in Hd; [done|]. intros p q Hip Hiq Hk.
  apply Hc in Hk; [|apply Hin, elem_of_app; left; by apply list_elem_of_fmap_2..].
  rewrite Forall_forall in Hp, Hq.
  apply proposal_preimage_inj in Hk as (E1 & E2 & E3 & E4); auto.
  apply Hc in E4; [|apply Hin, elem_of_app; right; by apply list_elem_of_fmap_2..].
  destruct p, q; simpl in *; congruence.
Qed.
End Binding.
