(* ===== verification/Keccak.v ===== *)
(** * The constants of EIP-712 against the standards

    The development takes Keccak-256 as a parameter, so a precomputed hash of
    [bridge/src/eip712.rs] is a literal for it, and the type strings of
    [bridge/src/lib.rs] are strings.  Here both are checked: Keccak-256 as its
    specification defines it, on 64-bit lanes, evaluated on the type strings, and these
    strings as [encodeType] of EIP-712 builds them from the fields of the structures. *)

From S2P Require Import Prelude Xcm Frame Encode Eip712.

(** ** Keccak-256 *)

Module Keccak.
Definition lane_bits : Z := 64.
Definition rotl (x n : Z) : Z :=
  Z.lor (wrap lane_bits (Z.shiftl x n)) (Z.shiftr x (lane_bits - n)).

(** The state: lane [(x, y)] of the five by five square is entry [5 * y + x]. *)
Definition lane (a : list Z) (x y : Z) : Z :=
  nth (Z.to_nat (5 * (y mod 5) + x mod 5)) a 0.
Definition square (f : Z -> Z -> Z) : list Z :=
  flat_map (fun y => map (fun x => f x y) (seqZ 0 5)) (seqZ 0 5).

Definition theta (a : list Z) : list Z :=
  let c := map (fun x => foldr Z.lxor 0 (map (lane a x) (seqZ 0 5))) (seqZ 0 5) in
  let col x := nth (Z.to_nat (x mod 5)) c 0 in
  square (fun x y => Z.lxor (lane a x y) (Z.lxor (col (x - 1)) (rotl (col (x + 1)) 1))).

Definition rho_offsets : list Z :=
  [0; 1; 62; 28; 27; 36; 44; 6; 55; 20; 3; 10; 43; 25; 39; 41; 45; 15; 21; 8; 18; 2; 61; 56; 14].
(** Lane [(x, y)] comes from [(x + 3 y, x)], rotated by the offset of its origin. *)
Definition rho_pi (a : list Z) : list Z :=
  square (fun x y => rotl (lane a (x + 3 * y) x) (lane rho_offsets (x + 3 * y) x)).

Definition chi (a : list Z) : list Z :=
  square (fun x y =>
    Z.lxor (lane a x y)
      (Z.land (Z.lxor (Z.ones lane_bits) (lane a (x + 1) y)) (lane a (x + 2) y))).

Definition iota (rc : Z) (a : list Z) : list Z :=
  match a with [] => [] | l :: a => Z.lxor l rc :: a end.

Definition round_constants : list Z := [
  0x0000000000000001; 0x0000000000008082; 0x800000000000808A; 0x8000000080008000;
  0x000000000000808B; 0x0000000080000001; 0x8000000080008081; 0x8000000000008009;
  0x000000000000008A; 0x0000000000000088; 0x0000000080008009; 0x000000008000000A;
  0x000000008000808B; 0x800000000000008B; 0x8000000000008089; 0x8000000000008003;
  0x8000000000008002; 0x8000000000000080; 0x000000000000800A; 0x800000008000000A;
  0x8000000080008081; 0x8000000000008080; 0x0000000080000001; 0x8000000080008008].

Definition permutation (a : list Z) : list Z :=
  foldl (fun a rc => iota rc (chi (rho_pi (theta a)))) a round_constants.

(** The sponge with a rate of 136 bytes; padding is 0x01, zeros, 0x80. *)
Definition rate : nat := 136.
Definition pad (m : bytes) : bytes :=
  let n := (rate - length m mod rate)%nat in
  if Nat.eqb n 1 then m ++ [0x81] else m ++ [0x01] ++ replicate (n - 2) 0 ++ [0x80].

Fixpoint lanes (n : nat) (m : bytes) : list Z :=
  match n with
  | O => []
  | S n => little_endian_to_Z 8 (take 8 m) :: lanes n (drop 8 m)
  end.
Definition absorb (a : list Z) (block : bytes) : list Z :=
  permutation (zip_with Z.lxor a (lanes 17 block ++ replicate 8 0)).
Fixpoint absorb_all (n : nat) (a : list Z) (m : bytes) : list Z :=
  match n with
  | O => a
  | S n => absorb_all n (absorb a (take rate m)) (drop rate m)
  end.

Definition keccak256 (m : bytes) : bytes :=
  let m := pad m in
  let a := absorb_all (length m / rate) (replicate 25 0) m in
  take 32 (flat_map (Z_to_little_endian 8 8) (take 4 a)).

(** Known values: the empty string and a short one. *)
Example keccak_empty :
  keccak256 [] = hex "c5d2460186f7233c927e7db2dcc703c0e500b653ca82273b7bfad8045d85a470".
Proof. vm_compute. reflexivity. Qed.
Example keccak_abc :
  keccak256 (b_ "abc") = hex "4e03657aea45a94fc7d47ba826c8d667c0d1e6e33a64a036ec44f58fa12d6c45".
Proof. vm_compute. reflexivity. Qed.
End Keccak.

(** ** [encodeType] *)

Record StructType := { type_name : string; members : list (string * string) }.

Definition encode_member (m : string * string) : string := (m.1 ++ " " ++ m.2)%string.
Fixpoint join (sep : string) (l : list string) : string :=
  match l with
  | [] => ""
  | [s] => s
  | s :: l => (s ++ sep ++ join sep l)%string
  end.
Definition encode_struct (s : StructType) : string :=
  (type_name s ++ "(" ++ join "," (map encode_member (members s)) ++ ")")%string.
(** A structure, then the structures it refers to, in alphabetical order. *)
Definition encode_type (primary : StructType) (referenced : list StructType) : string :=
  join "" (map encode_struct (primary :: referenced)).

Definition proposal_struct : StructType :=
  {| type_name := "Proposal";
     members := [("uint8", "originDomainID"); ("uint64", "depositNonce");
                 ("bytes32", "resourceID"); ("bytes", "data")]%string |}.
Definition proposals_struct : StructType :=
  {| type_name := "Proposals"; members := [("Proposal[]", "proposals")]%string |}.
Definition domain_struct : StructType :=
  {| type_name := "EIP712Domain";
     members := [("string", "name"); ("string", "version"); ("uint256", "chainId");
                 ("address", "verifyingContract")]%string |}.
Definition domain_struct_with_salt : StructType :=
  {| type_name := "EIP712Domain";
     members := members domain_struct ++ [("bytes32", "salt")]%string |}.

(** The strings the code hashes are the encodings of the structures it signs. *)
Lemma type_strings :
  encode_type proposal_struct [] = proposal_type /\
  encode_type proposals_struct [proposal_struct] = proposals_type.
Proof. split; reflexivity. Qed.

(** The precomputed hashes are those of the types of the domain. *)
Lemma domain_type_hashes :
  Keccak.keccak256 (b_ (encode_type domain_struct [])) = EIP712_DOMAIN_TYPE_HASH /\
  Keccak.keccak256 (b_ (encode_type domain_struct_with_salt []))
    = EIP712_DOMAIN_TYPE_HASH_WITH_SALT.
Proof. split; vm_compute; reflexivity. Qed.
