(* ===== verification/Bridge.v ===== *)
(** * The bridge pallet ([bridge/src/lib.rs])

    Deposits towards other domains, execution of proposals signed by the MPC
    address, and the administration of domains and pauses. *)

From S2P Require Import Prelude Xcm Frame Traits AccessSegregator Encode Eip712.

(** [Config] of the pallet.  [pallet_account] is the byte vector
    [PalletId::into_account_truncating] yields, and [error_str] the conversion of a
    [DispatchError] to its static string: both belong to FRAME. *)
Class BridgeConfig (L : Type) := {
  bridge_access :: AccessConfig;
  bridge_crypto :: Crypto;
  bridge_abi :: EthAbi;
  bridge_codec :: LocationCodec;
  transfer_reserve_accounts : gmap AssetId AccountId;
  dest_verifying_contract_address : bytes;
  eip712_chain_id : ChainID;
  fee_reserve_account : AccountId;
  bridge_fee_handler :: FeeHandler L;
  asset_transactor :: TransactAsset L;
  resource_pairs : list (AssetId * ResourceId);
  is_reserve :: ContainsPair;
  extract_dest_data :: ExtractDestinationData;
  pallet_account : bytes;
  bridge_pallet_index : Z;
  decimal_converter :: DecimalConverter;
  error_str : DispatchError -> bytes
}.

(** [iter().position(p)] *)
Fixpoint position {A} (p : A -> bool) (l : list A) : option nat :=
  match l with
  | [] => None
  | x :: l => if p x then Some 0%nat else S <$> position p l
  end.

(** [for x in l { f(x) }] *)
Fixpoint for_each {E S A} (f : A -> M E S unit) (l : list A) : M E S unit :=
  match l with
  | [] => mret tt
  | x :: l => f x;; for_each f l
  end.

(** [StorageMap::iter_keys()]: the stored keys, in the order of the storage. *)
Definition iter_keys {V} (m : gmap DomainID V) : list DomainID := (map_to_list m).*1.

Section Bridge.
Context {L : Type} `{BridgeConfig L}.
Abbreviation W := (World L).
Implicit Types (w : W) (origin : RawOrigin) (d : DomainID) (n : DepositNonce).

(** ** Helpers *)

(** [<sygma_access_segregator::Pallet<T>>::has_access(PalletIndex, name, origin)] *)
Definition ensure_access (name : string) (origin : RawOrigin) : M DispatchError W unit :=
  allowed ← gets (fun w => has_access w bridge_pallet_index (b_ name) origin);
  ensure allowed (ModBridge AccessDenied).

(** The sender named in an event: the zero account when the origin is not signed. *)
Definition event_sender (origin : RawOrigin) : AccountId :=
  match ensure_signed origin with Some sender => sender | None => replicate 32 0 end.

Definition is_paused w d : bool := get_or false (IsPaused (bridge w)) d.
Definition dest_domain_supported w d : bool := get_or false (DestDomainIds (bridge w)) d.

Definition get_token_reserved_account (token_id : AssetId) : option bytes :=
  transfer_reserve_accounts !! token_id.

Definition extract_asset (asset : MultiAsset) : option (ResourceId * Z * TransferType) :=
  match asset_fun asset with
  | Fungible amount =>
      idx ← position (fun a => bool_decide (a.1 = asset_id asset)) resource_pairs;
      a ← resource_pairs !! idx;
      Some (a.2, amount, FungibleTransfer)
  | NonFungible _ => None
  end.

Definition rid_to_assetid (rid : ResourceId) : option AssetId :=
  idx ← position (fun a => bool_decide (a.2 = rid)) resource_pairs;
  a ← resource_pairs !! idx;
  Some a.1.

Definition hex_zero_padding_32 (i : Z) : bytes := to_be 32 i.

Definition create_deposit_data (amount : Z) (recipient : bytes) : bytes :=
  concat [hex_zero_padding_32 amount;
          hex_zero_padding_32 (Z.of_nat (length recipient));
          recipient].

Definition extract_deposit_data (data : bytes) : outcome DispatchError (Z * MultiLocation) :=
  if Nat.ltb (length data) 64 then Err (ModBridge InvalidDepositData) else
  match try_into u128_max (from_be (slice 0 32 data)) with
  | None => Err (ModBridge InvalidDepositData)
  | Some amount =>
      match try_into usize_max (from_be (slice 32 64 data)) with
      | None => Err (ModBridge InvalidDepositData)
      | Some recipient_len =>
          if negb (Z.of_nat (length data) - 64 =? recipient_len)
          then Err (ModBridge InvalidDepositData) else
          let recipient := slice 64 (length data) data in
          match loc_decode recipient with
          | Some location => Ok (amount, location)
          | None => Err (ModBridge InvalidDepositData)
          end
      end
  end.

(** The bit of a nonce in the 64-bit words of [UsedNonces]. *)
Definition is_proposal_executed w (nonce : DepositNonce) (domain_id : DomainID) : bool :=
  negb (Z.land (get_or 0 (UsedNonces (bridge w)) (domain_id, nonce / 64))
               (wrap 64 (Z.shiftl 1 (nonce mod 64))) =? 0).

Definition set_proposal_executed (nonce : DepositNonce) (domain_id : DomainID)
    : M DispatchError W unit :=
  current_nonces ← bget (fun b => get_or 0 (UsedNonces b) (domain_id, nonce / 64));
  let current_nonces := Z.lor current_nonces (wrap 64 (Z.shiftl 1 (nonce mod 64))) in
  bset (set_used <[(domain_id, nonce / 64) := current_nonces]>).

Definition insert_all (v : bool) (keys : list DomainID) (m : gmap DomainID bool)
    : gmap DomainID bool :=
  fold_left (fun m d => <[d := v]> m) keys m.

Definition unpause_all_domains : M DispatchError W unit :=
  bset (fun b => set_paused (insert_all false (iter_keys (DestDomainIds b))) b);;
  bset (fun b => set_paused (insert_all false (iter_keys (IsPaused b))) b).

Definition pause_all_domains : M DispatchError W unit :=
  bset (fun b => set_paused (insert_all true (iter_keys (DestDomainIds b))) b);;
  bset (fun b => set_paused (insert_all true (iter_keys (IsPaused b))) b).

(** ** Administration *)

Definition pause_bridge (origin : RawOrigin) (dest_domain_id : DomainID)
    : M DispatchError W unit :=
  ensure_access "pause_bridge" origin;;
  supported ← gets (fun w => dest_domain_supported w dest_domain_id);
  ensure supported (ModBridge DestDomainNotSupported);;
  bset (set_paused <[dest_domain_id := true]>);;
  deposit_event (EvBridge (BridgePaused dest_domain_id)).

Definition unpause_bridge (origin : RawOrigin) (dest_domain_id : DomainID)
    : M DispatchError W unit :=
  ensure_access "unpause_bridge" origin;;
  supported ← gets (fun w => dest_domain_supported w dest_domain_id);
  ensure supported (ModBridge DestDomainNotSupported);;
  paused ← gets (fun w => is_paused w dest_domain_id);
  ensure paused (ModBridge ErrBridgeUnpaused);;
  bset (set_paused <[dest_domain_id := false]>);;
  deposit_event (EvBridge (BridgeUnpaused dest_domain_id)).

Definition set_mpc_address (origin : RawOrigin) (addr : MpcAddress)
    : M DispatchError W unit :=
  ensure_access "set_mpc_address" origin;;
  mpc ← bget MpcAddr;
  ensure (is_clear mpc) (ModBridge MpcAddrNotUpdatable);;
  bset (set_mpc addr);;
  unpause_all_domains.

Definition register_domain (origin : RawOrigin) (dest_domain_id : DomainID)
    (dest_chain_id : ChainID) : M DispatchError W unit :=
  ensure_access "register_domain" origin;;
  bset (set_domains <[dest_domain_id := true]> <[dest_domain_id := dest_chain_id]>);;
  deposit_event (EvBridge
    (RegisterDestDomain (event_sender origin) dest_domain_id dest_chain_id)).

Definition unregister_domain (origin : RawOrigin) (dest_domain_id : DomainID)
    (dest_chain_id : ChainID) : M DispatchError W unit :=
  ensure_access "unregister_domain" origin;;
  supported ← gets (fun w => dest_domain_supported w dest_domain_id);
  chain ← bget (fun b => DestChainIds b !! dest_domain_id);
  ensure (supported && bool_decide (is_Some chain)) (ModBridge DestDomainNotSupported);;
  co_chain_id ← match chain with Some c => mret c | None => panic end;
  ensure (co_chain_id =? dest_chain_id) (ModBridge DestChainIDNotMatch);;
  bset (set_domains (delete dest_domain_id) (delete dest_domain_id));;
  deposit_event (EvBridge
    (UnregisterDestDomain (event_sender origin) dest_domain_id dest_chain_id)).

Definition pause_all_bridges (origin : RawOrigin) : M DispatchError W unit :=
  ensure_access "pause_all_bridges" origin;;
  pause_all_domains;;
  deposit_event (EvBridge (AllBridgePaused (event_sender origin))).

Definition unpause_all_bridges (origin : RawOrigin) : M DispatchError W unit :=
  ensure_access "unpause_all_bridges" origin;;
  mpc ← bget MpcAddr;
  ensure (negb (is_clear mpc)) (ModBridge MissingMpcAddress);;
  unpause_all_domains;;
  deposit_event (EvBridge (AllBridgeUnpaused (event_sender origin))).

(** ** Deposits *)

Definition deposit_body (origin : RawOrigin) (asset : MultiAsset) (dest : MultiLocation)
    : M DispatchError W unit :=
  sender ← ok_or (ensure_signed origin) BadOrigin;
  mpc ← bget MpcAddr;
  ensure (negb (is_clear mpc)) (ModBridge MissingMpcAddress);;
  dest_data ← lift (extract_dest dest);
  '(recipient, dest_domain_id) ← ok_or dest_data (ModBridge ExtractDestDataFailed);
  paused ← gets (fun w => is_paused w dest_domain_id);
  ensure (negb paused) (ModBridge ErrBridgePaused);;
  supported ← gets (fun w => dest_domain_supported w dest_domain_id);
  ensure supported (ModBridge DestDomainNotSupported);;
  '(resource_id, amount, transfer_type) ←
    ok_or (extract_asset asset) (ModBridge AssetNotBound);
  quoted ← gets (fun w => get_fee w dest_domain_id asset);
  fee ← ok_or quoted (ModBridge MissingFeeConfig);
  ensure (fee <? amount) (ModBridge FeeTooExpensive);;
  map_err (fun _ => ModBridge TransactFailed)
    (withdraw_asset asset (loc_of_account sender) None);;
  map_err (fun _ => ModBridge TransactFailed)
    (deposit_asset (asset_of (asset_id asset) fee)
      (loc_of_account fee_reserve_account) no_message);;
  let bridge_amount := amount - fee in
  token_reserved_account ← ok_or (get_token_reserved_account (asset_id asset))
    (ModBridge NoLiquidityHolderAccountBound);
  (if contains asset loc_here then
     map_err (fun _ => ModBridge TransactFailed)
       (deposit_asset (asset_of (asset_id asset) bridge_amount)
         (loc_of_account token_reserved_account) no_message)
   else mret tt);;
  deposit_nonce ← bget (fun b => get_or 0 (DepositCounts b) dest_domain_id);
  next ← ok_or (checked_add u64_max deposit_nonce 1) (ModBridge DepositNonceOverflow);
  bset (set_counts <[dest_domain_id := next]>);;
  converted ← lift (convert_to (asset_of (asset_id asset) bridge_amount));
  decimal_converted_amount ← ok_or converted (ModBridge DecimalConversionFail);
  deposit_event (EvBridge (Deposit dest_domain_id resource_id deposit_nonce sender
    transfer_type (create_deposit_data decimal_converted_amount recipient) []));;
  deposit_event (EvBridge
    (FeeCollected sender dest_domain_id resource_id fee (asset_id asset))).

Definition deposit (origin : RawOrigin) (asset : MultiAsset) (dest : MultiLocation)
    : M DispatchError W unit :=
  transactional (deposit_body origin asset dest).

(** [Bridge for Pallet<T>] *)
Definition bridge_transfer (sender : bytes) (asset : MultiAsset) (dest : MultiLocation)
    (_max_weight : option Weight) : M DispatchError W unit :=
  deposit (Signed sender) asset dest.

Definition retry (origin : RawOrigin) (deposit_on_block_height : Z)
    (dest_domain_id : DomainID) : M DispatchError W unit :=
  transactional (
    ensure_access "retry" origin;;
    mpc ← bget MpcAddr;
    ensure (negb (is_clear mpc)) (ModBridge MissingMpcAddress);;
    paused ← gets (fun w => is_paused w dest_domain_id);
    ensure (negb paused) (ModBridge ErrBridgePaused);;
    supported ← gets (fun w => dest_domain_supported w dest_domain_id);
    ensure supported (ModBridge DestDomainNotSupported);;
    deposit_event (EvBridge
      (Retry deposit_on_block_height dest_domain_id (event_sender origin)))).

(** ** Execution of proposals *)

Definition execute_proposal_internal (proposal : Proposal) : M DispatchError W unit :=
  paused ← gets (fun w => is_paused w (origin_domain_id proposal));
  ensure (negb paused) (ModBridge ErrBridgePaused);;
  supported ← gets (fun w => dest_domain_supported w (origin_domain_id proposal));
  ensure supported (ModBridge DestDomainNotSupported);;
  executed ← gets (fun w =>
    is_proposal_executed w (deposit_nonce proposal) (origin_domain_id proposal));
  ensure (negb executed) (ModBridge ProposalAlreadyComplete);;
  asset_id ← ok_or (rid_to_assetid (resource_id proposal)) (ModBridge AssetNotBound);
  '(amount, location) ← lift (extract_deposit_data (data proposal));
  converted ← lift (convert_from (asset_of asset_id amount));
  decimal_converted_asset ← ok_or converted (ModBridge DecimalConversionFail);
  token_reserved_account ← ok_or (get_token_reserved_account asset_id)
    (ModBridge NoLiquidityHolderAccountBound);
  (if contains decimal_converted_asset loc_here then
     map_err (fun _ => ModBridge TransactFailed)
       (withdraw_asset decimal_converted_asset
         (loc_of_account token_reserved_account) None);;
     mret tt
   else mret tt);;
  map_err (fun _ => ModBridge TransactFailed)
    (deposit_asset decimal_converted_asset location no_message).

(** The loop body: a failed proposal is reported and the batch goes on. *)
Definition execute_one (proposal : Proposal) : M DispatchError W unit := fun w =>
  match execute_proposal_internal proposal w with
  | (Err e, w') =>
      deposit_event (EvBridge (FailedHandlerExecution (error_str e)
        (origin_domain_id proposal) (deposit_nonce proposal))) w'
  | (Ok _, w') =>
      (set_proposal_executed (deposit_nonce proposal) (origin_domain_id proposal);;
       deposit_event (EvBridge (ProposalExecution (origin_domain_id proposal)
         (deposit_nonce proposal)
         (keccak_256 (concat [data proposal; pallet_account]))))) w'
  | (Panic, w') => (Panic, w')
  end.

Definition execute_proposal (_origin : RawOrigin) (proposals : list Proposal)
    (signature : bytes) : M DispatchError W unit :=
  transactional (
    mpc ← bget MpcAddr;
    ensure (negb (is_clear mpc)) (ModBridge MissingMpcAddress);;
    ensure (negb (bool_decide (proposals = []))) (ModBridge EmptyProposalList);;
    let final_message := construct_ecdsa_signing_proposals_data eip712_chain_id
      dest_verifying_contract_address proposals in
    mpc ← bget MpcAddr;
    ensure (verify_by_mpc_address mpc final_message signature) (ModBridge BadMpcSignature);;
    for_each execute_one proposals).
End Bridge.
