(* ===== verification/BridgeNonces.v ===== *)
(** * Used nonces: the bit field of [UsedNonces] as a set

    [is_proposal_executed] and [set_proposal_executed] keep 64 nonces per stored
    word.  The lemmas here show that the words represent the set of executed
    (nonce, domain) pairs, that a write adds exactly one pair, and that the words
    stay within 64 bits. *)

From S2P Require Import Prelude Xcm Frame Traits AccessSegregator Encode Eip712 Bridge.

Lemma shift_bit k : 0 <= k < 64 -> wrap 64 (Z.shiftl 1 k) = 2 ^ k.
Proof.
  intros Hk. unfold wrap. rewrite Z.shiftl_1_l. apply Z.mod_small.
  split; [lia|]. apply Z.pow_lt_mono_r; lia.
Qed.

Lemma land_bit x k : 0 <= k -> negb (Z.land x (2 ^ k) =? 0) = Z.testbit x k.
Proof.
  intros Hk.
  assert (Z.land x (2 ^ k) = if Z.testbit x k then 2 ^ k else 0) as ->.
  { apply Z.bits_inj'. intros i Hi. rewrite Z.land_spec, Z.pow2_bits_eqb by lia.
    destruct (Z.eqb_spec k i) as [->|Hne].
    - destruct (Z.testbit x i); simpl; [by rewrite Z.pow2_bits_true|by rewrite Z.bits_0].
    - rewrite andb_false_r. destruct (Z.testbit x k); [|by rewrite Z.bits_0].
      rewrite Z.pow2_bits_false; [done|]. congruence. }
  pose proof (Z.pow_pos_nonneg 2 k). destruct (Z.testbit x k); [|done].
  destruct (Z.eqb_spec (2 ^ k) 0); [lia|done].
Qed.

Lemma lor_u64 x y : 0 <= x < 2 ^ 64 -> 0 <= y < 2 ^ 64 -> 0 <= Z.lor x y < 2 ^ 64.
Proof.
  intros Hx Hy. split; [apply Z.lor_nonneg; lia|].
  destruct (Z.eq_dec (Z.lor x y) 0) as [->|Hne]; [lia|].
  assert (0 < Z.lor x y) by (pose proof (proj2 (Z.lor_nonneg x y)); lia).
  apply Z.log2_lt_pow2; [done|]. rewrite Z.log2_lor by lia.
  apply Z.max_lub_lt;
    match goal with |- Z.log2 ?z < _ => destruct (Z.eq_dec z 0) as [->|] end;
    try (simpl; lia); apply Z.log2_lt_pow2; lia.
Qed.

Section Nonces.
Context {L : Type} `{BridgeConfig L}.
Abbreviation W := (World L).
Implicit Types (w : W) (d : DomainID) (n : DepositNonce).

Lemma is_proposal_executed_bit w n d :
  0 <= n ->
  is_proposal_executed w n d =
  Z.testbit (get_or 0 (UsedNonces (bridge w)) (d, n / 64)) (n mod 64).
Proof.
  intros Hn. unfold is_proposal_executed.
  pose proof (Z.mod_pos_bound n 64 ltac:(lia)).
  rewrite shift_bit by lia. apply land_bit. lia.
Qed.

(** The state after [set_proposal_executed]. *)
Definition mark w n d : W :=
  set_bridge (set_used <[(d, n / 64) :=
    Z.lor (get_or 0 (UsedNonces (bridge w)) (d, n / 64))
          (wrap 64 (Z.shiftl 1 (n mod 64)))]>) w.

Lemma set_proposal_executed_run n d w :
  set_proposal_executed n d w = (Ok tt, mark w n d).
Proof. reflexivity. Qed.

Lemma nonce_split n n' : n / 64 = n' / 64 -> n mod 64 = n' mod 64 -> n = n'.
Proof.
  intros Hq Hm. rewrite (Z.div_mod n 64), (Z.div_mod n' 64) by lia. congruence.
Qed.

Lemma mark_executed w n d n' d' :
  0 <= n -> 0 <= n' ->
  is_proposal_executed (mark w n d) n' d' =
  bool_decide ((n', d') = (n, d)) || is_proposal_executed w n' d'.
Proof.
  intros Hn Hn'. rewrite !is_proposal_executed_bit by done. unfold mark. simpl.
  pose proof (Z.mod_pos_bound n 64 ltac:(lia)).
  pose proof (Z.mod_pos_bound n' 64 ltac:(lia)).
  unfold get_or at 1. destruct (decide ((d, n / 64) = (d', n' / 64))) as [[= <- Hq]|Hne].
  - rewrite <- Hq, lookup_insert_eq. simpl. rewrite Z.lor_spec, shift_bit by lia.
    rewrite Z.pow2_bits_eqb by lia. rewrite orb_comm. f_equal.
    destruct (Z.eqb_spec (n mod 64) (n' mod 64)) as [Hm|Hm].
    + rewrite (nonce_split n n') by done. by rewrite bool_decide_eq_true_2.
    + rewrite bool_decide_eq_false_2; [done|]. intros [= ->]. by apply Hm.
  - rewrite lookup_insert_ne by done. rewrite bool_decide_eq_false_2; [done|].
    intros [= -> ->]. by apply Hne.
Qed.

(** Every word of the field is a [u64]. *)
Definition used_words_ok w : Prop :=
  map_Forall (fun _ x => 0 <= x < 2 ^ 64) (UsedNonces (bridge w)).

Lemma used_word_bound w k : used_words_ok w -> 0 <= get_or 0 (UsedNonces (bridge w)) k < 2 ^ 64.
Proof.
  intros Hok. unfold get_or. destruct (_ !! k) eqn:Hk; simpl; [|lia].
  by eapply Hok.
Qed.

Lemma mark_words_ok w n d : used_words_ok w -> used_words_ok (mark w n d).
Proof.
  intros Hok. unfold used_words_ok, mark. simpl. apply map_Forall_insert_2; [|done].
  pose proof (Z.mod_pos_bound n 64 ltac:(lia)). rewrite shift_bit by lia.
  apply lor_u64; [by apply used_word_bound|]. split; [lia|]. apply Z.pow_lt_mono_r; lia.
Qed.
End Nonces.
