(* ===== verification/BridgeDeposit.v ===== *)
(** * What a deposit does, and how deposits extend the chain state

    [deposit_effect] is the relational specification of a successful deposit.
    [ext] is the preorder of the changes a deposit may make: no administrative
    storage moves, events are appended, and the deposit nonces of the appended
    [Deposit] events of a domain are exactly the values its counter ran through. *)

From S2P Require Import Prelude Xcm Frame Traits AccessSegregator Encode Eip712 Bridge.

Section Evolution.
Context {L : Type}.
Abbreviation W := (World L).
Implicit Types (w : W) (d : DomainID) (evs : list RuntimeEvent).

Definition deposit_count w d : DepositNonce := get_or 0 (DepositCounts (bridge w)) d.

(** The nonces of the [Deposit] events towards [d], in order. *)
Definition deposit_nonce_of d (e : RuntimeEvent) : option DepositNonce :=
  match e with
  | EvBridge (Deposit d' _ n _ _ _ _) => if decide (d' = d) then Some n else None
  | _ => None
  end.
Definition deposit_nonces d evs : list DepositNonce := omap (deposit_nonce_of d) evs.

(** The events that report the outcome of a proposal. *)
Definition is_outcome (e : RuntimeEvent) : bool :=
  match e with
  | EvBridge (ProposalExecution _ _ _) | EvBridge (FailedHandlerExecution _ _ _) => true
  | _ => false
  end.

(** The storage no transfer may touch. *)
Definition statics w :=
  (ExtrinsicAccess w, AssetFees w, AssetFeeRate w, HandlerType w, ParachainId w,
   (IsPaused (bridge w), MpcAddr (bridge w), UsedNonces (bridge w),
    DestDomainIds (bridge w), DestChainIds (bridge w), BridgeStorageVersion (bridge w))).

Record ext w w' : Prop := {
  ext_statics : statics w' = statics w;
  ext_count d : deposit_count w d <= deposit_count w' d <=
                Z.max (deposit_count w d) u64_max;
  ext_events : exists evs, events w' = events w ++ evs /\
    Forall (fun e => is_outcome e = false) evs /\
    forall d, deposit_nonces d evs =
      seqZ (deposit_count w d) (deposit_count w' d - deposit_count w d)
}.

Lemma seqZ_app' m n1 n2 : 0 <= n1 -> 0 <= n2 -> seqZ m n1 ++ seqZ (m + n1) n2 = seqZ m (n1 + n2).
Proof. intros. by rewrite seqZ_app. Qed.

Global Instance ext_preorder : PreOrder ext.
Proof.
  split.
  - intros w. split; [done|intros; lia|]. exists []. rewrite app_nil_r.
    split_and!; [done|constructor|]. intros d. by rewrite Z.sub_diag.
  - intros w1 w2 w3 [Hs1 Hc1 (e1 & He1 & Ho1 & Hn1)] [Hs2 Hc2 (e2 & He2 & Ho2 & Hn2)].
    split; [congruence| |].
    + intros d. specialize (Hc1 d). specialize (Hc2 d). lia.
    + exists (e1 ++ e2). split_and!.
      * by rewrite He2, He1, app_assoc.
      * by apply Forall_app.
      * intros d. unfold deposit_nonces in *. rewrite omap_app, Hn1, Hn2.
        specialize (Hc1 d). specialize (Hc2 d).
        replace (deposit_count w2 d) with
          (deposit_count w1 d + (deposit_count w2 d - deposit_count w1 d)) at 2 by lia.
        rewrite seqZ_app' by lia. f_equal. lia.
Qed.

(** Appending an event that is neither a deposit nor an outcome. *)
Definition neutral (e : RuntimeEvent) : Prop :=
  is_outcome e = false /\ forall d, deposit_nonce_of d e = None.

Lemma ext_neutral_event e w : neutral e -> ext w (add_event e w).
Proof.
  intros [Ho Hn]. split; [done|intros d; unfold deposit_count; simpl; lia|].
  exists [e]. split_and!; [done|by repeat constructor|]. intros d.
  unfold deposit_nonces, deposit_count. simpl. rewrite Hn.
  by rewrite Z.sub_diag.
Qed.

Lemma ext_ledger w l : ext w (set_ledger l w).
Proof.
  split; [done|intros d; unfold deposit_count; simpl; lia|].
  exists []. rewrite app_nil_r. split_and!; [done|constructor|]. intros d.
  unfold deposit_count. simpl. by rewrite Z.sub_diag.
Qed.

(** Taking the next nonce of [d] and reporting it. *)
Lemma ext_deposit_event w d rid sender ty dd hr :
  deposit_count w d + 1 <= u64_max ->
  ext w (add_event (EvBridge (Deposit d rid (deposit_count w d) sender ty dd hr))
    (set_bridge (set_counts <[d := deposit_count w d + 1]>) w)).
Proof.
  intros Hmax.
  assert (Hc : forall d', deposit_count (add_event (EvBridge (Deposit d rid
      (deposit_count w d) sender ty dd hr))
      (set_bridge (set_counts <[d := deposit_count w d + 1]>) w)) d' =
      deposit_count w d' + if decide (d = d') then 1 else 0).
  { intros d'. unfold deposit_count at 1, get_or. simpl. rewrite lookup_insert.
    case_decide; subst; simpl; [done|]. unfold deposit_count, get_or. lia. }
  split; [done| |].
  - intros d'. rewrite Hc. case_decide; subst; lia.
  - eexists [_]. split_and!; [done|by repeat constructor|]. intros d'.
    rewrite Hc. unfold deposit_nonces. simpl. case_decide; subst.
    + replace (deposit_count w d' + 1 - deposit_count w d') with 1 by lia. done.
    + replace (deposit_count w d' + 0 - deposit_count w d') with 0 by lia. done.
Qed.

(** The deposit history of a domain: its events carry [0, 1, ..., count - 1]. *)
Definition deposits_numbered w : Prop :=
  forall d, 0 <= deposit_count w d <= u64_max /\
            deposit_nonces d (events w) = seqZ 0 (deposit_count w d).

Lemma ext_deposits_numbered w w' : ext w w' -> deposits_numbered w -> deposits_numbered w'.
Proof.
  intros [_ Hc (evs & He & _ & Hn)] Hd d. specialize (Hd d) as [Hb Hs].
  specialize (Hc d). specialize (Hn d). unfold deposit_nonces in *. split; [lia|].
  rewrite He, omap_app, Hs, Hn.
  replace (deposit_count w d) with (0 + deposit_count w d) at 2 by lia.
  rewrite seqZ_app' by lia. f_equal. lia.
Qed.

(** A computation that stays within [R] whenever it does not panic. *)
Definition preserves {E A} (R : W -> W -> Prop) (m : M E W A) : Prop :=
  forall w r w', m w = (r, w') -> r <> Panic -> R w w'.

Section Preserves.
Context (R : W -> W -> Prop) `{!PreOrder R}.

Lemma preserves_lift {E A} (r : outcome E A) : preserves R (lift r).
Proof. intros w r' w' [= _ <-] _. done. Qed.
Lemma preserves_ret {E A} (a : A) : preserves (E := E) R (mret a).
Proof. intros w r' w' [= _ <-] _. done. Qed.
Lemma preserves_gets {E A} (f : W -> A) : preserves (E := E) R (gets f).
Proof. intros w r' w' [= _ <-] _. done. Qed.
Lemma preserves_ensure {E} b (e : E) : preserves R (ensure b e).
Proof. by destruct b; intros w r' w' [= _ <-] _. Qed.
Lemma preserves_ok_or {E A} (o : option A) (e : E) : preserves R (ok_or o e).
Proof. by destruct o; intros w r' w' [= _ <-] _. Qed.
Lemma preserves_modify {E} (f : W -> W) :
  (forall w, R w (f w)) -> preserves (E := E) R (modify f).
Proof. intros Hf w r' w' [= _ <-] _. apply Hf. Qed.
Lemma preserves_map_err {E E' A} (f : E -> E') (m : M E W A) :
  preserves R m -> preserves R (map_err f m).
Proof.
  intros Hm w r w'. unfold map_err. destruct (m w) as [[]] eqn:Hr; intros [= <- <-] ?;
    try done; by eapply Hm.
Qed.
Lemma preserves_bind {E A B} (m : M E W A) (k : A -> M E W B) :
  preserves R m -> (forall a, preserves R (k a)) -> preserves R (m ≫= k).
Proof.
  intros Hm Hk w r w' Hr Hnp.
  apply bind_cases in Hr as [(a & t & H1 & H2)|[(e & H1 & ->)|[H1 ->]]].
  - etrans; [by eapply Hm|by eapply Hk].
  - by eapply Hm.
  - done.
Qed.
Lemma preserves_transactional {E A} (m : M E W A) :
  preserves R m -> preserves R (transactional m).
Proof.
  intros Hm w r w'. unfold transactional. destruct (m w) as [[]] eqn:Hr;
    intros [= <- <-] ?; try done; by eapply Hm.
Qed.
End Preserves.
End Evolution.

(** [preserve] walks through a computation and leaves the steps that write. *)
Ltac preserve_step :=
  lazymatch goal with
  | |- preserves _ (mbind _ _) => apply preserves_bind; [typeclasses eauto| |intro]
  | |- preserves _ (lift _) => apply preserves_lift; typeclasses eauto
  | |- preserves _ (mret _) => apply preserves_ret; typeclasses eauto
  | |- preserves _ (gets _) => apply preserves_gets; typeclasses eauto
  | |- preserves _ (ensure _ _) => apply preserves_ensure; typeclasses eauto
  | |- preserves _ (ok_or _ _) => apply preserves_ok_or; typeclasses eauto
  | |- preserves _ (map_err _ _) => apply preserves_map_err
  | |- preserves _ (transactional _) => apply preserves_transactional; [typeclasses eauto|]
  | |- preserves _ (modify _) => apply preserves_modify; intro
  | |- preserves _ (match ?p with pair _ _ => _ end) => destruct p
  | |- preserves _ (if ?b then _ else _) => destruct b
  end.
Create HintDb preserves.
Ltac preserve := repeat (unfold bget, bset, deposit_event; preserve_step);
  eauto with preserves.

(** An asset transactor that only extends the state.  For the balance and asset
    adapters of the XCM crates, which write their own pallets' storage and events;
    for [XCMAssetTransactor], see [Forwarder.v]. *)
Class TransactorExt (L : Type) `{TransactAsset L} : Prop := {
  withdraw_ext what who ctx : preserves ext (withdraw_asset what who ctx);
  deposit_ext what who ctx : preserves ext (deposit_asset what who ctx)
}.

#[export] Hint Resolve withdraw_ext deposit_ext : preserves.

Section Deposit.
Context {L : Type} `{BridgeConfig L}.
Abbreviation W := (World L).
Implicit Types (w : W) (d : DomainID).

(** What holds when [deposit origin asset dest] succeeds from [w] in [w']. *)
Inductive deposit_effect w (origin : RawOrigin) (asset : MultiAsset) (dest : MultiLocation)
    : W -> Prop :=
| deposit_effect_intro sender recipient d rid amount fee account taken converted w1 w2 w3 :
    origin = Signed sender ->
    MpcAddr (bridge w) <> mpc_default ->
    extract_dest dest = Ok (Some (recipient, d)) ->
    is_paused w d = false ->
    dest_domain_supported w d = true ->
    extract_asset asset = Some (rid, amount, FungibleTransfer) ->
    get_fee w d asset = Some fee ->
    fee < amount ->
    withdraw_asset asset (loc_of_account sender) None w = (Ok taken, w1) ->
    deposit_asset (asset_of (asset_id asset) fee) (loc_of_account fee_reserve_account)
      no_message w1 = (Ok tt, w2) ->
    get_token_reserved_account (asset_id asset) = Some account ->
    (if contains asset loc_here
     then deposit_asset (asset_of (asset_id asset) (amount - fee)) (loc_of_account account)
            no_message w2 = (Ok tt, w3)
     else w3 = w2) ->
    deposit_count w3 d + 1 <= u64_max ->
    convert_to (asset_of (asset_id asset) (amount - fee)) = Ok (Some converted) ->
    deposit_effect w origin asset dest
      (add_event (EvBridge (FeeCollected sender d rid fee (asset_id asset)))
      (add_event (EvBridge (Deposit d rid (deposit_count w3 d) sender FungibleTransfer
         (create_deposit_data converted recipient) []))
      (set_bridge (set_counts <[d := deposit_count w3 d + 1]>) w3))).

Lemma extract_asset_fungible asset rid amount ty :
  extract_asset asset = Some (rid, amount, ty) ->
  ty = FungibleTransfer /\ asset_fun asset = Fungible amount.
Proof.
  unfold extract_asset. destruct (asset_fun asset); [|done].
  intros Ha. destruct (position _ _); simpl in Ha; [|done].
  destruct (_ !! _); simpl in Ha; naive_solver.
Qed.

Lemma is_clear_false a : negb (is_clear a) = true <-> a <> mpc_default.
Proof.
  unfold is_clear. rewrite negb_true_iff, bool_decide_eq_false. done.
Qed.

Lemma checked_add_inv m a b c : checked_add m a b = Some c -> a + b <= m /\ c = a + b.
Proof. unfold checked_add. case_match; naive_solver lia. Qed.

Lemma deposit_ok_effect w origin asset dest w' :
  deposit origin asset dest w = (Ok tt, w') -> deposit_effect w origin asset dest w'.
Proof.
  intros Hr. unfold deposit, deposit_body in Hr. inv_frame Hr.
  destruct (extract_asset_fungible asset _ _ _ ltac:(done)) as [-> _].
  match goal with Hc : checked_add _ _ _ = _ |- _ => apply checked_add_inv in Hc as [? ->] end.
  destruct origin as [|sender|]; simplify_eq/=.
  eapply deposit_effect_intro; eauto.
  - by apply is_clear_false.
  - by apply negb_true_iff.
  - lia.
  - destruct (contains asset loc_here); [by eapply map_err_ok_inv|].
    unfold mret, M_ret in *. by simplify_eq.
Qed.

Lemma deposit_effect_ok w origin asset dest w' :
  deposit_effect w origin asset dest w' -> deposit origin asset dest w = (Ok tt, w').
Proof.
  intros [sender recipient d rid amount fee account taken converted w1 w2 w3
    -> Hmpc Hdest Hp Hs Ha Hf Hlt Hw Hd1 Hacc Hres Hmax Hconv].
  apply transactional_ok. unfold deposit_body. run_frame. simpl.
  rewrite (proj2 (is_clear_false _) Hmpc), Hdest, Hp. simpl.
  rewrite Hs, Ha, Hf, (proj2 (Z.ltb_lt _ _) Hlt), Hw, Hd1, Hacc.
  unfold deposit_count in *. destruct (contains asset loc_here); [rewrite Hres|subst w3];
    unfold checked_add; rewrite (proj2 (Z.leb_le _ _) Hmax); simpl; by rewrite Hconv.
Qed.

Lemma deposit_err_unchanged w origin asset dest e w' :
  deposit origin asset dest w = (Err e, w') -> w' = w.
Proof. apply transactional_err. Qed.

(** The guards of [deposit] before any asset moves, and the error of the first that
    does not hold. *)
Definition deposit_refusal w (origin : RawOrigin) (asset : MultiAsset)
    (dest : MultiLocation) : option DispatchError :=
  match ensure_signed origin with
  | None => Some BadOrigin
  | Some _ =>
      if is_clear (MpcAddr (bridge w)) then Some (ModBridge MissingMpcAddress) else
      match extract_dest dest with
      | Ok None => Some (ModBridge ExtractDestDataFailed)
      | Ok (Some (_, d)) =>
          if is_paused w d then Some (ModBridge ErrBridgePaused)
          else if negb (dest_domain_supported w d)
          then Some (ModBridge DestDomainNotSupported) else
          match extract_asset asset with
          | None => Some (ModBridge AssetNotBound)
          | Some (_, amount, _) =>
              match get_fee w d asset with
              | None => Some (ModBridge MissingFeeConfig)
              | Some fee =>
                  if amount <=? fee then Some (ModBridge FeeTooExpensive) else None
              end
          end
      | Err e => Some e
      | Panic => None
      end
  end.

Lemma deposit_refused w origin asset dest e :
  deposit_refusal w origin asset dest = Some e ->
  deposit origin asset dest w = (Err e, w).
Proof.
  unfold deposit_refusal, deposit, deposit_body. run_frame. intros Hr.
  destruct (ensure_signed origin); [|by simplify_eq].
  destruct (is_clear _); simpl; [by simplify_eq|].
  destruct (extract_dest dest) as [[[recipient d]|]|e'|]; simplify_eq; try done.
  destruct (is_paused w d); simpl; [by simplify_eq|].
  destruct (dest_domain_supported w d); simpl in *; [|by simplify_eq].
  destruct (extract_asset asset) as [[[rid amount] ty]|]; simpl; [|by simplify_eq].
  destruct (get_fee w d asset) as [fee|]; simpl; [|by simplify_eq].
  destruct (Z.leb_spec amount fee); simplify_eq.
  by rewrite (proj2 (Z.ltb_ge _ _)) by lia.
Qed.

(** A deposit that passes the guards fails when the sender cannot be debited. *)
Lemma deposit_withdraw_fails w sender asset dest e w1 :
  deposit_refusal w (Signed sender) asset dest = None -> extract_dest dest <> Panic ->
  withdraw_asset asset (loc_of_account sender) None w = (Err e, w1) ->
  deposit (Signed sender) asset dest w = (Err (ModBridge TransactFailed), w).
Proof.
  unfold deposit_refusal, deposit, deposit_body. run_frame. simpl. intros Hr Hnp Hw.
  destruct (is_clear _); simpl; [by simplify_eq|].
  destruct (extract_dest dest) as [[[recipient d]|]|e'|]; simplify_eq; try done.
  destruct (is_paused w d); simpl; [by simplify_eq|].
  destruct (dest_domain_supported w d); simpl in *; [|by simplify_eq].
  destruct (extract_asset asset) as [[[rid amount] ty]|]; simpl; [|by simplify_eq].
  destruct (get_fee w d asset) as [fee|]; simpl; [|by simplify_eq].
  destruct (Z.leb_spec amount fee); simplify_eq.
  rewrite (proj2 (Z.ltb_lt _ _)) by lia. simpl. by rewrite Hw.
Qed.

(** A destination parser that panics takes the extrinsic down. *)
Lemma deposit_panics w sender asset dest :
  is_clear (MpcAddr (bridge w)) = false -> extract_dest dest = Panic ->
  deposit (Signed sender) asset dest w = (Panic, w).
Proof.
  intros Hm Hd. unfold deposit, deposit_body. run_frame. simpl. rewrite Hm. simpl.
  by rewrite Hd.
Qed.

(** A deposit that succeeds passed every guard. *)
Lemma deposit_ok_not_refused w origin asset dest w' :
  deposit origin asset dest w = (Ok tt, w') -> deposit_refusal w origin asset dest = None.
Proof.
  intros Hr. destruct (deposit_refusal w origin asset dest) eqn:He; [|done].
  apply deposit_refused in He. congruence.
Qed.

Lemma deposit_body_static w origin asset dest w' `{!TransactorExt L} :
  deposit_effect w origin asset dest w' -> ext w w'.
Proof.
  intros [sender recipient d rid amount fee account taken converted w1 w2 w3
    -> Hmpc Hdest Hp Hs Ha Hf Hlt Hw Hd1 Hacc Hres Hmax Hconv].
  assert (ext w2 w3) as H3.
  { destruct (contains asset loc_here); [|by subst]. by apply (deposit_ext _ _ _ _ _ _ Hres). }
  etrans; [by apply (withdraw_ext _ _ _ _ _ _ Hw)|].
  etrans; [by apply (deposit_ext _ _ _ _ _ _ Hd1)|]. etrans; [exact H3|].
  etrans; [by apply ext_deposit_event|]. by apply ext_neutral_event.
Qed.

(** Any deposit, successful or not, stays within [ext]. *)
Lemma deposit_preserves_ext origin asset dest `{!TransactorExt L} :
  preserves ext (deposit origin asset dest).
Proof.
  intros w [[]|e|] w' Hr Hnp; [|by apply deposit_err_unchanged in Hr as ->|done].
  apply (deposit_body_static w origin asset dest w'). by apply deposit_ok_effect.
Qed.
End Deposit.

#[export] Hint Resolve deposit_preserves_ext : preserves.
