(* ===== verification/BridgeExecute.v ===== *)
(** * Execution of proposal batches

    What one proposal and one batch do, and the history invariant behind replay
    protection: the [ProposalExecution] events and the bit field of [UsedNonces]
    describe the same set, each pair at most once. *)

From S2P Require Import Prelude Xcm Frame Traits AccessSegregator Encode Eip712 Bridge.
From S2P Require Import BridgeNonces BridgeDeposit.

Section Outcomes.
Context {L : Type}.
Implicit Types (evs : list RuntimeEvent).

(** The outcome an event reports: domain, nonce, and whether it was executed. *)
Definition outcome_of (e : RuntimeEvent) : option (DomainID * DepositNonce * bool) :=
  match e with
  | EvBridge (ProposalExecution d n _) => Some (d, n, true)
  | EvBridge (FailedHandlerExecution _ d n) => Some (d, n, false)
  | _ => None
  end.
Definition outcomes evs := omap outcome_of evs.

(** How often the events report the execution of a proposal. *)
Definition executions (d : DomainID) (n : DepositNonce) evs : nat :=
  length (filter (fun o => o = (d, n, true)) (outcomes evs)).

Lemma outcomes_app evs1 evs2 : outcomes (evs1 ++ evs2) = outcomes evs1 ++ outcomes evs2.
Proof. apply omap_app. Qed.

Lemma executions_app d n evs1 evs2 :
  executions d n (evs1 ++ evs2) = (executions d n evs1 + executions d n evs2)%nat.
Proof. unfold executions. by rewrite outcomes_app, filter_app, length_app. Qed.

Lemma outcomes_none evs : Forall (fun e => is_outcome e = false) evs -> outcomes evs = [].
Proof.
  induction 1 as [|e evs He _ IH]; [done|]. unfold outcomes in *. simpl.
  destruct e as [| | | |[]| | |]; simpl in *; done.
Qed.

Lemma executions_none d n evs :
  Forall (fun e => is_outcome e = false) evs -> executions d n evs = 0%nat.
Proof. intros He. unfold executions. by rewrite outcomes_none. Qed.
End Outcomes.

Section Execute.
Context {L : Type} `{BridgeConfig L}.
Abbreviation W := (World L).
Implicit Types (w : W) (p : Proposal) (d : DomainID) (n : DepositNonce).

Definition reported_hash p : bytes := keccak_256 (concat [data p; pallet_account]).
Definition executed_event p : RuntimeEvent :=
  EvBridge (ProposalExecution (origin_domain_id p) (deposit_nonce p) (reported_hash p)).
Definition failed_event (e : DispatchError) p : RuntimeEvent :=
  EvBridge (FailedHandlerExecution (error_str e) (origin_domain_id p) (deposit_nonce p)).

(** A successful run of [execute_proposal_internal]. *)
Record internal_effect w p w' : Prop := {
  ie_unpaused : is_paused w (origin_domain_id p) = false;
  ie_supported : dest_domain_supported w (origin_domain_id p) = true;
  ie_fresh : is_proposal_executed w (deposit_nonce p) (origin_domain_id p) = false;
  ie_moves : exists aid amount location asset account w1,
    rid_to_assetid (resource_id p) = Some aid /\
    extract_deposit_data (data p) = Ok (amount, location) /\
    convert_from (asset_of aid amount) = Ok (Some asset) /\
    get_token_reserved_account aid = Some account /\
    (if contains asset loc_here
     then exists taken, withdraw_asset asset (loc_of_account account) None w = (Ok taken, w1)
     else w1 = w) /\
    deposit_asset asset location no_message w1 = (Ok tt, w')
}.

Lemma execute_internal_ok_effect w p w' :
  execute_proposal_internal p w = (Ok tt, w') <-> internal_effect w p w'.
Proof.
  unfold execute_proposal_internal. split.
  - intros Hr. inv_frame Hr. split; [by apply negb_true_iff|done|by apply negb_true_iff|].
    do 6 eexists. split_and!; try done.
    match goal with |- if ?b then _ else _ => destruct b end.
    + match goal with Hm : (map_err _ _ ≫= _) _ = _ |- _ => inv_frame Hm end. by eexists.
    + by match goal with Hm : mret _ _ = _ |- _ => inv_frame Hm end.
  - intros [Hp Hs Hf (aid & amount & loc & asset & acc & w1 & Hr & He & Hc & Ha & Hw & Hd)].
    run_frame. rewrite Hp. simpl. rewrite Hs, Hf. simpl. rewrite Hr, He, Hc, Ha.
    destruct (contains asset loc_here).
    + destruct Hw as [taken ->]. by rewrite Hd.
    + subst. by rewrite Hd.
Qed.

(** The guards of a proposal before any asset moves, and the error of the first that
    does not hold. *)
Definition proposal_refusal w p : option DispatchError :=
  if is_paused w (origin_domain_id p) then Some (ModBridge ErrBridgePaused)
  else if negb (dest_domain_supported w (origin_domain_id p))
  then Some (ModBridge DestDomainNotSupported)
  else if is_proposal_executed w (deposit_nonce p) (origin_domain_id p)
  then Some (ModBridge ProposalAlreadyComplete) else
  match rid_to_assetid (resource_id p) with
  | None => Some (ModBridge AssetNotBound)
  | Some aid =>
      match extract_deposit_data (data p) with
      | Err e => Some e
      | Panic => None
      | Ok (amount, _) =>
          match convert_from (asset_of aid amount) with
          | Ok None => Some (ModBridge DecimalConversionFail)
          | Ok (Some _) =>
              match get_token_reserved_account aid with
              | None => Some (ModBridge NoLiquidityHolderAccountBound)
              | Some _ => None
              end
          | Err e => Some e
          | Panic => None
          end
      end
  end.

Lemma execute_internal_refused w p e :
  proposal_refusal w p = Some e -> execute_proposal_internal p w = (Err e, w).
Proof.
  unfold proposal_refusal, execute_proposal_internal. run_frame. intros Hr.
  destruct (is_paused _ _); simpl; [by simplify_eq|].
  destruct (dest_domain_supported _ _); simpl in *; [|by simplify_eq].
  destruct (is_proposal_executed _ _ _); simpl; [by simplify_eq|].
  destruct (rid_to_assetid _); [|by simplify_eq].
  destruct (extract_deposit_data _) as [[amount location]| |]; try (by simplify_eq).
  destruct (convert_from _) as [[asset|]| |]; try (by simplify_eq).
  by destruct (get_token_reserved_account _); simplify_eq.
Qed.

(** A refused proposal is reported and changes nothing else. *)
Lemma execute_one_refused w p e :
  proposal_refusal w p = Some e ->
  execute_one p w = (Ok tt, add_event (failed_event e p) w).
Proof.
  intros Hr. unfold execute_one. by rewrite (execute_internal_refused _ _ _ Hr).
Qed.

(** A proposal that passes the guards fails when the holding account cannot be debited. *)
Lemma execute_internal_withdraw_fails w p aid amount l out account e w1 :
  proposal_refusal w p = None -> rid_to_assetid (resource_id p) = Some aid ->
  extract_deposit_data (data p) = Ok (amount, l) ->
  convert_from (asset_of aid amount) = Ok (Some out) ->
  get_token_reserved_account aid = Some account -> contains out loc_here = true ->
  withdraw_asset out (loc_of_account account) None w = (Err e, w1) ->
  execute_proposal_internal p w = (Err (ModBridge TransactFailed), w1).
Proof.
  intros Href Hrid He Hc Hacc Hin Hw. revert Href.
  unfold proposal_refusal, execute_proposal_internal. run_frame.
  destruct (is_paused _ _); simpl; [done|]. destruct (dest_domain_supported _ _); simpl; [|done].
  destruct (is_proposal_executed _ _ _); simpl; [done|].
  rewrite Hrid, He, Hc, Hacc. simpl. rewrite Hin. intros _. unfold mbind. simpl. by rewrite Hw.
Qed.

Lemma execute_internal_preserves_ext p `{!TransactorExt L} :
  preserves ext (execute_proposal_internal p).
Proof.
  unfold execute_proposal_internal. preserve.
Qed.

(** One turn of the loop: the proposal's own effect, then exactly one report. *)
Lemma execute_one_cases p w r w' :
  execute_one p w = (r, w') -> r <> Panic ->
  r = Ok tt /\
  ((exists w1, execute_proposal_internal p w = (Ok tt, w1) /\
      w' = add_event (executed_event p) (mark w1 (deposit_nonce p) (origin_domain_id p))) \/
   (exists e w1, execute_proposal_internal p w = (Err e, w1) /\
      w' = add_event (failed_event e p) w1)).
Proof.
  unfold execute_one. destruct (execute_proposal_internal p w) as [[[]|e|] w1] eqn:Hi.
  - rewrite (bind_ok _ _ _ _ _ (set_proposal_executed_run _ _ _)).
    intros [= <- <-] _. split; [done|]. left. by eexists.
  - intros [= <- <-] _. split; [done|]. right. by do 2 eexists.
  - by intros [= <- <-].
Qed.

(** The batch as a chain of turns. *)
Inductive batch : list Proposal -> W -> W -> Prop :=
| batch_nil w : batch [] w w
| batch_cons p ps w w1 w2 :
    execute_one p w = (Ok tt, w1) -> batch ps w1 w2 -> batch (p :: ps) w w2.

Lemma for_each_batch ps w r w' :
  for_each execute_one ps w = (r, w') -> r <> Panic -> r = Ok tt /\ batch ps w w'.
Proof.
  revert w. induction ps as [|p ps IH]; intros w; simpl.
  - intros [= <- <-] _. split; [done|constructor].
  - intros Hr Hnp. apply bind_cases in Hr as [([] & w1 & H1 & H2)|[(e & H1 & ->)|[H1 ->]]].
    + destruct (IH _ H2 Hnp) as [-> Hb]. split; [done|]. by econstructor.
    + by destruct (execute_one_cases _ _ _ _ H1 ltac:(done)).
    + done.
Qed.

Lemma batch_for_each ps w w' : batch ps w w' -> for_each execute_one ps w = (Ok tt, w').
Proof.
  induction 1 as [|p ps w w1 w2 H1 _ IH]; [done|]. simpl. by rewrite (bind_ok _ _ _ _ _ H1).
Qed.

(** A batch panics only in one of its proposals, after those before it have run. *)
Lemma for_each_panics ps w w' :
  for_each execute_one ps w = (Panic, w') ->
  exists ps1 p ps2 w1, ps = ps1 ++ p :: ps2 /\ batch ps1 w w1 /\ (execute_one p w1).1 = Panic.
Proof.
  revert w. induction ps as [|p ps IH]; intros w; simpl; [done|].
  intros Hr. apply bind_cases in Hr as [([] & w1 & H1 & H2)|[(e & H1 & ?)|[H1 _]]]; [|done|].
  - destruct (IH _ H2) as (ps1 & q & ps2 & w2 & -> & Hb & Hq).
    exists (p :: ps1), q, ps2, w2. split_and!; [done|by econstructor|done].
  - exists [], p, ps, w. split_and!; [done|constructor|by rewrite H1].
Qed.

(** The conditions under which a batch is let through. *)
Definition authorised w (ps : list Proposal) (signature : bytes) : Prop :=
  MpcAddr (bridge w) <> mpc_default /\ ps <> [] /\
  verify_by_mpc_address (MpcAddr (bridge w))
    (construct_ecdsa_signing_proposals_data eip712_chain_id
       dest_verifying_contract_address ps) signature = true.

Lemma execute_proposal_guarded origin ps sig w :
  authorised w ps sig ->
  execute_proposal origin ps sig w = transactional (for_each execute_one ps) w.
Proof.
  intros (Hm & Hne & Hv). unfold execute_proposal, transactional.
  rewrite (bind_ok _ _ w (MpcAddr (bridge w)) w) by done.
  rewrite (proj2 (is_clear_false _) Hm), (bind_ok _ _ w tt w) by done.
  rewrite bool_decide_eq_false_2, (bind_ok _ _ w tt w) by done. cbv zeta.
  rewrite (bind_ok _ _ w (MpcAddr (bridge w)) w) by done.
  by rewrite Hv, (bind_ok _ _ w tt w) by done.
Qed.

Lemma execute_proposal_cases origin ps sig w r w' :
  execute_proposal origin ps sig w = (r, w') -> r <> Panic ->
  (r = Ok tt /\ authorised w ps sig /\ batch ps w w') \/
  (exists e, r = Err e /\ w' = w /\ ~ authorised w ps sig).
Proof.
  intros Hr Hnp. destruct r as [[]|e|]; [left|right|done].
  - unfold execute_proposal in Hr. inv_frame Hr. apply for_each_batch in Hr as [_ Hb]; [|done].
    split_and!; try done; [split_and!; try done; [by apply is_clear_false|]].
    match goal with Hb : negb (bool_decide (ps = [])) = true |- _ =>
      by apply negb_true_iff, bool_decide_eq_false in Hb end.
  - exists e. split_and!; [done|by eapply transactional_err|].
    intros Ha. rewrite execute_proposal_guarded in Hr by done. unfold transactional in Hr.
    destruct (for_each _ _ _) as [[| |] w1] eqn:Hf; try done.
    by apply for_each_batch in Hf as [? _].
Qed.

Lemma execute_proposal_authorised origin ps sig w w' :
  authorised w ps sig -> batch ps w w' -> execute_proposal origin ps sig w = (Ok tt, w').
Proof.
  intros Ha Hb. rewrite execute_proposal_guarded by done.
  by apply transactional_ok, batch_for_each.
Qed.

(** Any other batch is refused with the error of the first condition that fails. *)
Lemma execute_proposal_unauthorised origin ps sig w :
  ~ authorised w ps sig ->
  execute_proposal origin ps sig w =
  (Err (ModBridge
     (if is_clear (MpcAddr (bridge w)) then MissingMpcAddress
      else if bool_decide (ps = []) then EmptyProposalList else BadMpcSignature)), w).
Proof.
  intros Ha. unfold execute_proposal. run_frame.
  destruct (is_clear (MpcAddr (bridge w))) eqn:Hc; [done|]. simpl.
  destruct (bool_decide (ps = [])) eqn:He; [done|]. simpl.
  destruct (verify_by_mpc_address _ _ _) eqn:Hv; [|done]. destruct Ha.
  split_and!; [|by apply bool_decide_eq_false in He|done].
  apply is_clear_false. by rewrite Hc.
Qed.

Lemma execute_proposal_panics origin ps sig w w' :
  authorised w ps sig -> execute_proposal origin ps sig w = (Panic, w') ->
  exists ps1 p ps2 w1, ps = ps1 ++ p :: ps2 /\ batch ps1 w w1 /\ (execute_one p w1).1 = Panic.
Proof.
  intros Ha. rewrite execute_proposal_guarded by done. unfold transactional.
  destruct (for_each _ _ _) as [[| |] w1] eqn:Hf; intros [=]. by eapply for_each_panics.
Qed.

(** ** The history of executions *)

(** Events and bit field agree, and no pair is reported executed twice. *)
Definition executed_once w : Prop :=
  forall d n, 0 <= n ->
    executions d n (events w) = if is_proposal_executed w n d then 1%nat else 0%nat.

Lemma is_proposal_executed_ext w w' n d :
  UsedNonces (bridge w') = UsedNonces (bridge w) ->
  is_proposal_executed w' n d = is_proposal_executed w n d.
Proof. intros Hu. unfold is_proposal_executed. by rewrite Hu. Qed.

Lemma ext_used w w' : ext w w' -> UsedNonces (bridge w') = UsedNonces (bridge w).
Proof. intros [Hs _ _]. unfold statics in Hs. congruence. Qed.

Lemma ext_outcomes w w' : ext w w' -> outcomes (events w') = outcomes (events w).
Proof.
  intros [_ _ (evs & -> & Ho & _)]. rewrite outcomes_app, (outcomes_none evs) by done.
  by rewrite app_nil_r.
Qed.

Lemma ext_executed_once w w' : ext w w' -> executed_once w -> executed_once w'.
Proof.
  intros He Hw d n Hn. unfold executions. rewrite (ext_outcomes w w') by done.
  rewrite (is_proposal_executed_ext w w') by by apply ext_used. by apply Hw.
Qed.

Lemma outcomes_executed p w :
  outcomes (events (add_event (executed_event p) w)) =
  outcomes (events w) ++ [(origin_domain_id p, deposit_nonce p, true)].
Proof. simpl. by rewrite outcomes_app. Qed.

Lemma outcomes_failed e p w :
  outcomes (events (add_event (failed_event e p) w)) =
  outcomes (events w) ++ [(origin_domain_id p, deposit_nonce p, false)].
Proof. simpl. by rewrite outcomes_app. Qed.

Lemma executions_snoc d n (l : list (DomainID * DepositNonce * bool)) d' n' b :
  length (filter (fun o => o = (d, n, true)) (l ++ [(d', n', b)])) =
  (length (filter (fun o => o = (d, n, true)) l) +
   if decide ((d', n', b) = (d, n, true)) then 1 else 0)%nat.
Proof.
  rewrite filter_app, length_app. f_equal.
  destruct (decide ((d', n', b) = (d, n, true))) as [He|He].
  - by rewrite filter_cons_True.
  - by rewrite filter_cons_False.
Qed.

Lemma mark_executed_once p w :
  0 <= deposit_nonce p ->
  is_proposal_executed w (deposit_nonce p) (origin_domain_id p) = false ->
  executed_once w ->
  executed_once (add_event (executed_event p)
    (mark w (deposit_nonce p) (origin_domain_id p))).
Proof.
  intros Hp Hf Hw d n Hn. unfold executions. rewrite outcomes_executed, executions_snoc.
  change (events (mark w _ _)) with (events w).
  specialize (Hw d n Hn). unfold executions in Hw. rewrite Hw.
  change (is_proposal_executed (add_event _ ?x) n d) with (is_proposal_executed x n d).
  rewrite mark_executed by done.
  destruct (decide ((origin_domain_id p, deposit_nonce p, true) = (d, n, true)))
    as [[= <- <-]|Hne].
  - rewrite Hf. by rewrite bool_decide_eq_true_2.
  - rewrite bool_decide_eq_false_2 by congruence. by rewrite Nat.add_0_r.
Qed.

Lemma fail_executed_once e p w :
  executed_once w -> executed_once (add_event (failed_event e p) w).
Proof.
  intros Hw d n Hn. unfold executions. rewrite outcomes_failed, executions_snoc.
  rewrite decide_False by congruence. rewrite Nat.add_0_r. by apply Hw.
Qed.

Context `{!TransactorExt L}.

Lemma internal_ext p w r w1 :
  execute_proposal_internal p w = (r, w1) -> r <> Panic -> ext w w1.
Proof. by apply execute_internal_preserves_ext. Qed.

Lemma internal_fresh p w w1 :
  execute_proposal_internal p w = (Ok tt, w1) ->
  is_proposal_executed w1 (deposit_nonce p) (origin_domain_id p) = false.
Proof.
  intros Hi. rewrite (is_proposal_executed_ext w w1).
  - apply execute_internal_ok_effect in Hi. by apply Hi.
  - apply ext_used. by eapply internal_ext.
Qed.

Lemma execute_one_executed_once p w w' :
  0 <= deposit_nonce p -> execute_one p w = (Ok tt, w') ->
  executed_once w -> executed_once w'.
Proof.
  intros Hp Hr Hw.
  apply execute_one_cases in Hr as [_ [(w1 & Hi & ->)|(e & w1 & Hi & ->)]]; [| |done].
  - apply mark_executed_once; [done|by eapply internal_fresh|].
    eapply ext_executed_once; [|done]. by eapply internal_ext.
  - apply fail_executed_once. eapply ext_executed_once; [|done]. by eapply internal_ext.
Qed.

Lemma batch_executed_once ps w w' :
  Forall (fun p => 0 <= deposit_nonce p) ps -> batch ps w w' ->
  executed_once w -> executed_once w'.
Proof.
  intros Hps Hb. induction Hb as [|p ps w w1 w2 H1 _ IH]; [done|].
  apply Forall_cons in Hps as [Hp Hps]. intros Hw. apply IH; [done|].
  by eapply execute_one_executed_once.
Qed.

(** A batch reports each of its proposals once, in order. *)
Definition keys (os : list (DomainID * DepositNonce * bool)) : list (DomainID * DepositNonce) :=
  os.*1.

Lemma execute_one_outcome p w w' :
  execute_one p w = (Ok tt, w') ->
  exists b, outcomes (events w') =
    outcomes (events w) ++ [(origin_domain_id p, deposit_nonce p, b)].
Proof.
  intros Hr. apply execute_one_cases in Hr as [_ [(w1 & Hi & ->)|(e & w1 & Hi & ->)]]; [| |done].
  - exists true. rewrite outcomes_executed.
    change (events (mark w1 _ _)) with (events w1).
    by rewrite (ext_outcomes w w1) by by eapply internal_ext.
  - exists false. rewrite outcomes_failed.
    by rewrite (ext_outcomes w w1) by by eapply internal_ext.
Qed.

Lemma batch_outcomes ps w w' :
  batch ps w w' ->
  exists os, outcomes (events w') = outcomes (events w) ++ os /\
    keys os = (fun p => (origin_domain_id p, deposit_nonce p)) <$> ps.
Proof.
  induction 1 as [|p ps w w1 w2 H1 _ (os & Ho & Hk)].
  - exists []. by rewrite app_nil_r.
  - destruct (execute_one_outcome _ _ _ H1) as [b Hb].
    exists ((origin_domain_id p, deposit_nonce p, b) :: os). split.
    + rewrite Ho, Hb, <- app_assoc. done.
    + unfold keys in *. rewrite !fmap_cons, Hk. done.
Qed.

(** An executed proposal is executed for good: later batches cannot clear a bit. *)
Lemma execute_one_keeps_executed p w w' n d :
  0 <= deposit_nonce p -> 0 <= n -> execute_one p w = (Ok tt, w') ->
  is_proposal_executed w n d = true -> is_proposal_executed w' n d = true.
Proof.
  intros Hp Hn Hr Hu.
  apply execute_one_cases in Hr as [_ [(w1 & Hi & ->)|(e & w1 & Hi & ->)]]; [| |done];
    apply internal_ext in Hi; try done; apply ext_used in Hi.
  - change (is_proposal_executed (add_event _ ?x) n d) with (is_proposal_executed x n d).
    rewrite mark_executed by done. rewrite (is_proposal_executed_ext w w1) by done.
    rewrite Hu. by rewrite orb_true_r.
  - by rewrite (is_proposal_executed_ext w (add_event _ w1)).
Qed.

(** The guards of a proposal and of a batch read static storage only. *)
Lemma statics_refusal w w' p :
  statics w' = statics w -> proposal_refusal w' p = proposal_refusal w p.
Proof.
  unfold statics. intros Hs. injection Hs as _ _ _ _ _ Hp _ Hu Hd _ _.
  unfold proposal_refusal, is_paused, dest_domain_supported, is_proposal_executed.
  by rewrite Hp, Hu, Hd.
Qed.
Lemma statics_authorised w w' ps sig :
  statics w' = statics w -> authorised w ps sig -> authorised w' ps sig.
Proof.
  unfold statics. intros Hs. injection Hs as _ _ _ _ _ _ Hm _ _ _ _.
  unfold authorised. by rewrite Hm.
Qed.

(** The report on a proposal that is already executed: the first guard that fails. *)
Definition executed_report w p : BridgeError :=
  if is_paused w (origin_domain_id p) then ErrBridgePaused
  else if negb (dest_domain_supported w (origin_domain_id p)) then DestDomainNotSupported
  else ProposalAlreadyComplete.

Lemma executed_refusal w p :
  is_proposal_executed w (deposit_nonce p) (origin_domain_id p) = true ->
  proposal_refusal w p = Some (ModBridge (executed_report w p)).
Proof.
  intros He. unfold proposal_refusal, executed_report. rewrite He. by repeat case_match.
Qed.

Lemma batch_one p w w' : execute_one p w = (Ok tt, w') -> batch [p] w w'.
Proof. intros Hr. econstructor; [done|constructor]. Qed.
Lemma batch_app ps qs w w1 w2 : batch ps w w1 -> batch qs w1 w2 -> batch (ps ++ qs) w w2.
Proof. induction 1; simpl; [done|]. intros Hq. econstructor; eauto. Qed.

(** A proposal that is already executed on an open domain is only reported, however
    often a batch repeats it. *)
Definition reported_complete (p : Proposal) (n : nat) w : W :=
  Nat.iter n (add_event (failed_event (ModBridge ProposalAlreadyComplete) p)) w.

Lemma batch_repeats p (n : nat) w :
  is_paused w (origin_domain_id p) = false ->
  dest_domain_supported w (origin_domain_id p) = true ->
  is_proposal_executed w (deposit_nonce p) (origin_domain_id p) = true ->
  batch (replicate n p) w (reported_complete p n w).
Proof.
  revert w. induction n as [|n IH]; intros w Hp Hs He; simpl; [constructor|].
  econstructor.
  - apply execute_one_refused. unfold proposal_refusal. by rewrite Hp, Hs, He.
  - unfold reported_complete. simpl. rewrite <- Nat.iter_swap. by apply IH.
Qed.
End Execute.

#[export] Hint Resolve execute_internal_preserves_ext : preserves.
