(* ===== verification/BridgeAdmin.v ===== *)
(** * Administration of domains, pauses and the MPC address

    Closed forms of the administrative extrinsics, and the meaning of the loops
    over the stored domains. *)

From S2P Require Import Prelude Xcm Frame Traits AccessSegregator Encode Eip712 Bridge.
From S2P Require Import BridgeDeposit.

Section Loops.
Implicit Types (m : gmap DomainID bool) (ks : list DomainID) (d : DomainID).

Lemma insert_all_lookup v ks m d :
  insert_all v ks m !! d = if decide (d ∈ ks) then Some v else m !! d.
Proof.
  unfold insert_all. revert m. induction ks as [|k ks IH]; intros m;
    cbn [fold_left].
  - rewrite decide_False; [done|]. apply not_elem_of_nil.
  - rewrite IH. destruct (decide (d ∈ ks)) as [Hd|Hd].
    + rewrite decide_True; [done|]. by apply list_elem_of_further.
    + rewrite lookup_insert. destruct (decide (k = d)) as [->|Hk].
      * rewrite decide_True; [done|]. apply list_elem_of_here.
      * rewrite decide_False; [done|]. rewrite elem_of_cons. by intros [->|].
Qed.

Lemma iter_keys_elem {V} (m : gmap DomainID V) d : d ∈ iter_keys m <-> d ∈ dom m.
Proof.
  unfold iter_keys. rewrite list_elem_of_fmap, elem_of_dom. split.
  - intros ([k v] & -> & Hk). apply elem_of_map_to_list in Hk. by eexists.
  - intros [v Hv]. exists (d, v). by rewrite elem_of_map_to_list.
Qed.

(** The loops write the same map whatever the order in which the keys come. *)
Lemma insert_all_order v ks ks' m :
  ks ≡ₚ ks' -> insert_all v ks m = insert_all v ks' m.
Proof.
  intros Hp. apply map_eq. intros d. rewrite !insert_all_lookup.
  assert (d ∈ ks <-> d ∈ ks') by by rewrite Hp. repeat case_decide; tauto.
Qed.
End Loops.

Section Admin.
Context {L : Type} `{BridgeConfig L}.
Abbreviation W := (World L).
Implicit Types (w : W) (origin : RawOrigin) (d : DomainID).

(** The guard every administrative extrinsic starts with. *)
Definition bridge_access_ok w (name : string) origin : bool :=
  has_access w bridge_pallet_index (b_ name) origin.

Lemma ensure_access_run name origin w :
  ensure_access name origin w =
  if bridge_access_ok w name origin then (Ok tt, w) else (Err (ModBridge AccessDenied), w).
Proof.
  unfold ensure_access, bridge_access_ok. run. by destruct (has_access _ _ _ _).
Qed.

(** The pause map after [pause_all_domains] or [unpause_all_domains]. *)
Definition set_all (v : bool) (b : BridgeStorage) : gmap DomainID bool :=
  let m := insert_all v (iter_keys (DestDomainIds b)) (IsPaused b) in
  insert_all v (iter_keys m) m.

Lemma pause_all_domains_run w :
  pause_all_domains w = (Ok tt, set_bridge (fun b => set_paused (fun _ => set_all true b) b) w).
Proof. reflexivity. Qed.
Lemma unpause_all_domains_run w :
  unpause_all_domains w =
  (Ok tt, set_bridge (fun b => set_paused (fun _ => set_all false b) b) w).
Proof. reflexivity. Qed.

(** Every domain that is registered or has a pause entry gets [v]; no other
    domain gets an entry. *)
Lemma set_all_lookup v b d :
  set_all v b !! d =
  if decide (d ∈ dom (DestDomainIds b) \/ d ∈ dom (IsPaused b)) then Some v else None.
Proof.
  unfold set_all. rewrite insert_all_lookup, insert_all_lookup.
  destruct (decide (d ∈ iter_keys (DestDomainIds b))) as [Hd|Hd].
  - rewrite (decide_True (P := _ \/ _)) by (left; by apply iter_keys_elem).
    by case_decide.
  - rewrite iter_keys_elem in Hd.
    destruct (decide (d ∈ dom (IsPaused b))) as [Hp|Hp].
    + rewrite (decide_True (P := _ \/ _)) by by right.
      rewrite decide_True; [done|]. rewrite iter_keys_elem, elem_of_dom, insert_all_lookup.
      rewrite decide_False by by rewrite iter_keys_elem. by apply elem_of_dom.
    + rewrite (decide_False (P := _ \/ _)) by tauto.
      rewrite not_elem_of_dom in Hp. rewrite Hp. by case_decide as Hk;
        [rewrite iter_keys_elem, elem_of_dom, insert_all_lookup, decide_False, Hp in Hk
           by (by rewrite iter_keys_elem); destruct Hk|].
Qed.

(** ** Closed forms *)

Lemma pause_bridge_run origin d w :
  pause_bridge origin d w =
  if negb (bridge_access_ok w "pause_bridge" origin) then (Err (ModBridge AccessDenied), w)
  else if negb (dest_domain_supported w d) then (Err (ModBridge DestDomainNotSupported), w)
  else (Ok tt, add_event (EvBridge (BridgePaused d))
                 (set_bridge (set_paused <[d := true]>) w)).
Proof.
  unfold pause_bridge. unfold mbind at 1, M_bind. rewrite ensure_access_run.
  destruct (bridge_access_ok _ _ _); [|done]. run_frame.
  by destruct (dest_domain_supported w d).
Qed.

Lemma unpause_bridge_run origin d w :
  unpause_bridge origin d w =
  if negb (bridge_access_ok w "unpause_bridge" origin) then (Err (ModBridge AccessDenied), w)
  else if negb (dest_domain_supported w d) then (Err (ModBridge DestDomainNotSupported), w)
  else if negb (is_paused w d) then (Err (ModBridge ErrBridgeUnpaused), w)
  else (Ok tt, add_event (EvBridge (BridgeUnpaused d))
                 (set_bridge (set_paused <[d := false]>) w)).
Proof.
  unfold unpause_bridge. unfold mbind at 1, M_bind. rewrite ensure_access_run.
  destruct (bridge_access_ok _ _ _); [|done]. run_frame.
  destruct (dest_domain_supported w d); [|done]. by destruct (is_paused w d).
Qed.

Lemma set_mpc_address_run origin addr w :
  set_mpc_address origin addr w =
  if negb (bridge_access_ok w "set_mpc_address" origin) then (Err (ModBridge AccessDenied), w)
  else if negb (is_clear (MpcAddr (bridge w))) then (Err (ModBridge MpcAddrNotUpdatable), w)
  else (Ok tt, set_bridge (fun b => set_paused (fun _ => set_all false b) (set_mpc addr b)) w).
Proof.
  unfold set_mpc_address. unfold mbind at 1, M_bind. rewrite ensure_access_run.
  destruct (bridge_access_ok _ _ _); [|done]. run_frame.
  by destruct (is_clear (MpcAddr (bridge w))).
Qed.

Lemma register_domain_run origin d c w :
  register_domain origin d c w =
  if negb (bridge_access_ok w "register_domain" origin) then (Err (ModBridge AccessDenied), w)
  else (Ok tt, add_event (EvBridge (RegisterDestDomain (event_sender origin) d c))
                 (set_bridge (set_domains <[d := true]> <[d := c]>) w)).
Proof.
  unfold register_domain. unfold mbind at 1, M_bind. rewrite ensure_access_run.
  by destruct (bridge_access_ok _ _ _).
Qed.

Lemma unregister_domain_run origin d c w :
  unregister_domain origin d c w =
  if negb (bridge_access_ok w "unregister_domain" origin)
  then (Err (ModBridge AccessDenied), w)
  else match DestChainIds (bridge w) !! d with
  | None => (Err (ModBridge DestDomainNotSupported), w)
  | Some c' =>
      if negb (dest_domain_supported w d) then (Err (ModBridge DestDomainNotSupported), w)
      else if negb (c' =? c) then (Err (ModBridge DestChainIDNotMatch), w)
      else (Ok tt, add_event (EvBridge (UnregisterDestDomain (event_sender origin) d c))
                     (set_bridge (set_domains (delete d) (delete d)) w))
  end.
Proof.
  unfold unregister_domain. unfold mbind at 1, M_bind. rewrite ensure_access_run.
  destruct (bridge_access_ok _ _ _); [|done]. run_frame.
  destruct (DestChainIds (bridge w) !! d) as [c'|] eqn:Hc.
  - rewrite bool_decide_eq_true_2 by by eexists. rewrite andb_true_r.
    destruct (dest_domain_supported w d); [|done]. by destruct (c' =? c).
  - rewrite bool_decide_eq_false_2 by by intros []. by rewrite andb_false_r.
Qed.

Lemma pause_all_bridges_run origin w :
  pause_all_bridges origin w =
  if negb (bridge_access_ok w "pause_all_bridges" origin)
  then (Err (ModBridge AccessDenied), w)
  else (Ok tt, add_event (EvBridge (AllBridgePaused (event_sender origin)))
                 (set_bridge (fun b => set_paused (fun _ => set_all true b) b) w)).
Proof.
  unfold pause_all_bridges. unfold mbind at 1, M_bind. rewrite ensure_access_run.
  by destruct (bridge_access_ok _ _ _).
Qed.

Lemma unpause_all_bridges_run origin w :
  unpause_all_bridges origin w =
  if negb (bridge_access_ok w "unpause_all_bridges" origin)
  then (Err (ModBridge AccessDenied), w)
  else if is_clear (MpcAddr (bridge w)) then (Err (ModBridge MissingMpcAddress), w)
  else (Ok tt, add_event (EvBridge (AllBridgeUnpaused (event_sender origin)))
                 (set_bridge (fun b => set_paused (fun _ => set_all false b) b) w)).
Proof.
  unfold unpause_all_bridges. unfold mbind at 1, M_bind. rewrite ensure_access_run.
  destruct (bridge_access_ok _ _ _); [|done]. run_frame.
  by destruct (is_clear (MpcAddr (bridge w))).
Qed.

Lemma retry_run origin h d w :
  retry origin h d w =
  if negb (bridge_access_ok w "retry" origin) then (Err (ModBridge AccessDenied), w)
  else if is_clear (MpcAddr (bridge w)) then (Err (ModBridge MissingMpcAddress), w)
  else if is_paused w d then (Err (ModBridge ErrBridgePaused), w)
  else if negb (dest_domain_supported w d) then (Err (ModBridge DestDomainNotSupported), w)
  else (Ok tt, add_event (EvBridge (Retry h d (event_sender origin))) w).
Proof.
  unfold retry, transactional. unfold mbind at 1, M_bind. rewrite ensure_access_run.
  destruct (bridge_access_ok _ _ _); [|done]. run_frame.
  destruct (is_clear (MpcAddr (bridge w))); [done|]. simpl.
  destruct (is_paused w d); [done|]. simpl. by destruct (dest_domain_supported w d).
Qed.

(** ** Registered domains

    A domain is marked supported exactly when it has a chain id, and the mark is
    never [false]. *)
Definition domains_ok w : Prop :=
  forall d, DestDomainIds (bridge w) !! d =
            (fun _ => true) <$> DestChainIds (bridge w) !! d.

Lemma domains_ok_supported w d :
  domains_ok w ->
  dest_domain_supported w d = bool_decide (is_Some (DestChainIds (bridge w) !! d)).
Proof.
  intros Hok. unfold dest_domain_supported, get_or. rewrite (Hok d).
  by destruct (DestChainIds (bridge w) !! d).
Qed.

Lemma register_domains_ok w d c :
  domains_ok w -> domains_ok (set_bridge (set_domains <[d := true]> <[d := c]>) w).
Proof.
  intros Hok d'. simpl. rewrite !lookup_insert. case_decide; [done|]. apply Hok.
Qed.

Lemma unregister_domains_ok w d :
  domains_ok w -> domains_ok (set_bridge (set_domains (delete d) (delete d)) w).
Proof.
  intros Hok d'. simpl. rewrite !lookup_delete. case_decide; [done|]. apply Hok.
Qed.
End Admin.
