(* ===== verification/DepositData.v ===== *)
(** * The layout of deposit data

    32 bytes of amount, 32 bytes of recipient length, the recipient: what
    [create_deposit_data] writes and [extract_deposit_data] accepts. *)

From S2P Require Import Prelude Xcm Frame Traits AccessSegregator Encode Eip712 Bridge.

Lemma slice_app_l {A} (l k : list A) n : length l = n -> slice 0 n (l ++ k) = l.
Proof. intros <-. unfold slice. by rewrite drop_0, Nat.sub_0_r, take_app_length. Qed.

Lemma slice_app_r {A} (l k : list A) n m :
  length l = n -> (n <= m)%nat -> slice n m (l ++ k) = take (m - n) k.
Proof. intros <- Hm. unfold slice. by rewrite drop_app_length. Qed.

Lemma try_into_some max z r : try_into max z = Some r <-> r = z /\ z <= max.
Proof.
  unfold try_into. destruct (Z.leb_spec z max); split; intros Hz; simplify_eq; try done.
  - by destruct Hz as [-> _].
  - destruct Hz. lia.
Qed.

Section DepositData.
Context `{BridgeConfig L}.

Lemma create_deposit_data_length amount recipient :
  length (create_deposit_data amount recipient) = (64 + length recipient)%nat.
Proof.
  unfold create_deposit_data, hex_zero_padding_32. cbn [concat].
  rewrite !length_app, !to_be_length by lia. simpl. lia.
Qed.

(** What [extract_deposit_data] reads of data in the layout. *)
Lemma extract_created amount recipient :
  is_u u128_max amount -> Z.of_nat (length recipient) <= usize_max ->
  extract_deposit_data (create_deposit_data amount recipient) =
  match loc_decode recipient with
  | Some l => Ok (amount, l)
  | None => Err (ModBridge InvalidDepositData)
  end.
Proof.
  unfold is_u, u128_max, usize_max, u32_max. intros Ha Hl. unfold extract_deposit_data.
  rewrite create_deposit_data_length. rewrite (proj2 (Nat.ltb_ge _ _)) by lia.
  unfold create_deposit_data, hex_zero_padding_32. cbn [concat]. rewrite app_nil_r.
  assert (length (to_be 32 amount) = 32%nat) as L1 by by apply to_be_length.
  assert (length (to_be 32 (Z.of_nat (length recipient))) = 32%nat) as L2
    by by apply to_be_length.
  rewrite slice_app_l, from_be_to_be by (done || lia).
  rewrite (proj2 (try_into_some u128_max amount amount)) by (unfold u128_max; lia).
  rewrite (slice_app_r (to_be 32 amount) _ 32 64) by (done || lia).
  change (64 - 32)%nat with 32%nat. rewrite <- L2 at 1. rewrite take_app_length.
  rewrite from_be_to_be by lia.
  rewrite (proj2 (try_into_some usize_max _ _)) by (unfold usize_max, u32_max; split; [done|lia]).
  rewrite (proj2 (Z.eqb_eq _ _)) by lia. simpl negb. cbv iota.
  rewrite app_assoc. rewrite (slice_app_r (_ ++ _) recipient 64) by (rewrite ?length_app; lia).
  rewrite take_ge by lia. done.
Qed.

(** Accepted data has the layout. *)
Lemma extract_deposit_data_layout data amount l :
  Forall is_byte data -> extract_deposit_data data = Ok (amount, l) ->
  exists recipient, data = create_deposit_data amount recipient /\
    is_u u128_max amount /\ Z.of_nat (length recipient) <= usize_max /\
    loc_decode recipient = Some l.
Proof.
  intros Hb. unfold extract_deposit_data.
  destruct (Nat.ltb_spec (length data) 64) as [|Hlen]; [done|].
  set (a := slice 0 32 data). set (b := slice 32 64 data).
  destruct (try_into u128_max (from_be a)) as [am|] eqn:Ha; [|done].
  destruct (try_into usize_max (from_be b)) as [n|] eqn:Hn; [|done].
  apply try_into_some in Ha as [-> Ha]. apply try_into_some in Hn as [-> Hn].
  destruct (Z.eqb_spec (Z.of_nat (length data) - 64) (from_be b)) as [He|]; [|done]. simpl.
  destruct (loc_decode _) as [l'|] eqn:Hl; [|done]. intros [= <- ->].
  assert (Hab : Forall is_byte a /\ Forall is_byte b).
  { split; apply Forall_take, Forall_drop, Hb. }
  destruct Hab as [Hba Hbb].
  assert (La : length a = 32%nat) by (unfold a, slice; rewrite length_take, length_drop; lia).
  assert (Lb : length b = 32%nat) by (unfold b, slice; rewrite length_take, length_drop; lia).
  exists (drop 64 data). unfold slice in Hl. rewrite take_ge in Hl by (rewrite length_drop; lia).
  assert (Hld : Z.of_nat (length (drop 64 data)) = from_be b)
    by (rewrite length_drop, <- He; lia).
  split_and!; [| |by rewrite Hld|done].
  - unfold create_deposit_data, hex_zero_padding_32. cbn [concat]. rewrite app_nil_r, Hld.
    pose proof (to_be_from_be a Hba) as Ta. pose proof (to_be_from_be b Hbb) as Tb.
    rewrite La in Ta. rewrite Lb in Tb. change (Z.of_nat 32) with 32 in Ta, Tb.
    rewrite Ta, Tb. unfold a, b, slice. rewrite drop_0.
    rewrite <- (take_drop 32 data) at 1. f_equal.
    rewrite <- (take_drop 32 (drop 32 data)) at 1. by rewrite drop_drop.
  - split; [|done]. pose proof (from_be_bound a Hba). lia.
Qed.
End DepositData.
