(* ===== verification/Conservation.v ===== *)
(** * Where the assets go

    The bridge over a ledger: an asset transactor that debits and credits accounts,
    as the balance and asset adapters do.  A deposit splits the amount between the
    fee account and the account that holds the bridged asset; an executed proposal
    takes from the latter what it pays out. *)

From S2P Require Import Prelude Xcm Frame Traits AccessSegregator Encode Eip712 Bridge.
From S2P Require Import BridgeNonces BridgeDeposit BridgeExecute.

(** What [TransactAsset] promises of an adapter: a successful call moves exactly the
    asset it names, at the account the location stands for. *)
Class AssetLedger (L : Type) `{TransactAsset L} := {
  location_account : MultiLocation -> option AccountId;
  balance : L -> AccountId -> AssetId -> Z;
  location_account_local id : location_account (loc_of_account id) = Some id;
  withdraw_moves what who ctx w taken w' :
    withdraw_asset what who ctx w = (Ok taken, w') ->
    exists id x, location_account who = Some id /\ asset_fun what = Fungible x /\
      forall id' a, balance (ledger w') id' a =
        balance (ledger w) id' a - if decide ((id', a) = (id, asset_id what)) then x else 0;
  deposit_moves what who ctx w w' :
    deposit_asset what who ctx w = (Ok tt, w') ->
    exists id x, location_account who = Some id /\ asset_fun what = Fungible x /\
      forall id' a, balance (ledger w') id' a =
        balance (ledger w) id' a + if decide ((id', a) = (id, asset_id what)) then x else 0
}.

Section Conservation.
Context {L : Type} `{BridgeConfig L} `{!AssetLedger L}.
Abbreviation W := (World L).
Implicit Types (w : W) (id : AccountId) (a : AssetId).

(** [x] when the entry is the named one. *)
Definition at_entry (id : AccountId) (a : AssetId) (id' : AccountId) (a' : AssetId) (x : Z) : Z :=
  if decide ((id', a') = (id, a)) then x else 0.

Lemma account_deposit_moves a x who ctx w w' :
  deposit_asset (asset_of a x) (loc_of_account who) ctx w = (Ok tt, w') ->
  forall id' a', balance (ledger w') id' a' =
    balance (ledger w) id' a' + at_entry who a id' a' x.
Proof.
  intros (id & x' & Hl & Hf & Hb)%deposit_moves id' a'.
  rewrite location_account_local in Hl. simplify_eq/=. by rewrite Hb.
Qed.

Lemma account_withdraw_moves what x who ctx w taken w' :
  asset_fun what = Fungible x ->
  withdraw_asset what (loc_of_account who) ctx w = (Ok taken, w') ->
  forall id' a', balance (ledger w') id' a' =
    balance (ledger w) id' a' - at_entry who (asset_id what) id' a' x.
Proof.
  intros Hx (id & x' & Hl & Hf & Hb)%withdraw_moves id' a'.
  rewrite location_account_local in Hl. rewrite Hx in Hf. simplify_eq/=. by rewrite Hb.
Qed.

(** The balances after a deposit. *)
Lemma deposit_balances w sender asset dest w' :
  deposit (Signed sender) asset dest w = (Ok tt, w') ->
  exists recipient d amount fee account,
    extract_dest dest = Ok (Some (recipient, d)) /\
    asset_fun asset = Fungible amount /\ get_fee w d asset = Some fee /\ fee < amount /\
    get_token_reserved_account (asset_id asset) = Some account /\
    forall id a, balance (ledger w') id a =
      balance (ledger w) id a
      - at_entry sender (asset_id asset) id a amount
      + at_entry fee_reserve_account (asset_id asset) id a fee
      + if contains asset loc_here
        then at_entry account (asset_id asset) id a (amount - fee) else 0.
Proof.
  intros Hr. apply deposit_ok_effect in Hr as [sender' recipient d rid amount fee account taken
    converted w1 w2 w3 [= <-] Hmpc Hdest Hp Hs Ha Hf Hlt Hw Hd1 Hacc Hres Hmax Hconv].
  destruct (extract_asset_fungible _ _ _ _ Ha) as [_ Hx].
  exists recipient, d, amount, fee, account. split_and!; try done. intros id a. simpl.
  pose proof (account_withdraw_moves _ _ _ _ _ _ _ Hx Hw id a) as H1.
  pose proof (account_deposit_moves _ _ _ _ _ _ Hd1 id a) as H2.
  destruct (contains asset loc_here).
  - pose proof (account_deposit_moves _ _ _ _ _ _ Hres id a) as H3. lia.
  - subst w3. lia.
Qed.

(** The balances after an executed proposal. *)
Lemma execution_balances w p w' :
  execute_proposal_internal p w = (Ok tt, w') ->
  exists aid amount location asset x account beneficiary,
    rid_to_assetid (resource_id p) = Some aid /\
    extract_deposit_data (data p) = Ok (amount, location) /\
    convert_from (asset_of aid amount) = Ok (Some asset) /\ asset_fun asset = Fungible x /\
    get_token_reserved_account aid = Some account /\
    location_account location = Some beneficiary /\
    forall id a, balance (ledger w') id a =
      balance (ledger w) id a
      - (if contains asset loc_here then at_entry account (asset_id asset) id a x else 0)
      + at_entry beneficiary (asset_id asset) id a x.
Proof.
  intros Hr. apply execute_internal_ok_effect in Hr as [_ _ _
    (aid & amount & loc & asset & account & w1 & Hrid & He & Hc & Hacc & Hw & Hd)].
  apply deposit_moves in Hd as (ben & x & Hl & Hx & Hb).
  exists aid, amount, loc, asset, x, account, ben. split_and!; try done. intros id a.
  rewrite Hb. destruct (contains asset loc_here).
  - destruct Hw as [taken Hw].
    pose proof (account_withdraw_moves _ _ _ _ _ _ _ Hx Hw id a) as H1.
    unfold at_entry in *. lia.
  - subst w1. unfold at_entry. lia.
Qed.
End Conservation.
