(* ===== verification/System.v ===== *)
(** * The pallets together: extrinsics as steps of the chain

    The calls of the five pallets with extrinsics, dispatched on the shared
    state; the step relation (a call whose execution does not panic, whatever its
    result); the invariants every reachable state satisfies. *)

From S2P Require Import Prelude Xcm Frame Traits AccessSegregator BasicFeeHandler.
From S2P Require Import PercentageFeeHandler FeeHandlerRouter Encode Eip712 Bridge.
From S2P Require Import BridgeNonces BridgeDeposit BridgeExecute BridgeAdmin.

Inductive Call :=
| CallGrantAccess (pallet_index : Z) (extrinsic_name : bytes) (who : AccountId)
| CallSetFee (domain : DomainID) (asset : AssetId) (amount : Z)
| CallSetFeeRate (domain : DomainID) (asset : AssetId) (rate lo hi : Z)
| CallSetFeeHandler (domain : DomainID) (asset : AssetId) (handler_type : FeeHandlerType)
| CallPauseBridge (d : DomainID)
| CallUnpauseBridge (d : DomainID)
| CallSetMpcAddress (addr : MpcAddress)
| CallRegisterDomain (d : DomainID) (c : ChainID)
| CallUnregisterDomain (d : DomainID) (c : ChainID)
| CallDeposit (asset : MultiAsset) (dest : MultiLocation)
| CallRetry (deposit_on_block_height : Z) (d : DomainID)
| CallExecuteProposal (proposals : list Proposal) (signature : bytes)
| CallPauseAllBridges
| CallUnpauseAllBridges.

(** The ranges the argument types enforce, where the invariants need them. *)
Definition call_wf (c : Call) : Prop :=
  match c with
  | CallExecuteProposal ps _ => Forall proposal_wf ps
  | _ => True
  end.

Global Instance call_wf_dec c : Decision (call_wf c).
Proof. destruct c; simpl; apply _. Defined.

(** [simplify_call Hr]: the possible results of a call, from its closed form. *)
Ltac simplify_call Hr :=
  rewrite ?grant_access_run, ?set_fee_run, ?set_fee_rate_run, ?set_fee_handler_run,
    ?pause_bridge_run, ?unpause_bridge_run, ?set_mpc_address_run, ?register_domain_run,
    ?unregister_domain_run, ?retry_run, ?pause_all_bridges_run, ?unpause_all_bridges_run
    in Hr;
  repeat case_match; simplify_eq.

Section System.
Context {L : Type} `{BridgeConfig L} `{BasicFeeConfig} `{PercentageFeeConfig}
  `{RouterConfig}.
Abbreviation W := (World L).
Implicit Types (w : W) (o : RawOrigin) (c : Call) (d : DomainID).

Definition dispatch (o : RawOrigin) (c : Call) : M DispatchError W unit :=
  match c with
  | CallGrantAccess i n who => grant_access o i n who
  | CallSetFee d a x => set_fee o d a x
  | CallSetFeeRate d a r lo hi => set_fee_rate o d a r lo hi
  | CallSetFeeHandler d a h => set_fee_handler o d a h
  | CallPauseBridge d => pause_bridge o d
  | CallUnpauseBridge d => unpause_bridge o d
  | CallSetMpcAddress a => set_mpc_address o a
  | CallRegisterDomain d c => register_domain o d c
  | CallUnregisterDomain d c => unregister_domain o d c
  | CallDeposit a dest => deposit o a dest
  | CallRetry h d => retry o h d
  | CallExecuteProposal ps s => execute_proposal o ps s
  | CallPauseAllBridges => pause_all_bridges o
  | CallUnpauseAllBridges => unpause_all_bridges o
  end.

Inductive step w w' : Prop :=
| step_call o c r : call_wf c -> dispatch o c w = (r, w') -> r <> Panic -> step w w'.

(** The right a guarded call asks for. *)
Definition required c : option (Z * bytes) :=
  match c with
  | CallGrantAccess _ _ _ => Some (access_pallet_index, b_ "grant_access")
  | CallSetFee _ _ _ => Some (basic_pallet_index, b_ "set_fee")
  | CallSetFeeRate _ _ _ _ _ => Some (percentage_pallet_index, b_ "set_fee_rate")
  | CallSetFeeHandler _ _ _ => Some (router_pallet_index, b_ "set_fee_handler")
  | CallPauseBridge _ => Some (bridge_pallet_index, b_ "pause_bridge")
  | CallUnpauseBridge _ => Some (bridge_pallet_index, b_ "unpause_bridge")
  | CallSetMpcAddress _ => Some (bridge_pallet_index, b_ "set_mpc_address")
  | CallRegisterDomain _ _ => Some (bridge_pallet_index, b_ "register_domain")
  | CallUnregisterDomain _ _ => Some (bridge_pallet_index, b_ "unregister_domain")
  | CallRetry _ _ => Some (bridge_pallet_index, b_ "retry")
  | CallPauseAllBridges => Some (bridge_pallet_index, b_ "pause_all_bridges")
  | CallUnpauseAllBridges => Some (bridge_pallet_index, b_ "unpause_all_bridges")
  | CallDeposit _ _ | CallExecuteProposal _ _ => None
  end.

(** The error a guarded call returns to a caller without the right. *)
Definition denial c : DispatchError :=
  match c with
  | CallGrantAccess _ _ _ => ModAccess GrantAccessFailed
  | CallSetFee _ _ _ => ModBasicFee BasicAccessDenied
  | CallSetFeeRate _ _ _ _ _ => ModPercentageFee PercentageAccessDenied
  | CallSetFeeHandler _ _ _ => ModRouter RouterAccessDenied
  | _ => ModBridge AccessDenied
  end.

(** All closed forms, to evaluate a guarded call. *)
Lemma dispatch_guarded o c w i n :
  required c = Some (i, n) ->
  (has_access w i n o = false -> dispatch o c w = (Err (denial c), w)).
Proof.
  intros Hq Ha. destruct c; simplify_eq/=;
    rewrite ?grant_access_run, ?set_fee_run, ?set_fee_rate_run, ?set_fee_handler_run,
      ?pause_bridge_run, ?unpause_bridge_run, ?set_mpc_address_run, ?register_domain_run,
      ?unregister_domain_run, ?retry_run, ?pause_all_bridges_run, ?unpause_all_bridges_run;
    unfold bridge_access_ok; by rewrite Ha.
Qed.

(** ** Invariants *)

Record chain_inv w : Prop := {
  inv_words : used_words_ok w;
  inv_executed : executed_once w;
  inv_deposits : deposits_numbered w;
  inv_domains : domains_ok w;
  inv_rates : rates_ok w
}.

(** Part of the state a change must leave alone to keep the invariant. *)
Definition tracked w :=
  (UsedNonces (bridge w), DepositCounts (bridge w), DestDomainIds (bridge w),
   DestChainIds (bridge w), AssetFeeRate w).

Lemma executed_once_neutral w w' evs :
  UsedNonces (bridge w') = UsedNonces (bridge w) ->
  events w' = events w ++ evs -> Forall (fun e => is_outcome e = false) evs ->
  executed_once w -> executed_once w'.
Proof.
  intros Hu He Hn Hw d n Hp. rewrite He, executions_app, (executions_none _ _ evs) by done.
  rewrite Nat.add_0_r, (is_proposal_executed_ext w w') by done. by apply Hw.
Qed.

Lemma deposits_numbered_neutral w w' evs :
  DepositCounts (bridge w') = DepositCounts (bridge w) ->
  events w' = events w ++ evs -> Forall (fun e => forall d, deposit_nonce_of d e = None) evs ->
  deposits_numbered w -> deposits_numbered w'.
Proof.
  intros Hc He Hn Hw d. unfold deposit_count. rewrite Hc, He.
  unfold deposit_nonces. rewrite omap_app. destruct (Hw d) as [Hb Hs]. split; [done|].
  unfold deposit_nonces in Hs. rewrite Hs.
  assert (omap (deposit_nonce_of d) evs = []) as ->; [|by rewrite app_nil_r].
  clear -Hn. induction Hn as [|e evs He _ IH]; [done|]. simpl. by rewrite He.
Qed.

Lemma tracked_inv w w' evs :
  tracked w' = tracked w -> events w' = events w ++ evs -> Forall neutral evs ->
  chain_inv w -> chain_inv w'.
Proof.
  unfold tracked. intros Ht He Hn [Hw1 Hw2 Hw3 Hw4 Hw5]. simplify_eq. split.
  - unfold used_words_ok. by replace (UsedNonces (bridge w')) with (UsedNonces (bridge w)).
  - eapply executed_once_neutral; eauto. eapply Forall_impl; [done|]. by intros e [].
  - eapply deposits_numbered_neutral; eauto. eapply Forall_impl; [done|]. by intros e [].
  - intros d. replace (DestDomainIds (bridge w')) with (DestDomainIds (bridge w)).
    replace (DestChainIds (bridge w')) with (DestChainIds (bridge w)). apply Hw4.
  - unfold rates_ok. by replace (AssetFeeRate w') with (AssetFeeRate w).
Qed.

Lemma ext_inv w w' : ext w w' -> chain_inv w -> chain_inv w'.
Proof.
  intros He [Hw1 Hw2 Hw3 Hw4 Hw5]. pose proof (ext_statics _ _ He) as Hs.
  unfold statics in Hs. split.
  - unfold used_words_ok. by rewrite (ext_used _ _ He).
  - by eapply ext_executed_once.
  - by eapply ext_deposits_numbered.
  - intros d. replace (DestDomainIds (bridge w')) with (DestDomainIds (bridge w)) by congruence.
    replace (DestChainIds (bridge w')) with (DestChainIds (bridge w)) by congruence. apply Hw4.
  - unfold rates_ok. by replace (AssetFeeRate w') with (AssetFeeRate w) by congruence.
Qed.

Lemma mark_inv p w :
  0 <= deposit_nonce p ->
  is_proposal_executed w (deposit_nonce p) (origin_domain_id p) = false ->
  chain_inv w ->
  chain_inv (add_event (executed_event p)
    (mark w (deposit_nonce p) (origin_domain_id p))).
Proof.
  intros Hp Hf [Hw1 Hw2 Hw3 Hw4 Hw5]. split; try done.
  - by apply (mark_words_ok w).
  - by apply mark_executed_once.
  - eapply (deposits_numbered_neutral w); [done|done|by repeat constructor|done].
Qed.

Lemma failed_inv e p w : chain_inv w -> chain_inv (add_event (failed_event e p) w).
Proof.
  intros [Hw1 Hw2 Hw3 Hw4 Hw5]. split; try done.
  - by apply fail_executed_once.
  - eapply (deposits_numbered_neutral w); [done|done|by repeat constructor|done].
Qed.

(** Administrative calls: one neutral event at most, and the domains kept paired. *)
Lemma admin_inv o c w r w' i n :
  required c = Some (i, n) -> dispatch o c w = (r, w') -> chain_inv w -> chain_inv w'.
Proof.
  intros Hq Hr Hw.
  assert (Hkeep : forall w0, chain_inv w0 -> forall e, neutral e -> chain_inv (add_event e w0)).
  { intros w0 Hw0 e He. apply (tracked_inv w0 _ [e]); try done. by apply Forall_singleton. }
  destruct c; simplify_eq/=; simplify_call Hr; try done;
    try (apply Hkeep; [|by split]); try (apply (tracked_inv w _ []); try done;
      simpl; by rewrite app_nil_r).
  - destruct Hw as [Hw1 Hw2 Hw3 Hw4 Hw5]. split; try done.
    apply map_Forall_insert_2; [|done]. simpl. split; lia.
  - destruct Hw as [Hw1 Hw2 Hw3 Hw4 Hw5]. split; try done.
    by apply (register_domains_ok w).
  - destruct Hw as [Hw1 Hw2 Hw3 Hw4 Hw5]. split; try done.
    by apply (unregister_domains_ok w).
Qed.

Context `{!TransactorExt L}.

Lemma execute_one_inv p w w' :
  0 <= deposit_nonce p -> execute_one p w = (Ok tt, w') -> chain_inv w -> chain_inv w'.
Proof.
  intros Hp Hr Hw.
  apply execute_one_cases in Hr as [_ [(w1 & Hi & ->)|(e & w1 & Hi & ->)]]; [| |done].
  - apply mark_inv; [done|by eapply internal_fresh|].
    eapply ext_inv; [|done]. by eapply internal_ext.
  - apply failed_inv. eapply ext_inv; [|done]. by eapply internal_ext.
Qed.

Lemma batch_inv ps w w' :
  Forall proposal_wf ps -> batch ps w w' -> chain_inv w -> chain_inv w'.
Proof.
  intros Hps Hb. induction Hb as [|p ps w w1 w2 Hone _ IH]; [done|].
  apply Forall_cons in Hps as [Hp Hps]. intros Hw. apply IH; [done|].
  eapply execute_one_inv; [|done..]. apply Hp.
Qed.

Lemma step_inv w w' : step w w' -> chain_inv w -> chain_inv w'.
Proof.
  intros [o c r Hc Hr Hnp] Hw. destruct (required c) as [[i n]|] eqn:Hq.
  - by eapply admin_inv.
  - destruct c; try done; simpl in Hr.
    + eapply ext_inv; [|done]. by eapply deposit_preserves_ext.
    + apply execute_proposal_cases in Hr as [(_ & _ & Hb)|(e & _ & -> & _)]; [|done..].
      by eapply batch_inv.
Qed.

(** A set bit of the used nonces is never cleared. *)
Lemma step_keeps_executed w w' n d :
  0 <= n -> step w w' -> is_proposal_executed w n d = true ->
  is_proposal_executed w' n d = true.
Proof.
  intros Hn [o c r Hc Hr Hnp] Hu. destruct (required c) as [[i name]|] eqn:Hq.
  - rewrite (is_proposal_executed_ext w w'); [done|].
    destruct c; simplify_eq/=; simplify_call Hr; done.
  - destruct c; try done; simpl in Hr.
    + rewrite (is_proposal_executed_ext w w'); [done|].
      apply ext_used. by eapply deposit_preserves_ext.
    + apply execute_proposal_cases in Hr as [(_ & _ & Hb)|(e & _ & -> & _)]; [|done..].
      simpl in Hc. revert Hc Hu.
      induction Hb as [|p ps w w1 w2 Hone _ IH]; [done|].
      intros [Hp Hps]%Forall_cons Hu. apply IH; [done..|].
      eapply execute_one_keeps_executed; [apply Hp|done..].
Qed.

(** ** What needs a right *)

(** The storage only administration may change. *)
Definition admin_state w :=
  (ExtrinsicAccess w, AssetFees w, AssetFeeRate w, HandlerType w, ParachainId w,
   (IsPaused (bridge w), MpcAddr (bridge w), DestDomainIds (bridge w),
    DestChainIds (bridge w), BridgeStorageVersion (bridge w))).

Lemma ext_admin_state w w' : ext w w' -> admin_state w' = admin_state w.
Proof. intros [Hs _ _]. unfold statics in Hs. unfold admin_state. congruence. Qed.

Lemma batch_admin_state ps w w' : batch ps w w' -> admin_state w' = admin_state w.
Proof.
  induction 1 as [|p ps w w1 w2 Hone _ IH]; [done|]. rewrite IH.
  apply execute_one_cases in Hone as [_ [(w0 & Hi & ->)|(e & w0 & Hi & ->)]]; [| |done];
    apply (ext_admin_state w w0); by eapply internal_ext.
Qed.

(** The open calls leave administration alone. *)
Lemma open_call_admin_state o c w r w' :
  required c = None -> dispatch o c w = (r, w') -> r <> Panic ->
  admin_state w' = admin_state w.
Proof.
  intros Hq Hr Hnp. destruct c; try done; simpl in Hr.
  - apply ext_admin_state. by eapply deposit_preserves_ext.
  - apply execute_proposal_cases in Hr as [(_ & _ & Hb)|(e & _ & -> & _)]; [|done..].
    by eapply batch_admin_state.
Qed.

(** Once set, the MPC address stays. *)
Lemma step_mpc w w' :
  step w w' -> MpcAddr (bridge w) <> mpc_default ->
  MpcAddr (bridge w') = MpcAddr (bridge w).
Proof.
  intros [o c r Hc Hr Hnp] Hm. destruct (required c) as [[i n]|] eqn:Hq.
  - destruct c; simplify_eq/=; simplify_call Hr; try done.
    match goal with Hb : negb (is_clear _) = false |- _ => rewrite negb_false_iff in Hb;
      unfold is_clear in Hb; by apply bool_decide_eq_true in Hb end.
  - apply open_call_admin_state in Hr; [|done..]. unfold admin_state in Hr. congruence.
Qed.

Lemma empty_inv (l : L) : chain_inv (empty_world l).
Proof.
  split.
  - apply map_Forall_empty.
  - intros d n Hn. done.
  - intros d. unfold deposit_count, get_or. simpl. split; [split; vm_compute; congruence|done].
  - intros d. done.
  - apply map_Forall_empty.
Qed.

(** The invariant does not depend on the id the parachain is given at genesis. *)
Lemma parachain_id_inv i w : chain_inv w -> chain_inv (set_parachain_id i w).
Proof. by intros [Hr He Hd Hp Hu]. Qed.

Lemma steps_inv w w' : rtc step w w' -> chain_inv w -> chain_inv w'.
Proof. induction 1; eauto using step_inv. Qed.
Lemma steps_keep_executed w w' n d :
  0 <= n -> rtc step w w' -> is_proposal_executed w n d = true ->
  is_proposal_executed w' n d = true.
Proof. intros Hn. induction 1; eauto using step_keeps_executed. Qed.

Lemma reachable_inv l w : rtc step (empty_world l) w -> chain_inv w.
Proof. intros Hr. eapply steps_inv; [done|apply empty_inv]. Qed.
End System.
