(* ===== verification/Relay.v ===== *)
(** * A chain and the traffic that passes through it

    One chain seen from the relayers: the transfers its [Deposit] events announce
    ([relayed]), the proposals it has paid out ([paid_by]), and what both mean for the
    supply of the assets its ledger holds. *)

From S2P Require Import Prelude Xcm Frame Traits AccessSegregator BasicFeeHandler.
From S2P Require Import PercentageFeeHandler FeeHandlerRouter Encode Eip712 Bridge.
From S2P Require Import BridgeNonces BridgeDeposit BridgeExecute BridgeAdmin DepositData.
From S2P Require Import Conservation System.

(** ** What the events announce *)

(** The proposal relayers make of a [Deposit] event of chain [self] towards [d]. *)
Definition relay_of (self d : DomainID) (e : RuntimeEvent) : option Proposal :=
  match e with
  | EvBridge (Deposit d' rid n _ _ dat _) =>
      if decide (d' = d)
      then Some {| origin_domain_id := self; deposit_nonce := n; resource_id := rid;
                   data := dat |}
      else None
  | _ => None
  end.
Definition relayed (self d : DomainID) (evs : list RuntimeEvent) : list Proposal :=
  omap (relay_of self d) evs.

(** The pair a proposal is known by, and the pairs the events report executed. *)
Definition proposal_key (p : Proposal) : DomainID * DepositNonce :=
  (origin_domain_id p, deposit_nonce p).
Definition executed_key_of (e : RuntimeEvent) : option (DomainID * DepositNonce) :=
  match e with
  | EvBridge (ProposalExecution d n _) => Some (d, n)
  | _ => None
  end.
Definition executed_keys (evs : list RuntimeEvent) := omap executed_key_of evs.

Lemma relayed_app self d evs1 evs2 :
  relayed self d (evs1 ++ evs2) = relayed self d evs1 ++ relayed self d evs2.
Proof. apply omap_app. Qed.
Lemma executed_keys_app evs1 evs2 :
  executed_keys (evs1 ++ evs2) = executed_keys evs1 ++ executed_keys evs2.
Proof. apply omap_app. Qed.

Lemma relayed_origin self d evs p : p ∈ relayed self d evs -> origin_domain_id p = self.
Proof.
  unfold relayed. rewrite list_elem_of_omap. intros (e & _ & He).
  destruct e as [| | | |[]| | |]; simpl in He; try done. by case_decide; simplify_eq.
Qed.

(** The announced proposals carry the nonces of the events. *)
Lemma relayed_nonces self d evs :
  deposit_nonce <$> relayed self d evs = deposit_nonces d evs.
Proof.
  induction evs as [|e evs IH]; [done|]. unfold relayed, deposit_nonces in *. simpl.
  destruct e as [| | | |[]| | |]; simpl; try exact IH. case_decide; simpl; [f_equal|]; exact IH.
Qed.

Lemma executed_keys_none evs :
  Forall (fun e => is_outcome e = false) evs -> executed_keys evs = [].
Proof.
  induction 1 as [|e evs He _ IH]; [done|]. unfold executed_keys in *. simpl.
  destruct e as [| | | |[]| | |]; simpl in *; done.
Qed.

Lemma executions_keys d n evs :
  executions d n evs = length (filter (fun k => k = (d, n)) (executed_keys evs)).
Proof.
  induction evs as [|e evs IH]; [done|].
  unfold executions, executed_keys, outcomes in *. simpl.
  destruct e as [| | | |[]| | |]; simpl; try exact IH.
  - destruct (decide ((origin_domain_id, deposit_nonce) = (d, n))) as [He|He].
    + rewrite filter_cons_True, filter_cons_True by congruence. simpl. f_equal. exact IH.
    + rewrite filter_cons_False, filter_cons_False by congruence. exact IH.
  - rewrite filter_cons_False by congruence. exact IH.
Qed.

(** ** Lists *)

Lemma NoDup_filter_length {A} `{EqDecision A} (l : list A) :
  (forall x, x ∈ l -> (length (filter (fun y => y = x) l) <= 1)%nat) -> NoDup l.
Proof.
  induction l as [|x l IH]; intros Hl; [constructor|]. constructor.
  - intros Hx. specialize (Hl x (list_elem_of_here _ _)). rewrite filter_cons_True in Hl by done.
    assert (x ∈ filter (fun y => y = x) l) as Hf by by apply list_elem_of_filter.
    destruct (filter (fun y => y = x) l); [by apply not_elem_of_nil in Hf|]. simpl in Hl. lia.
  - apply IH. intros y Hy. specialize (Hl y (list_elem_of_further _ _ _ Hy)).
    rewrite filter_cons in Hl. case_decide; simpl in Hl; lia.
Qed.

(** A column without repetitions determines the entry. *)
Lemma column_inj {A B} (f : A -> B) (l : list A) x y :
  NoDup (f <$> l) -> x ∈ l -> y ∈ l -> f x = f y -> x = y.
Proof.
  intros Hn Hx Hy Hf. apply list_elem_of_lookup_1 in Hx as [i Hi].
  apply list_elem_of_lookup_1 in Hy as [j Hj].
  assert (i = j) as ->; [|congruence].
  eapply (NoDup_lookup _ _ _ (f x) Hn); rewrite list_lookup_fmap.
  - by rewrite Hi.
  - by rewrite Hj, Hf.
Qed.

Definition sumZ {A} (f : A -> Z) (l : list A) : Z := foldr (fun x s => f x + s) 0 l.

Lemma sumZ_cons {A} (f : A -> Z) x l : sumZ f (x :: l) = f x + sumZ f l.
Proof. done. Qed.

Lemma sumZ_app {A} (f : A -> Z) l k : sumZ f (l ++ k) = sumZ f l + sumZ f k.
Proof. induction l; simpl; lia. Qed.

Lemma sumZ_nonneg {A} (f : A -> Z) l : (forall x, x ∈ l -> 0 <= f x) -> 0 <= sumZ f l.
Proof.
  induction l as [|x l IH]; simpl; [done|]. intros Hf.
  pose proof (Hf x (list_elem_of_here _ _)).
  specialize (IH (fun y Hy => Hf y (list_elem_of_further _ _ _ Hy))). lia.
Qed.

Global Instance sumZ_perm {A} (f : A -> Z) : Proper ((≡ₚ) ==> eq) (sumZ f).
Proof. intros l k. induction 1; simpl; lia. Qed.

(** A sub-multiset has a smaller sum. *)
Lemma sumZ_submseteq {A} (f : A -> Z) l k :
  (forall x, x ∈ k -> 0 <= f x) -> l ⊆+ k -> sumZ f l <= sumZ f k.
Proof.
  intros Hf (k' & Hk)%submseteq_Permutation. rewrite Hk, sumZ_app.
  assert (0 <= sumZ f k'); [|lia]. apply sumZ_nonneg. intros x Hx. apply Hf.
  rewrite Hk. set_solver.
Qed.

Lemma sumZ_filter {A} (P : A -> Prop) `{forall x, Decision (P x)} (f : A -> Z) l :
  sumZ f l = sumZ f (filter P l) + sumZ f (filter (fun x => ~ P x) l).
Proof.
  induction l as [|x l IH]; [done|]. rewrite !filter_cons.
  repeat case_decide; simpl; try done; lia.
Qed.

Lemma sumZ_ext {A} (f g : A -> Z) l : (forall x, x ∈ l -> f x = g x) -> sumZ f l = sumZ g l.
Proof.
  induction l as [|x l IH]; simpl; [done|]. intros Hf.
  rewrite (Hf x (list_elem_of_here _ _)), IH; [done|].
  intros y Hy. by apply Hf, list_elem_of_further.
Qed.

Lemma sumZ_le {A} (f g : A -> Z) l : (forall x, x ∈ l -> f x <= g x) -> sumZ f l <= sumZ g l.
Proof.
  induction l as [|x l IH]; simpl; [done|]. intros Hf.
  pose proof (Hf x (list_elem_of_here _ _)).
  specialize (IH (fun y Hy => Hf y (list_elem_of_further _ _ _ Hy))). lia.
Qed.

Lemma sumZ_add {A} (f g : A -> Z) l : sumZ (fun x => f x + g x) l = sumZ f l + sumZ g l.
Proof. induction l; simpl; lia. Qed.

Lemma sumZ_mul {A} k (f : A -> Z) l : sumZ (fun x => k * f x) l = k * sumZ f l.
Proof. induction l; simpl; lia. Qed.

Lemma sumZ_swap {A B} (f : A -> B -> Z) l k :
  sumZ (fun x => sumZ (f x) k) l = sumZ (fun y => sumZ (fun x => f x y) l) k.
Proof.
  induction l as [|x l IH]; simpl; [by induction k; simpl; lia|]. by rewrite IH, sumZ_add.
Qed.

(** A term at one index counts once. *)
Lemma sumZ_point `{EqDecision A} (a : A) y l :
  NoDup l -> sumZ (fun x => if decide (a = x) then y else 0) l = if decide (a ∈ l) then y else 0.
Proof.
  induction 1 as [|x l Hx _ IH]; [done|]. rewrite sumZ_cons, IH. destruct (decide (a = x)) as [->|Hax].
  - rewrite (decide_True (P := x ∈ x :: l)) by apply list_elem_of_here.
    rewrite decide_False by done. lia.
  - destruct (decide (a ∈ l)) as [Ha|Ha].
    + by rewrite decide_True by by apply list_elem_of_further.
    + by rewrite decide_False by (intros [?|?]%elem_of_cons; done).
Qed.

(** A sum by the values of a key, with what has none of them. *)
Lemma sumZ_by_key `{EqDecision K} {A} (key : A -> K) (f : A -> Z) ks l :
  NoDup ks ->
  sumZ f l = sumZ (fun k => sumZ f (filter (fun x => key x = k) l)) ks
    + sumZ f (filter (fun x => key x ∉ ks) l).
Proof.
  intros Hk. induction l as [|x l IH]; simpl.
  - rewrite (sumZ_ext _ (fun k => 0 * 0)) by done. rewrite sumZ_mul. simpl. lia.
  - rewrite IH. rewrite filter_cons.
    rewrite (sumZ_ext (fun k => sumZ f (filter (fun y => key y = k) (x :: l)))
      (fun k => (if decide (key x = k) then f x else 0)
                + sumZ f (filter (fun y => key y = k) l))).
    + rewrite sumZ_add, sumZ_point by done.
      destruct (decide (key x ∈ ks)); [rewrite (decide_False (P := key x ∉ ks)) by tauto|
        rewrite (decide_True (P := key x ∉ ks)) by done]; simpl; lia.
    + intros k _. rewrite filter_cons. case_decide; simpl; lia.
Qed.

(** ** What a call pays out *)

Section Node.
Context {L : Type} `{BridgeConfig L} `{BasicFeeConfig} `{PercentageFeeConfig}
  `{RouterConfig}.
Abbreviation W := (World L).
Implicit Types (w : W) (o : RawOrigin) (c : Call) (p : Proposal) (ps : list Proposal).

(** The proposals of a batch that are executed, in order. *)
Fixpoint executed_in ps w : list Proposal :=
  match ps with
  | [] => []
  | p :: ps =>
      match execute_proposal_internal p w with
      | (Ok _, _) => p :: executed_in ps (execute_one p w).2
      | _ => executed_in ps (execute_one p w).2
      end
  end.

Definition paid_by o c w : list Proposal :=
  match c, dispatch o c w with
  | CallExecuteProposal ps _, (Ok _, _) => executed_in ps w
  | _, _ => []
  end.

(** Calls other than batches pay nothing. *)
Lemma paid_by_other o c w :
  (forall ps sig, c <> CallExecuteProposal ps sig) -> paid_by o c w = [].
Proof. intros Hc. unfold paid_by. destruct c; try done. by destruct (Hc proposals signature). Qed.

Lemma executed_in_elem p ps w : p ∈ executed_in ps w -> p ∈ ps.
Proof.
  revert w. induction ps as [|q ps IH]; intros w; simpl; [done|].
  destruct (execute_proposal_internal q w) as [[]]; rewrite !elem_of_cons; intros Hp;
    [destruct Hp as [->|Hp]|..]; eauto.
Qed.

Lemma paid_by_elem o c w p :
  p ∈ paid_by o c w -> exists ps sig, c = CallExecuteProposal ps sig /\
    authorised w ps sig /\ p ∈ ps.
Proof.
  destruct c; try (rewrite paid_by_other by done; intros Hp; by apply not_elem_of_nil in Hp).
  unfold paid_by. destruct (dispatch o _ w) as [[[]| |] w'] eqn:Hd; intros Hp;
    try (by apply not_elem_of_nil in Hp).
  apply execute_proposal_cases in Hd as [(_ & Ha & _)|(e & ? & _)]; [|done..].
  do 2 eexists. split_and!; [done..|]. by eapply executed_in_elem.
Qed.

Context `{!TransactorExt L}.

(** The reported keys grow by the keys of the proposals paid. *)
Lemma batch_executed_keys ps w w' :
  batch ps w w' ->
  executed_keys (events w') = executed_keys (events w) ++ (proposal_key <$> executed_in ps w).
Proof.
  induction 1 as [|p ps w w1 w2 Hone _ IH]; [by rewrite app_nil_r|].
  rewrite IH. simpl. rewrite Hone.
  apply execute_one_cases in Hone as [_ [(w0 & Hi & ->)|(e & w0 & Hi & ->)]]; [| |done];
    rewrite Hi; simpl; rewrite executed_keys_app;
    (apply internal_ext in Hi as [_ _ (evs & -> & Ho & _)]; [|done]);
    rewrite executed_keys_app, (executed_keys_none evs) by done; simpl;
    by rewrite app_nil_r, <- ?app_assoc.
Qed.

Lemma dispatch_executed_keys o c w r w' :
  dispatch o c w = (r, w') -> r <> Panic ->
  executed_keys (events w') = executed_keys (events w) ++ (proposal_key <$> paid_by o c w).
Proof.
  intros Hr Hnp. destruct (required c) as [[i n]|] eqn:Hq.
  - rewrite paid_by_other by (by intros ps sig ->).
    rewrite app_nil_r. destruct c; simplify_eq/=; simplify_call Hr;
      try done; simpl; by rewrite executed_keys_app, app_nil_r.
  - destruct c; try done.
    + rewrite paid_by_other, app_nil_r by done. simpl in Hr.
      destruct (deposit_preserves_ext _ _ _ _ _ _ Hr Hnp) as [_ _ (evs & -> & Ho & _)].
      by rewrite executed_keys_app, (executed_keys_none evs), app_nil_r.
    + unfold paid_by. rewrite Hr. simpl in Hr.
      apply execute_proposal_cases in Hr as [(-> & _ & Hb)|(e & -> & -> & _)]; [| |done].
      * by apply batch_executed_keys.
      * by rewrite app_nil_r.
Qed.

(** The announcements only grow. *)
Lemma dispatch_relayed o c w r w' self d :
  dispatch o c w = (r, w') -> r <> Panic ->
  exists ps, relayed self d (events w') = relayed self d (events w) ++ ps.
Proof.
  intros Hr Hnp.
  assert (exists evs, events w' = events w ++ evs) as [evs ->].
  { destruct (required c) as [[i n]|] eqn:Hq.
    - destruct c; simplify_eq/=; simplify_call Hr; try (by eexists); by exists []; rewrite app_nil_r.
    - destruct c; try done; simpl in Hr.
      + destruct (deposit_preserves_ext _ _ _ _ _ _ Hr Hnp) as [_ _ (evs & ? & _)]. by eexists.
      + apply execute_proposal_cases in Hr as [(_ & _ & Hb)|(e & _ & -> & _)]; [| |done].
        * clear -Hb TransactorExt0. induction Hb as [|p ps w w1 w2 Hone _ [evs IH]].
          { exists []. by rewrite app_nil_r. }
          rewrite IH.
          apply execute_one_cases in Hone as [_ [(w0 & Hi & ->)|(e & w0 & Hi & ->)]]; [| |done];
            (apply internal_ext in Hi as [_ _ (evs0 & Hev & _)]; [|done]);
            simpl; rewrite Hev, <- !app_assoc; by eexists.
        * exists []. by rewrite app_nil_r. }
  eexists. apply relayed_app.
Qed.

(** A successful deposit is announced, under a nonce not used before. *)
Lemma deposit_announced o asset dest w w' self recipient d rid amount ty fee y :
  deposit o asset dest w = (Ok tt, w') ->
  extract_dest dest = Ok (Some (recipient, d)) -> extract_asset asset = Some (rid, amount, ty) ->
  get_fee w d asset = Some fee ->
  convert_to (asset_of (asset_id asset) (amount - fee)) = Ok (Some y) ->
  exists k p, (deposit_count w d <= k < u64_max) /\
    p = {| origin_domain_id := self; deposit_nonce := k; resource_id := rid;
           data := create_deposit_data y recipient |} /\
    p ∈ relayed self d (events w').
Proof.
  intros Hr Hex Hasset Hf Hy.
  apply deposit_ok_effect in Hr as [sender recipient' d' rid' amount' fee' account taken
    converted w1 w2 w3 -> _ Hex' _ _ Hasset' Hf' _ Hwd Hd1 _ Hres Hmax Hy'].
  rewrite Hex in Hex'. injection Hex' as <- <-. simplify_eq.
  rewrite Hy in Hy'. injection Hy' as <-.
  assert (ext w w3) as [_ Hc _].
  { assert (ext w2 w3).
    { destruct (contains asset loc_here); [|by subst]. by apply (deposit_ext _ _ _ _ _ _ Hres). }
    etrans; [by apply (withdraw_ext _ _ _ _ _ _ Hwd)|].
    etrans; [by apply (deposit_ext _ _ _ _ _ _ Hd1)|done]. }
  specialize (Hc d). eexists (deposit_count w3 d), _. split; [lia|]. split; [done|].
  simpl. rewrite !relayed_app. unfold relayed at 2. simpl.
  rewrite decide_True by done. set_solver.
Qed.
End Node.
