(* ===== verification/Typing.v ===== *)
(** * Machine types of the storage

    The model keeps machine integers and arrays as unbounded [Z] and lists.  Here the
    ranges of the Rust types are stated for the whole storage, the events and the
    arguments of calls, and every call is shown to stay within them: no operation of
    the pallets leaves the width of its type, so nothing is lost by not wrapping. *)

From S2P Require Import Prelude Xcm Frame Traits AccessSegregator BasicFeeHandler.
From S2P Require Import PercentageFeeHandler FeeHandlerRouter Encode Eip712 Bridge.
From S2P Require Import BridgeNonces BridgeDeposit BridgeExecute BridgeAdmin DepositData.
From S2P Require Import System.

(** ** Values *)

Definition account_typed (a : AccountId) : Prop := is_array 32 a.
Definition origin_typed (o : RawOrigin) : Prop :=
  match o with Signed who => account_typed who | _ => True end.
Definition asset_id_typed (a : AssetId) : Prop :=
  match a with Concrete l => location_wf l | Abstract d => is_array 32 d end.
Definition asset_typed (a : MultiAsset) : Prop :=
  asset_id_typed (asset_id a) /\
  match asset_fun a with Fungible x => is_u u128_max x | NonFungible _ => True end.

Global Instance origin_typed_dec o : Decision (origin_typed o).
Proof. destruct o; simpl; unfold account_typed; apply _. Defined.
Global Instance asset_id_typed_dec a : Decision (asset_id_typed a).
Proof. destruct a; simpl; apply _. Defined.
Global Instance asset_typed_dec a : Decision (asset_typed a).
Proof. unfold asset_typed. destruct (asset_fun a); apply _. Defined.

(** The arguments of a call, decoded by FRAME at their types. *)
Definition call_typed (c : Call) : Prop :=
  match c with
  | CallGrantAccess i n who => is_u u8_max i /\ Forall is_byte n /\ account_typed who
  | CallSetFee d a x => is_u u8_max d /\ asset_id_typed a /\ is_u u128_max x
  | CallSetFeeRate d a r lo hi =>
      is_u u8_max d /\ asset_id_typed a /\ is_u u32_max r /\ is_u u128_max lo /\
      is_u u128_max hi
  | CallSetFeeHandler d a _ => is_u u8_max d /\ asset_id_typed a
  | CallPauseBridge d | CallUnpauseBridge d => is_u u8_max d
  | CallSetMpcAddress a => is_array 20 a
  | CallRegisterDomain d c | CallUnregisterDomain d c => is_u u8_max d /\ is_u u256_max c
  | CallDeposit a dest => asset_typed a /\ location_wf dest
  | CallRetry h d => is_u u128_max h /\ is_u u8_max d
  | CallExecuteProposal ps _ => Forall proposal_wf ps
  | CallPauseAllBridges | CallUnpauseAllBridges => True
  end.

Global Instance call_typed_dec c : Decision (call_typed c).
Proof. destruct c; simpl; unfold account_typed; apply _. Defined.

Lemma call_typed_wf c : call_typed c -> call_wf c.
Proof. by destruct c. Qed.

(** ** Storage and events *)

Definition bridge_event_typed (e : BridgeEvent) : Prop :=
  match e with
  | Deposit d rid n sender _ dat _ =>
      is_u u8_max d /\ is_array 32 rid /\ is_u u64_max n /\ account_typed sender /\
      Forall is_byte dat
  | ProposalExecution d n h => is_u u8_max d /\ is_u u64_max n /\ is_array 32 h
  | FailedHandlerExecution _ d n => is_u u8_max d /\ is_u u64_max n
  | Retry h d who => is_u u128_max h /\ is_u u8_max d /\ account_typed who
  | BridgePaused d | BridgeUnpaused d => is_u u8_max d
  | RegisterDestDomain who d c | UnregisterDestDomain who d c =>
      account_typed who /\ is_u u8_max d /\ is_u u256_max c
  | FeeCollected who d rid fee a =>
      account_typed who /\ is_u u8_max d /\ is_array 32 rid /\ is_u u128_max fee /\
      asset_id_typed a
  | AllBridgePaused who | AllBridgeUnpaused who => account_typed who
  end.

Definition event_typed (e : RuntimeEvent) : Prop :=
  match e with
  | EvAccess (AccessGranted i n who) => is_u u8_max i /\ Forall is_byte n /\ account_typed who
  | EvBasicFee (FeeSet d a x) => is_u u8_max d /\ asset_id_typed a /\ is_u u128_max x
  | EvPercentageFee (FeeRateSet d a r lo hi) =>
      is_u u8_max d /\ asset_id_typed a /\ is_u u32_max r /\ is_u u128_max lo /\
      is_u u128_max hi
  | EvRouter (FeeHandlerSet d a _) => is_u u8_max d /\ asset_id_typed a
  | EvBridge e => bridge_event_typed e
  | EvXcmBridge _ | EvForwarder _ | EvOther _ => True
  end.

Definition rate_typed (r : Z * Z * Z) : Prop :=
  match r with (r, lo, hi) => is_u u32_max r /\ is_u u128_max lo /\ is_u u128_max hi end.
Definition fee_key_typed (k : DomainID * AssetId) : Prop :=
  is_u u8_max k.1 /\ asset_id_typed k.2.

Record bridge_typed (b : BridgeStorage) : Prop := {
  ty_counts : map_Forall (fun d n => is_u u8_max d /\ is_u u64_max n) (DepositCounts b);
  ty_paused : map_Forall (fun d _ => is_u u8_max d) (IsPaused b);
  ty_mpc : is_array 20 (MpcAddr b);
  ty_used : map_Forall (fun k v => is_u u8_max k.1 /\ is_u (u64_max / 64) k.2 /\
                                   is_u u64_max v) (UsedNonces b);
  ty_domains : map_Forall (fun d _ => is_u u8_max d) (DestDomainIds b);
  ty_chains : map_Forall (fun d c => is_u u8_max d /\ is_u u256_max c) (DestChainIds b)
}.

Record world_typed {L} (w : World L) : Prop := {
  ty_access : map_Forall (fun k who => is_u u8_max k.1 /\ Forall is_byte k.2 /\
                                       account_typed who) (ExtrinsicAccess w);
  ty_fees : map_Forall (fun k x => fee_key_typed k /\ is_u u128_max x) (AssetFees w);
  ty_rates : map_Forall (fun k r => fee_key_typed k /\ rate_typed r) (AssetFeeRate w);
  ty_handlers : map_Forall (fun k _ => fee_key_typed k) (HandlerType w);
  ty_bridge : bridge_typed (bridge w);
  ty_events : Forall event_typed (events w)
}.

Lemma empty_typed {L} (l : L) : world_typed (empty_world l).
Proof.
  split; simpl; try apply map_Forall_empty; [|constructor].
  split; simpl; try lazymatch goal with |- map_Forall _ _ => apply map_Forall_empty end.
  split; [done|]. by apply Forall_replicate.
Qed.

(** ** Writes *)

Section Writes.
Context {L : Type}.
Implicit Types (w : World L).

Lemma add_event_typed e w : event_typed e -> world_typed w -> world_typed (add_event e w).
Proof.
  intros He [H1 H2 H3 H4 H5 H6]. split; try done. simpl. apply Forall_app. by repeat constructor.
Qed.

Lemma set_bridge_typed f w :
  (bridge_typed (bridge w) -> bridge_typed (f (bridge w))) ->
  world_typed w -> world_typed (set_bridge f w).
Proof. intros Hf [H1 H2 H3 H4 H5 H6]. split; try done. by apply Hf. Qed.

Lemma set_ledger_typed l w : world_typed w -> world_typed (set_ledger l w).
Proof. by intros [H1 H2 H3 H4 H5 H6]. Qed.

Lemma deposit_count_typed w d : world_typed w -> is_u u64_max (deposit_count w d).
Proof.
  intros Hw. unfold deposit_count, get_or. destruct (_ !! d) as [n|] eqn:Hn; simpl.
  - by apply (ty_counts _ (ty_bridge _ Hw)) in Hn as [_ ?].
  - unfold is_u, u64_max. lia.
Qed.

Lemma set_counts_typed d n b :
  is_u u8_max d -> is_u u64_max n -> bridge_typed b -> bridge_typed (set_counts <[d := n]> b).
Proof. intros Hd Hn []. split; try done. by apply map_Forall_insert_2. Qed.

Lemma set_paused_typed f b :
  (forall d v, f (IsPaused b) !! d = Some v -> is_u u8_max d) ->
  bridge_typed b -> bridge_typed (set_paused f b).
Proof. intros Hf []. by split. Qed.

Lemma mark_typed w n d :
  is_u u64_max n -> is_u u8_max d -> world_typed w -> world_typed (mark w n d).
Proof.
  intros Hn Hd Hw. apply set_bridge_typed; [|done]. intros Hb. split; try apply Hb.
  apply map_Forall_insert_2; [|apply Hb]. simpl. split_and!; [done| |].
  - unfold is_u, u64_max in *. split; [apply Z.div_pos; lia|]. apply Z.div_le_mono; lia.
  - assert (used_words_ok w) as Hok.
    { intros k v Hk. apply (ty_used _ Hb) in Hk as (_ & _ & ?). unfold is_u, u64_max in *. lia. }
    assert (Hm := mark_words_ok w n d Hok (d, n / 64) _ (lookup_insert_eq _ _ _)).
    simpl in Hm. unfold is_u, u64_max. lia.
Qed.
End Writes.

(** ** What the calls rely on *)

(** The configuration of a runtime and the parameters it is built from are typed. *)
Class TypedConfig (L : Type) `{BridgeConfig L} : Prop := {
  typed_pairs : Forall (fun p => asset_id_typed p.1 /\ is_array 32 p.2) resource_pairs;
  typed_reserve_accounts :
    map_Forall (fun _ id => account_typed id) transfer_reserve_accounts;
  typed_fee_account : account_typed fee_reserve_account;
  typed_dest dest recipient d :
    location_wf dest -> extract_dest dest = Ok (Some (recipient, d)) ->
    Forall is_byte recipient /\ is_u u8_max d;
  typed_fee (w : World L) d asset fee :
    world_typed w -> asset_typed asset -> get_fee w d asset = Some fee -> is_u u128_max fee;
  typed_convert_to asset x :
    asset_typed asset -> convert_to asset = Ok (Some x) -> is_u u128_max x;
  typed_convert_from asset asset' :
    asset_typed asset -> convert_from asset = Ok (Some asset') -> asset_typed asset';
  typed_decode bs l : Forall is_byte bs -> loc_decode bs = Some l -> location_wf l
}.

(** The asset transactor keeps the storage typed. *)
Class TypedTransactor (L : Type) `{TransactAsset L} : Prop := {
  withdraw_typed what who ctx w r w' :
    asset_typed what -> location_wf who -> world_typed w ->
    withdraw_asset what who ctx w = (r, w') -> r <> Panic -> world_typed w';
  deposit_typed what who ctx w r w' :
    asset_typed what -> location_wf who -> world_typed w ->
    deposit_asset what who ctx w = (r, w') -> r <> Panic -> world_typed w'
}.

Lemma loc_of_account_typed id : account_typed id -> location_wf (loc_of_account id).
Proof.
  intros Hid. split; simpl; [unfold is_u, u8_max; lia|]. by apply Forall_singleton.
Qed.

Lemma asset_of_typed a x : asset_id_typed a -> is_u u128_max x -> asset_typed (asset_of a x).
Proof. done. Qed.

Lemma event_sender_typed o : origin_typed o -> account_typed (event_sender o).
Proof.
  destruct o; try done; intros _; (split; [done|]; by apply Forall_replicate).
Qed.

Section Calls.
Context {L : Type} `{BridgeConfig L} `{BasicFeeConfig} `{PercentageFeeConfig}
  `{RouterConfig} `{!TypedConfig L} `{!TypedTransactor L}.
Abbreviation W := (World L).
Implicit Types (w : W) (o : RawOrigin) (c : Call) (p : Proposal).

Lemma resource_pairs_lookup rid aid :
  rid_to_assetid rid = Some aid -> asset_id_typed aid.
Proof.
  unfold rid_to_assetid. intros Hr. apply bind_Some in Hr as (i & _ & Hr).
  apply bind_Some in Hr as ([a r] & Hi & [= <-]).
  pose proof typed_pairs as Hp. rewrite Forall_lookup in Hp. by apply Hp in Hi as [? _].
Qed.

Lemma extract_asset_typed asset rid amount ty :
  extract_asset asset = Some (rid, amount, ty) -> is_array 32 rid.
Proof.
  unfold extract_asset. destruct (asset_fun asset); [|done]. intros Hr.
  apply bind_Some in Hr as (i & _ & Hr). apply bind_Some in Hr as ([a r] & Hi & [= <- _ _]).
  pose proof typed_pairs as Hp. rewrite Forall_lookup in Hp. by apply Hp in Hi as [_ ?].
Qed.

Lemma reserve_account_typed a account :
  get_token_reserved_account a = Some account -> account_typed account.
Proof. intros Ha. by apply (typed_reserve_accounts a account) in Ha. Qed.

Lemma create_deposit_data_bytes amount recipient :
  Forall is_byte recipient -> Forall is_byte (create_deposit_data amount recipient).
Proof.
  intros Hr. unfold create_deposit_data, hex_zero_padding_32. cbn [concat].
  rewrite !Forall_app. split_and!; try done; by apply to_be_bytes.
Qed.

(** Deposits. *)
Lemma deposit_call_typed o asset dest w r w' :
  origin_typed o -> asset_typed asset -> location_wf dest -> world_typed w ->
  deposit o asset dest w = (r, w') -> r <> Panic -> world_typed w'.
Proof.
  intros Ho Ha Hdest Hw Hr Hnp. destruct r as [[]|e|]; [|by apply deposit_err_unchanged in Hr as ->|done].
  apply deposit_ok_effect in Hr as [sender recipient d rid amount fee account taken
    converted w1 w2 w3 -> Hmpc Hex Hp Hs Hasset Hf Hlt Hwd Hd1 Hacc Hres Hmax Hconv].
  destruct (typed_dest _ _ _ Hdest Hex) as [Hrec Hd].
  pose proof (typed_fee _ _ _ _ Hw Ha Hf) as Hfee.
  destruct (extract_asset_fungible _ _ _ _ Hasset) as [_ Hx].
  pose proof Ha as [Hid Ham]. rewrite Hx in Ham.
  assert (Hnet : asset_typed (asset_of (asset_id asset) (amount - fee))).
  { apply asset_of_typed; [done|]. unfold is_u in *. lia. }
  assert (Hw3 : world_typed w3).
  { assert (world_typed w2).
    { refine (deposit_typed _ _ _ _ _ _ _ _ _ Hd1 _); [done| | |done].
      - apply loc_of_account_typed, typed_fee_account.
      - refine (withdraw_typed _ _ _ _ _ _ Ha _ Hw Hwd _); [by apply loc_of_account_typed|done]. }
    destruct (contains asset loc_here); [|by subst].
    refine (deposit_typed _ _ _ _ _ _ Hnet _ _ Hres _); [|done..].
    by eapply loc_of_account_typed, reserve_account_typed. }
  pose proof (deposit_count_typed w3 d Hw3) as Hc.
  pose proof (extract_asset_typed _ _ _ _ Hasset) as Hrid.
  apply add_event_typed; [by simpl; split_and!|].
  apply add_event_typed; [simpl; split_and!; try done; by apply create_deposit_data_bytes|].
  apply set_bridge_typed; [|done]. apply set_counts_typed; [done|]. unfold is_u in *. lia.
Qed.

(** Proposals. *)
Lemma execute_internal_typed p w r w' :
  proposal_wf p -> world_typed w -> execute_proposal_internal p w = (r, w') -> r <> Panic ->
  world_typed w'.
Proof.
  intros (Hd & Hn & Hrid & Hdata) Hw. unfold execute_proposal_internal. run_frame.
  destruct (negb _); [|by intros [= <- <-]]. destruct (dest_domain_supported _ _);
    [|by intros [= <- <-]]. destruct (negb _); [|by intros [= <- <-]].
  destruct (rid_to_assetid _) as [aid|] eqn:Haid; [|by intros [= <- <-]].
  destruct (extract_deposit_data _) as [[amount l]|e|] eqn:He; try by intros [= <- <-].
  destruct (extract_deposit_data_layout _ _ _ Hdata He) as (rec & Hdat & Ham & _ & Hl).
  destruct (convert_from _) as [[asset|]|e|] eqn:Hc; try by intros [= <- <-].
  destruct (get_token_reserved_account _) as [account|] eqn:Hacc; [|by intros [= <- <-]].
  assert (Hasset : asset_typed asset).
  { eapply typed_convert_from; [|done]. apply asset_of_typed; [|done].
    by eapply resource_pairs_lookup. }
  assert (Hloc : location_wf l).
  { eapply typed_decode; [|done]. rewrite Hdat in Hdata. unfold create_deposit_data in Hdata.
    cbn [concat] in Hdata. rewrite !Forall_app in Hdata. by destruct Hdata as (_ & _ & ? & _). }
  assert (Hdep : forall w1 r0 w2, world_typed w1 ->
    deposit_asset asset l no_message w1 = (r0, w2) -> r0 <> Panic -> world_typed w2).
  { intros. by eapply deposit_typed. }
  destruct (contains asset loc_here).
  - destruct (withdraw_asset _ _ _ w) as [[taken|e|] w1] eqn:Hwd; simpl; try (by intros [= <- <-]).
    + destruct (deposit_asset _ _ _ w1) as [[|e|] w2] eqn:Hde; intros [= <- <-] ?; try done;
        (eapply Hdep; [|done..]); (eapply withdraw_typed; [| | |done..]); try done;
        by eapply loc_of_account_typed, reserve_account_typed.
    + intros [= <- <-] _. eapply withdraw_typed; [| | |done..]; try done.
      by eapply loc_of_account_typed, reserve_account_typed.
  - simpl. destruct (deposit_asset _ _ _ w) as [[|e|] w2] eqn:Hde; intros [= <- <-] ?; try done;
      by eapply Hdep.
Qed.

Lemma execute_one_typed p w w' :
  proposal_wf p -> world_typed w -> execute_one p w = (Ok tt, w') -> world_typed w'.
Proof.
  intros Hp Hw Hr. pose proof Hp as (Hd & Hn & _).
  apply execute_one_cases in Hr as [_ [(w1 & Hi & ->)|(e & w1 & Hi & ->)]]; [| |done].
  - apply add_event_typed; [simpl; split_and!; try done; apply keccak_256_array|].
    apply mark_typed; [done..|]. by eapply execute_internal_typed.
  - apply add_event_typed; [done|]. by eapply execute_internal_typed.
Qed.

Lemma batch_typed ps w w' :
  Forall proposal_wf ps -> batch ps w w' -> world_typed w -> world_typed w'.
Proof.
  intros Hps Hb. induction Hb as [|p ps w w1 w2 Hone _ IH]; [done|].
  apply Forall_cons in Hps as [Hp Hps]. intros Hw. apply IH; [done|].
  by eapply execute_one_typed.
Qed.

(** Administration. *)
Lemma set_all_typed v b addr :
  is_array 20 addr -> bridge_typed b ->
  bridge_typed (set_paused (fun _ => set_all v b) (set_mpc addr b)).
Proof.
  intros Ha Hb. destruct Hb as [H1' Hp H3' H4' Hd H6']. split; try done.
  intros d v' Hv. cbn in Hv. rewrite set_all_lookup in Hv. case_decide as Hk; [|done].
  destruct Hk as [[x Hx]%elem_of_dom|[x Hx]%elem_of_dom]; [by eapply Hd|by eapply Hp].
Qed.

Lemma set_all_typed_same v b :
  bridge_typed b -> bridge_typed (set_paused (fun _ => set_all v b) b).
Proof. intros Hb. pose proof (set_all_typed v b (MpcAddr b) (ty_mpc _ Hb) Hb) as []. by split. Qed.

Lemma domain_paused_typed d v b :
  is_u u8_max d -> bridge_typed b -> bridge_typed (set_paused <[d := v]> b).
Proof.
  intros Hd Hb. apply set_paused_typed; [|done]. intros d' v'.
  rewrite lookup_insert_Some. intros [[<- _]|[_ Hv]]; [done|]. by eapply (ty_paused _ Hb).
Qed.

Lemma admin_typed o c w r w' i n :
  origin_typed o -> call_typed c -> required c = Some (i, n) -> dispatch o c w = (r, w') ->
  world_typed w -> world_typed w'.
Proof.
  intros Ho Hc Hq Hr Hw. pose proof (event_sender_typed o Ho) as Hs.
  destruct c; simplify_eq/=; simplify_call Hr; try done;
    try (apply add_event_typed; [simpl; naive_solver|]); try apply set_bridge_typed; try done.
  - destruct Hw. split; try done. apply map_Forall_insert_2; naive_solver.
  - destruct Hw. split; try done. apply map_Forall_insert_2; [|done].
    unfold fee_key_typed. naive_solver.
  - destruct Hw. split; try done. apply map_Forall_insert_2; [|done].
    unfold fee_key_typed, rate_typed. naive_solver.
  - destruct Hw. split; try done. apply map_Forall_insert_2; [|done]. naive_solver.
  - by apply domain_paused_typed.
  - by apply domain_paused_typed.
  - by apply set_all_typed.
  - intros []. split; try done; apply map_Forall_insert_2; naive_solver.
  - intros []. split; try done; by apply map_Forall_delete.
  - apply set_all_typed_same.
  - apply set_all_typed_same.
Qed.

(** A call decoded at its types, whatever its result. *)
Inductive typed_step w w' : Prop :=
| typed_step_call o c r :
    origin_typed o -> call_typed c -> dispatch o c w = (r, w') -> r <> Panic ->
    typed_step w w'.

Lemma typed_step_step w w' : typed_step w w' -> step w w'.
Proof. intros [o c r Ho Hc Hr Hnp]. eapply step_call; [|done..]. by apply call_typed_wf. Qed.

Lemma typed_step_typed w w' : typed_step w w' -> world_typed w -> world_typed w'.
Proof.
  intros [o c r Ho Hc Hr Hnp] Hw. destruct (required c) as [[i n]|] eqn:Hq.
  - by eapply admin_typed.
  - destruct c; try done; simpl in Hr, Hc.
    + destruct Hc as [Ha Hd]. by eapply deposit_call_typed.
    + apply execute_proposal_cases in Hr as [(_ & _ & Hb)|(e & _ & -> & _)]; [|done..].
      by eapply batch_typed.
Qed.

Lemma typed_reachable l w : rtc typed_step (empty_world l) w -> world_typed w.
Proof.
  assert (forall w0, rtc typed_step w0 w -> world_typed w0 -> world_typed w) as Hi.
  { intros w0. induction 1; eauto using typed_step_typed. }
  intros Hr. eapply Hi; [done|apply empty_typed].
Qed.
End Calls.
