(* ===== verification/Supply.v ===== *)
(** * The supply of bridged assets

    A ledger whose adapters change the total supply by what they debit and credit, as
    minting and burning adapters do.  What a chain mints for the proposals it pays is
    the only source of supply of a call: deposits burn, or keep the supply when the
    asset is held by this chain, and everything else leaves it alone. *)

From S2P Require Import Prelude Xcm Frame Traits AccessSegregator BasicFeeHandler.
From S2P Require Import PercentageFeeHandler FeeHandlerRouter Encode Eip712 Bridge.
From S2P Require Import BridgeNonces BridgeDeposit BridgeExecute BridgeAdmin DepositData.
From S2P Require Import System Relay Typing.

(** What the adapters promise of the total supply: a successful call changes it by the
    amount moved, a failed call leaves it. *)
Class SupplyLedger (L : Type) `{TransactAsset L} := {
  supply : L -> AssetId -> Z;
  withdraw_supply what who ctx w taken w' :
    withdraw_asset what who ctx w = (Ok taken, w') ->
    exists x, asset_fun what = Fungible x /\ forall a,
      supply (ledger w') a = supply (ledger w) a - if decide (a = asset_id what) then x else 0;
  withdraw_supply_err what who ctx w e w' :
    withdraw_asset what who ctx w = (Err e, w') -> supply (ledger w') = supply (ledger w);
  deposit_supply what who ctx w w' :
    deposit_asset what who ctx w = (Ok tt, w') ->
    exists x, asset_fun what = Fungible x /\ forall a,
      supply (ledger w') a = supply (ledger w) a + if decide (a = asset_id what) then x else 0;
  deposit_supply_err what who ctx w e w' :
    deposit_asset what who ctx w = (Err e, w') -> supply (ledger w') = supply (ledger w)
}.

Section Supply.
Context {L : Type} `{BridgeConfig L} `{BasicFeeConfig} `{PercentageFeeConfig}
  `{RouterConfig} `{!TypedConfig L} `{!SupplyLedger L}.
Abbreviation W := (World L).
Implicit Types (w : W) (o : RawOrigin) (c : Call) (p : Proposal) (a : AssetId).

(** The units of [a] the execution of a proposal creates: none for an asset held by
    this chain, which pays from the holding account. *)
Definition minted a p : Z :=
  match rid_to_assetid (resource_id p), extract_deposit_data (data p) with
  | Some aid, Ok (amount, _) =>
      match convert_from (asset_of aid amount) with
      | Ok (Some asset) =>
          if contains asset loc_here then 0
          else match asset_fun asset with
               | Fungible x => if decide (a = asset_id asset) then x else 0
               | NonFungible _ => 0
               end
      | _ => 0
      end
  | _, _ => 0
  end.

(** A resolved proposal names a typed asset. *)
Lemma proposal_asset_typed p aid amount l asset :
  proposal_wf p -> rid_to_assetid (resource_id p) = Some aid ->
  extract_deposit_data (data p) = Ok (amount, l) ->
  convert_from (asset_of aid amount) = Ok (Some asset) -> asset_typed asset.
Proof.
  intros (_ & _ & _ & Hdata) Hr He Hc.
  destruct (extract_deposit_data_layout _ _ _ Hdata He) as (_ & _ & Ham & _).
  eapply typed_convert_from; [|done]. apply asset_of_typed; [|done].
  by eapply resource_pairs_lookup.
Qed.

Lemma minted_nonneg a p : proposal_wf p -> 0 <= minted a p.
Proof.
  intros Hp. unfold minted. destruct (rid_to_assetid _) as [aid|] eqn:Hr; [|done].
  destruct (extract_deposit_data _) as [[amount l]| |] eqn:He; try done.
  destruct (convert_from _) as [[asset|]| |] eqn:Hc; try done.
  destruct (proposal_asset_typed _ _ _ _ _ Hp Hr He Hc) as [_ Hx].
  destruct (contains asset loc_here); [done|]. destruct (asset_fun asset); [|done].
  case_decide; unfold is_u in *; lia.
Qed.

(** An executed proposal adds what it mints. *)
Lemma internal_supply_ok p w w' a :
  execute_proposal_internal p w = (Ok tt, w') ->
  supply (ledger w') a = supply (ledger w) a + minted a p.
Proof.
  intros Hr. apply execute_internal_ok_effect in Hr as [_ _ _
    (aid & amount & loc & asset & account & w1 & Hrid & He & Hc & _ & Hw & Hd)].
  unfold minted. rewrite Hrid, He, Hc.
  apply deposit_supply in Hd as (x & Hx & Hs). rewrite Hs, Hx.
  destruct (contains asset loc_here).
  - destruct Hw as [taken Hw]. apply withdraw_supply in Hw as (x' & Hx' & Hs').
    rewrite Hs'. rewrite Hx in Hx'. simplify_eq. lia.
  - by subst.
Qed.

(** A failed one never adds; it loses what it took out before failing. *)
Lemma internal_supply_err p w e w' a :
  proposal_wf p -> execute_proposal_internal p w = (Err e, w') ->
  supply (ledger w') a <= supply (ledger w) a.
Proof.
  intros Hp. unfold execute_proposal_internal. run_frame.
  destruct (negb _); [|by intros [= _ <-]]. destruct (dest_domain_supported _ _);
    [|by intros [= _ <-]]. destruct (negb _); [|by intros [= _ <-]].
  destruct (rid_to_assetid _) as [aid|] eqn:Hr; [|by intros [= _ <-]].
  destruct (extract_deposit_data _) as [[amount l]|e'|] eqn:He; try by intros [= _ <-].
  destruct (convert_from _) as [[asset|]|e'|] eqn:Hc; try by intros [= _ <-].
  destruct (get_token_reserved_account _) as [account|]; [|by intros [= _ <-]].
  destruct (proposal_asset_typed _ _ _ _ _ Hp Hr He Hc) as [_ Ht].
  destruct (contains asset loc_here).
  - destruct (withdraw_asset _ _ _ w) as [[taken|e'|] w1] eqn:Hwd; simpl; [| |done].
    + destruct (deposit_asset _ _ _ w1) as [[|e'|] w2] eqn:Hde; intros [= _ <-].
      apply deposit_supply_err in Hde as ->.
      apply withdraw_supply in Hwd as (x & Hx & ->). rewrite Hx in Ht. unfold is_u in Ht.
      case_decide; lia.
    + intros [= _ <-]. by apply withdraw_supply_err in Hwd as ->.
  - simpl. destruct (deposit_asset _ _ _ w) as [[|e'|] w2] eqn:Hde; intros [= _ <-].
    by apply deposit_supply_err in Hde as ->.
Qed.

Lemma batch_supply ps w w' a :
  Forall proposal_wf ps -> batch ps w w' ->
  supply (ledger w') a <= supply (ledger w) a + sumZ (minted a) (executed_in ps w).
Proof.
  intros Hps Hb. induction Hb as [|p ps w w1 w2 Hone _ IH]; [simpl; lia|].
  apply Forall_cons in Hps as [Hp Hps]. specialize (IH Hps). simpl. rewrite Hone.
  apply execute_one_cases in Hone as [_ [(w0 & Hi & ->)|(e & w0 & Hi & ->)]]; [| |done];
    rewrite Hi; simpl in *.
  - pose proof (internal_supply_ok p w w0 a Hi). lia.
  - pose proof (internal_supply_err p w e w0 a Hp Hi). lia.
Qed.

(** A deposit burns what leaves this chain and keeps the supply of what it holds. *)
Lemma deposit_call_supply o asset dest w r w' a :
  deposit o asset dest w = (r, w') -> r <> Panic ->
  supply (ledger w') a <= supply (ledger w) a.
Proof.
  intros Hr Hnp. destruct r as [[]|e|]; [|by apply deposit_err_unchanged in Hr as ->|done].
  apply deposit_ok_effect in Hr as [sender recipient d rid amount fee account taken
    converted w1 w2 w3 -> _ _ _ _ Hasset _ Hlt Hwd Hd1 _ Hres _ _]. simpl.
  destruct (extract_asset_fungible _ _ _ _ Hasset) as [_ Hx].
  apply withdraw_supply in Hwd as (x & Hx' & Hs1).
  assert (x = amount) as -> by congruence.
  apply deposit_supply in Hd1 as (y & [= <-] & Hs2). simpl in Hs2.
  assert (supply (ledger w3) a <=
    supply (ledger w2) a + if decide (a = asset_id asset) then amount - fee else 0) as H3.
  { destruct (contains asset loc_here).
    - apply deposit_supply in Hres as (z & [= <-] & Hs3). rewrite Hs3. simpl. lia.
    - subst. case_decide; lia. }
  rewrite Hs2, Hs1 in H3. case_decide; lia.
Qed.

(** Any call adds at most what it pays out in minted assets. *)
Lemma dispatch_supply o c w r w' a :
  call_wf c -> dispatch o c w = (r, w') -> r <> Panic ->
  supply (ledger w') a <= supply (ledger w) a + sumZ (minted a) (paid_by o c w).
Proof.
  intros Hc Hr Hnp. destruct (required c) as [[i n]|] eqn:Hq.
  - rewrite paid_by_other by (by intros ps sig ->).
    assert (ledger w' = ledger w) as -> by (destruct c; simplify_eq/=; by simplify_call Hr).
    simpl. lia.
  - destruct c; try done.
    + rewrite paid_by_other by done. simpl in *.
      pose proof (deposit_call_supply _ _ _ _ _ _ a Hr Hnp). lia.
    + unfold paid_by. rewrite Hr. simpl in Hr.
      apply execute_proposal_cases in Hr as [(-> & _ & Hb)|(e & -> & -> & _)]; [| |done].
      * by apply batch_supply.
      * simpl. lia.
Qed.
End Supply.
