(* ===== verification/Holding.v ===== *)
(** * The accounts that hold bridged assets

    Where this chain is the reserve of an asset, deposits lock it on a holding account
    and proposals unlock it.  The moves of the holding accounts are read off the calls
    ([locked_by], [unlocked_in]) and the balances are accounted for by them: a holding
    account never holds less than what was locked on it minus what was unlocked. *)

From S2P Require Import Prelude Xcm Frame Traits AccessSegregator BasicFeeHandler.
From S2P Require Import PercentageFeeHandler FeeHandlerRouter Encode Eip712 Bridge.
From S2P Require Import BridgeNonces BridgeDeposit BridgeExecute BridgeAdmin DepositData.
From S2P Require Import Conservation System Relay Typing Supply.

(** A failed call of an adapter moves nothing. *)
Class FailsafeLedger (L : Type) `{AssetLedger L} : Prop := {
  withdraw_fails what who ctx w e w' id a :
    withdraw_asset what who ctx w = (Err e, w') ->
    balance (ledger w') id a = balance (ledger w) id a;
  deposit_fails what who ctx w e w' id a :
    deposit_asset what who ctx w = (Err e, w') ->
    balance (ledger w') id a = balance (ledger w) id a
}.

(** A signed amount of an asset on an account. *)
Definition Move : Type := AccountId * AssetId * Z.

Section Holding.
Context {L : Type} `{BridgeConfig L} `{BasicFeeConfig} `{PercentageFeeConfig}
  `{RouterConfig} `{!TypedConfig L} `{!AssetLedger L} `{!FailsafeLedger L}.
Abbreviation W := (World L).
Implicit Types (w : W) (o : RawOrigin) (c : Call) (p : Proposal) (id : AccountId) (a : AssetId).

Definition move_at id a (m : Move) : Z := at_entry m.1.1 m.1.2 id a m.2.

(** What a deposit locks: the amount less the fee. *)
Definition locked_by (asset : MultiAsset) (dest : MultiLocation) w : list Move :=
  match extract_dest dest, extract_asset asset with
  | Ok (Some (_, d)), Some (_, amount, _) =>
      match get_fee w d asset, get_token_reserved_account (asset_id asset) with
      | Some fee, Some account =>
          if contains asset loc_here then [(account, asset_id asset, amount - fee)] else []
      | _, _ => []
      end
  | _, _ => []
  end.

(** What a proposal takes out of the holding account, whether its credit succeeds or
    not. *)
Definition unlocked_by p w : list Move :=
  match proposal_refusal w p, rid_to_assetid (resource_id p), extract_deposit_data (data p) with
  | None, Some aid, Ok (amount, _) =>
      match convert_from (asset_of aid amount), get_token_reserved_account aid with
      | Ok (Some out), Some account =>
          if contains out loc_here then
            match withdraw_asset out (loc_of_account account) None w, asset_fun out with
            | (Ok _, _), Fungible x => [(account, asset_id out, - x)]
            | _, _ => []
            end
          else []
      | _, _ => []
      end
  | _, _, _ => []
  end.

Fixpoint unlocked_in (ps : list Proposal) w : list Move :=
  match ps with
  | [] => []
  | p :: ps => unlocked_by p w ++ unlocked_in ps (execute_one p w).2
  end.

(** The moves of a call. *)
Definition moves_of o c w : list Move :=
  match c, dispatch o c w with
  | CallDeposit asset dest, (Ok _, _) => locked_by asset dest w
  | CallExecuteProposal ps _, (Ok _, _) => unlocked_in ps w
  | _, _ => []
  end.

(** The proposal's own effect on an account. *)
Lemma internal_holding p w r w' id a :
  proposal_wf p -> execute_proposal_internal p w = (r, w') -> r <> Panic ->
  balance (ledger w) id a + sumZ (move_at id a) (unlocked_by p w) <=
    balance (ledger w') id a.
Proof.
  intros Hp Hr Hnp. unfold unlocked_by.
  destruct (proposal_refusal w p) as [e|] eqn:Href.
  { rewrite (execute_internal_refused _ _ _ Href) in Hr. simplify_eq. simpl. lia. }
  revert Href Hr. unfold proposal_refusal, execute_proposal_internal. run_frame.
  destruct (is_paused _ _); simpl; [done|]. destruct (dest_domain_supported _ _); simpl; [|done].
  destruct (is_proposal_executed _ _ _); simpl; [done|].
  destruct (rid_to_assetid _) as [aid|] eqn:Hrid; [|done].
  destruct (extract_deposit_data _) as [[amount l]|e|] eqn:He; [|done|intros; congruence].
  destruct (convert_from _) as [[out|]|e|] eqn:Hc; [|done|done|intros; congruence].
  destruct (get_token_reserved_account _) as [account|]; [|done]. intros _.
  destruct (proposal_asset_typed _ _ _ _ _ Hp Hrid He Hc) as [_ Ht].
  assert (Hdep : forall w1 r w2, deposit_asset out l no_message w1 = (r, w2) -> r <> Panic ->
    balance (ledger w1) id a <= balance (ledger w2) id a).
  { intros w1 [[]|e|] w2 Hd Hn; [| |done].
    - apply deposit_moves in Hd as (ben & x & _ & Hx & ->). rewrite Hx in Ht.
      unfold is_u in Ht. case_decide; lia.
    - rewrite (deposit_fails _ _ _ _ _ _ id a Hd). lia. }
  destruct (contains out loc_here).
  - destruct (withdraw_asset _ _ _ w) as [[taken|e|] w1] eqn:Hwd; simpl; [| |by intros [= <- <-]].
    + pose proof (withdraw_moves _ _ _ _ _ _ Hwd) as (_ & x & _ & Hx & _). rewrite Hx.
      pose proof (account_withdraw_moves _ _ _ _ _ _ _ Hx Hwd id a) as Hb.
      destruct (deposit_asset _ _ _ w1) as [[[]|e|] w2] eqn:Hde; intros [= <- <-]; [| |done];
        pose proof (Hdep _ _ _ Hde ltac:(done)); simpl; unfold move_at, at_entry in *; simpl;
        case_decide; lia.
    + intros [= <- <-]. rewrite (withdraw_fails _ _ _ _ _ _ id a Hwd). simpl. lia.
  - simpl. destruct (deposit_asset _ _ _ w) as [[[]|e|] w2] eqn:Hde; intros [= <- <-]; [| |done];
      pose proof (Hdep _ _ _ Hde ltac:(done)); lia.
Qed.

Lemma batch_holding ps w w' id a :
  Forall proposal_wf ps -> batch ps w w' ->
  balance (ledger w) id a + sumZ (move_at id a) (unlocked_in ps w) <=
    balance (ledger w') id a.
Proof.
  intros Hps Hb. induction Hb as [|p ps w w1 w2 Hone _ IH]; [simpl; lia|].
  apply Forall_cons in Hps as [Hp Hps]. specialize (IH Hps). simpl. rewrite Hone, sumZ_app.
  apply execute_one_cases in Hone as [_ [(w0 & Hi & ->)|(e & w0 & Hi & ->)]]; [| |done];
    pose proof (internal_holding p w _ w0 id a Hp Hi ltac:(done)); simpl in *; lia.
Qed.

Lemma deposit_holding sender asset dest w r w' id a :
  sender <> id -> fee_reserve_account <> id ->
  deposit (Signed sender) asset dest w = (Ok r, w') ->
  balance (ledger w) id a + sumZ (move_at id a) (locked_by asset dest w) =
    balance (ledger w') id a.
Proof.
  intros Hs Hf Hr. destruct r.
  assert (exists rid amount, extract_asset asset = Some (rid, amount, FungibleTransfer))
    as (rid & amount & Hasset).
  { pose proof (deposit_ok_effect _ _ _ _ _ Hr) as []. eauto. }
  apply deposit_balances in Hr as
    (rcpt & d' & amount' & fee' & account' & Hdest & Hx & Hfee & _ & Hacc & Hb).
  rewrite Hb. unfold locked_by.
  destruct (extract_asset_fungible _ _ _ _ Hasset) as [_ Hx'].
  rewrite Hdest, Hasset, Hfee, Hacc. rewrite Hx in Hx'. simplify_eq.
  unfold at_entry. rewrite !(decide_False (P := _ = _)) by congruence.
  destruct (contains asset loc_here); simpl; unfold move_at, at_entry; simpl; lia.
Qed.

(** Any call of an origin other than the account itself. *)
Lemma dispatch_holding o c w r w' id a :
  call_wf c -> o <> Signed id -> fee_reserve_account <> id ->
  dispatch o c w = (r, w') -> r <> Panic ->
  balance (ledger w) id a + sumZ (move_at id a) (moves_of o c w) <= balance (ledger w') id a.
Proof.
  intros Hc Ho Hf Hr Hnp. destruct (required c) as [[i n]|] eqn:Hq.
  - assert (moves_of o c w = []) as -> by by destruct c.
    assert (ledger w' = ledger w) as -> by (destruct c; simplify_eq/=; by simplify_call Hr).
    simpl. lia.
  - destruct c; try done; unfold moves_of; rewrite Hr; simpl in Hr.
    + destruct r as [x|e|]; [|apply deposit_err_unchanged in Hr as ->; simpl; lia|done].
      destruct x. assert (exists sender, o = Signed sender) as [sender ->].
      { pose proof (deposit_ok_effect _ _ _ _ _ Hr) as []. eauto. }
      rewrite (deposit_holding sender asset dest w tt w' id a); [lia|congruence|done..].
    + apply execute_proposal_cases in Hr as [(-> & _ & Hb)|(e & -> & -> & _)]; [| |done].
      * by apply batch_holding.
      * simpl. lia.
Qed.

(** A history of typed calls, none of them signed by [id], with the moves they make. *)
Inductive history id w : W -> list Move -> Prop :=
| history_start : history id w w []
| history_call w1 o c r w2 ms :
    history id w w1 ms -> origin_typed o -> call_typed c -> o <> Signed id ->
    dispatch o c w1 = (r, w2) -> r <> Panic ->
    history id w w2 (ms ++ moves_of o c w1).

Lemma history_holding id w w' ms a :
  history id w w' ms -> fee_reserve_account <> id ->
  balance (ledger w) id a + sumZ (move_at id a) ms <= balance (ledger w') id a.
Proof.
  intros Hh Hf. induction Hh as [|w1 o c r w2 ms _ IH Ho Hc Hs Hr Hnp]; [simpl; lia|].
  rewrite sumZ_app.
  pose proof (dispatch_holding o c w1 r w2 id a (call_typed_wf c Hc) Hs Hf Hr Hnp). lia.
Qed.
End Holding.
