(* ===== verification/Network.v ===== *)
(** * Two chains and the relayers between them

    Two chains that run the pallets, each configured with the other as a domain.  Any
    typed extrinsic may be called on either side at any time.  The relayers and the MPC
    are not part of the repository; what is assumed of them is that a batch with a valid
    signature holds, of the proposals that name the other chain as origin, only such as
    a [Deposit] event of that chain announced.  Nothing is assumed on order, repetition,
    batching or delay, nor on proposals of third domains. *)

From S2P Require Import Prelude Xcm Frame Traits AccessSegregator BasicFeeHandler.
From S2P Require Import PercentageFeeHandler FeeHandlerRouter Encode Eip712 Bridge.
From S2P Require Import BridgeNonces BridgeDeposit BridgeExecute BridgeAdmin DepositData.
From S2P Require Import Conservation System Relay Typing Supply.

(** The configuration of all pallets of a chain. *)
Class ChainParams (L : Type) := {
  chain_bridge : BridgeConfig L;
  chain_basic : BasicFeeConfig;
  chain_percentage : PercentageFeeConfig;
  chain_router : RouterConfig
}.
#[export] Existing Instances chain_bridge.

(** A chain, and the proposals it has paid so far. *)
Record Node (L : Type) := { state : World L; paid : list Proposal }.
Arguments state {L}.
Arguments paid {L}.

Section OneChain.
Context {L : Type} {C : ChainParams L}.
Abbreviation W := (World L).
Implicit Types (w : W) (n : Node L) (p : Proposal) (ps : list Proposal).

#[local] Existing Instances chain_basic chain_percentage chain_router.

Definition call_on (o : RawOrigin) (c : Call) : M DispatchError W unit := dispatch o c.
Definition pays (o : RawOrigin) (c : Call) w : list Proposal := paid_by o c w.
Definition invariant w : Prop := chain_inv w.

(** The chain takes a call; the batches its MPC address has signed satisfy [ok]. *)
Inductive node_step (ok : list Proposal -> Prop) n : Node L -> Prop :=
| node_step_call o c r w' :
    origin_typed o -> call_typed c -> call_on o c (state n) = (r, w') -> r <> Panic ->
    (forall ps sig, c = CallExecuteProposal ps sig -> authorised (state n) ps sig -> ok ps) ->
    node_step ok n {| state := w'; paid := paid n ++ pays o c (state n) |}.

Definition genesis (l : L) : Node L := {| state := empty_world l; paid := [] |}.

(** [sender] deposits [asset] for [recipient] of domain [d], under the resource id
    [rid]; [y] is what is left after the fee, in the relayers' decimals. *)
Record sends w (sender : AccountId) (asset : MultiAsset) (dest : MultiLocation) w'
    (recipient : bytes) (d : DomainID) (rid : ResourceId) (y : Z) : Prop := {
  sends_typed : account_typed sender /\ asset_typed asset /\ location_wf dest;
  sends_ok : deposit (Signed sender) asset dest w = (Ok tt, w');
  sends_dest : extract_dest dest = Ok (Some (recipient, d));
  sends_amount : exists amount ty fee, extract_asset asset = Some (rid, amount, ty) /\
    get_fee w d asset = Some fee /\
    convert_to (asset_of (asset_id asset) (amount - fee)) = Ok (Some y)
}.

(** The chain can pay [y] of [rid] to [location] as [out], in the name of domain [d]: the
    domain is open, the resource is bound, and the transactor credits the location, in
    the state [w'], after it has debited the holding account where this chain is the
    reserve. *)
Record can_pay w (d : DomainID) (rid : ResourceId) (y : Z) (location : MultiLocation)
    (out : MultiAsset) w' : Prop := {
  pay_mpc : MpcAddr (bridge w) <> mpc_default;
  pay_unpaused : is_paused w d = false;
  pay_supported : dest_domain_supported w d = true;
  pay_moves : exists aid account w1, rid_to_assetid rid = Some aid /\
    convert_from (asset_of aid y) = Ok (Some out) /\
    get_token_reserved_account aid = Some account /\
    (if contains out loc_here
     then exists taken, withdraw_asset out (loc_of_account account) None w = (Ok taken, w1)
     else w1 = w) /\
    deposit_asset out location no_message w1 = (Ok tt, w')
}.

(** The bytes [recipient] encode the location, in the codec of this chain. *)
Definition encodes (recipient : bytes) (location : MultiLocation) : Prop :=
  location_wf location /\ recipient = loc_encode location /\
  Z.of_nat (length recipient) <= usize_max.

(** The holder of the MPC key can sign the digest of any batch. *)
Definition signs w (sign : bytes -> bytes) : Prop :=
  forall ps, ps <> [] ->
    let digest := construct_ecdsa_signing_proposals_data eip712_chain_id
      dest_verifying_contract_address ps in
    verify_by_mpc_address (MpcAddr (bridge w)) digest (sign digest) = true.

(** A fresh proposal a chain can pay is paid. *)
Lemma can_pay_effect w p y recipient location out w' :
  is_u u128_max y -> encodes recipient location -> data p = create_deposit_data y recipient ->
  can_pay w (origin_domain_id p) (resource_id p) y location out w' ->
  is_proposal_executed w (deposit_nonce p) (origin_domain_id p) = false ->
  execute_proposal_internal p w = (Ok tt, w').
Proof.
  intros Hy (Hl & -> & Hlen) Hdata [Hm Hu Hs (aid & account & w1 & Hr & Hc & Ha & Hmv & Hd)] Hf.
  apply execute_internal_ok_effect. split; try done.
  exists aid, y, location, out, account, w1. split_and!; try done.
  rewrite Hdata, extract_created by done.
  pose proof (loc_decode_encode location [] Hl) as Hdec. rewrite app_nil_r in Hdec.
  by rewrite Hdec.
Qed.

Lemma can_pay_balances `{!AssetLedger L} w d rid y location out w' :
  can_pay w d rid y location out w' ->
  exists beneficiary x account,
    location_account location = Some beneficiary /\ asset_fun out = Fungible x /\
    forall id c, balance (ledger w') id c = balance (ledger w) id c
      - (if contains out loc_here then at_entry account (asset_id out) id c x else 0)
      + at_entry beneficiary (asset_id out) id c x.
Proof.
  intros [_ _ _ (aid & account & w1 & _ & _ & _ & Hw & Hd)].
  apply deposit_moves in Hd as (ben & x & Hl & Hx & Hb).
  exists ben, x, account. split_and!; [done..|]. intros id c. rewrite Hb.
  unfold at_entry at 2. destruct (contains out loc_here).
  - destruct Hw as [taken Hw].
    rewrite (account_withdraw_moves _ _ _ _ _ _ _ Hx Hw id c). done.
  - subst. lia.
Qed.

(** The amount announced fits its 128 bits. *)
Lemma sends_amount_typed `{!TypedConfig L} w sender asset dest w' recipient d rid y :
  world_typed w -> sends w sender asset dest w' recipient d rid y -> is_u u128_max y.
Proof.
  intros Hw [(_ & Ha & _) Hdep Hdest (amount & ty & fee & Hasset & Hfee & Hy)].
  pose proof (typed_fee _ _ _ _ Hw Ha Hfee) as Hf.
  destruct (extract_asset_fungible _ _ _ _ Hasset) as [_ Hx].
  apply deposit_ok_not_refused in Hdep. unfold deposit_refusal in Hdep. simpl in Hdep.
  rewrite Hdest, Hasset, Hfee in Hdep.
  destruct Ha as [Hid Ham]. rewrite Hx in Ham.
  eapply typed_convert_to, Hy. apply asset_of_typed; [done|].
  destruct (Z.leb_spec amount fee); unfold is_u in *; [|lia]. by repeat case_match.
Qed.

Context `{!TransactorExt L} `{!TypedConfig L} `{!TypedTransactor L} `{!SupplyLedger L}.

Record node_inv (l0 : L) n : Prop := {
  node_chain : invariant (state n);
  node_typed : world_typed (state n);
  node_keys : proposal_key <$> paid n = executed_keys (events (state n));
  node_paid_wf : Forall proposal_wf (paid n);
  node_supply a : supply (ledger (state n)) a <= supply l0 a + sumZ (minted a) (paid n)
}.

Lemma genesis_inv l : node_inv l (genesis l).
Proof.
  split; [apply empty_inv|apply empty_typed|done|constructor|]. intros a. simpl. lia.
Qed.

Lemma pays_wf o c w : call_typed c -> Forall proposal_wf (pays o c w).
Proof.
  intros Hc. apply Forall_forall. intros p Hp.
  apply paid_by_elem in Hp as (ps & sig & -> & _ & Hp). simpl in Hc.
  rewrite Forall_forall in Hc. by apply Hc.
Qed.

Lemma node_step_inv ok l0 n n' : node_step ok n n' -> node_inv l0 n -> node_inv l0 n'.
Proof.
  intros [o c r w' Ho Hc Hr Hnp _] [H1 H2 H3 H4 H5].
  pose proof (typed_step_call _ _ o c r Ho Hc Hr Hnp) as Hs. split; simpl.
  - by eapply step_inv, H1; apply typed_step_step.
  - by eapply typed_step_typed.
  - rewrite fmap_app, H3. symmetry. by eapply dispatch_executed_keys.
  - apply Forall_app. split; [done|]. by apply pays_wf.
  - intros a. rewrite sumZ_app. specialize (H5 a).
    pose proof (dispatch_supply o c (state n) r w' a (call_typed_wf c Hc) Hr Hnp).
    unfold pays. lia.
Qed.

(** Every payment of a step is part of a batch the signer vouched for. *)
Lemma node_step_paid ok n n' :
  node_step ok n n' ->
  exists qs, paid n' = paid n ++ qs /\
    forall p, p ∈ qs -> exists ps, ok ps /\ p ∈ ps.
Proof.
  intros [o c r w' Ho Hc Hr Hnp Hok]. eexists. split; [done|]. intros p Hp.
  apply paid_by_elem in Hp as (ps & sig & -> & Ha & Hp). exists ps. split; [|done].
  by eapply Hok.
Qed.

Lemma node_step_relayed ok n n' self d :
  node_step ok n n' ->
  relayed self d (events (state n)) ⊆ relayed self d (events (state n')).
Proof.
  intros [o c r w' Ho Hc Hr Hnp _].
  destruct (dispatch_relayed o c _ _ _ self d Hr Hnp) as [ps Hps]. simpl. rewrite Hps. set_solver.
Qed.

(** Paid and executed are the same, and no pair is paid twice. *)
Lemma paid_executed l0 n p :
  node_inv l0 n -> p ∈ paid n ->
  is_proposal_executed (state n) (deposit_nonce p) (origin_domain_id p) = true.
Proof.
  intros Hn Hp. pose proof (node_paid_wf _ _ Hn) as Hwf. rewrite Forall_forall in Hwf.
  destruct (Hwf p Hp) as (_ & [Hnn _] & _).
  pose proof (inv_executed _ (node_chain _ _ Hn) (origin_domain_id p) (deposit_nonce p) Hnn) as He.
  rewrite executions_keys, <- (node_keys _ _ Hn) in He.
  destruct (is_proposal_executed _ _ _); [done|].
  assert (proposal_key p ∈ filter (fun k => k = (origin_domain_id p, deposit_nonce p))
    (proposal_key <$> paid n)) as Hin.
  { apply list_elem_of_filter. split; [done|]. by apply list_elem_of_fmap_2. }
  destruct (filter _ _); [by apply not_elem_of_nil in Hin|done].
Qed.

Lemma executed_paid l0 n d k :
  node_inv l0 n -> 0 <= k -> is_proposal_executed (state n) k d = true ->
  exists p, p ∈ paid n /\ proposal_key p = (d, k).
Proof.
  intros Hn Hk He. pose proof (inv_executed _ (node_chain _ _ Hn) d k Hk) as Hx.
  rewrite He, executions_keys, <- (node_keys _ _ Hn) in Hx.
  destruct (filter _ _) as [|q qs] eqn:Hf; [done|].
  assert (q ∈ q :: qs) as Hq by apply list_elem_of_here.
  rewrite <- Hf in Hq. apply list_elem_of_filter in Hq as [-> Hq].
  apply list_elem_of_fmap in Hq as (p & Hkey & Hp). eauto.
Qed.

Lemma paid_NoDup l0 n : node_inv l0 n -> NoDup (proposal_key <$> paid n).
Proof.
  intros Hn. rewrite (node_keys _ _ Hn). apply NoDup_filter_length. intros [d k] Hk.
  rewrite <- executions_keys.
  assert (0 <= k) as Hk0.
  { rewrite <- (node_keys _ _ Hn) in Hk. apply list_elem_of_fmap in Hk as (p & [= -> ->] & Hp).
    pose proof (node_paid_wf _ _ Hn) as Hwf. rewrite Forall_forall in Hwf.
    by destruct (Hwf p Hp) as (_ & [? _] & _). }
  rewrite (inv_executed _ (node_chain _ _ Hn) d k Hk0). by case_match; lia.
Qed.

(** The announcements of a typed chain are well formed proposals. *)
Lemma relayed_wf w self d :
  world_typed w -> is_u u8_max self -> Forall proposal_wf (relayed self d (events w)).
Proof.
  intros Hw Hs. apply Forall_forall. intros p Hp. unfold relayed in Hp.
  apply list_elem_of_omap in Hp as (e & He & Hp).
  pose proof (ty_events _ Hw) as Hev. rewrite Forall_forall in Hev. specialize (Hev e He).
  destruct e as [| | | |[]| | |]; simpl in Hp; try done. case_decide; simplify_eq.
  destruct Hev as (_ & Hrid & Hn & _ & Hd). by split_and!.
Qed.
End OneChain.

(** Of the proposals that claim to come from [self], only announced ones. *)
Definition vouched (self d : DomainID) (evs : list RuntimeEvent) (ps : list Proposal) : Prop :=
  Forall (fun p => origin_domain_id p = self -> p ∈ relayed self d evs) ps.

(** The proposals paid in the name of a domain that vouched for them are some of those it
    announced, each once. *)
Lemma vouched_announced {L} {C : ChainParams L} `{!SupplyLedger L} self d evs l0 (n : Node L) :
  node_inv l0 n -> vouched self d evs (paid n) ->
  filter (fun p => origin_domain_id p = self) (paid n) ⊆+ relayed self d evs.
Proof.
  intros Hn Hv. apply NoDup_submseteq.
  - by eapply NoDup_filter, (NoDup_fmap_1 proposal_key), paid_NoDup.
  - intros p [Ho Hp]%list_elem_of_filter. unfold vouched in Hv. rewrite Forall_forall in Hv.
    by apply Hv.
Qed.

Section TwoChains.
Context {LA LB : Type} {CA : ChainParams LA} {CB : ChainParams LB}.
(** The domain ids under which the chains know each other. *)
Context (dA dB : DomainID).

Definition Net : Type := Node LA * Node LB.

Inductive net_step : Net -> Net -> Prop :=
| net_step_a a a' b :
    node_step (vouched dB dA (events (state b))) a a' -> net_step (a, b) (a', b)
| net_step_b a b b' :
    node_step (vouched dA dB (events (state a))) b b' -> net_step (a, b) (a, b').

Context `{!TransactorExt LA} `{!TypedConfig LA} `{!TypedTransactor LA} `{!SupplyLedger LA}
  `{!TransactorExt LB} `{!TypedConfig LB} `{!TypedTransactor LB} `{!SupplyLedger LB}.

Record net_inv (lA : LA) (lB : LB) (n : Net) : Prop := {
  net_a : node_inv lA n.1;
  net_b : node_inv lB n.2;
  net_ab : vouched dA dB (events (state n.1)) (paid n.2);
  net_ba : vouched dB dA (events (state n.2)) (paid n.1)
}.

Lemma vouched_mono self d evs evs' ps :
  relayed self d evs ⊆ relayed self d evs' -> vouched self d evs ps -> vouched self d evs' ps.
Proof. intros Hs Hv. eapply Forall_impl; [exact Hv|]. intros p Hp Ho. by apply Hs, Hp. Qed.

(** The payments of a step inherit what was vouched for. *)
Lemma vouched_step {L} {C : ChainParams L} self d evs (n n' : Node L) :
  node_step (vouched self d evs) n n' ->
  vouched self d evs (paid n) -> vouched self d evs (paid n').
Proof.
  intros (qs & -> & Hqs)%node_step_paid Hv. apply Forall_app. split; [done|].
  apply Forall_forall. intros p (ps & Hps & Hp)%Hqs.
  unfold vouched in Hps. rewrite Forall_forall in Hps. by apply Hps.
Qed.

Lemma net_step_inv lA lB n n' : net_step n n' -> net_inv lA lB n -> net_inv lA lB n'.
Proof.
  intros [a a' b Hs|a b b' Hs] [Ha Hb Hab Hba]; split; simpl in *; try done;
    eauto using node_step_inv, vouched_step, vouched_mono, node_step_relayed.
Qed.

Definition net_genesis (lA : LA) (lB : LB) : Net := (genesis lA, genesis lB).

Lemma net_reachable_inv lA lB n : rtc net_step (net_genesis lA lB) n -> net_inv lA lB n.
Proof.
  assert (forall n0, rtc net_step n0 n -> net_inv lA lB n0 -> net_inv lA lB n) as Hi.
  { intros n0. induction 1; eauto using net_step_inv. }
  intros Hr. eapply Hi; [done|]. split; [apply genesis_inv..|constructor|constructor].
Qed.

(** The proposals [b] has paid in the name of [a] are some of those [a] announced,
    each once. *)
Lemma paid_announced lA lB (n : Net) :
  net_inv lA lB n ->
  filter (fun p => origin_domain_id p = dA) (paid n.2) ⊆+ relayed dA dB (events (state n.1)).
Proof. intros Hn. eapply vouched_announced; apply Hn. Qed.

(** The nonce of the next deposit towards [b] is fresh there. *)
Lemma next_nonce_fresh lA lB (n : Net) k :
  net_inv lA lB n -> deposit_count (state n.1) dB <= k ->
  is_proposal_executed (state n.2) k dA = false.
Proof.
  intros Hn Hk. destruct (is_proposal_executed _ _ _) eqn:He; [|done]. exfalso.
  destruct (inv_deposits _ (node_chain _ _ (net_a _ _ _ Hn)) dB) as [[Hc _] Hnum].
  destruct (executed_paid lB n.2 dA k) as (p & Hp & [= Ho Hpk]); [apply Hn|lia|done|].
  pose proof (net_ab _ _ _ Hn) as Hv. unfold vouched in Hv. rewrite Forall_forall in Hv.
  specialize (Hv p Hp Ho). apply (list_elem_of_fmap_2 deposit_nonce) in Hv.
  rewrite relayed_nonces, Hnum in Hv. apply elem_of_seqZ in Hv. lia.
Qed.

(** A payment is recorded once and for all. *)
Lemma paid_forever lA lB (n n' : Net) p :
  net_inv lA lB n -> p ∈ paid n.2 -> rtc net_step n n' ->
  length (filter (fun q => proposal_key q = proposal_key p) (paid n'.2)) = 1%nat.
Proof.
  intros Hn Hp Hr.
  assert (net_inv lA lB n' /\ p ∈ paid n'.2) as [Hn' Hp'].
  { induction Hr as [|n n1 n2 Hs _ IH]; [done|].
    apply IH; [by eapply net_step_inv|]. destruct Hs as [a a' b Hs|a b b' Hs]; [done|].
    destruct (node_step_paid _ _ _ Hs) as (qs & Hq & _). simpl in *. rewrite Hq. set_solver. }
  pose proof (paid_NoDup lB n'.2 (net_b _ _ _ Hn')) as Hnd. clear -Hnd Hp'.
  induction (paid n'.2) as [|q l IH]; [by apply not_elem_of_nil in Hp'|].
  apply NoDup_cons in Hnd as [Hq Hnd]. apply elem_of_cons in Hp' as [->|Hp'].
  - rewrite filter_cons_True by done. simpl. f_equal. apply length_zero_iff_nil.
    apply elem_of_nil_inv. intros x [Hx Hx']%list_elem_of_filter. apply Hq.
    rewrite <- Hx. by apply list_elem_of_fmap_2.
  - rewrite filter_cons_False; [by apply IH|]. intros He. apply Hq. rewrite He.
    by apply list_elem_of_fmap_2.
Qed.

(** A deposit is a step of the sending chain that pays nothing. *)
Lemma deposit_step a b sender asset dest w' :
  account_typed sender -> asset_typed asset -> location_wf dest ->
  deposit (Signed sender) asset dest (state a) = (Ok tt, w') ->
  net_step (a, b) ({| state := w'; paid := paid a |}, b).
Proof.
  intros Hs Ha Hd Hr.
  rewrite <- (app_nil_r (paid a)),
    <- (paid_by_other (H0 := chain_basic) (H1 := chain_percentage) (H2 := chain_router)
          (Signed sender) (CallDeposit asset dest) (state a)) by done.
  eapply net_step_a, (node_step_call _ a (Signed sender) (CallDeposit asset dest)); done.
Qed.

(** A batch of one announced proposal that takes effect is a step of the receiving
    chain. *)
Lemma delivery_step a b p origin sig w' :
  origin_typed origin -> proposal_wf p -> p ∈ relayed dA dB (events (state a)) ->
  authorised (state b) [p] sig -> execute_proposal_internal p (state b) = (Ok tt, w') ->
  net_step (a, b)
    (a, {| state := add_event (executed_event p)
                      (mark w' (deposit_nonce p) (origin_domain_id p));
           paid := paid b ++ [p] |}).
Proof.
  intros Ho Hp Hann Ha Hr.
  assert (execute_one p (state b) = (Ok tt, add_event (executed_event p)
    (mark w' (deposit_nonce p) (origin_domain_id p)))) as Hone.
  { unfold execute_one. rewrite Hr. by rewrite (bind_ok _ _ _ _ _ (set_proposal_executed_run _ _ _)). }
  assert (call_on origin (CallExecuteProposal [p] sig) (state b) = (Ok tt,
    add_event (executed_event p) (mark w' (deposit_nonce p) (origin_domain_id p)))) as Hc.
  { apply execute_proposal_authorised; [done|]. econstructor; [done|constructor]. }
  replace [p] with (pays origin (CallExecuteProposal [p] sig) (state b)).
  - eapply net_step_b, (node_step_call _ b origin (CallExecuteProposal [p] sig)); try done.
    + by apply Forall_singleton.
    + intros ps sig' [= <- <-] _. by apply Forall_singleton.
  - unfold pays, paid_by. unfold call_on in Hc. rewrite Hc. simpl. by rewrite Hr.
Qed.
End TwoChains.
