(* ===== verification/Channel.v ===== *)
(** * The bridge as a pair of channels

    What the relayers and the pallets promise together, without pallets: in each
    direction a channel, to which transfers are appended and from which each may be
    delivered once, unaltered and in any order.  The two chains of [Network.v] refine
    this: the announcements of a chain are the transfers sent, the nonce of a deposit is
    its position, and the bits set in [UsedNonces] of the peer are the positions
    delivered. *)

From S2P Require Import Prelude Xcm Frame Traits AccessSegregator BasicFeeHandler.
From S2P Require Import PercentageFeeHandler FeeHandlerRouter Encode Eip712 Bridge.
From S2P Require Import BridgeNonces BridgeDeposit BridgeExecute BridgeAdmin DepositData.
From S2P Require Import Conservation System Relay Typing Supply Network.

(** ** The specification *)

(** What travels: the resource and the bytes handed to the other side. *)
Definition Transfer : Type := ResourceId * bytes.

Record Channel := { sent : list Transfer; delivered : list (nat * Transfer) }.

Definition send (c : Channel) (t : Transfer) : Channel :=
  {| sent := sent c ++ [t]; delivered := delivered c |}.
Definition deliver (c : Channel) (i : nat) (t : Transfer) : Channel :=
  {| sent := sent c; delivered := delivered c ++ [(i, t)] |}.

Inductive channel_step (c : Channel) : Channel -> Prop :=
| channel_send t : channel_step c (send c t)
| channel_deliver i t :
    sent c !! i = Some t -> i ∉ (delivered c).*1 -> channel_step c (deliver c i t).

(** Two independent channels. *)
Inductive channels_step : Channel * Channel -> Channel * Channel -> Prop :=
| channels_ab c c' d : channel_step c c' -> channels_step (c, d) (c', d)
| channels_ba c d d' : channel_step d d' -> channels_step (c, d) (c, d').

Definition idle : Channel := {| sent := []; delivered := [] |}.

(** What the specification is worth: deliveries are of transfers sent, each position at
    most once. *)
Definition channel_ok (c : Channel) : Prop :=
  NoDup (delivered c).*1 /\ Forall (fun '(i, t) => sent c !! i = Some t) (delivered c).

Lemma channel_step_ok c c' : channel_step c c' -> channel_ok c -> channel_ok c'.
Proof.
  intros [t|i t Hi Hnew] [Hnd Hall]; split; simpl.
  - done.
  - eapply Forall_impl; [exact Hall|]. intros [j u] Hj. by apply lookup_app_l_Some.
  - rewrite fmap_app. apply NoDup_app. split_and!; [done| |apply NoDup_singleton].
    intros j Hj ->%list_elem_of_singleton. done.
  - apply Forall_app. split; [done|]. by apply Forall_singleton.
Qed.

Lemma channels_ok c d : rtc channels_step (idle, idle) (c, d) -> channel_ok c /\ channel_ok d.
Proof.
  assert (forall x y, rtc channels_step x y -> channel_ok x.1 /\ channel_ok x.2 ->
    channel_ok y.1 /\ channel_ok y.2) as Hi.
  { intros x y. induction 1 as [|x y z Hs _ IH]; [done|]. intros [H1 H2]. apply IH.
    destruct Hs; simpl in *; eauto using channel_step_ok. }
  intros Hr. apply (Hi _ _ Hr). by repeat constructor.
Qed.

(** Sequences of steps of one kind. *)
Lemma send_all c ts :
  rtc channel_step c {| sent := sent c ++ ts; delivered := delivered c |}.
Proof.
  revert c. induction ts as [|t ts IH]; intros c.
  - rewrite app_nil_r. by destruct c.
  - eapply rtc_l; [by apply (channel_send _ t)|].
    specialize (IH (send c t)). simpl in IH. by rewrite <- app_assoc in IH.
Qed.

Lemma deliver_all c its :
  NoDup ((delivered c).*1 ++ its.*1) -> Forall (fun '(i, t) => sent c !! i = Some t) its ->
  rtc channel_step c {| sent := sent c; delivered := delivered c ++ its |}.
Proof.
  revert c. induction its as [|[i t] its IH]; intros c Hnd Hall; simpl in *.
  - rewrite app_nil_r. by destruct c.
  - apply Forall_cons in Hall as [Hi Hall].
    eapply rtc_l; [apply (channel_deliver _ i t); [done|]|].
    + intros Hin. apply NoDup_app in Hnd as (_ & Hdis & _).
      apply (Hdis i Hin). left.
    + specialize (IH (deliver c i t)). simpl in IH. rewrite <- app_assoc in IH.
      apply IH; [|done]. by rewrite fmap_app, <- app_assoc.
Qed.

(** ** The abstraction *)

Definition transfer_of (p : Proposal) : Transfer := (resource_id p, data p).
Definition position_of (p : Proposal) : nat := Z.to_nat (deposit_nonce p).

Definition channel_of {LA LB} (self d : DomainID) (a : Node LA) (b : Node LB) : Channel :=
  {| sent := transfer_of <$> relayed self d (events (state a));
     delivered := (fun p => (position_of p, transfer_of p)) <$>
       filter (fun p => origin_domain_id p = self) (paid b) |}.

Section Refinement.
Context {LA LB : Type} {CA : ChainParams LA} {CB : ChainParams LB} (dA dB : DomainID)
  `{!TransactorExt LA} `{!TypedConfig LA} `{!TypedTransactor LA} `{!SupplyLedger LA}
  `{!TransactorExt LB} `{!TypedConfig LB} `{!TypedTransactor LB} `{!SupplyLedger LB}.
Implicit Types (a : Node LA) (b : Node LB) (p : Proposal).

(** An announced proposal is the transfer at the position of its nonce. *)
Lemma relayed_position lA a d p :
  node_inv lA a -> p ∈ relayed dA d (events (state a)) ->
  (transfer_of <$> relayed dA d (events (state a))) !! position_of p = Some (transfer_of p).
Proof.
  intros Ha (i & Hi)%list_elem_of_lookup.
  destruct (inv_deposits _ (node_chain _ _ Ha) d) as [_ Hnum].
  pose proof (f_equal (fun l => l !! i) (relayed_nonces dA d (events (state a)))) as Hn.
  rewrite Hnum, list_lookup_fmap, Hi in Hn. symmetry in Hn.
  apply lookup_seqZ in Hn as [Hn _]. unfold position_of. rewrite Hn.
  replace (Z.to_nat (0 + Z.of_nat i)) with i by lia. by rewrite list_lookup_fmap, Hi.
Qed.

(** Deliveries of [b]: each a step of the channel from [a]. *)
Lemma deliveries_refine lA lB a b b' qs :
  node_inv lA a -> node_inv lB b' -> paid b' = paid b ++ qs ->
  vouched dA dB (events (state a)) (paid b') ->
  rtc channel_step (channel_of dA dB a b) (channel_of dA dB a b').
Proof.
  intros Ha Hb Hp Hv. unfold channel_of at 2. rewrite Hp, filter_app, fmap_app.
  set (f := fun p => (position_of p, transfer_of p)).
  apply (deliver_all (channel_of dA dB a b) (f <$> filter (fun p => origin_domain_id p = dA) qs)).
  - cbn [channel_of delivered]. rewrite <- fmap_app, <- fmap_app, <- filter_app, <- Hp.
    rewrite <- list_fmap_compose.
    pose proof (NoDup_filter (fun p => origin_domain_id p = dA) (paid b')
      (NoDup_fmap_1 _ _ (paid_NoDup lB b' Hb))) as Hnd.
    apply NoDup_fmap_2_strong; [|exact Hnd].
    intros p q [Hpo Hpin]%list_elem_of_filter [Hqo Hqin]%list_elem_of_filter Heq.
    pose proof (node_paid_wf _ _ Hb) as Hwf. rewrite Forall_forall in Hwf.
    destruct (Hwf p Hpin) as (_ & [Hp0 _] & _). destruct (Hwf q Hqin) as (_ & [Hq0 _] & _).
    unfold f, position_of in Heq. simpl in Heq.
    eapply (column_inj proposal_key); [apply (paid_NoDup lB b' Hb)|done|done|].
    unfold proposal_key. rewrite Hpo, Hqo. f_equal. lia.
  - apply Forall_fmap, Forall_forall. intros p [Ho Hq]%list_elem_of_filter. simpl.
    apply (relayed_position lA); [done|]. unfold vouched in Hv. rewrite Forall_forall in Hv.
    apply Hv; [|done]. rewrite Hp. set_solver.
Qed.

(** Announcements of [a]: each a step of the channel towards [b]. *)
Lemma announcements_refine ok a a' b :
  node_step ok a a' -> rtc channel_step (channel_of dA dB a b) (channel_of dA dB a' b).
Proof.
  intros [o c r w' _ _ Hr Hnp _].
  destruct (dispatch_relayed o c _ _ _ dA dB Hr Hnp) as [ps Hps].
  unfold channel_of at 2. simpl. rewrite Hps, fmap_app.
  apply (send_all (channel_of dA dB a b)).
Qed.

(** A position is delivered exactly when its bit is set in the nonces of [b]. *)
Lemma delivered_used lB a b (i : nat) :
  node_inv lB b ->
  i ∈ (delivered (channel_of dA dB a b)).*1 <->
  is_proposal_executed (state b) (Z.of_nat i) dA = true.
Proof.
  intros Hb. unfold channel_of. simpl. rewrite <- list_fmap_compose, list_elem_of_fmap. split.
  - intros (p & -> & [Ho Hp]%list_elem_of_filter). simpl.
    pose proof (node_paid_wf _ _ Hb) as Hwf. rewrite Forall_forall in Hwf.
    destruct (Hwf p Hp) as (_ & [Hp0 _] & _). unfold position_of.
    rewrite Z2Nat.id by done. rewrite <- Ho. by eapply paid_executed.
  - intros He. destruct (executed_paid lB b dA (Z.of_nat i) Hb) as (p & Hp & [= Ho Hk]); [lia|done|].
    exists p. split; [simpl; unfold position_of; lia|]. by apply list_elem_of_filter.
Qed.
End Refinement.

Section Simulation.
Context {LA LB : Type} {CA : ChainParams LA} {CB : ChainParams LB} (dA dB : DomainID)
  `{!TransactorExt LA} `{!TypedConfig LA} `{!TypedTransactor LA} `{!SupplyLedger LA}
  `{!TransactorExt LB} `{!TypedConfig LB} `{!TypedTransactor LB} `{!SupplyLedger LB}.

Definition channels_of (n : Net (LA := LA) (LB := LB)) : Channel * Channel :=
  (channel_of dA dB n.1 n.2, channel_of dB dA n.2 n.1).

Lemma channels_lift_ab c c' d :
  rtc channel_step c c' -> rtc channels_step (c, d) (c', d).
Proof. induction 1; [done|]. eapply rtc_l; [by apply channels_ab|done]. Qed.
Lemma channels_lift_ba c d d' :
  rtc channel_step d d' -> rtc channels_step (c, d) (c, d').
Proof. induction 1; [done|]. eapply rtc_l; [by apply channels_ba|done]. Qed.

Lemma net_step_refines lA lB n n' :
  net_inv dA dB lA lB n -> net_step dA dB n n' ->
  rtc channels_step (channels_of n) (channels_of n').
Proof.
  intros Hn Hs. pose proof (net_step_inv dA dB lA lB _ _ Hs Hn) as [Ha' Hb' Hab' Hba'].
  destruct Hn as [Ha Hb _ _]. unfold channels_of.
  destruct Hs as [a a' b Hs|a b b' Hs]; simpl in *;
    pose proof (node_step_paid _ _ _ Hs) as (qs & Hq & _).
  - etrans; [apply channels_lift_ab, (announcements_refine dA dB _ _ _ _ Hs)|].
    by eapply channels_lift_ba, (deliveries_refine dB dA lB lA).
  - etrans; [apply channels_lift_ba, (announcements_refine dB dA _ _ _ _ Hs)|].
    by eapply channels_lift_ab, (deliveries_refine dA dB lA lB).
Qed.
End Simulation.
