(* ===== verification/Circulation.v ===== *)
(** * What circulates of a bridged asset

    A chain represents a resource by an asset of its own ([Peg]): either it is the
    reserve, and the units on the holding account are out of circulation, or it mints
    and burns a wrapped asset.  In the relayers' decimals, no call lets more circulate
    than the proposals it pays are worth, and a deposit takes out of circulation at
    least what it announces. *)

From S2P Require Import Prelude Xcm Frame Traits AccessSegregator BasicFeeHandler.
From S2P Require Import PercentageFeeHandler FeeHandlerRouter Encode Eip712 Bridge.
From S2P Require Import BridgeNonces BridgeDeposit BridgeExecute BridgeAdmin DepositData.
From S2P Require Import Conservation System Relay Typing Supply Holding Network.

(** The amount a proposal carries, in the relayers' decimals, when it moves [rid]. *)
Definition worth (rid : ResourceId) (p : Proposal) : Z :=
  if decide (resource_id p = rid) then from_be (slice 0 32 (data p)) else 0.

Lemma worth_nonneg rid p : proposal_wf p -> 0 <= worth rid p.
Proof.
  intros (_ & _ & _ & Hd). unfold worth. case_decide; [|done].
  apply from_be_bound. by apply Forall_take, Forall_drop.
Qed.

Lemma created_amount y recipient :
  is_u u128_max y -> from_be (slice 0 32 (create_deposit_data y recipient)) = y.
Proof.
  unfold is_u, u128_max. intros Hy. unfold create_deposit_data, hex_zero_padding_32.
  cbn [concat]. rewrite slice_app_l by (by apply to_be_length). apply from_be_to_be; lia.
Qed.

(** An asset that represents a resource: [x] of its units are worth
    [x * peg_num / peg_den] of the relayers'; [peg_holder] is the holding account, where
    this chain is the reserve. *)
Record Peg := {
  peg_asset : AssetId;
  peg_num : Z;
  peg_den : Z;
  peg_holder : option AccountId
}.

Lemma surjective_asset what x : asset_fun what = Fungible x -> what = asset_of (asset_id what) x.
Proof. destruct what. by intros [= ->]. Qed.

(** The adapters announce no transfer of their own: they do not forward. *)
Class PlainTransactor (L : Type) `{TransactAsset L} : Prop := {
  withdraw_plain what who ctx w r w' self d :
    withdraw_asset what who ctx w = (r, w') -> r <> Panic ->
    relayed self d (events w') = relayed self d (events w);
  deposit_plain what who ctx w r w' self d :
    deposit_asset what who ctx w = (r, w') -> r <> Panic ->
    relayed self d (events w') = relayed self d (events w)
}.

(** [split_decides]: by cases on every decision of the goal. *)
Ltac split_decides :=
  repeat match goal with |- context [decide ?P] => destruct (decide P) end.

Lemma relayed_snoc self d evs e :
  relay_of self d e = None -> relayed self d (evs ++ [e]) = relayed self d evs.
Proof.
  intros He. rewrite relayed_app. unfold relayed at 2. simpl. by rewrite He, app_nil_r.
Qed.

(** What the chain of domain [self] announced of a resource, towards any of some domains. *)
Definition announced (rid : ResourceId) (self : DomainID) (ds : list DomainID)
    (evs : list RuntimeEvent) : Z :=
  sumZ (fun d => sumZ (worth rid) (relayed self d evs)) ds.

Lemma announced_same rid self ds evs evs' :
  (forall d, relayed self d evs' = relayed self d evs) ->
  announced rid self ds evs' = announced rid self ds evs.
Proof. intros Hr. apply sumZ_ext. intros d _. by rewrite Hr. Qed.

(** A deposit is announced towards its one destination. *)
Lemma announced_deposit rid self ds evs d' rid' nonce sender ty y recipient handler :
  NoDup ds -> is_u u128_max y ->
  announced rid self ds (evs ++ [EvBridge (Deposit d' rid' nonce sender ty
    (create_deposit_data y recipient) handler)]) =
  announced rid self ds evs +
    if decide (d' ∈ ds) then if decide (rid' = rid) then y else 0 else 0.
Proof.
  intros Hd Hy. unfold announced. rewrite <- (sumZ_point d') by done. rewrite <- sumZ_add.
  apply sumZ_ext. intros d _. rewrite relayed_app, sumZ_app. unfold relayed at 2. simpl.
  destruct (decide (d' = d)); simpl; [|lia].
  unfold worth at 2. simpl. by rewrite created_amount, Z.add_0_r.
Qed.

Section Circulation.
Context {L : Type} `{BridgeConfig L} `{BasicFeeConfig} `{PercentageFeeConfig}
  `{RouterConfig} `{!TypedConfig L} `{!AssetLedger L} `{!FailsafeLedger L}
  `{!SupplyLedger L} `{!PlainTransactor L}.
Abbreviation W := (World L).
Implicit Types (w : W) (o : RawOrigin) (c : Call) (p : Proposal).

(** The configuration binds the resource to the asset of the peg and to no other, its
    conversions never gain, and the asset is reserved here exactly when the peg has a
    holding account. *)
Record pegged (s : Peg) (rid : ResourceId) : Prop := {
  peg_positive : 0 < peg_num s /\ 0 < peg_den s;
  peg_out asset rid' amount ty :
    extract_asset asset = Some (rid', amount, ty) ->
    rid' = rid <-> asset_id asset = peg_asset s;
  peg_in rid' aid : rid_to_assetid rid' = Some aid -> rid' = rid <-> aid = peg_asset s;
  peg_to x y :
    is_u u128_max x -> convert_to (asset_of (peg_asset s) x) = Ok (Some y) ->
    peg_den s * y <= peg_num s * x;
  peg_keeps_id aid y out :
    convert_from (asset_of aid y) = Ok (Some out) -> asset_id out = aid;
  peg_from y out x :
    is_u u128_max y -> convert_from (asset_of (peg_asset s) y) = Ok (Some out) ->
    asset_fun out = Fungible x -> peg_num s * x <= peg_den s * y;
  peg_reserve x :
    contains (asset_of (peg_asset s) x) loc_here = bool_decide (is_Some (peg_holder s));
  peg_account id :
    peg_holder s = Some id ->
    get_token_reserved_account (peg_asset s) = Some id /\ fee_reserve_account <> id
}.

Context (s : Peg) (rid : ResourceId) (Hpeg : pegged s rid).

(** The units of the asset outside the holding account. *)
Definition circulating w : Z :=
  supply (ledger w) (peg_asset s) -
  match peg_holder s with
  | Some id => balance (ledger w) id (peg_asset s)
  | None => 0
  end.

(** The part of a move of [x] units on account [id] that circulates. *)
Definition moved (a : AssetId) (id : AccountId) (x : Z) : Z :=
  if decide (a = peg_asset s) then if decide (peg_holder s = Some id) then 0 else x else 0.

Lemma withdraw_circulating what who ctx w taken w' :
  withdraw_asset what who ctx w = (Ok taken, w') ->
  exists id x, location_account who = Some id /\ asset_fun what = Fungible x /\
    circulating w' = circulating w - moved (asset_id what) id x.
Proof.
  intros Hw. destruct (withdraw_moves _ _ _ _ _ _ Hw) as (id & x & Hl & Hx & Hb).
  destruct (withdraw_supply _ _ _ _ _ _ Hw) as (x' & Hx' & Hs).
  rewrite Hx in Hx'. injection Hx' as <-.
  exists id, x. split_and!; [done..|]. unfold circulating, moved. rewrite Hs.
  destruct (peg_holder s) as [h|]; [rewrite Hb|]; split_decides;
    try lia; congruence.
Qed.

Lemma deposit_circulating what who ctx w w' :
  deposit_asset what who ctx w = (Ok tt, w') ->
  exists id x, location_account who = Some id /\ asset_fun what = Fungible x /\
    circulating w' = circulating w + moved (asset_id what) id x.
Proof.
  intros Hw. destruct (deposit_moves _ _ _ _ _ Hw) as (id & x & Hl & Hx & Hb).
  destruct (deposit_supply _ _ _ _ _ Hw) as (x' & Hx' & Hs).
  rewrite Hx in Hx'. injection Hx' as <-.
  exists id, x. split_and!; [done..|]. unfold circulating, moved. rewrite Hs.
  destruct (peg_holder s) as [h|]; [rewrite Hb|]; split_decides;
    try lia; congruence.
Qed.

(** The worth of what circulates and of what was announced. *)
Context (self : DomainID) (ds : list DomainID) (ds_once : NoDup ds).
Definition exposure w : Z :=
  peg_num s * circulating w + peg_den s * announced rid self ds (events w).

(** It is read off the ledger and the announcements. *)
Lemma exposure_same w w' :
  ledger w' = ledger w -> (forall d, relayed self d (events w') = relayed self d (events w)) ->
  exposure w' = exposure w.
Proof.
  intros Hl Hr. unfold exposure, circulating.
  by rewrite Hl, (announced_same rid self ds _ _ Hr).
Qed.

Lemma failed_exposure w w' :
  supply (ledger w') = supply (ledger w) ->
  (forall id a, balance (ledger w') id a = balance (ledger w) id a) ->
  (forall d, relayed self d (events w') = relayed self d (events w)) -> exposure w' = exposure w.
Proof.
  intros Hs Hb Hr. unfold exposure, circulating.
  rewrite Hs, (announced_same rid self ds _ _ Hr). by case_match; rewrite ?Hb.
Qed.

Lemma withdraw_exposure what id ctx w taken w' x :
  asset_fun what = Fungible x ->
  withdraw_asset what (loc_of_account id) ctx w = (Ok taken, w') ->
  exposure w' = exposure w - peg_num s * moved (asset_id what) id x.
Proof.
  intros Hx Hw. pose proof (announced_same rid self ds _ _
    (fun d => withdraw_plain _ _ _ _ _ _ self d Hw ltac:(done))) as Hr.
  apply withdraw_circulating in Hw as (id' & x' & Hl & Hx' & Hc).
  rewrite location_account_local in Hl. rewrite Hx in Hx'. simplify_eq. unfold exposure.
  rewrite Hc, Hr, Z.mul_sub_distr_l. lia.
Qed.

Lemma deposit_exposure what who ctx w w' :
  deposit_asset what who ctx w = (Ok tt, w') ->
  exists id x, location_account who = Some id /\ asset_fun what = Fungible x /\
    exposure w' = exposure w + peg_num s * moved (asset_id what) id x.
Proof.
  intros Hw. pose proof (announced_same rid self ds _ _
    (fun d => deposit_plain _ _ _ _ _ _ self d Hw ltac:(done))) as Hr.
  apply deposit_circulating in Hw as (id & x & Hl & Hx & Hc).
  exists id, x. split_and!; [done..|]. unfold exposure.
  rewrite Hc, Hr, Z.mul_add_distr_l. lia.
Qed.

Lemma account_deposit_exposure a x id ctx w w' :
  deposit_asset (asset_of a x) (loc_of_account id) ctx w = (Ok tt, w') ->
  exposure w' = exposure w + peg_num s * moved a id x.
Proof.
  intros (id' & x' & Hl & [= <-] & ->)%deposit_exposure.
  rewrite location_account_local in Hl. by simplify_eq.
Qed.

(** The last part of a deposit: its nonce and its events. *)
Lemma announce_exposure w sender d' rid' fee aid nonce y recipient counts :
  is_u u128_max y ->
  exposure (add_event (EvBridge (FeeCollected sender d' rid' fee aid))
    (add_event (EvBridge (Deposit d' rid' nonce sender FungibleTransfer
       (create_deposit_data y recipient) [])) (set_bridge (set_counts counts) w))) =
  exposure w + peg_den s * if decide (d' ∈ ds) then if decide (rid' = rid) then y else 0 else 0.
Proof.
  intros Hy. unfold exposure at 1, circulating. simpl.
  rewrite (announced_same rid self ds _ (_ ++ [EvBridge (FeeCollected sender d' rid' fee aid)]))
    by (intros d; by apply relayed_snoc).
  rewrite announced_deposit by done. unfold exposure, circulating. lia.
Qed.

(** Locking the asset of the peg takes it out of circulation. *)
Lemma lock_exposure x y account w w' :
  get_token_reserved_account (peg_asset s) = Some account ->
  (if contains (asset_of (peg_asset s) x) loc_here
   then deposit_asset (asset_of (peg_asset s) y) (loc_of_account account) no_message w
          = (Ok tt, w')
   else w' = w) -> exposure w' = exposure w.
Proof.
  intros Hacc. rewrite (peg_reserve _ _ Hpeg).
  destruct (peg_holder s) as [h|] eqn:Hh; simpl; [|by intros ->].
  destruct (peg_account _ _ Hpeg h Hh) as [Hacc' _]. rewrite Hacc' in Hacc. injection Hacc as <-.
  intros Hd%account_deposit_exposure. unfold moved in Hd. rewrite !decide_True in Hd by done. lia.
Qed.

(** A deposit takes out of circulation at least the worth it announces. *)
Lemma deposit_call_exposure o asset dest w r w' :
  world_typed w -> asset_typed asset -> (forall id, peg_holder s = Some id -> o <> Signed id) ->
  deposit o asset dest w = (r, w') -> r <> Panic -> exposure w' <= exposure w.
Proof.
  intros Hty Hta Ho Hr Hnp.
  destruct r as [[]|e|]; [|by apply deposit_err_unchanged in Hr as ->|done].
  apply deposit_ok_effect in Hr as [sender recipient d' rid' amount fee account taken
    converted w1 w2 w3 -> _ _ _ _ Hasset Hfee Hlt Hwd Hd1 Hacc Hres _ Hconv].
  pose proof (typed_fee _ _ _ _ Hty Hta Hfee) as Hf.
  destruct (extract_asset_fungible _ _ _ _ Hasset) as [_ Hx].
  destruct Hta as [Hid Ham]. rewrite Hx in Ham.
  assert (Hnet : is_u u128_max (amount - fee)) by (unfold is_u in *; lia).
  assert (Hy : is_u u128_max converted) by by eapply typed_convert_to, Hconv.
  pose proof (withdraw_exposure _ _ _ _ _ _ _ Hx Hwd) as Hm1.
  pose proof (account_deposit_exposure _ _ _ _ _ _ Hd1) as Hm2.
  rewrite announce_exposure by done. destruct (peg_positive _ _ Hpeg) as [Hn Hd].
  pose proof (peg_out _ _ Hpeg _ _ _ _ Hasset) as Hrid.
  unfold moved in *. destruct (decide (asset_id asset = peg_asset s)) as [Ha|Ha].
  - rewrite (surjective_asset asset amount Hx), Ha in Hres. rewrite Ha in Hacc.
    simpl in Hres.
    apply (lock_exposure _ _ account) in Hres as Hw3; [|done].
    rewrite decide_False in Hm1 by (intros Hh; by apply (Ho sender)).
    rewrite decide_False in Hm2 by (intros Hh; by apply (peg_account _ _ Hpeg _ Hh)).
    rewrite Ha in Hconv. pose proof (peg_to _ _ Hpeg _ _ Hnet Hconv).
    rewrite (decide_True (P := rid' = rid)) by by apply Hrid.
    unfold is_u in Hy. case_decide; nia.
  - rewrite (decide_False (P := rid' = rid)) by (intros ?; by apply Ha, Hrid).
    assert (exposure w3 = exposure w2).
    { destruct (contains asset loc_here); [|by subst]. apply account_deposit_exposure in Hres.
      unfold moved in Hres. rewrite decide_False in Hres by done. lia. }
    case_decide; lia.
Qed.

(** Taking assets off the holding account does not let them circulate yet. *)
Lemma release_exposure aid y out account ctx w taken w' :
  convert_from (asset_of aid y) = Ok (Some out) ->
  get_token_reserved_account aid = Some account -> contains out loc_here = true ->
  withdraw_asset out (loc_of_account account) ctx w = (Ok taken, w') ->
  exposure w' = exposure w.
Proof.
  intros Hc Hacc Hres Hw. pose proof (peg_keeps_id _ _ Hpeg _ _ _ Hc) as Hid.
  destruct (withdraw_moves _ _ _ _ _ _ Hw) as (_ & x & _ & Hx & _).
  apply (withdraw_exposure _ _ _ _ _ _ x Hx) in Hw as ->. unfold moved.
  case_decide as Ha; [|lia]. rewrite decide_True; [lia|].
  rewrite (surjective_asset out x Hx), Ha, (peg_reserve _ _ Hpeg), bool_decide_eq_true in Hres.
  destruct Hres as [h Hh]. destruct (peg_account _ _ Hpeg h Hh) as [Hacc' _]. congruence.
Qed.

(** Crediting a beneficiary lets circulate no more than the proposal is worth. *)
Lemma credit_exposure p aid amount l out w w' :
  proposal_wf p -> rid_to_assetid (resource_id p) = Some aid ->
  extract_deposit_data (data p) = Ok (amount, l) ->
  convert_from (asset_of aid amount) = Ok (Some out) ->
  deposit_asset out l no_message w = (Ok tt, w') ->
  exposure w' <= exposure w + peg_den s * worth rid p.
Proof.
  intros Hp Hrid He Hc Hd. pose proof (proposal_asset_typed _ _ _ _ _ Hp Hrid He Hc) as [_ Ht].
  pose proof (worth_nonneg rid p Hp) as Hw. destruct (peg_positive _ _ Hpeg) as [Hn Hden].
  destruct Hp as (_ & _ & _ & Hdata).
  destruct (extract_deposit_data_layout _ _ _ Hdata He) as (recipient & Hdat & Ham & _).
  pose proof (peg_keeps_id _ _ Hpeg _ _ _ Hc) as Hid.
  apply deposit_exposure in Hd as (id & x & _ & Hx & ->). rewrite Hx in Ht.
  pose proof (peg_in _ _ Hpeg _ _ Hrid) as Hin. unfold moved.
  destruct (decide (asset_id out = peg_asset s)) as [Ha|Ha]; [|nia].
  assert (worth rid p = amount) as ->.
  { unfold worth. rewrite decide_True by (apply Hin; congruence).
    rewrite Hdat. by apply created_amount. }
  rewrite <- Hid, Ha in Hc. pose proof (peg_from _ _ Hpeg _ _ _ Ham Hc Hx).
  unfold is_u in *. case_decide; nia.
Qed.

Lemma internal_exposure p w r w' :
  proposal_wf p -> execute_proposal_internal p w = (r, w') -> r <> Panic ->
  exposure w' <= exposure w + match r with Ok _ => peg_den s * worth rid p | _ => 0 end.
Proof.
  intros Hp. unfold execute_proposal_internal. run_frame.
  destruct (negb _); [|intros [= <- <-] _; lia].
  destruct (dest_domain_supported _ _); [|intros [= <- <-] _; lia].
  destruct (negb _); [|intros [= <- <-] _; lia].
  destruct (rid_to_assetid _) as [aid|] eqn:Hrid; [|intros [= <- <-] _; lia].
  destruct (extract_deposit_data _) as [[amount l]|e|] eqn:He; try by intros [= <- <-] ?; lia.
  destruct (convert_from _) as [[out|]|e|] eqn:Hc; try by intros [= <- <-] ?; lia.
  destruct (get_token_reserved_account _) as [account|] eqn:Hacc; [|intros [= <- <-] _; lia].
  assert (Hdep : forall w1 r w2, deposit_asset out l no_message w1 = (r, w2) -> r <> Panic ->
    exposure w2 <= exposure w1 + match r with Ok _ => peg_den s * worth rid p | _ => 0 end).
  { intros w1 [[]|e|] w2 Hd Hn; [by eapply credit_exposure| |done].
    rewrite (failed_exposure w1 w2); [lia|by eapply deposit_supply_err|..].
    - intros. by eapply deposit_fails.
    - intros d. by eapply deposit_plain. }
  destruct (contains out loc_here) eqn:Hres.
  - destruct (withdraw_asset _ _ _ w) as [[taken|e|] w1] eqn:Hwd; simpl; [| |by intros [= <- <-]].
    + rewrite <- (release_exposure _ _ _ _ _ _ _ _ Hc Hacc Hres Hwd).
      destruct (deposit_asset _ _ _ w1) as [[[]|e|] w2] eqn:Hde; intros [= <- <-] Hn;
        exact (Hdep _ _ _ Hde ltac:(done)).
    + intros [= <- <-] _. rewrite (failed_exposure w w1); [lia|by eapply withdraw_supply_err|..].
      * intros. by eapply withdraw_fails.
      * intros d. by eapply withdraw_plain.
  - simpl. destruct (deposit_asset _ _ _ w) as [[[]|e|] w2] eqn:Hde; intros [= <- <-] Hn;
      exact (Hdep _ _ _ Hde ltac:(done)).
Qed.

Lemma batch_exposure ps w w' :
  Forall proposal_wf ps -> batch ps w w' ->
  exposure w' <= exposure w + peg_den s * sumZ (worth rid) (executed_in ps w).
Proof.
  intros Hps Hb. induction Hb as [|p ps w w1 w2 Hone _ IH]; [simpl; lia|].
  apply Forall_cons in Hps as [Hp Hps]. specialize (IH Hps). simpl. rewrite Hone.
  apply execute_one_cases in Hone as [_ [(w0 & Hi & ->)|(e & w0 & Hi & ->)]]; [| |done];
    rewrite Hi; simpl; pose proof (internal_exposure _ _ _ _ Hp Hi ltac:(done)) as Hx; simpl in Hx;
    rewrite (exposure_same w0 (add_event _ _)) in IH by (done || by intros d; apply relayed_snoc); simpl in IH; lia.
Qed.

(** No call lets more circulate than the proposals it pays are worth. *)
Lemma dispatch_exposure o c w r w' :
  world_typed w -> call_typed c -> (forall id, peg_holder s = Some id -> o <> Signed id) ->
  dispatch o c w = (r, w') -> r <> Panic ->
  exposure w' <= exposure w + peg_den s * sumZ (worth rid) (paid_by o c w).
Proof.
  intros Hty Hc Ho Hr Hnp. destruct (required c) as [[i n]|] eqn:Hq.
  - rewrite paid_by_other by (by intros ps sig ->). rewrite (exposure_same w).
    + simpl. lia.
    + destruct c; simplify_eq/=; by simplify_call Hr.
    + destruct c; simplify_eq/=; simplify_call Hr; try done; intros ?; by apply relayed_snoc.
  - destruct c; try done.
    + rewrite paid_by_other by done. simpl in *.
      destruct Hc as [Ha _]. pose proof (deposit_call_exposure _ _ _ _ _ _ Hty Ha Ho Hr Hnp). lia.
    + unfold paid_by. rewrite Hr. simpl in Hr.
      apply execute_proposal_cases in Hr as [(-> & _ & Hb)|(e & -> & -> & _)]; [| |done].
      * by apply batch_exposure.
      * simpl. lia.
Qed.

End Circulation.

(** ** Along the steps of a chain *)

Section OneChain.
Context {L : Type} {C : ChainParams L}.
Implicit Types (n : Node L).

(** A step whose origin is not the holding account: an account derived from a pallet id
    has no key. *)
Inductive keyless_step (s : Peg) (ok : list Proposal -> Prop) n : Node L -> Prop :=
| keyless_step_call o c r w' :
    (forall id, peg_holder s = Some id -> o <> Signed id) ->
    origin_typed o -> call_typed c -> call_on o c (state n) = (r, w') -> r <> Panic ->
    (forall ps sig, c = CallExecuteProposal ps sig -> authorised (state n) ps sig -> ok ps) ->
    keyless_step s ok n {| state := w'; paid := paid n ++ pays o c (state n) |}.

Lemma keyless_node_step s ok n n' : keyless_step s ok n n' -> node_step ok n n'.
Proof. intros [o c r w' _ Ho Hc Hr Hnp Hok]. by eapply node_step_call. Qed.

Context `{!TypedConfig L} `{!AssetLedger L} `{!FailsafeLedger L} `{!SupplyLedger L}
  `{!PlainTransactor L}.

(** What circulates and was announced is covered by the genesis and by what was paid. *)
Definition covered (s : Peg) (rid : ResourceId) (self : DomainID) (ds : list DomainID) (l0 : L) n
    : Prop :=
  exposure s rid self ds (state n) <=
    peg_num s * circulating s (empty_world l0) + peg_den s * sumZ (worth rid) (paid n).

Lemma genesis_covered s rid self ds l0 : covered s rid self ds l0 (genesis l0).
Proof.
  unfold covered, exposure, announced. simpl.
  rewrite (sumZ_ext _ (fun _ => 0 * 0)), sumZ_mul by done. lia.
Qed.

Lemma keyless_covered s rid self ds l0 ok n n' :
  NoDup ds -> pegged s rid -> world_typed (state n) -> keyless_step s ok n n' ->
  covered s rid self ds l0 n -> covered s rid self ds l0 n'.
Proof.
  intros Hds Hp Hw [o c r w' Hk Ho Hc Hr Hnp _] Hi. unfold covered in *. simpl.
  rewrite sumZ_app. unfold pays.
  pose proof (dispatch_exposure s rid Hp self ds Hds o c _ _ _ Hw Hc Hk Hr Hnp). lia.
Qed.
End OneChain.

(** What a chain has paid in the name of a domain that vouched for it is covered by what
    that domain announced. *)
Lemma vouched_worth {LA LB} {CA : ChainParams LA} {CB : ChainParams LB} `{!SupplyLedger LB}
    rid (self d : DomainID) (lB : LB) (a : Node LA) (b : Node LB) :
  is_u u8_max self -> world_typed (state a) -> node_inv lB b ->
  vouched self d (events (state a)) (paid b) ->
  sumZ (worth rid) (filter (fun p => origin_domain_id p = self) (paid b))
  <= sumZ (worth rid) (relayed self d (events (state a))).
Proof.
  intros Hs Ha Hb Hv. apply sumZ_submseteq; [|by eapply vouched_announced].
  intros p Hp. apply worth_nonneg.
  pose proof (relayed_wf (state a) self d Ha Hs) as Hwf. rewrite Forall_forall in Hwf. by apply Hwf.
Qed.

(** ** Two chains *)

Section TwoChains.
Context {LA LB : Type} {CA : ChainParams LA} {CB : ChainParams LB} (dA dB : DomainID)
  (sA sB : Peg) (rid : ResourceId).

Inductive keyless_net_step : Net (LA := LA) (LB := LB) -> Net (LA := LA) (LB := LB) -> Prop :=
| keyless_net_a a a' b :
    keyless_step sA (vouched dB dA (events (state b))) a a' -> keyless_net_step (a, b) (a', b)
| keyless_net_b a b b' :
    keyless_step sB (vouched dA dB (events (state a))) b b' -> keyless_net_step (a, b) (a, b').

Lemma keyless_net n n' : keyless_net_step n n' -> net_step dA dB n n'.
Proof. intros [a a' b Hs|a b b' Hs]; constructor; by eapply keyless_node_step. Qed.

Context `{!TransactorExt LA} `{!TypedConfig LA} `{!TypedTransactor LA} `{!AssetLedger LA}
  `{!FailsafeLedger LA} `{!SupplyLedger LA} `{!PlainTransactor LA}
  `{!TransactorExt LB} `{!TypedConfig LB} `{!TypedTransactor LB} `{!AssetLedger LB}
  `{!FailsafeLedger LB} `{!SupplyLedger LB} `{!PlainTransactor LB}
  (HpegA : pegged (L := LA) sA rid) (HpegB : pegged (L := LB) sB rid).

Lemma keyless_reachable lA lB n :
  rtc keyless_net_step (net_genesis lA lB) n ->
  net_inv dA dB lA lB n /\ covered sA rid dA [dB] lA n.1 /\ covered sB rid dB [dA] lB n.2.
Proof.
  assert (forall n0, rtc keyless_net_step n0 n ->
    net_inv dA dB lA lB n0 /\ covered sA rid dA [dB] lA n0.1 /\ covered sB rid dB [dA] lB n0.2 ->
    net_inv dA dB lA lB n /\ covered sA rid dA [dB] lA n.1 /\ covered sB rid dB [dA] lB n.2) as Hi.
  { intros n0. induction 1 as [|n0 n1 n2 Hs _ IH]; [done|]. intros (Hn & Ha & Hb). apply IH.
    pose proof (net_step_inv dA dB lA lB _ _ (keyless_net _ _ Hs) Hn) as Hn'.
    pose proof (node_typed _ _ (net_a _ _ _ _ _ Hn)). pose proof (node_typed _ _ (net_b _ _ _ _ _ Hn)).
    destruct Hs; simpl in *; eauto using keyless_covered, NoDup_singleton. }
  intros Hr. eapply Hi; [done|]. split_and!; [|apply genesis_covered..].
  exact (net_reachable_inv dA dB lA lB _ (rtc_refl _ _)).
Qed.
(** The network seen from the other side. *)
Lemma net_swap (lA : LA) (lB : LB) n :
  net_inv dA dB lA lB n -> net_inv dB dA lB lA (n.2, n.1).
Proof. by intros [Ha Hb Hab Hba]. Qed.

(** The worth a chain has paid in the name of the other is covered by announcements. *)
Lemma paid_worth (lA : LA) (lB : LB) (n : Net (LA := LA) (LB := LB)) :
  is_u u8_max dA -> net_inv dA dB lA lB n ->
  sumZ (worth rid) (paid n.2) <= sumZ (worth rid) (relayed dA dB (events (state n.1)))
    + sumZ (worth rid) (filter (fun p => ~ origin_domain_id p = dA) (paid n.2)).
Proof.
  intros HdA Hn. rewrite (sumZ_filter (fun p => origin_domain_id p = dA)).
  apply Z.add_le_mono_r. eapply vouched_worth; [done|apply Hn..].
Qed.
End TwoChains.
