(* ===== verification/Mesh.v ===== *)
(** * A network of any number of chains

    The chains of a list of domains, each with its own runtime and ledger, take typed calls
    in any order.  A batch that a chain's MPC address has signed holds, of the proposals in
    the name of the domains of the network, only those the chain of that domain announced
    towards it; what it holds in the name of domains outside is left open.  [Network.v] is
    the case of two chains that know each other under ids of their own. *)

From S2P Require Import Prelude Xcm Frame Traits AccessSegregator BasicFeeHandler.
From S2P Require Import PercentageFeeHandler FeeHandlerRouter Encode Eip712 Bridge.
From S2P Require Import BridgeNonces BridgeDeposit BridgeExecute BridgeAdmin DepositData.
From S2P Require Import Conservation System Relay Typing Supply Holding Network Circulation.

Section Mesh.
Context {L : DomainID -> Type} {C : forall d, ChainParams (L d)} (domains : list DomainID)
  (s : DomainID -> Peg).

Definition Mesh : Type := forall d, Node (L d).
Implicit Types (n : Mesh).

Definition mesh_vouched n (d : DomainID) (ps : list Proposal) : Prop :=
  forall d', d' ∈ domains -> vouched d' d (events (state (n d'))) ps.

Inductive mesh_step n n' : Prop :=
| mesh_step_call d :
    d ∈ domains -> keyless_step (s d) (mesh_vouched n d) (n d) (n' d) ->
    (forall d', d' <> d -> n' d' = n d') -> mesh_step n n'.

Definition mesh_genesis (l : forall d, L d) : Mesh := fun d => genesis (l d).

Context `{!forall d, TransactorExt (L d)} `{!forall d, TypedConfig (L d)}
  `{!forall d, TypedTransactor (L d)} `{!forall d, AssetLedger (L d)}
  `{!forall d, FailsafeLedger (L d)} `{!forall d, SupplyLedger (L d)}
  `{!forall d, PlainTransactor (L d)} (rid : ResourceId)
  (domains_once : NoDup domains) (domains_typed : Forall (is_u u8_max) domains)
  (all_pegged : forall d, d ∈ domains -> pegged (L := L d) (s d) rid)
  (l0 : forall d, L d).

Record chain_ok n (d : DomainID) : Prop := {
  mesh_node : node_inv (l0 d) (n d);
  mesh_covered : covered (s d) rid d domains (l0 d) (n d);
  mesh_paid : mesh_vouched n d (paid (n d))
}.

(** Announcements only grow. *)
Lemma mesh_step_relayed n n' d' d :
  mesh_step n n' ->
  relayed d' d (events (state (n d'))) ⊆ relayed d' d (events (state (n' d'))).
Proof.
  intros [e _ Hs Ho]. destruct (decide (d' = e)) as [->|Hne]; [|by rewrite Ho].
  by eapply node_step_relayed, keyless_node_step.
Qed.

Lemma mesh_vouched_step n n' d ps : mesh_step n n' -> mesh_vouched n d ps -> mesh_vouched n' d ps.
Proof. intros Hs Hv d' Hd'. by eapply vouched_mono, Hv; [apply mesh_step_relayed|]. Qed.

Lemma mesh_step_ok n n' d :
  d ∈ domains -> mesh_step n n' -> chain_ok n d -> chain_ok n' d.
Proof.
  intros Hd Hm [Hn Hc Hp]. pose proof Hm as [e He Hs Ho].
  destruct (decide (d = e)) as [->|Hne].
  - pose proof (keyless_node_step _ _ _ _ Hs) as Hnode. split.
    + by eapply node_step_inv.
    + eapply keyless_covered; eauto. apply Hn.
    + apply (mesh_vouched_step n n' e _ Hm). intros d' Hd'.
      destruct (node_step_paid _ _ _ Hnode) as (qs & -> & Hqs).
      apply Forall_app. split; [by apply Hp|]. apply Forall_forall. intros p (ps & Hok & Hin)%Hqs.
      specialize (Hok d' Hd'). unfold vouched in Hok. rewrite Forall_forall in Hok. by apply Hok.
  - split; rewrite (Ho d Hne); [done..|]. by eapply mesh_vouched_step.
Qed.

Lemma mesh_reachable n :
  rtc mesh_step (mesh_genesis l0) n -> forall d, d ∈ domains -> chain_ok n d.
Proof.
  intros Hr d Hd.
  assert (forall n0, rtc mesh_step n0 n -> chain_ok n0 d -> chain_ok n d) as Hi
    by (intros n0; induction 1; eauto using mesh_step_ok).
  apply (Hi _ Hr). split; [apply genesis_inv|apply genesis_covered|]. intros d' _. constructor.
Qed.

(** Of what a chain has paid, the part in the name of the network was announced to it. *)
Lemma mesh_paid_worth n d :
  (forall e, e ∈ domains -> chain_ok n e) -> d ∈ domains ->
  sumZ (worth rid) (paid (n d)) <=
    sumZ (fun d' => sumZ (worth rid) (relayed d' d (events (state (n d'))))) domains
    + sumZ (worth rid) (filter (fun p => origin_domain_id p ∉ domains) (paid (n d))).
Proof.
  intros Hok Hd. rewrite (sumZ_by_key origin_domain_id _ domains) by done.
  apply Z.add_le_mono_r, sumZ_le. intros d' Hd'.
  rewrite Forall_forall in domains_typed.
  eapply vouched_worth; [by apply domains_typed|apply Hok, Hd'|apply Hok, Hd|].
  by apply (mesh_paid _ _ (Hok d Hd)).
Qed.

(** What circulates on all chains together, each at the worth [k d] of a relayers' unit. *)
Lemma mesh_circulation n (k : DomainID -> Z) K :
  (forall d, d ∈ domains -> 0 <= k d /\ k d * peg_den (s d) = K) -> 0 <= K ->
  rtc mesh_step (mesh_genesis l0) n ->
  sumZ (fun d => k d * peg_num (s d) *
    (circulating (s d) (state (n d)) - circulating (s d) (empty_world (l0 d)))) domains
  <= K * sumZ (fun d =>
       sumZ (worth rid) (filter (fun p => origin_domain_id p ∉ domains) (paid (n d)))) domains.
Proof.
  intros Hk HK Hr. pose proof (mesh_reachable n Hr) as Hok.
  set (A d := announced rid d domains (events (state (n d)))).
  set (ext d := sumZ (worth rid) (filter (fun p => origin_domain_id p ∉ domains) (paid (n d)))).
  assert (Hpaid : sumZ (fun d => sumZ (worth rid) (paid (n d))) domains
    <= sumZ A domains + sumZ ext domains).
  { unfold A, announced. rewrite sumZ_swap, <- sumZ_add. apply sumZ_le. intros d Hd.
    by apply mesh_paid_worth. }
  assert (Hcov : sumZ (fun d => k d * peg_num (s d) *
      (circulating (s d) (state (n d)) - circulating (s d) (empty_world (l0 d)))) domains
    + K * sumZ A domains <= K * sumZ (fun d => sumZ (worth rid) (paid (n d))) domains).
  { rewrite <- !sumZ_mul, <- sumZ_add. apply sumZ_le. intros d Hd.
    pose proof (mesh_covered _ _ (Hok d Hd)) as Hc. unfold covered, exposure in Hc.
    destruct (Hk d Hd) as [Hkd <-]. fold (A d) in Hc. nia. }
  nia.
Qed.
End Mesh.
