(* ===== verification/DecimalConverter.v ===== *)
(** * The decimal converter of the runtimes
    ([SygmaDecimalConverter], [substrate-node/parachain/runtime/src/lib.rs];
    the standalone runtime and the mock carry the same code)

    Relayers count in 18 decimals.  The conversions go through the fixed-point type
    [FixedU128<U16>] of the [fixed] crate, which is not under [src/]: its operations
    are parameters with their documented behaviour. *)

From S2P Require Import Prelude Xcm Frame Traits.

(** [FixedU128<U16>]: 128 bits, 16 of them fractional; a value is its bits divided
    by [2^16]. *)
Class FixedU112F16 := {
  fx : Type;
  fx_bits : fx -> Z;
  fx_from_num : Z -> outcome DispatchError fx;
  fx_to_num : fx -> Z;
  fx_checked_div : fx -> fx -> option fx;
  fx_saturating_mul : fx -> fx -> fx;
  fx_max : fx;
  fx_range v : 0 <= fx_bits v < 2 ^ 128;
  (** the value when it fits; otherwise the crate panics (debug assertions) or
      returns the wrapped value *)
  fx_from_num_fits x : 0 <= x < 2 ^ 112 ->
    exists v, fx_from_num x = Ok v /\ fx_bits v = x * 2 ^ 16;
  fx_from_num_wraps x : 2 ^ 112 <= x <= u128_max ->
    fx_from_num x = Panic \/
    exists v, fx_from_num x = Ok v /\ fx_bits v = (x * 2 ^ 16) mod 2 ^ 128;
  (** truncates the fraction *)
  fx_to_num_spec v : fx_to_num v = fx_bits v / 2 ^ 16;
  fx_checked_div_zero a b : fx_bits b = 0 -> fx_checked_div a b = None;
  fx_checked_div_fits a b : fx_bits b <> 0 -> fx_bits a * 2 ^ 16 / fx_bits b < 2 ^ 128 ->
    exists v, fx_checked_div a b = Some v /\ fx_bits v = fx_bits a * 2 ^ 16 / fx_bits b;
  fx_saturating_mul_spec a b :
    fx_bits (fx_saturating_mul a b) = Z.min (2 ^ 128 - 1) (fx_bits a * fx_bits b / 2 ^ 16);
  fx_max_spec : fx_bits fx_max = 2 ^ 128 - 1
}.

Section Converter.
Context `{FixedU112F16}.
(** [DecimalPairs::get()] *)
Context (decimal_pairs : list (AssetId * Z)).

(** [*amount > U112F16::MAX]: a comparison of the exact values. *)
Definition exceeds_max (amount : Z) : bool := fx_bits fx_max <? amount * 2 ^ 16.

(** [b.unwrap_or_else(|| U112F16::from_num(0)).to_num()] *)
Definition to_num_or_zero (b : option fx) : outcome DispatchError Z :=
  match b with
  | Some v => Ok (fx_to_num v)
  | None => match fx_from_num 0 with
            | Ok z => Ok (fx_to_num z)
            | Err e => Err e
            | Panic => Panic
            end
  end.

(** The division branch: [from_num(amount).checked_div(from_num(10^k))]. *)
Definition divide (amount k : Z) : outcome DispatchError Z :=
  match fx_from_num (saturating_pow u128_max 10 k) with
  | Ok a =>
      match fx_from_num amount with
      | Ok x => to_num_or_zero (fx_checked_div x a)
      | Err e => Err e
      | Panic => Panic
      end
  | Err e => Err e
  | Panic => Panic
  end.

(** The multiplication branch: [from_num(amount).saturating_mul(from_num(10^k))]. *)
Definition multiply (amount k : Z) : outcome DispatchError Z :=
  match fx_from_num (saturating_pow u128_max 10 k) with
  | Ok a =>
      match fx_from_num amount with
      | Ok x => Ok (fx_to_num (fx_saturating_mul x a))
      | Err e => Err e
      | Panic => Panic
      end
  | Err e => Err e
  | Panic => Panic
  end.

(** The body of [convert_to] for the decimals of the asset found in the table. *)
Definition convert_to_decimals (decimal amount : Z) : outcome DispatchError (option Z) :=
  if decimal =? 18 then Ok (Some amount)
  else if 18 <? decimal then
    match divide amount (decimal - 18) with
    | Ok r => if r =? 0 then Ok None else Ok (Some r)
    | Err e => Err e
    | Panic => Panic
    end
  else if exceeds_max amount then Ok None
  else match multiply amount (18 - decimal) with
       | Ok r => Ok (Some r)
       | Err e => Err e
       | Panic => Panic
       end.

Definition convert_from_decimals (decimal amount : Z) : outcome DispatchError (option Z) :=
  if decimal =? 18 then Ok (Some amount)
  else if 18 <? decimal then
    if exceeds_max amount then Ok None
    else match multiply amount (decimal - 18) with
         | Ok r => Ok (Some r)
         | Err e => Err e
         | Panic => Panic
         end
  else
    match divide amount (18 - decimal) with
    | Ok r => if r =? 0 then Ok None else Ok (Some r)
    | Err e => Err e
    | Panic => Panic
    end.

(** The loop over the table: the first entry of the asset decides. *)
Fixpoint decimals_of (pairs : list (AssetId * Z)) (id : AssetId) : option Z :=
  match pairs with
  | [] => None
  | (asset_id, decimal) :: pairs =>
      if decide (asset_id = id) then Some decimal else decimals_of pairs id
  end.

Definition sygma_convert_to (asset : MultiAsset) : outcome DispatchError (option Z) :=
  match asset_fun asset with
  | Fungible amount =>
      match decimals_of decimal_pairs (asset_id asset) with
      | Some decimal => convert_to_decimals decimal amount
      | None => Ok None
      end
  | NonFungible _ => Ok None
  end.

Definition sygma_convert_from (asset : MultiAsset)
    : outcome DispatchError (option MultiAsset) :=
  match asset_fun asset with
  | Fungible amount =>
      match decimals_of decimal_pairs (asset_id asset) with
      | Some decimal =>
          match convert_from_decimals decimal amount with
          | Ok r => Ok (asset_of (asset_id asset) <$> r)
          | Err e => Err e
          | Panic => Panic
          end
      | None => Ok None
      end
  | NonFungible _ => Ok None
  end.

Definition sygma_decimal_converter : DecimalConverter :=
  {| convert_to := sygma_convert_to; convert_from := sygma_convert_from |}.

(** ** The arithmetic of the branches *)

(** The largest amount [U112F16] holds, as the comments quote it. *)
Definition max_amount : Z := 2 ^ 112 - 1.

Lemma pow10_small k : 0 <= k <= 33 -> 1 <= 10 ^ k < 2 ^ 112.
Proof.
  intros Hk. split.
  - pose proof (Z.pow_pos_nonneg 10 k). lia.
  - apply Z.le_lt_trans with (10 ^ 33); [apply Z.pow_le_mono_r; lia|]. vm_compute. done.
Qed.

Lemma from_pow10 k :
  0 <= k <= 33 ->
  exists a, fx_from_num (saturating_pow u128_max 10 k) = Ok a /\
            fx_bits a = 10 ^ k * 2 ^ 16.
Proof.
  intros Hk. pose proof (pow10_small k Hk). unfold saturating_pow, u128_max.
  rewrite Z.min_r by lia. apply fx_from_num_fits. lia.
Qed.

Lemma exceeds_max_spec amount : exceeds_max amount = bool_decide (max_amount < amount).
Proof.
  unfold exceeds_max, max_amount. rewrite fx_max_spec.
  destruct (Z.ltb_spec (2 ^ 128 - 1) (amount * 2 ^ 16)).
  - rewrite bool_decide_eq_true_2; [done|]. lia.
  - rewrite bool_decide_eq_false_2; [done|]. lia.
Qed.

(** Dividing through the fixed-point type is integer division. *)
Lemma divide_exact amount k :
  0 <= amount <= max_amount -> 0 <= k <= 33 -> divide amount k = Ok (amount / 10 ^ k).
Proof.
  unfold max_amount. intros Ha Hk. pose proof (pow10_small k Hk) as Hp. unfold divide.
  destruct (from_pow10 k Hk) as (a & -> & Hab).
  destruct (fx_from_num_fits amount ltac:(lia)) as (x & -> & Hx).
  assert (Hq : fx_bits x * 2 ^ 16 / fx_bits a = amount * 2 ^ 16 / 10 ^ k).
  { rewrite Hx, Hab. rewrite Z.div_mul_cancel_r by lia. done. }
  destruct (fx_checked_div_fits x a) as (v & -> & Hv).
  - rewrite Hab. lia.
  - rewrite Hq. apply Z.div_lt_upper_bound; [lia|]. nia.
  - simpl. rewrite fx_to_num_spec, Hv, Hq. f_equal.
    rewrite Z.div_div by lia. rewrite (Z.mul_comm (10 ^ k)).
    rewrite (Z.mul_comm amount). rewrite Z.div_mul_cancel_l by lia. done.
Qed.

(** Multiplying saturates at the largest amount. *)
Lemma multiply_saturates amount k :
  0 <= amount <= max_amount -> 0 <= k <= 33 ->
  multiply amount k = Ok (Z.min max_amount (amount * 10 ^ k)).
Proof.
  unfold max_amount. intros Ha Hk. pose proof (pow10_small k Hk) as Hp. unfold multiply.
  destruct (from_pow10 k Hk) as (a & -> & Hab).
  destruct (fx_from_num_fits amount ltac:(lia)) as (x & -> & Hx).
  rewrite fx_to_num_spec, fx_saturating_mul_spec, Hx, Hab. f_equal.
  replace (amount * 2 ^ 16 * (10 ^ k * 2 ^ 16)) with (amount * 10 ^ k * 2 ^ 16 * 2 ^ 16) by ring.
  rewrite Z.div_mul by lia.
  destruct (Z.le_gt_cases (amount * 10 ^ k) (2 ^ 112 - 1)) as [Hle|Hgt].
  - rewrite Z.min_r, Z.div_mul, Z.min_r by lia. done.
  - rewrite (Z.min_l (2 ^ 128 - 1)) by lia. rewrite Z.min_l by lia. done.
Qed.
End Converter.
