(* ===== verification/Migration.v ===== *)
(** * The storage migration of the bridge pallet ([bridge/src/migration.rs])

    [FixMpcAddress] overwrites the MPC address once, on the upgrade from storage
    version 0 to version 1. *)

From S2P Require Import Prelude Xcm Frame Traits BridgeDeposit.

(** [T::DbWeight]: the weight of reads and writes. *)
Record DbWeight := { db_reads : Z -> Weight; db_writes : Z -> Weight }.

Definition EXPECTED_STORAGE_VERSION : Z := 0.
Definition FINAL_STORAGE_VERSION : Z := 1.
Definition MPC_ADDR : string := "B01137123EF02fAeF251a39108c6ef513AAaC485".

Section Migration.
Context {L : Type} (db : DbWeight).
Abbreviation W := (World L).
Implicit Types (w : W).

(** [hex::decode(MPC_ADDR).unwrap()[..20]] copied into an array of 20 bytes *)
Definition migrated_address : MpcAddress := slice 0 20 (hex MPC_ADDR).

Definition on_runtime_upgrade w : Weight * W :=
  if BridgeStorageVersion (bridge w) =? EXPECTED_STORAGE_VERSION then
    let w := set_bridge (set_mpc mpc_default) w in       (* kill *)
    let w := set_bridge (set_mpc migrated_address) w in  (* set *)
    let w := set_bridge (set_version 1) w in             (* put *)
    (db_writes db 3, w)
  else (db_reads db 1, w).

(** The checks of [try-runtime]. *)
Definition pre_upgrade w : option bytes :=
  if BridgeStorageVersion (bridge w) =? EXPECTED_STORAGE_VERSION then Some [] else None.

Definition post_upgrade w (_state : bytes) : bool :=
  (BridgeStorageVersion (bridge w) =? FINAL_STORAGE_VERSION) &&
  bool_decide (MpcAddr (bridge w) = migrated_address).

Lemma migrated_address_ok : is_array 20 migrated_address /\ is_clear migrated_address = false.
Proof.
  split; [|reflexivity]. split; [reflexivity|].
  apply Forall_forall. intros x Hx. vm_compute in Hx.
  repeat (apply elem_of_cons in Hx as [->|Hx]; [vm_compute; split; congruence|]).
  by apply not_elem_of_nil in Hx.
Qed.

(** After the first run the migration does nothing. *)
Lemma on_runtime_upgrade_twice w :
  (on_runtime_upgrade (on_runtime_upgrade w).2).2 = (on_runtime_upgrade w).2.
Proof.
  unfold on_runtime_upgrade at 2 3.
  destruct (BridgeStorageVersion (bridge w) =? EXPECTED_STORAGE_VERSION) eqn:Hv; [done|].
  unfold on_runtime_upgrade. simpl. by rewrite Hv.
Qed.
End Migration.
