(* ===== verification/ParachainInfo.v ===== *)
(** * The parachain info pallet ([parachain-info/src/lib.rs])

    One storage value, the id of this parachain, with a default, and the genesis
    build that writes it. *)

From S2P Require Import Prelude Xcm Frame.

Section ParachainInfo.
Context {L : Type}.
Implicit Types (w : World L).

(** [DefaultForParachainId] *)
Definition DefaultForParachainId : Z := 100.

(** [GenesisConfig] and its [Default] *)
Record GenesisConfig := { parachain_id_genesis : Z }.
Definition genesis_default : GenesisConfig := {| parachain_id_genesis := 100 |}.

(** [BuildGenesisConfig::build] *)
Definition genesis_build (g : GenesisConfig) w : World L :=
  set_parachain_id (Some (parachain_id_genesis g)) w.

(** The getter, and [Get<ParaId>] *)
Definition parachain_id w : Z := default DefaultForParachainId (ParachainId w).

Lemma parachain_id_build g w : parachain_id (genesis_build g w) = parachain_id_genesis g.
Proof. reflexivity. Qed.
End ParachainInfo.
