(* ===== verification/Rpc.v ===== *)
(** * The runtime API and its RPC server
    ([runtime-api/src/lib.rs], [rpc/src/lib.rs])

    [sygma_isProposalExecuted]: the node asks the runtime of a block, the best one
    unless the caller names another. *)

From S2P Require Import Prelude Xcm Frame Traits AccessSegregator Encode Eip712 Bridge.

(** What the RPC server uses of the client: the best block, and the calls into the
    runtime of a block, which fail with an error when the block is unknown. *)
Record Client (Hash ApiError : Type) := {
  best_hash : Hash;
  api_is_proposal_executed : Hash -> DepositNonce -> DomainID -> ApiError + bool
}.
Arguments best_hash {Hash ApiError}.
Arguments api_is_proposal_executed {Hash ApiError}.

Section Rpc.
Context {Hash ApiError : Type}.

(** [JsonRpseeError::Custom(..)] wraps the runtime error. *)
Inductive RpcError := RuntimeError (e : ApiError).

Definition rpc_is_proposal_executed (c : Client Hash ApiError) (nonce : DepositNonce)
    (domain_id : DomainID) (at_ : option Hash) : RpcError + bool :=
  let at_ := default (best_hash c) at_ in
  match api_is_proposal_executed c at_ nonce domain_id with
  | inl e => inl (RuntimeError e)
  | inr b => inr b
  end.

Context {L : Type} `{BridgeConfig L}.

(** [SygmaBridgeApi for Runtime]: the runtime of a block answers from its state. *)
Definition runtime_api (state_at : Hash -> option (World L)) (unknown : ApiError)
    (at_ : Hash) (nonce : DepositNonce) (domain_id : DomainID) : ApiError + bool :=
  match state_at at_ with
  | Some w => inr (is_proposal_executed w nonce domain_id)
  | None => inl unknown
  end.
End Rpc.
