(* ===== verification/Weights.v ===== *)
(** * Benchmarked weights ([weights.rs] of the pallets)

    The weight an extrinsic is charged, as [SygmaWeightInfo] computes it: a base, a
    proof size, the database operations, and for a batch of proposals a part per
    proposal.  Weight arithmetic saturates at [u64::MAX] in both dimensions. *)

From S2P Require Import Prelude Xcm Frame Eip712 Migration System.

Definition sat_add (max a b : Z) : Z := Z.min max (a + b).

(** [Weight::saturating_add] and [Weight::saturating_mul] *)
Definition weight_add (a b : Weight) : Weight :=
  from_parts (sat_add u64_max (ref_time a) (ref_time b))
             (sat_add u64_max (proof_size a) (proof_size b)).
Definition weight_mul (a : Weight) (n : Z) : Weight :=
  from_parts (saturating_mul u64_max (ref_time a) n) (saturating_mul u64_max (proof_size a) n).

(** [RuntimeDbWeight { read, write }] *)
Definition runtime_db_weight (read write : Z) : DbWeight :=
  {| db_reads r := from_parts (saturating_mul u64_max read r) 0;
     db_writes w := from_parts (saturating_mul u64_max write w) 0 |}.

Declare Scope weight_scope.
Delimit Scope weight_scope with weight.
Notation "a +w b" := (weight_add a b) (at level 50, left associativity) : weight_scope.
Open Scope weight_scope.

Section Weights.
Context (db : DbWeight).

(** ** [bridge/src/weights.rs] *)
Definition pause_bridge_weight : Weight :=
  from_parts 12000000 0 +w from_parts 0 3683 +w db_reads db 1 +w db_writes db 1.
Definition unpause_bridge_weight : Weight :=
  from_parts 14000000 0 +w from_parts 0 7216 +w db_reads db 2 +w db_writes db 1.
Definition set_mpc_address_weight : Weight :=
  from_parts 9000000 0 +w from_parts 0 5034 +w db_reads db 2 +w db_writes db 1.
Definition register_domain_weight : Weight :=
  from_parts 10000000 0 +w from_parts 0 0 +w db_writes db 2.
Definition unregister_domain_weight : Weight :=
  from_parts 17000000 0 +w from_parts 0 7204 +w db_reads db 2 +w db_writes db 2.
Definition deposit_weight : Weight :=
  from_parts 91000000 0 +w from_parts 0 26878 +w db_reads db 8 +w db_writes db 3.
Definition retry_weight : Weight :=
  from_parts 17000000 0 +w from_parts 0 8946 +w db_reads db 3.
Definition execute_proposal_weight (n : Z) : Weight :=
  from_parts 151050908 0 +w from_parts 0 16593 +w weight_mul (from_parts 10748102 0) n
    +w db_reads db 5 +w db_writes db 2.
Definition pause_all_bridges_weight : Weight :=
  from_parts 84000000 0 +w from_parts 0 8445 +w db_reads db 6 +w db_writes db 2.
Definition unpause_all_bridges_weight : Weight :=
  from_parts 99000000 0 +w from_parts 0 8445 +w db_reads db 7 +w db_writes db 2.

(** ** [weights.rs] of the access segregator and the fee handlers *)
Definition grant_access_weight : Weight :=
  from_parts 9000000 0 +w from_parts 0 0 +w db_writes db 1.
Definition set_fee_weight : Weight :=
  from_parts 10000000 0 +w from_parts 0 0 +w db_writes db 1.
Definition set_fee_handler_weight : Weight :=
  from_parts 9000000 0 +w from_parts 0 0 +w db_writes db 1.
Definition set_fee_rate_weight : Weight :=
  from_parts 32000000 0 +w from_parts 0 0 +w db_writes db 1.

(** [#[pallet::weight(..)]] of each call; a batch is charged by
    [proposals.len() as u32]. *)
Definition call_weight (c : Call) : Weight :=
  match c with
  | CallGrantAccess _ _ _ => grant_access_weight
  | CallSetFee _ _ _ => set_fee_weight
  | CallSetFeeRate _ _ _ _ _ => set_fee_rate_weight
  | CallSetFeeHandler _ _ _ => set_fee_handler_weight
  | CallPauseBridge _ => pause_bridge_weight
  | CallUnpauseBridge _ => unpause_bridge_weight
  | CallSetMpcAddress _ => set_mpc_address_weight
  | CallRegisterDomain _ _ => register_domain_weight
  | CallUnregisterDomain _ _ => unregister_domain_weight
  | CallDeposit _ _ => deposit_weight
  | CallRetry _ _ => retry_weight
  | CallExecuteProposal proposals _ =>
      execute_proposal_weight (wrap 32 (Z.of_nat (length proposals)))
  | CallPauseAllBridges => pause_all_bridges_weight
  | CallUnpauseAllBridges => unpause_all_bridges_weight
  end.
End Weights.

(** With realistic database weights a batch of any [u32] length is charged exactly:
    no addition saturates. *)
Lemma execute_proposal_weight_exact read write n :
  0 <= read <= 2 ^ 40 -> 0 <= write <= 2 ^ 40 -> 0 <= n <= u32_max ->
  execute_proposal_weight (runtime_db_weight read write) n =
  from_parts (151050908 + 10748102 * n + 5 * read + 2 * write) 16593.
Proof.
  unfold u32_max. intros Hr Hw Hn.
  unfold execute_proposal_weight, weight_add, weight_mul, sat_add, saturating_mul.
  cbn [ref_time proof_size db_reads db_writes runtime_db_weight].
  unfold saturating_mul, u64_max. f_equal; lia.
Qed.
