(* ===== verification/RuntimeWeights.v ===== *)
(** * Time, weights and fees of the runtimes

    The constants of [substrate-node/parachain/runtime/src/lib.rs] and
    [substrate-node/standalone/runtime/src/lib.rs], the benchmark files under
    [substrate-node/parachain/runtime/src/weights/], and [WeightToFee].  The units of
    [frame_support] are constants of its documentation; [Perbill] and the maximal proof
    size of the relay chain are parameters. *)

From S2P Require Import Prelude Xcm Frame Eip712 Migration System Weights.

(** [frame_support::weights::constants]: weight is counted in picoseconds. *)
Definition WEIGHT_REF_TIME_PER_SECOND : Z := 10 ^ 12.
Definition WEIGHT_REF_TIME_PER_MILLIS : Z := 10 ^ 9.
Definition WEIGHT_REF_TIME_PER_MICROS : Z := 10 ^ 6.
Definition WEIGHT_REF_TIME_PER_NANOS : Z := 10 ^ 3.

(** [Perbill], in parts per billion: the operations the runtimes call, which are exact
    when the division is. *)
Class PerbillArith := {
  from_rational : Z -> Z -> Z;
  perbill_mul : Z -> Z -> Z;
  from_rational_exact p q :
    0 <= p <= q -> 0 < q -> (p * 10 ^ 9) mod q = 0 -> from_rational p q = p * 10 ^ 9 / q;
  perbill_mul_exact parts x :
    0 <= parts <= 10 ^ 9 -> 0 <= x -> (parts * x) mod 10 ^ 9 = 0 ->
    perbill_mul parts x = parts * x / 10 ^ 9
}.
Definition from_percent (x : Z) : Z := x * 10 ^ 7.

(** [WeightToFeeCoefficient] *)
Record WeightToFeeCoefficient := {
  coeff_integer : Z;
  coeff_frac : Z;
  negative : bool;
  degree : Z
}.

Module ParaWeights.

(** ** [weights/*.rs] *)

Definition BlockExecutionWeight : Weight :=
  from_parts (saturating_mul u64_max WEIGHT_REF_TIME_PER_NANOS 5000000) 0.
Definition ExtrinsicBaseWeight : Weight :=
  from_parts (saturating_mul u64_max WEIGHT_REF_TIME_PER_NANOS 125000) 0.
Definition RocksDbWeight : DbWeight :=
  runtime_db_weight (25000 * WEIGHT_REF_TIME_PER_NANOS) (100000 * WEIGHT_REF_TIME_PER_NANOS).
Definition ParityDbWeight : DbWeight :=
  runtime_db_weight (8000 * WEIGHT_REF_TIME_PER_NANOS) (50000 * WEIGHT_REF_TIME_PER_NANOS).

(** The [sane] tests of these files. *)
Definition block_weight_sane : bool :=
  (100 * WEIGHT_REF_TIME_PER_MICROS <=? ref_time BlockExecutionWeight) &&
  (ref_time BlockExecutionWeight <=? 50 * WEIGHT_REF_TIME_PER_MILLIS).
Definition extrinsic_weight_sane : bool :=
  (10 * WEIGHT_REF_TIME_PER_MICROS <=? ref_time ExtrinsicBaseWeight) &&
  (ref_time ExtrinsicBaseWeight <=? WEIGHT_REF_TIME_PER_MILLIS).
Definition db_weight_sane (db : DbWeight) : bool :=
  (WEIGHT_REF_TIME_PER_MICROS <=? ref_time (db_reads db 1)) &&
  (WEIGHT_REF_TIME_PER_MICROS <=? ref_time (db_writes db 1)) &&
  (ref_time (db_reads db 1) <=? WEIGHT_REF_TIME_PER_MILLIS) &&
  (ref_time (db_writes db 1) <=? WEIGHT_REF_TIME_PER_MILLIS).
Definition rocksdb_weight_sane : bool := db_weight_sane RocksDbWeight.
Definition paritydb_weight_sane : bool := db_weight_sane ParityDbWeight.

Example weights_sane :
  block_weight_sane && extrinsic_weight_sane && rocksdb_weight_sane && paritydb_weight_sane
  = true.
Proof. reflexivity. Qed.

(** ** Time and units *)

Definition MILLISECS_PER_BLOCK : Z := 12000.
Definition SLOT_DURATION : Z := MILLISECS_PER_BLOCK.
Definition MINUTES : Z := 60000 / wrap 32 MILLISECS_PER_BLOCK.
Definition HOURS : Z := MINUTES * 60.
Definition DAYS : Z := HOURS * 24.
Definition MILLIUNIT : Z := 1000000000.
Definition MICROUNIT : Z := 1000000.
Definition EXISTENTIAL_DEPOSIT : Z := MILLIUNIT.
Definition TransactionByteFee : Z := 10 * MICROUNIT.
Definition Period : Z := 6 * HOURS.
Definition SessionLength : Z := 6 * HOURS.

(** ** Block weights and the fee polynomial *)

Definition AVERAGE_ON_INITIALIZE_RATIO : Z := from_percent 5.
Definition NORMAL_DISPATCH_RATIO : Z := from_percent 75.

Section Fees.
Context `{PerbillArith} (MAX_POV_SIZE : Z).

Definition MAXIMUM_BLOCK_WEIGHT : Weight :=
  from_parts (WEIGHT_REF_TIME_PER_SECOND / 2) (wrap 64 MAX_POV_SIZE).

(** [max_total] of the normal and the operational class, and what is [reserved] for the
    latter, in [RuntimeBlockWeights] *)
Definition normal_max_total : Weight :=
  from_parts (perbill_mul NORMAL_DISPATCH_RATIO (ref_time MAXIMUM_BLOCK_WEIGHT))
             (perbill_mul NORMAL_DISPATCH_RATIO (proof_size MAXIMUM_BLOCK_WEIGHT)).
Definition operational_max_total : Weight := MAXIMUM_BLOCK_WEIGHT.
Definition operational_reserved : Weight :=
  from_parts (ref_time MAXIMUM_BLOCK_WEIGHT - ref_time normal_max_total)
             (proof_size MAXIMUM_BLOCK_WEIGHT - proof_size normal_max_total).

(** [WeightToFee::polynomial] *)
Definition polynomial : list WeightToFeeCoefficient :=
  let p := MILLIUNIT / 10 in
  let q := 100 * ref_time ExtrinsicBaseWeight in
  [{| degree := 1; negative := false;
      coeff_frac := from_rational (p mod q) q;
      coeff_integer := p / q |}].

Lemma polynomial_value :
  polynomial = [{| degree := 1; negative := false; coeff_frac := 8000000;
                   coeff_integer := 0 |}].
Proof.
  unfold polynomial. rewrite from_rational_exact by (vm_compute; congruence || split; congruence).
  reflexivity.
Qed.

(** The polynomial has one linear term without an integer part; applied to the base
    weight of an extrinsic it gives a thousandth of a [MILLIUNIT]. *)
Lemma base_weight_fee c :
  c ∈ polynomial ->
  degree c = 1 /\ coeff_integer c = 0 /\
  perbill_mul (coeff_frac c) (ref_time ExtrinsicBaseWeight) = MILLIUNIT / 1000.
Proof.
  rewrite polynomial_value. intros ->%list_elem_of_singleton. split_and!; [done..|].
  simpl. rewrite perbill_mul_exact by (vm_compute; congruence || split; congruence). reflexivity.
Qed.

Lemma normal_ref_time : ref_time normal_max_total = 375000000000.
Proof.
  simpl. rewrite perbill_mul_exact by (vm_compute; congruence || split; congruence).
  reflexivity.
Qed.

(** A batch of proposals fits the normal class of a block, next to the base weight of
    its extrinsic, up to 34833 proposals. *)
Lemma batch_fits_block n :
  0 <= n <= u32_max ->
  ref_time (execute_proposal_weight RocksDbWeight n) + ref_time ExtrinsicBaseWeight
    <= ref_time normal_max_total <-> n <= 34833.
Proof.
  intros Hn. rewrite normal_ref_time. unfold RocksDbWeight.
  rewrite execute_proposal_weight_exact by (done || (vm_compute; split; congruence)).
  change (ref_time ExtrinsicBaseWeight) with 125000000.
  unfold WEIGHT_REF_TIME_PER_NANOS. cbn [ref_time]. lia.
Qed.
End Fees.

End ParaWeights.

Module StandaloneWeights.

Definition MILLISECS_PER_BLOCK : Z := 6000.
Definition SLOT_DURATION : Z := MILLISECS_PER_BLOCK.
Definition MINUTES : Z := 60000 / wrap 32 MILLISECS_PER_BLOCK.
Definition HOURS : Z := MINUTES * 60.
Definition DAYS : Z := HOURS * 24.
Definition NORMAL_DISPATCH_RATIO : Z := from_percent 75.
Definition BlockHashCount : Z := 2400.
Definition EXISTENTIAL_DEPOSIT : Z := 500.
(** The block weight and the length limit given to [with_sensible_defaults] and
    [max_with_normal_ratio]. *)
Definition block_weight_limit : Weight := from_parts (2 * WEIGHT_REF_TIME_PER_SECOND) u64_max.
Definition block_length_limit : Z := 5 * 1024 * 1024.

End StandaloneWeights.

(** Both runtimes count a day in blocks of their own duration. *)
Lemma days_in_milliseconds :
  ParaWeights.DAYS * ParaWeights.SLOT_DURATION = 86400000 /\
  StandaloneWeights.DAYS * StandaloneWeights.SLOT_DURATION = 86400000.
Proof. split; reflexivity. Qed.
