(* ===== verification/NodeSpec.v ===== *)
(** * The nodes: chain specifications and start-up choices
    ([chain_spec.rs], [command.rs], [cli.rs] and [rpc.rs] of
    [substrate-node/standalone/node] and [substrate-node/parachain/node])

    The genesis states the nodes start from, which specification a chain id selects, the
    relay chain the collator connects to, and the RPC modules a node serves.  The services
    and the other subcommands are I/O around the Substrate client.  The derivation of keys
    from seeds, the wasm binary the build produces and the parser of specification files
    are not under [src/]: they are parameters. *)

From S2P Require Import Prelude Xcm Frame Traits ParachainInfo RuntimeWeights.

Inductive ChainType := Development | LocalChain.

(** [sr25519], Aura and Grandpa keys. *)
Inductive KeyType := Sr25519 | AuraKey | GrandpaKey.

(** [Pair::from_string] (its public key), and [IdentifyAccount::into_account]. *)
Class Keys := {
  from_string : KeyType -> string -> option bytes;
  into_account : bytes -> AccountId
}.

(** What the genesis of both nodes has in common, and what each has of its own. *)
Record RuntimeGenesisConfig := {
  system_code : bytes;
  balances : list (AccountId * Z);
  parachain_id_config : Z;
  sudo_key : option AccountId;
  aura_authorities : list bytes;
  grandpa_authorities : list (bytes * Z);
  invulnerables : list AccountId;
  candidacy_bond : Z;
  session_keys : list (AccountId * AccountId * bytes);
  safe_xcm_version : option Z
}.

Record Extensions := { relay_chain : string; para_id : Z }.

(** [ChainSpec::from_genesis]: the genesis is a function, run when it is needed. *)
Record ChainSpec := {
  spec_name : string;
  spec_id : string;
  chain_type : ChainType;
  genesis_of : unit -> outcome string RuntimeGenesisConfig;
  boot_nodes : list string;
  protocol_id : option string;
  properties : option (list (string * string));
  extensions : option Extensions
}.

Section Seeds.
Context `{Keys}.

(** [Pair::from_string(&format!("//{seed}"), None).expect(..).public()] *)
Definition get_from_seed (k : KeyType) (seed : string) : outcome string bytes :=
  match from_string k ("//" +:+ seed) with
  | Some public => Ok public
  | None => Panic
  end.

Definition get_account_id_from_seed (seed : string) : outcome string AccountId :=
  match get_from_seed Sr25519 seed with
  | Ok public => Ok (into_account public)
  | Err e => Err e
  | Panic => Panic
  end.

(** [?] and evaluation in order. *)
Definition bind_outcome {A B} (r : outcome string A) (k : A -> outcome string B)
    : outcome string B :=
  match r with Ok a => k a | Err e => Err e | Panic => Panic end.

Lemma bind_outcome_ok {A B} (r : outcome string A) (k : A -> outcome string B) b :
  bind_outcome r k = Ok b -> exists a, r = Ok a /\ k a = Ok b.
Proof. destruct r; naive_solver. Qed.

Fixpoint each {A B} (f : A -> outcome string B) (l : list A) : outcome string (list B) :=
  match l with
  | [] => Ok []
  | x :: l => bind_outcome (f x) (fun y => bind_outcome (each f l) (fun ys => Ok (y :: ys)))
  end.

Lemma each_ok {A B} (f : A -> outcome string B) l ys :
  each f l = Ok ys -> Forall2 (fun x y => f x = Ok y) l ys.
Proof.
  revert ys. induction l as [|x l IH]; intros ys; simpl; [intros [= <-]; constructor|].
  intros (y & Hx & (ys' & Hl & [= <-])%bind_outcome_ok)%bind_outcome_ok. constructor; auto.
Qed.
End Seeds.

(** The seeds of the pre-funded accounts. *)
Definition dev_seeds : list string := ["Alice"; "Bob"; "Alice//stash"; "Bob//stash"]%string.
Definition all_seeds : list string := [
  "Alice"; "Bob"; "Charlie"; "Dave"; "Eve"; "Ferdie"; "Alice//stash"; "Bob//stash";
  "Charlie//stash"; "Dave//stash"; "Eve//stash"; "Ferdie//stash"]%string.

(** ** The standalone node *)

Module StandaloneNode.
Section Node.
Context `{Keys} (WASM_BINARY : option bytes)
  (from_json_file : string -> outcome string ChainSpec).

Definition authority_keys_from_seed (s : string) : outcome string (bytes * bytes) :=
  bind_outcome (get_from_seed AuraKey s) (fun aura =>
  bind_outcome (get_from_seed GrandpaKey s) (fun grandpa => Ok (aura, grandpa))).

Definition testnet_genesis (wasm_binary : bytes) (initial_authorities : list (bytes * bytes))
    (root_key : AccountId) (endowed_accounts : list AccountId) (_enable_println : bool)
    : RuntimeGenesisConfig :=
  {| system_code := wasm_binary;
     balances := (fun k => (k, Z.shiftl 1 60)) <$> endowed_accounts;
     parachain_id_config := 1000;
     sudo_key := Some root_key;
     aura_authorities := initial_authorities.*1;
     grandpa_authorities := (fun x => (x.2, 1)) <$> initial_authorities;
     invulnerables := []; candidacy_bond := 0; session_keys := []; safe_xcm_version := None |}.

(** The closure both specifications pass. *)
Definition genesis (wasm_binary : bytes) (authorities endowed : list string)
    : outcome string RuntimeGenesisConfig :=
  bind_outcome (each authority_keys_from_seed authorities) (fun keys =>
  bind_outcome (get_account_id_from_seed "Alice") (fun root =>
  bind_outcome (each get_account_id_from_seed endowed) (fun accounts =>
  Ok (testnet_genesis wasm_binary keys root accounts true)))).

Definition development_config : outcome string ChainSpec :=
  match WASM_BINARY with
  | None => Err "Development wasm not available"%string
  | Some wasm_binary => Ok
      {| spec_name := "Development"; spec_id := "dev"; chain_type := Development;
         genesis_of _ := genesis wasm_binary ["Alice"]%string dev_seeds;
         boot_nodes := []; protocol_id := None; properties := None; extensions := None |}
  end.

Definition local_testnet_config : outcome string ChainSpec :=
  match WASM_BINARY with
  | None => Err "Development wasm not available"%string
  | Some wasm_binary => Ok
      {| spec_name := "Local Testnet"; spec_id := "local_testnet"; chain_type := LocalChain;
         genesis_of _ := genesis wasm_binary ["Alice"; "Bob"]%string all_seeds;
         boot_nodes := []; protocol_id := None; properties := None; extensions := None |}
  end.

Definition load_spec (id : string) : outcome string ChainSpec :=
  if decide (id = "dev"%string) then development_config
  else if decide (id = ""%string \/ id = "local"%string) then local_testnet_config
  else from_json_file id.
End Node.

(** [create_full]: the RPC modules, in the order they are merged. *)
Definition create_full : list string :=
  ["System"; "TransactionPayment"; "SygmaBridgeStorage"]%string.
End StandaloneNode.

(** ** The collator *)

Module ParaNode.
Section Node.
Context `{Keys} (WASM_BINARY : option bytes) (XCM_VERSION : Z)
  (from_json_file : string -> outcome string ChainSpec).

Definition get_collator_keys_from_seed (seed : string) : outcome string bytes :=
  get_from_seed AuraKey seed.

Definition template_session_keys (keys : bytes) : bytes := keys.

Definition testnet_genesis (initial : list (AccountId * bytes))
    (endowed_accounts : list AccountId) (root : AccountId) (id : Z)
    : outcome string RuntimeGenesisConfig :=
  match WASM_BINARY with
  | None => Panic
  | Some code => Ok
      {| system_code := code;
         balances := (fun k => (k, Z.shiftl 1 60)) <$> endowed_accounts;
         parachain_id_config := id;
         sudo_key := Some root;
         aura_authorities := []; grandpa_authorities := [];
         invulnerables := initial.*1;
         candidacy_bond := ParaWeights.EXISTENTIAL_DEPOSIT * 16;
         session_keys := (fun x => (x.1, x.1, template_session_keys x.2)) <$> initial;
         safe_xcm_version := Some XCM_VERSION |}
  end.

Definition collator (seed : string) : outcome string (AccountId * bytes) :=
  bind_outcome (get_account_id_from_seed seed) (fun account =>
  bind_outcome (get_collator_keys_from_seed seed) (fun aura => Ok (account, aura))).

(** The closure both specifications pass. *)
Definition genesis : outcome string RuntimeGenesisConfig :=
  bind_outcome (each collator ["Alice"; "Bob"]%string) (fun collators =>
  bind_outcome (each get_account_id_from_seed all_seeds) (fun accounts =>
  bind_outcome (get_account_id_from_seed "Alice") (fun root =>
  testnet_genesis collators accounts root 1000))).

Definition token_properties : list (string * string) :=
  [("tokenSymbol", "UNIT"); ("tokenDecimals", "12"); ("ss58Format", "42")]%string.

(** The properties are prepared and then not passed. *)
Definition development_config : ChainSpec :=
  {| spec_name := "Development"; spec_id := "dev"; chain_type := Development;
     genesis_of _ := genesis; boot_nodes := []; protocol_id := None; properties := None;
     extensions := Some {| relay_chain := "rococo-local"; para_id := 1000 |} |}.

Definition local_testnet_config : ChainSpec :=
  {| spec_name := "Local Testnet"; spec_id := "local_testnet"; chain_type := LocalChain;
     genesis_of _ := genesis; boot_nodes := []; protocol_id := Some "template-local"%string;
     properties := Some token_properties;
     extensions := Some {| relay_chain := "rococo-local"; para_id := 1000 |} |}.

Definition load_spec (id : string) : outcome string ChainSpec :=
  if decide (id = "dev"%string) then Ok development_config
  else if decide (id = "template-rococo"%string) then Ok local_testnet_config
  else if decide (id = ""%string \/ id = "local"%string) then Ok local_testnet_config
  else from_json_file id.

(** [Extensions::try_get] *)
Definition try_get (spec : ChainSpec) : option Extensions := extensions spec.

(** [RelayChainCli::new]: the fields that depend on the specification, with the base path
    of the configuration. *)
Record RelayChainCli := { chain_id_field : option string; base_path_field : option string }.
Definition relay_chain_cli (spec : ChainSpec) (base_path : string) : RelayChainCli :=
  {| chain_id_field := relay_chain <$> try_get spec;
     base_path_field := Some (base_path +:+ "/polkadot") |}.

(** [RelayChainCli::chain_id]: the chain named on the command line, or else the one of the
    specification; [base] is the result of the command line. *)
Definition chain_id (cli : RelayChainCli) (base : outcome string string)
    : outcome string string :=
  bind_outcome base (fun chain_id =>
  Ok (if decide (chain_id = ""%string) then default ""%string (chain_id_field cli)
      else chain_id)).

(** [RelayChainCli::base_path] *)
Definition base_path (cli : RelayChainCli) (shared : outcome string (option string))
    : outcome string (option string) :=
  bind_outcome shared (fun shared =>
  Ok (match shared with Some p => Some p | None => base_path_field cli end)).

(** The parachain id [run] starts the node with. *)
Definition start_para_id (spec : ChainSpec) : outcome string Z :=
  match para_id <$> try_get spec with
  | Some id => Ok id
  | None => Err "Could not find parachain ID in chain-spec."%string
  end.
End Node.

(** [DefaultConfigurationValues for RelayChainCli] *)
Definition p2p_listen_port : Z := 30334.
Definition rpc_listen_port : Z := 9945.
Definition prometheus_listen_port : Z := 9616.

(** [create_full]: the RPC modules, in the order they are merged. *)
Definition create_full : list string := ["System"; "TransactionPayment"]%string.
End ParaNode.

(** ** The state at genesis *)

Section Genesis.
Context {L : Type}.

(** The state the pallets start from: the parachain id is written, the endowments are the
    ledger [l], and the bridge pallets have stored nothing. *)
Definition genesis_world (l : list (AccountId * Z) -> L) (g : RuntimeGenesisConfig) : World L :=
  genesis_build {| parachain_id_genesis := parachain_id_config g |}
    (empty_world (l (balances g))).
End Genesis.
