(* ===== verification/NodeService.v ===== *)
(** * The node services ([service.rs] of both nodes)

    How a node is put together: the calls into the Substrate and Cumulus crates, the
    tasks handed to the task manager, in the order of the source.  These crates are not
    under [src/]: a call is an [Action] appended to the trace of the start-up, with the
    arguments the code computes, and what it answers is read from a [Substrate].  The
    objects the calls return ([client], [backend], the keystore, the pool, the network)
    exist once in a service and are not named, nor are the parts of the configuration
    that are only handed on.  The commands of [NodeCommand.v] write to the same trace. *)

From S2P Require Import Prelude Xcm Frame Traits ParachainInfo RuntimeWeights NodeSpec.

(** ** The configuration and the calls *)

Inductive Role := Full | Authority.
Definition is_authority (r : Role) : bool := match r with Authority => true | Full => false end.

Inductive HeapAllocStrategy := DefaultStrategy | Static (extra_pages : Z).

(** The fields of [sc_service::Configuration] the code reads. *)
Record Configuration := {
  telemetry_endpoints : option (list string);
  role : Role;
  offchain_worker_enabled : bool;
  force_authoring : bool;
  disable_grandpa : bool;
  node_name : string;
  default_heap_pages : option Z;
  wasm_method : string;
  max_runtime_instances : Z;
  runtime_cache_size : Z;
  chain_spec : ChainSpec;
  config_base_path : string;
  database_path : option string
}.

Record HwBench := { cpu_score : Z; memory_score : Z }.

Inductive DARecoveryProfile := Collator | FullNode.

(** Offchain workers of a node. *)
Record OffchainWorkerOptions := { is_validator : bool; enable_http_requests : bool }.

Record GrandpaConfig := {
  gossip_duration_ms : Z;
  justification_generation_period : Z;
  grandpa_name : option string;
  observer_enabled : bool;
  grandpa_keystore : bool;
  local_role : Role;
  grandpa_telemetry : bool
}.

(** The proposal takes two thirds of a slot at most. *)
Record StartAuraParams := {
  aura_slot_duration : Z;
  aura_force_authoring : bool;
  backoff_authoring_blocks : option unit;
  block_proposal_slot_portion : Z * Z;
  max_block_proposal_slot_portion : option (Z * Z);
  aura_telemetry : bool
}.

(** The futures handed to a task manager. *)
Inductive Task :=
| TelemetryWorkerRun
| OffchainWorkers (o : OffchainWorkerOptions)
| AuraWorker
| GrandpaVoter (c : GrandpaConfig)
| HwbenchTelemetry (h : HwBench).

(** The builders of [benchmarking.rs], without their client. *)
Inductive ExtrinsicBuilder :=
| RemarkBuilder
| TransferKeepAliveBuilder (dest : AccountId) (value : Z).

(** How a runner executes a command, and what the command is given. *)
Inductive RunMode := SyncRun | AsyncRun | RunNodeUntilExit.
Inductive Resource :=
| RCli | RConfig | RChainSpec | RNetwork | RDatabase | RClient | RImportQueue | RBackend
| RAuxRevert (present : bool) | RDb | RStorage | RInherentData | RBuilders (l : list ExtrinsicBuilder)
| RReferenceHardware | RPolkadotConfig | RInfoProvider (block_time_millis : Z)
| RSpec (s : ChainSpec).

Inductive Action :=
| TelemetryWorkerNew (buffer : Z)
| NewTelemetry (endpoints : list string)
| NewNativeOrWasmExecutor
| NewWithWasmExecutor
| BuildWasmExecutor (method : string) (onchain offchain : HeapAllocStrategy)
    (instances cache : Z)
| NewFullParts (telemetry : bool)
| Spawn (essential blocking : bool) (name : string) (group : option string) (t : Task)
| NewLongestChain
| NewTransactionPool (authority : bool)
| GrandpaBlockImport (period : Z) (telemetry : bool)
| SlotDuration
| AuraImportQueue (justification_import : bool) (telemetry : bool)
| ParachainBlockImportNew
| FullyVerifyingImportQueue (slot_duration : Z) (telemetry : bool)
| NewNetworkConfiguration
| ReadGenesisHash
| AddGrandpaProtocol
| NewWarpSync
| BuildNetwork (warp_sync : bool)
| BuildParachainNetwork (para_id : Z) (sybil_resistant : bool)
| SpawnTasks (rpc_modules : list string) (telemetry : bool)
| NewProposerFactory (proof_recording telemetry : bool)
| StartAura (p : StartAuraParams)
| RunGrandpaVoter (c : GrandpaConfig)
| PrepareNodeConfig
| BuildRelayChainInterface (telemetry_worker : bool) (hwbench : option HwBench)
| PrintHwbench (h : HwBench)
| WarnHardware
| GetOverseerHandle
| StartRelayChainTasks (para_id : Z) (profile : DARecoveryProfile) (relay_slot_secs : Z)
| ExpectCollatorKey
| RunBasicAura (para_id slot_duration relay_slot_secs authoring_ms : Z)
| StartNetwork
(** of the commands *)
| CreateRunner (cmd : string)
| RunnerStarts (m : RunMode)
| RunCommand (cmd : string) (with_ : list Resource)
| NewTaskManager
| ProvideInherentData (millis : Z)
| CreateDirAll (path : string)
| GatherHwbench (path : string)
| CreateRelayConfiguration (chain_id base_path : option string) (args : list string)
| LogParachainAccount (account : bytes)
| LogCollating (yes : bool).

Abbreviation Trace := (list Action).

(** An error converted by [?], or boxed by the code itself. *)
Inductive ServiceError := Converted (a : Action) (e : string) | Application (e : string).

(** What the crates answer: the error of a call made after a trace, the hash of the first
    block of the client, the slot duration of the runtime, the key of the relay chain
    interface, and whether a machine meets the reference. *)
Class Substrate := {
  call_error : Trace -> Action -> option string;
  block_hash_0 : option bytes;
  slot_duration : Z;
  collator_key : option bytes;
  check_hardware : HwBench -> bool
}.

Section Calls.
Context `{Substrate}.
Abbreviation Node := (M ServiceError Trace).

(** A call that returns. *)
Definition act (a : Action) : Node unit := modify (fun t => t ++ [a]).
(** A call that returns a [Result], with [?]. *)
Definition attempt_with (f : string -> ServiceError) (a : Action) : Node unit := fun t =>
  match call_error t a with
  | None => (Ok tt, t ++ [a])
  | Some e => (Err (f e), t ++ [a])
  end.
Definition attempt (a : Action) : Node unit := attempt_with (Converted a) a.
(** [x.expect(..)] *)
Definition expect {A} (a : Action) (x : option A) : Node unit :=
  act a;; match x with Some _ => mret tt | None => panic end.
Definition when (b : bool) (m : Node unit) : Node unit := if b then m else mret tt.

(** The telemetry worker both nodes create: only for endpoints that are not empty. *)
Definition start_telemetry (config : Configuration) : Node bool :=
  match telemetry_endpoints config with
  | Some (e :: es) =>
      attempt (TelemetryWorkerNew 16);;
      act (NewTelemetry (e :: es));;
      mret true
  | _ => mret false
  end.

Definition spawn (name : string) (group : option string) (t : Task) : Node unit :=
  act (Spawn false false name group t).
End Calls.

Abbreviation Node := (M ServiceError Trace).

(** ** The standalone node *)

Module StandaloneService.
Section Service.
Context `{Substrate}.

Definition GRANDPA_JUSTIFICATION_PERIOD : Z := 512.

(** The answer is whether the service has telemetry. *)
Definition new_partial (config : Configuration) : Node bool :=
  telemetry ← start_telemetry config;
  act NewNativeOrWasmExecutor;;
  attempt (NewFullParts telemetry);;
  when telemetry (spawn "telemetry" None TelemetryWorkerRun);;
  act NewLongestChain;;
  act (NewTransactionPool (is_authority (role config)));;
  attempt (GrandpaBlockImport GRANDPA_JUSTIFICATION_PERIOD telemetry);;
  attempt SlotDuration;;
  attempt (AuraImportQueue true telemetry);;
  mret telemetry.

Definition offchain_options (config : Configuration) : OffchainWorkerOptions :=
  {| is_validator := is_authority (role config); enable_http_requests := true |}.

(** The keystore goes to the voter of an authority only. *)
Definition grandpa_config (config : Configuration) (telemetry : bool) : GrandpaConfig :=
  {| gossip_duration_ms := 333;
     justification_generation_period := GRANDPA_JUSTIFICATION_PERIOD;
     grandpa_name := Some (node_name config);
     observer_enabled := false;
     grandpa_keystore := is_authority (role config);
     local_role := role config;
     grandpa_telemetry := telemetry |}.

Definition aura_params (config : Configuration) (telemetry : bool) : StartAuraParams :=
  {| aura_slot_duration := slot_duration;
     aura_force_authoring := force_authoring config;
     backoff_authoring_blocks := None;
     block_proposal_slot_portion := (2, 3);
     max_block_proposal_slot_portion := None;
     aura_telemetry := telemetry |}.

(** Block production, on an authority. *)
Definition start_authoring (config : Configuration) (telemetry : bool) : Node unit :=
  act (NewProposerFactory false telemetry);;
  attempt SlotDuration;;
  attempt (StartAura (aura_params config telemetry));;
  act (Spawn true true "aura" (Some "block-authoring"%string) AuraWorker).

Definition start_finality (config : Configuration) (telemetry : bool) : Node unit :=
  attempt (RunGrandpaVoter (grandpa_config config telemetry));;
  act (Spawn true true "grandpa-voter" None (GrandpaVoter (grandpa_config config telemetry))).

Definition new_full (config : Configuration) : Node unit :=
  telemetry ← new_partial config;
  act NewNetworkConfiguration;;
  expect ReadGenesisHash block_hash_0;;
  act AddGrandpaProtocol;;
  act NewWarpSync;;
  attempt (BuildNetwork true);;
  when (offchain_worker_enabled config)
    (spawn "offchain-workers-runner" (Some "offchain-worker"%string)
       (OffchainWorkers (offchain_options config)));;
  attempt (SpawnTasks StandaloneNode.create_full telemetry);;
  when (is_authority (role config)) (start_authoring config telemetry);;
  when (negb (disable_grandpa config)) (start_finality config telemetry);;
  act StartNetwork.
End Service.
End StandaloneService.

(** ** The collator *)

Module ParaService.
Section Service.
Context `{Substrate}.

Definition heap_pages (config : Configuration) : HeapAllocStrategy :=
  match default_heap_pages config with None => DefaultStrategy | Some h => Static h end.

Definition build_import_queue (telemetry : bool) : Node unit :=
  attempt SlotDuration;;
  act (FullyVerifyingImportQueue slot_duration telemetry).

(** Telemetry, and the handle of its worker, are there together. *)
Definition new_partial (config : Configuration) : Node (bool * bool) :=
  telemetry ← start_telemetry config;
  act (BuildWasmExecutor (wasm_method config) (heap_pages config) (heap_pages config)
         (max_runtime_instances config) (runtime_cache_size config));;
  act NewWithWasmExecutor;;
  attempt (NewFullParts telemetry);;
  when telemetry (spawn "telemetry" None TelemetryWorkerRun);;
  act (NewTransactionPool (is_authority (role config)));;
  act ParachainBlockImportNew;;
  build_import_queue telemetry;;
  mret (telemetry, telemetry).

Definition offchain_options (config : Configuration) : OffchainWorkerOptions :=
  {| is_validator := is_authority (role config); enable_http_requests := false |}.

Definition report_hwbench (validator telemetry : bool) (hwbench : option HwBench) : Node unit :=
  match hwbench with
  | None => mret tt
  | Some h =>
      act (PrintHwbench h);;
      when (negb (check_hardware h) && validator) (act WarnHardware);;
      when telemetry (spawn "telemetry_hwbench" None (HwbenchTelemetry h))
  end.

Definition start_consensus (telemetry : bool) (relay_slot_secs para_id : Z) : Node unit :=
  attempt SlotDuration;;
  act (NewProposerFactory true telemetry);;
  act (RunBasicAura para_id slot_duration relay_slot_secs 500);;
  act (Spawn true false "aura" None AuraWorker).

Definition start_node_impl (parachain_config : Configuration) (para_id : Z)
    (hwbench : option HwBench) : Node unit :=
  act PrepareNodeConfig;;
  params ← new_partial parachain_config;
  let '(telemetry, telemetry_worker_handle) := params in
  act NewNetworkConfiguration;;
  attempt_with Application (BuildRelayChainInterface telemetry_worker_handle hwbench);;
  let validator := is_authority (role parachain_config) in
  attempt (BuildParachainNetwork para_id true);;
  when (offchain_worker_enabled parachain_config)
    (spawn "offchain-workers-runner" (Some "offchain-work"%string)
       (OffchainWorkers (offchain_options parachain_config)));;
  attempt (SpawnTasks ParaNode.create_full telemetry);;
  report_hwbench validator telemetry hwbench;;
  let relay_chain_slot_duration := 6 in
  attempt_with Application GetOverseerHandle;;
  attempt (StartRelayChainTasks para_id (if validator then Collator else FullNode)
             relay_chain_slot_duration);;
  when validator
    (expect ExpectCollatorKey collator_key;;
     start_consensus telemetry relay_chain_slot_duration para_id);;
  act StartNetwork.

Definition start_parachain_node (parachain_config : Configuration) (para_id : Z)
    (hwbench : option HwBench) : Node unit :=
  start_node_impl parachain_config para_id hwbench.
End Service.
End ParaService.
