(* ===== verification/NodeServiceFacts.v ===== *)
(** * Straight-line start-up

    The start-up programs branch on the configuration only; a failed call ends them.  So
    each follows a list of steps known beforehand, up to the first one that fails. *)

From S2P Require Import Prelude Xcm Frame Traits ParachainInfo RuntimeWeights NodeSpec.
From S2P Require Import NodeService.

Inductive Step :=
| Do (a : Action)
| Try (f : string -> ServiceError) (a : Action)
| Need (a : Action) (present : bool).

Definition step_action (s : Step) : Action :=
  match s with Do a | Try _ a | Need a _ => a end.
Definition actions (ps : list Step) : Trace := step_action <$> ps.

(** The tasks a trace has spawned: whether the node ends with them, and their names. *)
Definition task_of (a : Action) : option (bool * string) :=
  match a with Spawn essential _ name _ _ => Some (essential, name) | _ => None end.
Definition spawned (t : Trace) : list (bool * string) := omap task_of t.

Section Steps.
Context `{Substrate}.

Definition run_step (s : Step) : Node unit :=
  match s with
  | Do a => act a
  | Try f a => attempt_with f a
  | Need a present => act a;; if present then mret tt else panic
  end.
Definition run_steps (ps : list Step) : Node unit :=
  foldr (fun s m => run_step s;; m) (mret tt) ps.

(** How a step fails after [t]. *)
Definition step_fails (s : Step) (t : Trace) (r : outcome ServiceError unit) : Prop :=
  match s with
  | Do _ => False
  | Try f a => exists e, call_error t a = Some e /\ r = Err (f e)
  | Need _ present => present = false /\ r = Panic
  end.

Lemma run_step_cases s t :
  run_step s t = (Ok tt, t ++ [step_action s]) \/
  exists r, run_step s t = (r, t ++ [step_action s]) /\ r <> Ok tt /\ step_fails s t r.
Proof.
  destruct s as [a|f a|a present]; simpl; [by left|..].
  - unfold attempt_with. destruct (call_error t a) eqn:He; [right|by left]. eauto 6.
  - destruct present; [by left|right]. by exists Panic.
Qed.

(** A run does all steps, or ends with the first that fails. *)
Lemma run_steps_cases ps t r t' :
  run_steps ps t = (r, t') ->
  (r = Ok tt /\ t' = t ++ actions ps) \/
  (r <> Ok tt /\ exists qs s rest, ps = qs ++ s :: rest /\
     t' = t ++ actions qs ++ [step_action s] /\ step_fails s (t ++ actions qs) r).
Proof.
  revert t. induction ps as [|s ps IH]; intros t; simpl.
  - intros [= <- <-]. left. by rewrite app_nil_r.
  - destruct (run_step_cases s t) as [Hs|(r' & Hs & Hr & Hf)].
    + rewrite (bind_ok _ _ _ _ _ Hs). intros [[-> ->]|(Hr & qs & s' & rest & -> & -> & Hf)]%IH.
      * left. by rewrite <- app_assoc.
      * right. split; [done|]. exists (s :: qs), s', rest. simpl.
        by rewrite <- !app_assoc in *.
    + unfold mbind, M_bind. rewrite Hs. intros Hrun.
      assert (r = r' /\ t' = t ++ [step_action s]) as [-> ->].
      { destruct r' as [[]| |]; by simplify_eq. }
      right. split; [done|]. exists [], s, ps. simpl. by rewrite !app_nil_r.
Qed.

(** What a run that succeeds needed was there. *)
Lemma run_steps_needs ps t t' a b :
  run_steps ps t = (Ok tt, t') -> Need a b ∈ ps -> b = true.
Proof.
  revert t. induction ps as [|s ps IH]; intros t; simpl; [by intros _ ?%elem_of_nil|].
  intros (x & t1 & Hs & Hr)%bind_ok_inv [<-|Hin]%elem_of_cons; [|by eapply IH].
  by destruct b.
Qed.

Lemma run_steps_app ps qs t :
  run_steps (ps ++ qs) t = (run_steps ps;; run_steps qs) t.
Proof.
  revert t. induction ps as [|s ps IH]; intros t; simpl; [done|].
  unfold mbind, M_bind in *. by destruct (run_step s t) as [[]].
Qed.

(** [m] follows [ps] and answers [a]. *)
Definition follows {A} (m : Node A) (ps : list Step) (a : A) : Prop :=
  forall t, m t = (run_steps ps;; mret a) t.

Lemma follows_ret {A} (a : A) : follows (mret a) [] a.
Proof. done. Qed.
Lemma follows_act a : follows (act a) [Do a] tt.
Proof. done. Qed.
Lemma follows_attempt_with f a : follows (attempt_with f a) [Try f a] tt.
Proof.
  intros t. simpl. unfold mbind, M_bind, mret, M_ret. by destruct (attempt_with f a t) as [[[]| |]].
Qed.
Lemma follows_expect {A} a (x : option A) :
  follows (expect a x) [Need a (bool_decide (is_Some x))] tt.
Proof. intros t. by destruct x. Qed.

Lemma follows_bind {A B} (m : Node A) (k : A -> Node B) ps qs a b :
  follows m ps a -> follows (k a) qs b -> follows (m ≫= k) (ps ++ qs) b.
Proof.
  intros Hm Hk t. unfold mbind at 1, M_bind at 1. rewrite Hm.
  unfold mbind, M_bind. rewrite run_steps_app. unfold mbind, M_bind.
  destruct (run_steps ps t) as [[[]| |] t']; try done. unfold mret at 1, M_ret at 1. apply Hk.
Qed.

Lemma follows_if {A} (c : bool) (m m' : Node A) ps ps' a a' :
  follows m ps a -> follows m' ps' a' ->
  follows (if c then m else m') (if c then ps else ps') (if c then a else a').
Proof. by destruct c. Qed.
Lemma follows_when (c : bool) (m : Node unit) ps :
  follows m ps tt -> follows (when c m) (if c then ps else []) tt.
Proof. by destruct c. Qed.

(** Telemetry is there exactly for endpoints that are not empty. *)
Definition has_telemetry (config : Configuration) : bool :=
  match telemetry_endpoints config with Some (_ :: _) => true | _ => false end.
Definition telemetry_steps (config : Configuration) : list Step :=
  match telemetry_endpoints config with
  | Some (e :: es) =>
      [Try (Converted (TelemetryWorkerNew 16)) (TelemetryWorkerNew 16);
       Do (NewTelemetry (e :: es))]
  | _ => []
  end.
Lemma follows_telemetry config :
  follows (start_telemetry config) (telemetry_steps config) (has_telemetry config).
Proof.
  unfold start_telemetry, telemetry_steps, has_telemetry.
  destruct (telemetry_endpoints config) as [[|e es]|]; try apply follows_ret.
  apply (follows_bind _ _ [_] [_] tt); [apply follows_attempt_with|].
  apply (follows_bind _ _ [_] [] tt); [apply follows_act|apply follows_ret].
Qed.

(** A program whose steps end with the start of the network, which none of the others
    does: it starts the network exactly when it succeeds, and after everything else;
    short of that the error is the answer of its last call. *)
Lemma follows_network (m : Node unit) ps t r tr :
  follows m (ps ++ [Do StartNetwork]) tt ->
  Forall (fun a => a <> StartNetwork) (t ++ actions ps) -> m t = (r, tr) ->
  (r = Ok tt <-> StartNetwork ∈ tr) /\
  (r = Ok tt -> tr = t ++ actions ps ++ [StartNetwork]) /\
  (r <> Ok tt -> exists qs s rest, ps = qs ++ s :: rest /\
     tr = t ++ actions qs ++ [step_action s] /\ step_fails s (t ++ actions qs) r).
Proof.
  intros Hm Hn Hr. rewrite Hm in Hr.
  assert (run_steps (ps ++ [Do StartNetwork]) t = (r, tr)) as Hrun.
  { unfold mbind, M_bind in Hr. by destruct (run_steps _ _) as [[[]| |]]. }
  apply run_steps_cases in Hrun as [[-> ->]|(Hne & qs & s & rest & Hps & -> & Hf)].
  - unfold actions. rewrite fmap_app. simpl. split_and!; [|done|done].
    split; [intros _|done]. rewrite !elem_of_app. right; right. by left.
  - assert (exists rest', rest = rest' ++ [Do StartNetwork]) as [rest' ->].
    { destruct rest as [|x rest _] using rev_ind.
      - apply app_inj_tail in Hps as [_ <-]. done.
      - rewrite app_comm_cons, app_assoc in Hps. apply app_inj_tail in Hps as [_ ->]. by eexists. }
    rewrite app_comm_cons, app_assoc in Hps. apply app_inj_tail in Hps as [-> _].
    split_and!; [|done|eauto 6]. split; [done|]. intros Hin.
    rewrite Forall_forall in Hn. destruct (Hn StartNetwork); [|done].
    unfold actions in *. rewrite fmap_app, fmap_cons. rewrite !elem_of_app, elem_of_cons in *.
    rewrite elem_of_nil in Hin. tauto.
Qed.
End Steps.

(** [follow]: the steps of a program, from the shape of the program. *)
Ltac follow :=
  repeat first
    [ apply follows_ret | apply follows_act | apply follows_attempt_with
    | apply follows_expect | apply follows_telemetry | apply follows_when
    | eapply follows_bind ].

(** ** The steps of the two nodes *)

Section Plans.
Context `{Substrate}.
Implicit Types (config : Configuration).

(** A call whose error [?] converts. *)
Definition TryC (a : Action) : Step := Try (Converted a) a.

Definition standalone_partial config : list Step :=
  let tel := has_telemetry config in
  telemetry_steps config ++ [Do NewNativeOrWasmExecutor; TryC (NewFullParts tel)] ++
  (if tel then [Do (Spawn false false "telemetry" None TelemetryWorkerRun)] else []) ++
  [Do NewLongestChain; Do (NewTransactionPool (is_authority (role config)));
   TryC (GrandpaBlockImport 512 tel); TryC SlotDuration; TryC (AuraImportQueue true tel)].

Definition standalone_steps config : list Step :=
  let tel := has_telemetry config in
  standalone_partial config ++
  [Do NewNetworkConfiguration; Need ReadGenesisHash (bool_decide (is_Some block_hash_0));
   Do AddGrandpaProtocol; Do NewWarpSync; TryC (BuildNetwork true)] ++
  (if offchain_worker_enabled config then
     [Do (Spawn false false "offchain-workers-runner" (Some "offchain-worker"%string)
            (OffchainWorkers (StandaloneService.offchain_options config)))] else []) ++
  [TryC (SpawnTasks StandaloneNode.create_full tel)] ++
  (if is_authority (role config) then
     [Do (NewProposerFactory false tel); TryC SlotDuration;
      TryC (StartAura (StandaloneService.aura_params config tel));
      Do (Spawn true true "aura" (Some "block-authoring"%string) AuraWorker)] else []) ++
  (if negb (disable_grandpa config) then
     [TryC (RunGrandpaVoter (StandaloneService.grandpa_config config tel));
      Do (Spawn true true "grandpa-voter" None
            (GrandpaVoter (StandaloneService.grandpa_config config tel)))] else []).

Definition collator_partial config : list Step :=
  let tel := has_telemetry config in
  telemetry_steps config ++
  [Do (BuildWasmExecutor (wasm_method config) (ParaService.heap_pages config)
         (ParaService.heap_pages config) (max_runtime_instances config)
         (runtime_cache_size config));
   Do NewWithWasmExecutor; TryC (NewFullParts tel)] ++
  (if tel then [Do (Spawn false false "telemetry" None TelemetryWorkerRun)] else []) ++
  [Do (NewTransactionPool (is_authority (role config))); Do ParachainBlockImportNew;
   TryC SlotDuration; Do (FullyVerifyingImportQueue slot_duration tel)].

Definition hwbench_steps (validator tel : bool) (hwbench : option HwBench) : list Step :=
  match hwbench with
  | None => []
  | Some h =>
      [Do (PrintHwbench h)] ++
      (if negb (check_hardware h) && validator then [Do WarnHardware] else []) ++
      (if tel then [Do (Spawn false false "telemetry_hwbench" None (HwbenchTelemetry h))] else [])
  end.

Definition collator_steps config (para_id : Z) (hwbench : option HwBench) : list Step :=
  let tel := has_telemetry config in
  let validator := is_authority (role config) in
  [Do PrepareNodeConfig] ++ collator_partial config ++
  [Do NewNetworkConfiguration; Try Application (BuildRelayChainInterface tel hwbench);
   TryC (BuildParachainNetwork para_id true)] ++
  (if offchain_worker_enabled config then
     [Do (Spawn false false "offchain-workers-runner" (Some "offchain-work"%string)
            (OffchainWorkers (ParaService.offchain_options config)))] else []) ++
  [TryC (SpawnTasks ParaNode.create_full tel)] ++
  hwbench_steps validator tel hwbench ++
  [Try Application GetOverseerHandle;
   TryC (StartRelayChainTasks para_id (if validator then Collator else FullNode) 6)] ++
  (if validator then
     [Need ExpectCollatorKey (bool_decide (is_Some collator_key)); TryC SlotDuration;
      Do (NewProposerFactory true tel); Do (RunBasicAura para_id slot_duration 6 500);
      Do (Spawn true false "aura" None AuraWorker)] else []).

Lemma follows_eq {A} (m : Node A) ps qs a : follows m ps a -> ps = qs -> follows m qs a.
Proof. by intros ? <-. Qed.

(** [same_steps]: equal up to association, by cases on the conditions. *)
Ltac same_steps :=
  simpl; rewrite ?app_nil_r, <- ?app_assoc; simpl;
  repeat (case_match; simpl; rewrite ?app_nil_r, <- ?app_assoc); reflexivity.

Lemma standalone_partial_follows config :
  follows (StandaloneService.new_partial config) (standalone_partial config)
    (has_telemetry config).
Proof.
  eapply follows_eq; [unfold StandaloneService.new_partial; follow|].
  unfold standalone_partial. same_steps.
Qed.

Lemma standalone_follows config :
  follows (StandaloneService.new_full config) (standalone_steps config ++ [Do StartNetwork]) tt.
Proof.
  eapply follows_eq.
  { unfold StandaloneService.new_full.
    eapply follows_bind; [apply standalone_partial_follows|].
    unfold StandaloneService.start_authoring, StandaloneService.start_finality. follow. }
  unfold standalone_steps. same_steps.
Qed.

Lemma collator_partial_follows config :
  follows (ParaService.new_partial config) (collator_partial config)
    (has_telemetry config, has_telemetry config).
Proof.
  eapply follows_eq;
    [unfold ParaService.new_partial, ParaService.build_import_queue; follow|].
  unfold collator_partial. same_steps.
Qed.

Lemma hwbench_follows validator tel hwbench :
  follows (ParaService.report_hwbench validator tel hwbench)
    (hwbench_steps validator tel hwbench) tt.
Proof. destruct hwbench; simpl; [|apply follows_ret]. eapply follows_eq; [follow|same_steps]. Qed.

Lemma collator_follows config para_id hwbench :
  follows (ParaService.start_parachain_node config para_id hwbench)
    (collator_steps config para_id hwbench ++ [Do StartNetwork]) tt.
Proof.
  eapply follows_eq.
  { unfold ParaService.start_parachain_node, ParaService.start_node_impl.
    eapply follows_bind; [apply follows_act|].
    eapply follows_bind; [apply collator_partial_follows|]. unfold ParaService.start_consensus.
    repeat first [apply hwbench_follows | progress follow]. }
  unfold collator_steps. same_steps.
Qed.

(** ** What the nodes run *)

(** The tasks of the standalone node, with those it ends with marked. *)
Definition standalone_tasks config : list (bool * string) :=
  (if has_telemetry config then [(false, "telemetry"%string)] else []) ++
  (if offchain_worker_enabled config then [(false, "offchain-workers-runner"%string)] else []) ++
  (if is_authority (role config) then [(true, "aura"%string)] else []) ++
  (if disable_grandpa config then [] else [(true, "grandpa-voter"%string)]).

Definition collator_tasks config (hwbench : option HwBench) : list (bool * string) :=
  (if has_telemetry config then [(false, "telemetry"%string)] else []) ++
  (if offchain_worker_enabled config then [(false, "offchain-workers-runner"%string)] else []) ++
  (if has_telemetry config && bool_decide (is_Some hwbench)
   then [(false, "telemetry_hwbench"%string)] else []) ++
  (if is_authority (role config) then [(true, "aura"%string)] else []).

Definition is_start (a : Action) : bool := match a with StartNetwork => true | _ => false end.

Lemma no_start ps :
  forallb (fun s => negb (is_start (step_action s))) ps = true ->
  Forall (fun a => a <> StartNetwork) (actions ps).
Proof.
  intros Hf. apply Forall_fmap, Forall_forall. intros s Hs Heq.
  rewrite forallb_forall in Hf. specialize (Hf s ltac:(by apply list_elem_of_In)).
  by rewrite Heq in Hf.
Qed.

Lemma standalone_spawned config :
  spawned (actions (standalone_steps config)) = standalone_tasks config.
Proof.
  unfold standalone_steps, standalone_partial, standalone_tasks, telemetry_steps, has_telemetry.
  by destruct (telemetry_endpoints config) as [[|]|], (offchain_worker_enabled config),
    (role config), (disable_grandpa config).
Qed.
Lemma standalone_no_start config :
  Forall (fun a => a <> StartNetwork) (actions (standalone_steps config)).
Proof.
  apply no_start.
  unfold standalone_steps, standalone_partial, telemetry_steps, has_telemetry.
  by destruct (telemetry_endpoints config) as [[|]|], (offchain_worker_enabled config),
    (role config), (disable_grandpa config).
Qed.

Lemma collator_spawned config para_id hwbench :
  spawned (actions (collator_steps config para_id hwbench)) = collator_tasks config hwbench.
Proof.
  unfold collator_steps, collator_partial, collator_tasks, telemetry_steps, has_telemetry,
    hwbench_steps.
  by destruct (telemetry_endpoints config) as [[|]|], (offchain_worker_enabled config),
    (role config), hwbench as [h|]; simpl; try destruct (check_hardware h).
Qed.
Lemma collator_no_start config para_id hwbench :
  Forall (fun a => a <> StartNetwork) (actions (collator_steps config para_id hwbench)).
Proof.
  apply no_start.
  unfold collator_steps, collator_partial, telemetry_steps, has_telemetry, hwbench_steps.
  by destruct (telemetry_endpoints config) as [[|]|], (offchain_worker_enabled config),
    (role config), hwbench as [h|]; simpl; try destruct (check_hardware h).
Qed.

(** Blocks are recovered in the role of the node. *)
Lemma collator_relays config para_id hwbench :
  StartRelayChainTasks para_id (if is_authority (role config) then Collator else FullNode) 6
    ∈ actions (collator_steps config para_id hwbench).
Proof.
  unfold actions, collator_steps. rewrite !fmap_app, !elem_of_app.
  do 6 right. left. simpl. right. by left.
Qed.

(** The result of a start-up is the answer of its last call. *)
Definition reported (r : outcome ServiceError unit) (tr : Trace) : Prop :=
  (r = Panic /\ exists t a, tr = t ++ [a] /\
     ((a = ReadGenesisHash /\ block_hash_0 = None) \/
      (a = ExpectCollatorKey /\ collator_key = None))) \/
  exists t a e, tr = t ++ [a] /\ call_error t a = Some e /\
    (r = Err (Converted a e) \/ r = Err (Application e)).

Definition step_ok (s : Step) : Prop :=
  match s with
  | Do _ => True
  | Try f a => f = Converted a \/ f = Application
  | Need a b =>
      (a = ReadGenesisHash /\ b = bool_decide (is_Some block_hash_0)) \/
      (a = ExpectCollatorKey /\ b = bool_decide (is_Some collator_key))
  end.

Lemma none_decided {A} (x : option A) : bool_decide (is_Some x) = false -> x = None.
Proof. by destruct x. Qed.

Lemma step_fails_reported s t r :
  step_ok s -> step_fails s t r -> reported r (t ++ [step_action s]).
Proof.
  destruct s as [a|f a|a b]; simpl; [done|..].
  - intros Hf (e & He & ->). right. exists t, a, e. destruct Hf as [->| ->]; auto.
  - intros Hb [-> ->]. left. split; [done|]. exists t, a. split; [done|].
    destruct Hb as [[-> Hb]|[-> Hb]]; symmetry in Hb; apply none_decided in Hb; auto.
Qed.

(** [steps_ok]: every step of a concrete list is as it should. *)
Ltac steps_ok :=
  repeat first [apply Forall_nil; exact I | apply Forall_app; split | apply Forall_cons; split
    | case_match]; simpl; auto.

Lemma standalone_ok config : Forall step_ok (standalone_steps config).
Proof. unfold standalone_steps, standalone_partial, telemetry_steps. cbv zeta. steps_ok. Qed.
Lemma collator_ok config para_id hwbench :
  Forall step_ok (collator_steps config para_id hwbench).
Proof.
  unfold collator_steps, collator_partial, telemetry_steps, hwbench_steps. cbv zeta. steps_ok.
Qed.

Lemma spawned_app t t' : spawned (t ++ t') = spawned t ++ spawned t'.
Proof. apply omap_app. Qed.

(** A start-up that follows [ps] and then starts the network. *)
Lemma follows_start (m : Node unit) ps tasks t r tr :
  follows m (ps ++ [Do StartNetwork]) tt ->
  Forall (fun a => a <> StartNetwork) t ->
  Forall (fun a => a <> StartNetwork) (actions ps) -> Forall step_ok ps ->
  spawned (actions ps) = tasks -> m t = (r, tr) ->
  (r = Ok tt <-> StartNetwork ∈ tr) /\
  (r = Ok tt -> last tr = Some StartNetwork /\ spawned tr = spawned t ++ tasks) /\
  (r <> Ok tt -> spawned tr `prefix_of` spawned t ++ tasks /\ reported r tr).
Proof.
  intros Hm Ht Hn Hok <- Hr.
  destruct (follows_network m ps t r tr Hm) as (Hiff & Hyes & Hno); [by apply Forall_app|done|].
  split_and!; [done|..].
  - intros ->%Hyes. rewrite app_assoc, last_snoc, !spawned_app. simpl. by rewrite app_nil_r.
  - intros (qs & s & rest & -> & -> & Hf)%Hno. apply Forall_app in Hok as [_ [Hs _]%Forall_cons].
    rewrite app_assoc. split; [|by apply step_fails_reported].
    unfold actions. rewrite fmap_app. simpl. rewrite !spawned_app, app_assoc. apply prefix_app.
    exists (spawned (step_action <$> rest)). by rewrite <- (spawned_app [_]).
Qed.

(** An authority that starts has a collator key. *)
Lemma collator_key_needed config para_id hwbench tr :
  role config = Authority ->
  ParaService.start_parachain_node config para_id hwbench [] = (Ok tt, tr) -> is_Some collator_key.
Proof.
  intros Ha Hr. rewrite collator_follows in Hr. apply bind_ok_inv in Hr as ([] & t & Hr & _).
  apply (bool_decide_unpack _). apply Is_true_true_2.
  apply (run_steps_needs _ _ _ ExpectCollatorKey _ Hr).
  unfold collator_steps. rewrite Ha, !elem_of_app. left. do 7 right. by left.
Qed.
End Plans.
