(* ===== verification/NodeBenchmarking.v ===== *)
(** * Extrinsics for the benchmarks ([standalone/node/src/benchmarking.rs])

    The builders of the [benchmark overhead] and [benchmark extrinsic] commands, and the
    transaction they sign.  Keys, the encoding of what is signed and the mortal era are of
    the Substrate crates: parameters. *)

From S2P Require Import Prelude Xcm Frame Traits ParachainInfo RuntimeWeights.
From S2P Require Import NodeSpec NodeService.

(** [u32::checked_next_power_of_two] *)
Definition checked_next_power_of_two (n : Z) : option Z :=
  let p := 2 ^ Z.log2_up n in if p <=? u32_max then Some p else None.

(** The period of the mortal era: half the power of two that covers the block hashes the
    chain keeps. *)
Definition era_period (block_hash_count : Z) : Z :=
  match checked_next_power_of_two block_hash_count with Some c => c / 2 | None => 2 end.

(** The extensions of a signed transaction, in the order of [SignedExtra]. *)
Inductive SignedExtension (Era : Type) :=
| CheckNonZeroSender | CheckSpecVersion | CheckTxVersion | CheckGenesis
| CheckEra (e : Era) | CheckNonce (n : Z) | CheckWeight | ChargeTransactionPayment (tip : Z).
Arguments CheckNonZeroSender {Era}.
Arguments CheckSpecVersion {Era}.
Arguments CheckTxVersion {Era}.
Arguments CheckGenesis {Era}.
Arguments CheckEra {Era} e.
Arguments CheckNonce {Era} n.
Arguments CheckWeight {Era}.
Arguments ChargeTransactionPayment {Era} tip.

(** What an extension adds to the bytes signed. *)
Inductive Additional := Nothing | Version (v : Z) | BlockHash (h : bytes).

(** The calls the builders make. *)
Inductive BenchCall := Remark (remark : bytes) | TransferKeepAlive (dest : AccountId) (value : Z).

(** The client, as the builders read it. *)
Record FullClient := { genesis_hash : option bytes; best_hash : bytes; best_number : Z }.

(** [VERSION.spec_version] and [VERSION.transaction_version] *)
Definition spec_version : Z := 100.
Definition transaction_version : Z := 1.

Section Builders.
Context {Era Pair : Type} (mortal : Z -> Z -> Era) (bob : Pair) (public : Pair -> bytes)
  (sign : Pair -> bytes -> bytes)
  (encode_payload : BenchCall -> list (SignedExtension Era) -> list Additional -> bytes).

Record UncheckedExtrinsic := {
  xt_call : BenchCall;
  xt_signer : bytes;
  xt_signature : bytes;
  xt_extra : list (SignedExtension Era)
}.

Definition signed_extra (client : FullClient) (nonce : Z) : list (SignedExtension Era) :=
  [CheckNonZeroSender; CheckSpecVersion; CheckTxVersion; CheckGenesis;
   CheckEra (mortal (era_period StandaloneWeights.BlockHashCount) (best_number client));
   CheckNonce nonce; CheckWeight; ChargeTransactionPayment 0].

Definition create_benchmark_extrinsic (client : FullClient) (sender : Pair) (call : BenchCall)
    (nonce : Z) : outcome string UncheckedExtrinsic :=
  match genesis_hash client with
  | None => Panic
  | Some genesis =>
      let extra := signed_extra client nonce in
      let raw_payload := encode_payload call extra
        [Nothing; Version spec_version; Version transaction_version; BlockHash genesis;
         BlockHash (best_hash client); Nothing; Nothing; Nothing] in
      Ok {| xt_call := call; xt_signer := public sender; xt_signature := sign sender raw_payload;
            xt_extra := extra |}
  end.

(** [ExtrinsicBuilder::pallet], [::extrinsic] and [::build] *)
Definition pallet (b : ExtrinsicBuilder) : string :=
  match b with RemarkBuilder => "system" | TransferKeepAliveBuilder _ _ => "balances" end.
Definition extrinsic (b : ExtrinsicBuilder) : string :=
  match b with
  | RemarkBuilder => "remark"
  | TransferKeepAliveBuilder _ _ => "transfer_keep_alive"
  end.
Definition build (client : FullClient) (b : ExtrinsicBuilder) (nonce : Z)
    : outcome string UncheckedExtrinsic :=
  match b with
  | RemarkBuilder => create_benchmark_extrinsic client bob (Remark []) nonce
  | TransferKeepAliveBuilder dest value =>
      create_benchmark_extrinsic client bob (TransferKeepAlive dest value) nonce
  end.

(** Built extrinsics differ in their nonce, so a benchmark can fill a block with them. *)
Lemma build_nonce client b n m x y :
  build client b n = Ok x -> build client b m = Ok y -> n <> m -> xt_extra x <> xt_extra y.
Proof.
  destruct b; unfold build, create_benchmark_extrinsic; destruct (genesis_hash client);
    intros [= <-] [= <-] Hn [=]; done.
Qed.
End Builders.

(** The period is a power of two the chain still has the hash for: more than half, and less
    than all of the blocks it remembers. *)
Lemma era_period_bounds n :
  4 <= n <= 2 ^ 31 -> exists k, 1 <= k /\ era_period n = 2 ^ k /\ era_period n < n <= 2 * era_period n.
Proof.
  intros Hn. unfold era_period, checked_next_power_of_two.
  destruct (Z.log2_up_spec n) as [Hlo Hhi]; [lia|].
  assert (2 <= Z.log2_up n) as Hk.
  { rewrite <- (Z.log2_up_pow2 2) by lia. apply Z.log2_up_le_mono. lia. }
  assert (Z.log2_up n <= 31) as Hk'.
  { rewrite <- (Z.log2_up_pow2 31) by lia. apply Z.log2_up_le_mono. lia. }
  set (k := Z.log2_up n) in *. clearbody k.
  assert (2 ^ k = 2 * 2 ^ (k - 1)) as He.
  { replace k with (Z.succ (k - 1)) at 1 by lia. apply Z.pow_succ_r. lia. }
  assert (2 ^ k <= 2 ^ 31) as Hb by (apply Z.pow_le_mono_r; lia).
  replace (2 ^ k <=? u32_max) with true
    by (symmetry; apply Z.leb_le; unfold u32_max; lia).
  replace (2 ^ k / 2) with (2 ^ (k - 1)).
  - exists (k - 1). replace (Z.pred k) with (k - 1) in Hlo by lia. split_and!; lia.
  - rewrite He, Z.mul_comm. symmetry. apply Z.div_mul. lia.
Qed.

Example standalone_era_period : era_period StandaloneWeights.BlockHashCount = 2048.
Proof. reflexivity. Qed.
