(* ===== verification/Forwarder.v ===== *)
(** * The bridge forwarder and the XCM asset transactor
    ([bridge-forwarder/src/lib.rs], [bridge-forwarder/src/xcm_asset_transactor.rs])

    [XCMAssetTransactor] credits local accounts through the currency or the
    fungibles adapter, and forwards assets for other worlds and other parachains
    to the two bridges after crediting a temporary account. *)

From S2P Require Import Prelude Xcm Frame Traits Encode Eip712 Bridge BridgeDeposit.

Definition sygma_key : bytes :=
  hex "7379676d61000000000000000000000000000000000000000000000000000000".
Definition sygma_bridge_key : bytes :=
  hex "7379676d612d6272696467650000000000000000000000000000000000000000".

Section Forwarder.
Context {L : Type}.
Abbreviation W := (World L).
(** [Config]: [SygmaBridge] and [XCMBridge]. *)
Context (sygma_bridge xcm_bridge : Bridge L).

(** [Weight::from_all(u64::MAX)] *)
Definition cap_weight : Weight := from_parts u64_max u64_max.

Definition forward_xcm (origin : bytes) (what : MultiAsset) (dest : MultiLocation)
    : M DispatchError W unit :=
  transfer (Bridge := xcm_bridge) origin what dest (Some cap_weight);;
  deposit_event (EvForwarder (XCMTransferForward what (loc_of_account origin) dest)).

Definition forward_other_world (origin : bytes) (what : MultiAsset) (dest : MultiLocation)
    : M DispatchError W unit :=
  transfer (Bridge := sygma_bridge) origin what dest None;;
  deposit_event (EvForwarder (OtherWorldTransferForward what (loc_of_account origin) dest)).

Definition bridge_forwarder : TransactorForwarder L :=
  {| xcm_transactor_forwarder := forward_xcm;
     other_world_transactor_forwarder := forward_other_world |}.
End Forwarder.

(** Where the transactor sends an asset: the arms of its match, in order. *)
Inductive Route := LocalRecipient | OtherWorld | RemoteParachain.

Definition route (who : MultiLocation) : Route :=
  match parents who, interior who with
  | 0, X1 (AccountId32 _ _) => LocalRecipient
  | 0, X1 (AccountKey20 _ _) => LocalRecipient
  | 1, X1 (Parachain _) => LocalRecipient
  | _, X4 (GeneralKey l1 d1) (GeneralKey l2 d2) (GeneralIndex _) (GeneralKey _ _) =>
      if (l1 =? 5) && bool_decide (d1 = sygma_key) &&
         (l2 =? 12) && bool_decide (d2 = sygma_bridge_key)
      then OtherWorld else RemoteParachain
  | _, _ => RemoteParachain
  end.

Section Transactor.
Context {L : Type} `{Crypto} `{LocationCodec}.
Abbreviation W := (World L).
(** The type parameters of [XCMAssetTransactor]. *)
Context (currency fungibles : TransactAsset L) (asset_type : AssetTypeIdentifier L)
  (forwarder : TransactorForwarder L) (error_str : DispatchError -> bytes).

(** [blake2_256(MultiLocation::new(0, X1(GeneralKey { length: 8, data: [b; 32] })).encode())] *)
Definition tmp_account (b : Z) : bytes :=
  blake2_256 (loc_encode (ML 0 (X1 (GeneralKey 8 (replicate 32 b))))).

(** The adapter that matches the kind of the asset. *)
Definition local_deposit (what : MultiAsset) (who : MultiLocation) (context : bytes)
    : M XcmError W unit :=
  native ← gets (fun w => is_native_asset (AssetTypeIdentifier := asset_type) w what);
  if native : bool then deposit_asset (TransactAsset := currency) what who context
  else deposit_asset (TransactAsset := fungibles) what who context.

Definition xcm_deposit_asset (what : MultiAsset) (who : MultiLocation) (context : bytes)
    : M XcmError W unit :=
  match route who with
  | LocalRecipient => local_deposit what who context
  | OtherWorld =>
      local_deposit what (loc_of_account (tmp_account 1)) context;;
      map_err (fun e => FailedToTransactAsset (error_str e))
        (other_world_transactor_forwarder (TransactorForwarder := forwarder)
           (tmp_account 1) what who)
  | RemoteParachain =>
      local_deposit what (loc_of_account (tmp_account 2)) context;;
      map_err (fun e => FailedToTransactAsset (error_str e))
        (xcm_transactor_forwarder (TransactorForwarder := forwarder)
           (tmp_account 2) what who)
  end.

Definition xcm_withdraw_asset (what : MultiAsset) (who : MultiLocation)
    (maybe_context : option bytes) : M XcmError W (list MultiAsset) :=
  native ← gets (fun w => is_native_asset (AssetTypeIdentifier := asset_type) w what);
  if native : bool then withdraw_asset (TransactAsset := currency) what who maybe_context
  else withdraw_asset (TransactAsset := fungibles) what who maybe_context.

Definition xcm_asset_transactor : TransactAsset L :=
  {| withdraw_asset := xcm_withdraw_asset; deposit_asset := xcm_deposit_asset |}.

(** An account on the local chain never leaves it. *)
Lemma route_account id : route (loc_of_account id) = LocalRecipient.
Proof. reflexivity. Qed.

(** The location pattern of other worlds. *)
Definition other_world_location (p : Z) (domain : Z) (len : Z) (recipient : bytes)
    : MultiLocation :=
  ML p (X4 (GeneralKey 5 sygma_key) (GeneralKey 12 sygma_bridge_key)
           (GeneralIndex domain) (GeneralKey len recipient)).

Lemma route_other_world who :
  route who = OtherWorld <->
  exists p domain len recipient, who = other_world_location p domain len recipient.
Proof.
  split.
  - unfold route, other_world_location. destruct who as [p i].
    intros Hr. exists p. simpl in Hr.
    destruct p as [|p|p]; [|destruct p|];
      repeat (case_match; try done); simplify_eq;
      rewrite !andb_true_iff, !bool_decide_eq_true, !Z.eqb_eq in *; destruct_and!;
      subst; by do 3 eexists.
  - intros (p & dom & len & r & ->). unfold route, other_world_location. simpl.
    destruct p as [|p|p]; [|destruct p|]; reflexivity.
Qed.

(** The forwarders of a transactor that only extends the state. *)
Class ForwarderExt : Prop := {
  forward_xcm_ext o what dest :
    preserves ext (xcm_transactor_forwarder (TransactorForwarder := forwarder) o what dest);
  forward_other_world_ext o what dest :
    preserves ext
      (other_world_transactor_forwarder (TransactorForwarder := forwarder) o what dest)
}.

(** The transactor keeps the discipline of its adapters and forwarder. *)
Lemma xcm_asset_transactor_ext :
  TransactorExt (H := currency) L -> TransactorExt (H := fungibles) L -> ForwarderExt ->
  TransactorExt (H := xcm_asset_transactor) L.
Proof.
  intros [Hcw Hcd] [Hfw Hfd] [Hx Ho].
  assert (Hl : forall what who ctx, preserves ext (local_deposit what who ctx)).
  { intros. unfold local_deposit. preserve. }
  split; intros what who ctx; simpl.
  - unfold xcm_withdraw_asset. preserve.
  - unfold xcm_deposit_asset. destruct (route who); preserve.
Qed.
End Transactor.

Section ForwarderFacts.
Context {L : Type}.
Context (sygma_bridge xcm_bridge : Bridge L).

(** A bridge whose transfers only extend the state. *)
Definition bridge_ext (b : Bridge L) : Prop :=
  forall o what dest mw, preserves ext (transfer (Bridge := b) o what dest mw).

Lemma bridge_forwarder_ext :
  bridge_ext sygma_bridge -> bridge_ext xcm_bridge ->
  ForwarderExt (bridge_forwarder sygma_bridge xcm_bridge).
Proof.
  intros Hs Hx. split; intros o what dest; simpl.
  - unfold forward_xcm. preserve. by apply ext_neutral_event.
  - unfold forward_other_world. preserve. by apply ext_neutral_event.
Qed.
End ForwarderFacts.
