(* ===== verification/XcmBridge.v ===== *)
(** * The XCM bridge pallet ([xcm-bridge/src/lib.rs])

    Sends an asset to another parachain or to the relay chain: the reserve chain
    of the asset decides which of three XCM programs is built, and the XCM
    executor runs it.  The weigher, the executor and [MultiAsset::reanchored]
    belong to the XCM crates and are parameters. *)

From S2P Require Import Prelude Xcm Frame Traits Encode Eip712 Bridge BridgeDeposit Forwarder.

(** ** Messages *)

Inductive WeightLimit := Unlimited | Limited (w : Weight).
Inductive MultiAssetFilter := All | AllCounted (n : Z).

(** The instructions the pallet builds; a weigher or executor may know others. *)
Inductive Instruction :=
| WithdrawAsset (assets : list MultiAsset)
| TransferReserveAsset (assets : list MultiAsset) (dest : MultiLocation)
    (xcm : list Instruction)
| InitiateReserveWithdraw (assets : MultiAssetFilter) (reserve : MultiLocation)
    (xcm : list Instruction)
| DepositReserveAsset (assets : MultiAssetFilter) (dest : MultiLocation)
    (xcm : list Instruction)
| BuyExecution (fees : MultiAsset) (weight_limit : WeightLimit)
| DepositAsset (assets : MultiAssetFilter) (beneficiary : MultiLocation)
| OtherInstruction (code : Z).
Abbreviation Xcm := (list Instruction).

(** [xcm::latest::Outcome] *)
Inductive Outcome := Complete (used : Weight) | Incomplete (used : Weight) (e : XcmError)
| OutcomeError (e : XcmError).

Definition ensure_complete (o : Outcome) : option Weight :=
  match o with Complete used => Some used | _ => None end.

Inductive TransferKind := SelfReserveAsset | ToReserve | ToNonReserve.

Record XcmObject := {
  xo_asset : MultiAsset;
  xo_fee : MultiAsset;
  xo_origin : MultiLocation;
  xo_dest : MultiLocation;
  xo_recipient : MultiLocation;
  xo_weight : Weight
}.

(** [Config] of the pallet.  [weigh] takes the message by mutable reference and
    returns it as it leaves it; [xcm_encode] is its SCALE encoding. *)
Class XcmBridgeConfig (L : Type) := {
  xb_crypto :: Crypto;
  xb_locations :: XcmLocations;
  xb_reanchor :: XcmReanchor;
  weigh : Xcm -> option Weight * Xcm;
  xcm_encode : Xcm -> bytes;
  execute_xcm_in_credit :
    MultiLocation -> Xcm -> bytes -> Weight -> Weight -> M Empty_set (World L) Outcome;
  asset_reserved_checker :: AssetTypeIdentifier L;
  self_location : World L -> MultiLocation;
  min_xcm_fee : list (AssetId * Z)
}.

Section XcmBridge.
Context {L : Type} `{XcmBridgeConfig L}.
Abbreviation W := (World L).
Implicit Types (w : W).

(** ** [AssetReserveLocationParser for Pallet<T>] *)

Definition xcm_reserved_location (asset : MultiAsset) : option MultiLocation :=
  let location :=
    match asset_id asset, asset_fun asset with
    | Concrete id, Fungible _ => Some id
    | _, _ => None
    end in
  id ← location;
  match parents id, first_interior id with
  | 1, Some (Parachain i) => Some (ML 1 (X1 (Parachain i)))
  | 1, _ => Some loc_parent
  | 0, Some (Parachain i) => Some (ML 0 (X1 (Parachain i)))
  | 0, None => Some id
  | _, _ => None
  end.

Definition asset_reserve_location_parser : AssetReserveLocationParser :=
  {| reserved_location := xcm_reserved_location |}.

(** ** Building blocks *)

Definition xcm_extract_dest (dest : MultiLocation) : option (MultiLocation * MultiLocation) :=
  match parents dest, first_interior dest with
  | 1, Some (Parachain i) =>
      Some (ML 1 (X1 (Parachain i)), ML 0 (split_first (interior dest)).1)
  | 1, _ => Some (loc_parent, ML 0 (interior dest))
  | _, _ => None
  end.

Definition fungible_amount (asset : MultiAsset) : Z :=
  match asset_fun asset with Fungible amount => amount | NonFungible _ => 0 end.

Definition half (asset : MultiAsset) : MultiAsset :=
  MA (asset_id asset) (Fungible (fungible_amount asset / 2)).

Definition buy_execution w (asset : MultiAsset) (at_ : MultiLocation) (weight_limit : WeightLimit)
    : outcome DispatchError Instruction :=
  match reanchored asset at_ (interior (self_location w)) with
  | Some fees => Ok (BuyExecution fees weight_limit)
  | None => Err (ModXcmBridge CannotReanchor)
  end.

Definition deposit_instruction (recipient : MultiLocation) (max_assets : Z) : Instruction :=
  DepositAsset (AllCounted max_assets) recipient.

(** [assets.len() as u32] *)
Definition len_u32 {A} (l : list A) : Z := wrap 32 (Z.of_nat (length l)).

(** [?] on a pure result. *)
Definition and_then {E A B} (r : outcome E A) (k : A -> outcome E B) : outcome E B :=
  match r with Ok a => k a | Err e => Err e | Panic => Panic end.

Definition transfer_self_reserve_asset w (assets : list MultiAsset) (fee : MultiAsset)
    (dest recipient : MultiLocation) (dest_weight_limit : WeightLimit)
    : outcome DispatchError Xcm :=
  and_then (buy_execution w fee dest dest_weight_limit) (fun buy =>
  Ok [TransferReserveAsset assets dest
        [buy; deposit_instruction recipient (len_u32 assets)]]).

Definition transfer_to_reserve_asset w (assets : list MultiAsset) (fee : MultiAsset)
    (reserve recipient : MultiLocation) (dest_weight_limit : WeightLimit)
    : outcome DispatchError Xcm :=
  and_then (buy_execution w fee reserve dest_weight_limit) (fun buy =>
  Ok [WithdrawAsset assets;
      InitiateReserveWithdraw All reserve
        [buy; deposit_instruction recipient (len_u32 assets)]]).

Definition transfer_to_non_reserve_asset w (assets : list MultiAsset) (fee : MultiAsset)
    (reserve dest recipient : MultiLocation) (dest_weight_limit : WeightLimit)
    : outcome DispatchError Xcm :=
  let reanchored_dest :=
    if decide (reserve = loc_parent) then
      match dest with
      | ML 1 (X1 (Parachain i)) => loc_of_junction (Parachain i)
      | _ => dest
      end
    else dest in
  let max_assets := len_u32 assets in
  and_then (buy_execution w (half fee) reserve dest_weight_limit) (fun buy_reserve =>
  and_then (buy_execution w (half fee) dest dest_weight_limit) (fun buy_dest =>
  Ok [WithdrawAsset assets;
      InitiateReserveWithdraw All reserve
        [buy_reserve;
         DepositReserveAsset (AllCounted max_assets) reanchored_dest
           [buy_dest; deposit_instruction recipient max_assets]]])).

(** ** [XcmHandler for XcmObject<T>] *)

Definition transfer_kind w (x : XcmObject) (asset_reserved_location : MultiLocation)
    : option TransferKind :=
  if is_native_asset w (xo_asset x) then Some SelfReserveAsset
  else if decide (asset_reserved_location = xo_dest x) then Some ToReserve
  else Some ToNonReserve.

Definition create_instructions w (x : XcmObject) : outcome DispatchError Xcm :=
  match xcm_reserved_location (xo_asset x) with
  | None => Err (ModXcmBridge AssetReservedLocationNotFound)
  | Some asset_reserved_location =>
      match transfer_kind w x asset_reserved_location with
      | None => Err (ModXcmBridge UnknownTransferType)
      | Some SelfReserveAsset =>
          transfer_self_reserve_asset w [xo_asset x] (xo_fee x) (xo_dest x) (xo_recipient x)
            (Limited (xo_weight x))
      | Some ToReserve =>
          transfer_to_reserve_asset w [xo_asset x] (xo_fee x) (xo_dest x) (xo_recipient x)
            (Limited (xo_weight x))
      | Some ToNonReserve =>
          transfer_to_non_reserve_asset w [xo_asset x] (xo_fee x) asset_reserved_location
            (xo_dest x) (xo_recipient x) (Limited (xo_weight x))
      end
  end.

Definition execute_instructions (x : XcmObject) (xcm_instructions : Xcm)
    : M DispatchError W unit :=
  let '(weight, xcm_instructions) := weigh xcm_instructions in
  message_weight ← ok_or weight (ModXcmBridge FailToWeightMessage);
  let hash := blake2_256 (xcm_encode xcm_instructions) in
  result ← map_err (Empty_set_rect (fun _ => DispatchError))
    (execute_xcm_in_credit (xo_origin x) xcm_instructions hash (xo_weight x) message_weight);
  ok_or (ensure_complete result) (ModXcmBridge XcmExecutionFailed);;
  mret tt.

(** ** [Bridge for BridgeImpl<T>] *)

(** [MinXcmFee::get().iter().position(..).map(|idx| MinXcmFee::get()[idx].1)] *)
Definition min_fee_of (id : AssetId) : option Z :=
  idx ← position (fun a => bool_decide (a.1 = id)) min_xcm_fee;
  a ← min_xcm_fee !! idx;
  Some a.2.

Definition default_weight : Weight := from_parts 6000000000 2000000.

Definition xcm_transfer (sender : bytes) (asset : MultiAsset) (dest : MultiLocation)
    (max_weight : option Weight) : M DispatchError W unit :=
  let origin_location := loc_of_account sender in
  '(dest_location, recipient) ← ok_or (xcm_extract_dest dest) (ModXcmBridge InvalidDestination);
  ensure (bool_decide (is_Some (min_fee_of (asset_id asset)))) (ModXcmBridge NoXcmMinFeeSet);;
  fee_per_asset ← match min_fee_of (asset_id asset) with
                  | Some f => mret f
                  | None => panic
                  end;
  let xcm := {| xo_asset := asset;
                xo_fee := asset_of (asset_id asset) fee_per_asset;
                xo_origin := origin_location;
                xo_dest := dest_location;
                xo_recipient := recipient;
                xo_weight := default default_weight max_weight |} in
  built ← gets (fun w => create_instructions w xcm);
  msg ← lift built;
  execute_instructions xcm msg;;
  deposit_event (EvXcmBridge (XCMTransferSend asset origin_location dest)).

Definition xcm_bridge : Traits.Bridge L := {| transfer := xcm_transfer |}.
End XcmBridge.
