(* ===== verification/XcmBridgeFacts.v ===== *)
(** * What the XCM bridge sends

    The stops of a message (where execution is bought, who receives the assets),
    the shape of the three programs, and the effect of a transfer. *)

From S2P Require Import Prelude Xcm Frame Traits Encode Eip712 Bridge BridgeDeposit Forwarder.
From S2P Require Import XcmBridge.

(** ** Reading a message *)

(** The fees offered for execution, in the order of the journey. *)
Fixpoint bought (i : Instruction) : list (MultiAsset * WeightLimit) :=
  match i with
  | BuyExecution fees limit => [(fees, limit)]
  | TransferReserveAsset _ _ xcm => flat_map bought xcm
  | InitiateReserveWithdraw _ _ xcm => flat_map bought xcm
  | DepositReserveAsset _ _ xcm => flat_map bought xcm
  | _ => []
  end.

(** The chains the message is sent on to, in order. *)
Fixpoint stops (i : Instruction) : list MultiLocation :=
  match i with
  | TransferReserveAsset _ dest xcm => dest :: flat_map stops xcm
  | InitiateReserveWithdraw _ reserve xcm => reserve :: flat_map stops xcm
  | DepositReserveAsset _ dest xcm => dest :: flat_map stops xcm
  | _ => []
  end.

(** The accounts credited at the end. *)
Fixpoint beneficiaries (i : Instruction) : list MultiLocation :=
  match i with
  | DepositAsset _ who => [who]
  | TransferReserveAsset _ _ xcm => flat_map beneficiaries xcm
  | InitiateReserveWithdraw _ _ xcm => flat_map beneficiaries xcm
  | DepositReserveAsset _ _ xcm => flat_map beneficiaries xcm
  | _ => []
  end.

(** The assets taken from the sender. *)
Definition taken_here (i : Instruction) : list MultiAsset :=
  match i with
  | WithdrawAsset assets | TransferReserveAsset assets _ _ => assets
  | _ => []
  end.

Section Facts.
Context {L : Type} `{XcmBridgeConfig L}.
Abbreviation W := (World L).
Implicit Types (w : W) (x : XcmObject).

Lemma first_interior_here l : first_interior l = None <-> interior l = Here.
Proof. rewrite first_interior_spec. by destruct (interior l). Qed.

(** ** Destinations *)

(** A destination is split in the chain one hop up and the rest of its path. *)
Lemma xcm_extract_dest_spec dest chain recipient :
  xcm_extract_dest dest = Some (chain, recipient) <->
  parents dest = 1 /\ parents chain = 1 /\ parents recipient = 0 /\
  junctions_list (interior dest) =
    junctions_list (interior chain) ++ junctions_list (interior recipient) /\
  match interior chain with
  | X1 (Parachain _) => True
  | Here => forall i, head (junctions_list (interior recipient)) <> Some (Parachain i)
  | _ => False
  end.
Proof.
  unfold xcm_extract_dest. rewrite first_interior_spec.
  destruct dest as [p js]; cbn [parents interior]. split.
  - destruct p as [|p|p]; try done; destruct p; try done. intros Hx.
    assert (Hr : (split_first js).1 = list_junctions (tail (junctions_list js)))
      by apply split_first_rest.
    destruct js as [|a|a b|a b c|a b c d|a b c d e|a b c d e f|a b c d e f g|a b c d e f g h];
      simpl in *; try (simplify_eq; done);
      destruct a; simplify_eq/=; rewrite ?Hr; done.
  - intros (-> & Hc & Hp & Hj & Hm). destruct chain as [pc jc], recipient as [pr jr].
    simpl in *. subst.
    destruct jc as [|c| | | | | | | ]; try done.
    + simpl in Hj. rewrite Hj. rewrite <- (list_junctions_list js), Hj, list_junctions_list.
      destruct (head (junctions_list jr)) as [[]|] eqn:Hh; try done.
      by destruct (Hm id).
    + destruct c; try done. rewrite Hj. simpl. do 3 f_equal.
      rewrite split_first_rest, Hj. simpl. by rewrite list_junctions_list.
Qed.

(** ** Reserves *)

(** The reserve of an asset is the chain its identifier starts with. *)
Lemma xcm_reserved_location_prefix asset l :
  xcm_reserved_location asset = Some l ->
  exists id amount, asset = MA (Concrete id) (Fungible amount) /\
    parents l = parents id /\ junctions_list (interior l) `prefix_of` junctions_list (interior id) /\
    (interior l = Here \/ exists i, interior l = X1 (Parachain i)).
Proof.
  unfold xcm_reserved_location. destruct asset as [[id|] [amount|]]; simpl; try done.
  rewrite first_interior_spec. destruct id as [p js]; cbn [parents interior].
  intros Hx. exists (ML p js), amount. split; [done|]. simpl.
  assert (Hn : forall ks : list Junction, [] `prefix_of` ks) by apply prefix_nil.
  destruct p as [|p|p]; [|destruct p; try done|done];
    destruct (junctions_list js) as [|j ks] eqn:Hj; simpl in Hx;
    try (destruct j); simplify_eq/=; try (split_and!; by eauto);
    try (split_and!; eauto; by exists ks).
  destruct js; try done. split_and!; eauto.
Qed.

(** ** The three programs *)

Lemma and_then_ok {A B} (r : outcome DispatchError A) (k : A -> outcome DispatchError B) b :
  and_then r k = Ok b <-> exists a, r = Ok a /\ k a = Ok b.
Proof. destruct r; simpl; naive_solver. Qed.

Lemma buy_execution_ok w asset l limit i :
  buy_execution w asset l limit = Ok i <->
  exists fees, reanchored asset l (interior (self_location w)) = Some fees /\
               i = BuyExecution fees limit.
Proof. unfold buy_execution. destruct (reanchored _ _ _); naive_solver. Qed.

(** The chains a transfer passes: the destination alone when this chain or the
    destination is the reserve, otherwise the reserve first. *)
Definition itinerary w x : option (list MultiLocation) :=
  reserve ← xcm_reserved_location (xo_asset x);
  if is_native_asset w (xo_asset x) then Some [xo_dest x]
  else if decide (reserve = xo_dest x) then Some [xo_dest x]
  else Some [reserve; xo_dest x].

(** The fee is offered once, or one half of it at each of two stops. *)
Definition fee_offers x (chains : list MultiLocation) : list MultiAsset :=
  match chains with
  | [_] => [xo_fee x]
  | _ => [half (xo_fee x); half (xo_fee x)]
  end.

(** The location a stop is given as: from the relay chain a parachain is a child. *)
Definition seen_from (previous : option MultiLocation) (l : MultiLocation) : MultiLocation :=
  if decide (previous = Some loc_parent) then
    match l with
    | ML 1 (X1 (Parachain i)) => ML 0 (X1 (Parachain i))
    | _ => l
    end
  else l.

Definition stops_of (chains : list MultiLocation) : list MultiLocation :=
  match chains with
  | [l1; l2] => [l1; seen_from (Some l1) l2]
  | _ => chains
  end.

Lemma create_instructions_stops w x msg :
  create_instructions w x = Ok msg ->
  exists chains fees,
    itinerary w x = Some chains /\
    flat_map stops msg = stops_of chains /\
    flat_map beneficiaries msg = [xo_recipient x] /\
    flat_map taken_here msg = [xo_asset x] /\
    Forall2 (fun p f => reanchored p.1 p.2 (interior (self_location w)) = Some f)
      (zip (fee_offers x chains) chains) fees /\
    flat_map bought msg = (fun f => (f, Limited (xo_weight x))) <$> fees.
Proof.
  unfold create_instructions, transfer_kind, itinerary.
  destruct (xcm_reserved_location (xo_asset x)) as [reserve|]; [|done]. simpl.
  unfold transfer_self_reserve_asset, transfer_to_reserve_asset,
    transfer_to_non_reserve_asset.
  destruct (is_native_asset w (xo_asset x)); [|destruct (decide (reserve = xo_dest x))];
    rewrite and_then_ok; intros (i & Hb & Hm); apply buy_execution_ok in Hb as (f & Hf & ->).
  - simplify_eq. exists [xo_dest x], [f]. simpl. split_and!; try done. by repeat constructor.
  - simplify_eq. exists [xo_dest x], [f]. simpl. split_and!; try done. by repeat constructor.
  - apply and_then_ok in Hm as (i2 & Hb2 & Hm).
    apply buy_execution_ok in Hb2 as (f2 & Hf2 & ->). simplify_eq.
    exists [reserve; xo_dest x], [f; f2]. simpl. split_and!; try done.
    + do 2 f_equal. unfold seen_from, loc_of_junction.
      repeat case_decide; try congruence; done.
    + by repeat constructor.
Qed.

Lemma create_instructions_total w x chains :
  itinerary w x = Some chains ->
  Forall (fun p => is_Some (reanchored p.1 p.2 (interior (self_location w))))
    (zip (fee_offers x chains) chains) ->
  exists msg, create_instructions w x = Ok msg.
Proof.
  unfold create_instructions, transfer_kind, itinerary.
  destruct (xcm_reserved_location (xo_asset x)) as [reserve|]; [|done]. simpl.
  unfold transfer_self_reserve_asset, transfer_to_reserve_asset,
    transfer_to_non_reserve_asset, buy_execution.
  destruct (is_native_asset w (xo_asset x)); [|destruct (decide (reserve = xo_dest x))];
    intros [= <-]; simpl; rewrite ?Forall_cons; cbn [fst snd].
  - intros [[f ->] _]. simpl. by eexists.
  - intros [[f ->] _]. simpl. by eexists.
  - intros [[f ->] [[f2 ->] _]]. simpl. by eexists.
Qed.

(** Halving rounds down and never offers more than the whole. *)
Lemma half_bounds asset :
  0 <= fungible_amount asset ->
  2 * fungible_amount (half asset) <= fungible_amount asset <
  2 * fungible_amount (half asset) + 2.
Proof.
  intros Ha. change (fungible_amount (half asset)) with (fungible_amount asset / 2).
  pose proof (Z.div_mod (fungible_amount asset) 2).
  pose proof (Z.mod_pos_bound (fungible_amount asset) 2). lia.
Qed.

(** ** Transfers *)

Definition transfer_object sender asset fee chain recipient max_weight : XcmObject :=
  {| xo_asset := asset; xo_fee := asset_of (asset_id asset) fee;
     xo_origin := loc_of_account sender; xo_dest := chain; xo_recipient := recipient;
     xo_weight := default default_weight max_weight |}.

(** A successful transfer: the program built for the destination was weighed and
    run to completion, and reported. *)
Inductive xcm_effect w (sender : bytes) (asset : MultiAsset) (dest : MultiLocation)
    (max_weight : option Weight) : W -> Prop :=
| xcm_effect_intro chain recipient fee msg msg' weight used w1 :
    xcm_extract_dest dest = Some (chain, recipient) ->
    min_fee_of (asset_id asset) = Some fee ->
    create_instructions w (transfer_object sender asset fee chain recipient max_weight)
      = Ok msg ->
    weigh msg = (Some weight, msg') ->
    execute_xcm_in_credit (loc_of_account sender) msg' (blake2_256 (xcm_encode msg'))
      (default default_weight max_weight) weight w = (Ok (Complete used), w1) ->
    xcm_effect w sender asset dest max_weight
      (add_event (EvXcmBridge (XCMTransferSend asset (loc_of_account sender) dest)) w1).

Lemma execute_instructions_ok x msg w w' :
  execute_instructions x msg w = (Ok tt, w') <->
  exists weight msg' used, weigh msg = (Some weight, msg') /\
    execute_xcm_in_credit (xo_origin x) msg' (blake2_256 (xcm_encode msg')) (xo_weight x)
      weight w = (Ok (Complete used), w').
Proof.
  unfold execute_instructions. destruct (weigh msg) as [weight msg']. split.
  - intros Hr. inv_run Hr. destruct (ensure_complete _) as [used|] eqn:Hu; [|done].
    match goal with Hu : ensure_complete ?o = _ |- _ => destruct o; simplify_eq/= end.
    by do 3 eexists.
  - intros (weight' & msg'' & used & [= -> <-] & He). run. by rewrite He.
Qed.

Lemma xcm_transfer_effect w sender asset dest mw w' :
  xcm_transfer sender asset dest mw w = (Ok tt, w') <->
  xcm_effect w sender asset dest mw w'.
Proof.
  unfold xcm_transfer. split.
  - intros Hr. inv_frame Hr. destruct (min_fee_of _) as [fee|] eqn:Hf; [|done].
    match goal with Hm : mret _ _ = _ |- _ => inv_frame Hm end.
    match goal with He : execute_instructions _ _ _ = _ |- _ =>
      apply execute_instructions_ok in He as (weight & msg' & used & Hw & He) end.
    by eapply xcm_effect_intro.
  - intros [chain recipient fee msg msg' weight used w1 Hd Hf Hc Hw He].
    run. rewrite Hd, Hf. rewrite bool_decide_eq_true_2 by by eexists.
    unfold transfer_object in Hc. rewrite Hc.
    rewrite (proj2 (execute_instructions_ok _ msg w w1)); [done|].
    by exists weight, msg', used.
Qed.

(** Every refusal that precedes execution leaves the state as it was. *)
Lemma xcm_transfer_refused w sender asset dest mw :
  xcm_extract_dest dest = None \/ min_fee_of (asset_id asset) = None \/
  xcm_reserved_location asset = None ->
  exists e, xcm_transfer sender asset dest mw w = (Err (ModXcmBridge e), w).
Proof.
  unfold xcm_transfer. run.
  destruct (xcm_extract_dest dest) as [[chain recipient]|]; [|by eexists].
  destruct (min_fee_of _) as [fee|].
  - rewrite bool_decide_eq_true_2 by by eexists. intros [?|[?|Hr]]; try done.
    unfold create_instructions. simpl. rewrite Hr. by eexists.
  - rewrite bool_decide_eq_false_2 by by intros []. by eexists.
Qed.

(** An executor that only extends the state. *)
Class ExecutorExt : Prop := {
  execute_ext origin msg hash limit credit :
    preserves ext (execute_xcm_in_credit origin msg hash limit credit)
}.

Lemma xcm_bridge_ext `{!ExecutorExt} : bridge_ext (xcm_bridge (L := L)).
Proof.
  intros o what dest mw. simpl. unfold xcm_transfer, execute_instructions.
  preserve; try by apply ext_neutral_event.
  - destruct (min_fee_of _); [apply preserves_ret|]; [typeclasses eauto|].
    by intros w r w' [= <- <-].
  - apply execute_ext.
Qed.
End Facts.
