(* ===== verification/RuntimeCommon.v ===== *)
(** * Code the runtimes share by copy

    [substrate-node/parachain/runtime/src/lib.rs],
    [substrate-node/standalone/runtime/src/lib.rs] and [bridge/src/mock.rs] carry
    the same text for the helpers below; each runtime's file instantiates them
    with its own tables. *)

From S2P Require Import Prelude Xcm Frame Traits AccessSegregator.

(** [EnsureRoot]: the bridge committee of every runtime. *)
Definition ensure_root (o : RawOrigin) : bool :=
  match o with Root => true | _ => false end.

(** [PalletId::into_account_truncating] and [::into_sub_account_truncating] of
    [sp_runtime], at the account type; [into_bytes_truncating] is the former at the type
    [Vec<u8>], which the bridge pallet appends to the data it hashes. *)
Class PalletIdAccounts := {
  into_account_truncating : bytes -> AccountId;
  into_bytes_truncating : bytes -> bytes;
  into_sub_account_truncating : bytes -> Z -> AccountId
}.

(** The junction [slice_to_generalkey] builds. *)
Definition general_key (key : bytes) : Junction :=
  GeneralKey (wrap 8 (Z.of_nat (length key))) (key ++ replicate (32 - length key) 0).

Definition slice_to_generalkey (key : bytes) : outcome DispatchError Junction :=
  if Nat.leb (length key) 32 then Ok (general_key key) else Panic.

(** [data[..len]] of a 32-byte array: a length beyond the array panics. *)
Definition key_slice (len : Z) (data : bytes) : outcome DispatchError bytes :=
  if len <=? Z.of_nat (length data) then Ok (take (Z.to_nat len) data) else Panic.

Section Assets.
Context `{XcmLocations}.

(** [ConcrateSygmaAsset::id] and [::origin] *)
Definition concrate_sygma_asset_id (asset : MultiAsset) : option MultiLocation :=
  match asset_id asset, asset_fun asset with
  | Concrete id, Fungible _ => Some id
  | _, _ => None
  end.

Definition concrate_sygma_asset_origin (asset : MultiAsset) : option MultiLocation :=
  id ← concrate_sygma_asset_id asset;
  match parents id, first_interior id with
  | 1, Some (Parachain i) =>
      if i =? 2004 then Some (ML 0 (X1 (general_key (b_ "sygma")))) else Some loc_here
  | 1, _ => Some loc_here
  | 0, Some (Parachain i) => Some (ML 0 (X1 (Parachain i)))
  | 0, None => Some id
  | _, _ => None
  end.

(** [ReserveChecker::contains] *)
Definition reserve_contains (asset : MultiAsset) (origin : MultiLocation) : bool :=
  match concrate_sygma_asset_origin asset with
  | Some id => bool_decide (id = origin)
  | None => false
  end.
End Assets.

(** [MatchesFungibles::matches_fungibles] over a table of foreign assets: the
    chain of [if id == &Location::get()]. *)
Fixpoint matches_fungibles (table : list (MultiLocation * Z)) (a : MultiAsset)
    : option (Z * Z) :=
  match asset_fun a, asset_id a with
  | Fungible amount, Concrete id =>
      match table with
      | [] => None
      | (location, foreign_id) :: table =>
          if decide (id = location) then Some (foreign_id, amount)
          else matches_fungibles table a
      end
  | _, _ => None
  end.

(** [BTreeMap::insert] in sequence. *)
Definition account_map (entries : list (MultiLocation * AccountId)) : gmap AssetId AccountId :=
  fold_left (fun m e => <[Concrete e.1 := e.2]> m) entries ∅.

(** The rights every runtime registers, from its pallet indices. *)
Definition guarded_bridge_calls : list string :=
  ["set_mpc_address"; "pause_bridge"; "unpause_bridge"; "register_domain";
   "unregister_domain"; "retry"; "pause_all_bridges"; "unpause_all_bridges"].

(** ** Facts *)

Section Facts.
Context `{XcmLocations}.

Lemma general_key_wf key :
  (length key <= 32)%nat -> Forall is_byte key -> junction_wf (general_key key).
Proof.
  intros Hl Hb. split; [unfold is_u, wrap, u8_max; pose proof (Z.mod_pos_bound
    (Z.of_nat (length key)) (2 ^ 8)); lia|].
  split; [rewrite length_app, length_replicate; lia|].
  apply Forall_app. split; [done|]. apply Forall_replicate. unfold is_byte. lia.
Qed.

(** Reading back a key written by [slice_to_generalkey]. *)
Lemma key_slice_general_key key :
  (length key <= 32)%nat ->
  exists len data, slice_to_generalkey key = Ok (GeneralKey len data) /\
    length data = 32%nat /\ key_slice len data = Ok key.
Proof.
  intros Hl. unfold slice_to_generalkey, general_key, key_slice.
  rewrite (proj2 (Nat.leb_le _ _) Hl). do 2 eexists. split; [done|].
  assert (wrap 8 (Z.of_nat (length key)) = Z.of_nat (length key)) as ->
    by (unfold wrap; apply Z.mod_small; lia).
  split; [rewrite length_app, length_replicate; lia|].
  rewrite (proj2 (Z.leb_le _ _)) by (rewrite length_app; lia).
  rewrite Nat2Z.id. by rewrite take_app_length.
Qed.

Lemma slice_to_generalkey_panics key :
  (32 < length key)%nat -> slice_to_generalkey key = Panic.
Proof. intros Hl. unfold slice_to_generalkey. by rewrite (proj2 (Nat.leb_gt _ _) Hl). Qed.

Lemma key_slice_panics len data :
  Z.of_nat (length data) < len -> key_slice len data = Panic.
Proof. intros Hl. unfold key_slice. by rewrite (proj2 (Z.leb_gt _ _) Hl). Qed.

(** The assets this chain is the reserve of: its own, the relay chain's, and
    those of every sibling but parachain 2004. *)
Lemma reserve_contains_here asset :
  reserve_contains asset loc_here = true <->
  exists id amount, asset = MA (Concrete id) (Fungible amount) /\
    ((parents id = 0 /\ interior id = Here) \/
     (parents id = 1 /\ head (junctions_list (interior id)) <> Some (Parachain 2004))).
Proof.
  unfold reserve_contains, concrate_sygma_asset_origin, concrate_sygma_asset_id. split.
  - destruct asset as [[[p js]|] [amount|]]; simpl; try done. rewrite first_interior_spec.
    intros Hb. eexists _, _. split; [done|]. simpl in *.
    destruct p as [|[p|p|]|p]; try done.
    + left. destruct js as [|[]|[]|[]|[]|[]|[]|[]|[]]; done.
    + right. split; [done|]. intros Hh. rewrite Hh in Hb. done.
  - intros ([p js] & amount & -> & [[Hp Hi]|[Hp Hh]]); simpl in *; subst;
      rewrite first_interior_spec; simpl; [done|].
    destruct (head (junctions_list js)) as [[]|]; try done.
    destruct (Z.eqb_spec id 2004); [congruence|done].
Qed.

Lemma matches_fungibles_spec table a i amount :
  NoDup table.*1 ->
  matches_fungibles table a = Some (i, amount) <->
  exists l, a = MA (Concrete l) (Fungible amount) /\ (l, i) ∈ table.
Proof.
  destruct a as [[id|d] [x|x]]; try (destruct table; simpl; naive_solver).
  induction table as [|[l j] table IH]; simpl; intros Hn.
  - split; [done|]. intros (l & _ & Hl). by apply not_elem_of_nil in Hl.
  - apply NoDup_cons in Hn as [Hnot Hn]. case_decide as Hd; simplify_eq.
    + split.
      * intros [= -> ->]. exists l. split; [done|]. apply list_elem_of_here.
      * intros (l' & [= <- <-] & Hl). apply elem_of_cons in Hl as [[= ->]|Hl]; [done|].
        destruct Hnot. apply list_elem_of_fmap. by exists (l, i).
    + rewrite IH by done. split; intros (l' & [= <- <-] & Hl); eexists; (split; [done|]).
      * by apply list_elem_of_further.
      * apply elem_of_cons in Hl as [[= -> ->]|Hl]; done.
Qed.
End Facts.
