(* ===== verification/NodeCommand.v ===== *)
(** * The command line of the nodes ([command.rs], [cli.rs] of both nodes, and
    [benchmarking.rs] of the standalone node)

    What [run] does for each subcommand: the runner it creates, the components it builds
    and what it hands to the command.  The commands themselves, the runner and the parser
    of arguments belong to the Substrate crates. *)

From S2P Require Import Prelude Xcm Frame Traits ParachainInfo RuntimeCommon RuntimeWeights.
From S2P Require Import NodeSpec NodeService.

(** The Cargo features of a build. *)
Record Features := { runtime_benchmarks : bool; try_runtime : bool }.

Inductive BenchmarkCmd :=
  BenchPallet | BenchBlock | BenchStorage | BenchOverhead | BenchExtrinsic | BenchMachine.

Inductive CliError :=
| FromService (e : ServiceError)
| CliConverted (a : Action) (e : string)
| Input (msg : string)
| Message (msg : string).

Abbreviation Cli := (M CliError Trace).

Section Calls.
Context `{Substrate}.

Definition call_with (f : string -> CliError) (a : Action) : Cli unit := fun t =>
  match call_error t a with
  | None => (Ok tt, t ++ [a])
  | Some e => (Err (f e), t ++ [a])
  end.
Definition call (a : Action) : Cli unit := call_with (CliConverted a) a.
Definition note (a : Action) : Cli unit := modify (fun t => t ++ [a]).
Definition service {A} (m : Node A) : Cli A := map_err FromService m.

(** [cli.create_runner(cmd)?] and then a run of the closure. *)
Definition runner (cmd : string) (mode : RunMode) (closure : Cli unit) : Cli unit :=
  call (CreateRunner cmd);; call (RunnerStarts mode);; closure.
Definition command (cmd : string) (with_ : list Resource) : Cli unit :=
  call (RunCommand cmd with_).
End Calls.

(** ** The standalone node *)

Module StandaloneCommand.

Inductive Subcommand :=
| Key | BuildSpec | CheckBlock | ExportBlocks | ExportState | ImportBlocks | PurgeChain | Revert
| Benchmark (cmd : BenchmarkCmd) | TryRuntime | ChainInfo.

Section Run.
(** [alice] is [Sr25519Keyring::Alice.to_account_id()]. *)
Context `{Substrate} (alice : AccountId).

Definition inherent_benchmark_data : Cli unit :=
  call_with (fun e => Message ("creating inherent data: " +:+ e)) (ProvideInherentData 0).

Definition partial (config : Configuration) : Cli unit :=
  service (StandaloneService.new_partial config);; mret tt.

Definition run_benchmark (f : Features) (config : Configuration) (cmd : BenchmarkCmd) : Cli unit :=
  match cmd with
  | BenchPallet =>
      if negb (runtime_benchmarks f) then
        fail (Message "Runtime benchmarking wasn't enabled when building the node. You can enable it with `--features runtime-benchmarks`.")
      else command "benchmark pallet" [RConfig]
  | BenchBlock => partial config;; command "benchmark block" [RClient]
  | BenchStorage =>
      if runtime_benchmarks f then
        partial config;; command "benchmark storage" [RConfig; RClient; RDb; RStorage]
      else
        fail (Message "Storage benchmarking can be enabled with `--features runtime-benchmarks`.")
  | BenchOverhead =>
      partial config;; inherent_benchmark_data;;
      command "benchmark overhead" [RConfig; RClient; RInherentData; RBuilders [RemarkBuilder]]
  | BenchExtrinsic =>
      partial config;; inherent_benchmark_data;;
      command "benchmark extrinsic"
        [RClient; RInherentData;
         RBuilders [RemarkBuilder;
                    TransferKeepAliveBuilder alice StandaloneWeights.EXISTENTIAL_DEPOSIT]]
  | BenchMachine => command "benchmark machine" [RConfig; RReferenceHardware]
  end.

Definition run (f : Features) (subcommand : option Subcommand) (config : Configuration)
    : Cli unit :=
  match subcommand with
  | Some Key => command "key" [RCli]
  | Some BuildSpec =>
      runner "build-spec" SyncRun (command "build-spec" [RChainSpec; RNetwork])
  | Some CheckBlock =>
      runner "check-block" AsyncRun (partial config;; command "check-block" [RClient; RImportQueue])
  | Some ExportBlocks =>
      runner "export-blocks" AsyncRun
        (partial config;; command "export-blocks" [RClient; RDatabase])
  | Some ExportState =>
      runner "export-state" AsyncRun
        (partial config;; command "export-state" [RClient; RChainSpec])
  | Some ImportBlocks =>
      runner "import-blocks" AsyncRun
        (partial config;; command "import-blocks" [RClient; RImportQueue])
  | Some PurgeChain => runner "purge-chain" SyncRun (command "purge-chain" [RDatabase])
  | Some Revert =>
      runner "revert" AsyncRun
        (partial config;; command "revert" [RClient; RBackend; RAuxRevert true])
  | Some (Benchmark cmd) => runner "benchmark" SyncRun (run_benchmark f config cmd)
  | Some TryRuntime =>
      if try_runtime f then
        runner "try-runtime" AsyncRun
          (service (attempt NewTaskManager);; command "try-runtime" [RInfoProvider 6000])
      else fail (Message "TryRuntime wasn't enabled when building the node. You can enable it with `--features try-runtime`.")
  | Some ChainInfo => runner "chain-info" SyncRun (command "chain-info" [RConfig])
  | None => runner "run" RunNodeUntilExit (service (StandaloneService.new_full config))
  end.
End Run.
End StandaloneCommand.

(** ** The collator *)

Module ParaCommand.

Inductive Subcommand :=
| BuildSpec | CheckBlock | ExportBlocks | ExportState | ImportBlocks | Revert | PurgeChain
| ExportGenesisState | ExportGenesisWasm (chain : option string) | Benchmark (cmd : BenchmarkCmd)
| TryRuntime.

Record ParaCli := {
  subcommand : option Subcommand;
  no_hardware_benchmarks : bool;
  relay_chain_args : list string
}.

Section Run.
Context `{Substrate} `{Keys} (WASM_BINARY : option bytes) (XCM_VERSION : Z)
  (from_json_file : string -> outcome string ChainSpec) (executable_name : string)
  (gather_hwbench : string -> HwBench) (into_account_truncating : Z -> bytes).

Definition partial (config : Configuration) : Cli unit :=
  service (ParaService.new_partial config);; mret tt.

(** [construct_async_run!] *)
Definition construct_async_run (cmd : string) (config : Configuration) (with_ : list Resource)
    : Cli unit :=
  runner cmd AsyncRun (partial config;; command cmd with_).

(** [RelayChainCli::new] and [SubstrateCli::create_configuration] *)
Definition polkadot_config (cli : ParaCli) (config : Configuration) : Cli unit :=
  let polkadot_cli := ParaNode.relay_chain_cli (chain_spec config) (config_base_path config) in
  call_with (fun e => Message ("Relay chain argument error: " +:+ e))
    (CreateRelayConfiguration (ParaNode.chain_id_field polkadot_cli)
       (ParaNode.base_path_field polkadot_cli) (executable_name :: relay_chain_args cli)).

Definition run_benchmark (f : Features) (config : Configuration) (cmd : BenchmarkCmd) : Cli unit :=
  match cmd with
  | BenchPallet =>
      if runtime_benchmarks f then
        call (RunnerStarts SyncRun);; command "benchmark pallet" [RConfig]
      else fail (Message "Benchmarking wasn't enabled when building the node. You can enable it with `--features runtime-benchmarks`.")
  | BenchBlock =>
      call (RunnerStarts SyncRun);; partial config;; command "benchmark block" [RClient]
  | BenchStorage =>
      if runtime_benchmarks f then
        call (RunnerStarts SyncRun);; partial config;;
        command "benchmark storage" [RConfig; RClient; RDb; RStorage]
      else fail (Input "Compile with --features=runtime-benchmarks to enable storage benchmarks.")
  | BenchMachine =>
      call (RunnerStarts SyncRun);; command "benchmark machine" [RConfig; RReferenceHardware]
  | _ => fail (Message "Benchmarking sub-command unsupported")
  end.

(** [config.database.path().map(|p| ..)]: the directory is made and the machine is
    measured. *)
Definition measure (config : Configuration) : Cli (option HwBench) :=
  match database_path config with
  | None => mret None
  | Some p =>
      note (CreateDirAll p);; note (GatherHwbench p);; mret (Some (gather_hwbench p))
  end.

(** [(!cli.no_hardware_benchmarks).then_some(..).flatten()]: the argument of [then_some]
    is evaluated first. *)
Definition hwbench (cli : ParaCli) (config : Configuration) : Cli (option HwBench) :=
  measured ← measure config;
  mret (if negb (no_hardware_benchmarks cli) then measured else None).

(** The closure of the bare command. *)
Definition start_node (cli : ParaCli) (config : Configuration) : Cli unit :=
  hwbench ← hwbench cli config;
  para_id ← lift (match ParaNode.start_para_id (chain_spec config) with
                  | Ok id => Ok id
                  | Err e => Err (Message e)
                  | Panic => Panic
                  end);
  polkadot_config cli config;;
  note (LogParachainAccount (into_account_truncating para_id));;
  note (LogCollating (is_authority (role config)));;
  service (ParaService.start_parachain_node config para_id hwbench).

Definition run (f : Features) (cli : ParaCli) (config : Configuration) : Cli unit :=
  match subcommand cli with
  | Some BuildSpec =>
      runner "build-spec" SyncRun (command "build-spec" [RChainSpec; RNetwork])
  | Some CheckBlock => construct_async_run "check-block" config [RClient; RImportQueue]
  | Some ExportBlocks => construct_async_run "export-blocks" config [RClient; RDatabase]
  | Some ExportState => construct_async_run "export-state" config [RClient; RChainSpec]
  | Some ImportBlocks => construct_async_run "import-blocks" config [RClient; RImportQueue]
  | Some Revert => construct_async_run "revert" config [RClient; RBackend; RAuxRevert false]
  | Some PurgeChain =>
      runner "purge-chain" SyncRun
        (polkadot_config cli config;; command "purge-chain" [RConfig; RPolkadotConfig])
  | Some ExportGenesisState =>
      runner "export-genesis-state" SyncRun
        (partial config;; command "export-genesis-state" [RChainSpec; RClient])
  | Some (ExportGenesisWasm chain) =>
      runner "export-genesis-wasm" SyncRun
        (spec ← lift (match ParaNode.load_spec WASM_BINARY XCM_VERSION from_json_file
                              (default "" chain) with
                      | Ok s => Ok s
                      | Err e => Err (Message e)
                      | Panic => Panic
                      end);
         command "export-genesis-wasm" [RSpec spec])
  | Some (Benchmark cmd) => call (CreateRunner "benchmark");; run_benchmark f config cmd
  | Some TryRuntime =>
      fail (Message "The `try-runtime` subcommand has been migrated to a standalone CLI (https://github.com/paritytech/try-runtime-cli). It is no longer being maintained here and will be removed entirely some time after January 2024. Please remove this subcommand from your runtime and use the standalone CLI.")
  | None => runner "run" RunNodeUntilExit (start_node cli config)
  end.
End Run.

(** [CliConfiguration for RelayChainCli]: the relay chain node is configured by its own
    arguments, [base], except for the base path and the chain id.  The types of the
    crates are not named. *)
Section Relay.
Context {SharedParams ImportParams NetworkParams KeystoreParams SocketAddr PrometheusConfig
  TransactionPoolOptions RpcMethods TelemetryEndpoints : Type}.

Record CliConfiguration := {
  shared_params : SharedParams;
  import_params : option ImportParams;
  network_params : option NetworkParams;
  keystore_params : option KeystoreParams;
  base_path : outcome string (option string);
  rpc_addr : Z -> outcome string (option SocketAddr);
  prometheus_config : Z -> ChainSpec -> outcome string (option PrometheusConfig);
  init : outcome string unit;
  chain_id : bool -> outcome string string;
  cli_role : bool -> outcome string Role;
  transaction_pool : bool -> outcome string TransactionPoolOptions;
  trie_cache_maximum_size : outcome string (option Z);
  rpc_methods : outcome string RpcMethods;
  rpc_max_connections : outcome string Z;
  rpc_cors : bool -> outcome string (option (list string));
  cli_default_heap_pages : outcome string (option Z);
  cli_force_authoring : outcome string bool;
  cli_disable_grandpa : outcome string bool;
  cli_max_runtime_instances : outcome string (option Z);
  announce_block : outcome string bool;
  cli_telemetry_endpoints : ChainSpec -> outcome string (option TelemetryEndpoints);
  cli_node_name : outcome string string
}.

Definition relay_configuration (cli : ParaNode.RelayChainCli)
    (shared_base_path : SharedParams -> outcome string (option string)) (base : CliConfiguration)
    : CliConfiguration :=
  {| shared_params := shared_params base;
     import_params := import_params base;
     network_params := network_params base;
     keystore_params := keystore_params base;
     base_path := ParaNode.base_path cli (shared_base_path (shared_params base));
     rpc_addr port := rpc_addr base port;
     prometheus_config port spec := prometheus_config base port spec;
     init := Panic;
     chain_id is_dev := ParaNode.chain_id cli (chain_id base is_dev);
     cli_role is_dev := cli_role base is_dev;
     transaction_pool is_dev := transaction_pool base is_dev;
     trie_cache_maximum_size := trie_cache_maximum_size base;
     rpc_methods := rpc_methods base;
     rpc_max_connections := rpc_max_connections base;
     rpc_cors is_dev := rpc_cors base is_dev;
     cli_default_heap_pages := cli_default_heap_pages base;
     cli_force_authoring := cli_force_authoring base;
     cli_disable_grandpa := cli_disable_grandpa base;
     cli_max_runtime_instances := cli_max_runtime_instances base;
     announce_block := announce_block base;
     cli_telemetry_endpoints spec := cli_telemetry_endpoints base spec;
     cli_node_name := cli_node_name base |}.
End Relay.
End ParaCommand.
