(* ===== verification/NodeCommandFacts.v ===== *)
(** * What the subcommands do and do not *)

From S2P Require Import Prelude Xcm Frame Traits ParachainInfo RuntimeCommon RuntimeWeights.
From S2P Require Import NodeSpec NodeService NodeServiceFacts NodeCommand.

(** [m] only makes calls that satisfy [P]. *)
Definition emits {E A} (P : Action -> Prop) (m : M E Trace A) : Prop :=
  forall t r t', m t = (r, t') -> exists u, t' = t ++ u /\ Forall P u.

Section Emits.
Context (P : Action -> Prop).

Lemma emits_nothing {E A} (m : M E Trace A) : (forall t, (m t).2 = t) -> emits P m.
Proof. intros Hm t r t' Hr. exists []. specialize (Hm t). rewrite Hr in Hm. by rewrite app_nil_r. Qed.
Lemma emits_one {E A} (m : M E Trace A) a :
  P a -> (forall t, (m t).2 = t ++ [a]) -> emits P m.
Proof.
  intros Ha Hm t r t' Hr. exists [a]. specialize (Hm t). rewrite Hr in Hm.
  split; [done|]. by apply Forall_singleton.
Qed.

Lemma emits_bind {E A B} (m : M E Trace A) (k : A -> M E Trace B) :
  emits P m -> (forall a, emits P (k a)) -> emits P (m ≫= k).
Proof.
  intros Hm Hk t r t' [(a & t1 & H1 & H2)|[(e & H1 & _)|[H1 _]]]%bind_cases; [|by eapply Hm..].
  apply Hm in H1 as (u & -> & Hu). apply Hk in H2 as (v & -> & Hv).
  exists (u ++ v). rewrite app_assoc. split; [done|]. by apply Forall_app.
Qed.

Lemma emits_map_err {E E' A} (f : E -> E') (m : M E Trace A) : emits P m -> emits P (map_err f m).
Proof.
  intros Hm t r t'. unfold map_err. destruct (m t) as [r0 t0] eqn:Hr.
  intros Heq. eapply Hm. rewrite Hr. f_equal. by destruct r0; simplify_eq.
Qed.

Lemma emits_ret {E A} (a : A) : emits (E := E) P (mret a).
Proof. by apply emits_nothing. Qed.
Lemma emits_fail {E A} (e : E) : emits P (fail (A := A) e).
Proof. by apply emits_nothing. Qed.
Lemma emits_panic {E A} : emits (E := E) P (panic (A := A)).
Proof. by apply emits_nothing. Qed.
Lemma emits_lift {E A} (r : outcome E A) : emits P (lift r).
Proof. by apply emits_nothing. Qed.

Context `{Substrate}.
Lemma emits_act a : P a -> emits P (act a).
Proof. intros Ha. by apply (emits_one _ a). Qed.
Lemma emits_note a : P a -> emits P (note a).
Proof. intros Ha. by apply (emits_one _ a). Qed.
Lemma emits_attempt_with f a : P a -> emits P (attempt_with f a).
Proof. intros Ha. apply (emits_one _ a); [done|]. intros t. unfold attempt_with. by case_match. Qed.
Lemma emits_call_with f a : P a -> emits P (call_with f a).
Proof. intros Ha. apply (emits_one _ a); [done|]. intros t. unfold call_with. by case_match. Qed.
End Emits.

(** [emit]: by the shape of the program; the calls, and programs that are named, are left
    as goals. *)
Ltac emit_step :=
  lazymatch goal with
  | |- emits _ (mret _) => apply emits_ret
  | |- emits _ (fail _) => apply emits_fail
  | |- emits _ panic => apply emits_panic
  | |- emits _ (lift _) => apply emits_lift
  | |- emits _ (act _) => apply emits_act
  | |- emits _ (note _) => apply emits_note
  | |- emits _ (attempt_with _ _) => apply emits_attempt_with
  | |- emits _ (call_with _ _) => apply emits_call_with
  | |- emits _ (map_err _ _) => apply emits_map_err
  | |- emits _ (mbind _ _) => apply emits_bind; [|intros ?]
  | |- emits _ (if ?x then _ else _) => destruct x
  | |- emits _ (match ?x with _ => _ end) => destruct x
  end.
Ltac emit := repeat (cbv beta; emit_step).

(** The calls by which a node joins a network or produces blocks. *)
Definition joins (a : Action) : bool :=
  match a with
  | StartNetwork | BuildNetwork _ | BuildParachainNetwork _ _ | StartAura _ | RunGrandpaVoter _
  | RunBasicAura _ _ _ _ | SpawnTasks _ _ => true
  | Spawn essential _ _ _ _ => essential
  | _ => false
  end.
(** The calls that open the database of the node. *)
Definition opens (a : Action) : bool := match a with NewFullParts _ => true | _ => false end.

Section Commands.
Context `{Substrate} `{Keys} (f : Features) (config : Configuration).

Lemma telemetry_emits (P : Action -> Prop) :
  P (TelemetryWorkerNew 16) -> (forall es, P (NewTelemetry es)) ->
  emits P (start_telemetry config).
Proof. intros H1 H2. unfold start_telemetry, attempt. emit; auto. Qed.

(** Neither node joins a network by building its components. *)
Lemma standalone_partial_emits :
  emits (fun a => joins a = false) (StandaloneCommand.partial config).
Proof.
  unfold StandaloneCommand.partial, service, StandaloneService.new_partial, attempt, when, spawn.
  emit; try done. by apply telemetry_emits.
Qed.
Lemma collator_partial_emits :
  emits (fun a => joins a = false) (ParaCommand.partial config).
Proof.
  unfold ParaCommand.partial, service, ParaService.new_partial, ParaService.build_import_queue,
    attempt, when, spawn.
  emit; try done. by apply telemetry_emits.
Qed.

Lemma standalone_subcommand_emits alice (c : StandaloneCommand.Subcommand) :
  emits (fun a => joins a = false) (StandaloneCommand.run alice f (Some c) config).
Proof.
  destruct c; simpl; unfold StandaloneCommand.run_benchmark,
    StandaloneCommand.inherent_benchmark_data, runner, command, call, service, attempt; emit; try done; apply standalone_partial_emits.
Qed.

Lemma collator_subcommand_emits wasm xcm_version from_json exe gather account
    (cli : ParaCommand.ParaCli) c :
  ParaCommand.subcommand cli = Some c ->
  emits (fun a => joins a = false)
    (ParaCommand.run wasm xcm_version from_json exe gather account f cli config).
Proof.
  intros Hc. unfold ParaCommand.run. rewrite Hc.
  destruct c; unfold ParaCommand.construct_async_run, ParaCommand.run_benchmark,
    ParaCommand.polkadot_config, runner, command, call; emit; try done;
    apply collator_partial_emits.
Qed.

(** The bare command of the standalone node. *)
Lemma bare_command_joins alice r tr :
  StandaloneCommand.run alice f None config [] = (r, tr) -> r = Ok tt <-> StartNetwork ∈ tr.
Proof.
  unfold StandaloneCommand.run, runner, call.
  assert (Hcall : forall a t x t', call_with (CliConverted a) a t = (x, t') ->
    t' = t ++ [a] /\ (x <> Panic)).
  { intros a t x t'. unfold call_with. by case_match; intros [= <- <-]. }
  intros [(x & t1 & [-> _]%Hcall & Hr)|[(e & [-> _]%Hcall & ->)|[[_ ?]%Hcall _]]]%bind_cases;
    [|by simpl; rewrite !elem_of_cons, elem_of_nil; intuition|done].
  apply bind_cases in Hr as [(x' & t2 & [-> _]%Hcall & Hr)|[(e & [-> _]%Hcall & ->)|[[_ ?]%Hcall _]]];
    [|by simpl; rewrite !elem_of_cons, elem_of_nil; intuition|done].
  unfold service, map_err in Hr.
  destruct (StandaloneService.new_full config _) as [r0 tr0] eqn:Hn in Hr.
  eapply follows_start in Hn as (Hiff & _);
    [|apply standalone_follows|by repeat constructor|apply standalone_no_start
     |apply standalone_ok|done].
  destruct r0 as [[]| |]; injection Hr as <- <-; rewrite <- Hiff; split; congruence.
Qed.

(** What is on the trace stays there. *)
Lemma emits_keeps {E A} (P : Action -> Prop) (m : M E Trace A) t a :
  emits P m -> a ∈ t -> a ∈ (m t).2.
Proof.
  intros Hm Ha. destruct (m t) as [r t'] eqn:Hr. apply Hm in Hr as (u & -> & _). simpl.
  apply elem_of_app. by left.
Qed.

Lemma collator_start_emits para_id hwbench :
  emits (fun _ => True) (ParaService.start_parachain_node config para_id hwbench).
Proof.
  unfold ParaService.start_parachain_node, ParaService.start_node_impl, ParaService.new_partial,
    ParaService.build_import_queue, ParaService.report_hwbench, ParaService.start_consensus,
    start_telemetry, expect, when, spawn, attempt.
  emit; done.
Qed.

(** The subcommands that leave the database alone. *)
Definition standalone_offline (c : StandaloneCommand.Subcommand) : bool :=
  match c with
  | StandaloneCommand.Key | StandaloneCommand.BuildSpec | StandaloneCommand.PurgeChain
  | StandaloneCommand.Benchmark BenchPallet | StandaloneCommand.Benchmark BenchMachine
  | StandaloneCommand.TryRuntime | StandaloneCommand.ChainInfo => true
  | StandaloneCommand.Benchmark BenchStorage => negb (runtime_benchmarks f)
  | _ => false
  end.

Lemma standalone_offline_emits alice (c : StandaloneCommand.Subcommand) :
  standalone_offline c = true ->
  emits (fun a => opens a = false) (StandaloneCommand.run alice f (Some c) config).
Proof.
  destruct c as [| | | | | | | |cmd| |]; try done; [..|destruct cmd; try done| |]; simpl;
    unfold StandaloneCommand.run_benchmark, runner, command, call, service, attempt; intros Hf;
    [..|apply negb_true_iff in Hf; rewrite Hf| | |]; emit; done.
Qed.
End Commands.
