(* ===== verification/StandaloneRuntime.v ===== *)
(** * The standalone runtime ([substrate-node/standalone/runtime/src/lib.rs])

    The tables and adapters with which this runtime configures the pallets. *)

From S2P Require Import Prelude Xcm Frame Traits AccessSegregator BasicFeeHandler.
From S2P Require Import PercentageFeeHandler FeeHandlerRouter Encode Eip712 Bridge.
From S2P Require Import BridgeDeposit DecimalConverter Migration RuntimeCommon.

Module Standalone.

Definition AccessSegregatorPalletIndex : Z := 9.
Definition BasicFeeHandlerPalletIndex : Z := 10.
Definition BridgePalletIndex : Z := 11.
Definition FeeHandlerRouterPalletIndex : Z := 12.
Definition PercentageFeeHandlerRouterPalletIndex : Z := 13.

Definition RegisteredExtrinsics : list (Z * bytes) := [
  (AccessSegregatorPalletIndex, b_ "grant_access");
  (BasicFeeHandlerPalletIndex, b_ "set_fee");
  (BridgePalletIndex, b_ "set_mpc_address");
  (BridgePalletIndex, b_ "pause_bridge");
  (BridgePalletIndex, b_ "unpause_bridge");
  (BridgePalletIndex, b_ "register_domain");
  (BridgePalletIndex, b_ "unregister_domain");
  (BridgePalletIndex, b_ "retry");
  (BridgePalletIndex, b_ "pause_all_bridges");
  (BridgePalletIndex, b_ "unpause_all_bridges");
  (FeeHandlerRouterPalletIndex, b_ "set_fee_handler");
  (PercentageFeeHandlerRouterPalletIndex, b_ "set_fee_rate")].

(** [Config] of the access segregator and of the fee handlers *)
Definition access_config : AccessConfig :=
  {| bridge_committee_origin := ensure_root;
     access_pallet_index := AccessSegregatorPalletIndex;
     extrinsics := RegisteredExtrinsics |}.
Definition basic_config : BasicFeeConfig :=
  {| basic_pallet_index := BasicFeeHandlerPalletIndex |}.
Definition percentage_config : PercentageFeeConfig :=
  {| percentage_pallet_index := PercentageFeeHandlerRouterPalletIndex |}.
Definition router_config : RouterConfig :=
  {| router_pallet_index := FeeHandlerRouterPalletIndex |}.

(** The indices [construct_runtime!] gives the pallets. *)
Definition construct_runtime_index (pallet : string) : option Z :=
  match pallet with
  | "System"%string => Some 0
  | "RandomnessCollectiveFlip"%string => Some 1
  | "Timestamp"%string => Some 2
  | "Aura"%string => Some 3
  | "Grandpa"%string => Some 4
  | "Balances"%string => Some 5
  | "TransactionPayment"%string => Some 6
  | "Sudo"%string => Some 7
  | "Assets"%string => Some 8
  | "SygmaAccessSegregator"%string => Some 9
  | "SygmaBasicFeeHandler"%string => Some 10
  | "SygmaBridge"%string => Some 11
  | "SygmaFeeHandlerRouter"%string => Some 12
  | "SygmaPercentageFeeHandler"%string => Some 13
  | "ParachainInfo"%string => Some 20
  | _ => None
  end.

Definition slice_to_generalkey (key : bytes) : outcome DispatchError Junction :=
  RuntimeCommon.slice_to_generalkey key.

Definition NativeLocation : MultiLocation := loc_here.
Definition UsdcLocation : MultiLocation :=
  ML 1 (X3 (Parachain 2005) (general_key (b_ "sygma")) (general_key (b_ "usdc"))).
Definition ERC20TSTLocation : MultiLocation :=
  ML 1 (X3 (Parachain 2005) (general_key (b_ "sygma")) (general_key (b_ "erc20tst"))).
Definition ERC20TSTD20Location : MultiLocation :=
  ML 1 (X3 (Parachain 2005) (general_key (b_ "sygma")) (general_key (b_ "erc20tstd20"))).
Definition UsdcAssetId : Z := 2000.
Definition ERC20TSTAssetId : Z := 2001.
Definition ERC20TSTD20AssetId : Z := 2002.
Definition NativeResourceId : ResourceId :=
  hex "0000000000000000000000000000000000000000000000000000000000000001".
Definition UsdcResourceId : ResourceId :=
  hex "0000000000000000000000000000000000000000000000000000000000000300".
Definition ERC20TSTResourceId : ResourceId :=
  hex "0000000000000000000000000000000000000000000000000000000000000000".
Definition ERC20TSTD20ResourceId : ResourceId :=
  hex "0000000000000000000000000000000000000000000000000000000000000900".

Definition ResourcePairs : list (AssetId * ResourceId) := [
  (Concrete NativeLocation, NativeResourceId);
  (Concrete UsdcLocation, UsdcResourceId);
  (Concrete ERC20TSTLocation, ERC20TSTResourceId);
  (Concrete ERC20TSTD20Location, ERC20TSTD20ResourceId)].

Definition AssetDecimalPairs : list (AssetId * Z) := [
  (Concrete NativeLocation, 12);
  (Concrete UsdcLocation, 12);
  (Concrete ERC20TSTLocation, 18);
  (Concrete ERC20TSTD20Location, 20)].

Definition TreasuryAccount : AccountId := replicate 32 100.
Definition EIP712ChainID : ChainID := 5.
Definition DEST_VERIFYING_CONTRACT_ADDRESS : string :=
  "6CdE2Cd82a4F8B74693Ff5e194c19CA08c2d1c68".
Definition DestVerifyingContractAddress : bytes := hex DEST_VERIFYING_CONTRACT_ADDRESS.
Definition SygmaBridgePalletId : bytes := b_ "sygma/01".

(** [SimpleForeignAssetConverter] *)
Definition simple_foreign_asset_converter (a : MultiAsset) : option (Z * Z) :=
  matches_fungibles [(UsdcLocation, UsdcAssetId); (ERC20TSTLocation, ERC20TSTAssetId);
                     (ERC20TSTD20Location, ERC20TSTD20AssetId)] a.

(** [DestinationDataParser]: two keys, the recipient and the domain, which is the
    first byte of the second key and not zero. *)
Definition extract_dest (dest : MultiLocation)
    : outcome DispatchError (option (bytes * DomainID)) :=
  match parents dest, interior dest with
  | 0, X2 (GeneralKey recipient_len recipient) (GeneralKey _domain_len dest_domain_id) =>
      let domain_id := default 0 (head dest_domain_id) in
      if domain_id =? 0 then Ok None
      else match key_slice recipient_len recipient with
           | Ok r => Ok (Some (r, domain_id))
           | Err e => Err e
           | Panic => Panic
           end
  | _, _ => Ok None
  end.

Definition destination_data_parser : ExtractDestinationData :=
  {| Traits.extract_dest := extract_dest |}.

Section Config.
Context {L : Type} `{Crypto} `{EthAbi} `{LocationCodec} `{XcmLocations} `{FixedU112F16}
  `{PalletIdAccounts}.
(** [AssetTransactors = (CurrencyTransactor, FungiblesTransactor)], and the static
    string of a dispatch error. *)
Context (asset_transactors : TransactAsset L) (error_str : DispatchError -> bytes).

Definition BridgeAccountNative : AccountId := into_account_truncating SygmaBridgePalletId.
Definition BridgeAccountOtherToken : AccountId :=
  into_sub_account_truncating SygmaBridgePalletId 1.

Definition bridge_accounts_generator : gmap AssetId AccountId :=
  account_map [(NativeLocation, BridgeAccountNative);
               (UsdcLocation, BridgeAccountOtherToken);
               (ERC20TSTLocation, BridgeAccountOtherToken);
               (ERC20TSTD20Location, BridgeAccountOtherToken)].

(** [ConcrateSygmaAsset::id], [::origin] and [ReserveChecker] *)
Definition sygma_asset_id (asset : MultiAsset) : option MultiLocation :=
  concrate_sygma_asset_id asset.
Definition sygma_asset_origin (asset : MultiAsset) : option MultiLocation :=
  concrate_sygma_asset_origin asset.
Definition reserve_checker : ContainsPair := {| contains := reserve_contains |}.

(** [SygmaDecimalConverter<AssetDecimalPairs>] *)
Definition convert_to (asset : MultiAsset) := sygma_convert_to AssetDecimalPairs asset.
Definition convert_from (asset : MultiAsset) := sygma_convert_from AssetDecimalPairs asset.
Definition decimal_converter : DecimalConverter :=
  {| Traits.convert_to := convert_to; Traits.convert_from := convert_from |}.

(** [impl sygma_bridge::Config for Runtime] *)
Definition bridge_config : BridgeConfig L :=
  {| Bridge.bridge_access := access_config;
     Bridge.transfer_reserve_accounts := bridge_accounts_generator;
     Bridge.dest_verifying_contract_address := DestVerifyingContractAddress;
     Bridge.eip712_chain_id := EIP712ChainID;
     Bridge.fee_reserve_account := TreasuryAccount;
     Bridge.bridge_fee_handler := fee_handler_router;
     Bridge.asset_transactor := asset_transactors;
     Bridge.resource_pairs := ResourcePairs;
     Bridge.is_reserve := reserve_checker;
     Bridge.extract_dest_data := destination_data_parser;
     Bridge.pallet_account := into_bytes_truncating SygmaBridgePalletId;
     Bridge.bridge_pallet_index := BridgePalletIndex;
     Bridge.decimal_converter := decimal_converter;
     Bridge.error_str := error_str |}.

(** [SygmaBridgeApi::is_proposal_executed] *)
Definition api_is_proposal_executed (w : World L) (nonce : DepositNonce)
    (domain_id : DomainID) : bool :=
  @is_proposal_executed L w nonce domain_id.

(** [Executive] runs the migration [FixMpcAddress] on a runtime upgrade. *)
Definition executive_migrations (db : DbWeight) (w : World L) : Weight * World L :=
  on_runtime_upgrade db w.
End Config.

End Standalone.
