(* ===== verification/ParachainRuntime.v ===== *)
(** * The parachain runtime ([substrate-node/parachain/runtime/src/lib.rs],
    [substrate-node/parachain/runtime/src/xcm_config.rs])

    The tables and adapters with which this runtime configures the pallets, and the
    knot its asset transactor, bridge forwarder and bridge pallet tie. *)

From S2P Require Import Prelude Xcm Frame Traits AccessSegregator BasicFeeHandler.
From S2P Require Import PercentageFeeHandler FeeHandlerRouter Encode Eip712 Bridge.
From S2P Require Import BridgeDeposit DecimalConverter Forwarder XcmBridge ParachainInfo.
From S2P Require Import RuntimeCommon.

Module Para.

Definition AccessSegregatorPalletIndex : Z := 9.
Definition BasicFeeHandlerPalletIndex : Z := 10.
Definition BridgePalletIndex : Z := 11.
Definition FeeHandlerRouterPalletIndex : Z := 12.
Definition PercentageFeeHandlerRouterPalletIndex : Z := 13.

Definition RegisteredExtrinsics : list (Z * bytes) := [
  (AccessSegregatorPalletIndex, b_ "grant_access");
  (BasicFeeHandlerPalletIndex, b_ "set_fee");
  (BridgePalletIndex, b_ "set_mpc_address");
  (BridgePalletIndex, b_ "pause_bridge");
  (BridgePalletIndex, b_ "unpause_bridge");
  (BridgePalletIndex, b_ "register_domain");
  (BridgePalletIndex, b_ "unregister_domain");
  (BridgePalletIndex, b_ "retry");
  (BridgePalletIndex, b_ "pause_all_bridges");
  (BridgePalletIndex, b_ "unpause_all_bridges");
  (FeeHandlerRouterPalletIndex, b_ "set_fee_handler");
  (PercentageFeeHandlerRouterPalletIndex, b_ "set_fee_rate")].

(** [Config] of the access segregator and of the fee handlers *)
Definition access_config : AccessConfig :=
  {| bridge_committee_origin := ensure_root;
     access_pallet_index := AccessSegregatorPalletIndex;
     extrinsics := RegisteredExtrinsics |}.
Definition basic_config : BasicFeeConfig :=
  {| basic_pallet_index := BasicFeeHandlerPalletIndex |}.
Definition percentage_config : PercentageFeeConfig :=
  {| percentage_pallet_index := PercentageFeeHandlerRouterPalletIndex |}.
Definition router_config : RouterConfig :=
  {| router_pallet_index := FeeHandlerRouterPalletIndex |}.

(** The indices [construct_runtime!] gives the pallets. *)
Definition construct_runtime_index (pallet : string) : option Z :=
  match pallet with
  | "System"%string => Some 0
  | "ParachainSystem"%string => Some 1
  | "Timestamp"%string => Some 2
  | "ParachainInfo"%string => Some 3
  | "Balances"%string => Some 10
  | "TransactionPayment"%string => Some 11
  | "Assets"%string => Some 12
  | "Sudo"%string => Some 15
  | "Authorship"%string => Some 20
  | "CollatorSelection"%string => Some 21
  | "Session"%string => Some 22
  | "Aura"%string => Some 23
  | "AuraExt"%string => Some 24
  | "XcmpQueue"%string => Some 30
  | "PolkadotXcm"%string => Some 31
  | "CumulusXcm"%string => Some 32
  | "DmpQueue"%string => Some 33
  | "SygmaAccessSegregator"%string => Some 40
  | "SygmaBasicFeeHandler"%string => Some 41
  | "SygmaBridge"%string => Some 42
  | "SygmaFeeHandlerRouter"%string => Some 43
  | "SygmaPercentageFeeHandler"%string => Some 44
  | "SygmaXcmBridge"%string => Some 45
  | "SygmaBridgeForwarder"%string => Some 46
  | _ => None
  end.

Definition slice_to_generalkey (key : bytes) : outcome DispatchError Junction :=
  RuntimeCommon.slice_to_generalkey key.

Definition NativeLocation : MultiLocation := loc_here.
Definition UsdtLocation : MultiLocation :=
  ML 1 (X3 (Parachain 2005) (general_key (b_ "sygma")) (general_key (b_ "usdt"))).
Definition ERC20TSTLocation : MultiLocation :=
  ML 1 (X3 (Parachain 2005) (general_key (b_ "sygma")) (general_key (b_ "erc20tst"))).
Definition ERC20TSTD20Location : MultiLocation :=
  ML 1 (X3 (Parachain 2005) (general_key (b_ "sygma")) (general_key (b_ "erc20tstd20"))).
Definition UsdtAssetId : Z := 2000.
Definition ERC20TSTAssetId : Z := 2001.
Definition ERC20TSTD20AssetId : Z := 2002.
Definition NativeResourceId : ResourceId :=
  hex "0000000000000000000000000000000000000000000000000000000000000001".
Definition UsdtResourceId : ResourceId :=
  hex "0000000000000000000000000000000000000000000000000000000000000300".
Definition ERC20TSTResourceId : ResourceId :=
  hex "0000000000000000000000000000000000000000000000000000000000000000".
Definition ERC20TSTD20ResourceId : ResourceId :=
  hex "0000000000000000000000000000000000000000000000000000000000000900".

Definition ResourcePairs : list (AssetId * ResourceId) := [
  (Concrete NativeLocation, NativeResourceId);
  (Concrete UsdtLocation, UsdtResourceId);
  (Concrete ERC20TSTLocation, ERC20TSTResourceId);
  (Concrete ERC20TSTD20Location, ERC20TSTD20ResourceId)].

Definition AssetDecimalPairs : list (AssetId * Z) := [
  (Concrete NativeLocation, 12);
  (Concrete UsdtLocation, 12);
  (Concrete ERC20TSTLocation, 18);
  (Concrete ERC20TSTD20Location, 20)].

Definition TreasuryAccount : AccountId := replicate 32 100.
Definition EIP712ChainID : ChainID := 5.
Definition DEST_VERIFYING_CONTRACT_ADDRESS : string :=
  "6CdE2Cd82a4F8B74693Ff5e194c19CA08c2d1c68".
Definition DestVerifyingContractAddress : bytes := hex DEST_VERIFYING_CONTRACT_ADDRESS.
Definition SygmaBridgePalletId : bytes := b_ "sygma/01".

(** [SimpleForeignAssetConverter] *)
Definition simple_foreign_asset_converter (a : MultiAsset) : option (Z * Z) :=
  matches_fungibles [(UsdtLocation, UsdtAssetId); (ERC20TSTLocation, ERC20TSTAssetId);
                     (ERC20TSTD20Location, ERC20TSTD20AssetId)] a.

(** [DestinationDataParser]: the path ["sygma"], the domain as an index that fits a
    byte, and the recipient. *)
Definition extract_dest (dest : MultiLocation)
    : outcome DispatchError (option (bytes * DomainID)) :=
  match parents dest, interior dest with
  | 0, X3 (GeneralKey path_len sygma_path) (GeneralIndex dest_domain_id)
          (GeneralKey recipient_len recipient) =>
      match key_slice path_len sygma_path with
      | Ok path =>
          if decide (path = [115; 121; 103; 109; 97]) then
            match try_into u8_max dest_domain_id with
            | Some domain_id =>
                match key_slice recipient_len recipient with
                | Ok r => Ok (Some (r, domain_id))
                | Err e => Err e
                | Panic => Panic
                end
            | None => Ok None
            end
          else Ok None
      | Err e => Err e
      | Panic => Panic
      end
  | _, _ => Ok None
  end.

Definition destination_data_parser : ExtractDestinationData :=
  {| Traits.extract_dest := extract_dest |}.

Section Config.
Context {L : Type} `{Crypto} `{EthAbi} `{LocationCodec} `{XcmLocations} `{FixedU112F16}
  `{PalletIdAccounts}.
(** [CurrencyTransactor] and [FungiblesTransactor], the adapters of the XCM crates;
    the weigher, the encoding and the executor of messages; the static string of a
    dispatch error. *)
Context (currency_transactor fungibles_transactor : TransactAsset L)
  (weigh : Xcm -> option Weight * Xcm) (xcm_encode : Xcm -> bytes)
  (execute_xcm_in_credit :
     MultiLocation -> Xcm -> bytes -> Weight -> Weight -> M Empty_set (World L) Outcome)
  `{XcmReanchor} (error_str : DispatchError -> bytes).

Definition BridgeAccountNative : AccountId := into_account_truncating SygmaBridgePalletId.
Definition BridgeAccountOtherToken : AccountId :=
  into_sub_account_truncating SygmaBridgePalletId 1.

Definition bridge_accounts_generator : gmap AssetId AccountId :=
  account_map [(NativeLocation, BridgeAccountNative);
               (UsdtLocation, BridgeAccountOtherToken);
               (ERC20TSTLocation, BridgeAccountOtherToken);
               (ERC20TSTD20Location, BridgeAccountOtherToken)].

(** [ConcrateSygmaAsset::id], [::origin] and [ReserveChecker] *)
Definition sygma_asset_id (asset : MultiAsset) : option MultiLocation :=
  concrate_sygma_asset_id asset.
Definition sygma_asset_origin (asset : MultiAsset) : option MultiLocation :=
  concrate_sygma_asset_origin asset.
Definition reserve_checker : ContainsPair := {| contains := reserve_contains |}.

(** [SygmaDecimalConverter<AssetDecimalPairs>] *)
Definition convert_to (asset : MultiAsset) := sygma_convert_to AssetDecimalPairs asset.
Definition convert_from (asset : MultiAsset) := sygma_convert_from AssetDecimalPairs asset.
Definition decimal_converter : DecimalConverter :=
  {| Traits.convert_to := convert_to; Traits.convert_from := convert_from |}.

(** [NativeAssetTypeIdentifier<ParachainInfo>] of [lib.rs], and its copy in
    [xcm_config.rs] *)
Definition is_native_asset (w : World L) (asset : MultiAsset) : bool :=
  let native_locations := [loc_here; ML 1 (X1 (Parachain (parachain_id w)))] in
  match asset_id asset, asset_fun asset with
  | Concrete id, Fungible _ => existsb (fun l => bool_decide (l = id)) native_locations
  | _, _ => false
  end.
Definition native_asset_type_identifier : AssetTypeIdentifier L :=
  {| Traits.is_native_asset := is_native_asset |}.

Definition xcm_is_native_asset (w : World L) (asset : MultiAsset) : bool :=
  let native_locations := [loc_here; ML 1 (X1 (Parachain (parachain_id w)))] in
  match asset_id asset, asset_fun asset with
  | Concrete id, Fungible _ => existsb (fun l => bool_decide (l = id)) native_locations
  | _, _ => false
  end.
Definition xcm_native_asset_type_identifier : AssetTypeIdentifier L :=
  {| Traits.is_native_asset := xcm_is_native_asset |}.

(** [NativeAssetMatcher]: the amount, converted to the balance type [u128]. *)
Definition native_matches_fungible (w : World L) (a : MultiAsset) : option Z :=
  match asset_id a, asset_fun a with
  | Concrete _, Fungible amount =>
      if xcm_is_native_asset w a then try_into u128_max amount else None
  | _, _ => None
  end.

(** ** XCM configuration *)

Definition RelayLocation : MultiLocation := loc_parent.
Definition UniversalLocation (w : World L) : Junctions := X1 (Parachain (parachain_id w)).
Definition SelfLocation (w : World L) : MultiLocation :=
  ML 1 (X1 (Parachain (parachain_id w))).
Definition MinXcmFee : list (AssetId * Z) := [(Concrete NativeLocation, 1000000000000)].

(** [ParentOrParentsExecutivePlurality] *)
Definition parent_or_executive_plurality (l : MultiLocation) : bool :=
  match l with
  | ML 1 Here => true
  | ML 1 (X1 (Plurality Executive _)) => true
  | _ => false
  end.

(** [impl sygma_xcm_bridge::Config for Runtime] *)
Definition xcm_bridge_config : XcmBridgeConfig L :=
  {| XcmBridge.weigh := weigh;
     XcmBridge.xcm_encode := xcm_encode;
     XcmBridge.execute_xcm_in_credit := execute_xcm_in_credit;
     XcmBridge.asset_reserved_checker := xcm_native_asset_type_identifier;
     XcmBridge.self_location := SelfLocation;
     XcmBridge.min_xcm_fee := MinXcmFee |}.

(** [impl sygma_bridge::Config for Runtime], over the asset transactor *)
Definition bridge_config (transactor : TransactAsset L) : BridgeConfig L :=
  {| Bridge.bridge_access := access_config;
     Bridge.transfer_reserve_accounts := bridge_accounts_generator;
     Bridge.dest_verifying_contract_address := DestVerifyingContractAddress;
     Bridge.eip712_chain_id := EIP712ChainID;
     Bridge.fee_reserve_account := TreasuryAccount;
     Bridge.bridge_fee_handler := fee_handler_router;
     Bridge.asset_transactor := transactor;
     Bridge.resource_pairs := ResourcePairs;
     Bridge.is_reserve := reserve_checker;
     Bridge.extract_dest_data := destination_data_parser;
     Bridge.pallet_account := into_bytes_truncating SygmaBridgePalletId;
     Bridge.bridge_pallet_index := BridgePalletIndex;
     Bridge.decimal_converter := decimal_converter;
     Bridge.error_str := error_str |}.

(** [SygmaBridge] as the forwarder calls it, and [SygmaBridgeForwarder] *)
Definition sygma_bridge (transactor : TransactAsset L) : Traits.Bridge L :=
  {| transfer := bridge_transfer (H := bridge_config transactor) |}.
Definition forwarder (transactor : TransactAsset L) : TransactorForwarder L :=
  bridge_forwarder (sygma_bridge transactor) (xcm_bridge (H := xcm_bridge_config)).

(** A forwarder that must not be reached: the end of the unrolled knot. *)
Definition unreachable_forwarder : TransactorForwarder L :=
  {| xcm_transactor_forwarder _ _ _ := panic;
     other_world_transactor_forwarder _ _ _ := panic |}.

(** [XCMAssetTransactor<CurrencyTransactor, FungiblesTransactor,
    NativeAssetTypeIdentifier<ParachainInfo>, SygmaBridgeForwarder>].  The transactor
    calls the forwarder, the forwarder the bridge, the bridge the transactor: the
    recursion is cut after [depth] forwards. *)
Fixpoint asset_transactor (depth : nat) : TransactAsset L :=
  xcm_asset_transactor currency_transactor fungibles_transactor
    native_asset_type_identifier
    match depth with
    | O => unreachable_forwarder
    | S depth => forwarder (asset_transactor depth)
    end error_str.

(** The bridge pallet of the runtime. *)
Definition runtime_bridge_config : BridgeConfig L := bridge_config (asset_transactor 1).

(** [SygmaBridgeApi::is_proposal_executed] *)
Definition api_is_proposal_executed (w : World L) (nonce : DepositNonce)
    (domain_id : DomainID) : bool :=
  @is_proposal_executed L w nonce domain_id.

(** ** The knot *)

(** A deposit credits local accounts only, so it never reaches the forwarder: the
    bridge behaves the same however deep the recursion is cut. *)
Lemma deposit_depth n o asset dest :
  deposit (H := bridge_config (asset_transactor n)) o asset dest =
  deposit (H := bridge_config (asset_transactor 0)) o asset dest.
Proof. destruct n; reflexivity. Qed.

(** One forward is all there is: cutting deeper changes nothing. *)
Lemma asset_transactor_depth n : asset_transactor (S n) = asset_transactor 1.
Proof. destruct n; reflexivity. Qed.
End Config.

End Para.
