(* ===== verification/XcmConfig.v ===== *)
(** * Locations, accounts and origins of the runtimes ([xcm_config.rs])

    How a runtime turns an XCM location into an account or a dispatch origin, which
    messages and calls it lets pass, and the limits it sets.  The converters themselves
    belong to [xcm-builder] and [pallet-xcm]: they are parameters with the behaviour their
    documentation gives them; the sources choose and order them. *)

From S2P Require Import Prelude Xcm Frame Traits ParachainInfo XcmBridge RuntimeCommon.
From S2P Require Import ParachainRuntime.

(** ** Accounts of locations *)

Definition Converter := MultiLocation -> option AccountId.

(** A tuple of converters asks its members in order. *)
Fixpoint first_account (cs : list Converter) (l : MultiLocation) : option AccountId :=
  match cs with
  | [] => None
  | c :: cs => match c l with Some id => Some id | None => first_account cs l end
  end.

(** The account of the relay chain, and [Sibling::from(i)], [ParaId::from(i)] as accounts:
    a type id, the number in little-endian order, and zeros. *)
Definition parent_account : AccountId := b_ "Parent" ++ replicate 26 0.
Definition para_account (type_id : bytes) (para_id : Z) : AccountId :=
  type_id ++ reverse (to_be 4 para_id) ++ replicate 24 0.
Definition sibling_para_account : Z -> AccountId := para_account (b_ "sibl").
Definition child_para_account : Z -> AccountId := para_account (b_ "para").

(** The network of the tests' relay chains, one of those the runtimes do not name. *)
Definition Rococo : NetworkId := OtherNetwork 0.

(** A network matches when it is not named, or is the one named. *)
Definition network_matches (network named : option NetworkId) : bool :=
  match named with None => true | Some _ => bool_decide (named = network) end.

Class LocationConverters := {
  ParentIsPreset : Converter;
  SiblingParachainConvertsVia : Converter;
  ChildParachainConvertsVia : Converter;
  AccountId32Aliases : option NetworkId -> Converter;
  parent_is_preset l :
    ParentIsPreset l = if decide (l = loc_parent) then Some parent_account else None;
  sibling_converts l :
    SiblingParachainConvertsVia l =
    match l with ML 1 (X1 (Parachain i)) => Some (sibling_para_account i) | _ => None end;
  child_converts l :
    ChildParachainConvertsVia l =
    match l with ML 0 (X1 (Parachain i)) => Some (child_para_account i) | _ => None end;
  account_aliases network l :
    AccountId32Aliases network l =
    match l with
    | ML 0 (X1 (AccountId32 named id)) => if network_matches network named then Some id else None
    | _ => None
    end
}.

(** [LocationToAccountId] of every runtime that is not the relay chain. *)
Definition location_to_account_id `{LocationConverters} (network : option NetworkId) : Converter :=
  first_account [ParentIsPreset; SiblingParachainConvertsVia; AccountId32Aliases network].

(** ** Origins of locations *)

Inductive OriginKind := NativeKind | SovereignAccountKind | SuperuserKind | XcmKind.

(** The origins a converted location can become: of the system, of [cumulus_pallet_xcm] (the
    relay chain, a sibling), of the relay chain's [origin] pallet, and of [pallet_xcm]. *)
Inductive RuntimeOrigin :=
| SystemOrigin (o : RawOrigin)
| CumulusRelay
| CumulusSibling (para_id : Z)
| ChildParachain (para_id : Z)
| XcmOrigin (l : MultiLocation).

Definition OriginConverter := MultiLocation -> OriginKind -> option RuntimeOrigin.

Fixpoint first_origin (cs : list OriginConverter) (l : MultiLocation) (k : OriginKind)
    : option RuntimeOrigin :=
  match cs with
  | [] => None
  | c :: cs => match c l k with Some o => Some o | None => first_origin cs l k end
  end.

Class OriginConverters := {
  SovereignSignedViaLocation : Converter -> OriginConverter;
  RelayChainAsNative : RuntimeOrigin -> OriginConverter;
  SiblingParachainAsNative : OriginConverter;
  ChildParachainAsNative : OriginConverter;
  SignedAccountId32AsNative : option NetworkId -> OriginConverter;
  XcmPassthrough : OriginConverter;
  SignedToAccountId32 : option NetworkId -> RawOrigin -> option MultiLocation;
  sovereign_signed conv l k :
    SovereignSignedViaLocation conv l k =
    match k with
    | SovereignAccountKind => id ← conv l; Some (SystemOrigin (Signed id))
    | _ => None
    end;
  relay_chain_native relay l k :
    RelayChainAsNative relay l k =
    match k with NativeKind => if decide (l = loc_parent) then Some relay else None | _ => None end;
  sibling_native l k :
    SiblingParachainAsNative l k =
    match k, l with
    | NativeKind, ML 1 (X1 (Parachain i)) => Some (CumulusSibling i)
    | _, _ => None
    end;
  child_native l k :
    ChildParachainAsNative l k =
    match k, l with
    | NativeKind, ML 0 (X1 (Parachain i)) => Some (ChildParachain i)
    | _, _ => None
    end;
  signed_native network l k :
    SignedAccountId32AsNative network l k =
    match k, l with
    | NativeKind, ML 0 (X1 (AccountId32 named id)) =>
        if network_matches network named then Some (SystemOrigin (Signed id)) else None
    | _, _ => None
    end;
  xcm_passthrough l k :
    XcmPassthrough l k = match k with XcmKind => Some (XcmOrigin l) | _ => None end;
  signed_to_account network o :
    SignedToAccountId32 network o =
    match o with Signed id => Some (ML 0 (X1 (AccountId32 network id))) | _ => None end
}.

(** ** Barriers, the executor and [pallet_xcm] *)

Definition Everything {A} (_ : A) : bool := true.
Definition Nothing {A} (_ : A) : bool := false.

(** A tuple of barriers lets pass what one of its members does. *)
Inductive Barrier :=
| TakeWeightCredit
| DenyReserveTransferToRelayChain
| AllowTopLevelPaidExecutionFrom (origins : MultiLocation -> bool)
| AllowExplicitUnpaidExecutionFrom (origins : MultiLocation -> bool)
| AllowUnpaidExecutionFrom (origins : MultiLocation -> bool)
| Either (a b : Barrier)
| DenyThenTry (deny allow : Barrier)
| WithComputedOrigin (b : Barrier) (local : Junctions) (max_prefixes : Z)
| TrailingSetTopicAsId (b : Barrier).

(** The origins a barrier names for execution without payment. *)
Fixpoint unpaid_from (b : Barrier) (l : MultiLocation) : bool :=
  match b with
  | AllowExplicitUnpaidExecutionFrom origins | AllowUnpaidExecutionFrom origins => origins l
  | Either a b => unpaid_from a l || unpaid_from b l
  | DenyThenTry _ b | WithComputedOrigin b _ _ | TrailingSetTopicAsId b => unpaid_from b l
  | _ => false
  end.

(** [FixedWeightBounds]: the cost of an instruction and the number of them. *)
Record WeightBounds := { unit_cost : Weight; max_instructions : Z }.

Record ExecutorConfig := {
  origin_converter : OriginConverter;
  is_reserve : MultiAsset * MultiLocation -> bool;
  is_teleporter : MultiAsset * MultiLocation -> bool;
  executor_universal_location : Junctions;
  barrier : Barrier;
  weigher : WeightBounds;
  max_assets_into_holding : Z;
  universal_aliases : MultiLocation * Junction -> bool;
  safe_call_filter : string -> bool;
  aliasers : MultiLocation * MultiLocation -> bool
}.

Record PalletXcmConfig := {
  send_xcm_origin : RawOrigin -> option MultiLocation;
  execute_xcm_origin : RawOrigin -> option MultiLocation;
  xcm_execute_filter : MultiLocation * Xcm -> bool;
  xcm_teleport_filter : MultiLocation * list MultiAsset -> bool;
  xcm_reserve_transfer_filter : MultiLocation * list MultiAsset -> bool;
  pallet_weigher : WeightBounds;
  pallet_universal_location : Junctions;
  version_discovery_queue_size : Z;
  sovereign_account_of : Converter;
  max_lockers : Z;
  max_remote_lock_consumers : Z;
  admin_origin : RawOrigin -> bool
}.

(** The queues of messages from the relay chain and from siblings. *)
Record QueueConfig := {
  execute_overweight_origin : RuntimeOrigin -> bool;
  controller_origin : RuntimeOrigin -> bool;
  controller_origin_converter : OriginConverter
}.
Definition ensure_root_origin (o : RuntimeOrigin) : bool :=
  match o with SystemOrigin o => ensure_root o | _ => false end.

(** ** The parachain *)

Module ParaXcm.
Section Config.
Context `{LocationConverters} `{OriginConverters} {L : Type}.
(** [xcm_builder::NativeAsset]: an asset is in reserve where it comes from. *)
Context (NativeAsset : MultiAsset * MultiLocation -> bool).

Definition RelayNetwork : option NetworkId := None.
Definition RelayChainOrigin : RuntimeOrigin := CumulusRelay.
Definition LocationToAccountId : Converter := location_to_account_id RelayNetwork.

Definition XcmOriginToTransactDispatchOrigin : OriginConverter := first_origin [
  SovereignSignedViaLocation LocationToAccountId;
  RelayChainAsNative RelayChainOrigin;
  SiblingParachainAsNative;
  SignedAccountId32AsNative RelayNetwork;
  XcmPassthrough].

Definition UnitWeightCost : Weight := {| ref_time := 1000000000; proof_size := 64 * 1024 |}.
Definition MaxInstructions : Z := 100.
Definition MaxAssetsIntoHolding : Z := 64.
Definition weight_bounds : WeightBounds :=
  {| unit_cost := UnitWeightCost; max_instructions := MaxInstructions |}.

Definition xcm_barrier (w : World L) : Barrier :=
  TrailingSetTopicAsId (DenyThenTry DenyReserveTransferToRelayChain (Either
    TakeWeightCredit
    (WithComputedOrigin
      (Either
        (AllowTopLevelPaidExecutionFrom Everything)
        (AllowExplicitUnpaidExecutionFrom Para.parent_or_executive_plurality))
      (Para.UniversalLocation w) 8))).

Definition XcmConfig (w : World L) : ExecutorConfig := {|
  origin_converter := XcmOriginToTransactDispatchOrigin;
  is_reserve := NativeAsset;
  is_teleporter := Nothing;
  executor_universal_location := Para.UniversalLocation w;
  barrier := xcm_barrier w;
  weigher := weight_bounds;
  max_assets_into_holding := MaxAssetsIntoHolding;
  universal_aliases := Nothing;
  safe_call_filter := Everything;
  aliasers := Nothing
|}.

Definition LocalOriginToLocation : RawOrigin -> option MultiLocation :=
  SignedToAccountId32 RelayNetwork.

Definition pallet_xcm_config (w : World L) : PalletXcmConfig := {|
  send_xcm_origin := LocalOriginToLocation;
  execute_xcm_origin := LocalOriginToLocation;
  xcm_execute_filter := Nothing;
  xcm_teleport_filter := Everything;
  xcm_reserve_transfer_filter := Nothing;
  pallet_weigher := weight_bounds;
  pallet_universal_location := Para.UniversalLocation w;
  version_discovery_queue_size := 100;
  sovereign_account_of := LocationToAccountId;
  max_lockers := 8;
  max_remote_lock_consumers := 0;
  admin_origin := ensure_root
|}.

Definition xcmp_queue_config : QueueConfig := {|
  execute_overweight_origin := ensure_root_origin;
  controller_origin := ensure_root_origin;
  controller_origin_converter := XcmOriginToTransactDispatchOrigin
|}.
Definition dmp_execute_overweight_origin : RuntimeOrigin -> bool := ensure_root_origin.

(** [EitherOfDiverse<EnsureRoot, EnsureXcm<IsVoiceOfBody<..>>>]: which locations are the
    voice of a body is the crate's. *)
Definition StakingAdminBodyId : BodyId := Defense.
Definition CollatorSelectionUpdateOrigin
    (is_voice_of_body : MultiLocation -> BodyId -> MultiLocation -> bool)
    (o : RuntimeOrigin) : bool :=
  ensure_root_origin o ||
  match o with
  | XcmOrigin l => is_voice_of_body Para.RelayLocation StakingAdminBodyId l
  | _ => false
  end.
End Config.
End ParaXcm.

(** ** The standalone runtime *)

Module StandaloneXcm.
Definition RelayNetwork : option NetworkId := Some Polkadot.
Definition CheckingAccount : AccountId := replicate 32 102.
Definition LocationToAccountId `{LocationConverters} : Converter :=
  location_to_account_id RelayNetwork.
End StandaloneXcm.

(** ** Facts *)

Section Accounts.
Context `{LocationConverters} (network : option NetworkId).

(** The locations that have an account, and the account they have. *)
Lemma location_account_inv l id :
  location_to_account_id network l = Some id ->
  (l = loc_parent /\ id = parent_account) \/
  (exists i, l = ML 1 (X1 (Parachain i)) /\ id = sibling_para_account i) \/
  (exists named, l = ML 0 (X1 (AccountId32 named id)) /\ network_matches network named = true).
Proof.
  unfold location_to_account_id. simpl.
  rewrite parent_is_preset, sibling_converts, account_aliases.
  case_decide; [intros [= <-]; by left|]. repeat case_match; intros [= <-]; naive_solver.
Qed.

Lemma location_account_parent : location_to_account_id network loc_parent = Some parent_account.
Proof. unfold location_to_account_id. simpl. by rewrite parent_is_preset, decide_True. Qed.

Lemma location_account_sibling i :
  location_to_account_id network (ML 1 (X1 (Parachain i))) = Some (sibling_para_account i).
Proof.
  unfold location_to_account_id. simpl.
  by rewrite parent_is_preset, decide_False, sibling_converts.
Qed.

(** An account is its own location, with or without the name of the network. *)
Lemma location_account_named named id :
  network_matches network named = true ->
  location_to_account_id network (ML 0 (X1 (AccountId32 named id))) = Some id.
Proof.
  intros Hn. unfold location_to_account_id. simpl.
  by rewrite parent_is_preset, decide_False, sibling_converts, account_aliases, Hn.
Qed.
Lemma location_account_local id : location_to_account_id network (loc_of_account id) = Some id.
Proof. by apply location_account_named. Qed.
Lemma network_matches_itself : network_matches network network = true.
Proof. destruct network; [by apply bool_decide_true|done]. Qed.
End Accounts.

Lemma para_account_inj type_id i j :
  is_u u32_max i -> is_u u32_max j -> para_account type_id i = para_account type_id j -> i = j.
Proof.
  intros Hi Hj He. unfold para_account in He. apply app_inv_head in He.
  apply app_inv_tail in He. apply (inj reverse) in He.
  apply (f_equal from_be) in He. rewrite !from_be_to_be in He; unfold is_u, u32_max in *; lia.
Qed.

Lemma parent_not_sibling i : sibling_para_account i <> parent_account.
Proof. unfold sibling_para_account, para_account, parent_account. by vm_compute (b_ _). Qed.

(** No two chains share an account: neither two siblings nor a sibling and the relay chain. *)
Lemma sovereign_accounts_apart `{LocationConverters} network l l' id :
  location_wf l -> location_wf l' -> parents l = 1 -> parents l' = 1 ->
  location_to_account_id network l = Some id -> location_to_account_id network l' = Some id ->
  l = l'.
Proof.
  intros [_ Hw] [_ Hw'] Hp Hp' Hl Hl'.
  apply location_account_inv in Hl as [[-> Hid]|[(i & -> & Hid)|(n & -> & _)]]; [..|done];
    apply location_account_inv in Hl' as [[-> Hid']|[(j & -> & Hid')|(n' & -> & _)]];
    try done; subst id.
  - by apply eq_sym, parent_not_sibling in Hid'.
  - by apply parent_not_sibling in Hid'.
  - apply Forall_inv in Hw, Hw'. by rewrite (para_account_inj _ i j Hw Hw' Hid').
Qed.

Section ParaOrigins.
Context `{LocationConverters} `{OriginConverters} {L : Type}.
Import ParaXcm.

(** What a location becomes, by the kind of origin it asks for. *)
Lemma transact_origin_inv l k o :
  XcmOriginToTransactDispatchOrigin l k = Some o ->
  match k with
  | SovereignAccountKind => exists id, LocationToAccountId l = Some id /\ o = SystemOrigin (Signed id)
  | NativeKind =>
      (l = loc_parent /\ o = CumulusRelay) \/
      (exists i, l = ML 1 (X1 (Parachain i)) /\ o = CumulusSibling i) \/
      (exists id, l = loc_of_account id /\ o = SystemOrigin (Signed id))
  | XcmKind => o = XcmOrigin l
  | SuperuserKind => False
  end.
Proof.
  unfold XcmOriginToTransactDispatchOrigin. simpl.
  rewrite sovereign_signed, relay_chain_native, sibling_native, signed_native, xcm_passthrough.
  destruct k; [|destruct (LocationToAccountId l); naive_solver|done|by intros [= <-]].
  case_decide; [intros [= <-]; by left|].
  destruct l as [p js]. repeat case_match; intros [= <-]; simplify_eq; eauto 8.
  right. right. eexists. split; [|done]. unfold loc_of_account, loc_of_junction.
  match goal with Hn : network_matches _ ?n = true |- _ => destruct n; [|done] end.
  match goal with Hn : network_matches _ _ = true |- _ =>
    by apply bool_decide_eq_true in Hn end.
Qed.

(** No message acts as root, whatever its origin and the kind it asks for. *)
Lemma message_never_root l k : XcmOriginToTransactDispatchOrigin l k <> Some (SystemOrigin Root).
Proof.
  intros Ho. apply transact_origin_inv in Ho. destruct k; try done.
  - by destruct Ho as [[_ ?]|[(? & _ & ?)|(? & _ & ?)]].
  - by destruct Ho as (? & _ & ?).
Qed.

(** A message acts for an account only from the location of that account. *)
Lemma message_signs_for_owner l k id :
  XcmOriginToTransactDispatchOrigin l k = Some (SystemOrigin (Signed id)) ->
  LocationToAccountId l = Some id.
Proof.
  intros Ho. apply transact_origin_inv in Ho. destruct k; try done.
  - destruct Ho as [[_ ?]|[(i & _ & ?)|(id' & -> & [= ->])]]; try done.
    apply location_account_local.
  - by destruct Ho as (id' & Hl & [= ->]).
Qed.

(** So no message controls the queues or sends overweight messages on. *)
Lemma message_not_queue_controller l k o :
  controller_origin_converter xcmp_queue_config l k = Some o ->
  controller_origin xcmp_queue_config o = false /\
  execute_overweight_origin xcmp_queue_config o = false.
Proof.
  simpl. intros Ho. unfold ensure_root_origin.
  destruct o as [[| |]| | | |]; try done. by apply message_never_root in Ho.
Qed.

(** Only the relay chain and its executive body run messages without paying. *)
Lemma unpaid_messages native (w : World L) l :
  unpaid_from (barrier (XcmConfig native w)) l = Para.parent_or_executive_plurality l.
Proof. reflexivity. Qed.

(** Every signed account may send messages, as the location that is its own account;
    no other origin may. *)
Lemma sender_location (w : World L) o l :
  send_xcm_origin (pallet_xcm_config w) o = Some l <->
  exists id, o = Signed id /\ l = loc_of_account id.
Proof.
  simpl. unfold LocalOriginToLocation. rewrite signed_to_account.
  split; [destruct o as [|id|]; intros [= <-]; by exists id|by intros (id & -> & ->)].
Qed.
Lemma sender_roundtrip (w : World L) id l :
  send_xcm_origin (pallet_xcm_config w) (Signed id) = Some l ->
  sovereign_account_of (pallet_xcm_config w) l = Some id.
Proof. intros (id' & [= <-] & ->)%sender_location. apply location_account_local. Qed.
End ParaOrigins.

(** ** The converters can be implemented *)

Definition plain_converters : LocationConverters.
Proof.
  refine {|
    ParentIsPreset l := if decide (l = loc_parent) then Some parent_account else None;
    SiblingParachainConvertsVia l :=
      match l with ML 1 (X1 (Parachain i)) => Some (sibling_para_account i) | _ => None end;
    ChildParachainConvertsVia l :=
      match l with ML 0 (X1 (Parachain i)) => Some (child_para_account i) | _ => None end;
    AccountId32Aliases network l :=
      match l with
      | ML 0 (X1 (AccountId32 named id)) => if network_matches network named then Some id else None
      | _ => None
      end |}; done.
Defined.

Definition plain_origins : OriginConverters.
Proof.
  refine {|
    SovereignSignedViaLocation conv l k :=
      match k with
      | SovereignAccountKind => id ← conv l; Some (SystemOrigin (Signed id))
      | _ => None
      end;
    RelayChainAsNative relay l k :=
      match k with
      | NativeKind => if decide (l = loc_parent) then Some relay else None
      | _ => None
      end;
    SiblingParachainAsNative l k :=
      match k, l with
      | NativeKind, ML 1 (X1 (Parachain i)) => Some (CumulusSibling i)
      | _, _ => None
      end;
    ChildParachainAsNative l k :=
      match k, l with
      | NativeKind, ML 0 (X1 (Parachain i)) => Some (ChildParachain i)
      | _, _ => None
      end;
    SignedAccountId32AsNative network l k :=
      match k, l with
      | NativeKind, ML 0 (X1 (AccountId32 named id)) =>
          if network_matches network named then Some (SystemOrigin (Signed id)) else None
      | _, _ => None
      end;
    XcmPassthrough l k := match k with XcmKind => Some (XcmOrigin l) | _ => None end;
    SignedToAccountId32 network o :=
      match o with Signed id => Some (ML 0 (X1 (AccountId32 network id))) | _ => None end |}; done.
Defined.
