(* ===== verification/FrameParams.v ===== *)
(** * FRAME parameters and runtime APIs of the two runtimes ([runtime/src/lib.rs])

    The numeric parameters the runtimes give the FRAME pallets, the deposits they charge,
    the transaction extensions, and the runtime APIs as a table from the methods to what
    they call.  The FRAME pallets and the executive are not under [src/]: a type parameter
    that only names one of their types (an event type, a weight table) is left out. *)

From S2P Require Import Prelude Xcm Frame Traits ParachainInfo RuntimeCommon RuntimeWeights.
From S2P Require Import StandaloneRuntime ParachainRuntime.
From S2P Require Import NodeSpec NodeService NodeBenchmarking.

(** ** Parameters *)

(** [sp_version::RuntimeVersion], without the versions of the APIs. *)
Record RuntimeVersion := {
  spec_name : string;
  impl_name : string;
  authoring_version : Z;
  version_spec : Z;
  impl_version : Z;
  version_transaction : Z;
  state_version : Z
}.

(** What happens to new code: it is set at once, or handed to the relay chain first. *)
Inductive SetCode := SetCodeNow | ParachainSetCode.

Record SystemConfig := {
  base_call_filter : string -> bool;
  hashing : string;
  lookup_addresses : string;
  on_set_code : SetCode;
  block_length : Z;
  block_hash_count : option Z;
  ss58_prefix : Z;
  max_consumers : Z
}.

Record BalancesConfig := {
  max_locks : Z;
  max_reserves : Z;
  existential_deposit : Z;
  max_holds : Z;
  max_freezes : Z
}.

Record AssetsConfig := {
  asset_deposit : Z;
  asset_account_deposit : Z;
  metadata_deposit_base : Z;
  metadata_deposit_per_byte : Z;
  approval_deposit : Z;
  string_limit : Z;
  remove_items_limit : Z
}.

Record AuraConfig := { aura_max_authorities : Z; allow_multiple_blocks_per_slot : bool }.

(** The names of the extensions of a signed transaction, in the order they are checked. *)
Definition extension_name {Era} (e : SignedExtension Era) : string :=
  match e with
  | CheckNonZeroSender => "CheckNonZeroSender"
  | CheckSpecVersion => "CheckSpecVersion"
  | CheckTxVersion => "CheckTxVersion"
  | CheckGenesis => "CheckGenesis"
  | CheckEra _ => "CheckEra"
  | CheckNonce _ => "CheckNonce"
  | CheckWeight => "CheckWeight"
  | ChargeTransactionPayment _ => "ChargeTransactionPayment"
  end.

(** ** Runtime APIs *)

(** A method forwards to a function of a component, or answers a constant. *)
Inductive Body := Calls (component function : string) | Answers (constant : string).
Record ApiImpl := { api : string; methods : list (string * Body) }.

(** A component of [construct_runtime!] or of the runtime itself. *)
Definition resolves (index : string -> option Z) (b : Body) : bool :=
  match b with
  | Answers _ => true
  | Calls c _ =>
      bool_decide (is_Some (index c)) ||
      bool_decide (c ∈ ["Executive"; "Runtime"; "InherentData"; "SessionKeys"; "GenesisBuilder"]%string)
  end.

Definition implements (apis : list ApiImpl) (required : list string) : bool :=
  forallb (fun a => bool_decide (a ∈ map api apis)) required.

(** The APIs both runtimes implement with the same bodies. *)
Definition core_api : ApiImpl := {| api := "Core"; methods := [
  ("version", Answers "VERSION");
  ("execute_block", Calls "Executive" "execute_block");
  ("initialize_block", Calls "Executive" "initialize_block")]%string |}.
Definition metadata_api : ApiImpl := {| api := "Metadata"; methods := [
  ("metadata", Calls "Runtime" "metadata");
  ("metadata_at_version", Calls "Runtime" "metadata_at_version");
  ("metadata_versions", Calls "Runtime" "metadata_versions")]%string |}.
Definition block_builder_api : ApiImpl := {| api := "BlockBuilder"; methods := [
  ("apply_extrinsic", Calls "Executive" "apply_extrinsic");
  ("finalize_block", Calls "Executive" "finalize_block");
  ("inherent_extrinsics", Calls "InherentData" "create_extrinsics");
  ("check_inherents", Calls "InherentData" "check_extrinsics")]%string |}.
Definition sygma_bridge_api : ApiImpl := {| api := "SygmaBridgeApi"; methods := [
  ("is_proposal_executed", Calls "SygmaBridge" "is_proposal_executed")]%string |}.
Definition tagged_transaction_queue_api : ApiImpl := {| api := "TaggedTransactionQueue"; methods := [
  ("validate_transaction", Calls "Executive" "validate_transaction")]%string |}.
Definition offchain_worker_api : ApiImpl := {| api := "OffchainWorkerApi"; methods := [
  ("offchain_worker", Calls "Executive" "offchain_worker")]%string |}.
Definition aura_api : ApiImpl := {| api := "AuraApi"; methods := [
  ("slot_duration", Calls "Aura" "slot_duration");
  ("authorities", Calls "Aura" "authorities")]%string |}.
Definition session_keys_api : ApiImpl := {| api := "SessionKeys"; methods := [
  ("generate_session_keys", Calls "SessionKeys" "generate");
  ("decode_session_keys", Calls "SessionKeys" "decode_into_raw_public_keys")]%string |}.
Definition account_nonce_api : ApiImpl := {| api := "AccountNonceApi"; methods := [
  ("account_nonce", Calls "System" "account_nonce")]%string |}.
Definition transaction_payment_api : ApiImpl := {| api := "TransactionPaymentApi"; methods := [
  ("query_info", Calls "TransactionPayment" "query_info");
  ("query_fee_details", Calls "TransactionPayment" "query_fee_details");
  ("query_weight_to_fee", Calls "TransactionPayment" "weight_to_fee");
  ("query_length_to_fee", Calls "TransactionPayment" "length_to_fee")]%string |}.
Definition transaction_payment_call_api : ApiImpl :=
  {| api := "TransactionPaymentCallApi"; methods := [
  ("query_call_info", Calls "TransactionPayment" "query_call_info");
  ("query_call_fee_details", Calls "TransactionPayment" "query_call_fee_details");
  ("query_weight_to_fee", Calls "TransactionPayment" "weight_to_fee");
  ("query_length_to_fee", Calls "TransactionPayment" "length_to_fee")]%string |}.

(** ** Benchmarks and migrations through the APIs

    [list_benchmarks!] and [add_benchmarks!] run over the list of [define_benchmarks!];
    the benchmarks of a pallet are the parameter. *)

Section Benchmarking.
Context {Bench Storage Batch Error : Type}.

Definition benchmark_metadata (benches : list (string * string)) (list_of : string -> list Bench)
    (storage_info : list Storage) : list Bench * list Storage :=
  (concat (map (fun b => list_of (snd b)) benches), storage_info).

Definition batches (benches : list (string * string)) (run : string -> list Batch) : list Batch :=
  concat (map (fun b => run (snd b)) benches).

(** [TryRuntime::on_runtime_upgrade]: a failed check stops the node with a backtrace. *)
Definition try_runtime_upgrade (upgraded : Error + Weight) (max_block : Weight)
    : outcome Error (Weight * Weight) :=
  match upgraded with inl _ => Panic | inr w => Ok (w, max_block) end.
Definition try_execute_block (executed : Error + Weight) : outcome Error Weight :=
  match executed with inl _ => Panic | inr w => Ok w end.
End Benchmarking.

(** ** The standalone runtime *)

Module StandaloneFrame.
Definition VERSION : RuntimeVersion :=
  {| spec_name := "sygma-substrate-pallet"; impl_name := "sygma-substrate-pallet";
     authoring_version := 1; version_spec := 100; impl_version := 1;
     version_transaction := 1; state_version := 1 |}.
Definition SessionKeys : list string := ["Aura"; "Grandpa"]%string.
Definition SignedExtra : list string := [
  "CheckNonZeroSender"; "CheckSpecVersion"; "CheckTxVersion"; "CheckGenesis"; "CheckEra";
  "CheckNonce"; "CheckWeight"; "ChargeTransactionPayment"]%string.
Definition SS58Prefix : Z := 42.

Definition system_config : SystemConfig :=
  {| base_call_filter _ := true; hashing := "BlakeTwo256";
     lookup_addresses := "AccountIdLookup"; on_set_code := SetCodeNow;
     block_length := StandaloneWeights.block_length_limit;
     block_hash_count := Some StandaloneWeights.BlockHashCount;
     ss58_prefix := SS58Prefix; max_consumers := 16 |}.
Definition aura_config : AuraConfig :=
  {| aura_max_authorities := 32; allow_multiple_blocks_per_slot := false |}.
(** [pallet_grandpa::Config]: authorities, nominators, set id entries. *)
Definition grandpa_limits : Z * Z * Z := (32, 0, 0).
Definition MinimumPeriod : Z := StandaloneWeights.SLOT_DURATION / 2.
Definition balances_config : BalancesConfig :=
  {| max_locks := 50; max_reserves := 0;
     existential_deposit := StandaloneWeights.EXISTENTIAL_DEPOSIT;
     max_holds := 0; max_freezes := 0 |}.

(** [pallet_transaction_payment::Config]: both fees are the identity, the multiplier is
    one for ever, and operational transactions tip with a factor of five. *)
Definition weight_to_fee (w : Weight) : Z := ref_time w.
Definition length_to_fee (len : Z) : Z := len.
Definition FeeMultiplier : Z := 1.
Definition OperationalFeeMultiplier : Z := 5.

Definition ExistentialDeposit : Z := 1.
Definition UNIT : Z := 1000000000000.
Definition DOLLARS : Z := UNIT.
Definition CENTS : Z := DOLLARS / 100.
Definition MILLICENTS : Z := CENTS / 1000.
Definition deposit (items nbytes : Z) : Z := items * 15 * CENTS + nbytes * CENTS.
Definition AssetDeposit : Z := 10 * UNIT.
Definition AssetAccountDeposit : Z := DOLLARS.
Definition ApprovalDeposit : Z := ExistentialDeposit.
Definition AssetsStringLimit : Z := 50.
Definition MetadataDepositBase : Z := deposit 1 68.
Definition MetadataDepositPerByte : Z := deposit 0 1.
Definition assets_config : AssetsConfig :=
  {| asset_deposit := AssetDeposit; asset_account_deposit := AssetAccountDeposit;
     metadata_deposit_base := MetadataDepositBase;
     metadata_deposit_per_byte := MetadataDepositPerByte;
     approval_deposit := ApprovalDeposit; string_limit := AssetsStringLimit;
     remove_items_limit := 1000 |}.

Definition grandpa_api : ApiImpl := {| api := "GrandpaApi"; methods := [
  ("grandpa_authorities", Calls "Grandpa" "grandpa_authorities");
  ("current_set_id", Calls "Grandpa" "current_set_id");
  ("submit_report_equivocation_unsigned_extrinsic", Answers "None");
  ("generate_key_ownership_proof", Answers "None")]%string |}.
Definition runtime_apis : list ApiImpl := [
  core_api; metadata_api; block_builder_api; sygma_bridge_api; tagged_transaction_queue_api;
  offchain_worker_api; aura_api; session_keys_api; grandpa_api; account_nonce_api;
  transaction_payment_api; transaction_payment_call_api].

Definition benches : list (string * string) := [
  ("frame_benchmarking", "BaselineBench"); ("frame_system", "SystemBench");
  ("pallet_balances", "Balances"); ("pallet_timestamp", "Timestamp");
  ("sygma_bridge", "SygmaBridge"); ("sygma_access_segregator", "SygmaAccessSegregator");
  ("sygma_basic_feehandler", "SygmaBasicFeeHandler");
  ("sygma_percentage_feehandler", "SygmaPercentageFeeHandler");
  ("sygma_fee_handler_router", "SygmaFeeHandlerRouter")]%string.
Definition dispatch_benchmark {Batch} (run : string -> list Batch)
    : outcome string (list Batch) := Ok (batches benches run).

(** The bounds on [C::Api] of [create_full]. *)
Definition rpc_apis : list string :=
  ["AccountNonceApi"; "TransactionPaymentApi"; "BlockBuilder"; "SygmaBridgeApi"]%string.
End StandaloneFrame.

(** ** The parachain runtime *)

Module ParaFrame.
Definition VERSION : RuntimeVersion :=
  {| spec_name := "template-parachain"; impl_name := "template-parachain";
     authoring_version := 1; version_spec := 1; impl_version := 0;
     version_transaction := 1; state_version := 1 |}.
Definition SessionKeys : list string := ["Aura"]%string.
Definition SignedExtra : list string := [
  "CheckNonZeroSender"; "CheckSpecVersion"; "CheckTxVersion"; "CheckGenesis"; "CheckEra";
  "CheckNonce"; "CheckWeight"; "ChargeTransactionPayment"]%string.
Definition UNINCLUDED_SEGMENT_CAPACITY : Z := 1.
Definition BLOCK_PROCESSING_VELOCITY : Z := 1.
Definition RELAY_CHAIN_SLOT_DURATION_MILLIS : Z := 6000.
Definition RuntimeBlockLength : Z := 5 * 1024 * 1024.
Definition SS58Prefix : Z := 42.

(** [BlockHashCount] is a constant of the Polkadot crates. *)
Definition system_config : SystemConfig :=
  {| base_call_filter _ := true; hashing := "BlakeTwo256";
     lookup_addresses := "AccountIdLookup"; on_set_code := ParachainSetCode;
     block_length := RuntimeBlockLength; block_hash_count := None;
     ss58_prefix := SS58Prefix; max_consumers := 16 |}.
Definition MinimumPeriod : Z := ParaWeights.SLOT_DURATION / 2.
Definition ExistentialDeposit : Z := ParaWeights.EXISTENTIAL_DEPOSIT.
Definition balances_config : BalancesConfig :=
  {| max_locks := 50; max_reserves := 50; existential_deposit := ExistentialDeposit;
     max_holds := 0; max_freezes := 0 |}.
Definition UNIT : Z := 1000000000000.
Definition DOLLARS : Z := UNIT.
Definition CENTS : Z := DOLLARS / 100.
Definition MILLICENTS : Z := CENTS / 1000.
Definition deposit (items nbytes : Z) : Z := items * 15 * CENTS + nbytes * CENTS.
Definition AssetDeposit : Z := 10 * UNIT.
Definition AssetAccountDeposit : Z := DOLLARS.
Definition ApprovalDeposit : Z := ExistentialDeposit.
Definition AssetsStringLimit : Z := 50.
Definition MetadataDepositBase : Z := deposit 1 68.
Definition MetadataDepositPerByte : Z := deposit 0 1.
Definition assets_config : AssetsConfig :=
  {| asset_deposit := AssetDeposit; asset_account_deposit := AssetAccountDeposit;
     metadata_deposit_base := MetadataDepositBase;
     metadata_deposit_per_byte := MetadataDepositPerByte;
     approval_deposit := ApprovalDeposit; string_limit := AssetsStringLimit;
     remove_items_limit := 1000 |}.

(** [ConstantMultiplier<Balance, TransactionByteFee>] saturates. *)
Definition length_to_fee (len : Z) : Z := Z.min u128_max (len * ParaWeights.TransactionByteFee).
Definition OperationalFeeMultiplier : Z := 5.

Definition ReservedXcmpWeight (max_pov_size : Z) : Weight :=
  from_parts (ref_time (ParaWeights.MAXIMUM_BLOCK_WEIGHT max_pov_size) / 4)
             (proof_size (ParaWeights.MAXIMUM_BLOCK_WEIGHT max_pov_size) / 4).
Definition ReservedDmpWeight (max_pov_size : Z) : Weight :=
  from_parts (ref_time (ParaWeights.MAXIMUM_BLOCK_WEIGHT max_pov_size) / 4)
             (proof_size (ParaWeights.MAXIMUM_BLOCK_WEIGHT max_pov_size) / 4).

(** [FixedVelocityConsensusHook]: slot duration of the relay chain, velocity, capacity. *)
Definition consensus_hook : Z * Z * Z :=
  (RELAY_CHAIN_SLOT_DURATION_MILLIS, BLOCK_PROCESSING_VELOCITY, UNINCLUDED_SEGMENT_CAPACITY).

Definition Offset : Z := 0.
(** [pallet_session::Config]: the period and the offset of the sessions. *)
Definition periodic_sessions : Z * Z := (ParaWeights.Period, Offset).
Definition aura_config : AuraConfig :=
  {| aura_max_authorities := 100000; allow_multiple_blocks_per_slot := false |}.
Definition PotId : bytes := b_ "PotStake".

Record CollatorSelectionConfig := {
  pot_id : bytes;
  max_candidates : Z;
  min_eligible_collators : Z;
  max_invulnerables : Z;
  kick_threshold : Z
}.
Definition collator_selection_config : CollatorSelectionConfig :=
  {| pot_id := PotId; max_candidates := 100; min_eligible_collators := 4;
     max_invulnerables := 20; kick_threshold := ParaWeights.Period |}.

Definition collation_info_api : ApiImpl := {| api := "CollectCollationInfo"; methods := [
  ("collect_collation_info", Calls "ParachainSystem" "collect_collation_info")]%string |}.
Definition genesis_builder_api : ApiImpl := {| api := "GenesisBuilder"; methods := [
  ("create_default_config", Calls "GenesisBuilder" "create_default_config");
  ("build_config", Calls "GenesisBuilder" "build_config")]%string |}.
Definition runtime_apis : list ApiImpl := [
  aura_api; core_api; metadata_api; block_builder_api; sygma_bridge_api;
  tagged_transaction_queue_api; offchain_worker_api; session_keys_api; account_nonce_api;
  transaction_payment_api; transaction_payment_call_api; collation_info_api;
  genesis_builder_api].

Definition benches : list (string * string) := [
  ("frame_system", "SystemBench"); ("pallet_balances", "Balances");
  ("pallet_session", "SessionBench"); ("pallet_timestamp", "Timestamp");
  ("pallet_sudo", "Sudo"); ("pallet_collator_selection", "CollatorSelection");
  ("cumulus_pallet_xcmp_queue", "XcmpQueue"); ("frame_benchmarking", "BaselineBench");
  ("sygma_bridge", "SygmaBridge"); ("sygma_access_segregator", "SygmaAccessSegregator");
  ("sygma_basic_feehandler", "SygmaBasicFeeHandler");
  ("sygma_percentage_feehandler", "SygmaPercentageFeeHandler");
  ("sygma_fee_handler_router", "SygmaFeeHandlerRouter")]%string.
Definition dispatch_benchmark {Batch} (run : string -> list Batch)
    : outcome string (list Batch) :=
  match batches benches run with
  | [] => Err "Benchmark not found for this pallet."%string
  | bs => Ok bs
  end.

Definition benchmark_list {Bench Storage} : (string -> list Bench) -> list Storage ->
    list Bench * list Storage := benchmark_metadata benches.
Definition on_runtime_upgrade {Error} : Error + Weight -> Weight -> outcome Error (Weight * Weight) :=
  try_runtime_upgrade.
Definition execute_block {Error} : Error + Weight -> outcome Error Weight := try_execute_block.

(** The bounds on [C::Api] of [create_full]. *)
Definition rpc_apis : list string :=
  ["TransactionPaymentApi"; "AccountNonceApi"; "BlockBuilder"]%string.
End ParaFrame.

(** ** Facts *)

(** A slot is twice the least time between two blocks, as [pallet_aura] wants it. *)
Lemma slot_twice_minimum_period :
  StandaloneWeights.SLOT_DURATION = 2 * StandaloneFrame.MinimumPeriod /\
  ParaWeights.SLOT_DURATION = 2 * ParaFrame.MinimumPeriod.
Proof. split; reflexivity. Qed.

(** Two relay chain slots make a parachain block. *)
Lemma two_relay_slots_per_block :
  ParaWeights.MILLISECS_PER_BLOCK = 2 * ParaFrame.RELAY_CHAIN_SLOT_DURATION_MILLIS.
Proof. reflexivity. Qed.

(** Downward and horizontal messages leave half of the block. *)
Lemma messages_leave_half max_pov_size :
  ref_time (ParaFrame.ReservedXcmpWeight max_pov_size) + ref_time (ParaFrame.ReservedDmpWeight max_pov_size)
    <= ref_time (ParaWeights.MAXIMUM_BLOCK_WEIGHT max_pov_size) / 2 /\
  proof_size (ParaFrame.ReservedXcmpWeight max_pov_size) + proof_size (ParaFrame.ReservedDmpWeight max_pov_size)
    <= proof_size (ParaWeights.MAXIMUM_BLOCK_WEIGHT max_pov_size) / 2.
Proof.
  unfold ParaFrame.ReservedXcmpWeight, ParaFrame.ReservedDmpWeight. cbn [ref_time proof_size].
  split; Z.to_euclidean_division_equations; lia.
Qed.

(** No [deposit] of [u32] counts leaves [u128], at any step of its evaluation. *)
Lemma deposit_fits items nbytes :
  0 <= items <= u32_max -> 0 <= nbytes <= u32_max ->
  0 <= items * 15 * ParaFrame.CENTS /\ 0 <= nbytes * ParaFrame.CENTS /\
  ParaFrame.deposit items nbytes = StandaloneFrame.deposit items nbytes /\
  ParaFrame.deposit items nbytes < u128_max.
Proof.
  unfold ParaFrame.deposit, StandaloneFrame.deposit.
  change ParaFrame.CENTS with 10000000000. change StandaloneFrame.CENTS with 10000000000.
  unfold u32_max, u128_max. lia.
Qed.

(** The fee of a length never wraps, and is monotone. *)
Lemma length_to_fee_mono l1 l2 :
  0 <= l1 <= l2 ->
  0 <= ParaFrame.length_to_fee l1 <= ParaFrame.length_to_fee l2 /\
  ParaFrame.length_to_fee l2 <= u128_max.
Proof.
  unfold ParaFrame.length_to_fee. change ParaWeights.TransactionByteFee with 10000000.
  unfold u128_max. lia.
Qed.

(** Every method of the runtime APIs reaches a pallet of the runtime, the executive or the
    runtime, and the RPC modules of the node find the APIs they need. *)
Lemma apis_resolve :
  forallb (fun a => forallb (fun m => resolves Standalone.construct_runtime_index (snd m)) (methods a))
    StandaloneFrame.runtime_apis = true /\
  forallb (fun a => forallb (fun m => resolves Para.construct_runtime_index (snd m)) (methods a))
    ParaFrame.runtime_apis = true /\
  implements StandaloneFrame.runtime_apis StandaloneFrame.rpc_apis = true /\
  implements ParaFrame.runtime_apis ParaFrame.rpc_apis = true.
Proof. split_and!; vm_compute; reflexivity. Qed.

(** The session keys are keys of the pallets that author and finalise. *)
Lemma session_keys_resolve :
  Forall (fun k => is_Some (Standalone.construct_runtime_index k)) StandaloneFrame.SessionKeys /\
  Forall (fun k => is_Some (Para.construct_runtime_index k)) ParaFrame.SessionKeys.
Proof. split; repeat constructor; eauto. Qed.

(** The benchmark extrinsics carry the extensions the runtime checks, in its order, and
    the versions it announces. *)
Lemma benchmark_extra_matches {Era} (mortal : Z -> Z -> Era) client nonce :
  map extension_name (signed_extra mortal client nonce) = StandaloneFrame.SignedExtra /\
  spec_version = version_spec StandaloneFrame.VERSION /\
  transaction_version = version_transaction StandaloneFrame.VERSION.
Proof. split_and!; reflexivity. Qed.

(** A pallet with no benchmark is an error of the parachain runtime, and an empty answer
    of the standalone one. *)
Lemma no_benchmarks {Batch} (run : string -> list Batch) :
  (forall p, run p = []) ->
  ParaFrame.dispatch_benchmark run = Err "Benchmark not found for this pallet."%string /\
  StandaloneFrame.dispatch_benchmark run = Ok [].
Proof.
  intros Hrun. unfold ParaFrame.dispatch_benchmark, StandaloneFrame.dispatch_benchmark, batches.
  split; simpl; rewrite !Hrun; reflexivity.
Qed.

(** The two existential deposits of the standalone runtime differ: balances are kept above
    500, and an approval is charged 1. *)
Theorem existential_deposits_differ :
  existential_deposit StandaloneFrame.balances_config = 500 /\
  approval_deposit StandaloneFrame.assets_config = 1 /\
  existential_deposit ParaFrame.balances_config = approval_deposit ParaFrame.assets_config.
Proof. split_and!; reflexivity. Qed.
