(* ===== verification/BridgeMock.v ===== *)
(** * The mock runtime of the bridge pallet ([bridge/src/mock.rs])

    The configuration the pallet's own tests run on; the concrete scenarios of this
    development use it too. *)

From S2P Require Import Prelude Xcm Frame Traits AccessSegregator BasicFeeHandler.
From S2P Require Import PercentageFeeHandler FeeHandlerRouter Encode Eip712 Bridge.
From S2P Require Import BridgeDeposit DecimalConverter RuntimeCommon.

Module Mock.

Definition AccessSegregatorPalletIndex : Z := 4.
Definition BaiscFeeHandlerPalletIndex : Z := 5.
Definition BridgePalletIndex : Z := 6.
Definition PercentageFeeHandlerPalletIndex : Z := 7.
Definition FeeHandlerRouterPalletIndex : Z := 8.

Definition RegisteredExtrinsics : list (Z * bytes) := [
  (AccessSegregatorPalletIndex, b_ "grant_access");
  (BaiscFeeHandlerPalletIndex, b_ "set_fee");
  (PercentageFeeHandlerPalletIndex, b_ "set_fee_rate");
  (FeeHandlerRouterPalletIndex, b_ "set_fee_handler");
  (BridgePalletIndex, b_ "set_mpc_address");
  (BridgePalletIndex, b_ "pause_bridge");
  (BridgePalletIndex, b_ "unpause_bridge");
  (BridgePalletIndex, b_ "register_domain");
  (BridgePalletIndex, b_ "unregister_domain");
  (BridgePalletIndex, b_ "retry");
  (BridgePalletIndex, b_ "pause_all_bridges");
  (BridgePalletIndex, b_ "unpause_all_bridges")].

(** [Config] of the access segregator and of the fee handlers *)
Definition access_config : AccessConfig :=
  {| bridge_committee_origin := ensure_root;
     access_pallet_index := AccessSegregatorPalletIndex;
     extrinsics := RegisteredExtrinsics |}.
Definition basic_config : BasicFeeConfig :=
  {| basic_pallet_index := BaiscFeeHandlerPalletIndex |}.
Definition percentage_config : PercentageFeeConfig :=
  {| percentage_pallet_index := PercentageFeeHandlerPalletIndex |}.
Definition router_config : RouterConfig :=
  {| router_pallet_index := FeeHandlerRouterPalletIndex |}.

(** The indices [construct_runtime!] gives the pallets. *)
Definition construct_runtime_index (pallet : string) : option Z :=
  match pallet with
  | "System"%string => Some 0
  | "Balances"%string => Some 1
  | "Assets"%string => Some 2
  | "Timestamp"%string => Some 3
  | "AccessSegregator"%string => Some 4
  | "SygmaBasicFeeHandler"%string => Some 5
  | "SygmaBridge"%string => Some 6
  | "SygmaPercentageFeeHandler"%string => Some 7
  | "SygmaFeeHandlerRouter"%string => Some 8
  | _ => None
  end.

Definition slice_to_generalkey (key : bytes) : outcome DispatchError Junction :=
  RuntimeCommon.slice_to_generalkey key.

Definition NativeLocation : MultiLocation := loc_here.
Definition UsdtAssetId : Z := 0.
Definition UsdtLocation : MultiLocation :=
  ML 1 (X3 (Parachain 2005) (general_key (b_ "sygma")) (general_key (b_ "usdt"))).
Definition AstrAssetId : Z := 1.
Definition AstrLocation : MultiLocation :=
  ML 1 (X3 (Parachain 2005) (general_key (b_ "sygma")) (general_key (b_ "astr"))).
Definition NativeResourceId : ResourceId :=
  hex "00e6dfb61a2fb903df487c401663825643bb825d41695e63df8af6162ab145a6".
Definition UsdtResourceId : ResourceId :=
  hex "00b14e071ddad0b12be5aca6dffc5f2584ea158d9b0ce73e1437115e97a32a3e".
Definition AstrResourceId : ResourceId :=
  hex "4e071db61a2fb903df487c401663825643ba158d9b0ce73e1437163825643bba".

Definition ResourcePairs : list (AssetId * ResourceId) := [
  (Concrete NativeLocation, NativeResourceId);
  (Concrete UsdtLocation, UsdtResourceId);
  (Concrete AstrLocation, AstrResourceId)].

Definition AssetDecimalPairs : list (AssetId * Z) := [
  (Concrete NativeLocation, 12);
  (Concrete UsdtLocation, 18);
  (Concrete AstrLocation, 24)].

Definition TreasuryAccount : AccountId := replicate 32 100.
(** [U256([1u64; 4])] *)
Definition EIP712ChainID : ChainID := 1 + 2 ^ 64 + 2 ^ 128 + 2 ^ 192.
Definition DestVerifyingContractAddress : bytes := replicate 20 1.
Definition SygmaBridgePalletId : bytes := b_ "sygma/01".

Definition ALICE : AccountId := replicate 32 0.
Definition ASSET_OWNER : AccountId := replicate 32 1.
Definition BOB : AccountId := replicate 32 2.
Definition ENDOWED_BALANCE : Z := 1000000000000000000000000000.
Definition DEST_DOMAIN_ID : DomainID := 1.

(** [SimpleForeignAssetConverter] *)
Definition simple_foreign_asset_converter (a : MultiAsset) : option (Z * Z) :=
  matches_fungibles [(UsdtLocation, UsdtAssetId); (AstrLocation, AstrAssetId)] a.

(** [DestinationDataParser]: two keys, the recipient and the domain, which is the
    first byte of the second key and not zero. *)
Definition extract_dest (dest : MultiLocation)
    : outcome DispatchError (option (bytes * DomainID)) :=
  match parents dest, interior dest with
  | 0, X2 (GeneralKey recipient_len recipient) (GeneralKey _domain_len dest_domain_id) =>
      let domain_id := default 0 (head dest_domain_id) in
      if domain_id =? 0 then Ok None
      else match key_slice recipient_len recipient with
           | Ok r => Ok (Some (r, domain_id))
           | Err e => Err e
           | Panic => Panic
           end
  | _, _ => Ok None
  end.

Definition destination_data_parser : ExtractDestinationData :=
  {| Traits.extract_dest := extract_dest |}.

Section Config.
Context {L : Type} `{Crypto} `{EthAbi} `{LocationCodec} `{XcmLocations} `{FixedU112F16}
  `{PalletIdAccounts}.
(** [AssetTransactors = (CurrencyTransactor, FungiblesTransactor)], and the static
    string of a dispatch error. *)
Context (asset_transactors : TransactAsset L) (error_str : DispatchError -> bytes).

Definition BridgeAccountNative : AccountId := into_account_truncating SygmaBridgePalletId.
Definition BridgeAccountOtherTokens : AccountId :=
  into_sub_account_truncating SygmaBridgePalletId 1.

Definition bridge_accounts_generator : gmap AssetId AccountId :=
  account_map [(NativeLocation, BridgeAccountNative);
               (UsdtLocation, BridgeAccountOtherTokens);
               (AstrLocation, BridgeAccountOtherTokens)].

(** [ConcrateSygmaAsset::id], [::origin] and [ReserveChecker] *)
Definition sygma_asset_id (asset : MultiAsset) : option MultiLocation :=
  concrate_sygma_asset_id asset.
Definition sygma_asset_origin (asset : MultiAsset) : option MultiLocation :=
  concrate_sygma_asset_origin asset.
Definition reserve_checker : ContainsPair := {| contains := reserve_contains |}.

(** [SygmaDecimalConverter<AssetDecimalPairs>] *)
Definition convert_to (asset : MultiAsset) := sygma_convert_to AssetDecimalPairs asset.
Definition convert_from (asset : MultiAsset) := sygma_convert_from AssetDecimalPairs asset.
Definition decimal_converter : DecimalConverter :=
  {| Traits.convert_to := convert_to; Traits.convert_from := convert_from |}.

(** [impl sygma_bridge::Config for Runtime] *)
Definition bridge_config : BridgeConfig L :=
  {| Bridge.bridge_access := access_config;
     Bridge.transfer_reserve_accounts := bridge_accounts_generator;
     Bridge.dest_verifying_contract_address := DestVerifyingContractAddress;
     Bridge.eip712_chain_id := EIP712ChainID;
     Bridge.fee_reserve_account := TreasuryAccount;
     Bridge.bridge_fee_handler := fee_handler_router;
     Bridge.asset_transactor := asset_transactors;
     Bridge.resource_pairs := ResourcePairs;
     Bridge.is_reserve := reserve_checker;
     Bridge.extract_dest_data := destination_data_parser;
     Bridge.pallet_account := into_bytes_truncating SygmaBridgePalletId;
     Bridge.bridge_pallet_index := BridgePalletIndex;
     Bridge.decimal_converter := decimal_converter;
     Bridge.error_str := error_str |}.
End Config.

End Mock.
