(* ===== verification/TypingRuntimes.v ===== *)
(** * The runtimes are typed

    The router, the decimal converter and the destination parsers return values of
    their Rust types, so the configurations of the mock, the standalone and the
    parachain runtime satisfy [TypedConfig]. *)

From S2P Require Import Prelude Xcm Frame Traits AccessSegregator BasicFeeHandler.
From S2P Require Import PercentageFeeHandler FeeHandlerRouter Encode Eip712 Bridge.
From S2P Require Import BridgeDeposit DecimalConverter RuntimeCommon StandaloneRuntime.
From S2P Require Import XcmBridge Forwarder ParachainRuntime BridgeMock System Typing.

(** ** Fees *)

Section Fees.
Context {L : Type}.
Implicit Types (w : World L).

Lemma percentage_get_fee_typed w d asset fee :
  world_typed w -> asset_typed asset -> percentage_get_fee w d asset = Some fee ->
  is_u u128_max fee.
Proof.
  intros Hw [_ Hx]. unfold percentage_get_fee.
  destruct (asset_fun asset) as [x|]; [|done].
  destruct (_ !! _) as [[[r lo] hi]|] eqn:Hr; [|done].
  apply (ty_rates _ Hw) in Hr as [_ (Hrt & Hlo & Hhi)].
  unfold saturating_mul, is_u in *.
  assert (0 <= Z.min u128_max (x * r) / 10000 <= u128_max).
  { split; [apply Z.div_pos; [|lia]; unfold u128_max in *; nia|].
    apply Z.div_le_upper_bound; [lia|]. unfold u128_max. lia. }
  repeat case_match; intros [= <-]; lia.
Qed.

Lemma router_get_fee_typed w d asset fee :
  world_typed w -> asset_typed asset -> router_get_fee w d asset = Some fee ->
  is_u u128_max fee.
Proof.
  intros Hw Ha. unfold router_get_fee.
  destruct (HandlerType w !! _) as [[]|]; try done.
  - unfold basic_get_fee. intros Hf. by apply (ty_fees _ Hw) in Hf as [_ ?].
  - by apply percentage_get_fee_typed.
Qed.
End Fees.

(** ** Decimals *)

Section Decimals.
Context `{FixedU112F16} (pairs : list (AssetId * Z)).

Lemma fx_to_num_typed v : is_u u128_max (fx_to_num v).
Proof.
  rewrite fx_to_num_spec. pose proof (fx_range v). unfold is_u, u128_max.
  split; [apply Z.div_pos; lia|]. apply Z.div_le_upper_bound; lia.
Qed.

Lemma divide_typed x k r : divide x k = Ok r -> is_u u128_max r.
Proof.
  unfold divide, to_num_or_zero. repeat case_match; try done; intros [= <-];
    apply fx_to_num_typed.
Qed.
Lemma multiply_typed x k r : multiply x k = Ok r -> is_u u128_max r.
Proof.
  unfold multiply. repeat case_match; try done; intros [= <-]; apply fx_to_num_typed.
Qed.

Lemma sygma_convert_to_typed asset x :
  asset_typed asset -> sygma_convert_to pairs asset = Ok (Some x) -> is_u u128_max x.
Proof.
  intros [_ Hx]. unfold sygma_convert_to. destruct (asset_fun asset); [|done].
  destruct (decimals_of _ _); [|done]. unfold convert_to_decimals.
  repeat case_match; try done; intros [= <-]; eauto using divide_typed, multiply_typed.
Qed.

Lemma sygma_convert_from_typed asset asset' :
  asset_typed asset -> sygma_convert_from pairs asset = Ok (Some asset') ->
  asset_typed asset'.
Proof.
  intros [Hid Hx]. unfold sygma_convert_from. destruct (asset_fun asset); [|done].
  destruct (decimals_of _ _); [|done]. unfold convert_from_decimals.
  repeat case_match; simplify_eq/=; try done; intros [= <-]; (apply asset_of_typed; [done|]);
    eauto using divide_typed, multiply_typed.
Qed.
End Decimals.

(** ** Destinations *)

Lemma key_slice_typed n data r :
  Forall is_byte data -> key_slice n data = Ok r -> Forall is_byte r.
Proof.
  unfold key_slice. intros Hd. case_match; [|done]. intros [= <-]. by apply Forall_take.
Qed.

(** The parser of the mock and of the standalone runtime. *)
Lemma two_keys_typed dest recipient d :
  location_wf dest -> Standalone.extract_dest dest = Ok (Some (recipient, d)) ->
  Forall is_byte recipient /\ is_u u8_max d.
Proof.
  intros [_ Hj]. unfold Standalone.extract_dest. destruct dest as [p js]. simpl in *.
  destruct p; try done. destruct js as [| |a b| | | | | |]; try done.
  destruct a as [| | | | |n data| |]; try done. destruct b as [| | | | |m dom| |]; try done.
  simpl in Hj. rewrite !Forall_cons in Hj.
  destruct Hj as ([_ [_ Hdata]] & [_ [Hl Hdom]] & _).
  case_match; [done|]. destruct (key_slice n data) eqn:Hk; try done. intros [= <- <-].
  split; [exact (key_slice_typed _ _ _ Hdata Hk)|]. destruct dom as [|b dom]; [done|].
  apply Forall_cons in Hdom as [Hb _]. simpl. unfold is_byte, is_u, u8_max in *. lia.
Qed.

Lemma path_typed dest recipient d :
  location_wf dest -> Para.extract_dest dest = Ok (Some (recipient, d)) ->
  Forall is_byte recipient /\ is_u u8_max d.
Proof.
  intros [_ Hj]. unfold Para.extract_dest. destruct dest as [p js]. simpl in *.
  destruct p; try done. destruct js as [| | |a b c| | | | |]; try done.
  destruct a as [| | | | |n path| |]; try done. destruct b as [| | | |i| | |]; try done.
  destruct c as [| | | | |m data| |]; try done.
  simpl in Hj. rewrite !Forall_cons in Hj.
  destruct Hj as (_ & Hi & [_ [_ Hdata]] & _). cbn in Hi.
  destruct (key_slice n path); try done. case_decide; [|done].
  unfold try_into. destruct (Z.leb_spec i u8_max); [|done].
  destruct (key_slice m data) eqn:Hk; try done. intros [= <- <-].
  split; [exact (key_slice_typed _ _ _ Hdata Hk)|]. unfold is_u in *. lia.
Qed.

(** ** The three configurations *)

Section Runtimes.
Context {L : Type} `{Crypto} `{EthAbi} `{LocationCodec} `{XcmLocations} `{FixedU112F16}
  `{PalletIdAccounts} (transactor : TransactAsset L) (error_str : DispatchError -> bytes).
(** Accounts of a pallet have 32 bytes, and decoding yields values of the type. *)
Context
  (account_array : forall id, Forall is_byte id -> account_typed (into_account_truncating id))
  (sub_account_array : forall id n, Forall is_byte id -> is_byte n ->
     account_typed (into_sub_account_truncating id n))
  (decode_typed : forall bs l, Forall is_byte bs -> loc_decode bs = Some l -> location_wf l).

Lemma account_map_typed entries :
  Forall (fun e => account_typed e.2) entries ->
  map_Forall (fun _ id => account_typed id) (account_map entries).
Proof.
  unfold account_map. intros He.
  assert (forall m : gmap AssetId AccountId, map_Forall (fun _ id => account_typed id) m ->
    map_Forall (fun _ id => account_typed id)
      (fold_left (fun m e => <[Concrete e.1 := e.2]> m) entries m)) as Hf.
  { induction He as [|e entries Hx _ IH]; [done|]. intros m Hm. simpl. apply IH.
    by apply map_Forall_insert_2. }
  apply Hf, map_Forall_empty.
Qed.

Ltac typed_config parser :=
  split;
  [ apply (bool_decide_unpack _); vm_compute; done
  | apply account_map_typed; rewrite !Forall_cons; split_and!; try apply Forall_nil; try done;
    first [apply account_array | apply sub_account_array]; apply (bool_decide_unpack _);
    vm_compute; done
  | apply (bool_decide_unpack _); vm_compute; done
  | exact parser
  | exact router_get_fee_typed
  | exact (sygma_convert_to_typed _)
  | exact (sygma_convert_from_typed _)
  | exact decode_typed ].

Lemma mock_typed : TypedConfig L (H := Mock.bridge_config transactor error_str).
Proof. typed_config two_keys_typed. Qed.
Lemma standalone_typed : TypedConfig L (H := Standalone.bridge_config transactor error_str).
Proof. typed_config two_keys_typed. Qed.
Lemma parachain_typed : TypedConfig L (H := Para.bridge_config error_str transactor).
Proof. typed_config path_typed. Qed.
End Runtimes.
