(* ===== verification/Pegs.v ===== *)
(** * The pegs of the runtimes

    A table of resources, a table of decimals and the fixed-point converter make every
    resource of a runtime a peg: the conversions never gain, in any branch, be it the
    one without a range guard.  What is left to the environment is that the account that
    collects the fees is none of the holding accounts. *)

From S2P Require Import Prelude Xcm Frame Traits AccessSegregator BasicFeeHandler.
From S2P Require Import PercentageFeeHandler FeeHandlerRouter Encode Eip712 Bridge.
From S2P Require Import BridgeDeposit DecimalConverter RuntimeCommon StandaloneRuntime.
From S2P Require Import ParachainRuntime BridgeMock Relay Circulation.

(** ** Positions in a table *)

Lemma position_some {A} (p : A -> bool) l i :
  position p l = Some i -> exists x, l !! i = Some x /\ p x = true.
Proof.
  revert i. induction l as [|x l IH]; intros i; simpl; [done|]. destruct (p x) eqn:Hp.
  - intros [= <-]. by exists x.
  - destruct (position p l) as [j|]; [|done]. simpl. intros [= <-]. by apply IH.
Qed.

Lemma position_unique {A B} (f : A -> B) `{EqDecision B} (l : list A) x :
  NoDup (f <$> l) -> x ∈ l ->
  exists i, position (fun a => bool_decide (f a = f x)) l = Some i /\ l !! i = Some x.
Proof.
  induction l as [|y l IH]; intros Hn Hx; [by apply not_elem_of_nil in Hx|].
  rewrite fmap_cons in Hn. apply NoDup_cons in Hn as [Hy Hn].
  apply elem_of_cons in Hx as [<-|Hx]; simpl.
  - rewrite bool_decide_eq_true_2 by done. by exists 0%nat.
  - rewrite bool_decide_eq_false_2.
    + destruct (IH Hn Hx) as (i & -> & Hi). by exists (S i).
    + intros He. apply Hy. rewrite He. by apply list_elem_of_fmap_2.
Qed.

(** ** Conversions never gain *)

Section Converter.
Context `{FixedU112F16} (decimal_pairs : list (AssetId * Z)).

Lemma divide_no_gain amount k r :
  is_u u128_max amount -> 0 <= k <= 33 -> divide amount k = Ok r -> r * 10 ^ k <= amount.
Proof.
  unfold is_u, u128_max. intros Ha Hk. pose proof (pow10_small k Hk) as Hp. unfold divide.
  destruct (from_pow10 k Hk) as (a & -> & Hab).
  assert (Hx : forall x, fx_from_num amount = Ok x -> fx_bits x <= amount * 2 ^ 16).
  { intros x Hx. destruct (Z.lt_ge_cases amount (2 ^ 112)).
    - destruct (fx_from_num_fits amount) as (v & Hv & Hb); [lia|].
      rewrite Hx in Hv. injection Hv as <-. lia.
    - destruct (fx_from_num_wraps amount) as [Hv|(v & Hv & Hb)]; [unfold u128_max; lia|..];
        rewrite Hx in Hv; [done|]. injection Hv as <-. rewrite Hb. apply Z.mod_le; lia. }
  destruct (fx_from_num amount) as [x| |]; try done. specialize (Hx x eq_refl).
  pose proof (fx_range x) as Hr.
  destruct (fx_checked_div_fits x a) as (v & -> & Hv); [lia|..].
  { rewrite Hab. apply Z.div_lt_upper_bound; nia. }
  simpl. intros [= <-]. rewrite fx_to_num_spec, Hv, Hab.
  rewrite Z.div_mul_cancel_r by lia. rewrite Z.div_div by lia.
  pose proof (Z.mul_div_le (fx_bits x) (10 ^ k * 2 ^ 16)). nia.
Qed.

Lemma multiply_no_gain amount k r :
  0 <= amount <= max_amount -> 0 <= k <= 33 -> multiply amount k = Ok r -> r <= amount * 10 ^ k.
Proof. intros Ha Hk. rewrite multiply_saturates by done. intros [= <-]. lia. Qed.
End Converter.

(** ** Tables *)

Section Tables.
Context {L : Type} `{BridgeConfig L} `{FixedU112F16} (decimals : list (AssetId * Z)).

(** The peg of an asset with the given number of decimals; the relayers count in 18. *)
Definition table_peg (aid : AssetId) (decimal : Z) : Peg :=
  {| peg_asset := aid;
     peg_num := if decimal <=? 18 then 10 ^ (18 - decimal) else 1;
     peg_den := if decimal <=? 18 then 1 else 10 ^ (decimal - 18);
     peg_holder := if contains (asset_of aid 0) loc_here
                   then get_token_reserved_account aid else None |}.

Record sound_tables : Prop := {
  tables_to asset : convert_to asset = sygma_convert_to decimals asset;
  tables_from asset : convert_from asset = sygma_convert_from decimals asset;
  tables_assets : NoDup resource_pairs.*1;
  tables_rids : NoDup resource_pairs.*2;
  tables_accounts :
    Forall (fun p => exists id, get_token_reserved_account p.1 = Some id /\
      fee_reserve_account <> id) resource_pairs;
  tables_reserve aid x :
    contains (asset_of aid x) loc_here = contains (asset_of aid 0) loc_here
}.

Lemma table_peg_to aid decimal x y :
  decimals_of decimals aid = Some decimal -> 0 <= decimal <= 51 -> is_u u128_max x ->
  sygma_convert_to decimals (asset_of aid x) = Ok (Some y) ->
  peg_den (table_peg aid decimal) * y <= peg_num (table_peg aid decimal) * x.
Proof.
  intros Hd Hb Hx. unfold sygma_convert_to. simpl. rewrite Hd. unfold convert_to_decimals.
  destruct (Z.eqb_spec decimal 18) as [->|]; [intros [= <-]; simpl; lia|].
  destruct (Z.ltb_spec 18 decimal).
  - rewrite (proj2 (Z.leb_gt decimal 18)) by lia.
    destruct (divide x (decimal - 18)) as [r| |] eqn:Hr; try done.
    apply divide_no_gain in Hr; [|done|lia]. destruct (r =? 0); [done|]. intros [= <-]. lia.
  - rewrite (proj2 (Z.leb_le decimal 18)) by lia. rewrite exceeds_max_spec.
    case_bool_decide; [done|]. unfold is_u in Hx.
    destruct (multiply x (18 - decimal)) as [r| |] eqn:Hr; try done.
    apply multiply_no_gain in Hr; [|lia..]. intros [= <-]. lia.
Qed.

Lemma table_peg_from aid decimal x y out :
  decimals_of decimals aid = Some decimal -> 0 <= decimal <= 51 -> is_u u128_max y ->
  sygma_convert_from decimals (asset_of aid y) = Ok (Some out) -> asset_fun out = Fungible x ->
  peg_num (table_peg aid decimal) * x <= peg_den (table_peg aid decimal) * y.
Proof.
  intros Hd Hb Hy. unfold sygma_convert_from. simpl. rewrite Hd. unfold convert_from_decimals.
  destruct (Z.eqb_spec decimal 18) as [->|]; [intros [= <-] [= <-]; simpl; lia|].
  destruct (Z.ltb_spec 18 decimal).
  - rewrite (proj2 (Z.leb_gt decimal 18)) by lia. rewrite exceeds_max_spec.
    case_bool_decide; [done|]. unfold is_u in Hy.
    destruct (multiply y (decimal - 18)) as [r| |] eqn:Hr; try done.
    apply multiply_no_gain in Hr; [|lia..]. intros [= <-] [= <-]. lia.
  - rewrite (proj2 (Z.leb_le decimal 18)) by lia.
    destruct (divide y (18 - decimal)) as [r| |] eqn:Hr; try done.
    apply divide_no_gain in Hr; [|done|lia]. destruct (r =? 0); [done|].
    intros [= <-] [= <-]. lia.
Qed.

Lemma convert_from_id aid y out :
  sygma_convert_from decimals (asset_of aid y) = Ok (Some out) -> asset_id out = aid.
Proof.
  unfold sygma_convert_from. simpl. destruct (decimals_of decimals aid); [|done].
  destruct (convert_from_decimals _ _) as [[]| |]; simpl; try done. by intros [= <-].
Qed.

(** Every row of sound tables is a peg. *)
Lemma table_pegged aid rid decimal :
  sound_tables -> (aid, rid) ∈ resource_pairs -> decimals_of decimals aid = Some decimal ->
  0 <= decimal <= 51 -> pegged (table_peg aid decimal) rid.
Proof.
  intros Ht Hin Hd Hb.
  pose proof (tables_accounts Ht) as Hacc. rewrite Forall_forall in Hacc.
  destruct (Hacc _ Hin) as (id & Hid & Hfee). simpl in Hid.
  split.
  - simpl. pose proof (Z.pow_pos_nonneg 10 (18 - decimal)).
    pose proof (Z.pow_pos_nonneg 10 (decimal - 18)). destruct (Z.leb_spec decimal 18); lia.
  - intros asset rid' amount ty Ha. unfold extract_asset in Ha. destruct (asset_fun asset); [|done].
    destruct (position _ _) as [i|] eqn:Hp; simpl in Ha; [|done].
    apply position_some in Hp as ([a r] & Hi & Hx). rewrite Hi in Ha. simplify_eq/=.
    apply bool_decide_eq_true in Hx as ->. apply list_elem_of_lookup_2 in Hi. split; intros He.
    + subst. by injection (column_inj snd _ _ _ (tables_rids Ht) Hi Hin eq_refl).
    + rewrite He in Hi. by injection (column_inj fst _ _ _ (tables_assets Ht) Hi Hin eq_refl).
  - intros rid' a Ha. unfold rid_to_assetid in Ha.
    destruct (position _ _) as [i|] eqn:Hp; simpl in Ha; [|done].
    apply position_some in Hp as ([a' r] & Hi & Hx). rewrite Hi in Ha. simplify_eq/=.
    apply bool_decide_eq_true in Hx as ->. apply list_elem_of_lookup_2 in Hi. split; intros ->.
    + by injection (column_inj snd _ _ _ (tables_rids Ht) Hi Hin eq_refl).
    + by injection (column_inj fst _ _ _ (tables_assets Ht) Hi Hin eq_refl).
  - intros x y Hx. rewrite (tables_to Ht). by apply table_peg_to.
  - intros a y out. rewrite (tables_from Ht). apply convert_from_id.
  - intros y out x Hy. rewrite (tables_from Ht). by apply table_peg_from.
  - intros x. rewrite (tables_reserve Ht). simpl. rewrite Hid.
    by destruct (contains _ _).
  - intros id' Hh. simpl in *. rewrite Hid in Hh.
    destruct (contains _ _); [|done]. injection Hh as <-. done.
Qed.
End Tables.

(** ** The runtimes *)

Section Runtimes.
Context {L : Type} `{Crypto} `{EthAbi} `{LocationCodec} `{XcmLocations} `{FixedU112F16}
  `{PalletIdAccounts} (transactor : TransactAsset L) (error_str : DispatchError -> bytes).
(** The treasury [[100; 32]] is no account derived from a pallet id. *)
Context
  (treasury : forall id, into_account_truncating id <> replicate 32 100)
  (sub_treasury : forall id n, into_sub_account_truncating id n <> replicate 32 100).

Ltac sound_runtime :=
  split;
  [ done
  | done
  | apply (bool_decide_unpack _); vm_compute; exact I
  | apply (bool_decide_unpack _); vm_compute; exact I
  | repeat (apply Forall_cons; split;
      [ vm_compute; eexists; split; [reflexivity|];
        first [apply not_eq_sym, treasury | apply not_eq_sym, sub_treasury] |]);
    apply Forall_nil_2
  | by intros [] x ].

Lemma standalone_sound :
  sound_tables (H := Standalone.bridge_config transactor error_str) Standalone.AssetDecimalPairs.
Proof. sound_runtime. Qed.
Lemma parachain_sound :
  sound_tables (H := Para.bridge_config error_str transactor) Para.AssetDecimalPairs.
Proof. sound_runtime. Qed.
Lemma mock_sound :
  sound_tables (H := Mock.bridge_config transactor error_str) Mock.AssetDecimalPairs.
Proof. sound_runtime. Qed.
End Runtimes.
