(* ===== verification/Adapters.v ===== *)
(** * The asset transactors of the standalone runtime and the mock

    [AssetTransactors = (CurrencyTransactor, FungiblesTransactor)]: the native asset lives
    in the balances pallet, the foreign ones in the assets pallet under the ids of
    [SimpleForeignAssetConverter].  The adapters, the pallets behind them and the tuple are
    of the XCM and FRAME crates; what is asked of them is what they document, as long as no
    balance falls below the existential deposit, where the balances pallet drops the dust.
    The tables of the runtime are what makes them one ledger: no two assets share an
    id. *)

From S2P Require Import Prelude Xcm Frame Traits AccessSegregator BasicFeeHandler.
From S2P Require Import PercentageFeeHandler FeeHandlerRouter Encode Eip712 Bridge.
From S2P Require Import BridgeDeposit Conservation System Relay Typing Supply Holding.
From S2P Require Import RuntimeCommon Circulation.

(** Where a pallet keeps an asset. *)
Inductive Place := InBalances | InAssets (id : Z).
#[export] Instance place_eq_dec : EqDecision Place.
Proof. solve_decision. Defined.

(** [IsConcrete<NativeLocation>] *)
Definition is_concrete (native : MultiLocation) (a : MultiAsset) : option Z :=
  match asset_fun a, asset_id a with
  | Fungible x, Concrete l => if decide (l = native) then Some x else None
  | _, _ => None
  end.

Definition currency_matches (native : MultiLocation) (a : MultiAsset) : option (Place * Z) :=
  (fun x => (InBalances, x)) <$> is_concrete native a.
Definition fungibles_matches (table : list (MultiLocation * Z)) (a : MultiAsset)
    : option (Place * Z) :=
  (fun '(i, x) => (InAssets i, x)) <$> matches_fungibles table a.

(** The place of an asset, by the two tables. *)
Definition place_of (native : MultiLocation) (table : list (MultiLocation * Z)) (a : AssetId)
    : option Place :=
  match currency_matches native (asset_of a 0) with
  | Some (p, _) => Some p
  | None => fst <$> fungibles_matches table (asset_of a 0)
  end.

Section Adapters.
Context {L : Type}.
Abbreviation W := (World L).
(** What the pallets hold, and in total; [LocationToAccountId]; the errors after which a
    tuple goes on to its next member. *)
Context (amount : L -> Place -> AccountId -> Z) (total : L -> Place -> Z)
  (account_of : MultiLocation -> option AccountId) (not_found : XcmError -> bool).

Definition same_amounts (w w' : W) : Prop :=
  (forall p id, amount (ledger w') p id = amount (ledger w) p id) /\
  total (ledger w') = total (ledger w).

(** An operation of an adapter on what it matches, [x] at a place, for the account of a
    location; [sign] is 1 for a credit and -1 for a debit. *)
Record adapter_op {A} (sign : Z) (m : option (Place * Z)) (who : MultiLocation)
    (run : M XcmError W A) : Prop := {
  op_unmatched w : m = None -> exists e, not_found e = true /\ run w = (Err e, w);
  op_ok w a w' p x :
    m = Some (p, x) -> run w = (Ok a, w') ->
    exists id, account_of who = Some id /\
      (forall p' id', amount (ledger w') p' id' =
         amount (ledger w) p' id' + if decide ((p', id') = (p, id)) then sign * x else 0) /\
      (forall p', total (ledger w') p' =
         total (ledger w) p' + if decide (p' = p) then sign * x else 0);
  op_err w e w' : run w = (Err e, w') -> same_amounts w w'
}.

Class Adapter (T : TransactAsset L) (matches : MultiAsset -> option (Place * Z)) : Prop := {
  adapter_withdraw what who ctx :
    adapter_op (-1) (matches what) who (withdraw_asset (TransactAsset := T) what who ctx);
  adapter_deposit what who ctx :
    adapter_op 1 (matches what) who (deposit_asset (TransactAsset := T) what who ctx)
}.

(** A pair of transactors: the second is asked when the first does not know the asset. *)
Record tuple_op {A} (run1 run2 run : M XcmError W A) : Prop := {
  tuple_first w r w1 :
    run1 w = (r, w1) -> (forall e, r = Err e -> not_found e = false) -> run w = (r, w1);
  tuple_second w e w1 r w2 :
    run1 w = (Err e, w1) -> not_found e = true -> run2 w1 = (r, w2) ->
    exists r', run w = (r', w2) /\ (r' = r \/ exists e1 e2, r = Err e1 /\ r' = Err e2)
}.

Class TransactorTuple (T1 T2 T : TransactAsset L) : Prop := {
  tuple_withdraw what who ctx :
    tuple_op (withdraw_asset (TransactAsset := T1) what who ctx)
      (withdraw_asset (TransactAsset := T2) what who ctx)
      (withdraw_asset (TransactAsset := T) what who ctx);
  tuple_deposit what who ctx :
    tuple_op (deposit_asset (TransactAsset := T1) what who ctx)
      (deposit_asset (TransactAsset := T2) what who ctx)
      (deposit_asset (TransactAsset := T) what who ctx)
}.

(** A run of a pair is one of its first member, or of both. *)
Lemma tuple_runs {A} (run1 run2 run : M XcmError W A) w r w' :
  tuple_op run1 run2 run -> run w = (r, w') -> r <> Panic ->
  run1 w = (r, w') \/
  exists e w1 r2, run1 w = (Err e, w1) /\ run2 w1 = (r2, w') /\ r2 <> Panic /\
    (r = r2 \/ exists e1 e2, r2 = Err e1 /\ r = Err e2).
Proof.
  intros [Hfst Hsnd] Hr Hnp. destruct (run1 w) as [r1 w1] eqn:H1.
  assert ((exists e, r1 = Err e /\ not_found e = true) \/
    forall e, r1 = Err e -> not_found e = false) as [(e & -> & He)|Hne].
  { destruct r1 as [|e|]; [by right| |by right].
    destruct (not_found e) eqn:He; [left; eauto|right; congruence]. }
  - destruct (run2 w1) as [r2 w2] eqn:H2.
    destruct (Hsnd _ _ _ _ _ H1 He H2) as (r' & Hr' & Hcase).
    rewrite Hr in Hr'. injection Hr' as <- <-. right. exists e, w1, r2.
    split_and!; try done. destruct Hcase as [->|(e1 & e2 & -> & _)]; done.
  - left. rewrite <- Hr. symmetry. by apply (Hfst _ _ _ H1).
Qed.

(** What the pair does to the amounts. *)
Lemma tuple_moves {A} sign m1 m2 who (run1 run2 run : M XcmError W A) w a w' :
  tuple_op run1 run2 run -> adapter_op sign m1 who run1 -> adapter_op sign m2 who run2 ->
  run w = (Ok a, w') ->
  exists p x id, (m1 = Some (p, x) \/ m2 = Some (p, x)) /\ account_of who = Some id /\
    (forall p' id', amount (ledger w') p' id' =
       amount (ledger w) p' id' + if decide ((p', id') = (p, id)) then sign * x else 0) /\
    (forall p', total (ledger w') p' =
       total (ledger w) p' + if decide (p' = p) then sign * x else 0).
Proof.
  intros Ht H1 H2 Hr.
  assert (Hone : forall m (m0 : M XcmError W A) w0 a0 w0', adapter_op sign m who m0 ->
    m0 w0 = (Ok a0, w0') -> exists p x, m = Some (p, x)).
  { intros m m0 w0 a0 w0' [Hu _ _] Hr0. destruct m as [[p x]|]; [eauto|].
    destruct (Hu w0 eq_refl) as (e & _ & He). by rewrite He in Hr0. }
  apply (tuple_runs run1 run2 run) in Hr as
    [Hr|(e & w1 & r2 & Hr1 & Hr2 & _ & [<-|(e1 & e2 & _ & [=])])]; [..|done|done].
  - destruct (Hone _ _ _ _ _ H1 Hr) as (p & x & Hm).
    destruct (op_ok _ _ _ _ H1 _ _ _ _ _ Hm Hr) as (id & Hid & Ha & Htt). eauto 10.
  - destruct (Hone _ _ _ _ _ H2 Hr2) as (p & x & Hm).
    destruct (op_ok _ _ _ _ H2 _ _ _ _ _ Hm Hr2) as (id & Hid & Ha & Htt).
    destruct (op_err _ _ _ _ H1 _ _ _ Hr1) as [Hsa Hst].
    exists p, x, id. split_and!; [by right|done|..]; intros; by rewrite ?Ha, ?Htt, ?Hsa, ?Hst.
Qed.

Lemma tuple_errs {A} sign m1 m2 who (run1 run2 run : M XcmError W A) w e w' :
  tuple_op run1 run2 run -> adapter_op sign m1 who run1 -> adapter_op sign m2 who run2 ->
  run w = (Err e, w') -> same_amounts w w'.
Proof.
  intros Ht H1 H2 Hr. apply (tuple_runs run1 run2 run) in Hr as
    [Hr|(e0 & w1 & r2 & Hr1 & Hr2 & _ & Hcase)]; [..|done|done].
  - exact (op_err _ _ _ _ H1 _ _ _ Hr).
  - assert (exists e', r2 = Err e') as [e' ->]
      by (destruct Hcase as [<-|(e1 & e2 & -> & _)]; eauto).
    destruct (op_err _ _ _ _ H1 _ _ _ Hr1) as [Ha Htt].
    destruct (op_err _ _ _ _ H2 _ _ _ Hr2) as [Ha' Htt'].
    split; [intros p id; by rewrite Ha', Ha|by rewrite Htt', Htt].
Qed.

(** What both members keep the pair keeps. *)
Lemma tuple_keeps {A} (R : W -> W -> Prop) `{!Transitive R} (run1 run2 run : M XcmError W A) :
  tuple_op run1 run2 run ->
  (forall w r w', run1 w = (r, w') -> r <> Panic -> R w w') ->
  (forall w r w', run2 w = (r, w') -> r <> Panic -> R w w') ->
  forall w r w', run w = (r, w') -> r <> Panic -> R w w'.
Proof.
  intros Ht H1 H2 w r w' Hr Hnp.
  apply (tuple_runs run1 run2 run) in Hr as
    [Hr|(e0 & w1 & r2 & Hr1 & Hr2 & Hnp2 & _)]; [..|done|done]; [by eapply H1|].
  etrans; [by eapply H1|by eapply H2].
Qed.
End Adapters.

(** ** The pair over the tables of a runtime *)

Lemma place_of_matches native table what p x :
  currency_matches native what = Some (p, x) \/ fungibles_matches table what = Some (p, x) ->
  NoDup table.*1 -> native ∉ table.*1 ->
  asset_fun what = Fungible x /\ place_of native table (asset_id what) = Some p.
Proof.
  intros Hm Hn Hnat. unfold place_of. destruct Hm as [Hm|Hm].
  - unfold currency_matches, is_concrete in *. destruct what as [[l|] [y|]]; simpl in *; try done.
    case_decide; [|done]. simpl in *. by injection Hm as <- <-.
  - unfold fungibles_matches in Hm.
    destruct (matches_fungibles table what) as [[i y]|] eqn:Hf; [|done].
    injection Hm as <- <-. apply matches_fungibles_spec in Hf as (l & -> & Hl); [|done].
    split; [done|]. simpl. unfold currency_matches, is_concrete. simpl.
    rewrite decide_False by (intros ->; apply Hnat; by apply (list_elem_of_fmap_2 fst) in Hl).
    unfold fungibles_matches. simpl.
    assert (matches_fungibles table (asset_of (Concrete l) 0) = Some (i, 0)) as ->; [|done].
    apply matches_fungibles_spec; [done|]. by exists l.
Qed.

Lemma place_of_inj native table a b p :
  NoDup table.*1 -> NoDup table.*2 ->
  place_of native table a = Some p -> place_of native table b = Some p -> a = b.
Proof.
  intros Hn1 Hn2.
  assert (Hone : forall a, place_of native table a = Some p ->
    (p = InBalances /\ a = Concrete native) \/
    exists i l, p = InAssets i /\ a = Concrete l /\ (l, i) ∈ table).
  { intros c. unfold place_of, currency_matches, is_concrete. destruct c as [l|d]; simpl.
    - case_decide; simpl; [intros [= <-]; subst; by left|]. unfold fungibles_matches.
      destruct (matches_fungibles table _) as [[i y]|] eqn:Hf; [|done]. intros [= <-].
      apply matches_fungibles_spec in Hf as (l' & [= <- _] & Hl); [|done]. right. eauto.
    - unfold fungibles_matches. destruct (matches_fungibles table _) as [[i y]|] eqn:Hf; [|done].
      apply matches_fungibles_spec in Hf as (l' & ? & _); done. }
  intros [[-> ->]|(i & l & -> & -> & Hl)]%Hone [[? ->]|(j & m & Hp & -> & Hm)]%Hone; try done.
  injection Hp as <-. f_equal. by injection (column_inj snd table _ _ Hn2 Hl Hm eq_refl).
Qed.

Section Pair.
Context {L : Type} (native : MultiLocation) (table : list (MultiLocation * Z))
  (amount : L -> Place -> AccountId -> Z) (total : L -> Place -> Z)
  (account_of : MultiLocation -> option AccountId) (not_found : XcmError -> bool)
  (currency fungibles transactors : TransactAsset L).
Context (Hcur : Adapter amount total account_of not_found currency (currency_matches native))
  (Hfun : Adapter amount total account_of not_found fungibles (fungibles_matches table))
  (Htup : TransactorTuple not_found currency fungibles transactors)
  (account_local : forall id, account_of (loc_of_account id) = Some id)
  (table_locations : NoDup table.*1) (table_ids : NoDup table.*2) (native_apart : native ∉ table.*1).

Definition pair_balance (l : L) (id : AccountId) (a : AssetId) : Z :=
  match place_of native table a with Some p => amount l p id | None => 0 end.
Definition pair_supply (l : L) (a : AssetId) : Z :=
  match place_of native table a with Some p => total l p | None => 0 end.

(** A move at a place is a move of the one asset that lives there. *)
Lemma place_moves (id id' : AccountId) what p a y :
  place_of native table (asset_id what) = Some p ->
  (match place_of native table a with
   | Some p' => if decide ((p', id') = (p, id)) then y else 0
   | None => 0
   end) = if decide ((id', a) = (id, asset_id what)) then y else 0.
Proof.
  intros Hp. destruct (place_of native table a) as [p'|] eqn:Ha.
  - repeat case_decide; try done; simplify_eq.
    destruct (place_of_inj native table a (asset_id what) p); done.
  - case_decide; congruence.
Qed.
Lemma place_totals what p a y :
  place_of native table (asset_id what) = Some p ->
  (match place_of native table a with
   | Some p' => if decide (p' = p) then y else 0
   | None => 0
   end) = if decide (a = asset_id what) then y else 0.
Proof.
  intros Hp. destruct (place_of native table a) as [p'|] eqn:Ha.
  - repeat case_decide; try done; simplify_eq.
    destruct (place_of_inj native table a (asset_id what) p); done.
  - case_decide; congruence.
Qed.

(** What a successful operation of the pair does to the balances and the supply. *)
Lemma pair_moves {A} sign what who (run1 run2 run : M XcmError (World L) A) w r w' :
  tuple_op not_found run1 run2 run ->
  adapter_op amount total account_of not_found sign (currency_matches native what) who run1 ->
  adapter_op amount total account_of not_found sign (fungibles_matches table what) who run2 ->
  run w = (Ok r, w') ->
  exists id x, account_of who = Some id /\ asset_fun what = Fungible x /\
    (forall id' a, pair_balance (ledger w') id' a = pair_balance (ledger w) id' a
       + if decide ((id', a) = (id, asset_id what)) then sign * x else 0) /\
    (forall a, pair_supply (ledger w') a = pair_supply (ledger w) a
       + if decide (a = asset_id what) then sign * x else 0).
Proof.
  intros Ht H1 H2 Hr.
  destruct (tuple_moves amount total account_of not_found _ _ _ _ _ _ _ _ _ _ Ht H1 H2 Hr)
    as (p & x & id & Hm & Hid & Ha & Htt).
  destruct (place_of_matches native table what p x Hm) as [Hx Hp]; [done..|].
  exists id, x. split_and!; [done..| |]; [intros id' a|intros a].
  - rewrite <- (place_moves _ _ _ _ _ _ Hp). unfold pair_balance.
    destruct (place_of native table a); [apply Ha|lia].
  - rewrite <- (place_totals _ _ _ _ Hp). unfold pair_supply.
    destruct (place_of native table a); [apply Htt|lia].
Qed.

(** ** The pair is a ledger *)

#[refine] Definition pair_ledger : AssetLedger L (H := transactors) :=
  {| location_account := account_of; balance := pair_balance |}.
Proof.
  - exact account_local.
  - intros what who ctx w taken w' Hr.
    destruct (pair_moves (-1) what who _ _ _ w taken w' (tuple_withdraw _ what who ctx)
      (adapter_withdraw _ _ _ _ what who ctx) (adapter_withdraw _ _ _ _ what who ctx) Hr)
      as (id & x & Hid & Hx & Hb & _).
    exists id, x. split_and!; [done..|]. intros id' a. rewrite Hb. case_decide; lia.
  - intros what who ctx w w' Hr.
    destruct (pair_moves 1 what who _ _ _ w tt w' (tuple_deposit _ what who ctx)
      (adapter_deposit _ _ _ _ what who ctx) (adapter_deposit _ _ _ _ what who ctx) Hr)
      as (id & x & Hid & Hx & Hb & _).
    exists id, x. split_and!; [done..|]. intros id' a. rewrite Hb. case_decide; lia.
Defined.

(** A failed operation of the pair moves nothing. *)
Lemma pair_withdraw_err what who ctx w e w' :
  withdraw_asset (TransactAsset := transactors) what who ctx w = (Err e, w') ->
  same_amounts amount total w w'.
Proof.
  apply (tuple_errs amount total account_of not_found _ _ _ _ _ _ _ _ _ _
    (tuple_withdraw _ what who ctx) (adapter_withdraw _ _ _ _ what who ctx)
    (adapter_withdraw _ _ _ _ what who ctx)).
Qed.
Lemma pair_deposit_err what who ctx w e w' :
  deposit_asset (TransactAsset := transactors) what who ctx w = (Err e, w') ->
  same_amounts amount total w w'.
Proof.
  apply (tuple_errs amount total account_of not_found _ _ _ _ _ _ _ _ _ _
    (tuple_deposit _ what who ctx) (adapter_deposit _ _ _ _ what who ctx)
    (adapter_deposit _ _ _ _ what who ctx)).
Qed.

Lemma pair_failsafe : FailsafeLedger L (H0 := pair_ledger).
Proof.
  split; intros what who ctx w e w' id a Hr; simpl; unfold pair_balance;
    (destruct (place_of native table a); [|done]).
  - by apply (pair_withdraw_err what who ctx w e w' Hr).
  - by apply (pair_deposit_err what who ctx w e w' Hr).
Qed.

#[refine] Definition pair_supply_ledger : SupplyLedger L (H := transactors) :=
  {| supply := pair_supply |}.
Proof.
  - intros what who ctx w taken w' Hr.
    destruct (pair_moves (-1) what who _ _ _ w taken w' (tuple_withdraw _ what who ctx)
      (adapter_withdraw _ _ _ _ what who ctx) (adapter_withdraw _ _ _ _ what who ctx) Hr)
      as (id & x & _ & Hx & _ & Hs).
    exists x. split; [done|]. intros a. rewrite Hs. case_decide; lia.
  - intros what who ctx w e w' Hr. unfold pair_supply.
    by rewrite (proj2 (pair_withdraw_err what who ctx w e w' Hr)).
  - intros what who ctx w w' Hr.
    destruct (pair_moves 1 what who _ _ _ w tt w' (tuple_deposit _ what who ctx)
      (adapter_deposit _ _ _ _ what who ctx) (adapter_deposit _ _ _ _ what who ctx) Hr)
      as (id & x & _ & Hx & _ & Hs).
    exists x. split; [done|]. intros a. rewrite Hs. case_decide; lia.
  - intros what who ctx w e w' Hr. unfold pair_supply.
    by rewrite (proj2 (pair_deposit_err what who ctx w e w' Hr)).
Defined.

(** What the adapters keep of the rest of the state, the pair keeps. *)
Lemma pair_ext :
  TransactorExt L (H := currency) -> TransactorExt L (H := fungibles) ->
  TransactorExt L (H := transactors).
Proof.
  intros [Hcw Hcd] [Hfw Hfd]. split; intros what who ctx w r w'.
  - apply (tuple_keeps not_found ext _ _ _ (tuple_withdraw _ what who ctx));
      [apply Hcw|apply Hfw].
  - apply (tuple_keeps not_found ext _ _ _ (tuple_deposit _ what who ctx));
      [apply Hcd|apply Hfd].
Qed.

Lemma pair_typed :
  TypedTransactor L (H := currency) -> TypedTransactor L (H := fungibles) ->
  TypedTransactor L (H := transactors).
Proof.
  intros [Hcw Hcd] [Hfw Hfd]. split; intros what who ctx w r w' Ha Hl Hw Hr Hnp.
  - refine (tuple_keeps not_found (fun v v' => world_typed v -> world_typed v') _ _ _
      (tuple_withdraw _ what who ctx) _ _ w r w' Hr Hnp Hw); eauto.
  - refine (tuple_keeps not_found (fun v v' => world_typed v -> world_typed v') _ _ _
      (tuple_deposit _ what who ctx) _ _ w r w' Hr Hnp Hw); eauto.
Qed.

Lemma pair_plain :
  PlainTransactor L (H := currency) -> PlainTransactor L (H := fungibles) ->
  PlainTransactor L (H := transactors).
Proof.
  intros [Hcw Hcd] [Hfw Hfd]. split; intros what who ctx w r w' self d.
  - refine (tuple_keeps not_found
      (fun v v' => relayed self d (events v') = relayed self d (events v)) _ _ _
      (tuple_withdraw _ what who ctx) _ _ w r w'); eauto; intros x y z; congruence.
  - refine (tuple_keeps not_found
      (fun v v' => relayed self d (events v') = relayed self d (events v)) _ _ _
      (tuple_deposit _ what who ctx) _ _ w r w'); eauto; intros x y z; congruence.
Qed.
End Pair.
