(* ===== verification/StandaloneLedger.v ===== *)
(** * The ledger of the standalone runtime

    The runtime of [StandaloneRuntime.v] over the balances and the assets pallet, through
    the pair of adapters of [Adapters.v]: its tables make the pair a ledger, so the chain
    meets the interfaces the theorems on networks ask for, and each of its resources is a
    peg. *)

From S2P Require Import Prelude Xcm Frame Traits AccessSegregator BasicFeeHandler.
From S2P Require Import PercentageFeeHandler FeeHandlerRouter Encode Eip712 Bridge.
From S2P Require Import BridgeNonces BridgeDeposit BridgeExecute BridgeAdmin DepositData.
From S2P Require Import Conservation System Relay Typing Supply Holding Network Circulation.
From S2P Require Import DecimalConverter RuntimeCommon StandaloneRuntime TypingRuntimes Pegs.
From S2P Require Import XcmConfig Adapters.

(** The table of [SimpleForeignAssetConverter]. *)
Definition standalone_table : list (MultiLocation * Z) :=
  [(Standalone.UsdcLocation, Standalone.UsdcAssetId);
   (Standalone.ERC20TSTLocation, Standalone.ERC20TSTAssetId);
   (Standalone.ERC20TSTD20Location, Standalone.ERC20TSTD20AssetId)].

Lemma standalone_table_converter a :
  fungibles_matches standalone_table a =
  (fun '(i, x) => (InAssets i, x)) <$> Standalone.simple_foreign_asset_converter a.
Proof. done. Qed.

Lemma standalone_locations : NoDup standalone_table.*1.
Proof. apply (bool_decide_unpack _). vm_compute. exact I. Qed.
Lemma standalone_ids : NoDup standalone_table.*2.
Proof. apply (bool_decide_unpack _). vm_compute. exact I. Qed.
Lemma standalone_native_apart : Standalone.NativeLocation ∉ standalone_table.*1.
Proof. apply (bool_decide_unpack _). vm_compute. exact I. Qed.

Definition standalone_place : AssetId -> option Place :=
  place_of Standalone.NativeLocation standalone_table.

(** Every asset of the table of resources has a place, and decimals. *)
Lemma standalone_places :
  Forall (fun r => is_Some (standalone_place r.1) /\
                   is_Some (decimals_of Standalone.AssetDecimalPairs r.1)) Standalone.ResourcePairs.
Proof. apply (bool_decide_unpack _). vm_compute. exact I. Qed.

Lemma standalone_decimals :
  Forall (fun r => forall decimal, decimals_of Standalone.AssetDecimalPairs r.1 = Some decimal ->
    0 <= decimal <= 51) Standalone.ResourcePairs.
Proof.
  unfold Standalone.ResourcePairs.
  repeat (apply Forall_cons; split;
    [intros decimal Hd; vm_compute in Hd; injection Hd as <-; lia|]).
  apply Forall_nil_2.
Qed.

Section Standalone.
Context {L : Type} `{Crypto} `{EthAbi} `{LocationCodec} `{XcmLocations} `{FixedU112F16}
  `{PalletIdAccounts} (transactors : TransactAsset L) (error_str : DispatchError -> bytes).

Definition standalone_chain : ChainParams L :=
  {| chain_bridge := Standalone.bridge_config transactors error_str;
     chain_basic := Standalone.basic_config;
     chain_percentage := Standalone.percentage_config;
     chain_router := Standalone.router_config |}.

(** The peg of an asset of the runtime. *)
Definition standalone_peg (aid : AssetId) (decimal : Z) : Peg :=
  table_peg (H := Standalone.bridge_config transactors error_str) aid decimal.

(** The runtime holds every asset of its table in reserve: none is of parachain 2004. *)
Lemma standalone_reserved aid rid decimal :
  (aid, rid) ∈ Standalone.ResourcePairs ->
  peg_holder (standalone_peg aid decimal) =
    get_token_reserved_account (H := Standalone.bridge_config transactors error_str) aid.
Proof.
  intros Hin. unfold standalone_peg, table_peg.
  replace (contains (asset_of aid 0) loc_here) with true; [done|]. symmetry.
  apply reserve_contains_here. unfold Standalone.ResourcePairs in Hin.
  rewrite !elem_of_cons, elem_of_nil in Hin.
  destruct Hin as [[= -> _]|[[= -> _]|[[= -> _]|[[= -> _]|[]]]]]; do 2 eexists;
    (split; [reflexivity|]); [by left|..]; by right.
Qed.
End Standalone.

(** ** One chain on its own *)

Section OneChain.
Context {L : Type} {C : ChainParams L} `{!TransactorExt L} `{!TypedConfig L}
  `{!TypedTransactor L} `{!AssetLedger L} `{!FailsafeLedger L} `{!SupplyLedger L}
  `{!PlainTransactor L}.

(** Any batch may be signed. *)
Definition any_batch (_ : list Proposal) : Prop := True.

Lemma keyless_chain_covered s rid self ds (l0 : L) n :
  NoDup ds -> pegged s rid -> rtc (keyless_step s any_batch) (genesis l0) n ->
  covered s rid self ds l0 n.
Proof.
  intros Hds Hp.
  assert (forall n0, rtc (keyless_step s any_batch) n0 n ->
    node_inv l0 n0 -> covered s rid self ds l0 n0 -> covered s rid self ds l0 n) as Hi.
  { intros n0. induction 1 as [|n0 n1 n2 Hs _ IH]; [done|]. intros Hn Hc. apply IH.
    - eapply node_step_inv; [by eapply keyless_node_step|done].
    - eapply keyless_covered; try done. apply Hn. }
  intros Hr. eapply Hi; [done|apply genesis_inv|apply genesis_covered].
Qed.
End OneChain.

(** ** A chain over the pair of adapters *)

Section PairChain.
Context {L : Type} {C : ChainParams L} `{FixedU112F16}
  (native : MultiLocation) (table : list (MultiLocation * Z))
  (amount : L -> Place -> AccountId -> Z) (total : L -> Place -> Z)
  (account_of : MultiLocation -> option AccountId) (not_found : XcmError -> bool)
  (currency fungibles : TransactAsset L).
Abbreviation transactors := (@asset_transactor L chain_bridge).
Context (Hcur : Adapter amount total account_of not_found currency (currency_matches native))
  (Hfun : Adapter amount total account_of not_found fungibles (fungibles_matches table))
  (Htup : TransactorTuple not_found currency fungibles transactors)
  (account_local : forall id, account_of (loc_of_account id) = Some id)
  (table_locations : NoDup table.*1) (table_ids : NoDup table.*2)
  (native_apart : native ∉ table.*1)
  (Hext : TransactorExt L (H := currency) /\ TransactorExt L (H := fungibles))
  (Htyped : TypedTransactor L (H := currency) /\ TypedTransactor L (H := fungibles))
  (Hplain : PlainTransactor L (H := currency) /\ PlainTransactor L (H := fungibles)).

(** What a place holds outside the account of a peg. *)
Definition outside (s : Peg) (p : Place) (l : L) : Z :=
  total l p - match peg_holder s with Some holder => amount l p holder | None => 0 end.

Lemma pair_chain_covered decimals aid rid decimal p self ds l n :
  NoDup ds -> TypedConfig L -> sound_tables decimals -> (aid, rid) ∈ resource_pairs ->
  decimals_of decimals aid = Some decimal -> 0 <= decimal <= 51 ->
  place_of native table aid = Some p ->
  rtc (keyless_step (table_peg aid decimal) any_batch) (genesis l) n ->
  let s := table_peg aid decimal in
  peg_num s * (outside s p (ledger (state n)) - outside s p l)
    + peg_den s * announced rid self ds (events (state n))
  <= peg_den s * sumZ (worth rid) (paid n).
Proof.
  intros Hds Hconf Hsound Hin Hdec Hb Hplace Hr s.
  pose proof (table_pegged decimals aid rid decimal Hsound Hin Hdec Hb) as Hpeg.
  destruct Hext as [Hce Hfe], Htyped as [Hct Hft], Hplain as [Hcp Hfp].
  pose proof (@keyless_chain_covered L C (pair_ext _ _ _ _ Htup Hce Hfe) Hconf
    (pair_typed _ _ _ _ Htup Hct Hft)
    (pair_ledger native table amount total account_of not_found currency fungibles transactors
       Hcur Hfun Htup account_local table_locations table_ids native_apart)
    (pair_failsafe native table amount total account_of not_found currency fungibles transactors
       Hcur Hfun Htup account_local table_locations table_ids native_apart)
    (pair_supply_ledger native table amount total account_of not_found currency fungibles
       transactors Hcur Hfun Htup table_locations table_ids native_apart)
    (pair_plain _ _ _ _ Htup Hcp Hfp) s rid self ds l n Hds Hpeg Hr) as Hc.
  unfold covered, exposure, circulating in Hc. simpl in Hc.
  unfold pair_supply, pair_balance in Hc. rewrite Hplace in Hc.
  unfold outside. fold s in Hc.
  change (if contains (asset_of aid 0) loc_here then get_token_reserved_account aid else None)
    with (peg_holder s) in Hc.
  change (if decimal <=? 18 then 10 ^ (18 - decimal) else 1) with (peg_num s) in Hc.
  change (if decimal <=? 18 then 1 else 10 ^ (decimal - 18)) with (peg_den s) in Hc. lia.
Qed.
End PairChain.

(** ** The standalone chain *)

Section Environment.
Context {L : Type} `{Crypto} `{EthAbi} `{LocationCodec} `{XcmLocations} `{FixedU112F16}
  `{PalletIdAccounts} `{LocationConverters} (error_str : DispatchError -> bytes)
  (amount : L -> Place -> AccountId -> Z) (total : L -> Place -> Z)
  (not_found : XcmError -> bool)
  (currency fungibles transactors : TransactAsset L).

(** What is asked of the crates: the adapters move what they match, the pair asks its
    members in order, neither touches the storage of the bridge or forwards; accounts of a
    pallet have 32 bytes and are not the treasury; decoding yields values of the type. *)
Record standalone_environment : Prop := {
  env_currency : Adapter amount total StandaloneXcm.LocationToAccountId not_found currency
    (currency_matches Standalone.NativeLocation);
  env_fungibles : Adapter amount total StandaloneXcm.LocationToAccountId not_found fungibles
    (fungibles_matches standalone_table);
  env_tuple : TransactorTuple not_found currency fungibles transactors;
  env_ext : TransactorExt L (H := currency) /\ TransactorExt L (H := fungibles);
  env_typed : TypedTransactor L (H := currency) /\ TypedTransactor L (H := fungibles);
  env_plain : PlainTransactor L (H := currency) /\ PlainTransactor L (H := fungibles);
  env_account id : Forall is_byte id -> account_typed (into_account_truncating id);
  env_sub_account id n :
    Forall is_byte id -> is_byte n -> account_typed (into_sub_account_truncating id n);
  env_treasury id : into_account_truncating id <> replicate 32 100;
  env_sub_treasury id n : into_sub_account_truncating id n <> replicate 32 100;
  env_decode bs l : Forall is_byte bs -> loc_decode bs = Some l -> location_wf l
}.

Context (He : standalone_environment).

Lemma standalone_covered aid rid decimal p holder self ds l n :
  NoDup ds ->
  (aid, rid) ∈ Standalone.ResourcePairs ->
  decimals_of Standalone.AssetDecimalPairs aid = Some decimal ->
  standalone_place aid = Some p ->
  get_token_reserved_account (H := Standalone.bridge_config transactors error_str) aid
    = Some holder ->
  rtc (keyless_step (C := standalone_chain transactors error_str)
         (standalone_peg transactors error_str aid decimal) any_batch) (genesis l) n ->
  let num := if decimal <=? 18 then 10 ^ (18 - decimal) else 1 in
  let den := if decimal <=? 18 then 1 else 10 ^ (decimal - 18) in
  let outside l := total l p - amount l p holder in
  num * (outside (ledger (state n)) - outside l)
    + den * announced rid self ds (events (state n))
  <= den * sumZ (worth rid) (paid n).
Proof.
  intros Hds Hin Hdec Hplace Hacc Hr.
  assert (Hb : 0 <= decimal <= 51).
  { pose proof standalone_decimals as Hf. rewrite Forall_forall in Hf. by apply (Hf (aid, rid)). }
  pose proof (pair_chain_covered (C := standalone_chain transactors error_str)
    Standalone.NativeLocation standalone_table amount total StandaloneXcm.LocationToAccountId not_found currency fungibles
    (env_currency He) (env_fungibles He) (env_tuple He) (location_account_local _) standalone_locations
    standalone_ids standalone_native_apart (env_ext He) (env_typed He) (env_plain He)
    Standalone.AssetDecimalPairs aid rid decimal p self ds l n Hds
    (standalone_typed transactors error_str (env_account He) (env_sub_account He) (env_decode He))
    (standalone_sound transactors error_str (env_treasury He) (env_sub_treasury He))
    Hin Hdec Hb Hplace Hr) as Hc.
  unfold outside in Hc.
  assert (Hh : peg_holder (table_peg (H := @chain_bridge L (standalone_chain transactors error_str))
    aid decimal) = Some holder).
  { rewrite <- Hacc. exact (standalone_reserved transactors error_str aid rid decimal Hin). }
  rewrite Hh in Hc. exact Hc.
Qed.
End Environment.
