(* ===== verification/ParachainLedger.v ===== *)
(** * The ledger of the parachain runtime

    The runtime of [ParachainRuntime.v] with its own asset transactor.  A batch whose
    proposals are all for local recipients never reaches the forwarder: on such batches the
    chain runs as it would with [local_transactor], which only picks an adapter; and that
    is a pair of adapters in the sense of [Adapters.v], because the currency adapter
    refuses every asset the transactor sends it. *)

From S2P Require Import Prelude Xcm Frame Traits AccessSegregator BasicFeeHandler.
From S2P Require Import PercentageFeeHandler FeeHandlerRouter Encode Eip712 Bridge.
From S2P Require Import BridgeNonces BridgeDeposit BridgeExecute BridgeAdmin DepositData.
From S2P Require Import Conservation System Relay Typing Supply Holding Network Circulation.
From S2P Require Import DecimalConverter RuntimeCommon Forwarder XcmBridge ParachainRuntime.
From S2P Require Import XcmConfig TypingRuntimes Pegs Adapters StandaloneLedger.

(** The table of [SimpleForeignAssetConverter]. *)
Definition parachain_table : list (MultiLocation * Z) :=
  [(Para.UsdtLocation, Para.UsdtAssetId);
   (Para.ERC20TSTLocation, Para.ERC20TSTAssetId);
   (Para.ERC20TSTD20Location, Para.ERC20TSTD20AssetId)].

Lemma parachain_table_converter a :
  fungibles_matches parachain_table a =
  (fun '(i, x) => (InAssets i, x)) <$> Para.simple_foreign_asset_converter a.
Proof. done. Qed.

Lemma parachain_locations : NoDup parachain_table.*1.
Proof. apply (bool_decide_unpack _). vm_compute. exact I. Qed.
Lemma parachain_ids : NoDup parachain_table.*2.
Proof. apply (bool_decide_unpack _). vm_compute. exact I. Qed.
Lemma parachain_relay_apart : Para.RelayLocation ∉ parachain_table.*1.
Proof. apply (bool_decide_unpack _). vm_compute. exact I. Qed.

(** [CurrencyTransactor] matches [IsConcrete<RelayLocation>]. *)
Definition parachain_place : AssetId -> option Place :=
  place_of Para.RelayLocation parachain_table.

Lemma parachain_decimals :
  Forall (fun r => forall decimal, decimals_of Para.AssetDecimalPairs r.1 = Some decimal ->
    0 <= decimal <= 51) Para.ResourcePairs.
Proof.
  unfold Para.ResourcePairs.
  repeat (apply Forall_cons; split;
    [intros decimal Hd; vm_compute in Hd; injection Hd as <-; lia|]).
  apply Forall_nil_2.
Qed.

(** A proposal that pays on this chain: its recipient is not forwarded. *)
Definition local_proposal {L} `{BridgeConfig L} (p : Proposal) : Prop :=
  forall amount l, extract_deposit_data (data p) = Ok (amount, l) -> route l = LocalRecipient.
Definition local_batch {L} `{BridgeConfig L} : list Proposal -> Prop := Forall local_proposal.

(** ** The transactor without its forwarder *)

Section Local.
Context {L : Type} `{Crypto} `{EthAbi} `{LocationCodec} `{XcmLocations} `{FixedU112F16}
  `{PalletIdAccounts} (currency fungibles : TransactAsset L)
  (weigh : Xcm -> option Weight * Xcm) (encode : Xcm -> bytes)
  (execute : MultiLocation -> Xcm -> bytes -> Weight -> Weight -> M Empty_set (World L) Outcome)
  `{XcmReanchor} (error_str : DispatchError -> bytes).
Abbreviation W := (World L).
Implicit Types (w : W).

Definition local_transactor : TransactAsset L :=
  {| withdraw_asset := xcm_withdraw_asset currency fungibles Para.native_asset_type_identifier;
     deposit_asset := local_deposit currency fungibles Para.native_asset_type_identifier |}.

Abbreviation full := (Para.bridge_config error_str
  (Para.asset_transactor currency fungibles weigh encode execute error_str 1)).
Abbreviation plain := (Para.bridge_config error_str local_transactor).

(** A local proposal runs the same with either transactor. *)
Lemma internal_local p w :
  local_proposal (H := full) p ->
  execute_proposal_internal (H := full) p w = execute_proposal_internal (H := plain) p w.
Proof.
  intros Hp. unfold execute_proposal_internal.
  do 7 (apply bind_congr; intros ? ? _).
  apply bind_congr. intros [amount location] w1 Hx.
  apply lift_ok_inv in Hx as [Hx ->].
  do 4 (apply bind_congr; intros ? ? _).
  unfold map_err, deposit_asset. simpl. unfold xcm_deposit_asset. by rewrite (Hp _ _ Hx).
Qed.

Lemma one_local p w :
  local_proposal (H := full) p -> execute_one (H := full) p w = execute_one (H := plain) p w.
Proof. intros Hp. unfold execute_one. by rewrite internal_local. Qed.

Lemma batch_local ps w :
  local_batch (H := full) ps ->
  for_each (execute_one (H := full)) ps w = for_each (execute_one (H := plain)) ps w /\
  executed_in (H := full) ps w = executed_in (H := plain) ps w.
Proof.
  intros Hps. revert w. induction Hps as [|p ps Hp _ IH]; intros w;
    cbn [for_each executed_in]; [split; reflexivity|].
  rewrite (internal_local p w Hp), (one_local p w Hp).
  unfold mbind, M_bind. rewrite (one_local p w Hp). split.
  - destruct (execute_one (H := plain) p w) as [[] w1]; [apply IH|reflexivity..].
  - destruct (execute_proposal_internal (H := plain) p w) as [[] w1];
      rewrite (proj2 (IH _)); reflexivity.
Qed.

(** ** The chain *)

Definition parachain_chain : ChainParams L :=
  {| chain_bridge := full; chain_basic := Para.basic_config;
     chain_percentage := Para.percentage_config; chain_router := Para.router_config |}.
Definition plain_chain : ChainParams L :=
  {| chain_bridge := plain; chain_basic := Para.basic_config;
     chain_percentage := Para.percentage_config; chain_router := Para.router_config |}.

Lemma call_local o c w :
  (forall ps sig, c = CallExecuteProposal ps sig -> authorised (H := full) w ps sig ->
     local_batch (H := full) ps) ->
  call_on (C := parachain_chain) o c w = call_on (C := plain_chain) o c w /\
  pays (C := parachain_chain) o c w = pays (C := plain_chain) o c w.
Proof.
  intros Hok. unfold call_on, pays. destruct c;
    lazymatch goal with
    | |- context [CallExecuteProposal _ _] => idtac
    | _ => split; [reflexivity|by rewrite !paid_by_other by done]
    end.
  specialize (Hok _ _ eq_refl). unfold paid_by.
  cbn [dispatch chain_bridge parachain_chain plain_chain].
  assert (Decision (authorised (H := full) w proposals signature)) as [Ha|Ha]
    by (unfold authorised; apply _).
  - destruct (batch_local proposals w (Hok Ha)) as [Hf He].
    rewrite (execute_proposal_guarded (H := full)) by done.
    rewrite (execute_proposal_guarded (H := plain)) by done.
    unfold transactional. rewrite Hf, He. split; reflexivity.
  - rewrite (execute_proposal_unauthorised (H := full)) by done.
    rewrite (execute_proposal_unauthorised (H := plain)) by done. split; reflexivity.
Qed.
End Local.

(** ** The pair behind it *)

Section Environment.
Context {L : Type} `{Crypto} `{EthAbi} `{LocationCodec} `{XcmLocations} `{FixedU112F16}
  `{PalletIdAccounts} `{LocationConverters}
  (amount : L -> Place -> AccountId -> Z) (total : L -> Place -> Z)
  (not_found : XcmError -> bool)
  (currency fungibles : TransactAsset L).

(** What is asked of the crates, as for the standalone runtime. *)
Record parachain_environment : Prop := {
  para_currency : Adapter amount total ParaXcm.LocationToAccountId not_found currency
    (currency_matches Para.RelayLocation);
  para_fungibles : Adapter amount total ParaXcm.LocationToAccountId not_found fungibles
    (fungibles_matches parachain_table);
  para_ext : TransactorExt L (H := fungibles);
  para_typed : TypedTransactor L (H := fungibles);
  para_plain : PlainTransactor L (H := fungibles);
  para_account id : Forall is_byte id -> account_typed (into_account_truncating id);
  para_sub_account id n :
    Forall is_byte id -> is_byte n -> account_typed (into_sub_account_truncating id n);
  para_treasury id : into_account_truncating id <> replicate 32 100;
  para_sub_treasury id n : into_sub_account_truncating id n <> replicate 32 100;
  para_decode bs l : Forall is_byte bs -> loc_decode bs = Some l -> location_wf l
}.

Context (He : parachain_environment).

(** Neither adapter knows the assets that count as native. *)
Lemma native_unmatched (w : World L) what :
  Para.is_native_asset w what = true ->
  currency_matches Para.RelayLocation what = None /\ fungibles_matches parachain_table what = None.
Proof.
  unfold Para.is_native_asset. destruct what as [[l|] [x|]]; simpl; try done.
  rewrite orb_false_r, orb_true_iff, !bool_decide_eq_true.
  by intros [<-|<-]; split; vm_compute.
Qed.

(** A transactor that knows no asset. *)
Definition no_transactor (e : XcmError) : TransactAsset L :=
  {| withdraw_asset _ _ _ := fail e; deposit_asset _ _ _ := fail e |}.

Lemma no_adapter e matches :
  not_found e = true ->
  Adapter amount total ParaXcm.LocationToAccountId not_found (no_transactor e) matches.
Proof.
  intros Hn. split; intros what who ctx; (split; [|done|]); simpl.
  1,3: by intros w _; exists e.
  all: by intros w e' w' [= _ <-].
Qed.

(** An adapter picked by the kind of the asset is the fungibles adapter, up to the error. *)
Lemma pick_tuple {A} sign what who (run1 run2 : M XcmError (World L) A) e :
  not_found e = true ->
  adapter_op amount total ParaXcm.LocationToAccountId not_found sign (currency_matches Para.RelayLocation what)
    who run1 ->
  adapter_op amount total ParaXcm.LocationToAccountId not_found sign (fungibles_matches parachain_table what)
    who run2 ->
  tuple_op not_found (fail e) run2
    (native ← gets (fun w => Para.is_native_asset w what); if native : bool then run1 else run2).
Proof.
  intros Hn H1' H2'. split.
  - intros w r w1 [= <- <-] Hne. by rewrite (Hne e eq_refl) in Hn.
  - intros w e0 w1 r w2 [= <- <-] _ Hr. unfold mbind, M_bind, gets.
    destruct (Para.is_native_asset w what) eqn:Hnat; [|eauto].
    destruct (native_unmatched w what Hnat) as [Hm1 Hm2].
    destruct (op_unmatched _ _ _ _ _ _ _ _ H1' w Hm1) as (e1 & _ & ->).
    destruct (op_unmatched _ _ _ _ _ _ _ _ H2' w Hm2) as (e2 & _ & Hr2).
    rewrite Hr2 in Hr. injection Hr as <- <-. eauto 10.
Qed.

Lemma local_tuple e :
  not_found e = true ->
  TransactorTuple not_found (no_transactor e) fungibles (local_transactor currency fungibles).
Proof.
  intros Hn. pose proof (para_currency He) as Hc. pose proof (para_fungibles He) as Hf.
  split; intros what who ctx; eapply pick_tuple; try done; first
    [apply (adapter_withdraw _ _ _ _ what who ctx) | apply (adapter_deposit _ _ _ _ what who ctx)].
Qed.

Context (weigh : Xcm -> option Weight * Xcm) (encode : Xcm -> bytes)
  (execute : MultiLocation -> Xcm -> bytes -> Weight -> Weight -> M Empty_set (World L) Outcome)
  `{XcmReanchor} (error_str : DispatchError -> bytes).
Abbreviation chain := (parachain_chain currency fungibles weigh encode execute error_str).

(** The peg of an asset of the runtime. *)
Definition parachain_peg (aid : AssetId) (decimal : Z) : Peg :=
  table_peg (H := @chain_bridge L chain) aid decimal.

(** Steps on local batches are steps of the chain without the forwarder. *)
Lemma keyless_local s n n' :
  keyless_step (C := chain) s (local_batch (H := @chain_bridge L chain)) n n' ->
  keyless_step (C := plain_chain currency fungibles error_str) s any_batch n n'.
Proof.
  intros [o c r w' Hk Ho Hc Hr Hnp Hok].
  destruct (call_local currency fungibles weigh encode execute error_str o c (state n) Hok)
    as [Hcall Hpays].
  rewrite Hcall in Hr. rewrite Hpays.
  exact (keyless_step_call s any_batch n o c r w' Hk Ho Hc Hr Hnp (fun _ _ _ _ => I)).
Qed.

Lemma parachain_covered aid rid decimal p self ds l n :
  NoDup ds ->
  (aid, rid) ∈ Para.ResourcePairs ->
  decimals_of Para.AssetDecimalPairs aid = Some decimal ->
  parachain_place aid = Some p ->
  rtc (keyless_step (C := chain) (parachain_peg aid decimal)
         (local_batch (H := @chain_bridge L chain))) (genesis l) n ->
  let s := parachain_peg aid decimal in
  peg_num s * (outside amount total s p (ledger (state n)) - outside amount total s p l)
    + peg_den s * announced rid self ds (events (state n))
  <= peg_den s * sumZ (worth rid) (paid n).
Proof.
  intros Hds Hin Hdec Hplace Hr.
  assert (Hb : 0 <= decimal <= 51).
  { pose proof parachain_decimals as Hf. rewrite Forall_forall in Hf. by apply (Hf (aid, rid)). }
  destruct (op_unmatched _ _ _ _ _ _ _ _
    (adapter_deposit (Adapter := para_currency He) _ _ _ _ (asset_of (Concrete loc_here) 0)
       loc_here no_message) (empty_world l) eq_refl) as (e & Hn & _).
  refine (pair_chain_covered (C := plain_chain currency fungibles error_str)
    Para.RelayLocation parachain_table amount total ParaXcm.LocationToAccountId not_found (no_transactor e) fungibles
    (no_adapter e _ Hn) (para_fungibles He) (local_tuple e Hn) (location_account_local _) parachain_locations
    parachain_ids parachain_relay_apart _ _ _ Para.AssetDecimalPairs aid rid decimal p self ds l n Hds
    (parachain_typed _ error_str (para_account He) (para_sub_account He) (para_decode He))
    (parachain_sound _ error_str (para_treasury He) (para_sub_treasury He))
    Hin Hdec Hb Hplace _).
  - split; [|apply He]. by split; intros what who ctx w r w' [= _ <-].
  - split; [|apply He]. by split; intros what who ctx w r w' _ _ Hw [= _ <-].
  - split; [|apply He]. by split; intros what who ctx w r w' self' d' [= _ <-].
  - eapply rtc_subrel; [|exact Hr]. intros n1 n2. apply keyless_local.
Qed.
End Environment.
