(* ===== verification/Scenario.v ===== *)
(** * Concrete parameters and a small chain

    Instances of the parameter classes by plain functions, which show that the
    assumed laws can hold together and let every definition run: a checksum for the
    hashes, a signature check that recovers the number of a key, a codec of locations, a
    fixed-point type on integers, and a ledger that holds balances of accounts.  The
    chain is the mock runtime of [bridge/src/mock.rs] over that ledger.  The instances
    of classes that do not name the ledger stay local to this file, so that they are
    not picked up in general statements. *)

From S2P Require Import Prelude Xcm Frame Traits AccessSegregator BasicFeeHandler.
From S2P Require Import PercentageFeeHandler FeeHandlerRouter Encode Eip712 Bridge.
From S2P Require Import BridgeDeposit Conservation DecimalConverter Forwarder XcmBridge.
From S2P Require Import XcmBridgeFacts ParachainInfo RuntimeCommon ParachainRuntime BridgeMock.
From S2P Require Import System.

(** ** Hashing and signatures *)

Definition checksum (m : Z) (x : bytes) : bytes :=
  to_be 32 (fold_left (fun acc b => (acc * m + b + 1) mod 2 ^ 64) x 7).

(** The public keys are numbered; the MPC holds number 7. *)
Definition key (k : Z) : bytes := replicate 64 k.
Definition mpc_key : bytes := key 7.

(** The signature of a message by a key is the message and the number of the key. *)
Definition sign_by (k : Z) (message : bytes) : bytes := message ++ replicate 32 0 ++ [k].
Definition sign (message : bytes) : bytes := sign_by 7 message.
Definition recover (signature message : bytes) : option bytes :=
  if decide (take 32 signature = message) then Some (key (default 0 (last signature))) else None.

Lemma checksum_array m x : is_array 32 (checksum m x).
Proof. split; [by apply to_be_length|by apply to_be_bytes]. Qed.

#[local] Instance toy_crypto : Crypto :=
  {| keccak_256 := checksum 65599; blake2_256 := checksum 31337;
     secp256k1_ecdsa_recover := recover;
     keccak_256_array := checksum_array _; blake2_256_array := checksum_array _ |}.

#[local] Instance word_abi : EthAbi.
Proof. refine {| abi_encode ts := concat (abi_word <$> ts) |}. done. Defined.

(** ** Locations *)

#[local] Instance list_locations : XcmLocations.
Proof.
  refine {| first_interior l := head (junctions_list (interior l));
            split_first js := (list_junctions (tail (junctions_list js)),
                               head (junctions_list js)) |}.
  - done.
  - intros js. split; [by destruct js|done].
Defined.

Definition enc_network (n : option NetworkId) : bytes :=
  match n with None => [0; 0] | Some Polkadot => [1; 0] | Some (OtherNetwork c) => [2; c] end.
Definition dec_network (t c : Z) : option NetworkId :=
  match t with 0 => None | 1 => Some Polkadot | _ => Some (OtherNetwork c) end.

Definition enc_junction (j : Junction) : bytes :=
  match j with
  | Parachain i => [0; i]
  | AccountId32 n d => 1 :: enc_network n ++ d
  | AccountKey20 n d => 2 :: enc_network n ++ d
  | PalletInstance i => [3; i]
  | GeneralIndex i => [4; i]
  | GeneralKey n d => 5 :: n :: d
  | Plurality Executive p => [6; 0; 0; p]
  | Plurality Defense p => [6; 1; 0; p]
  | Plurality (OtherBody c) p => [6; 2; c; p]
  | OtherJunction c => [7; c]
  end.

(** A field of [n] bytes. *)
Definition take_exact (n : nat) (bs : bytes) : option (bytes * bytes) :=
  if Nat.leb n (length bs) then Some (take n bs, drop n bs) else None.

Definition dec_junction (bs : bytes) : option (Junction * bytes) :=
  match bs with
  | 0 :: i :: bs => Some (Parachain i, bs)
  | 1 :: t :: c :: bs =>
      '(d, bs) ← take_exact 32 bs; Some (AccountId32 (dec_network t c) d, bs)
  | 2 :: t :: c :: bs =>
      '(d, bs) ← take_exact 20 bs; Some (AccountKey20 (dec_network t c) d, bs)
  | 3 :: i :: bs => Some (PalletInstance i, bs)
  | 4 :: i :: bs => Some (GeneralIndex i, bs)
  | 5 :: n :: bs => '(d, bs) ← take_exact 32 bs; Some (GeneralKey n d, bs)
  | 6 :: 0 :: _ :: p :: bs => Some (Plurality Executive p, bs)
  | 6 :: 1 :: _ :: p :: bs => Some (Plurality Defense p, bs)
  | 6 :: _ :: c :: p :: bs => Some (Plurality (OtherBody c) p, bs)
  | 7 :: c :: bs => Some (OtherJunction c, bs)
  | _ => None
  end.

Fixpoint dec_junctions (n : nat) (bs : bytes) : option (list Junction) :=
  match n with
  | O => Some []
  | S n => '(j, bs) ← dec_junction bs; js ← dec_junctions n bs; Some (j :: js)
  end.

Definition enc_location (l : MultiLocation) : bytes :=
  parents l :: Z.of_nat (length (junctions_list (interior l))) ::
  concat (enc_junction <$> junctions_list (interior l)).

Definition dec_location (bs : bytes) : option MultiLocation :=
  match bs with
  | p :: n :: bs =>
      if n <=? 8 then
        js ← dec_junctions (Z.to_nat n) bs; Some (ML p (list_junctions js))
      else None
  | _ => None
  end.

Lemma take_exact_app n d rest : length d = n -> take_exact n (d ++ rest) = Some (d, rest).
Proof.
  intros <-. unfold take_exact. rewrite (proj2 (Nat.leb_le _ _)) by (rewrite length_app; lia).
  by rewrite take_app_length, drop_app_length.
Qed.

Lemma dec_enc_junction j rest :
  junction_wf j -> dec_junction (enc_junction j ++ rest) = Some (j, rest).
Proof.
  destruct j as [i|n d|n d|i|i|n d|b p|c]; try done; intros Hwf.
  - destruct Hwf as [Hl _]. destruct n as [[]|]; cbn [enc_junction enc_network app dec_junction];
      by rewrite take_exact_app.
  - destruct Hwf as [Hl _]. destruct n as [[]|]; cbn [enc_junction enc_network app dec_junction];
      by rewrite take_exact_app.
  - destruct Hwf as [_ [Hl _]]. cbn [enc_junction app dec_junction]. by rewrite take_exact_app.
  - by destruct b.
Qed.

Lemma dec_enc_junctions js rest :
  Forall junction_wf js ->
  dec_junctions (length js) (concat (enc_junction <$> js) ++ rest) = Some js.
Proof.
  induction 1 as [|j js Hj _ IH]; [done|]. rewrite fmap_cons. cbn [concat length dec_junctions].
  rewrite <- app_assoc, dec_enc_junction by done. simpl. by rewrite IH.
Qed.

#[local] Instance toy_codec : LocationCodec.
Proof.
  refine {| loc_encode := enc_location; loc_decode := dec_location |}.
  intros [p js] rest [_ Hjs]. unfold enc_location, dec_location. cbn [app parents interior].
  rewrite (proj2 (Z.leb_le _ _)) by (destruct js; simpl; lia).
  rewrite Nat2Z.id, dec_enc_junctions by done. simpl. by rewrite list_junctions_list.
Defined.

(** [reanchored] that keeps the amount and names the asset from the other side. *)
#[local] Instance toy_reanchor : XcmReanchor :=
  {| reanchored a _ context :=
       match asset_id a with
       | Concrete (ML 0 Here) => Some (MA (Concrete (ML 1 context)) (asset_fun a))
       | _ => Some a
       end |}.

(** ** Fixed-point numbers *)

Lemma fx_small x : 0 <= x < 2 ^ 128 -> x mod 2 ^ 128 = x.
Proof. apply Z.mod_small. Qed.

#[local] Instance integer_fixed : FixedU112F16.
Proof.
  refine {| fx := Z; fx_bits v := v mod 2 ^ 128;
    fx_from_num x := if x <? 2 ^ 112 then Ok (x * 2 ^ 16) else Panic;
    fx_to_num v := v mod 2 ^ 128 / 2 ^ 16;
    fx_checked_div a b :=
      if b mod 2 ^ 128 =? 0 then None
      else let q := a mod 2 ^ 128 * 2 ^ 16 / (b mod 2 ^ 128) in
           if q <? 2 ^ 128 then Some q else None;
    fx_saturating_mul a b :=
      Z.min (2 ^ 128 - 1) (a mod 2 ^ 128 * (b mod 2 ^ 128) / 2 ^ 16);
    fx_max := 2 ^ 128 - 1 |}.
  - intros v. apply Z.mod_pos_bound. lia.
  - intros x Hx. exists (x * 2 ^ 16). rewrite (proj2 (Z.ltb_lt _ _)) by lia.
    split; [done|]. apply fx_small. lia.
  - intros x Hx. left. by rewrite (proj2 (Z.ltb_ge _ _)) by lia.
  - done.
  - intros a b ->. done.
  - intros a b Hb Hq. rewrite (proj2 (Z.eqb_neq _ _) Hb). cbv zeta.
    rewrite (proj2 (Z.ltb_lt _ _) Hq). eexists. split; [done|]. apply fx_small.
    split; [|done]. pose proof (Z.mod_pos_bound a (2 ^ 128)).
    pose proof (Z.mod_pos_bound b (2 ^ 128)). apply Z.div_pos; lia.
  - intros a b. apply fx_small. pose proof (Z.mod_pos_bound a (2 ^ 128)).
    pose proof (Z.mod_pos_bound b (2 ^ 128)).
    assert (0 <= a mod 2 ^ 128 * (b mod 2 ^ 128) / 2 ^ 16) by (apply Z.div_pos; nia). lia.
  - done.
Defined.

#[local] Instance padded_accounts : PalletIdAccounts :=
  {| into_account_truncating id := take 32 (b_ "modl" ++ id ++ replicate 32 0);
     into_bytes_truncating id := b_ "modl" ++ id;
     into_sub_account_truncating id n := take 32 (b_ "modl" ++ id ++ [n] ++ replicate 32 0) |}.

(** ** A ledger of accounts *)

Abbreviation Ledger := (gmap (AccountId * AssetId) Z).

(** The account of a location; a 20-byte key stands for the account it is padded to. *)
Definition account_of_location (l : MultiLocation) : option AccountId :=
  match l with
  | ML 0 (X1 (AccountId32 None id)) => Some id
  | ML 0 (X1 (AccountKey20 None key)) => Some (key ++ replicate 12 0)
  | _ => None
  end.

Definition balance_of (l : Ledger) (who : AccountId) (a : AssetId) : Z := get_or 0 l (who, a).

Definition ledger_withdraw (what : MultiAsset) (who : MultiLocation) (_ : option bytes)
    : M XcmError (World Ledger) (list MultiAsset) := fun w =>
  match asset_fun what, account_of_location who with
  | Fungible x, Some id =>
      let b := balance_of (ledger w) id (asset_id what) in
      if x <=? b
      then (Ok [what], set_ledger (<[(id, asset_id what) := b - x]> (ledger w)) w)
      else (Err (OtherXcmError 1), w)
  | _, _ => (Err (OtherXcmError 2), w)
  end.

Definition ledger_deposit (what : MultiAsset) (who : MultiLocation) (_ : bytes)
    : M XcmError (World Ledger) unit := fun w =>
  match asset_fun what, account_of_location who with
  | Fungible x, Some id =>
      let b := balance_of (ledger w) id (asset_id what) in
      (Ok tt, set_ledger (<[(id, asset_id what) := b + x]> (ledger w)) w)
  | _, _ => (Err (OtherXcmError 2), w)
  end.

Global Instance account_ledger : TransactAsset Ledger :=
  {| withdraw_asset := ledger_withdraw; deposit_asset := ledger_deposit |}.

(** The ledger writes nothing but itself. *)
Global Instance account_ledger_ext : TransactorExt Ledger.
Proof.
  split; intros what who ctx w r w'; simpl.
  - unfold ledger_withdraw. repeat case_match; intros [= <- <-] _; try done; apply ext_ledger.
  - unfold ledger_deposit. repeat case_match; intros [= <- <-] _; try done; apply ext_ledger.
Qed.

Lemma balance_insert l id a x id' a' :
  balance_of (<[(id, a) := x]> l) id' a' =
  if decide ((id', a') = (id, a)) then x else balance_of l id' a'.
Proof.
  unfold balance_of, get_or. rewrite lookup_insert.
  repeat case_decide; simplify_eq; done.
Qed.

(** It keeps what the adapters promise. *)
Global Instance account_ledger_laws : AssetLedger Ledger.
Proof.
  refine {| location_account := account_of_location; balance := balance_of |}.
  - done.
  - intros what who ctx w taken w'. simpl. unfold ledger_withdraw.
    destruct (asset_fun what) as [x|]; [|done].
    destruct (account_of_location who) as [id|] eqn:Hw; [|done].
    case_match; [|done]. intros [= <- <-]. exists id, x. split_and!; try done.
    intros id' a. simpl. rewrite balance_insert. case_decide; simplify_eq; lia.
  - intros what who ctx w w'. simpl. unfold ledger_deposit.
    destruct (asset_fun what) as [x|]; [|done].
    destruct (account_of_location who) as [id|] eqn:Hw; [|done].
    intros [= <-]. exists id, x. split_and!; try done.
    intros id' a. simpl. rewrite balance_insert. case_decide; simplify_eq; lia.
Defined.

(** ** The chain *)

(** [From<DispatchError> for &'static str]: the name of the variant, for the errors of the
    bridge pallet; the other pallets' errors do not reach an event. *)
Definition bridge_error_name (e : BridgeError) : string :=
  match e with
  | AccessDenied => "AccessDenied"
  | BadMpcSignature => "BadMpcSignature"
  | InsufficientBalance => "InsufficientBalance"
  | TransactFailed => "TransactFailed"
  | FeeTooExpensive => "FeeTooExpensive"
  | MissingMpcAddress => "MissingMpcAddress"
  | MpcAddrNotUpdatable => "MpcAddrNotUpdatable"
  | ErrBridgePaused => "BridgePaused"
  | ErrBridgeUnpaused => "BridgeUnpaused"
  | MissingFeeConfig => "MissingFeeConfig"
  | AssetNotBound => "AssetNotBound"
  | ProposalAlreadyComplete => "ProposalAlreadyComplete"
  | EmptyProposalList => "EmptyProposalList"
  | TransactorFailed => "TransactorFailed"
  | InvalidDepositData => "InvalidDepositData"
  | DestDomainNotSupported => "DestDomainNotSupported"
  | DestChainIDNotMatch => "DestChainIDNotMatch"
  | ExtractDestDataFailed => "ExtractDestDataFailed"
  | DecimalConversionFail => "DecimalConversionFail"
  | DepositNonceOverflow => "DepositNonceOverflow"
  | NoLiquidityHolderAccountBound => "NoLiquidityHolderAccountBound"
  | BridgeUnimplemented => "Unimplemented"
  end.
Definition error_name (e : DispatchError) : bytes :=
  match e with
  | ModBridge e => b_ (bridge_error_name e)
  | _ => b_ "Other"
  end.

Global Instance mock_config : BridgeConfig Ledger :=
  Mock.bridge_config account_ledger error_name.
#[local] Instance mock_basic : BasicFeeConfig := Mock.basic_config.
#[local] Instance mock_percentage : PercentageFeeConfig := Mock.percentage_config.
#[local] Instance mock_router : RouterConfig := Mock.router_config.

Abbreviation Chain := (World Ledger).

Definition native : AssetId := Concrete Mock.NativeLocation.
Definition usdt : AssetId := Concrete Mock.UsdtLocation.
Definition astr : AssetId := Concrete Mock.AstrLocation.

(** The account that holds the native asset. *)
Definition reserve_native : AccountId := Mock.BridgeAccountNative.

(** [new_test_ext]: the endowed accounts. *)
Definition new_test_ext : Chain :=
  empty_world (<[(Mock.ALICE, native) := Mock.ENDOWED_BALANCE]>
    (<[(Mock.ASSET_OWNER, native) := Mock.ENDOWED_BALANCE]>
      (<[(Mock.BOB, native) := Mock.ENDOWED_BALANCE]> ∅))).

Definition mpc_address : MpcAddress := public_key_to_address mpc_key.

(** Running a sequence of calls; a panic stops it. *)
Fixpoint run_calls (calls : list (RawOrigin * Call)) (w : Chain) : Chain :=
  match calls with
  | [] => w
  | (o, c) :: calls =>
      match dispatch o c w with
      | (Panic, w') => w'
      | (_, w') => run_calls calls w'
      end
  end.

Lemma run_call_ok o c w :
  (dispatch o c w).1 = Ok tt -> dispatch o c w = (Ok tt, run_calls [(o, c)] w).
Proof. simpl. destruct (dispatch o c w) as [[]]; naive_solver. Qed.

Lemma run_execute_ok o ps signature w :
  (execute_proposal o ps signature w).1 = Ok tt ->
  execute_proposal o ps signature w =
    (Ok tt, run_calls [(o, CallExecuteProposal ps signature)] w).
Proof. exact (run_call_ok o (CallExecuteProposal ps signature) w). Qed.

Lemma run_deposit_ok o asset dest w :
  (deposit o asset dest w).1 = Ok tt ->
  deposit o asset dest w = (Ok tt, run_calls [(o, CallDeposit asset dest)] w).
Proof. exact (run_call_ok o (CallDeposit asset dest) w). Qed.

(** No call of the sequence panics and all are well formed. *)
Fixpoint calls_ok (calls : list (RawOrigin * Call)) (w : Chain) : bool :=
  match calls with
  | [] => true
  | (o, c) :: calls =>
      bool_decide (call_wf c) &&
      match dispatch o c w with
      | (Panic, _) => false
      | (_, w') => calls_ok calls w'
      end
  end.

Lemma run_calls_reachable calls w :
  calls_ok calls w = true -> rtc step w (run_calls calls w).
Proof.
  revert w. induction calls as [|[o c] calls IH]; intros w; [constructor|]. simpl.
  rewrite andb_true_iff, bool_decide_eq_true. intros [Hc Hok].
  destruct (dispatch o c w) as [r w'] eqn:Hd.
  assert (Hs : r <> Panic -> step w w') by by eapply step_call.
  destruct r; try done; (eapply rtc_l; [by apply Hs|by apply IH]).
Qed.

(** A chain on which domain 1 is registered, the MPC address set and fees configured. *)
Definition setup_calls : list (RawOrigin * Call) := [
  (Root, CallSetFeeHandler 1 native BasicFeeHandler);
  (Root, CallSetFee 1 native 100);
  (Root, CallSetFeeHandler 1 usdt PercentageFeeHandler);
  (Root, CallSetFeeRate 1 usdt 50 10 1000);
  (Root, CallRegisterDomain 1 1);
  (Root, CallSetMpcAddress mpc_address)].
Definition ready : Chain := run_calls setup_calls new_test_ext.

(** The destination [bob] on domain 1, as the mock's parser reads it. *)
Definition dest_bob : MultiLocation :=
  ML 0 (X2 (general_key (b_ "bob")) (general_key [1])).

Definition deposit_call : RawOrigin * Call :=
  (Signed Mock.ALICE, CallDeposit (asset_of native 1000000) dest_bob).
Definition deposited : Chain := run_calls [deposit_call] ready.

Lemma deposited_ok :
  deposit (Signed Mock.ALICE) (asset_of native 1000000) dest_bob ready = (Ok tt, deposited).
Proof. unfold deposited, deposit_call. apply run_deposit_ok. vm_compute. reflexivity. Qed.

(** A proposal of domain 1 that pays Bob 0.001 of the native asset, in 18 decimals. *)
Definition proposal (nonce : Z) : Proposal :=
  {| origin_domain_id := 1; deposit_nonce := nonce; resource_id := Mock.NativeResourceId;
     data := create_deposit_data 200000000000 (loc_encode (loc_of_account Mock.BOB)) |}.

Definition digest (ps : list Proposal) : bytes :=
  construct_ecdsa_signing_proposals_data eip712_chain_id dest_verifying_contract_address ps.
Definition execute_call (ps : list Proposal) : RawOrigin * Call :=
  (Signed Mock.BOB, CallExecuteProposal ps (sign (digest ps))).
Definition executed : Chain := run_calls [execute_call [proposal 7]] deposited.

(** The chains above are reachable from the genesis ledger. *)
Definition genesis_ledger : Ledger := ledger new_test_ext.

Lemma ready_reachable : rtc step (empty_world genesis_ledger) ready.
Proof. apply run_calls_reachable. vm_compute. reflexivity. Qed.
Lemma deposited_reachable : rtc step (empty_world genesis_ledger) deposited.
Proof.
  etrans; [apply ready_reachable|]. apply run_calls_reachable. vm_compute. reflexivity.
Qed.
Lemma executed_reachable : rtc step (empty_world genesis_ledger) executed.
Proof.
  etrans; [apply deposited_reachable|]. apply run_calls_reachable. vm_compute. reflexivity.
Qed.

(** ** XCM

    A weigher that counts instructions, and an executor that debits the assets the
    message takes from its origin and completes. *)

Definition toy_weigh (msg : Xcm) : option Weight * Xcm :=
  (Some (from_parts (Z.of_nat (length msg) * 1000000000) 0), msg).
Definition toy_encode (msg : Xcm) : bytes := [Z.of_nat (length msg)].

Fixpoint take_all (assets : list MultiAsset) (who : MultiLocation) (w : Chain) : bool * Chain :=
  match assets with
  | [] => (true, w)
  | a :: assets =>
      match ledger_withdraw a who None w with
      | (Ok _, w') => take_all assets who w'
      | (_, w') => (false, w')
      end
  end.

Definition toy_execute (origin : MultiLocation) (msg : Xcm) (_ : bytes) (_ used : Weight)
    : M Empty_set Chain Outcome := fun w =>
  match take_all (flat_map taken_here msg) origin w with
  | (true, w') => (Ok (Complete used), w')
  | (false, w') => (Ok (Incomplete used (OtherXcmError 1)), w')
  end.

#[export] Instance para_xcm : XcmBridgeConfig Ledger :=
  Para.xcm_bridge_config toy_weigh toy_encode toy_execute.
