(* ===== verification/NetworkScenario.v ===== *)
(** * Two concrete chains

    The ledger of [Scenario.v] keeps the laws the network's theorems ask for, and the
    mock runtime is typed.  The network: the mock chain, which holds the native asset,
    and a chain that mints a wrapped token for the same resource id, its own parachain
    id being 2004 as the reserve checker assumes. *)

From S2P Require Import Prelude Xcm Frame Traits AccessSegregator BasicFeeHandler.
From S2P Require Import PercentageFeeHandler FeeHandlerRouter Encode Eip712 Bridge.
From S2P Require Import BridgeNonces BridgeDeposit BridgeExecute BridgeAdmin DepositData.
From S2P Require Import Conservation System DecimalConverter RuntimeCommon BridgeMock.
From S2P Require Import Relay Typing TypingRuntimes Supply Holding Network Circulation Pegs.
From S2P Require Import Scenario.

#[local] Existing Instances toy_crypto word_abi list_locations toy_codec integer_fixed
  padded_accounts mock_basic mock_percentage mock_router.

(** ** The parameters are typed *)

Lemma take_exact_typed n bs d rest :
  Forall is_byte bs -> take_exact n bs = Some (d, rest) ->
  is_array n d /\ Forall is_byte rest.
Proof.
  unfold take_exact. intros Hb. case_match eqn:Hn; [|done]. intros [= <- <-].
  apply Nat.leb_le in Hn. split; [|by apply Forall_drop].
  split; [rewrite length_take; lia|by apply Forall_take].
Qed.

Lemma byte_u8 b : is_byte b -> is_u u8_max b.
Proof. unfold is_byte, is_u, u8_max. lia. Qed.

(** [dec_fields]: the fields of a junction, read one after the other. *)
Ltac dec_fields :=
  repeat match goal with
  | Hf : Forall is_byte (_ :: _) |- _ => apply Forall_cons in Hf as [? Hf]
  | Ht : context [take_exact ?n ?bs] |- _ =>
      let Hx := fresh in destruct (take_exact n bs) as [[]|] eqn:Hx; [|done];
      apply take_exact_typed in Hx as [? ?]; [|done]; simpl in Ht
  end; simplify_eq; split; [|done]; simpl;
  repeat match goal with Hb : is_byte _ |- _ => apply byte_u8 in Hb end;
  unfold is_u, u8_max, u32_max, u128_max in *;
  first [done | lia | split; [lia|done]].

Lemma dec_junction_typed bs j rest :
  Forall is_byte bs -> dec_junction bs = Some (j, rest) -> junction_wf j /\ Forall is_byte rest.
Proof.
  intros Hb Hd. unfold dec_junction in Hd.
  repeat (case_match; simplify_eq/=; try done); dec_fields.
Qed.

Lemma dec_junctions_typed n bs js :
  Forall is_byte bs -> dec_junctions n bs = Some js ->
  (length js = n)%nat /\ Forall junction_wf js.
Proof.
  revert bs js. induction n as [|n IH]; intros bs js Hb; simpl; [by intros [= <-]|].
  intros Hd. apply bind_Some in Hd as ([j rest] & Hj & Hd).
  apply bind_Some in Hd as (js' & Hjs & [= <-]).
  apply dec_junction_typed in Hj as [Hj Hr]; [|done].
  destruct (IH _ _ Hr Hjs) as [<- Hw]. split; [done|]. by constructor.
Qed.

Lemma junctions_list_typed js :
  (length js <= 8)%nat -> junctions_list (list_junctions js) = js.
Proof.
  intros Hl. do 9 (destruct js as [|? js]; [done|]). simpl in Hl. lia.
Qed.

Lemma dec_location_typed bs l : Forall is_byte bs -> dec_location bs = Some l -> location_wf l.
Proof.
  intros Hb. unfold dec_location. destruct bs as [|p [|n bs]]; try done.
  rewrite !Forall_cons in Hb. destruct Hb as (Hp & Hn & Hb).
  destruct (Z.leb_spec n 8); [|done]. intros Hd. apply bind_Some in Hd as (js & Hjs & [= <-]).
  apply dec_junctions_typed in Hjs as [Hl Hjs]; [|done].
  split; simpl; [by apply byte_u8|]. rewrite junctions_list_typed; [done|].
  unfold is_byte in Hn. lia.
Qed.

Lemma padded_typed id pad :
  Forall is_byte id -> Forall is_byte pad ->
  account_typed (take 32 (b_ "modl" ++ id ++ pad ++ replicate 32 0)).
Proof.
  intros Hi Hp. split.
  - rewrite length_take, !length_app, length_replicate. lia.
  - apply Forall_take. rewrite !Forall_app. split_and!; try done.
    + apply (bool_decide_unpack _). vm_compute. done.
    + by apply Forall_replicate.
Qed.

#[export] Instance mock_config_typed : TypedConfig Ledger (H := mock_config).
Proof.
  apply mock_typed.
  - intros id Hid. by apply (padded_typed id []).
  - intros id n Hid Hn. apply (padded_typed id [n]); [done|]. by apply Forall_singleton.
  - exact dec_location_typed.
Qed.

(** ** The ledger *)

#[export] Instance account_ledger_typed : TypedTransactor Ledger.
Proof.
  split; intros what who ctx w r w' _ _ Hw; simpl;
    unfold ledger_withdraw, ledger_deposit; repeat case_match; intros [= <- <-] _;
    try done; by apply set_ledger_typed.
Qed.

#[export] Instance account_ledger_failsafe : FailsafeLedger Ledger.
Proof.
  split; intros what who ctx w r w' id a; simpl;
    unfold ledger_withdraw, ledger_deposit; repeat case_match; try done; by intros [= _ <-].
Qed.

Definition supply_of (l : Ledger) (a : AssetId) : Z :=
  map_fold (fun k x s => if decide (k.2 = a) then x + s else s) 0 l.

Lemma supply_insert (l : Ledger) id a x a' :
  supply_of (<[(id, a) := x]> l) a' =
  supply_of l a' + if decide (a' = a) then x - balance_of l id a else 0.
Proof.
  assert (Hfresh : forall m : Ledger, m !! (id, a) = None -> forall x,
    supply_of (<[(id, a) := x]> m) a' = supply_of m a' + if decide (a' = a) then x else 0).
  { intros m Hm x'. unfold supply_of. rewrite map_fold_insert_L; [|intros; repeat case_decide; lia|done].
    simpl. repeat case_decide; subst; try done; lia. }
  unfold balance_of, get_or. destruct (l !! (id, a)) as [y|] eqn:Hy; simpl.
  - rewrite <- insert_delete_eq. rewrite <- (insert_delete_id l (id, a) y) at 2 by done.
    rewrite !Hfresh by apply lookup_delete_eq. case_decide; lia.
  - rewrite Hfresh by done. case_decide; lia.
Qed.

#[export] Instance account_ledger_supply : SupplyLedger Ledger.
Proof.
  refine {| supply := supply_of |}; intros what who ctx w; simpl;
    unfold ledger_withdraw, ledger_deposit.
  - intros taken w'. destruct (asset_fun what) as [x|]; [|done].
    destruct (account_of_location who); [|done]. case_match; [|done]. intros [= _ <-].
    exists x. split; [done|]. intros a. simpl. rewrite supply_insert. case_decide; lia.
  - intros e w'. repeat case_match; try done; by intros [= _ <-].
  - intros w'. destruct (asset_fun what) as [x|]; [|done].
    destruct (account_of_location who); [|done]. intros [= <-].
    exists x. split; [done|]. intros a. simpl. rewrite supply_insert. case_decide; lia.
  - intros e w'. repeat case_match; try done; by intros [= _ <-].
Defined.

(** ** The chains *)

#[export] Instance mock_chain : ChainParams Ledger :=
  {| chain_bridge := mock_config; chain_basic := mock_basic;
     chain_percentage := mock_percentage; chain_router := mock_router |}.

(** The wrapped token: an asset of parachain 2004 itself, bound to the resource id of
    the mock's native asset, with 18 decimals. *)
Definition WrappedLocation : MultiLocation :=
  ML 1 (X3 (Parachain 2004) (general_key (b_ "sygma")) (general_key (b_ "wrapped"))).
Definition wrapped : AssetId := Concrete WrappedLocation.

Definition wrapping_config : BridgeConfig Ledger :=
  {| bridge_access := Mock.access_config;
     transfer_reserve_accounts :=
       account_map [(WrappedLocation, Mock.BridgeAccountOtherTokens)];
     dest_verifying_contract_address := Mock.DestVerifyingContractAddress;
     eip712_chain_id := Mock.EIP712ChainID;
     fee_reserve_account := Mock.TreasuryAccount;
     bridge_fee_handler := fee_handler_router;
     asset_transactor := account_ledger;
     resource_pairs := [(wrapped, Mock.NativeResourceId)];
     is_reserve := Mock.reserve_checker;
     extract_dest_data := Mock.destination_data_parser;
     pallet_account := into_bytes_truncating Mock.SygmaBridgePalletId;
     bridge_pallet_index := Mock.BridgePalletIndex;
     decimal_converter := sygma_decimal_converter [(wrapped, 18)];
     error_str := error_name |}.

#[export] Instance wrapping_config_typed : TypedConfig Ledger (H := wrapping_config).
Proof.
  split.
  - apply (bool_decide_unpack _). vm_compute. done.
  - apply account_map_typed. apply Forall_singleton.
    apply (padded_typed Mock.SygmaBridgePalletId [1]); apply (bool_decide_unpack _);
      vm_compute; done.
  - apply (bool_decide_unpack _). vm_compute. done.
  - exact two_keys_typed.
  - exact router_get_fee_typed.
  - exact (sygma_convert_to_typed _).
  - exact (sygma_convert_from_typed _).
  - exact dec_location_typed.
Qed.

Definition wrapping_chain : ChainParams Ledger :=
  {| chain_bridge := wrapping_config; chain_basic := mock_basic;
     chain_percentage := mock_percentage; chain_router := mock_router |}.

(** ** Runs of the network

    Each chain knows the other as domain 1.  The calls of a run name their chain. *)

Abbreviation MockNet := (Node Ledger * Node Ledger)%type.
Abbreviation mock_net_step := (net_step (CA := mock_chain) (CB := wrapping_chain) 1 1).

Inductive Side := OnMock | OnWrapping.

Definition node_call (C : ChainParams Ledger) (o : RawOrigin) (c : Call) (n : Node Ledger)
    : Node Ledger :=
  {| state := (call_on (C := C) o c (state n)).2; paid := paid n ++ pays (C := C) o c (state n) |}.

(** The call is typed, does not panic, and a batch holds announced proposals only. *)
Definition node_call_ok (C : ChainParams Ledger) (peer : list RuntimeEvent) (o : RawOrigin)
    (c : Call) (n : Node Ledger) : bool :=
  bool_decide (origin_typed o) && bool_decide (call_typed c) &&
  match (call_on (C := C) o c (state n)).1 with Panic => false | _ => true end &&
  match c with
  | CallExecuteProposal ps _ => forallb (fun p => bool_decide (p ∈ relayed 1 1 peer)) ps
  | _ => true
  end.

Fixpoint run_net (calls : list (Side * RawOrigin * Call)) (n : MockNet) : MockNet :=
  match calls with
  | [] => n
  | (OnMock, o, c) :: calls => run_net calls (node_call mock_chain o c n.1, n.2)
  | (OnWrapping, o, c) :: calls => run_net calls (n.1, node_call wrapping_chain o c n.2)
  end.

Fixpoint run_net_ok (calls : list (Side * RawOrigin * Call)) (n : MockNet) : bool :=
  match calls with
  | [] => true
  | (OnMock, o, c) :: calls =>
      node_call_ok mock_chain (events (state n.2)) o c n.1 &&
      run_net_ok calls (node_call mock_chain o c n.1, n.2)
  | (OnWrapping, o, c) :: calls =>
      node_call_ok wrapping_chain (events (state n.1)) o c n.2 &&
      run_net_ok calls (n.1, node_call wrapping_chain o c n.2)
  end.

Lemma node_call_keyless (C : ChainParams Ledger) s peer o c n :
  (forall id, peg_holder s = Some id -> o <> Signed id) -> node_call_ok C peer o c n = true ->
  keyless_step (C := C) s (vouched 1 1 peer) n (node_call C o c n).
Proof.
  unfold node_call_ok. rewrite !andb_true_iff, !bool_decide_eq_true.
  intros Hs [[[Ho Hc] Hr] Hb]. destruct (call_on o c (state n)) as [r w'] eqn:Hd.
  unfold node_call. rewrite Hd. simpl in *.
  eapply (keyless_step_call _ _ _ o c r); try done; [by destruct r|].
  intros ps sig -> _. apply Forall_forall. intros p Hp _.
  rewrite forallb_forall in Hb. specialize (Hb p). rewrite bool_decide_eq_true in Hb.
  apply Hb. by apply list_elem_of_In.
Qed.

Lemma node_call_step (C : ChainParams Ledger) peer o c n :
  node_call_ok C peer o c n = true ->
  node_step (C := C) (vouched 1 1 peer) n (node_call C o c n).
Proof.
  intros Hok. apply (keyless_node_step (Build_Peg native 1 1 None)).
  by apply node_call_keyless.
Qed.

Lemma run_net_reachable calls n :
  run_net_ok calls n = true -> rtc mock_net_step n (run_net calls n).
Proof.
  revert n. induction calls as [|[[[] o] c] calls IH]; intros [a b]; simpl; [done|..];
    rewrite andb_true_iff; intros [Hc Hok]; (eapply rtc_l; [|by apply IH]).
  - by apply net_step_a, node_call_step.
  - by apply net_step_b, node_call_step.
Qed.

Lemma run_net_app cs cs' n : run_net (cs ++ cs') n = run_net cs' (run_net cs n).
Proof. revert n. by induction cs as [|[[[] o] c] cs IH]; intros n; [|apply IH..]. Qed.

Lemma wrapping_step o c n :
  node_call_ok wrapping_chain (events (state n.1)) o c n.2 = true ->
  mock_net_step n (run_net [(OnWrapping, o, c)] n).
Proof. destruct n as [a b]. intros Hok. by apply net_step_b, node_call_step. Qed.

Definition wrapping_ledger : Ledger := ∅.
Definition net0 : MockNet := net_genesis genesis_ledger wrapping_ledger.

(** The beneficiary on the wrapping chain and the destination that names it. *)
Definition key_carol : bytes := replicate 20 9.
Definition loc_carol : MultiLocation := ML 0 (X1 (AccountKey20 None key_carol)).
Definition account_carol : AccountId := key_carol ++ replicate 12 0.
Definition recipient_carol : bytes := enc_location loc_carol.
Definition dest_carol : MultiLocation :=
  ML 0 (X2 (general_key recipient_carol) (general_key [1])).

(** Both chains are set up. *)
Definition net_setup : list (Side * RawOrigin * Call) := [
  (OnMock, Root, CallSetFeeHandler 1 native BasicFeeHandler);
  (OnMock, Root, CallSetFee 1 native 100);
  (OnMock, Root, CallRegisterDomain 1 1);
  (OnMock, Root, CallSetMpcAddress mpc_address);
  (OnWrapping, Root, CallRegisterDomain 1 1);
  (OnWrapping, Root, CallSetMpcAddress mpc_address)].
Definition net_ready : MockNet := run_net net_setup net0.

Definition net_deposit : Side * RawOrigin * Call :=
  (OnMock, Signed Mock.ALICE, CallDeposit (asset_of native 1000100) dest_carol).

(** One million units, in 18 decimals. *)
Definition carol_proposal : Proposal :=
  {| origin_domain_id := 1; deposit_nonce := 0; resource_id := Mock.NativeResourceId;
     data := create_deposit_data 1000000000000 recipient_carol |}.
Definition net_delivery : Side * RawOrigin * Call :=
  (OnWrapping, Signed Mock.BOB,
   CallExecuteProposal [carol_proposal] (sign (digest [carol_proposal]))).
Definition net_delivered : MockNet := run_net [net_deposit; net_delivery] net_ready.

Lemma net_ready_reachable : rtc mock_net_step net0 net_ready.
Proof. apply run_net_reachable. vm_compute. reflexivity. Qed.
Lemma net_delivered_reachable : rtc mock_net_step net0 net_delivered.
Proof.
  etrans; [apply net_ready_reachable|]. apply run_net_reachable. vm_compute. reflexivity.
Qed.
(** The last step of that run: the delivery. *)
Definition net_sent : MockNet := run_net [net_deposit] net_ready.
Lemma net_sent_reachable :
  rtc mock_net_step (net_genesis genesis_ledger wrapping_ledger) net_sent.
Proof.
  etrans; [apply net_ready_reachable|]. apply run_net_reachable. vm_compute. reflexivity.
Qed.
Lemma net_delivered_step : mock_net_step net_sent net_delivered.
Proof.
  unfold net_delivered, net_sent.
  change [net_deposit; net_delivery] with ([net_deposit] ++ [net_delivery]).
  rewrite run_net_app.
  apply wrapping_step. vm_compute. reflexivity.
Qed.
(** The same, with the two chains apart. *)
Lemma net_ready_pair : rtc mock_net_step (net_genesis genesis_ledger wrapping_ledger)
  (net_ready.1, net_ready.2).
Proof. rewrite <- surjective_pairing. exact net_ready_reachable. Qed.
Lemma net_delivered_pair : rtc mock_net_step (net_genesis genesis_ledger wrapping_ledger)
  (net_delivered.1, net_delivered.2).
Proof. rewrite <- surjective_pairing. exact net_delivered_reachable. Qed.
Lemma net_delivered_paid : paid net_delivered.2 = [carol_proposal].
Proof. vm_compute. reflexivity. Qed.

(** ** The resource both chains represent *)

#[export] Instance account_ledger_plain : PlainTransactor Ledger.
Proof.
  split; intros what who ctx w r w' self d; simpl;
    unfold ledger_withdraw, ledger_deposit; repeat case_match; by intros [= _ <-].
Qed.

(** Accounts of a pallet start with the letters [modl], the treasury with 100. *)
Lemma padded_not_treasury bs : take 32 (b_ "modl" ++ bs) <> replicate 32 100.
Proof. intros He. apply (f_equal head) in He. done. Qed.

(** The mock holds the native asset, with 12 decimals, in reserve; the other chain mints
    the wrapped one, with 18. *)
Definition native_peg : Peg := table_peg (H := mock_config) native 12.
Definition wrapped_peg : Peg := table_peg (H := wrapping_config) wrapped 18.

Lemma native_pegged : pegged (H := mock_config) native_peg Mock.NativeResourceId.
Proof.
  apply (table_pegged Mock.AssetDecimalPairs).
  - apply mock_sound; intros; apply padded_not_treasury.
  - apply (bool_decide_unpack _). vm_compute. exact I.
  - vm_compute. reflexivity.
  - lia.
Qed.

Lemma wrapped_pegged : pegged (H := wrapping_config) wrapped_peg Mock.NativeResourceId.
Proof.
  apply (table_pegged [(wrapped, 18)]).
  - split; [done..| | | |by intros [] x].
    + apply (bool_decide_unpack _). vm_compute. exact I.
    + apply (bool_decide_unpack _). vm_compute. exact I.
    + apply Forall_singleton. eexists. split; [vm_compute; reflexivity|].
      apply not_eq_sym. vm_compute. congruence.
  - apply (bool_decide_unpack _). vm_compute. exact I.
  - vm_compute. reflexivity.
  - lia.
Qed.

(** No call is signed by a holding account. *)
Definition keyless_call (c : Side * RawOrigin * Call) : bool :=
  let '(side, o, _) := c in
  let holder := match side with
                | OnMock => peg_holder native_peg
                | OnWrapping => peg_holder wrapped_peg
                end in
  match o, holder with Signed id, Some id' => negb (bool_decide (id = id')) | _, _ => true end.

Lemma keyless_call_origin s o id :
  match o, peg_holder s with Signed id, Some id' => negb (bool_decide (id = id')) | _, _ => true end
    = true -> peg_holder s = Some id -> o <> Signed id.
Proof. intros Hk Hs ->. rewrite Hs, negb_true_iff, bool_decide_eq_false in Hk. done. Qed.

Lemma run_net_keyless calls n :
  run_net_ok calls n = true -> forallb keyless_call calls = true ->
  rtc (keyless_net_step (CA := mock_chain) (CB := wrapping_chain) 1 1 native_peg wrapped_peg)
    n (run_net calls n).
Proof.
  revert n. induction calls as [|[[[] o] c] calls IH]; intros [a b]; [done|..];
    cbn [run_net_ok forallb run_net keyless_call]; rewrite !andb_true_iff;
    intros [Hc Hok] [Hk Hks]; (eapply rtc_l; [|by apply IH]).
  - apply keyless_net_a, node_call_keyless; [|done]. intros id. by apply keyless_call_origin.
  - apply keyless_net_b, node_call_keyless; [|done]. intros id. by apply keyless_call_origin.
Qed.

Lemma net_delivered_keyless :
  rtc (keyless_net_step (CA := mock_chain) (CB := wrapping_chain) 1 1 native_peg wrapped_peg)
    (net_genesis genesis_ledger wrapping_ledger) (net_delivered.1, net_delivered.2).
Proof.
  rewrite <- surjective_pairing. unfold net_delivered.
  transitivity net_ready; [|apply (run_net_keyless [net_deposit; net_delivery])].
  - apply (run_net_keyless net_setup); vm_compute; reflexivity.
  - vm_compute. reflexivity.
  - vm_compute. reflexivity.
Qed.

(** ** Typed runs of the mock chain, with the moves of the holding accounts *)

(** Every call of the sequence is typed, does not panic and is not signed by [id]. *)
Fixpoint typed_calls_ok (id : AccountId) (calls : list (RawOrigin * Call)) (w : Chain) : bool :=
  match calls with
  | [] => true
  | (o, c) :: calls =>
      bool_decide (origin_typed o) && bool_decide (call_typed c) &&
      bool_decide (ensure_signed o <> Some id) &&
      match dispatch o c w with
      | (Panic, _) => false
      | (_, w') => typed_calls_ok id calls w'
      end
  end.

Fixpoint run_moves (calls : list (RawOrigin * Call)) (w : Chain) : list Move :=
  match calls with
  | [] => []
  | (o, c) :: calls => moves_of o c w ++ run_moves calls (dispatch o c w).2
  end.

Lemma typed_calls_reachable id calls w :
  typed_calls_ok id calls w = true -> rtc typed_step w (run_calls calls w).
Proof.
  revert w. induction calls as [|[o c] calls IH]; intros w; [constructor|]. simpl.
  rewrite !andb_true_iff, !bool_decide_eq_true. intros [[[Ho Hc] _] Hok].
  destruct (dispatch o c w) as [r w'] eqn:Hd.
  assert (Hs : r <> Panic -> typed_step w w') by by eapply typed_step_call.
  destruct r; try done; (eapply rtc_l; [by apply Hs|by apply IH]).
Qed.

Lemma typed_calls_history id calls w0 w ms :
  history id w0 w ms -> typed_calls_ok id calls w = true ->
  history id w0 (run_calls calls w) (ms ++ run_moves calls w).
Proof.
  revert w ms. induction calls as [|[o c] calls IH]; intros w ms Hh; simpl;
    [by rewrite app_nil_r|].
  rewrite !andb_true_iff, !bool_decide_eq_true. intros [[[Ho Hc] Hs] Hok].
  destruct (dispatch o c w) as [r w'] eqn:Hd. rewrite app_assoc. simpl.
  assert (Hs' : o <> Signed id) by (intros ->; by apply Hs).
  assert (Hx : r <> Panic -> history id w0 w' (ms ++ moves_of o c w))
    by (intros; by eapply history_call).
  destruct r; try done; (apply IH; [by apply Hx|done]).
Qed.

(** The calls that lead to [executed]. *)
Definition all_calls : list (RawOrigin * Call) :=
  setup_calls ++ [deposit_call; execute_call [proposal 7]].
Definition final : Chain := run_calls all_calls (empty_world genesis_ledger).

Lemma all_calls_typed :
  typed_calls_ok reserve_native all_calls (empty_world genesis_ledger) = true.
Proof. vm_compute. reflexivity. Qed.
Lemma final_moves :
  run_moves all_calls (empty_world genesis_ledger) =
    [(reserve_native, native, 999900); (reserve_native, native, -200000)].
Proof. vm_compute. reflexivity. Qed.
Lemma final_history :
  history reserve_native (empty_world genesis_ledger) final
    [(reserve_native, native, 999900); (reserve_native, native, -200000)].
Proof.
  rewrite <- final_moves, <- (app_nil_l (run_moves _ _)). unfold final.
  apply typed_calls_history; [constructor|apply all_calls_typed].
Qed.

(** ** The next deposit *)

Lemma construct_length chain contract ps :
  length (construct_ecdsa_signing_proposals_data chain contract ps) = 32%nat.
Proof. destruct ps; [done|]. apply to_be_length. lia. Qed.

Lemma toy_signs (w : Chain) :
  MpcAddr (bridge w) = mpc_address -> signs (C := wrapping_chain) w sign.
Proof.
  intros Hm ps _. cbv zeta. set (m := construct_ecdsa_signing_proposals_data _ _ ps).
  assert (Hl : length m = 32%nat) by apply construct_length.
  unfold verify_by_mpc_address. rewrite Hm.
  assert (length (sign m) = 65%nat) as -> by (unfold sign, sign_by; rewrite !length_app, Hl; done).
  change (secp256k1_ecdsa_recover (sign m) m) with (recover (sign m) m).
  assert (recover (sign m) m = Some mpc_key) as ->.
  { unfold recover, sign, sign_by.
    rewrite decide_True by (rewrite take_app_le by lia; apply take_ge; lia).
    by rewrite app_assoc, last_snoc. }
  by apply bool_decide_eq_true.
Qed.

Lemma ready_mpc : MpcAddr (bridge (state net_ready.2)) = mpc_address.
Proof. vm_compute. reflexivity. Qed.

Definition carol_sent : Chain :=
  (deposit (Signed Mock.ALICE) (asset_of native 1000100) dest_carol (state net_ready.1)).2.

Lemma carol_sends :
  sends (C := mock_chain) (state net_ready.1) Mock.ALICE (asset_of native 1000100) dest_carol
    carol_sent recipient_carol 1 Mock.NativeResourceId 1000000000000.
Proof.
  split.
  - apply (bool_decide_unpack _). vm_compute. done.
  - refine (run_result _ (Ok tt) _). vm_compute. reflexivity.
  - vm_compute. reflexivity.
  - exists 1000100, FungibleTransfer, 100. split_and!; vm_compute; reflexivity.
Qed.

Lemma carol_encoded : encodes (C := wrapping_chain) recipient_carol loc_carol.
Proof.
  split_and!; [apply (bool_decide_unpack _); vm_compute; done|done|vm_compute; congruence].
Qed.

Definition carol_credited : Chain :=
  (ledger_deposit (asset_of wrapped 1000000000000) loc_carol no_message (state net_ready.2)).2.

Lemma carol_can_be_paid :
  can_pay (C := wrapping_chain) (state net_ready.2) 1 Mock.NativeResourceId 1000000000000
    loc_carol (asset_of wrapped 1000000000000) carol_credited.
Proof.
  split; [rewrite ready_mpc; vm_compute; congruence|vm_compute; reflexivity..|].
  exists wrapped, Mock.BridgeAccountOtherTokens, (state net_ready.2).
  split; [vm_compute; reflexivity|]. split; [vm_compute; reflexivity|].
  split; [vm_compute; reflexivity|]. split.
  - replace (contains (asset_of wrapped 1000000000000) loc_here) with false
      by (vm_compute; reflexivity). reflexivity.
  - refine (run_result _ (Ok tt) _). vm_compute. reflexivity.
Qed.
