(* ===== verification/MeshScenario.v ===== *)
(** * Three concrete chains

    Domain 1 is the mock chain, which holds the native asset; domains 2 and 3 mint the
    wrapped token.  A deposit travels from 1 to 2, and from there to 3. *)

From S2P Require Import Prelude Xcm Frame Traits AccessSegregator BasicFeeHandler.
From S2P Require Import PercentageFeeHandler FeeHandlerRouter Encode Eip712 Bridge.
From S2P Require Import BridgeNonces BridgeDeposit BridgeExecute BridgeAdmin DepositData.
From S2P Require Import Conservation System DecimalConverter RuntimeCommon BridgeMock.
From S2P Require Import Relay Typing TypingRuntimes Supply Holding Network Circulation Pegs Mesh.
From S2P Require Import Scenario NetworkScenario.

#[local] Existing Instances toy_crypto word_abi list_locations toy_codec integer_fixed
  padded_accounts mock_basic mock_percentage mock_router.

Definition three_domains : list DomainID := [1; 2; 3].
Definition mesh_chain (d : DomainID) : ChainParams Ledger :=
  if d =? 1 then mock_chain else wrapping_chain.
Definition mesh_peg (d : DomainID) : Peg := if d =? 1 then native_peg else wrapped_peg.
Definition mesh_ledger (d : DomainID) : Ledger :=
  if d =? 1 then genesis_ledger else wrapping_ledger.

(** ** The chains keep the laws *)

Abbreviation mesh_transactor d := (@asset_transactor Ledger (@chain_bridge Ledger (mesh_chain d))).

(** [on_each law]: a law both configurations keep. *)
Ltac on_each law := unfold mesh_chain; intros d; destruct (d =? 1); exact law.

Lemma mesh_ext : forall d, TransactorExt Ledger (H := mesh_transactor d).
Proof. on_each account_ledger_ext. Qed.
Lemma mesh_config_typed : forall d, TypedConfig Ledger (H := @chain_bridge _ (mesh_chain d)).
Proof.
  intros d. unfold mesh_chain.
  destruct (d =? 1); [exact mock_config_typed|exact wrapping_config_typed].
Qed.
Lemma mesh_typed : forall d, TypedTransactor Ledger (H := mesh_transactor d).
Proof. on_each account_ledger_typed. Qed.
Definition mesh_assets : forall d, AssetLedger Ledger (H := mesh_transactor d).
Proof. on_each account_ledger_laws. Defined.
Lemma mesh_failsafe : forall d, FailsafeLedger Ledger (H0 := mesh_assets d).
Proof. unfold mesh_assets. on_each account_ledger_failsafe. Qed.
Definition mesh_supply : forall d, SupplyLedger Ledger (H := mesh_transactor d).
Proof. on_each account_ledger_supply. Defined.
Lemma mesh_plain : forall d, PlainTransactor Ledger (H := mesh_transactor d).
Proof. on_each account_ledger_plain. Qed.

#[local] Existing Instances mesh_ext mesh_config_typed mesh_typed mesh_assets mesh_failsafe
  mesh_supply mesh_plain.

Lemma mesh_pegged d :
  d ∈ three_domains ->
  pegged (L := Ledger) (H := @chain_bridge _ (mesh_chain d)) (mesh_peg d) Mock.NativeResourceId.
Proof.
  intros _. unfold mesh_chain, mesh_peg.
  destruct (d =? 1); [exact native_pegged|exact wrapped_pegged].
Qed.

(** ** Runs *)

Abbreviation MockMesh := (Mesh (L := fun _ => Ledger)).
Abbreviation mock_mesh_step :=
  (mesh_step (L := fun _ => Ledger) (C := mesh_chain) three_domains mesh_peg).

Definition mesh_call (d : DomainID) (o : RawOrigin) (c : Call) (n : MockMesh) : MockMesh :=
  fun e => if e =? d then node_call (mesh_chain d) o c (n d) else n e.

(** The call is typed, keyless, does not panic, and a batch holds announced proposals. *)
Definition mesh_call_ok (d : DomainID) (o : RawOrigin) (c : Call) (n : MockMesh) : bool :=
  bool_decide (d ∈ three_domains) && bool_decide (origin_typed o) && bool_decide (call_typed c) &&
  match o, peg_holder (mesh_peg d) with
  | Signed id, Some id' => negb (bool_decide (id = id'))
  | _, _ => true
  end &&
  match (call_on (C := mesh_chain d) o c (state (n d))).1 with Panic => false | _ => true end &&
  match c with
  | CallExecuteProposal ps _ =>
      forallb (fun p => bool_decide
        (p ∈ relayed (origin_domain_id p) d (events (state (n (origin_domain_id p)))))) ps
  | _ => true
  end.

Fixpoint run_mesh (calls : list (DomainID * RawOrigin * Call)) (n : MockMesh) : MockMesh :=
  match calls with [] => n | (d, o, c) :: calls => run_mesh calls (mesh_call d o c n) end.
Fixpoint run_mesh_ok (calls : list (DomainID * RawOrigin * Call)) (n : MockMesh) : bool :=
  match calls with
  | [] => true
  | (d, o, c) :: calls => mesh_call_ok d o c n && run_mesh_ok calls (mesh_call d o c n)
  end.

Lemma mesh_call_step d o c n : mesh_call_ok d o c n = true -> mock_mesh_step n (mesh_call d o c n).
Proof.
  unfold mesh_call_ok. rewrite !andb_true_iff, !bool_decide_eq_true.
  intros [[[[[Hd Ho] Hc] Hk] Hr] Hb]. apply (mesh_step_call _ _ _ _ d Hd).
  - unfold mesh_call. rewrite Z.eqb_refl. unfold node_call.
    destruct (call_on o c (state (n d))) as [r w'] eqn:Hcall. simpl in *.
    eapply (keyless_step_call _ _ _ o c r); try done; [|by destruct r|].
    + intros id. by apply keyless_call_origin.
    + intros ps sig -> _ d' _. apply Forall_forall. intros p Hp <-.
      rewrite forallb_forall in Hb. specialize (Hb p). rewrite bool_decide_eq_true in Hb.
      apply Hb. by apply list_elem_of_In.
  - intros d' Hne. unfold mesh_call. by rewrite (proj2 (Z.eqb_neq _ _) Hne).
Qed.

Lemma run_mesh_reachable calls n :
  run_mesh_ok calls n = true -> rtc mock_mesh_step n (run_mesh calls n).
Proof.
  revert n. induction calls as [|[[d o] c] calls IH]; intros n; simpl; [done|].
  rewrite andb_true_iff. intros [Hc Hok]. eapply rtc_l; [by apply mesh_call_step|by apply IH].
Qed.

(** Native coins from Alice of domain 1 to Carol of domain 2, who sends on to domain 3. *)
Definition dest_on (d : DomainID) : MultiLocation :=
  ML 0 (X2 (general_key recipient_carol) (general_key [d])).
Definition to_carol (origin : DomainID) (amount : Z) : Proposal :=
  {| origin_domain_id := origin; deposit_nonce := 0; resource_id := Mock.NativeResourceId;
     data := create_deposit_data amount recipient_carol |}.
Definition pay_carol (p : Proposal) : Call := CallExecuteProposal [p] (sign (digest [p])).

Definition mesh_calls : list (DomainID * RawOrigin * Call) := [
  (1, Root, CallSetFeeHandler 2 native BasicFeeHandler);
  (1, Root, CallSetFee 2 native 100);
  (1, Root, CallRegisterDomain 2 1);
  (1, Root, CallSetMpcAddress mpc_address);
  (2, Root, CallSetFeeHandler 3 wrapped BasicFeeHandler);
  (2, Root, CallSetFee 3 wrapped 7);
  (2, Root, CallRegisterDomain 1 1);
  (2, Root, CallRegisterDomain 3 1);
  (2, Root, CallSetMpcAddress mpc_address);
  (3, Root, CallRegisterDomain 2 1);
  (3, Root, CallSetMpcAddress mpc_address);
  (1, Signed Mock.ALICE, CallDeposit (asset_of native 1000100) (dest_on 2));
  (2, Signed Mock.BOB, pay_carol (to_carol 1 1000000000000));
  (2, Signed account_carol, CallDeposit (asset_of wrapped 500000000007) (dest_on 3));
  (3, Signed Mock.BOB, pay_carol (to_carol 2 500000000000))].

Definition mesh_final : MockMesh := run_mesh mesh_calls (mesh_genesis mesh_ledger).

Lemma mesh_final_reachable : rtc mock_mesh_step (mesh_genesis mesh_ledger) mesh_final.
Proof. apply run_mesh_reachable. vm_compute. reflexivity. Qed.

(** Half of the coins ended on domain 3, the fee of the second hop with the treasury. *)
Example mesh_final_balances :
  (balance_of (ledger (state (mesh_final 1))) reserve_native native,
   balance_of (ledger (state (mesh_final 2))) account_carol wrapped,
   balance_of (ledger (state (mesh_final 3))) account_carol wrapped,
   length (paid (mesh_final 2)), length (paid (mesh_final 3)))
  = (1000000, 499999999993, 500000000000, 1%nat, 1%nat).
Proof. vm_compute. reflexivity. Qed.
