(* ===== verification/StandaloneScenario.v ===== *)
(** * A standalone chain that runs

    The balances and the assets pallet as maps with their totals, the two adapters over
    them and the pair, and a run of the standalone runtime: the committee sets it up, Alice
    sends native coins and a foreign token away, and a signed proposal brings coins back. *)

From S2P Require Import Prelude Xcm Frame Traits AccessSegregator BasicFeeHandler.
From S2P Require Import PercentageFeeHandler FeeHandlerRouter Encode Eip712 Bridge.
From S2P Require Import BridgeNonces BridgeDeposit BridgeExecute BridgeAdmin DepositData.
From S2P Require Import Conservation System DecimalConverter RuntimeCommon StandaloneRuntime.
From S2P Require Import BridgeMock Relay Typing TypingRuntimes Supply Holding Network.
From S2P Require Import Circulation Pegs XcmConfig Adapters StandaloneLedger Scenario NetworkScenario.

#[local] Existing Instances toy_crypto word_abi list_locations toy_codec integer_fixed
  padded_accounts plain_converters.

#[export] Instance place_countable : Countable Place.
Proof.
  refine (inj_countable' (fun p => match p with InBalances => None | InAssets i => Some i end)
    (fun o => match o with None => InBalances | Some i => InAssets i end) _).
  by intros [].
Defined.

(** ** The pallets *)

Record Pallets := { held : gmap (Place * AccountId) Z; issued : gmap Place Z }.

Definition pallet_amount (l : Pallets) (p : Place) (id : AccountId) : Z := get_or 0 (held l) (p, id).
Definition pallet_total (l : Pallets) (p : Place) : Z := get_or 0 (issued l) p.
Definition change (p : Place) (id : AccountId) (x : Z) (l : Pallets) : Pallets :=
  {| held := <[(p, id) := pallet_amount l p id + x]> (held l);
     issued := <[p := pallet_total l p + x]> (issued l) |}.

Lemma change_amount p id x l p' id' :
  pallet_amount (change p id x l) p' id' =
  pallet_amount l p' id' + if decide ((p', id') = (p, id)) then x else 0.
Proof.
  unfold pallet_amount at 1. simpl. unfold get_or. case_decide as Hd.
  - injection Hd as -> ->. by rewrite lookup_insert_eq.
  - rewrite lookup_insert_ne by congruence. fold (get_or 0 (held l) (p', id')).
    unfold pallet_amount. lia.
Qed.
Lemma change_total p id x l p' :
  pallet_total (change p id x l) p' = pallet_total l p' + if decide (p' = p) then x else 0.
Proof.
  unfold pallet_total at 1. simpl. unfold get_or. case_decide as Hd.
  - subst. by rewrite lookup_insert_eq.
  - rewrite lookup_insert_ne by congruence. fold (get_or 0 (issued l) p').
    unfold pallet_total. lia.
Qed.

(** ** The adapters *)

Definition unknown_asset (e : XcmError) : bool :=
  match e with OtherXcmError 3 => true | _ => false end.

(** A credit or a debit of a matched asset; a debit needs the balance. *)
Section Adapter.
Context (account_of : Converter).

Definition pallet_op {A} (a : A) (sign : Z) (m : option (Place * Z)) (who : MultiLocation)
    : M XcmError (World Pallets) A := fun w =>
  match m, account_of who with
  | None, _ => (Err (OtherXcmError 3), w)
  | _, None => (Err (OtherXcmError 2), w)
  | Some (p, x), Some id =>
      if 0 <=? pallet_amount (ledger w) p id + sign * x
      then (Ok a, set_ledger (change p id (sign * x) (ledger w)) w)
      else (Err (OtherXcmError 1), w)
  end.

Lemma pallet_op_adapter {A} (a : A) sign m who :
  adapter_op pallet_amount pallet_total account_of unknown_asset sign m who
    (pallet_op a sign m who).
Proof.
  split.
  - intros w ->. by exists (OtherXcmError 3).
  - intros w a' w' p x ->. unfold pallet_op. destruct (account_of who) as [id|]; [|done].
    case_match; [|done]. intros [= _ <-]. exists id. split; [done|]. simpl.
    split; intros; [apply change_amount|apply change_total].
  - intros w e w'. unfold pallet_op. by repeat case_match; intros [= _ <-].
Qed.

(** Everything but the ledger stays. *)
Lemma pallet_op_frame {A} (a : A) sign m who w r w' :
  pallet_op a sign m who w = (r, w') -> w' = set_ledger (ledger w') w.
Proof. unfold pallet_op. repeat case_match; intros [= _ <-]; by destruct w. Qed.

Definition pallet_adapter (matches : MultiAsset -> option (Place * Z)) : TransactAsset Pallets :=
  {| withdraw_asset what who _ := pallet_op [what] (-1) (matches what) who;
     deposit_asset what who _ := pallet_op tt 1 (matches what) who |}.

End Adapter.

Definition balances_transactor : TransactAsset Pallets :=
  pallet_adapter StandaloneXcm.LocationToAccountId (currency_matches Standalone.NativeLocation).
Definition assets_transactor : TransactAsset Pallets :=
  pallet_adapter StandaloneXcm.LocationToAccountId (fungibles_matches standalone_table).

Definition both {A} (m1 m2 : M XcmError (World Pallets) A) : M XcmError (World Pallets) A :=
  fun w => match m1 w with
           | (Err e, w1) => if unknown_asset e then m2 w1 else (Err e, w1)
           | r => r
           end.
Definition pallet_transactors : TransactAsset Pallets :=
  {| withdraw_asset what who ctx :=
       both (withdraw_asset (TransactAsset := balances_transactor) what who ctx)
            (withdraw_asset (TransactAsset := assets_transactor) what who ctx);
     deposit_asset what who ctx :=
       both (deposit_asset (TransactAsset := balances_transactor) what who ctx)
            (deposit_asset (TransactAsset := assets_transactor) what who ctx) |}.

Lemma both_tuple {A} (m1 m2 : M XcmError (World Pallets) A) :
  tuple_op unknown_asset m1 m2 (both m1 m2).
Proof.
  split; unfold both.
  - intros w r w1 ->. destruct r as [|e|]; try done. intros He. by rewrite (He e eq_refl).
  - intros w e w1 r w2 -> -> ->. eauto.
Qed.

(** ** The environment is met *)

Lemma pallet_adapter_ext account_of matches : TransactorExt Pallets (H := pallet_adapter account_of matches).
Proof.
  split; intros what who ctx w r w' Hr _; apply pallet_op_frame in Hr as ->; apply ext_ledger.
Qed.
Lemma pallet_adapter_typed account_of matches : TypedTransactor Pallets (H := pallet_adapter account_of matches).
Proof.
  split; intros what who ctx w r w' _ _ Hw Hr _; apply pallet_op_frame in Hr as ->;
    by apply set_ledger_typed.
Qed.
Lemma pallet_adapter_plain account_of matches : PlainTransactor Pallets (H := pallet_adapter account_of matches).
Proof. by split; intros what who ctx w r w' self d Hr _; apply pallet_op_frame in Hr as ->. Qed.

Lemma concrete_environment :
  standalone_environment pallet_amount pallet_total unknown_asset
    balances_transactor assets_transactor pallet_transactors.
Proof.
  split.
  - split; intros; apply pallet_op_adapter.
  - split; intros; apply pallet_op_adapter.
  - split; intros; apply both_tuple.
  - split; apply pallet_adapter_ext.
  - split; apply pallet_adapter_typed.
  - split; apply pallet_adapter_plain.
  - intros id Hid. by apply (padded_typed id []).
  - intros id n Hid Hn. apply (padded_typed id [n]); [done|by apply Forall_singleton].
  - intros id. apply padded_not_treasury.
  - intros id n. apply padded_not_treasury.
  - exact dec_location_typed.
Qed.

(** ** A run *)

Definition sa_chain : ChainParams Pallets := standalone_chain pallet_transactors error_name.
Abbreviation sa_config := (Standalone.bridge_config pallet_transactors error_name).
Abbreviation native_asset := (Concrete Standalone.NativeLocation).
Abbreviation usdc_asset := (Concrete Standalone.UsdcLocation).

(** Runs of a chain on these pallets; the calls are typed, do not panic, are not signed by
    the holder, and hold batches the MPC may sign. *)
Section Runs.
Context {C : ChainParams Pallets} (ok : list Proposal -> Prop) `{!forall ps, Decision (ok ps)}
  (holder : AccountId).

Definition run_call (o : RawOrigin) (c : Call) (n : Node Pallets) : Node Pallets :=
  {| state := (call_on o c (state n)).2; paid := paid n ++ pays o c (state n) |}.
Definition run_call_ok (o : RawOrigin) (c : Call) (n : Node Pallets) : bool :=
  bool_decide (origin_typed o) && bool_decide (call_typed c) &&
  bool_decide (ensure_signed o <> Some holder) &&
  match c with CallExecuteProposal ps _ => bool_decide (ok ps) | _ => true end &&
  match (call_on o c (state n)).1 with Panic => false | _ => true end.

Fixpoint run_calls (calls : list (RawOrigin * Call)) (n : Node Pallets) : Node Pallets :=
  match calls with [] => n | (o, c) :: calls => run_calls calls (run_call o c n) end.
Fixpoint run_calls_ok (calls : list (RawOrigin * Call)) (n : Node Pallets) : bool :=
  match calls with
  | [] => true
  | (o, c) :: calls => run_call_ok o c n && run_calls_ok calls (run_call o c n)
  end.

Lemma run_calls_keyless s calls n :
  peg_holder s = Some holder -> run_calls_ok calls n = true ->
  rtc (keyless_step s ok) n (run_calls calls n).
Proof.
  intros Hs. revert n. induction calls as [|[o c] calls IH]; intros n; simpl; [done|].
  rewrite andb_true_iff. intros [Hok Hrest]. eapply rtc_l; [|by apply IH].
  unfold run_call_ok in Hok. rewrite !andb_true_iff, !bool_decide_eq_true in Hok.
  destruct Hok as [[[[Ho Hc] Hk] Hb] Hr]. unfold run_call.
  destruct (call_on o c (state n)) as [r w'] eqn:Hd. simpl in *.
  eapply (keyless_step_call _ _ _ o c r); try done; [|by destruct r|].
  - intros id Hid ->. rewrite Hs in Hid. by injection Hid as ->.
  - intros ps sig -> _. by apply bool_decide_eq_true in Hb.
Qed.
End Runs.

#[export] Instance any_batch_dec ps : Decision (any_batch ps) := left I.

(** Native coins, and units of the foreign token, of Alice at genesis. *)
Definition pallets0 : Pallets :=
  change InBalances Mock.ALICE 10000000000000000
    (change (InAssets Standalone.UsdcAssetId) Mock.ALICE 5000000 {| held := ∅; issued := ∅ |}).

Definition sa_setup : list (RawOrigin * Call) := [
  (Root, CallSetFeeHandler 1 native_asset BasicFeeHandler);
  (Root, CallSetFee 1 native_asset 100);
  (Root, CallSetFeeHandler 1 usdc_asset BasicFeeHandler);
  (Root, CallSetFee 1 usdc_asset 10);
  (Root, CallRegisterDomain 1 1);
  (Root, CallSetMpcAddress mpc_address)].

Definition sa_proposal : Proposal :=
  {| origin_domain_id := 1; deposit_nonce := 7; resource_id := Standalone.NativeResourceId;
     data := create_deposit_data 200000000000 (enc_location (loc_of_account Mock.BOB)) |}.
Definition sa_digest : bytes :=
  construct_ecdsa_signing_proposals_data Standalone.EIP712ChainID
    Standalone.DestVerifyingContractAddress [sa_proposal].

Definition sa_traffic : list (RawOrigin * Call) := [
  (Signed Mock.ALICE, CallDeposit (asset_of native_asset 1000000) dest_bob);
  (Signed Mock.ALICE, CallDeposit (asset_of usdc_asset 3000) dest_bob);
  (Signed Mock.BOB, CallExecuteProposal [sa_proposal] (sign sa_digest))].

Definition sa_final : Node Pallets :=
  run_calls (C := sa_chain) (sa_setup ++ sa_traffic) (genesis pallets0).
Definition sa_holder : AccountId := Standalone.BridgeAccountNative.

Lemma sa_final_keyless :
  rtc (keyless_step (C := sa_chain) (standalone_peg pallet_transactors error_name native_asset 12)
    any_batch) (genesis pallets0) sa_final.
Proof. apply (run_calls_keyless (C := sa_chain) _ sa_holder); vm_compute; reflexivity. Qed.

(** The pallets at the end: what was locked, what was paid out, and the fees. *)
Example sa_final_amounts :
  let l := ledger (state sa_final) in
  (pallet_amount l InBalances sa_holder, pallet_amount l InBalances Mock.BOB,
   pallet_amount l InBalances Standalone.TreasuryAccount,
   pallet_amount l (InAssets 2000) Standalone.BridgeAccountOtherToken,
   length (paid sa_final)) = (799900, 200000, 100, 2990, 1%nat).
Proof. vm_compute. reflexivity. Qed.
