(* ===== verification/ParachainScenario.v ===== *)
(** * A parachain that runs

    The pallets and adapters of [StandaloneScenario.v] under the parachain runtime with its
    forwarding transactor: Alice sends a foreign token away, and a signed proposal brings
    some of it back to a local account. *)

From S2P Require Import Prelude Xcm Frame Traits AccessSegregator BasicFeeHandler.
From S2P Require Import PercentageFeeHandler FeeHandlerRouter Encode Eip712 Bridge.
From S2P Require Import BridgeNonces BridgeDeposit BridgeExecute BridgeAdmin DepositData.
From S2P Require Import Conservation System DecimalConverter RuntimeCommon Forwarder XcmBridge.
From S2P Require Import ParachainRuntime BridgeMock Relay Typing TypingRuntimes Supply Holding.
From S2P Require Import Network Circulation Pegs XcmConfig Adapters StandaloneLedger ParachainLedger.
From S2P Require Import Scenario NetworkScenario StandaloneScenario.

#[local] Existing Instances toy_crypto word_abi list_locations toy_codec integer_fixed
  padded_accounts toy_reanchor plain_converters.

#[export] Instance local_proposal_dec {L} `{BridgeConfig L} p : Decision (local_proposal p).
Proof.
  refine (match extract_deposit_data (data p) as r return
            Decision (forall amount l, r = Ok (amount, l) -> route l = LocalRecipient) with
          | Ok (_, l) =>
              match route l as u return u = route l -> _ with
              | LocalRecipient => fun Hu => left _
              | _ => fun Hu => right _
              end eq_refl
          | _ => left _
          end).
  - intros amount l' [= _ <-]. done.
  - intros Hl. by rewrite (Hl _ _ eq_refl) in Hu.
  - intros Hl. by rewrite (Hl _ _ eq_refl) in Hu.
  - by intros.
  - by intros.
Defined.
#[export] Instance local_batch_dec {L} `{BridgeConfig L} ps : Decision (local_batch ps).
Proof. unfold local_batch. apply _. Defined.

(** ** The environment is met *)

Definition relay_balances : TransactAsset Pallets :=
  pallet_adapter ParaXcm.LocationToAccountId (currency_matches Para.RelayLocation).
Definition para_assets : TransactAsset Pallets :=
  pallet_adapter ParaXcm.LocationToAccountId (fungibles_matches parachain_table).

Lemma concrete_para_environment :
  parachain_environment pallet_amount pallet_total unknown_asset
    relay_balances para_assets.
Proof.
  split.
  - split; intros; apply pallet_op_adapter.
  - split; intros; apply pallet_op_adapter.
  - apply pallet_adapter_ext.
  - apply pallet_adapter_typed.
  - apply pallet_adapter_plain.
  - intros id Hid. by apply (padded_typed id []).
  - intros id n Hid Hn. apply (padded_typed id [n]); [done|by apply Forall_singleton].
  - intros id. apply padded_not_treasury.
  - intros id n. apply padded_not_treasury.
  - exact dec_location_typed.
Qed.

(** ** A run *)

(** No message is executed in this run. *)
Definition refuse_message (_ : MultiLocation) (_ : Xcm) (_ : bytes) (_ used : Weight)
    : M Empty_set (World Pallets) Outcome := mret (Incomplete used (OtherXcmError 1)).

Definition pa_chain : ChainParams Pallets :=
  parachain_chain relay_balances para_assets toy_weigh toy_encode refuse_message error_name.
Abbreviation usdt_asset := (Concrete Para.UsdtLocation).

Definition pa_peg : Peg :=
  parachain_peg relay_balances para_assets toy_weigh toy_encode refuse_message error_name
    usdt_asset 12.

Definition pa_pallets0 : Pallets :=
  change (InAssets Para.UsdtAssetId) Mock.ALICE 5000000 {| held := ∅; issued := ∅ |}.

Definition pa_dest : MultiLocation :=
  ML 0 (X3 (general_key (b_ "sygma")) (GeneralIndex 1) (general_key (b_ "bob"))).

Definition pa_proposal : Proposal :=
  {| origin_domain_id := 1; deposit_nonce := 3; resource_id := Para.UsdtResourceId;
     data := create_deposit_data 1200000000 (enc_location (loc_of_account Mock.BOB)) |}.
Definition pa_digest : bytes :=
  construct_ecdsa_signing_proposals_data Para.EIP712ChainID Para.DestVerifyingContractAddress
    [pa_proposal].

Definition pa_calls : list (RawOrigin * Call) := [
  (Root, CallSetFeeHandler 1 usdt_asset BasicFeeHandler);
  (Root, CallSetFee 1 usdt_asset 10);
  (Root, CallRegisterDomain 1 1);
  (Root, CallSetMpcAddress mpc_address);
  (Signed Mock.ALICE, CallDeposit (asset_of usdt_asset 3000) pa_dest);
  (Signed Mock.BOB, CallExecuteProposal [pa_proposal] (sign pa_digest))].

Definition pa_final : Node Pallets := run_calls (C := pa_chain) pa_calls (genesis pa_pallets0).
Definition pa_holder : AccountId := Para.BridgeAccountOtherToken.

Lemma pa_final_keyless :
  rtc (keyless_step (C := pa_chain) pa_peg (local_batch (H := @chain_bridge _ pa_chain)))
    (genesis pa_pallets0) pa_final.
Proof. apply (run_calls_keyless (C := pa_chain) _ pa_holder); vm_compute; reflexivity. Qed.

(** What was locked, what was paid out, and the fee. *)
Example pa_final_amounts :
  let l := ledger (state pa_final) in
  (pallet_amount l (InAssets 2000) pa_holder, pallet_amount l (InAssets 2000) Mock.BOB,
   pallet_amount l (InAssets 2000) Para.TreasuryAccount, length (paid pa_final))
  = (1790, 1200, 10, 1%nat).
Proof. vm_compute. reflexivity. Qed.
