(* ===== verification/TestKit.v ===== *)
(** * The vocabulary of the unit tests

    The assertion macros of [frame_support] and the helpers of the mocks, as programs
    over the shared state: a failed assertion panics, so a test passes when its program
    returns.  The files after this one translate the [mod test] of the pallets and run
    them, which compares the model with what the authors expect of the code. *)

From S2P Require Import Prelude Xcm Frame.

Global Instance BridgeStorage_eq_dec : EqDecision BridgeStorage.
Proof. solve_decision. Defined.
Global Instance World_eq_dec {L} `{EqDecision L} : EqDecision (World L).
Proof. solve_decision. Defined.

Section Kit.
Context {L : Type} `{EqDecision L}.
Abbreviation W := (World L).

(** A test body; [Err] never escapes an assertion. *)
Abbreviation Test := (M DispatchError W unit).

(** [assert!(b)] for a value read from the state *)
Definition assert (b : W -> bool) : Test := fun w =>
  if b w then (Ok tt, w) else (Panic, w).

(** [assert_eq!(left, right)] and [assert_ne!(left, right)] *)
Definition assert_eq {A} `{EqDecision A} (left : W -> A) (right : A) : Test :=
  assert (fun w => bool_decide (left w = right)).
Definition assert_ne {A} `{EqDecision A} (left : W -> A) (right : A) : Test :=
  assert (fun w => bool_decide (left w <> right)).

(** [assert_ok!(call)], whatever the error type of the call *)
Definition assert_ok {E A} (call : M E W A) : Test := fun w =>
  match call w with
  | (Ok _, w') => (Ok tt, w')
  | (_, w') => (Panic, w')
  end.

(** [assert_noop!(call, error)]: the error, and the storage as it was *)
Definition assert_noop {A} (call : M DispatchError W A) (error : DispatchError) : Test := fun w =>
  match call w with
  | (Err e, w') => if bool_decide (e = error /\ w' = w) then (Ok tt, w') else (Panic, w')
  | (_, w') => (Panic, w')
  end.

(** [assert_events] of the mocks: the expected events are the latest ones. *)
Fixpoint pop_events (expected actual : list RuntimeEvent) : bool :=
  match expected, actual with
  | [], _ => true
  | evt :: expected, next :: actual => bool_decide (next = evt) && pop_events expected actual
  | _ :: _, [] => false
  end.
Definition assert_events (expected : list RuntimeEvent) : Test :=
  assert (fun w => pop_events (reverse expected) (reverse (events w))).

(** [new_test_ext().execute_with(test)] returns without a panic. *)
Definition passes (ext : W) (test : Test) : bool :=
  match test ext with
  | (Ok _, _) => true
  | _ => false
  end.

(** What [assert_events] checks: the expected events end the list. *)
Lemma pop_events_spec expected actual :
  pop_events (reverse expected) (reverse actual) = true <->
  exists earlier, actual = earlier ++ expected.
Proof.
  transitivity (exists later, reverse actual = reverse expected ++ later).
  - generalize (reverse expected), (reverse actual). clear.
    induction l as [|e l IH]; intros acc; simpl; [naive_solver|].
    destruct acc as [|a acc]; [naive_solver|].
    rewrite andb_true_iff, bool_decide_eq_true, IH. naive_solver.
  - split; intros [l He].
    + exists (reverse l). apply (f_equal reverse) in He.
      by rewrite reverse_app, !reverse_involutive in He.
    + exists (reverse l). by rewrite He, reverse_app.
Qed.
End Kit.

