(* ===== verification/PalletTests.v ===== *)
(** * The unit tests of the access segregator and of the fee pallets

    [mod test] of [access-segregator/src/lib.rs], [basic-fee-handler/src/lib.rs],
    [percentage-fee-handler/src/lib.rs] and [fee-handler-router/src/lib.rs], each on the
    configuration of its own [mock.rs].  No assets move, so the ledger is trivial. *)

From S2P Require Import Prelude Xcm Frame Traits AccessSegregator BasicFeeHandler.
From S2P Require Import PercentageFeeHandler FeeHandlerRouter RuntimeCommon TestKit.

(** Each mock starts its tests on an empty chain and compares events the same way. *)
Definition empty_ext : World unit := empty_world tt.

(** ** [access-segregator] *)

Module AccessTests.

Definition new_test_ext : World unit := empty_ext.
Definition assert_events : list RuntimeEvent -> M DispatchError (World unit) unit :=
  TestKit.assert_events.

Definition ALICE : AccountId := replicate 32 0.
Definition BOB : AccountId := replicate 32 1.
Definition CHARLIE : AccountId := replicate 32 2.

Definition PalletIndex : Z := 2.
Definition RegisteredExtrinsics : list (Z * bytes) := [
  (PalletIndex, b_ "grant_access");
  (PalletIndex, b_ "unknown_extrinsic");
  (PalletIndex, b_ "unknown_extrinsic2")].

Definition access_config : AccessConfig :=
  {| bridge_committee_origin := ensure_root;
     access_pallet_index := PalletIndex;
     extrinsics := RegisteredExtrinsics |}.
#[local] Existing Instance access_config.

Definition can_call (extrinsic : string) (origin : RawOrigin) (w : World unit) : bool :=
  has_access w PalletIndex (b_ extrinsic) origin.

Definition should_work : M DispatchError (World unit) unit :=
  assert_noop (grant_access (Signed ALICE) PalletIndex (b_ "grant_access") BOB)
    (ModAccess GrantAccessFailed);;
  assert (fun w => negb (can_call "grant_access" (Signed ALICE) w));;
  assert_ok (grant_access Root PalletIndex (b_ "grant_access") ALICE);;
  assert (can_call "grant_access" (Signed ALICE));;
  assert_ok (grant_access (Signed ALICE) PalletIndex (b_ "unknown_extrinsic") BOB);;
  assert (fun w => negb (can_call "unknown_extrinsic" (Signed ALICE) w));;
  assert (can_call "unknown_extrinsic" (Signed BOB));;
  assert_events [
    EvAccess (AccessGranted PalletIndex (b_ "grant_access") ALICE);
    EvAccess (AccessGranted PalletIndex (b_ "unknown_extrinsic") BOB)].

Definition pure_grant_access_test : M DispatchError (World unit) unit :=
  assert_noop (grant_access (Signed ALICE) PalletIndex (b_ "grant_access") BOB)
    (ModAccess GrantAccessFailed);;
  assert (fun w => negb (can_call "grant_access" (Signed ALICE) w));;
  assert (fun w => negb (can_call "grant_access" (Signed BOB) w));;
  assert_ok (grant_access Root PalletIndex (b_ "grant_access") BOB);;
  assert (can_call "grant_access" (Signed BOB));;
  assert (can_call "grant_access" Root);;
  assert (fun w => negb (can_call "grant_access" (Signed ALICE) w));;
  assert (fun w => negb (can_call "unknown_extrinsic" (Signed CHARLIE) w));;
  assert (can_call "unknown_extrinsic" Root);;
  assert_ok (grant_access (Signed BOB) PalletIndex (b_ "unknown_extrinsic") CHARLIE);;
  assert (can_call "grant_access" (Signed BOB));;
  assert (fun w => negb (can_call "grant_access" (Signed CHARLIE) w));;
  assert (fun w => negb (can_call "unknown_extrinsic2" (Signed CHARLIE) w));;
  assert (can_call "unknown_extrinsic" (Signed CHARLIE));;
  assert (fun w => negb (can_call "unknown_extrinsic" (Signed ALICE) w));;
  assert_noop (grant_access (Signed CHARLIE) PalletIndex (b_ "unknown_extrinsic") ALICE)
    (ModAccess GrantAccessFailed).

Example access_tests_pass :
  forallb (passes new_test_ext) [should_work; pure_grant_access_test] = true.
Proof. vm_compute. reflexivity. Qed.

End AccessTests.

(** ** [basic-fee-handler] *)

Module BasicFeeTests.

Definition new_test_ext : World unit := empty_ext.
Definition assert_events : list RuntimeEvent -> M DispatchError (World unit) unit :=
  TestKit.assert_events.

Definition ALICE : AccountId := replicate 32 0.

Definition AccessSegregatorPalletIndex : Z := 3.
Definition FeeHandlerPalletIndex : Z := 4.
Definition RegisteredExtrinsics : list (Z * bytes) := [
  (AccessSegregatorPalletIndex, b_ "grant_access");
  (FeeHandlerPalletIndex, b_ "set_fee")].

Definition access_config : AccessConfig :=
  {| bridge_committee_origin := ensure_root;
     access_pallet_index := AccessSegregatorPalletIndex;
     extrinsics := RegisteredExtrinsics |}.
#[local] Existing Instance access_config.
Definition basic_config : BasicFeeConfig :=
  {| basic_pallet_index := FeeHandlerPalletIndex |}.
#[local] Existing Instance basic_config.

Definition set_get_fee : M DispatchError (World unit) unit :=
  let dest_domain_id := 0 in
  let another_dest_domain_id := 1 in
  let asset_id_a := Concrete (ML 1 Here) in
  let amount_a := 100 in
  let asset_id_b := Concrete (ML 2 Here) in
  let amount_b := 101 in
  assert_ok (set_fee Root dest_domain_id asset_id_a amount_a);;
  assert_ok (set_fee Root another_dest_domain_id asset_id_a (amount_a * 2));;
  assert_eq (fun w => AssetFees w !! (dest_domain_id, asset_id_a)) (Some amount_a);;
  assert_eq (fun w => AssetFees w !! (another_dest_domain_id, asset_id_a))
    (Some (amount_a * 2));;
  assert_ok (set_fee Root dest_domain_id asset_id_b amount_b);;
  assert_eq (fun w => AssetFees w !! (dest_domain_id, asset_id_b)) (Some amount_b);;
  assert_ne (fun w => AssetFees w !! (dest_domain_id, asset_id_a)) (Some amount_b);;
  assert_ne (fun w => AssetFees w !! (dest_domain_id, asset_id_b)) (Some amount_a);;
  assert_noop (set_fee (Signed ALICE) dest_domain_id asset_id_a amount_a)
    (ModBasicFee BasicAccessDenied);;
  assert_events [
    EvBasicFee (FeeSet dest_domain_id asset_id_a amount_a);
    EvBasicFee (FeeSet another_dest_domain_id asset_id_a (amount_a * 2));
    EvBasicFee (FeeSet dest_domain_id asset_id_b amount_b)].

Definition access_control : M DispatchError (World unit) unit :=
  let dest_domain_id := 0 in
  let asset_id := Concrete (ML 0 Here) in
  assert_ok (set_fee Root dest_domain_id asset_id 100);;
  assert_noop (set_fee (Signed ALICE) dest_domain_id asset_id 200)
    (ModBasicFee BasicAccessDenied);;
  assert (fun w => negb (has_access w FeeHandlerPalletIndex (b_ "set_fee") (Signed ALICE)));;
  assert_ok (grant_access Root FeeHandlerPalletIndex (b_ "set_fee") ALICE);;
  assert (fun w => has_access w FeeHandlerPalletIndex (b_ "set_fee") (Signed ALICE));;
  assert_ok (set_fee (Signed ALICE) dest_domain_id asset_id 200);;
  assert_eq (fun w => AssetFees w !! (dest_domain_id, asset_id)) (Some 200).

Example basic_fee_tests_pass :
  forallb (passes new_test_ext) [set_get_fee; access_control] = true.
Proof. vm_compute. reflexivity. Qed.

End BasicFeeTests.

(** ** [percentage-fee-handler] *)

Module PercentageFeeTests.

Definition new_test_ext : World unit := empty_ext.
Definition assert_events : list RuntimeEvent -> M DispatchError (World unit) unit :=
  TestKit.assert_events.

Definition ALICE : AccountId := replicate 32 0.

Definition AccessSegregatorPalletIndex : Z := 3.
Definition PercentageFeeHandlerPalletIndex : Z := 4.
Definition RegisteredExtrinsics : list (Z * bytes) := [
  (AccessSegregatorPalletIndex, b_ "grant_access");
  (PercentageFeeHandlerPalletIndex, b_ "set_fee_rate")].

Definition access_config : AccessConfig :=
  {| bridge_committee_origin := ensure_root;
     access_pallet_index := AccessSegregatorPalletIndex;
     extrinsics := RegisteredExtrinsics |}.
#[local] Existing Instance access_config.
Definition percentage_config : PercentageFeeConfig :=
  {| percentage_pallet_index := PercentageFeeHandlerPalletIndex |}.
#[local] Existing Instance percentage_config.

Definition set_get_fee : M DispatchError (World unit) unit :=
  let dest_domain_id := 0 in
  let another_dest_domain_id := 1 in
  let asset_id_a := Concrete (ML 1 Here) in
  let asset_id_b := Concrete (ML 2 Here) in
  assert_eq (fun w => AssetFeeRate w !! (dest_domain_id, asset_id_a)) None;;
  assert_ok (set_fee_rate Root dest_domain_id asset_id_a 0 0 100);;
  assert_noop (set_fee_rate Root dest_domain_id asset_id_a 10000 0 100)
    (ModPercentageFee FeeRateOutOfRange);;
  assert_ok (set_fee_rate Root dest_domain_id asset_id_a 50 0 100);;
  assert_ok (set_fee_rate Root another_dest_domain_id asset_id_b 200 0 100);;
  assert_eq (fun w => AssetFeeRate w !! (dest_domain_id, asset_id_a)) (Some (50, 0, 100));;
  assert_eq (fun w => AssetFeeRate w !! (another_dest_domain_id, asset_id_b))
    (Some (200, 0, 100));;
  assert_noop (set_fee_rate (Signed ALICE) dest_domain_id asset_id_a 100 0 100)
    (ModPercentageFee PercentageAccessDenied);;
  assert_events [
    EvPercentageFee (FeeRateSet dest_domain_id asset_id_a 50 0 100);
    EvPercentageFee (FeeRateSet another_dest_domain_id asset_id_b 200 0 100)].

Definition access_control : M DispatchError (World unit) unit :=
  let dest_domain_id := 0 in
  let asset_id := Concrete (ML 0 Here) in
  let granted w :=
    has_access w PercentageFeeHandlerPalletIndex (b_ "set_fee_rate") (Signed ALICE) in
  assert_ok (set_fee_rate Root dest_domain_id asset_id 100 0 100);;
  assert_noop (set_fee_rate (Signed ALICE) dest_domain_id asset_id 200 0 100)
    (ModPercentageFee PercentageAccessDenied);;
  assert (fun w => negb (granted w));;
  assert_ok (grant_access Root PercentageFeeHandlerPalletIndex (b_ "set_fee_rate") ALICE);;
  assert granted;;
  assert_ok (set_fee_rate (Signed ALICE) dest_domain_id asset_id 200 0 100);;
  assert_eq (fun w => AssetFeeRate w !! (dest_domain_id, asset_id)) (Some (200, 0, 100)).

Example percentage_fee_tests_pass :
  forallb (passes new_test_ext) [set_get_fee; access_control] = true.
Proof. vm_compute. reflexivity. Qed.

End PercentageFeeTests.

(** ** [fee-handler-router] *)

Module RouterTests.

Definition new_test_ext : World unit := empty_ext.
Definition assert_events : list RuntimeEvent -> M DispatchError (World unit) unit :=
  TestKit.assert_events.

Definition ALICE : AccountId := replicate 32 0.

Definition EthereumDomainID : DomainID := 0.
Definition MoonbeamDomainID : DomainID := 1.
Definition AccessSegregatorPalletIndex : Z := 3.
Definition BasicFeeHandlerPalletIndex : Z := 4.
Definition FeeHandlerRouterPalletIndex : Z := 5.
Definition PercentageFeeHandlerPalletIndex : Z := 6.
Definition RegisteredExtrinsics : list (Z * bytes) := [
  (AccessSegregatorPalletIndex, b_ "grant_access");
  (FeeHandlerRouterPalletIndex, b_ "set_fee_handler")].
Definition PhaLocation : MultiLocation := loc_here.

Definition access_config : AccessConfig :=
  {| bridge_committee_origin := ensure_root;
     access_pallet_index := AccessSegregatorPalletIndex;
     extrinsics := RegisteredExtrinsics |}.
#[local] Existing Instance access_config.
Definition basic_config : BasicFeeConfig :=
  {| basic_pallet_index := BasicFeeHandlerPalletIndex |}.
#[local] Existing Instance basic_config.
Definition percentage_config : PercentageFeeConfig :=
  {| percentage_pallet_index := PercentageFeeHandlerPalletIndex |}.
#[local] Existing Instance percentage_config.
Definition router_config : RouterConfig :=
  {| router_pallet_index := FeeHandlerRouterPalletIndex |}.
#[local] Existing Instance router_config.

Definition access_control : M DispatchError (World unit) unit :=
  let asset_id := Concrete PhaLocation in
  let granted w :=
    has_access w FeeHandlerRouterPalletIndex (b_ "set_fee_handler") (Signed ALICE) in
  assert_ok (set_fee_handler Root EthereumDomainID asset_id BasicFeeHandler);;
  assert_noop (set_fee_handler (Signed ALICE) EthereumDomainID asset_id BasicFeeHandler)
    (ModRouter RouterAccessDenied);;
  assert (fun w => negb (granted w));;
  assert_ok (grant_access Root FeeHandlerRouterPalletIndex (b_ "set_fee_handler") ALICE);;
  assert granted;;
  assert_ok (set_fee_handler (Signed ALICE) MoonbeamDomainID asset_id DynamicFeeHandler);;
  assert_eq (fun w => HandlerType w !! (MoonbeamDomainID, asset_id)) (Some DynamicFeeHandler).

Definition fee_router_should_work : M DispatchError (World unit) unit :=
  let pha := Concrete PhaLocation in
  assert_ok (set_fee_handler Root EthereumDomainID pha BasicFeeHandler);;
  assert_ok (set_fee_handler Root MoonbeamDomainID pha DynamicFeeHandler);;
  assert_ok (set_fee Root EthereumDomainID pha 10000);;
  assert_eq (fun w => router_get_fee w EthereumDomainID (asset_of pha 10000)) (Some 10000);;
  assert_eq (fun w => router_get_fee w MoonbeamDomainID (asset_of pha 10000)) None;;
  assert_events [
    EvRouter (FeeHandlerSet EthereumDomainID pha BasicFeeHandler);
    EvRouter (FeeHandlerSet MoonbeamDomainID pha DynamicFeeHandler);
    EvBasicFee (FeeSet EthereumDomainID pha 10000)].

Example router_tests_pass :
  forallb (passes new_test_ext) [access_control; fee_router_should_work] = true.
Proof. vm_compute. reflexivity. Qed.

End RouterTests.
