(* ===== verification/BridgeTests.v ===== *)
(** * The unit tests of the bridge pallet ([mod test] of [bridge/src/lib.rs])

    Every test of the pallet on the mock runtime, run on the concrete parameters of
    [Scenario.v].  The ledger stands for the balances and assets pallets: it needs no
    registration of assets, so the calls that create them are not translated. *)

From S2P Require Import Prelude Xcm Frame Traits AccessSegregator BasicFeeHandler.
From S2P Require Import PercentageFeeHandler FeeHandlerRouter Encode Eip712 Bridge.
From S2P Require Import RuntimeCommon BridgeMock TestKit Scenario.
#[local] Existing Instances mock_basic mock_percentage mock_router padded_accounts toy_crypto.

Module BridgeTests.
Import Mock.

Abbreviation Test := (M DispatchError Chain unit).

(** ** What the tests share *)

(** [Balances::free_balance] and [Assets::balance] *)
Definition free_balance (who : AccountId) (w : Chain) : Z := balance_of (ledger w) who native.
Definition asset_balance (asset : AssetId) (who : AccountId) (w : Chain) : Z :=
  balance_of (ledger w) who asset.
(** [Assets::mint] by the asset's owner *)
Definition mint (asset : AssetId) (who : AccountId) (amount : Z) : M DispatchError Chain unit :=
  modify (fun w =>
    set_ledger (<[(who, asset) := balance_of (ledger w) who asset + amount]> (ledger w)) w).

(** [get_token_reserved_account(asset).unwrap()] *)
Definition reserved_account (asset : AssetId) : AccountId :=
  default [] (get_token_reserved_account asset).

(** The MPC address that is no key's, and the one of the generated key pair. *)
Definition test_mpc_addr : MpcAddress := replicate 20 1.
Definition pair_address : MpcAddress := mpc_address.

(** [X2(slice_to_generalkey(b"ethereum recipient"), slice_to_generalkey(&[1]))] *)
Definition ethereum_recipient : MultiLocation :=
  ML 0 (X2 (general_key (b_ "ethereum recipient")) (general_key [1])).
Definition deposit_of (asset : AssetId) (amount : Z) : M DispatchError Chain unit :=
  deposit (Signed ALICE) (asset_of asset amount) ethereum_recipient.

(** The two events of a deposit by Alice to that recipient. *)
Definition deposit_events (asset : AssetId) (rid : ResourceId) (nonce amount fee : Z)
    : list RuntimeEvent := [
  EvBridge (Deposit DEST_DOMAIN_ID rid nonce ALICE FungibleTransfer
    (create_deposit_data amount (b_ "ethereum recipient")) []);
  EvBridge (FeeCollected ALICE DEST_DOMAIN_ID rid fee asset)].

Definition transfer_to (who : AccountId) (nonce : Z) (rid : ResourceId) (amount : Z) : Proposal :=
  {| origin_domain_id := DEST_DOMAIN_ID; deposit_nonce := nonce; resource_id := rid;
     data := create_deposit_data amount (loc_encode (loc_of_account who)) |}.

Definition grant (name : string) (who : AccountId) : M DispatchError Chain unit :=
  grant_access Root BridgePalletIndex (b_ name) who.

Definition is_signed (message signature : bytes) (w : Chain) : bool :=
  verify_by_mpc_address (MpcAddr (bridge w)) message signature.

(** ** Administration *)

Definition get_token_reserved_account_test : Test :=
  assert_eq (fun _ => get_token_reserved_account usdt) (Some BridgeAccountOtherTokens);;
  assert_eq (fun _ => get_token_reserved_account native) (Some BridgeAccountNative);;
  assert_eq (fun _ => get_token_reserved_account astr) (Some BridgeAccountOtherTokens);;
  assert_eq (fun _ => get_token_reserved_account (Concrete (ML 2
    (X3 (Parachain 1000) (general_key (b_ "sygma")) (general_key (b_ "unknown")))))) None.

Definition set_mpc_address_test : Test :=
  let test_mpc_addr_a := replicate 20 1 in
  let test_mpc_addr_b := replicate 20 2 in
  assert_eq (fun w => MpcAddr (bridge w)) mpc_default;;
  assert_ok (set_mpc_address Root test_mpc_addr_a);;
  assert_eq (fun w => MpcAddr (bridge w)) test_mpc_addr_a;;
  assert_noop (set_mpc_address Root test_mpc_addr_b) (ModBridge MpcAddrNotUpdatable);;
  assert_noop (set_mpc_address (Signed ALICE) test_mpc_addr_a) (ModBridge AccessDenied);;
  assert_eq (fun w => MpcAddr (bridge w)) test_mpc_addr_a.

Definition pause_bridge_test : Test :=
  assert_eq (fun w => MpcAddr (bridge w)) mpc_default;;
  assert_ok (register_domain Root DEST_DOMAIN_ID 1);;
  assert_ok (pause_bridge Root DEST_DOMAIN_ID);;
  assert (fun w => is_paused w DEST_DOMAIN_ID);;
  assert_events [EvBridge (BridgePaused DEST_DOMAIN_ID)];;
  assert_ok (pause_bridge Root DEST_DOMAIN_ID);;
  assert (fun w => is_paused w DEST_DOMAIN_ID);;
  assert_events [EvBridge (BridgePaused DEST_DOMAIN_ID)];;
  assert_noop (pause_bridge (Signed ALICE) DEST_DOMAIN_ID) (ModBridge AccessDenied);;
  assert (fun w => is_paused w DEST_DOMAIN_ID).

Definition unpause_bridge_test : Test :=
  assert_eq (fun w => MpcAddr (bridge w)) mpc_default;;
  assert_ok (register_domain Root DEST_DOMAIN_ID 1);;
  assert_ok (pause_bridge Root DEST_DOMAIN_ID);;
  assert_events [EvBridge (BridgePaused DEST_DOMAIN_ID)];;
  assert (fun w => is_paused w DEST_DOMAIN_ID);;
  assert_ok (unpause_bridge Root DEST_DOMAIN_ID);;
  assert_events [EvBridge (BridgeUnpaused DEST_DOMAIN_ID)];;
  assert_noop (unpause_bridge Root DEST_DOMAIN_ID) (ModBridge ErrBridgeUnpaused);;
  assert_noop (unpause_bridge (Signed ALICE) DEST_DOMAIN_ID) (ModBridge AccessDenied);;
  assert (fun w => negb (is_paused w DEST_DOMAIN_ID)).

Definition get_bridge_pause_status : Test :=
  assert (fun w => negb (is_paused w DEST_DOMAIN_ID));;
  assert_ok (set_mpc_address Root test_mpc_addr);;
  assert_ok (register_domain Root DEST_DOMAIN_ID 1);;
  assert_ok (pause_bridge Root DEST_DOMAIN_ID);;
  assert (fun w => is_paused w DEST_DOMAIN_ID);;
  assert_ok (unpause_bridge Root DEST_DOMAIN_ID);;
  assert (fun w => negb (is_paused w DEST_DOMAIN_ID)).

Definition access_control : Test :=
  assert_noop (set_mpc_address (Signed ALICE) test_mpc_addr) (ModBridge AccessDenied);;
  assert_noop (pause_bridge (Signed BOB) DEST_DOMAIN_ID) (ModBridge AccessDenied);;
  assert_noop (unpause_bridge (Signed BOB) DEST_DOMAIN_ID) (ModBridge AccessDenied);;
  assert_ok (grant "set_mpc_address" ALICE);;
  assert_ok (grant "pause_bridge" BOB);;
  assert_ok (grant "unpause_bridge" BOB);;
  assert_noop (set_mpc_address (Signed BOB) test_mpc_addr) (ModBridge AccessDenied);;
  assert_ok (set_mpc_address (Signed ALICE) test_mpc_addr);;
  assert_ok (register_domain Root DEST_DOMAIN_ID 1);;
  assert_noop (pause_bridge (Signed ALICE) DEST_DOMAIN_ID) (ModBridge AccessDenied);;
  assert_noop (unpause_bridge (Signed ALICE) DEST_DOMAIN_ID) (ModBridge AccessDenied);;
  assert_ok (pause_bridge (Signed BOB) DEST_DOMAIN_ID);;
  assert_ok (unpause_bridge (Signed BOB) DEST_DOMAIN_ID).

Definition multi_domain_test : Test :=
  assert_ok (register_domain Root 1 0);;
  assert_ok (set_mpc_address Root test_mpc_addr);;
  assert_noop (register_domain (Signed ALICE) 1 1) (ModBridge AccessDenied);;
  assert_ok (grant "register_domain" ALICE);;
  assert_ok (register_domain (Signed ALICE) 1 1);;
  assert_events [EvBridge (RegisterDestDomain ALICE 1 1)];;
  assert (fun w => dest_domain_supported w 1);;
  assert_eq (fun w => DestChainIds (bridge w) !! 1) (Some 1);;
  assert_noop (unregister_domain (Signed ALICE) 1 0) (ModBridge AccessDenied);;
  assert_ok (grant "unregister_domain" ALICE);;
  assert_noop (unregister_domain (Signed ALICE) 1 2) (ModBridge DestChainIDNotMatch);;
  assert_noop (unregister_domain (Signed ALICE) 2 2) (ModBridge DestDomainNotSupported);;
  assert_ok (unregister_domain (Signed ALICE) 1 1);;
  assert_events [EvBridge (UnregisterDestDomain ALICE 1 1)];;
  assert (fun w => negb (dest_domain_supported w 1));;
  assert_eq (fun w => DestChainIds (bridge w) !! 1) None.

Definition unpause_all_domains_test : Test :=
  assert_ok (grant "register_domain" ALICE);;
  assert_ok (grant "pause_bridge" ALICE);;
  assert_ok (register_domain (Signed ALICE) 1 1);;
  assert_ok (register_domain (Signed ALICE) 2 2);;
  assert_ok (register_domain (Signed ALICE) 3 3);;
  assert_ok (pause_bridge (Signed ALICE) 1);;
  assert_ok (pause_bridge (Signed ALICE) 2);;
  assert_ok (pause_bridge (Signed ALICE) 3);;
  assert (fun w => is_paused w 1);;
  assert (fun w => is_paused w 2);;
  assert (fun w => is_paused w 3);;
  unpause_all_domains;;
  assert (fun w => negb (is_paused w 1));;
  assert (fun w => negb (is_paused w 2));;
  assert (fun w => negb (is_paused w 3)).

Definition pause_all_bridges_test : Test :=
  assert_ok (register_domain Root 1 1);;
  assert_ok (register_domain Root 2 2);;
  assert_ok (register_domain Root 3 3);;
  assert (fun w => negb (is_paused w 1));;
  assert (fun w => negb (is_paused w 2));;
  assert (fun w => negb (is_paused w 3));;
  assert_noop (pause_all_bridges (Signed ALICE)) (ModBridge AccessDenied);;
  assert_ok (grant "pause_all_bridges" ALICE);;
  assert_ok (pause_all_bridges (Signed ALICE));;
  assert (fun w => is_paused w 1);;
  assert (fun w => is_paused w 2);;
  assert (fun w => is_paused w 3);;
  assert_events [EvBridge (AllBridgePaused ALICE)].

Definition unpause_all_bridges_test : Test :=
  assert_ok (register_domain Root 1 1);;
  assert_ok (register_domain Root 2 2);;
  assert_ok (register_domain Root 3 3);;
  assert_noop (unpause_all_bridges Root) (ModBridge MissingMpcAddress);;
  assert_ok (set_mpc_address Root test_mpc_addr);;
  assert_noop (unpause_all_bridges (Signed ALICE)) (ModBridge AccessDenied);;
  assert_ok (grant "unpause_all_bridges" ALICE);;
  assert_ok (pause_bridge Root 1);;
  assert_ok (pause_bridge Root 2);;
  assert_ok (pause_bridge Root 3);;
  assert (fun w => is_paused w 1);;
  assert (fun w => is_paused w 2);;
  assert (fun w => is_paused w 3);;
  assert_ok (unpause_all_bridges (Signed ALICE));;
  assert (fun w => negb (is_paused w 1));;
  assert (fun w => negb (is_paused w 2));;
  assert (fun w => negb (is_paused w 3));;
  assert_events [EvBridge (AllBridgeUnpaused ALICE)].

Definition retry_bridge : Test :=
  assert_noop (retry (Signed ALICE) 1234567 DEST_DOMAIN_ID) (ModBridge AccessDenied);;
  assert_ok (grant "retry" ALICE);;
  assert_noop (retry (Signed ALICE) 1234567 DEST_DOMAIN_ID) (ModBridge MissingMpcAddress);;
  assert_ok (set_mpc_address Root test_mpc_addr);;
  assert_ok (register_domain Root DEST_DOMAIN_ID 1);;
  assert_ok (pause_bridge Root DEST_DOMAIN_ID);;
  assert_noop (retry (Signed ALICE) 1234567 DEST_DOMAIN_ID) (ModBridge ErrBridgePaused);;
  assert_ok (unpause_bridge Root DEST_DOMAIN_ID);;
  assert (fun w => negb (is_paused w DEST_DOMAIN_ID));;
  assert_ok (retry (Signed ALICE) 1234567 DEST_DOMAIN_ID);;
  assert_events [EvBridge (Retry 1234567 DEST_DOMAIN_ID ALICE)].

(** Nonces of three batches, in words of 64. *)
Definition deposit_nonce_fix_should_work : Test :=
  for_each (fun nonce => set_proposal_executed nonce 0) (seqZ 1 63);;
  assert (fun w => negb (is_proposal_executed w 0 0));;
  assert (fun w => is_proposal_executed w 1 0);;
  assert (fun w => is_proposal_executed w 63 0);;
  for_each (fun nonce => set_proposal_executed nonce 0) (seqZ 64 64);;
  assert (fun w => is_proposal_executed w 64 0);;
  assert (fun w => is_proposal_executed w 127 0);;
  assert (fun w => negb (is_proposal_executed w 128 0));;
  for_each (fun nonce => set_proposal_executed nonce 0) (seqZ 256 45);;
  assert (fun w => is_proposal_executed w 256 0);;
  assert (fun w => is_proposal_executed w 300 0);;
  assert (fun w => negb (is_proposal_executed w 301 0)).

Example administration_tests_pass :
  forallb (passes new_test_ext) [
    get_token_reserved_account_test; set_mpc_address_test; pause_bridge_test;
    unpause_bridge_test; get_bridge_pause_status; access_control; multi_domain_test;
    unpause_all_domains_test; pause_all_bridges_test; unpause_all_bridges_test;
    retry_bridge; deposit_nonce_fix_should_work] = true.
Proof. vm_compute. reflexivity. Qed.

(** ** Signatures

    [pair] holds the key of [Scenario.mpc_key]; [evil_pair] another one. *)

Definition dummy_proposals : list Proposal := [
  {| origin_domain_id := 1; deposit_nonce := 1; resource_id := replicate 32 1; data := [1] |};
  {| origin_domain_id := 2; deposit_nonce := 2; resource_id := replicate 32 2; data := [2] |}].

(** [vec![1u8].encode()] is a compact length and the byte. *)
Definition verify_mpc_signature_invalid_signature : Test :=
  let final_message := digest dummy_proposals in
  assert (fun w => negb (is_signed final_message [4; 1] w)).

(** [pair.sign] signs the Blake2 hash of its message; the two checks of the [ecdsa] crate
    itself are left out. *)
Definition verify_mpc_signature_invalid_message : Test :=
  let signature := sign (blake2_256 (b_ "Something important")) in
  let final_message := digest dummy_proposals in
  assert (fun w => negb (is_signed final_message signature w)).

Definition verify_mpc_signature_valid_message_unmatched_mpc : Test :=
  let addr := replicate 20 7 in
  assert_ok (set_mpc_address Root addr);;
  assert_eq (fun w => MpcAddr (bridge w)) addr;;
  let final_message := digest dummy_proposals in
  let signature := sign final_message in
  assert (fun w => negb (is_signed final_message signature w)).

Definition verify_mpc_signature_valid_message_valid_signature : Test :=
  assert_ok (set_mpc_address Root pair_address);;
  assert_eq (fun w => MpcAddr (bridge w)) pair_address;;
  let final_message := digest dummy_proposals in
  let signature := sign final_message in
  assert (is_signed final_message signature).

Definition hex_zero_padding_32_test : Test :=
  assert_eq (fun _ => hex_zero_padding_32 100)
    [0; 0; 0; 0; 0; 0; 0; 0; 0; 0; 0; 0; 0; 0; 0; 0; 0; 0; 0; 0; 0; 0; 0; 0; 0;
     0; 0; 0; 0; 0; 0; 100];;
  let recipient := b_ "0x95ECF5ae000e0fe0e0dE63aDE9b7D82a372038b4" in
  assert_eq (fun _ => hex_zero_padding_32 (Z.of_nat (length recipient)))
    [0; 0; 0; 0; 0; 0; 0; 0; 0; 0; 0; 0; 0; 0; 0; 0; 0; 0; 0; 0; 0; 0; 0; 0; 0;
     0; 0; 0; 0; 0; 0; 42].

Definition create_deposit_data_test : Test :=
  let recipient := b_ "0x95ECF5ae000e0fe0e0dE63aDE9b7D82a372038b4" in
  let data := create_deposit_data 100 recipient in
  assert_eq (fun _ => length data) 106%nat;;
  assert_eq (fun _ => data)
    [0; 0; 0; 0; 0; 0; 0; 0; 0; 0; 0; 0; 0; 0; 0; 0; 0; 0; 0; 0; 0; 0; 0; 0; 0;
     0; 0; 0; 0; 0; 0; 100; 0; 0; 0; 0; 0; 0; 0; 0; 0; 0; 0; 0; 0; 0; 0; 0; 0;
     0; 0; 0; 0; 0; 0; 0; 0; 0; 0; 0; 0; 0; 0; 42; 48; 120; 57; 53; 69; 67; 70;
     53; 97; 101; 48; 48; 48; 101; 48; 102; 101; 48; 101; 48; 100; 69; 54; 51;
     97; 68; 69; 57; 98; 55; 68; 56; 50; 97; 51; 55; 50; 48; 51; 56; 98; 52].

Example signature_tests_pass :
  forallb (passes new_test_ext) [
    verify_mpc_signature_invalid_signature; verify_mpc_signature_invalid_message;
    verify_mpc_signature_valid_message_unmatched_mpc;
    verify_mpc_signature_valid_message_valid_signature; hex_zero_padding_32_test;
    create_deposit_data_test] = true.
Proof. vm_compute. reflexivity. Qed.

(** ** Deposits *)

(** The balances a deposit of an asset leaves to Alice, the reserve and the treasury. *)
Definition assert_balances (asset : AssetId) (alice reserve treasury : Z) : Test :=
  assert_eq (asset_balance asset ALICE) alice;;
  assert_eq (asset_balance asset (reserved_account asset)) reserve;;
  assert_eq (asset_balance asset TreasuryAccount) treasury.

Definition deposit_native_asset_should_work : Test :=
  let fee := 1000000000000 in
  let amount := 200000000000000 in
  let final_amount_in_deposit_event := 199000000000000000000 in
  assert_ok (register_domain Root DEST_DOMAIN_ID 1);;
  assert_ok (set_fee Root DEST_DOMAIN_ID native fee);;
  assert_ok (set_fee_handler Root DEST_DOMAIN_ID native BasicFeeHandler);;
  assert_ok (set_mpc_address Root test_mpc_addr);;
  assert_ok (deposit_of native amount);;
  assert_balances native (ENDOWED_BALANCE - amount) (amount - fee) fee;;
  assert_events (deposit_events native NativeResourceId 0 final_amount_in_deposit_event fee).

Definition transfer_wrap_deposit_should_work : Test :=
  let fee := 1000000000000 in
  let amount := 200000000000000 in
  let final_amount_in_deposit_event := 199000000000000000000 in
  assert_ok (register_domain Root DEST_DOMAIN_ID 1);;
  assert_ok (set_fee Root DEST_DOMAIN_ID native fee);;
  assert_ok (set_fee_handler Root DEST_DOMAIN_ID native BasicFeeHandler);;
  assert_ok (set_mpc_address Root test_mpc_addr);;
  assert_ok (bridge_transfer ALICE (asset_of native amount) ethereum_recipient None);;
  assert_balances native (ENDOWED_BALANCE - amount) (amount - fee) fee;;
  assert_events (deposit_events native NativeResourceId 0 final_amount_in_deposit_event fee).

Definition deposit_foreign_asset_should_work : Test :=
  let fee := 100 in
  let amount := 200 in
  assert_ok (set_fee Root DEST_DOMAIN_ID usdt fee);;
  assert_ok (set_fee_handler Root DEST_DOMAIN_ID usdt BasicFeeHandler);;
  assert_ok (register_domain Root DEST_DOMAIN_ID 1);;
  assert_ok (set_mpc_address Root test_mpc_addr);;
  assert_ok (mint usdt ALICE ENDOWED_BALANCE);;
  assert_eq (asset_balance usdt ALICE) ENDOWED_BALANCE;;
  assert_ok (deposit_of usdt amount);;
  assert_balances usdt (ENDOWED_BALANCE - amount) (amount - fee) fee;;
  assert_events (deposit_events usdt UsdtResourceId 0 (amount - fee) fee).

Definition deposit_unbounded_asset_should_fail : Test :=
  let unbounded := Concrete (ML 1 (X1 (GeneralIndex 123))) in
  assert_ok (set_mpc_address Root test_mpc_addr);;
  assert_ok (set_fee Root DEST_DOMAIN_ID unbounded 100);;
  assert_ok (register_domain Root DEST_DOMAIN_ID 1);;
  assert_noop (deposit_of unbounded 200) (ModBridge AssetNotBound).

Definition deposit_to_unrecognized_dest_should_fail : Test :=
  let invalid_dest :=
    ML 0 (X2 (GeneralIndex 0) (general_key (b_ "ethereum recipient"))) in
  assert_ok (set_mpc_address Root test_mpc_addr);;
  assert_ok (set_fee Root DEST_DOMAIN_ID native 100);;
  assert_ok (register_domain Root DEST_DOMAIN_ID 1);;
  assert_noop (deposit (Signed ALICE) (asset_of native 200) invalid_dest)
    (ModBridge ExtractDestDataFailed).

Definition deposit_without_fee_set_should_fail : Test :=
  assert_ok (set_mpc_address Root test_mpc_addr);;
  assert_ok (register_domain Root DEST_DOMAIN_ID 1);;
  assert_noop (deposit_of native 200) (ModBridge MissingFeeConfig).

Definition deposit_less_than_fee_should_fail : Test :=
  assert_ok (set_mpc_address Root test_mpc_addr);;
  assert_ok (set_fee Root DEST_DOMAIN_ID native 200);;
  assert_ok (set_fee_handler Root DEST_DOMAIN_ID native BasicFeeHandler);;
  assert_ok (register_domain Root DEST_DOMAIN_ID 1);;
  assert_noop (deposit_of native 100) (ModBridge FeeTooExpensive).

Definition deposit_when_bridge_paused_should_fail : Test :=
  assert_ok (set_fee Root DEST_DOMAIN_ID native 100);;
  assert_ok (set_fee_handler Root DEST_DOMAIN_ID native BasicFeeHandler);;
  assert_ok (register_domain Root DEST_DOMAIN_ID 1);;
  assert_ok (set_mpc_address Root test_mpc_addr);;
  assert_ok (pause_bridge Root DEST_DOMAIN_ID);;
  assert_noop (deposit_of native 200) (ModBridge ErrBridgePaused);;
  assert_ok (unpause_bridge Root DEST_DOMAIN_ID);;
  assert_ok (deposit_of native 200).

Definition deposit_without_mpc_set_should_fail : Test :=
  assert_ok (set_fee Root DEST_DOMAIN_ID native 200);;
  assert_noop (deposit_of native 100) (ModBridge MissingMpcAddress).

(** One deposit of [deposit_with_decimal_converter]: what Alice held, the fee, the
    amount, and the amount in 18 decimals. *)
Definition deposit_converted (asset : AssetId) (rid : ResourceId) (nonce fee amount adjusted : Z)
    : Test :=
  assert_ok (deposit_of asset amount);;
  assert_balances asset (ENDOWED_BALANCE - amount) (amount - fee) fee;;
  assert_events (deposit_events asset rid nonce adjusted fee).

(** Native coins, with 12 decimals. *)
Definition converter_setup_and_native (fee_usdt_asset fee_astr_asset : Z) : Test :=
  let fee_native_asset := 1000000000000 in
  let amount_native_asset := 123456789123456 in
  let adjusted_amount_native_asset := 122456789123456000000 in
  assert_ok (set_mpc_address Root test_mpc_addr);;
  assert_ok (set_fee Root DEST_DOMAIN_ID native fee_native_asset);;
  assert_ok (set_fee Root DEST_DOMAIN_ID usdt fee_usdt_asset);;
  assert_ok (set_fee Root DEST_DOMAIN_ID astr fee_astr_asset);;
  assert_ok (set_fee_handler Root DEST_DOMAIN_ID native BasicFeeHandler);;
  assert_ok (set_fee_handler Root DEST_DOMAIN_ID usdt BasicFeeHandler);;
  assert_ok (set_fee_handler Root DEST_DOMAIN_ID astr BasicFeeHandler);;
  assert_ok (register_domain Root DEST_DOMAIN_ID 1);;
  deposit_converted native NativeResourceId 0 fee_native_asset amount_native_asset
    adjusted_amount_native_asset.

(** Tokens with 18 and with 24 decimals, and an amount that converts to nothing. *)
Definition converter_tokens (fee_usdt_asset fee_astr_asset : Z) : Test :=
  let amount_usdt_asset := 123456789123456789123 in
  let adjusted_amount_usdt_asset := 122456789123456789123 in
  let amount_astr_asset := 123456789123456789123456789 in
  let adjusted_amount_astr_asset := 122456789123456789123 in
  assert_ok (mint usdt ALICE ENDOWED_BALANCE);;
  assert_eq (asset_balance usdt ALICE) ENDOWED_BALANCE;;
  deposit_converted usdt UsdtResourceId 1 fee_usdt_asset amount_usdt_asset
    adjusted_amount_usdt_asset;;
  assert_ok (mint astr ALICE ENDOWED_BALANCE);;
  assert_eq (asset_balance astr ALICE) ENDOWED_BALANCE;;
  deposit_converted astr AstrResourceId 2 fee_astr_asset amount_astr_asset
    adjusted_amount_astr_asset;;
  assert_ok (set_fee Root DEST_DOMAIN_ID astr 1);;
  assert_noop (deposit_of astr 100000) (ModBridge DecimalConversionFail).

Definition deposit_with_decimal_converter : Test :=
  let fee_usdt_asset := 1000000000000000000 in
  let fee_astr_asset := 1000000000000000000000000 in
  converter_setup_and_native fee_usdt_asset fee_astr_asset;;
  converter_tokens fee_usdt_asset fee_astr_asset.

(** Reserve and treasury of the native asset. *)
Definition assert_collected (reserve treasury : Z) : Test :=
  assert_eq (free_balance (reserved_account native)) reserve;;
  assert_eq (free_balance TreasuryAccount) treasury.

Definition native_rate (r lo hi : Z) : M DispatchError Chain unit :=
  set_fee_rate Root DEST_DOMAIN_ID native r lo hi.

(** Rates of 5, 100 and 99.99 percent. *)
Definition percentage_high_rates (amount max : Z) : Test :=
  let rate := native_rate in
  assert_ok (register_domain Root DEST_DOMAIN_ID 1);;
  assert_ok (set_fee_handler Root DEST_DOMAIN_ID native PercentageFeeHandler);;
  assert_ok (set_mpc_address Root test_mpc_addr);;
  (* 5% *)
  assert_ok (rate 500 0 max);;
  assert_ok (deposit_of native amount);;
  assert_eq (free_balance ALICE) (ENDOWED_BALANCE - amount);;
  assert_collected 190000000000000 10000000000000;;
  assert_events (deposit_events native NativeResourceId 0 190000000000000000000 10000000000000);;
  (* 100% *)
  assert_noop (rate 10000 0 max) (ModPercentageFee FeeRateOutOfRange);;
  (* 99.99% *)
  assert_ok (rate 9999 0 max);;
  assert_ok (deposit_of native amount);;
  assert_collected 190020000000000 209980000000000.

(** Rates of 0 and 150 percent, and the bounds of the fee. *)
Definition percentage_low_rates_and_bounds (amount max : Z) : Test :=
  let rate := native_rate in
  (* 0% *)
  assert_ok (rate 0 0 max);;
  assert_ok (deposit_of native amount);;
  assert_collected 390020000000000 209980000000000;;
  (* 150% *)
  assert_noop (rate 15000 0 max) (ModPercentageFee FeeRateOutOfRange);;
  assert_collected 390020000000000 209980000000000;;
  (* bounds *)
  assert_ok (rate 500 100000000000000 max);;
  assert_ok (deposit_of native amount);;
  assert_collected 490020000000000 309980000000000;;
  assert_ok (deposit_of native 200000000000000000);;
  assert_collected 199490020000000000 1309980000000000.

Definition deposit_native_asset_with_percentage_fee : Test :=
  let amount := 200000000000000 in
  let max := 1000000000000000 in
  percentage_high_rates amount max;; percentage_low_rates_and_bounds amount max.

Definition percentage_fee_rate_not_set_for_domain_and_asset : Test :=
  assert_ok (register_domain Root DEST_DOMAIN_ID 1);;
  assert_ok (set_mpc_address Root test_mpc_addr);;
  assert_ok (set_fee_handler Root DEST_DOMAIN_ID native PercentageFeeHandler);;
  assert_noop (deposit_of native 200000000000000) (ModBridge MissingFeeConfig).

Definition deposit_native_asset_with_percentage_fee_override_basic_fee_handler : Test :=
  let amount := 200000000000000 in
  let fee := 1000000000000 in
  assert_ok (register_domain Root DEST_DOMAIN_ID 1);;
  assert_ok (set_mpc_address Root test_mpc_addr);;
  assert_ok (set_fee_handler Root DEST_DOMAIN_ID native BasicFeeHandler);;
  assert_ok (set_fee Root DEST_DOMAIN_ID native fee);;
  assert_ok (deposit_of native amount);;
  assert_balances native (ENDOWED_BALANCE - amount) (amount - fee) fee;;
  assert_ok (set_fee_handler Root DEST_DOMAIN_ID native PercentageFeeHandler);;
  assert_ok (set_fee_rate Root DEST_DOMAIN_ID native 500 0 1000000000000000);;
  assert_ok (deposit_of native amount);;
  assert_balances native (ENDOWED_BALANCE - amount * 2)
    (amount - fee + 190000000000000) (fee + 10000000000000).

Example deposit_tests_pass :
  forallb (passes new_test_ext) [
    deposit_native_asset_should_work; transfer_wrap_deposit_should_work;
    deposit_foreign_asset_should_work; deposit_unbounded_asset_should_fail;
    deposit_to_unrecognized_dest_should_fail; deposit_without_fee_set_should_fail;
    deposit_less_than_fee_should_fail; deposit_when_bridge_paused_should_fail;
    deposit_without_mpc_set_should_fail; deposit_with_decimal_converter;
    deposit_native_asset_with_percentage_fee;
    percentage_fee_rate_not_set_for_domain_and_asset;
    deposit_native_asset_with_percentage_fee_override_basic_fee_handler] = true.
Proof. vm_compute. reflexivity. Qed.

(** ** Proposals *)

(** [execute_proposal] of Alice with the signature of the generated key pair *)
Definition execute_signed (proposals : list Proposal) : M DispatchError Chain unit :=
  execute_proposal (Signed ALICE) proposals (sign (digest proposals)).

Definition execution_setup (amount : Z) : Test :=
  let fee := 1000000000000 in
  assert_noop (execute_proposal (Signed ALICE) [] []) (ModBridge MissingMpcAddress);;
  assert_ok (set_mpc_address Root pair_address);;
  assert_eq (fun w => MpcAddr (bridge w)) pair_address;;
  assert_ok (register_domain Root DEST_DOMAIN_ID 1);;
  assert_ok (set_fee Root DEST_DOMAIN_ID native fee);;
  assert_ok (set_fee_handler Root DEST_DOMAIN_ID native BasicFeeHandler);;
  assert_ok (deposit_of native amount);;
  assert_ok (mint usdt (reserved_account usdt) 400000000000000);;
  assert_eq (free_balance (reserved_account native)) 199000000000000;;
  assert_eq (asset_balance usdt (reserved_account usdt)) 400000000000000.

Definition execution_proposals (amount : Z) : list Proposal :=
  let bob_data := create_deposit_data amount (loc_encode (loc_of_account BOB)) in [
    (* valid_native_transfer_proposal, valid_usdt_transfer_proposal *)
    transfer_to BOB 1 NativeResourceId amount;
    transfer_to BOB 2 UsdtResourceId amount;
    (* invalid nonce, domain, resource, recipient; empty data *)
    transfer_to BOB 2 NativeResourceId amount;
    {| origin_domain_id := 2; deposit_nonce := 3; resource_id := NativeResourceId;
       data := bob_data |};
    transfer_to BOB 3 (replicate 32 2) amount;
    {| origin_domain_id := DEST_DOMAIN_ID; deposit_nonce := 3; resource_id := NativeResourceId;
       data := create_deposit_data amount (b_ "invalid recipient") |};
    {| origin_domain_id := DEST_DOMAIN_ID; deposit_nonce := 3; resource_id := UsdtResourceId;
       data := [] |}].

Definition execution_checks (amount : Z) : Test :=
  let proposals := execution_proposals amount in
  let final_message := digest proposals in
  let proposals_with_bad_signature := sign_by 8 final_message in
  assert_ok (pause_bridge Root DEST_DOMAIN_ID);;
  assert (fun w => is_paused w DEST_DOMAIN_ID);;
  assert_ok (execute_signed proposals);;
  assert_events [EvBridge (FailedHandlerExecution
    [66; 114; 105; 100; 103; 101; 80; 97; 117; 115; 101; 100] 1 3)];;
  assert_ok (unpause_bridge Root DEST_DOMAIN_ID);;
  assert_noop (execute_proposal (Signed ALICE) proposals proposals_with_bad_signature)
    (ModBridge BadMpcSignature);;
  assert_eq (free_balance BOB) ENDOWED_BALANCE;;
  assert_eq (asset_balance usdt BOB) 0;;
  assert (is_signed final_message (sign final_message));;
  assert_ok (execute_signed proposals);;
  assert_eq (free_balance BOB) (ENDOWED_BALANCE + 200000000);;
  assert_eq (asset_balance usdt BOB) amount;;
  assert_eq (free_balance (reserved_account native)) (199000000000000 - 200000000);;
  assert_eq (asset_balance usdt (reserved_account usdt)) 200000000000000.

Definition proposal_execution_should_work : Test :=
  let amount := 200000000000000 in
  execution_setup amount;; execution_checks amount.

Definition execution_native_converted (bridge_amount : Z) : Test :=
  let fee := 1000000000000 in
  assert_ok (set_mpc_address Root pair_address);;
  assert_ok (register_domain Root DEST_DOMAIN_ID 1);;
  assert_ok (set_fee Root DEST_DOMAIN_ID native fee);;
  assert_ok (set_fee_handler Root DEST_DOMAIN_ID native BasicFeeHandler);;
  assert_ok (deposit_of native (ENDOWED_BALANCE / 2));;
  assert_eq (free_balance (reserved_account native)) (ENDOWED_BALANCE / 2 - fee);;
  assert_eq (free_balance TreasuryAccount) fee;;
  assert_eq (free_balance ALICE) (ENDOWED_BALANCE / 2);;
  assert_ok (execute_signed [transfer_to ALICE 1 NativeResourceId bridge_amount]);;
  assert_eq (free_balance ALICE) (ENDOWED_BALANCE / 2 + 100000000000000).

Definition execution_tokens_converted (bridge_amount : Z) : Test :=
  assert_ok (mint usdt (reserved_account usdt) ENDOWED_BALANCE);;
  assert_eq (asset_balance usdt (reserved_account usdt)) ENDOWED_BALANCE;;
  assert_eq (asset_balance usdt ALICE) 0;;
  assert_ok (execute_signed [transfer_to ALICE 2 UsdtResourceId bridge_amount]);;
  assert_eq (asset_balance usdt ALICE) 100000000000000000000;;
  assert_ok (mint astr (reserved_account astr) ENDOWED_BALANCE);;
  assert_eq (asset_balance astr (reserved_account astr)) ENDOWED_BALANCE;;
  assert_eq (asset_balance astr ALICE) 0;;
  assert_ok (execute_signed [transfer_to ALICE 3 AstrResourceId bridge_amount]);;
  assert_eq (asset_balance astr ALICE) 100000000000000000000000000;;
  assert_ok (execute_signed [transfer_to ALICE 4 NativeResourceId 100000]);;
  assert_events [EvBridge (FailedHandlerExecution
    [68; 101; 99; 105; 109; 97; 108; 67; 111; 110; 118; 101; 114; 115; 105;
     111; 110; 70; 97; 105; 108] 1 4)].

Definition proposal_execution_with_decimal_converter : Test :=
  let bridge_amount := 100000000000000000000 in
  execution_native_converted bridge_amount;; execution_tokens_converted bridge_amount.

Definition setup_before_mpc : Test :=
  assert_eq (fun w => MpcAddr (bridge w)) mpc_default;;
  assert_ok (grant "register_domain" ALICE);;
  assert_ok (grant "unregister_domain" ALICE);;
  assert_ok (grant "pause_bridge" ALICE);;
  assert_ok (grant "unpause_bridge" ALICE);;
  assert_ok (grant "retry" ALICE);;
  assert_ok (register_domain (Signed ALICE) DEST_DOMAIN_ID 1);;
  assert_ok (unregister_domain (Signed ALICE) DEST_DOMAIN_ID 1);;
  assert_ok (register_domain (Signed ALICE) DEST_DOMAIN_ID 1);;
  assert_ok (pause_bridge (Signed ALICE) 1);;
  assert_ok (unpause_bridge (Signed ALICE) 1);;
  assert_ok (pause_bridge (Signed ALICE) 1);;
  assert (fun w => is_paused w 1);;
  assert_noop (retry (Signed ALICE) 1234567 DEST_DOMAIN_ID) (ModBridge MissingMpcAddress);;
  assert_noop (deposit_of astr 100) (ModBridge MissingMpcAddress);;
  assert_noop (execute_proposal (Signed ALICE) [] []) (ModBridge MissingMpcAddress).

Definition setup_after_mpc : Test :=
  let fee := 1000000000000 in
  let amount := 200000000000000 in
  assert_ok (set_mpc_address Root pair_address);;
  assert_eq (fun w => MpcAddr (bridge w)) pair_address;;
  assert (fun w => negb (is_paused w 1));;
  assert_ok (retry (Signed ALICE) 1234567 DEST_DOMAIN_ID);;
  assert_events [EvBridge (Retry 1234567 DEST_DOMAIN_ID ALICE)];;
  assert_ok (set_fee Root DEST_DOMAIN_ID native fee);;
  assert_ok (set_fee_handler Root DEST_DOMAIN_ID native BasicFeeHandler);;
  assert_ok (deposit_of native amount);;
  assert_balances native (ENDOWED_BALANCE - amount) (amount - fee) fee;;
  assert_ok (execute_signed [transfer_to BOB 1 NativeResourceId amount]);;
  assert_eq (free_balance BOB) (ENDOWED_BALANCE + 200000000).

Definition setup_order_test : Test := setup_before_mpc;; setup_after_mpc.

Example proposal_tests_pass :
  forallb (passes new_test_ext) [
    proposal_execution_should_work; proposal_execution_with_decimal_converter;
    setup_order_test] = true.
Proof. vm_compute. reflexivity. Qed.

End BridgeTests.
