(* ===== verification/ForwarderTests.v ===== *)
(** * The mock runtime and the unit tests of the bridge forwarder
    ([bridge-forwarder/src/mock.rs], [mod test] of [bridge-forwarder/src/lib.rs])

    The two bridges and the forwarder of the mock accept everything; the adapters are
    those of the XCM crates over the ledger of [Scenario.v], which needs no registration
    of assets, so the calls that create them are not translated. *)

From S2P Require Import Prelude Xcm Frame Traits Encode Eip712 Bridge Forwarder.
From S2P Require Import ParachainInfo RuntimeCommon TestKit Scenario.
#[local] Existing Instances toy_crypto toy_codec.

Module ForwarderMock.

Definition ALICE : AccountId := replicate 32 0.
Definition ASSET_OWNER : AccountId := replicate 32 1.
Definition BOB : AccountId := replicate 32 2.
Definition ENDOWED_BALANCE : Z := 1000000000000000000000000000.

Definition NativeLocation : MultiLocation := loc_here.
Definition UsdtAssetId : Z := 1.
Definition slice_to_generalkey (key : bytes) : outcome DispatchError Junction :=
  RuntimeCommon.slice_to_generalkey key.
Definition UsdtLocation : MultiLocation :=
  ML 1 (X3 (Parachain 2005) (general_key (b_ "sygma")) (general_key (b_ "usdt"))).

(** [SimpleForeignAssetConverter] *)
Definition simple_foreign_asset_converter (a : MultiAsset) : option (Z * Z) :=
  matches_fungibles [(UsdtLocation, UsdtAssetId)] a.

(** [NativeAssetTypeIdentifier<ParachainInfo>] *)
Definition is_native_asset (w : Chain) (asset : MultiAsset) : bool :=
  let native_locations := [loc_here; ML 1 (X1 (Parachain (parachain_id w)))] in
  match asset_id asset, asset_fun asset with
  | Concrete id, Fungible _ => existsb (fun l => bool_decide (l = id)) native_locations
  | _, _ => false
  end.
Definition native_asset_type_identifier : AssetTypeIdentifier Ledger :=
  {| Traits.is_native_asset := is_native_asset |}.

(** [BridgeImplRuntime] and [ForwarderImplRuntime]: every call returns [Ok(())]. *)
Definition bridge_impl_transfer (_sender : bytes) (_asset : MultiAsset) (_dest : MultiLocation)
    (_max_weight : option Weight) : M DispatchError Chain unit := mret tt.
Definition BridgeImplRuntime : Traits.Bridge Ledger := {| transfer := bridge_impl_transfer |}.

Definition forwarder_impl (_sender : bytes) (_what : MultiAsset) (_dest : MultiLocation)
    : M DispatchError Chain unit := mret tt.
Definition ForwarderImplRuntime : TransactorForwarder Ledger :=
  {| xcm_transactor_forwarder := forwarder_impl;
     other_world_transactor_forwarder := forwarder_impl |}.

(** [impl sygma_bridge_forwarder::Config for Runtime] *)
Definition SygmaBridgeForwarder : TransactorForwarder Ledger :=
  bridge_forwarder BridgeImplRuntime BridgeImplRuntime.

(** An adapter over the ledger that handles the assets its matcher knows. *)
Definition adapter (matches : MultiAsset -> bool) : TransactAsset Ledger :=
  {| withdraw_asset what who ctx :=
       if matches what then ledger_withdraw what who ctx else fail (OtherXcmError 3);
     deposit_asset what who ctx :=
       if matches what then ledger_deposit what who ctx else fail (OtherXcmError 3) |}.

(** [CurrencyTransactor] ([IsConcrete<NativeLocation>]) and [FungiblesTransactor] *)
Definition CurrencyTransactor : TransactAsset Ledger :=
  adapter (fun a => bool_decide (asset_id a = Concrete NativeLocation)).
Definition FungiblesTransactor : TransactAsset Ledger :=
  adapter (fun a => bool_decide (is_Some (simple_foreign_asset_converter a))).

(** The transactor of the tests. *)
Definition transactor : TransactAsset Ledger :=
  xcm_asset_transactor CurrencyTransactor FungiblesTransactor native_asset_type_identifier
    ForwarderImplRuntime error_name.

Definition new_test_ext : Chain :=
  empty_world (<[(ALICE, Concrete NativeLocation) := ENDOWED_BALANCE]>
    (<[(ASSET_OWNER, Concrete NativeLocation) := ENDOWED_BALANCE]> ∅)).

Definition assert_events : list RuntimeEvent -> M DispatchError Chain unit :=
  TestKit.assert_events.

End ForwarderMock.

Module ForwarderTests.
Import ForwarderMock.

Abbreviation Test := (M DispatchError Chain unit).

Definition free_balance (who : AccountId) (w : Chain) : Z :=
  balance_of (ledger w) who (Concrete NativeLocation).
Definition usdt_balance (who : AccountId) (w : Chain) : Z :=
  balance_of (ledger w) who (Concrete UsdtLocation).
(** [Assets::mint] by the asset's owner *)
Definition mint_usdt (who : AccountId) (amount : Z) : Test :=
  modify (fun w => set_ledger
    (<[(who, Concrete UsdtLocation) := usdt_balance who w + amount]> (ledger w)) w).

Definition ten_native : MultiAsset := asset_of (Concrete (ML 0 Here)) 10.
Definition ten_usdt : MultiAsset := asset_of (Concrete UsdtLocation) 10.
Definition deposit_to (what : MultiAsset) (who : MultiLocation) : M XcmError Chain unit :=
  deposit_asset (TransactAsset := transactor) what who no_message.

Definition test_xcm_transactor_forwarder : Test :=
  let dest := ML 1 (X2 (Parachain 1) (GeneralIndex 1)) in
  assert_ok (xcm_transactor_forwarder (TransactorForwarder := SygmaBridgeForwarder)
    ALICE ten_native dest);;
  assert_events [EvForwarder (XCMTransferForward ten_native
    (loc_of_junction (AccountId32 None ALICE)) dest)].

Definition test_other_world_transactor_forwarder : Test :=
  let dest := ML 1 (X2 (Parachain 1) (GeneralIndex 1)) in
  assert_ok (other_world_transactor_forwarder (TransactorForwarder := SygmaBridgeForwarder)
    ALICE ten_native dest);;
  assert_events [EvForwarder (OtherWorldTransferForward ten_native
    (loc_of_junction (AccountId32 None ALICE)) dest)].

Definition test_asset_type_identifier_native_asset : Test :=
  assert (fun w => is_native_asset w (asset_of (Concrete (ML 0 Here)) 10));;
  assert (fun w => is_native_asset w (asset_of (Concrete (ML 1 (X1 (Parachain 100)))) 10));;
  assert (fun w =>
    negb (is_native_asset w (asset_of (Concrete (ML 0 (X1 (Parachain 100)))) 10))).

Definition test_xcm_asset_transactor_local : Test :=
  let local_recipient := ML 0 (X1 (AccountId32 None BOB)) in
  assert_ok (deposit_to ten_native local_recipient);;
  assert_eq (free_balance BOB) 10;;
  assert_ok (deposit_to ten_usdt local_recipient);;
  assert_eq (usdt_balance BOB) 10.

Definition test_xcm_asset_transactor_outer : Test :=
  let outer_recipient := ML 1 (X4
    (GeneralKey 5 (hex "7379676d61000000000000000000000000000000000000000000000000000000"))
    (GeneralKey 12 (hex "7379676d612d6272696467650000000000000000000000000000000000000000"))
    (GeneralIndex 1) (general_key (b_ "ethereum recipient"))) in
  assert_ok (deposit_to ten_native outer_recipient);;
  assert_eq (free_balance (tmp_account 1)) 10;;
  assert_ok (deposit_to ten_usdt outer_recipient);;
  assert_eq (usdt_balance (tmp_account 1)) 10.

Definition test_xcm_asset_transactor_substrate : Test :=
  let substrate_recipient :=
    ML 1 (X2 (Parachain 2005) (general_key (b_ "substrate recipient"))) in
  assert_ok (deposit_to ten_native substrate_recipient);;
  assert_eq (free_balance (tmp_account 2)) 10;;
  assert_ok (deposit_to ten_usdt substrate_recipient);;
  assert_eq (usdt_balance (tmp_account 2)) 10.

Definition test_xcm_asset_transactor_other_dest : Test :=
  let other_recipient := ML 2 (X3 (Parachain 2005)
    (general_key (b_ "substrate recipient")) (AccountId32 None BOB)) in
  assert_ok (deposit_to ten_native other_recipient);;
  assert_eq (free_balance (tmp_account 1)) 0;;
  assert_eq (free_balance (tmp_account 2)) 10.

Definition test_xcm_asset_transactor_withdraw : Test :=
  let from_account := ML 0 (X1 (AccountId32 None ALICE)) in
  assert_ok (withdraw_asset (TransactAsset := transactor) ten_native from_account None);;
  assert_eq (free_balance ALICE) (ENDOWED_BALANCE - 10);;
  assert_ok (mint_usdt ALICE ENDOWED_BALANCE);;
  assert_eq (usdt_balance ALICE) ENDOWED_BALANCE;;
  assert_ok (withdraw_asset (TransactAsset := transactor) ten_usdt from_account None);;
  assert_eq (usdt_balance ALICE) (ENDOWED_BALANCE - 10).

Definition all_tests : list Test := [
  test_xcm_transactor_forwarder; test_other_world_transactor_forwarder;
  test_asset_type_identifier_native_asset; test_xcm_asset_transactor_local;
  test_xcm_asset_transactor_outer; test_xcm_asset_transactor_substrate;
  test_xcm_asset_transactor_other_dest; test_xcm_asset_transactor_withdraw].

Lemma forwarder_tests_pass : forallb (passes new_test_ext) all_tests = true.
Proof. vm_compute. reflexivity. Qed.

End ForwarderTests.
