(* ===== verification/XcmTests.v ===== *)
(** * The mock network and the unit tests of the XCM bridge
    ([xcm-bridge/src/mock/], [mod test] of [xcm-bridge/src/lib.rs])

    The XCM executor and the simulator are not under [src/]; the parameters that stand
    for them are instantiated by an interpreter of the instructions the pallet builds, in
    the semantics of the XCM format: parachains 1, 2 and 2005 share one ledger keyed by
    the chain, a message sent to a chain runs there when the sender's program is done, and
    execution is paid with one unit of the asset per instruction.  Accounts and assets
    need no registration, so the calls that create assets are not translated. *)

From S2P Require Import Prelude Xcm Frame Traits Encode Eip712 Bridge Forwarder XcmBridge.
From S2P Require Import ParachainInfo RuntimeCommon XcmConfig TestKit Scenario.
#[local] Existing Instances toy_crypto list_locations plain_converters.

Module XcmMock.

Definition ALICE : AccountId := replicate 32 0.
Definition BOB : AccountId := replicate 32 1.
Definition ASSET_OWNER : AccountId := replicate 32 2.
Definition ENDOWED_BALANCE : Z := 100000000000000000000.

Definition NativeLocation : MultiLocation := loc_here.
Definition NativeAssetId : Z := 0.
Definition PAALocation : MultiLocation := ML 1 (X1 (Parachain 1)).
Definition PBALocation : MultiLocation := ML 1 (X1 (Parachain 2)).
Definition UsdtAssetId : Z := 1.
Definition UsdtLocation : MultiLocation := ML 1 (X1 (Parachain 2005)).

Definition MinXcmFee : list (AssetId * Z) := [
  (Concrete NativeLocation, 1000000000000);
  (Concrete PBALocation, 1000000000000);
  (Concrete UsdtLocation, 1000000)].

(** [SimpleForeignAssetConverter] *)
Definition matches_fungibles (a : MultiAsset) : option (Z * Z) :=
  match asset_fun a, asset_id a with
  | Fungible amount, Concrete id =>
      if decide (id = UsdtLocation) then Some (UsdtAssetId, amount)
      else if decide (id = PBALocation \/ id = PAALocation) then Some (NativeAssetId, amount)
      else None
  | _, _ => None
  end.

(** ** The ledgers of the network

    The balance of an account on a chain, in its native currency or in an asset of its
    assets pallet. *)

Inductive Currency := Balances | Assets (id : Z).
Global Instance Currency_eq_dec : EqDecision Currency.
Proof. solve_decision. Defined.
Global Instance Currency_countable : Countable Currency.
Proof.
  refine (inj_countable' (fun c => match c with Balances => None | Assets i => Some i end)
    (fun o => match o with None => Balances | Some i => Assets i end) _).
  by intros [].
Defined.

Abbreviation NetLedger := (gmap (Z * AccountId * Currency) Z).
Abbreviation Net := (World NetLedger).

(** [NativeAssetTypeIdentifier<ParachainInfo>] *)
Definition is_native_asset (w : Net) (asset : MultiAsset) : bool :=
  let native_locations := [loc_here; ML 1 (X1 (Parachain (parachain_id w)))] in
  match asset_id asset, asset_fun asset with
  | Concrete id, Fungible _ => existsb (fun l => bool_decide (l = id)) native_locations
  | _, _ => false
  end.

Definition SelfLocation (w : Net) : MultiLocation := ML 1 (X1 (Parachain (parachain_id w))).

(** [AllTokensAreCreatedEqualToWeight::buy_weight]: the reference time in units of the
    asset offered; the rest is returned. *)
Definition buy_weight (weight : Weight) (payment : Z) : option Z :=
  if ref_time weight <=? payment then Some (payment - ref_time weight) else None.

(** [AllTokensAreCreatedEqualToWeight::refund_weight] *)
Definition refund_weight (asset : AssetId) (weight : Weight) : option MultiAsset :=
  if (ref_time weight =? 0) && (proof_size weight =? 0) then None
  else Some (asset_of asset (ref_time weight)).

(** [para_ext] for the three chains of [TestNet] *)
Definition para_ext (para_id : Z) (l : NetLedger) : NetLedger :=
  <[(para_id, ALICE, Balances) := ENDOWED_BALANCE]>
  (<[(para_id, BOB, Balances) := ENDOWED_BALANCE]>
  (<[(para_id, ASSET_OWNER, Balances) := ENDOWED_BALANCE]> l)).
Definition TestNet : Net := empty_world (para_ext 1 (para_ext 2 (para_ext 2005 ∅))).

(** [Sibling::from(para_id).into_account_truncating()] *)
Definition sibling_account (para_id : Z) : AccountId := sibling_para_account para_id.

(** ** The interpreter *)

Definition RelayNetwork : option NetworkId := Some Rococo.
Definition LocationToAccountId : Converter := location_to_account_id RelayNetwork.

(** [(CurrencyTransactor, FungiblesTransactor)]: the currency and the amount. *)
Definition currency_of (a : MultiAsset) : option (Currency * Z) :=
  match asset_fun a with
  | Fungible x =>
      if decide (asset_id a = Concrete NativeLocation) then Some (Balances, x)
      else match matches_fungibles a with Some (i, x) => Some (Assets i, x) | None => None end
  | NonFungible _ => None
  end.

Definition net_balance (para : Z) (who : AccountId) (c : Currency) (l : NetLedger) : Z :=
  get_or 0 l (para, who, c).

Definition credit (para : Z) (a : MultiAsset) (who : MultiLocation) (l : NetLedger)
    : option NetLedger :=
  '(c, x) ← currency_of a; id ← LocationToAccountId who;
  Some (<[(para, id, c) := net_balance para id c l + x]> l).
Definition debit (para : Z) (a : MultiAsset) (who : MultiLocation) (l : NetLedger)
    : option NetLedger :=
  '(c, x) ← currency_of a; id ← LocationToAccountId who;
  if x <=? net_balance para id c l
  then Some (<[(para, id, c) := net_balance para id c l - x]> l) else None.

(** The name of a location of parachain [i] on its sibling [j]. *)
Definition reanchor_location (i j : Z) (l : MultiLocation) : MultiLocation :=
  match parents l, junctions_list (interior l) with
  | 0, js => ML 1 (list_junctions (Parachain i :: js))
  | 1, Parachain k :: js => if k =? j then ML 0 (list_junctions js) else l
  | _, _ => l
  end.
Definition reanchor (i j : Z) (a : MultiAsset) : MultiAsset :=
  match asset_id a with
  | Concrete l => MA (Concrete (reanchor_location i j l)) (asset_fun a)
  | Abstract _ => a
  end.

(** [reanchored] for a sibling seen from a parachain. *)
#[export] Instance sibling_reanchor : XcmReanchor :=
  {| reanchored a target context :=
       match target, context with
       | ML 1 (X1 (Parachain j)), X1 (Parachain i) => Some (reanchor i j a)
       | _, _ => None
       end |}.

(** A message on its way: the assets it brings, whether they are withdrawn from the
    sender's sovereign account or were deposited at the reserve, and the program that
    follows [ClearOrigin]. *)
Inductive Header := Withdrawn | ReserveDeposited.
Record Sent := {
  sent_from : Z; sent_to : Z; header : Header; brought : MultiAsset; program : Xcm
}.

(** [weight] of a message under [FixedWeightBounds], one unit per instruction. *)
Definition message_weight (m : Xcm) : Weight := from_parts (Z.of_nat (length m)) 0.

Section Run.
Context (here : Z).

(** The programs the pallet builds act on one asset: the holding register is that asset
    or empty.  [None] is an execution error. *)
Definition run_instruction (origin : MultiLocation) (total : Weight) (i : Instruction)
    (st : option MultiAsset * NetLedger * list Sent)
    : option (option MultiAsset * NetLedger * list Sent) :=
  let '(holding, l, out) := st in
  match i, holding with
  | WithdrawAsset [a], None => l ← debit here a origin l; Some (Some a, l, out)
  | TransferReserveAsset [a] (ML 1 (X1 (Parachain j)) as dest) xcm, _ =>
      l ← debit here a origin l; l ← credit here a dest l;
      Some (holding, l, out ++ [{| sent_from := here; sent_to := j; header := ReserveDeposited;
        brought := reanchor here j a; program := xcm |}])
  | InitiateReserveWithdraw All (ML 1 (X1 (Parachain j))) xcm, Some a =>
      Some (None, l, out ++ [{| sent_from := here; sent_to := j; header := Withdrawn;
        brought := reanchor here j a; program := xcm |}])
  | DepositReserveAsset (AllCounted 1) (ML 1 (X1 (Parachain j)) as dest) xcm, Some a =>
      l ← credit here a dest l;
      Some (None, l, out ++ [{| sent_from := here; sent_to := j; header := ReserveDeposited;
        brought := reanchor here j a; program := xcm |}])
  | BuyExecution fees (Limited limit), Some a =>
      if decide (asset_id fees = asset_id a) then
        let offered := Z.min (fungible_amount fees) (fungible_amount a) in
        if ref_time limit <? ref_time total then None else
        unused ← buy_weight total offered;
        Some (Some (asset_of (asset_id a) (fungible_amount a - offered + unused)), l, out)
      else None
  | DepositAsset (AllCounted 1) beneficiary, Some a =>
      l ← credit here a beneficiary l; Some (None, l, out)
  | _, _ => None
  end.

Fixpoint run_program (origin : MultiLocation) (total : Weight) (m : Xcm)
    (st : option MultiAsset * NetLedger * list Sent)
    : option (option MultiAsset * NetLedger * list Sent) :=
  match m with
  | [] => Some st
  | i :: m => st ← run_instruction origin total i st; run_program origin total m st
  end.
End Run.

(** A message that arrives; its weight counts the two instructions in front of it.  One
    that fails is dropped. *)
Definition receive (s : Sent) (l : NetLedger) : NetLedger * list Sent :=
  let sender := ML 1 (X1 (Parachain (sent_from s))) in
  let total := from_parts (Z.of_nat (length (program s)) + 2) 0 in
  let start :=
    match header s with
    | Withdrawn => debit (sent_to s) (brought s) sender l
    | ReserveDeposited =>
        (* [IsReserve = NativeAsset]: the sender is the asset's own chain *)
        if decide (asset_id (brought s) = Concrete sender) then Some l else None
    end in
  match start with
  | Some l1 =>
      match run_program (sent_to s) sender total (program s) (Some (brought s), l1, []) with
      | Some (_, l', out) => (l', out)
      | None => (l, [])
      end
  | None => (l, [])
  end.

(** Messages are delivered in order; two hops are all a program of the pallet makes. *)
Fixpoint deliver (fuel : nat) (q : list Sent) (l : NetLedger) : NetLedger :=
  match fuel, q with
  | S fuel, s :: q => let '(l, out) := receive s l in deliver fuel (q ++ out) l
  | _, _ => l
  end.

Definition execute_xcm (origin : MultiLocation) (m : Xcm) (_hash : bytes)
    (weight_limit weight_credit : Weight) : M Empty_set Net Outcome := fun w =>
  if ref_time weight_limit <? ref_time (message_weight m)
  then (Ok (OutcomeError (OtherXcmError 4)), w)
  else
    match run_program (parachain_id w) origin (message_weight m) m (None, ledger w, []) with
    | Some (_, l, out) =>
        (Ok (Complete (message_weight m)), set_ledger (deliver 4 out l) w)
    | None => (Ok (Incomplete (message_weight m) (OtherXcmError 5)), w)
    end.

(** [impl sygma_xcm_bridge::Config for Runtime] *)
#[export] Instance xcm_bridge_config : XcmBridgeConfig NetLedger :=
  {| weigh m := (Some (message_weight m), m);
     xcm_encode := toy_encode;
     execute_xcm_in_credit := execute_xcm;
     asset_reserved_checker := {| Traits.is_native_asset := is_native_asset |};
     self_location := SelfLocation;
     min_xcm_fee := MinXcmFee |}.

Definition assert_events : list RuntimeEvent -> M DispatchError Net unit :=
  TestKit.assert_events.

End XcmMock.

Module XcmTests.
Import XcmMock.

Abbreviation Test := (M DispatchError Net unit).

(** [ParaX::execute_with]: the chains share the event list, of which the tests read the
    latest entry of the chain they act on. *)
Definition execute_with (para_id : Z) (body : Test) : Test :=
  modify (set_parachain_id (Some para_id));; body.
Definition ParaA (body : Test) : Test := execute_with 1 body.
Definition ParaB (body : Test) : Test := execute_with 2 body.
Definition ParaC (body : Test) : Test := execute_with 2005 body.

(** [ParaBalances::free_balance] and [ParaAssets::balance] on the current chain *)
Definition free_balance (who : AccountId) (w : Net) : Z :=
  net_balance (parachain_id w) who Balances (ledger w).
Definition asset_balance (id : Z) (who : AccountId) (w : Net) : Z :=
  net_balance (parachain_id w) who (Assets id) (ledger w).

(** [Assets::mint] and [ParaBalances::transfer_keep_alive] *)
Definition mint (id : Z) (who : AccountId) (amount : Z) : Test := modify (fun w =>
  set_ledger (<[(parachain_id w, who, Assets id) := asset_balance id who w + amount]>
    (ledger w)) w).
Definition transfer_keep_alive (from to : AccountId) (amount : Z) : Test := fun w =>
  match debit (parachain_id w) (asset_of (Concrete NativeLocation) amount)
          (loc_of_account from) (ledger w) with
  | Some l =>
      match credit (parachain_id w) (asset_of (Concrete NativeLocation) amount)
              (loc_of_account to) l with
      | Some l => (Ok tt, set_ledger l w)
      | None => (Err (OtherDispatch 0), w)
      end
  | None => (Err (OtherDispatch 0), w)
  end.

(** The account of [who] on a sibling. *)
Definition on_para (para_id : Z) (who : AccountId) : MultiLocation :=
  ML 1 (X2 (Parachain para_id) (AccountId32 None who)).
Definition sent_event (asset : MultiAsset) (who : AccountId) (dest : MultiLocation)
    : RuntimeEvent := EvXcmBridge (XCMTransferSend asset (loc_of_account who) dest).

Definition test_transfer_self_reserve_asset_to_parachain : Test :=
  let amount := 10000000000000 in
  let fee := 4 in
  let asset := asset_of (Concrete (ML 0 Here)) amount in
  ParaB (assert_eq (asset_balance NativeAssetId BOB) 0);;
  ParaA (
    assert_eq (free_balance ALICE) ENDOWED_BALANCE;;
    assert_ok (xcm_transfer ALICE asset (on_para 2 BOB) None);;
    assert_eq (free_balance ALICE) (ENDOWED_BALANCE - amount);;
    assert_events [sent_event asset ALICE (on_para 2 BOB)];;
    assert_eq (free_balance (sibling_account 2)) amount);;
  ParaB (assert_eq (asset_balance NativeAssetId BOB) (amount - fee)).

Definition test_transfer_to_reserve_to_parachain : Test :=
  let amount := 10000000000000 in
  let fee := 4 in
  let back := asset_of (Concrete PBALocation) (amount - fee) in
  ParaB (
    assert_eq (free_balance BOB) ENDOWED_BALANCE;;
    assert_ok (xcm_transfer ALICE (asset_of (Concrete (ML 0 Here)) amount)
      (on_para 1 ALICE) None);;
    assert_eq (free_balance ALICE) (ENDOWED_BALANCE - amount);;
    assert_eq (free_balance (sibling_account 1)) amount);;
  ParaA (
    assert_eq (asset_balance NativeAssetId ALICE) (amount - fee);;
    assert_ok (xcm_transfer ALICE back (on_para 2 BOB) None);;
    assert_eq (asset_balance NativeAssetId ALICE) 0;;
    assert_events [sent_event back ALICE (on_para 2 BOB)]);;
  ParaB (
    assert_eq (free_balance BOB) (ENDOWED_BALANCE + amount - fee * 2);;
    assert_eq (free_balance (sibling_account 1)) (amount - (amount - fee))).

Definition test_transfer_to_non_reserve_to_parachain : Test :=
  let sent := 100000000 in
  let usdt := asset_of (Concrete UsdtLocation) in
  ParaC (
    assert_ok (mint UsdtAssetId ASSET_OWNER ENDOWED_BALANCE);;
    assert_eq (asset_balance UsdtAssetId ASSET_OWNER) ENDOWED_BALANCE;;
    assert_eq (asset_balance UsdtAssetId ALICE) 0;;
    assert_eq (asset_balance UsdtAssetId BOB) 0;;
    assert_eq (free_balance ALICE) ENDOWED_BALANCE;;
    assert_eq (free_balance BOB) ENDOWED_BALANCE;;
    assert_ok (transfer_keep_alive ASSET_OWNER (sibling_account 1) 1000000000000000);;
    assert_eq (free_balance (sibling_account 1)) 1000000000000000;;
    assert_eq (free_balance (sibling_account 2)) 0);;
  ParaC (
    assert_ok (xcm_transfer ASSET_OWNER (usdt sent) (on_para 1 ALICE) None);;
    assert_eq (asset_balance UsdtAssetId ASSET_OWNER) (ENDOWED_BALANCE - sent));;
  ParaA (assert_eq (asset_balance UsdtAssetId ALICE) (sent - 4));;
  ParaB (assert_eq (asset_balance UsdtAssetId BOB) 0);;
  ParaA (
    assert_ok (xcm_transfer ALICE (usdt (sent - 4)) (on_para 2 BOB) None);;
    assert_eq (asset_balance UsdtAssetId ALICE) 0;;
    assert_events [sent_event (usdt (sent - 4)) ALICE (on_para 2 BOB)]);;
  ParaC (
    assert_eq (free_balance (sibling_account 1)) (1000000000000000 - (sent - 4));;
    assert_eq (free_balance (sibling_account 2)) (sent - 4 - 4));;
  ParaB (assert_eq (asset_balance UsdtAssetId BOB) (sent - 4 - 4 * 2)).

Definition all_tests : list Test := [
  test_transfer_self_reserve_asset_to_parachain; test_transfer_to_reserve_to_parachain;
  test_transfer_to_non_reserve_to_parachain].

Lemma xcm_tests_pass : forallb (passes TestNet) all_tests = true.
Proof. vm_compute. reflexivity. Qed.

End XcmTests.
