(* ===== verification/MockParams.v ===== *)
(** * FRAME parameters of the mock runtimes ([mock.rs] of the pallets)

    The pallets the mocks are built from, with the indices [construct_runtime!] gives them,
    and the parameters of the FRAME pallets.  The bridge's own configuration of a mock is in
    the file of its tests.  [BlockLength] is the default of [frame_system] in all of them:
    an argument. *)

From S2P Require Import Prelude Xcm Frame Traits XcmBridge RuntimeCommon ParachainInfo.
From S2P Require Import XcmConfig FrameParams BridgeMock TestKit PalletTests ForwarderTests.
From S2P Require Import XcmTests.

(** ** [construct_runtime!]

    A pallet without an index comes after the one before it. *)

Abbreviation Declarations := (list (string * option Z)).

Fixpoint assign (next : Z) (decls : Declarations) : list (string * Z) :=
  match decls with
  | [] => []
  | (name, index) :: decls =>
      let i := default next index in (name, i) :: assign (i + 1) decls
  end.

Fixpoint index_in (table : list (string * Z)) (pallet : string) : option Z :=
  match table with
  | [] => None
  | (name, i) :: table => if decide (name = pallet) then Some i else index_in table pallet
  end.
Definition pallet_index (decls : Declarations) : string -> option Z := index_in (assign 0 decls).

(** An index is used once: the macro refuses anything else. *)
Definition indices_distinct (decls : Declarations) : bool :=
  bool_decide (NoDup (snd <$> assign 0 decls)).

(** [frame_system::Config] where [SS58Prefix], [OnSetCode] and the weights are [()]. *)
Definition plain_system (hash_count default_length prefix consumers : Z) : SystemConfig :=
  {| base_call_filter _ := true; hashing := "BlakeTwo256"; lookup_addresses := "IdentityLookup";
     on_set_code := SetCodeNow; block_length := default_length;
     block_hash_count := Some hash_count; ss58_prefix := prefix; max_consumers := consumers |}.

(** ** The access segregator *)

Module AccessMock.
Definition construct_runtime : Declarations :=
  [("System", None); ("Balances", None); ("AccessSegregator", Some 2)]%string.
Definition BlockHashCount : Z := 250.
Definition MaximumBlockLength : Z := 2 * 1024.
Definition AvailableBlockRatio : Z := 1000000000.
Definition MaxLocks : Z := 100.
Definition MinimumPeriod : Z := 1.
Definition system_config (default_length : Z) : SystemConfig :=
  plain_system BlockHashCount default_length 0 2.
Definition ExistentialDeposit : Z := 1.
Definition balances_config : BalancesConfig :=
  {| max_locks := 0; max_reserves := 0; existential_deposit := ExistentialDeposit;
     max_holds := 0; max_freezes := 0 |}.
End AccessMock.

(** ** The fee pallets *)

Module BasicFeeMock.
Definition construct_runtime : Declarations :=
  [("System", None); ("Assets", None); ("Balances", None); ("AccessSegregator", Some 3);
   ("BasicFeeHandler", Some 4)]%string.
Definition BlockHashCount : Z := 250.
Definition MaximumBlockLength : Z := 2 * 1024.
Definition AvailableBlockRatio : Z := 1000000000.
Definition MaxLocks : Z := 100.
Definition MinimumPeriod : Z := 1.
Definition system_config (default_length : Z) : SystemConfig :=
  plain_system BlockHashCount default_length 0 2.
Definition ExistentialDeposit : Z := 1.
Definition balances_config : BalancesConfig :=
  {| max_locks := 0; max_reserves := 0; existential_deposit := ExistentialDeposit;
     max_holds := 0; max_freezes := 0 |}.
Definition AssetDeposit : Z := 1.
Definition ApprovalDeposit : Z := 1.
Definition AssetsStringLimit : Z := 50.
Definition MetadataDepositBase : Z := 1.
Definition MetadataDepositPerByte : Z := 1.
Definition assets_config : AssetsConfig :=
  {| asset_deposit := AssetDeposit; asset_account_deposit := 10;
     metadata_deposit_base := MetadataDepositBase;
     metadata_deposit_per_byte := MetadataDepositPerByte; approval_deposit := ApprovalDeposit;
     string_limit := AssetsStringLimit; remove_items_limit := 1000 |}.
End BasicFeeMock.

Module PercentageFeeMock.
Definition construct_runtime : Declarations :=
  [("System", None); ("Assets", None); ("Balances", None); ("AccessSegregator", Some 3);
   ("PercentageFeeHandler", Some 4)]%string.
Definition BlockHashCount : Z := 250.
Definition MaximumBlockLength : Z := 2 * 1024.
Definition AvailableBlockRatio : Z := 1000000000.
Definition MaxLocks : Z := 100.
Definition MinimumPeriod : Z := 1.
Definition system_config (default_length : Z) : SystemConfig :=
  plain_system BlockHashCount default_length 0 2.
Definition ExistentialDeposit : Z := 1.
Definition balances_config : BalancesConfig :=
  {| max_locks := 0; max_reserves := 0; existential_deposit := ExistentialDeposit;
     max_holds := 0; max_freezes := 0 |}.
Definition AssetDeposit : Z := 1.
Definition ApprovalDeposit : Z := 1.
Definition AssetsStringLimit : Z := 50.
Definition MetadataDepositBase : Z := 1.
Definition MetadataDepositPerByte : Z := 1.
Definition assets_config : AssetsConfig :=
  {| asset_deposit := AssetDeposit; asset_account_deposit := 10;
     metadata_deposit_base := MetadataDepositBase;
     metadata_deposit_per_byte := MetadataDepositPerByte; approval_deposit := ApprovalDeposit;
     string_limit := AssetsStringLimit; remove_items_limit := 1000 |}.
End PercentageFeeMock.

Module RouterMock.
Definition construct_runtime : Declarations :=
  [("System", None); ("Assets", None); ("Balances", None); ("AccessSegregator", Some 3);
   ("SygmaBasicFeeHandler", Some 4); ("FeeHandlerRouter", Some 5);
   ("SygamPercenrageFeeHandler", Some 6)]%string.
Definition BlockHashCount : Z := 250.
Definition MaximumBlockLength : Z := 2 * 1024.
Definition AvailableBlockRatio : Z := 1000000000.
Definition MaxLocks : Z := 100.
Definition MinimumPeriod : Z := 1.
Definition system_config (default_length : Z) : SystemConfig :=
  plain_system BlockHashCount default_length 0 2.
Definition ExistentialDeposit : Z := 1.
Definition balances_config : BalancesConfig :=
  {| max_locks := 0; max_reserves := 0; existential_deposit := ExistentialDeposit;
     max_holds := 0; max_freezes := 0 |}.
Definition AssetDeposit : Z := 1.
Definition ApprovalDeposit : Z := 1.
Definition AssetsStringLimit : Z := 50.
Definition MetadataDepositBase : Z := 1.
Definition MetadataDepositPerByte : Z := 1.
Definition assets_config : AssetsConfig :=
  {| asset_deposit := AssetDeposit; asset_account_deposit := 10;
     metadata_deposit_base := MetadataDepositBase;
     metadata_deposit_per_byte := MetadataDepositPerByte; approval_deposit := ApprovalDeposit;
     string_limit := AssetsStringLimit; remove_items_limit := 1000 |}.
End RouterMock.

(** ** The bridge *)

Module BridgeMockFrame.
Definition construct_runtime : Declarations :=
  [("System", None); ("Balances", None); ("Assets", None); ("Timestamp", None);
   ("AccessSegregator", Some 4); ("SygmaBasicFeeHandler", Some 5); ("SygmaBridge", Some 6);
   ("SygmaPercentageFeeHandler", Some 7); ("SygmaFeeHandlerRouter", Some 8)]%string.
Definition BlockHashCount : Z := 250.
Definition MaximumBlockLength : Z := 2 * 1024.
Definition AvailableBlockRatio : Z := 1000000000.
Definition MaxLocks : Z := 100.
Definition MinimumPeriod : Z := 1.
Definition system_config (default_length : Z) : SystemConfig :=
  plain_system BlockHashCount default_length 0 2.
Definition ExistentialDeposit : Z := 1.
Definition UNIT : Z := 1000000000000.
Definition DOLLARS : Z := UNIT.
Definition CENTS : Z := DOLLARS / 100.
Definition MILLICENTS : Z := CENTS / 1000.
Definition balances_config : BalancesConfig :=
  {| max_locks := 0; max_reserves := 0; existential_deposit := ExistentialDeposit;
     max_holds := 0; max_freezes := 0 |}.
Definition AssetDeposit : Z := 0.
Definition AssetAccountDeposit : Z := 0.
Definition ApprovalDeposit : Z := ExistentialDeposit.
Definition AssetsStringLimit : Z := 50.
Definition MetadataDepositBase : Z := 0.
Definition MetadataDepositPerByte : Z := 0.
Definition ExecutiveBody : BodyId := Executive.
Definition assets_config : AssetsConfig :=
  {| asset_deposit := AssetDeposit; asset_account_deposit := AssetAccountDeposit;
     metadata_deposit_base := MetadataDepositBase;
     metadata_deposit_per_byte := MetadataDepositPerByte; approval_deposit := ApprovalDeposit;
     string_limit := AssetsStringLimit; remove_items_limit := 1000 |}.

Definition CheckingAccount : AccountId := replicate 32 102.
Definition RelayNetwork : option NetworkId := Some Polkadot.
Definition AssetsPalletLocation : option MultiLocation :=
  i ← pallet_index construct_runtime "Assets"; Some (loc_of_junction (PalletInstance i)).
Definition LocationToAccountId `{LocationConverters} : Converter :=
  location_to_account_id RelayNetwork.
End BridgeMockFrame.

(** ** The forwarder *)

Module ForwarderMockFrame.
Definition construct_runtime : Declarations :=
  [("System", None); ("Balances", None); ("Assets", None); ("Timestamp", None);
   ("SygmaBridgeForwarder", None); ("ParachainInfo", None)]%string.
Definition BlockHashCount : Z := 250.
Definition MinimumPeriod : Z := 1.
Definition system_config (default_length : Z) : SystemConfig :=
  plain_system BlockHashCount default_length 0 2.
Definition ExistentialDeposit : Z := 1.
Definition balances_config : BalancesConfig :=
  {| max_locks := 0; max_reserves := 0; existential_deposit := ExistentialDeposit;
     max_holds := 1; max_freezes := 1 |}.
Definition AssetDeposit : Z := 0.
Definition AssetAccountDeposit : Z := 0.
Definition ApprovalDeposit : Z := ExistentialDeposit.
Definition AssetsStringLimit : Z := 50.
Definition MetadataDepositBase : Z := 0.
Definition MetadataDepositPerByte : Z := 0.
Definition ExecutiveBody : BodyId := Executive.
Definition assets_config : AssetsConfig :=
  {| asset_deposit := AssetDeposit; asset_account_deposit := AssetAccountDeposit;
     metadata_deposit_base := MetadataDepositBase;
     metadata_deposit_per_byte := MetadataDepositPerByte; approval_deposit := ApprovalDeposit;
     string_limit := AssetsStringLimit; remove_items_limit := 1000 |}.

Definition CheckingAccount : AccountId := replicate 32 102.
Definition RelayNetwork : option NetworkId := Some Rococo.
Definition LocationToAccountId `{LocationConverters} : Converter :=
  location_to_account_id RelayNetwork.
End ForwarderMockFrame.

(** ** The network of the XCM bridge: parachains and relay chain

    The converters, [NativeAsset] and the junction that names a network are the crates'. *)

Module ParaMock.
Section Config.
Context `{LocationConverters} `{OriginConverters} {L : Type}.
Context (NativeAsset : MultiAsset * MultiLocation -> bool) (GlobalConsensus : NetworkId -> Junction)
  (weight_of : Z -> Weight).

Definition construct_runtime : Declarations :=
  [("System", None); ("Balances", None); ("Assets", None); ("ParachainInfo", None);
   ("XcmpQueue", None); ("CumulusXcm", None); ("DmpQueue", None);
   ("SygmaXcmBridge", None)]%string.
Definition system_config (default_length : Z) : SystemConfig :=
  plain_system 250 default_length 20 16.
Definition ExistentialDeposit : Z := 1.
Definition ApprovalDeposit : Z := 1.
Definition AssetsStringLimit : Z := 50.
Definition MetadataDepositBase : Z := 1.
Definition MetadataDepositPerByte : Z := 1.
Definition balances_config : BalancesConfig :=
  {| max_locks := 0; max_reserves := 0; existential_deposit := ExistentialDeposit;
     max_holds := 1; max_freezes := 1 |}.
Definition assets_config : AssetsConfig :=
  {| asset_deposit := ExistentialDeposit; asset_account_deposit := 10;
     metadata_deposit_base := MetadataDepositBase;
     metadata_deposit_per_byte := MetadataDepositPerByte; approval_deposit := ApprovalDeposit;
     string_limit := AssetsStringLimit; remove_items_limit := 5 |}.

Definition RelayChainOrigin : RuntimeOrigin := CumulusRelay.
Definition UnitWeightCost : Weight := weight_of 1.
Definition MaxInstructions : Z := 100.
Definition CheckingAccount : AccountId := replicate 32 102.
Definition UniversalLocation (w : World L) : Junctions :=
  X2 (GlobalConsensus Rococo) (Parachain (parachain_id w)).

Definition XcmOriginToTransactDispatchOrigin : OriginConverter := first_origin [
  SovereignSignedViaLocation (location_to_account_id XcmMock.RelayNetwork);
  RelayChainAsNative RelayChainOrigin;
  SiblingParachainAsNative;
  SignedAccountId32AsNative XcmMock.RelayNetwork].

Definition xcm_barrier : Barrier :=
  Either TakeWeightCredit (Either
    (AllowTopLevelPaidExecutionFrom Everything)
    (AllowUnpaidExecutionFrom Everything)).

Definition XcmConfig (w : World L) : ExecutorConfig := {|
  origin_converter := XcmOriginToTransactDispatchOrigin;
  is_reserve := NativeAsset;
  is_teleporter := XcmConfig.Nothing;
  executor_universal_location := UniversalLocation w;
  barrier := xcm_barrier;
  weigher := {| unit_cost := UnitWeightCost; max_instructions := MaxInstructions |};
  max_assets_into_holding := 64;
  universal_aliases := XcmConfig.Nothing;
  safe_call_filter := Everything;
  aliasers := XcmConfig.Nothing
|}.

(** [ChannelInfo]: every channel is ready, for any number of messages; the tests run on a
    64-bit host. *)
Inductive ChannelStatus := Closed | Full | Ready (max_size max_page : Z).
Definition get_channel_status (_ : Z) : ChannelStatus := Ready 10 10.
Definition get_channel_max (_ : Z) : option Z := Some u64_max.

Definition xcmp_queue_config : QueueConfig := {|
  execute_overweight_origin := ensure_root_origin;
  controller_origin := ensure_root_origin;
  controller_origin_converter := XcmOriginToTransactDispatchOrigin
|}.
Definition dmp_execute_overweight_origin : RuntimeOrigin -> bool := ensure_root_origin.
End Config.
End ParaMock.

Module RelayMock.
Section Config.
Context `{LocationConverters} `{OriginConverters}.
Context (GlobalConsensus : NetworkId -> Junction).

Definition construct_runtime : Declarations :=
  [("System", None); ("Balances", None); ("ParasOrigin", None); ("XcmPallet", None);
   ("MessageQueue", None)]%string.
Definition BlockHashCount : Z := 250.
Definition system_config (default_length : Z) : SystemConfig :=
  plain_system BlockHashCount default_length 0 2.
Definition ExistentialDeposit : Z := 1.
Definition MaxLocks : Z := 50.
Definition MaxReserves : Z := 50.
Definition balances_config : BalancesConfig :=
  {| max_locks := 0; max_reserves := 0; existential_deposit := ExistentialDeposit;
     max_holds := 1; max_freezes := 1 |}.

Definition RooLocation : MultiLocation := loc_here.
Definition RococoNetwork : option NetworkId := Some Rococo.
Definition UniversalLocation : Junctions := X1 (GlobalConsensus Rococo).

Definition SovereignAccountOf : Converter :=
  first_account [ChildParachainConvertsVia; AccountId32Aliases RococoNetwork].

Definition LocalOriginConverter : OriginConverter := first_origin [
  SovereignSignedViaLocation SovereignAccountOf;
  ChildParachainAsNative;
  SignedAccountId32AsNative RococoNetwork].

Definition xcm_barrier : Barrier :=
  Either TakeWeightCredit (AllowTopLevelPaidExecutionFrom Everything).

Definition UnitWeightCost : Weight := from_parts 10 10.
Definition BaseXcmWeight : Weight := from_parts 10 0.
Definition MaxInstructions : Z := 100.
Definition MaxAssetsIntoHolding : Z := 64.
Definition weight_bounds : WeightBounds :=
  {| unit_cost := BaseXcmWeight; max_instructions := MaxInstructions |}.

Definition XcmConfig : ExecutorConfig := {|
  origin_converter := LocalOriginConverter;
  is_reserve := XcmConfig.Nothing;
  is_teleporter := XcmConfig.Nothing;
  executor_universal_location := UniversalLocation;
  barrier := xcm_barrier;
  weigher := weight_bounds;
  max_assets_into_holding := MaxAssetsIntoHolding;
  universal_aliases := XcmConfig.Nothing;
  safe_call_filter := Everything;
  aliasers := XcmConfig.Nothing
|}.

Definition LocalOriginToLocation : RawOrigin -> option MultiLocation :=
  SignedToAccountId32 RococoNetwork.

Definition pallet_xcm_config : PalletXcmConfig := {|
  send_xcm_origin := LocalOriginToLocation;
  execute_xcm_origin := LocalOriginToLocation;
  xcm_execute_filter := Everything;
  xcm_teleport_filter := Everything;
  xcm_reserve_transfer_filter := Everything;
  pallet_weigher := weight_bounds;
  pallet_universal_location := UniversalLocation;
  version_discovery_queue_size := 100;
  sovereign_account_of _ := None;
  max_lockers := 8;
  max_remote_lock_consumers := 0;
  admin_origin := ensure_root
|}.

Definition MessageQueueServiceWeight : Weight := from_parts 1000000000 1000000.
Definition MessageQueueHeapSize : Z := 65536.
Definition MessageQueueMaxStale : Z := 16.

(** [AggregateMessageOrigin::Ump(UmpQueueId::Para(para))], the only origin of a message;
    what is done with the message and the meter is the crate's [ProcessXcmMessage]. *)
Inductive AggregateMessageOrigin := Ump (para : Z).
Definition process_message {Meter R} (process_xcm : bytes -> Junction -> Meter -> bytes -> R)
    (message : bytes) (origin : AggregateMessageOrigin) (meter : Meter) (id : bytes) : R :=
  match origin with Ump para => process_xcm message (Parachain para) meter id end.

(** The relay chain of the network at genesis. *)
Definition relay_ext : gmap AccountId Z := {[ XcmMock.ALICE := XcmMock.ENDOWED_BALANCE ]}.
End Config.
End RelayMock.

(** ** The indices the mocks give their pallets

    Each mock repeats by hand the indices of its [construct_runtime!]: they agree. *)

Lemma access_mock_index :
  pallet_index AccessMock.construct_runtime "AccessSegregator" = Some AccessTests.PalletIndex.
Proof. reflexivity. Qed.

Lemma basic_mock_indices :
  pallet_index BasicFeeMock.construct_runtime "AccessSegregator"
    = Some BasicFeeTests.AccessSegregatorPalletIndex /\
  pallet_index BasicFeeMock.construct_runtime "BasicFeeHandler"
    = Some BasicFeeTests.FeeHandlerPalletIndex.
Proof. split; reflexivity. Qed.

Lemma percentage_mock_indices :
  pallet_index PercentageFeeMock.construct_runtime "AccessSegregator"
    = Some PercentageFeeTests.AccessSegregatorPalletIndex /\
  pallet_index PercentageFeeMock.construct_runtime "PercentageFeeHandler"
    = Some PercentageFeeTests.PercentageFeeHandlerPalletIndex.
Proof. split; reflexivity. Qed.

Lemma router_mock_indices :
  (pallet_index RouterMock.construct_runtime <$>
     ["AccessSegregator"; "SygmaBasicFeeHandler"; "FeeHandlerRouter";
      "SygamPercenrageFeeHandler"]%string)
  = Some <$> [RouterTests.AccessSegregatorPalletIndex; RouterTests.BasicFeeHandlerPalletIndex;
      RouterTests.FeeHandlerRouterPalletIndex; RouterTests.PercentageFeeHandlerPalletIndex].
Proof. reflexivity. Qed.

(** The bridge's mock states its table once more, as a function. *)
Lemma bridge_mock_indices pallet i :
  pallet_index BridgeMockFrame.construct_runtime pallet = Some i ->
  Mock.construct_runtime_index pallet = Some i.
Proof.
  unfold pallet_index. simpl. intros Hi. by repeat case_decide; simplify_eq.
Qed.

Lemma mocks_distinct :
  forallb indices_distinct
    [AccessMock.construct_runtime; BasicFeeMock.construct_runtime;
     PercentageFeeMock.construct_runtime; RouterMock.construct_runtime;
     BridgeMockFrame.construct_runtime; ForwarderMockFrame.construct_runtime;
     ParaMock.construct_runtime; RelayMock.construct_runtime] = true.
Proof. vm_compute. reflexivity. Qed.

(** The relay chain names its children as the children name their siblings, but from its
    own side: a child has its own account there, apart from every local account's alias. *)
Lemma relay_child_account `{LocationConverters} i :
  RelayMock.SovereignAccountOf (ML 0 (X1 (Parachain i))) = Some (child_para_account i).
Proof. unfold RelayMock.SovereignAccountOf. simpl. by rewrite child_converts. Qed.

(** In the mocks anyone runs messages without paying; on the relay chain nobody does. *)
Lemma mock_unpaid l :
  unpaid_from ParaMock.xcm_barrier l = true /\ unpaid_from RelayMock.xcm_barrier l = false.
Proof. done. Qed.
