(* ===== verification/Benchmarks.v ===== *)
(** * The benchmarks of the pallets ([benchmarking.rs] of the bridge, the access
    segregator and the fee pallets)

    A benchmark prepares a state, dispatches the extrinsic it measures, which must
    succeed, and verifies the result.  They run on the standalone runtime, which lists
    them in [define_benchmarks!].  The key pair the host generates is the one of
    [Scenario.v]. *)

From S2P Require Import Prelude Xcm Frame Traits AccessSegregator BasicFeeHandler.
From S2P Require Import PercentageFeeHandler FeeHandlerRouter Encode Eip712 Bridge.
From S2P Require Import RuntimeCommon StandaloneRuntime TestKit Scenario.
#[local] Existing Instances toy_crypto word_abi list_locations toy_codec integer_fixed
  padded_accounts.

(** The standalone runtime over the concrete ledger. *)
Definition standalone_config : BridgeConfig Ledger :=
  Standalone.bridge_config account_ledger error_name.

Module Benchmarks.

#[local] Existing Instances standalone_config.
#[local] Instance standalone_basic : BasicFeeConfig := Standalone.basic_config.
#[local] Instance standalone_percentage : PercentageFeeConfig := Standalone.percentage_config.
#[local] Instance standalone_router : RouterConfig := Standalone.router_config.

Abbreviation Benchmark := (M DispatchError Chain unit).

(** [whitelisted_caller()] *)
Definition caller : AccountId := b_ "whitelisted_caller" ++ replicate 14 0.

(** [.unwrap()] of a call in the set-up, and [#[extrinsic_call]] *)
Definition unwrap (call : Benchmark) : Benchmark := assert_ok call.
Definition extrinsic_call (call : Benchmark) : Benchmark := assert_ok call.

(** [Currency::make_free_balance_be] and [Balances::free_balance] *)
Definition native_id : AssetId := Concrete loc_here.
Definition make_free_balance_be (who : AccountId) (amount : Z) : Benchmark :=
  modify (fun w => set_ledger (<[(who, native_id) := amount]> (ledger w)) w).
Definition free_balance (who : AccountId) (w : Chain) : Z := balance_of (ledger w) who native_id.

Definition paused (d : DomainID) (w : Chain) : bool := is_paused w d.

(** ** The bridge pallet *)

Definition slice_to_generalkey (key : bytes) : outcome DispatchError Junction :=
  RuntimeCommon.slice_to_generalkey key.

Definition pause_bridge_bench : Benchmark :=
  unwrap (register_domain Root 0 1);;
  extrinsic_call (pause_bridge Root 0);;
  assert (paused 0).

Definition unpause_bridge_bench : Benchmark :=
  unwrap (register_domain Root 0 1);;
  unwrap (pause_bridge Root 0);;
  extrinsic_call (unpause_bridge Root 0);;
  assert (fun w => negb (paused 0 w)).

Definition set_mpc_address_bench : Benchmark :=
  let test_mpc_addr := replicate 20 1 in
  extrinsic_call (set_mpc_address Root test_mpc_addr);;
  assert_eq (fun w => MpcAddr (bridge w)) test_mpc_addr.

Definition register_domain_bench : Benchmark :=
  extrinsic_call (register_domain Root 0 1);;
  assert (fun w => dest_domain_supported w 0).

Definition unregister_domain_bench : Benchmark :=
  unwrap (register_domain Root 0 1);;
  extrinsic_call (unregister_domain Root 0 1);;
  assert (fun w => negb (dest_domain_supported w 0)).

(** [deposit], for the account the benchmark takes for the holding account. *)
Definition deposit_bench (bridge_account : AccountId) : Benchmark :=
  let treasury_account := replicate 32 100 in
  let dest_domain_id := 1 in
  let fee := 1000000000000 in
  let amount := 200000000000000 in
  make_free_balance_be caller (amount * 2);;
  unwrap (set_fee Root dest_domain_id native_id fee);;
  unwrap (set_fee_handler Root dest_domain_id native_id BasicFeeHandler);;
  unwrap (register_domain Root dest_domain_id 1);;
  unwrap (set_mpc_address Root (replicate 20 1));;
  extrinsic_call (deposit (Signed caller) (asset_of native_id amount)
    (ML 0 (X2 (general_key (b_ "ethereum recipient")) (general_key [dest_domain_id]))));;
  assert_eq (free_balance caller) amount;;
  assert_eq (free_balance bridge_account) (amount - fee);;
  assert_eq (free_balance treasury_account) fee.

Definition retry_bench : Benchmark :=
  unwrap (register_domain Root 1 1);;
  unwrap (set_mpc_address Root (replicate 20 1));;
  extrinsic_call (retry Root 123 1).

(** The proposal [execute_proposal] repeats [n] times, all under one nonce. *)
Definition native_transfer_proposal : Proposal :=
  {| origin_domain_id := 1; deposit_nonce := 1;
     resource_id := hex "0000000000000000000000000000000000000000000000000000000000000001";
     data := create_deposit_data 200000000000000
       (loc_encode (ML 0 (X1 (AccountId32 None caller)))) |}.

Definition execute_proposal_bench (bridge_account : AccountId) (n : nat) : Benchmark :=
  let amount := 200000000000000 in
  unwrap (set_mpc_address Root mpc_address);;
  make_free_balance_be bridge_account amount;;
  assert_eq (free_balance bridge_account) amount;;
  unwrap (register_domain Root 1 1);;
  let proposals := replicate n native_transfer_proposal in
  let final_message := construct_ecdsa_signing_proposals_data eip712_chain_id
    dest_verifying_contract_address proposals in
  extrinsic_call (execute_proposal Root proposals (sign final_message));;
  assert_eq (free_balance caller) 200000000;;
  assert_eq (free_balance bridge_account) (amount - 200000000).

Definition pause_all_bridges_bench : Benchmark :=
  for_each (fun i => unwrap (register_domain Root i i)) (seqZ 1 2);;
  extrinsic_call (pause_all_bridges Root);;
  for_each (fun i => assert (paused i)) (seqZ 1 2).

Definition unpause_all_bridges_bench : Benchmark :=
  for_each (fun i => unwrap (register_domain Root i i)) (seqZ 1 2);;
  unwrap (set_mpc_address Root (replicate 20 1));;
  for_each (fun i => unwrap (pause_bridge Root i)) (seqZ 1 2);;
  extrinsic_call (unpause_all_bridges Root);;
  for_each (fun i => assert (fun w => negb (paused i w))) (seqZ 1 2).

(** ** The other pallets *)

Definition grant_access_bench : Benchmark :=
  extrinsic_call (grant_access Root 100 (b_ "grant_access") caller);;
  assert_eq (fun w => ExtrinsicAccess w !! (100, b_ "grant_access")) (Some caller).

Definition set_fee_bench : Benchmark :=
  let fee := 1000000000000 in
  extrinsic_call (set_fee Root 1 native_id fee);;
  assert_eq (fun w => AssetFees w !! (1, native_id)) (Some fee).

Definition set_fee_rate_bench : Benchmark :=
  extrinsic_call (set_fee_rate Root 1 native_id 500 0 100000000000000);;
  assert_eq (fun w => AssetFeeRate w !! (1, native_id)) (Some (500, 0, 100000000000000)).

Definition set_fee_handler_bench : Benchmark :=
  extrinsic_call (set_fee_handler Root 1 native_id BasicFeeHandler);;
  assert_eq (fun w => HandlerType w !! (1, native_id)) (Some BasicFeeHandler).

(** ** Results *)

Definition empty_chain : Chain := empty_world ∅.

(** The benchmarks that do not name a holding account verify. *)
Definition plain_benchmarks : list Benchmark := [
  pause_bridge_bench; unpause_bridge_bench; set_mpc_address_bench; register_domain_bench;
  unregister_domain_bench; retry_bench; pause_all_bridges_bench; unpause_all_bridges_bench;
  grant_access_bench; set_fee_bench; set_fee_rate_bench; set_fee_handler_bench].

Lemma plain_benchmarks_pass : forallb (passes empty_chain) plain_benchmarks = true.
Proof. vm_compute. reflexivity. Qed.

(** The account the benchmarks take for the holding account of the native asset; the
    runtime derives it from the pallet id instead. *)
Definition assumed_bridge_account : AccountId := replicate 32 101.

(** With the runtime's account the two remaining benchmarks verify; with the account they
    name they do not. *)
Lemma holding_account_benchmarks :
  passes empty_chain (deposit_bench Standalone.BridgeAccountNative) = true /\
  passes empty_chain (execute_proposal_bench Standalone.BridgeAccountNative 3) = true /\
  passes empty_chain (deposit_bench assumed_bridge_account) = false /\
  passes empty_chain (execute_proposal_bench assumed_bridge_account 3) = false.
Proof. vm_compute. split_and!; reflexivity. Qed.

End Benchmarks.
