(* ===== verification/BridgeProps.v ===== *)
(** * Properties of deposits and executions

    The main theorems of the bridge pallet, each with a run on the concrete chain of
    [Scenario.v] where its hypotheses hold. *)

From S2P Require Import Prelude Xcm Frame Traits AccessSegregator BasicFeeHandler.
From S2P Require Import PercentageFeeHandler FeeHandlerRouter Encode Eip712 Bridge.
From S2P Require Import BridgeNonces BridgeDeposit BridgeExecute BridgeAdmin Conservation.
From S2P Require Import System.

Section Replay.
Context {L : Type} `{BridgeConfig L} `{BasicFeeConfig} `{PercentageFeeConfig}
  `{RouterConfig} `{!TransactorExt L}.
Implicit Types (w : World L) (d : DomainID) (n : DepositNonce).

(** C1: replay protection.  On every state reachable from genesis by any sequence
    of extrinsics, the events report the execution of a (domain, nonce) pair at
    most once, and they report it exactly when the bit field of used nonces says so. *)
Theorem at_most_once_execution l w d n :
  rtc step (empty_world l) w -> 0 <= n ->
  (executions d n (events w) <= 1)%nat /\
  (executions d n (events w) = 1%nat <-> is_proposal_executed w n d = true).
Proof.
  intros Hr Hn. pose proof (inv_executed _ (reachable_inv l w Hr) d n Hn) as He.
  rewrite He. destruct (is_proposal_executed w n d); split; lia || split; done.
Qed.

(** C19: an executed proposal is final.  Along any sequence of extrinsics it stays
    executed, and in every later state a batch that repeats it succeeds without effect but
    one report of failure: with [BridgePaused] while the domain is paused, with
    [DestDomainNotSupported] while it is not registered, else with
    [ProposalAlreadyComplete]. *)
Theorem executed_proposal_is_final w w' p :
  rtc step w w' -> 0 <= deposit_nonce p ->
  is_proposal_executed w (deposit_nonce p) (origin_domain_id p) = true ->
  let reported := add_event (failed_event (ModBridge (
    if is_paused w' (origin_domain_id p) then ErrBridgePaused
    else if negb (dest_domain_supported w' (origin_domain_id p)) then DestDomainNotSupported
    else ProposalAlreadyComplete)) p) w' in
  is_proposal_executed w' (deposit_nonce p) (origin_domain_id p) = true /\
  execute_one p w' = (Ok tt, reported) /\
  (forall o signature, authorised w' [p] signature ->
     execute_proposal o [p] signature w' = (Ok tt, reported)).
Proof.
  intros Hr Hn Hu reported. pose proof (steps_keep_executed _ _ _ _ Hn Hr Hu) as Hu'.
  pose proof (execute_one_refused _ _ _ (executed_refusal _ _ Hu')) as Hone.
  split_and!; [done..|]. intros o signature Ha.
  by apply execute_proposal_authorised; [|apply batch_one].
Qed.

(** C9: deposit nonces.  On every reachable state the [Deposit] events towards a
    domain carry the nonces 0, 1, 2, ... without gap or repetition, up to the stored
    counter, which fits 64 bits. *)
Theorem deposit_nonces_consecutive l w d :
  rtc step (empty_world l) w ->
  is_u u64_max (deposit_count w d) /\
  deposit_nonces d (events w) = seqZ 0 (deposit_count w d).
Proof. intros Hr. exact (inv_deposits _ (reachable_inv l w Hr) d). Qed.

(** The nonce counter cannot wrap.  Once the counter of a domain has reached
    [u64::MAX], a deposit towards the domain never succeeds. *)
Theorem deposit_nonce_exhausted w o asset dest recipient d w' :
  extract_dest dest = Ok (Some (recipient, d)) -> deposit_count w d = u64_max ->
  deposit o asset dest w <> (Ok tt, w').
Proof.
  intros Hd Hc Hr. pose proof (deposit_preserves_ext _ _ _ _ _ _ Hr ltac:(done)) as He.
  apply deposit_ok_effect in Hr as [sender recipient' d' rid amount fee account taken
    converted w1 w2 w3 -> Hmpc Hdest Hp Hs Ha Hf Hlt Hw Hd1 Hacc Hres Hmax Hconv].
  rewrite Hd in Hdest. simplify_eq. pose proof (withdraw_ext _ _ _ _ _ _ Hw ltac:(done)) as E1.
  pose proof (deposit_ext _ _ _ _ _ _ Hd1 ltac:(done)) as E2.
  assert (ext w2 w3) as E3.
  { destruct (contains asset loc_here); [|by subst]. by eapply deposit_ext. }
  pose proof (ext_count _ _ E1 d') as C1. pose proof (ext_count _ _ E2 d') as C2.
  pose proof (ext_count _ _ E3 d') as C3. lia.
Qed.

(** A batch reports every proposal.  An accepted batch appends exactly one
    outcome event per proposal, in the order of the batch, whatever fails. *)
Theorem batch_reports_every_proposal o ps signature w w' :
  execute_proposal o ps signature w = (Ok tt, w') ->
  exists os, outcomes (events w') = outcomes (events w) ++ os /\
    os.*1 = (fun p => (origin_domain_id p, deposit_nonce p)) <$> ps.
Proof.
  intros Hr. apply execute_proposal_cases in Hr as [(_ & _ & Hb)|(e & ? & _)]; [|done..].
  by apply batch_outcomes.
Qed.

(** C20: repetition within a batch.  However often a signed batch repeats a proposal, its
    first occurrence pays and every further one is only reported as
    [ProposalAlreadyComplete]: no asset moves and no storage changes after the first. *)
Theorem repeated_proposal_pays_once o p (n : nat) signature w w1 :
  authorised w (replicate (S n) p) signature -> 0 <= deposit_nonce p ->
  execute_proposal_internal p w = (Ok tt, w1) ->
  execute_proposal o (replicate (S n) p) signature w =
    (Ok tt, reported_complete p n (add_event (executed_event p)
              (mark w1 (deposit_nonce p) (origin_domain_id p)))).
Proof.
  intros Ha Hn Hi. apply execute_proposal_authorised; [done|]. simpl. econstructor.
  - unfold execute_one. rewrite Hi.
    by rewrite (bind_ok _ _ _ _ _ (set_proposal_executed_run _ _ _)).
  - pose proof (ext_statics _ _ (internal_ext _ _ _ _ Hi ltac:(done))) as Hs.
    unfold statics in Hs. apply execute_internal_ok_effect in Hi as [Hp Hd _ _].
    apply batch_repeats.
    + rewrite <- Hp. unfold is_paused. simpl. congruence.
    + rewrite <- Hd. unfold dest_domain_supported. simpl. congruence.
    + change (is_proposal_executed (add_event _ ?x) ?k ?d) with (is_proposal_executed x k d).
      rewrite mark_executed by done. by rewrite bool_decide_eq_true_2.
Qed.
End Replay.

(** The concrete chain; imported here, so that its instances play no part in the
    statements above. *)
From S2P Require Import RuntimeCommon BridgeMock Scenario.
#[local] Existing Instances mock_basic mock_percentage mock_router.

Lemma at_most_once_execution_witness :
  (executions 1 7 (events executed) <= 1)%nat /\
  (executions 1 7 (events executed) = 1%nat <-> is_proposal_executed executed 7 1 = true).
Proof.
  apply (at_most_once_execution genesis_ledger executed 1 7 executed_reachable). lia.
Defined.

Definition executed_again : Chain := run_calls [execute_call [proposal 7; proposal 8]] executed.

(** Once more later, when the domain is paused. *)
Definition executed_paused : Chain := run_calls [(Root, CallPauseBridge 1)] executed_again.

Lemma executed_proposal_is_final_witness :
  (is_proposal_executed executed_again 7 1 = true /\
   execute_proposal Root [proposal 7] (sign (digest [proposal 7])) executed_again =
     (Ok tt, add_event (failed_event (ModBridge ProposalAlreadyComplete) (proposal 7))
               executed_again)) /\
  (is_proposal_executed executed_paused 7 1 = true /\
   execute_proposal Root [proposal 7] (sign (digest [proposal 7])) executed_paused =
     (Ok tt, add_event (failed_event (ModBridge ErrBridgePaused) (proposal 7))
               executed_paused)).
Proof.
  assert (Ha : forall w : Chain, MpcAddr (bridge w) = mpc_address ->
    authorised w [proposal 7] (sign (digest [proposal 7]))).
  { intros w Hm. unfold authorised. rewrite Hm. split_and!; [by vm_compute|done|].
    vm_compute. reflexivity. }
  assert (H1 : rtc step executed executed_again)
    by (apply run_calls_reachable; vm_compute; reflexivity).
  assert (H2 : rtc step executed executed_paused)
    by (etrans; [exact H1|]; apply run_calls_reachable; vm_compute; reflexivity).
  split.
  - destruct (executed_proposal_is_final executed executed_again (proposal 7) H1) as (E & _ & B);
      [by vm_compute|vm_compute; reflexivity|].
    split; [exact E|]. rewrite B by (apply Ha; vm_compute; reflexivity).
    assert (Hp : is_paused executed_again (origin_domain_id (proposal 7)) = false)
      by (vm_compute; reflexivity).
    assert (Hs : dest_domain_supported executed_again (origin_domain_id (proposal 7)) = true)
      by (vm_compute; reflexivity).
    by rewrite Hp, Hs.
  - destruct (executed_proposal_is_final executed executed_paused (proposal 7) H2) as (E & _ & B);
      [by vm_compute|vm_compute; reflexivity|].
    split; [exact E|]. rewrite B by (apply Ha; vm_compute; reflexivity).
    assert (Hp : is_paused executed_paused (origin_domain_id (proposal 7)) = true)
      by (vm_compute; reflexivity).
    by rewrite Hp.
Defined.

Lemma deposit_nonces_consecutive_witness :
  is_u u64_max (deposit_count deposited 1) /\
  deposit_nonces 1 (events deposited) = seqZ 0 (deposit_count deposited 1).
Proof. apply (deposit_nonces_consecutive genesis_ledger). apply deposited_reachable. Defined.

(** The ready chain with the counter of domain 1 at its limit. *)
Definition exhausted : Chain := set_bridge (set_counts <[1 := u64_max]>) ready.

Lemma deposit_nonce_exhausted_witness :
  deposit (Signed Mock.ALICE) (asset_of native 1000000) dest_bob exhausted
  <> (Ok tt, exhausted).
Proof.
  apply (deposit_nonce_exhausted exhausted (Signed Mock.ALICE) (asset_of native 1000000)
    dest_bob (b_ "bob") 1); vm_compute; reflexivity.
Defined.

Lemma batch_reports_every_proposal_witness :
  exists os, outcomes (events executed_again) = outcomes (events executed) ++ os /\
    os.*1 = [(1, 7); (1, 8)].
Proof.
  apply (batch_reports_every_proposal (Signed Mock.BOB) [proposal 7; proposal 8]
    (sign (digest [proposal 7; proposal 8])) executed executed_again).
  unfold executed_again, execute_call. apply run_execute_ok.
  vm_compute. reflexivity.
Defined.

(** Proposal 7, three times in one batch. *)
Definition thrice : list Proposal := replicate 3 (proposal 7).
Definition paid_seven : Chain := (execute_proposal_internal (proposal 7) deposited).2.

Lemma repeated_proposal_pays_once_witness :
  execute_proposal Root thrice (sign (digest thrice)) deposited =
    (Ok tt, reported_complete (proposal 7) 2 (add_event (executed_event (proposal 7))
              (mark paid_seven 7 1))).
Proof.
  refine (repeated_proposal_pays_once Root (proposal 7) 2 (sign (digest thrice)) deposited
    paid_seven _ _ _).
  - split_and!; [vm_compute; congruence|done|vm_compute; reflexivity].
  - vm_compute. congruence.
  - refine (run_result _ (Ok tt) _). vm_compute. reflexivity.
Defined.
