(* ===== verification/DepositProps.v ===== *)
(** * Properties of deposits, proposals and the assets they move *)

From S2P Require Import Prelude Xcm Frame Traits AccessSegregator BasicFeeHandler.
From S2P Require Import PercentageFeeHandler FeeHandlerRouter Encode Eip712 Bridge.
From S2P Require Import BridgeNonces BridgeDeposit BridgeExecute BridgeAdmin Conservation.
From S2P Require Import DepositData System.

Section Deposits.
Context {L : Type} `{BridgeConfig L}.
Implicit Types (w : World L) (d : DomainID) (n : DepositNonce).

(** C2: what a deposit does.  [deposit] succeeds exactly when its relational
    specification [deposit_effect] holds, and in the state the specification names:
    signed sender, MPC address set, domain open, asset bound, fee below the amount,
    the assets moved, the next nonce taken, the [Deposit] and [FeeCollected] events. *)
Theorem deposit_spec w origin asset dest w' :
  deposit origin asset dest w = (Ok tt, w') <-> deposit_effect w origin asset dest w'.
Proof. split; [apply deposit_ok_effect|apply deposit_effect_ok]. Qed.

(** C21: refused deposits.  Each guard of [deposit], in order, returns its own error
    and leaves the state as it was; a deposit that succeeds passed all of them; and a
    deposit that fails later, after assets have moved, is rolled back. *)
Theorem deposit_errors w origin asset dest :
  (forall e, deposit_refusal w origin asset dest = Some e ->
     deposit origin asset dest w = (Err e, w)) /\
  (forall w', deposit origin asset dest w = (Ok tt, w') ->
     deposit_refusal w origin asset dest = None) /\
  (forall e w', deposit origin asset dest w = (Err e, w') -> w' = w).
Proof.
  split_and!; eauto using deposit_refused, deposit_ok_not_refused, deposit_err_unchanged.
Qed.

(** C4: what a proposal does.  [execute_proposal_internal] succeeds exactly when the
    domain is open, the nonce fresh, the resource bound and the data well formed, and
    the reserve (if this chain holds one) is debited and the beneficiary credited with
    the converted amount. *)
Theorem proposal_spec w p w' :
  execute_proposal_internal p w = (Ok tt, w') <-> internal_effect w p w'.
Proof. apply execute_internal_ok_effect. Qed.

(** C22: refused proposals.  A proposal that fails a guard adds one
    [FailedHandlerExecution] event with the error of the first failing guard to the
    state and changes nothing else: paused or unknown domain, used nonce, unbound
    resource, malformed data, unconvertible amount, no reserve account. *)
Theorem proposal_errors w p e :
  proposal_refusal w p = Some e ->
  execute_one p w = (Ok tt, add_event (failed_event e p) w).
Proof. apply execute_one_refused. Qed.

(** C10: used nonces are a set.  [set_proposal_executed] adds one (nonce, domain)
    pair to the set [is_proposal_executed] reads and no other, although 64 nonces
    share a stored word; and the words stay 64-bit numbers. *)
Theorem used_nonces_refine_set w n d w' :
  0 <= n -> used_words_ok w -> set_proposal_executed n d w = (Ok tt, w') ->
  used_words_ok w' /\
  forall n' d', 0 <= n' ->
    is_proposal_executed w' n' d' = true <->
    (n', d') = (n, d) \/ is_proposal_executed w n' d' = true.
Proof.
  intros Hn Hw. rewrite set_proposal_executed_run. intros [= <-].
  split; [by apply mark_words_ok|]. intros n' d' Hn'.
  rewrite mark_executed, orb_true_iff, bool_decide_eq_true by done. done.
Qed.

(** Deposit data round trip.  The data a deposit emits for an amount and an
    encoded location is read back as that amount and location. *)
Theorem deposit_data_roundtrip amount l :
  is_u u128_max amount -> location_wf l -> Z.of_nat (length (loc_encode l)) <= usize_max ->
  extract_deposit_data (create_deposit_data amount (loc_encode l)) = Ok (amount, l).
Proof.
  intros Ha Hl Hn. rewrite extract_created by done.
  rewrite <- (app_nil_r (loc_encode l)), loc_decode_encode by done. done.
Qed.

(** C27: accepted data.  [extract_deposit_data] accepts exactly the byte strings in
    the layout of [create_deposit_data], with a 128-bit amount and a recipient that
    decodes to a location; on all others it fails, and it never panics. *)
Theorem extract_deposit_data_exact data :
  Forall is_byte data ->
  (forall amount l, extract_deposit_data data = Ok (amount, l) <->
     exists recipient, data = create_deposit_data amount recipient /\
       is_u u128_max amount /\ Z.of_nat (length recipient) <= usize_max /\
       loc_decode recipient = Some l) /\
  extract_deposit_data data <> Panic.
Proof.
  intros Hb. split.
  - intros amount l. split; [by apply extract_deposit_data_layout|].
    intros (recipient & -> & Ha & Hl & Hd). rewrite extract_created by done. by rewrite Hd.
  - unfold extract_deposit_data. by repeat case_match.
Qed.
End Deposits.

Section Assets.
Context {L : Type} `{BridgeConfig L} `{!AssetLedger L}.
Implicit Types (w : World L).

(** C5: a deposit conserves assets.  Over a ledger, a successful deposit takes the
    amount from the sender, pays the quoted fee to the fee account and, when this
    chain is the asset's reserve, the rest to the account that holds the asset;
    otherwise the rest is burnt.  No other balance moves. *)
Theorem deposit_moves_assets w sender asset dest w' :
  deposit (Signed sender) asset dest w = (Ok tt, w') ->
  exists recipient d amount fee account,
    extract_dest dest = Ok (Some (recipient, d)) /\
    asset_fun asset = Fungible amount /\ get_fee w d asset = Some fee /\ fee < amount /\
    get_token_reserved_account (asset_id asset) = Some account /\
    forall id a, balance (ledger w') id a =
      balance (ledger w) id a
      - at_entry sender (asset_id asset) id a amount
      + at_entry fee_reserve_account (asset_id asset) id a fee
      + if contains asset loc_here
        then at_entry account (asset_id asset) id a (amount - fee) else 0.
Proof. apply deposit_balances. Qed.

(** C6: an execution conserves assets.  Over a ledger, an executed proposal credits
    the beneficiary with the converted amount and, when this chain is the reserve,
    takes the same amount from the account that holds the asset; otherwise it mints.
    No other balance moves. *)
Theorem execution_moves_assets w p w' :
  execute_proposal_internal p w = (Ok tt, w') ->
  exists aid amount location asset x account beneficiary,
    rid_to_assetid (resource_id p) = Some aid /\
    extract_deposit_data (data p) = Ok (amount, location) /\
    convert_from (asset_of aid amount) = Ok (Some asset) /\ asset_fun asset = Fungible x /\
    get_token_reserved_account aid = Some account /\
    location_account location = Some beneficiary /\
    forall id a, balance (ledger w') id a =
      balance (ledger w) id a
      - (if contains asset loc_here then at_entry account (asset_id asset) id a x else 0)
      + at_entry beneficiary (asset_id asset) id a x.
Proof. apply execution_balances. Qed.

(** C35: a failed execution is not rolled back.  When the reserve has been debited and the
    credit to the beneficiary then fails, the proposal is reported as failed and every
    batch it stands in still succeeds, so that the reserve account keeps the debit and the
    amount is lost.  The proposal passes the same guards as before and the signature still
    holds: it can be submitted again. *)
Theorem failed_execution_loses_reserve w p aid amount location asset x account taken w1 e
    `{!TransactorExt L} :
  is_paused w (origin_domain_id p) = false ->
  dest_domain_supported w (origin_domain_id p) = true ->
  is_proposal_executed w (deposit_nonce p) (origin_domain_id p) = false ->
  rid_to_assetid (resource_id p) = Some aid ->
  extract_deposit_data (data p) = Ok (amount, location) ->
  convert_from (asset_of aid amount) = Ok (Some asset) ->
  asset_fun asset = Fungible x -> get_token_reserved_account aid = Some account ->
  contains asset loc_here = true ->
  withdraw_asset asset (loc_of_account account) None w = (Ok taken, w1) ->
  deposit_asset asset location no_message w1 = (Err e, w1) ->
  let failed := add_event (failed_event (ModBridge TransactFailed) p) w1 in
  execute_one p w = (Ok tt, failed) /\
  (forall o signature ps1 ps2 w0 w2,
     authorised w0 (ps1 ++ p :: ps2) signature -> batch ps1 w0 w -> batch ps2 failed w2 ->
     execute_proposal o (ps1 ++ p :: ps2) signature w0 = (Ok tt, w2)) /\
  balance (ledger failed) account (asset_id asset) =
    balance (ledger w) account (asset_id asset) - x /\
  is_proposal_executed failed (deposit_nonce p) (origin_domain_id p) = false /\
  proposal_refusal failed p = None /\
  (forall ps signature, authorised w ps signature -> authorised failed ps signature).
Proof.
  intros Hp Hs Hf Hr He Hc Hx Ha Hres Hw Hd failed.
  pose proof (ext_statics _ _ (withdraw_ext _ _ _ _ _ _ Hw ltac:(done))) as Hst.
  change (statics w1) with (statics failed) in Hst.
  assert (Hone : execute_one p w = (Ok tt, failed)).
  { unfold execute_one, execute_proposal_internal. run_frame. rewrite Hp. simpl.
    rewrite Hs, Hf. simpl. by rewrite Hr, He, Hc, Ha, Hres, Hw, Hd. }
  split_and!.
  - done.
  - intros o signature ps1 ps2 w0 w2 Hau H1' H2'. apply execute_proposal_authorised; [done|].
    eapply batch_app; [done|]. by econstructor.
  - simpl. rewrite (account_withdraw_moves _ _ _ _ _ _ _ Hx Hw). unfold at_entry.
    by rewrite decide_True.
  - rewrite (is_proposal_executed_ext w failed); [done|]. unfold statics in Hst. congruence.
  - rewrite (statics_refusal w failed) by done. unfold proposal_refusal.
    by rewrite Hp, Hs, Hf, Hr, He, Hc, Ha.
  - intros ps signature. by apply statics_authorised.
Qed.
End Assets.

(** ** The hypotheses hold on the concrete chain *)

(** The concrete chain; imported here, so that its instances play no part in the
    statements above. *)
From S2P Require Import RuntimeCommon BridgeMock Scenario.
#[local] Existing Instances mock_basic mock_percentage mock_router.

Lemma deposit_spec_witness :
  deposit_effect ready (Signed Mock.ALICE) (asset_of native 1000000) dest_bob deposited.
Proof.
  exact (proj1 (deposit_spec ready (Signed Mock.ALICE) (asset_of native 1000000) dest_bob
    deposited) deposited_ok).
Defined.

(** A fee that eats up the amount. *)
Lemma deposit_errors_witness :
  deposit (Signed Mock.ALICE) (asset_of native 100) dest_bob ready =
  (Err (ModBridge FeeTooExpensive), ready).
Proof.
  refine (proj1 (deposit_errors ready (Signed Mock.ALICE) (asset_of native 100) dest_bob)
    (ModBridge FeeTooExpensive) _).
  vm_compute. reflexivity.
Defined.

Lemma proposal_errors_witness :
  execute_one (proposal 7) executed =
  (Ok tt, add_event (failed_event (ModBridge ProposalAlreadyComplete) (proposal 7)) executed).
Proof. apply (proposal_errors executed (proposal 7)). vm_compute. reflexivity. Defined.

Lemma used_nonces_refine_set_witness :
  used_words_ok (mark ready 70 1) /\
  forall n' d', 0 <= n' ->
    is_proposal_executed (mark ready 70 1) n' d' = true <->
    (n', d') = (70, 1) \/ is_proposal_executed ready n' d' = true.
Proof.
  apply (used_nonces_refine_set ready 70 1 (mark ready 70 1)).
  - lia.
  - apply (inv_words _ (reachable_inv _ _ ready_reachable)).
  - apply set_proposal_executed_run.
Defined.

Lemma deposit_data_roundtrip_witness :
  extract_deposit_data (create_deposit_data 12345 (loc_encode (loc_of_account Mock.BOB))) =
  Ok (12345, loc_of_account Mock.BOB).
Proof.
  apply (deposit_data_roundtrip 12345 (loc_of_account Mock.BOB));
    apply (bool_decide_unpack _); vm_compute; exact I.
Defined.

Definition sample_data : bytes := create_deposit_data 5 [0; 0].

Lemma extract_deposit_data_exact_witness :
  (forall amount l, extract_deposit_data sample_data = Ok (amount, l) <->
     exists recipient, sample_data = create_deposit_data amount recipient /\
       is_u u128_max amount /\ Z.of_nat (length recipient) <= usize_max /\
       loc_decode recipient = Some l) /\
  extract_deposit_data sample_data <> Panic.
Proof.
  apply (extract_deposit_data_exact sample_data).
  apply (bool_decide_unpack _). vm_compute. exact I.
Defined.

Lemma deposit_moves_assets_witness :
  let asset := asset_of native 1000000 in
  exists recipient d amount fee account,
    extract_dest dest_bob = Ok (Some (recipient, d)) /\
    asset_fun asset = Fungible amount /\ get_fee ready d asset = Some fee /\ fee < amount /\
    get_token_reserved_account (asset_id asset) = Some account /\
    forall id a, balance (ledger deposited) id a =
      balance (ledger ready) id a
      - at_entry Mock.ALICE (asset_id asset) id a amount
      + at_entry fee_reserve_account (asset_id asset) id a fee
      + if contains asset loc_here
        then at_entry account (asset_id asset) id a (amount - fee) else 0.
Proof.
  exact (deposit_moves_assets ready Mock.ALICE (asset_of native 1000000) dest_bob deposited
    deposited_ok).
Defined.

(** The state after the effect of proposal 7 on the chain that holds the deposit. *)
Definition paid : Chain := (execute_proposal_internal (proposal 7) deposited).2.

Lemma paid_ok : execute_proposal_internal (proposal 7) deposited = (Ok tt, paid).
Proof. refine (run_result _ (Ok tt) _). vm_compute. reflexivity. Qed.

Lemma proposal_spec_witness : internal_effect deposited (proposal 7) paid.
Proof. exact (proj1 (proposal_spec deposited (proposal 7) paid) paid_ok). Defined.

Lemma execution_moves_assets_witness :
  exists aid amount location asset x account beneficiary,
    rid_to_assetid (resource_id (proposal 7)) = Some aid /\
    extract_deposit_data (data (proposal 7)) = Ok (amount, location) /\
    convert_from (asset_of aid amount) = Ok (Some asset) /\ asset_fun asset = Fungible x /\
    get_token_reserved_account aid = Some account /\
    location_account location = Some beneficiary /\
    forall id a, balance (ledger paid) id a =
      balance (ledger deposited) id a
      - (if contains asset loc_here then at_entry account (asset_id asset) id a x else 0)
      + at_entry beneficiary (asset_id asset) id a x.
Proof. exact (execution_moves_assets deposited (proposal 7) paid paid_ok). Defined.

(** A proposal whose beneficiary is no account of the ledger. *)
Definition lost_proposal : Proposal :=
  {| origin_domain_id := 1; deposit_nonce := 9; resource_id := Mock.NativeResourceId;
     data := create_deposit_data 200000000000 (loc_encode loc_parent) |}.
Definition reserve_debited : Chain :=
  (withdraw_asset (TransactAsset := asset_transactor) (asset_of native 200000) (loc_of_account reserve_native) None
     deposited).2.

Lemma reserve_debited_ok :
  withdraw_asset (TransactAsset := asset_transactor) (asset_of native 200000) (loc_of_account reserve_native) None
    deposited = (Ok [asset_of native 200000], reserve_debited).
Proof. refine (run_result _ (Ok _) _). vm_compute. reflexivity. Qed.

Lemma parent_not_credited (w : Chain) :
  deposit_asset (TransactAsset := asset_transactor) (asset_of native 200000) loc_parent no_message w = (Err (OtherXcmError 2), w).
Proof. reflexivity. Qed.

Definition lost : Chain :=
  add_event (failed_event (ModBridge TransactFailed) lost_proposal) reserve_debited.

(** The batch of this one proposal runs, and could be submitted again. *)
Lemma failed_execution_loses_reserve_witness :
  execute_proposal Root [lost_proposal] (sign (digest [lost_proposal])) deposited = (Ok tt, lost) /\
  balance (ledger lost) reserve_native native =
    balance (ledger deposited) reserve_native native - 200000 /\
  proposal_refusal lost lost_proposal = None /\
  authorised lost [lost_proposal] (sign (digest [lost_proposal])).
Proof.
  assert (Ha : authorised deposited [lost_proposal] (sign (digest [lost_proposal]))).
  { split_and!; [by vm_compute|done|]. vm_compute. reflexivity. }
  pose proof (failed_execution_loses_reserve deposited lost_proposal native 200000000000 loc_parent
    (asset_of native 200000) 200000 reserve_native [asset_of native 200000]
    reserve_debited (OtherXcmError 2) ltac:(vm_compute; reflexivity)
    ltac:(vm_compute; reflexivity) ltac:(vm_compute; reflexivity) ltac:(vm_compute; reflexivity)
    ltac:(vm_compute; reflexivity) ltac:(vm_compute; reflexivity) eq_refl
    ltac:(vm_compute; reflexivity) ltac:(vm_compute; reflexivity)
    reserve_debited_ok (parent_not_credited _)) as (_ & Hb & Hl & _ & Hr & Hs).
  split; [|split; [exact Hl|split; [exact Hr|exact (Hs _ _ Ha)]]].
  exact (Hb Root _ [] [] deposited lost Ha (batch_nil _) (batch_nil _)).
Defined.
