(* ===== verification/SigningProps.v ===== *)
(** * Properties of signing and authorisation *)

From S2P Require Import Prelude Xcm Frame Traits AccessSegregator BasicFeeHandler.
From S2P Require Import PercentageFeeHandler FeeHandlerRouter Encode Eip712 SigningFacts.
From S2P Require Import Bridge BridgeNonces BridgeDeposit BridgeExecute System.

(** Packed integers.  [encode_packed] lays its items side by side; a 256-bit
    number, which the code splits in four 64-bit limbs, takes its 32 big-endian bytes,
    and with [TakeLastXBytes] of [bits] the last [bits / 8] of them. *)
Lemma packed_encoding items n bits :
  0 <= bits <= 256 ->
  encode_packed items = concat (pack <$> items) /\
  pack (SNumber n) = to_be 32 n /\
  pack (SNumberWithShift n bits) = drop (Z.to_nat (32 - bits / 8)) (to_be 32 n).
Proof.
  intros Hb. split_and!;
    [apply encode_packed_concat|apply pack_number|by apply pack_number_with_shift].
Qed.

Section Digest.
Context `{Crypto} `{EthAbi} (eip712_chain_id : ChainID) (verifying_contract : bytes).

(** C7: the digest is the EIP-712 digest.  For well-formed proposals the loops and
    token lists of [construct_ecdsa_signing_proposals_data] compute
    [keccak(0x1901 | domainSeparator | hashStruct(Proposals))] as the standard
    defines it, field by field. *)
Theorem digest_is_eip712 ps :
  is_u u256_max eip712_chain_id -> is_array 20 verifying_contract ->
  ps <> [] -> Forall proposal_wf ps ->
  construct_ecdsa_signing_proposals_data eip712_chain_id verifying_contract ps =
  spec_digest eip712_chain_id verifying_contract ps.
Proof. apply construct_spec. Qed.

(** C8: a signature binds the batch.  Two batches with the same digest are equal,
    proposal by proposal and in order, unless two of the strings hashed for them,
    which the theorem exhibits, are different and have the same Keccak hash. *)
Theorem digest_binds_batch ps qs :
  is_u u256_max eip712_chain_id -> is_array 20 verifying_contract ->
  ps <> [] -> qs <> [] -> Forall proposal_wf ps -> Forall proposal_wf qs ->
  construct_ecdsa_signing_proposals_data eip712_chain_id verifying_contract ps =
  construct_ecdsa_signing_proposals_data eip712_chain_id verifying_contract qs ->
  ps = qs \/
  exists x y, x ∈ digest_preimages eip712_chain_id verifying_contract ps /\
    y ∈ digest_preimages eip712_chain_id verifying_contract qs /\
    x <> y /\ keccak_256 x = keccak_256 y.
Proof.
  intros Hc Hv Hp Hq Wp Wq. rewrite !construct_spec by done. intros Hd.
  destruct (collision_or_free
    (digest_preimages eip712_chain_id verifying_contract ps)
    (digest_preimages eip712_chain_id verifying_contract qs)) as [Hf|Hx]; [|by right].
  left. by eapply digest_inj.
Qed.
End Digest.

Section Authorisation.
Context {L : Type} `{BridgeConfig L}.
Implicit Types (w : World L).

(** Signature check.  A message counts as signed by the MPC address exactly when
    the signature has 65 bytes, a public key is recovered from it, and the last 20
    bytes of the key's Keccak hash are the address. *)
Lemma mpc_signature_check addr message signature :
  verify_by_mpc_address addr message signature = true <->
  length signature = 65%nat /\
  exists key, secp256k1_ecdsa_recover signature message = Some key /\
    addr = drop 12 (keccak_256 key).
Proof.
  assert (Ht : forall key, public_key_to_address key = drop 12 (keccak_256 key)).
  { intros key. unfold public_key_to_address, slice. apply take_ge.
    rewrite length_drop, keccak_length. lia. }
  unfold verify_by_mpc_address. destruct (Nat.eqb_spec (length signature) 65); [|naive_solver].
  destruct (secp256k1_ecdsa_recover signature message) as [key|]; [|naive_solver].
  rewrite bool_decide_eq_true, Ht. naive_solver.
Qed.

(** C3: only signed batches run.  When an MPC address is set, the batch is not empty
    and the signature over its digest is the MPC address's, [execute_proposal] succeeds
    exactly with the effect of the proposals one after the other, never returns an
    error, and panics only if one of the proposals does; otherwise it returns the error
    of the first condition that fails and changes nothing. *)
Theorem only_signed_batches_run o ps signature w :
  (authorised w ps signature ->
     (forall w', execute_proposal o ps signature w = (Ok tt, w') <-> batch ps w w') /\
     (forall e w', execute_proposal o ps signature w <> (Err e, w')) /\
     (forall w', execute_proposal o ps signature w = (Panic, w') ->
        exists ps1 p ps2 w1, ps = ps1 ++ p :: ps2 /\ batch ps1 w w1 /\
          (execute_one p w1).1 = Panic)) /\
  (~ authorised w ps signature ->
     execute_proposal o ps signature w =
     (Err (ModBridge
        (if is_clear (MpcAddr (bridge w)) then MissingMpcAddress
         else if bool_decide (ps = []) then EmptyProposalList else BadMpcSignature)), w)).
Proof.
  split; [|apply execute_proposal_unauthorised]. intros Ha. split_and!.
  - split; [|by apply execute_proposal_authorised].
    intros Hr. by apply execute_proposal_cases in Hr as [(_ & _ & Hb)|(e & ? & _)].
  - intros e w' Hr. by apply execute_proposal_cases in Hr as [(? & _)|(e' & _ & _ & Hn)].
  - intros w'. by apply execute_proposal_panics.
Qed.
End Authorisation.

(** ** The hypotheses hold for concrete batches *)

From S2P Require Import RuntimeCommon BridgeMock Scenario.

Lemma digest_is_eip712_witness :
  construct_ecdsa_signing_proposals_data 5 Mock.DestVerifyingContractAddress
    [proposal 7; proposal 8] =
  spec_digest 5 Mock.DestVerifyingContractAddress [proposal 7; proposal 8].
Proof.
  apply (digest_is_eip712 5 Mock.DestVerifyingContractAddress [proposal 7; proposal 8]).
  - apply (bool_decide_unpack _). vm_compute. exact I.
  - apply (bool_decide_unpack _). vm_compute. exact I.
  - done.
  - apply (bool_decide_unpack _). vm_compute. exact I.
Defined.

Lemma digest_binds_batch_witness :
  let ps := [proposal 7; proposal 8] in
  ps = ps \/
  exists x y, x ∈ digest_preimages 5 Mock.DestVerifyingContractAddress ps /\
    y ∈ digest_preimages 5 Mock.DestVerifyingContractAddress ps /\
    x <> y /\ keccak_256 x = keccak_256 y.
Proof.
  apply (digest_binds_batch 5 Mock.DestVerifyingContractAddress [proposal 7; proposal 8]).
  - apply (bool_decide_unpack _). vm_compute. exact I.
  - apply (bool_decide_unpack _). vm_compute. exact I.
  - done.
  - done.
  - apply (bool_decide_unpack _). vm_compute. exact I.
  - apply (bool_decide_unpack _). vm_compute. exact I.
  - reflexivity.
Defined.

(** A batch of two on the chain that holds the deposit; the same batch under a
    signature that is too short. *)
Lemma only_signed_batches_run_witness :
  let ps := [proposal 7; proposal 8] in
  (exists w', batch ps deposited w') /\
  execute_proposal (Signed Mock.BOB) ps [0] deposited =
    (Err (ModBridge BadMpcSignature), deposited).
Proof.
  split.
  - eexists. refine (proj1 (proj1 (proj1 (only_signed_batches_run (Signed Mock.BOB)
      [proposal 7; proposal 8] (sign (digest [proposal 7; proposal 8])) deposited) _) _)
      (run_result _ (Ok tt) _)); [|vm_compute; reflexivity].
    split_and!; [vm_compute; discriminate|done|vm_compute; reflexivity].
  - refine (eq_trans (proj2 (only_signed_batches_run (Signed Mock.BOB)
      [proposal 7; proposal 8] [0] deposited) _) _).
    + intros (_ & _ & Hv). vm_compute in Hv. discriminate.
    + assert (is_clear (MpcAddr (bridge deposited)) = false) as ->
        by (vm_compute; reflexivity). done.
Defined.
