(* ===== verification/AdminProps.v ===== *)
(** * Properties of access control and administration *)

From S2P Require Import Prelude Xcm Frame Traits AccessSegregator BasicFeeHandler.
From S2P Require Import PercentageFeeHandler FeeHandlerRouter Encode Eip712 Bridge.
From S2P Require Import BridgeNonces BridgeDeposit BridgeExecute BridgeAdmin System.

Section Access.
Context {L : Type} `{BridgeConfig L} `{BasicFeeConfig} `{PercentageFeeConfig}
  `{RouterConfig}.
Implicit Types (w : World L) (o : RawOrigin) (d : DomainID).

(** C24: guarded calls are refused.  Every administrative extrinsic of the five
    pallets, called by an origin that is neither the committee nor the one account
    granted that extrinsic, returns its pallet's access error and changes nothing. *)
Theorem unauthorised_call_refused o c w i n :
  required c = Some (i, n) -> ~ may_call w i n o ->
  dispatch o c w = (Err (denial c), w).
Proof.
  intros Hq Hm. eapply dispatch_guarded; [done|].
  rewrite <- has_access_may_call in Hm. by apply not_true_is_false.
Qed.

(** C23: administration needs a right.  If any extrinsic whatsoever changes the access
    table, the fee tables, the pauses, the MPC address or the registered domains,
    then it is a guarded call and its origin held the right to it. *)
Theorem admin_change_needs_right o c w r w' `{!TransactorExt L} :
  dispatch o c w = (r, w') -> r <> Panic -> admin_state w' <> admin_state w ->
  exists i n, required c = Some (i, n) /\ may_call w i n o.
Proof.
  intros Hr Hnp Hne. destruct (required c) as [[i n]|] eqn:Hq.
  - exists i, n. split; [done|]. destruct (decide (may_call w i n o)) as [|Hm]; [done|].
    destruct Hne. rewrite (dispatch_guarded o c w i n Hq) in Hr; [by simplify_eq|].
    rewrite <- has_access_may_call in Hm. by apply not_true_is_false.
  - destruct Hne. by eapply open_call_admin_state.
Qed.

(** A grant is exclusive.  After [grant_access] of a registered extrinsic to an
    account, a signed caller outside the committee has access to that extrinsic
    exactly when it is that account, and access to every other extrinsic is as
    before. *)
Theorem grant_is_exclusive o i n who w w' caller :
  grant_access o i n who w = (Ok tt, w') -> (i, n) ∈ extrinsics ->
  bridge_committee_origin (Signed caller) = false ->
  (has_access w' i n (Signed caller) = true <-> caller = who) /\
  forall i' n' o', (i', n') <> (i, n) -> has_access w' i' n' o' = has_access w i' n' o'.
Proof.
  rewrite grant_access_run. case_match; [|done]. intros [= <-] Hreg Hc. split.
  - rewrite has_access_may_call. unfold may_call. rewrite Hc. simpl.
    rewrite lookup_insert_eq. split; [intros [?|(x & [= ->] & _ & [= ->])]; done|].
    intros ->. right. by exists who.
  - intros i' n' o' Hne. unfold has_access. simpl. by rewrite lookup_insert_ne.
Qed.

(** C25: the MPC address is written once.  No sequence of extrinsics changes an MPC
    address that is set. *)
Theorem mpc_address_write_once w w' `{!TransactorExt L} :
  rtc step w w' -> MpcAddr (bridge w) <> mpc_default ->
  MpcAddr (bridge w') = MpcAddr (bridge w).
Proof.
  intros Hr Hm. induction Hr as [|w w1 w2 Hs _ IH]; [done|].
  pose proof (step_mpc w w1 Hs Hm) as E. rewrite IH; [done|]. by rewrite E.
Qed.
End Access.

Section Pauses.
Context {L : Type} `{BridgeConfig L}.
Implicit Types (w : World L) (o : RawOrigin) (d : DomainID).

Lemma set_all_false_unpaused b d : get_or false (set_all false b) d = false.
Proof. unfold get_or. rewrite set_all_lookup. by case_decide. Qed.

(** Setting the MPC address opens the bridge.  [set_mpc_address] succeeds only
    while no address is set, stores the address, and leaves no domain paused. *)
Theorem set_mpc_address_opens o addr w w' :
  set_mpc_address o addr w = (Ok tt, w') ->
  MpcAddr (bridge w) = mpc_default /\ MpcAddr (bridge w') = addr /\
  forall d, is_paused w' d = false.
Proof.
  rewrite set_mpc_address_run. repeat case_match; try done. intros [= <-].
  split_and!; [|done|intros d; apply set_all_false_unpaused].
  match goal with Hb : negb (is_clear _) = false |- _ => rewrite negb_false_iff in Hb;
    unfold is_clear in Hb; by apply bool_decide_eq_true in Hb end.
Qed.

(** C26: pausing everything stops everything.  After [pause_all_bridges], every
    supported domain is paused: deposits and retries towards it are refused with
    [BridgePaused] and a proposal from it is only reported as failed. *)
Theorem pause_all_stops_bridge o w w' d :
  pause_all_bridges o w = (Ok tt, w') -> dest_domain_supported w' d = true ->
  is_paused w' d = true /\
  (forall sender asset dest recipient, is_clear (MpcAddr (bridge w')) = false ->
     extract_dest dest = Ok (Some (recipient, d)) ->
     deposit (Signed sender) asset dest w' = (Err (ModBridge ErrBridgePaused), w')) /\
  (forall p, origin_domain_id p = d ->
     execute_one p w' =
     (Ok tt, add_event (failed_event (ModBridge ErrBridgePaused) p) w')).
Proof.
  rewrite pause_all_bridges_run. case_match; [done|]. intros [= <-] Hs.
  assert (Hp : is_paused (add_event (EvBridge (AllBridgePaused (event_sender o)))
    (set_bridge (fun b => set_paused (fun _ => set_all true b) b) w)) d = true).
  { unfold is_paused, get_or. simpl. rewrite set_all_lookup.
    unfold dest_domain_supported, get_or in Hs. simpl in Hs.
    rewrite decide_True; [done|]. left. apply elem_of_dom.
    by destruct (DestDomainIds (bridge w) !! d). }
  split_and!; [done| |].
  - intros sender asset dest recipient Hm Hd. apply deposit_refused.
    unfold deposit_refusal. simpl. simpl in Hm. by rewrite Hm, Hd, Hp.
  - intros p <-. apply execute_one_refused. unfold proposal_refusal. by rewrite Hp.
Qed.

(** The pause loops do not depend on the order of the storage.  Whatever order
    [iter_keys] yields the stored domains in, the loops of [pause_all_domains] and
    [unpause_all_domains] leave the same map: the value for every domain that is
    registered or has an entry, and no entry otherwise. *)
Lemma pause_loops_order_free v b (ks ks' : list DomainID) d :
  ks ≡ₚ iter_keys (DestDomainIds b) ->
  ks' ≡ₚ iter_keys (insert_all v ks (IsPaused b)) ->
  insert_all v ks' (insert_all v ks (IsPaused b)) = set_all v b /\
  set_all v b !! d =
    if decide (d ∈ dom (DestDomainIds b) \/ d ∈ dom (IsPaused b)) then Some v else None.
Proof.
  intros Hk Hk'. split; [|apply set_all_lookup]. unfold set_all.
  rewrite (insert_all_order v ks _ (IsPaused b) Hk) in *.
  by apply insert_all_order.
Qed.
End Pauses.

Section Domains.
Context {L : Type} `{BridgeConfig L} `{BasicFeeConfig} `{PercentageFeeConfig}
  `{RouterConfig} `{!TransactorExt L}.
Implicit Types (w : World L) (o : RawOrigin) (d : DomainID).

(** Domains and chain ids go together.  On every reachable state a domain is
    supported exactly when a chain id is stored for it, so the [unwrap] of
    [unregister_domain] never panics, and the committee can unregister a domain with
    its chain id and with no other. *)
Theorem domains_have_chain_ids l w d c o :
  rtc step (empty_world l) w ->
  (dest_domain_supported w d = true <-> is_Some (DestChainIds (bridge w) !! d)) /\
  (forall w', unregister_domain o d c w <> (Panic, w')) /\
  (bridge_committee_origin o = true ->
     (unregister_domain o d c w).1 = Ok tt <-> DestChainIds (bridge w) !! d = Some c).
Proof.
  intros Hr. pose proof (inv_domains _ (reachable_inv l w Hr)) as Hd.
  pose proof (domains_ok_supported w d Hd) as Hs. split_and!.
  - by rewrite Hs, bool_decide_eq_true.
  - intros w'. rewrite unregister_domain_run. by repeat case_match.
  - intros Hc. rewrite unregister_domain_run.
    unfold bridge_access_ok, has_access. rewrite Hc. simpl.
    destruct (DestChainIds (bridge w) !! d) as [c'|] eqn:Hl; [|done].
    rewrite Hs, bool_decide_eq_true_2 by by eexists. simpl.
    destruct (Z.eqb_spec c' c); simpl; split; congruence.
Qed.

(** Registering and unregistering cancel.  Registering a new domain makes it
    supported; unregistering it with the same chain id restores the two domain maps
    as they were. *)
Lemma register_unregister o d c w w1 w2 :
  DestDomainIds (bridge w) !! d = None -> DestChainIds (bridge w) !! d = None ->
  register_domain o d c w = (Ok tt, w1) -> unregister_domain o d c w1 = (Ok tt, w2) ->
  dest_domain_supported w1 d = true /\
  DestDomainIds (bridge w2) = DestDomainIds (bridge w) /\
  DestChainIds (bridge w2) = DestChainIds (bridge w).
Proof.
  intros Hd Hc. rewrite register_domain_run. case_match; [done|]. intros [= <-].
  rewrite unregister_domain_run. repeat case_match; try done. intros [= <-].
  split_and!; simpl.
  - unfold dest_domain_supported, get_or. simpl. by rewrite lookup_insert_eq.
  - by rewrite delete_insert_id.
  - by rewrite delete_insert_id.
Qed.
End Domains.

(** ** The hypotheses hold on the concrete chain *)

From S2P Require Import RuntimeCommon BridgeMock Scenario.
#[local] Existing Instances mock_basic mock_percentage mock_router.

Lemma unauthorised_call_refused_witness :
  dispatch (Signed Mock.ALICE) (CallPauseBridge 1) ready =
  (Err (ModBridge AccessDenied), ready).
Proof.
  apply (unauthorised_call_refused (Signed Mock.ALICE) (CallPauseBridge 1) ready
    Mock.BridgePalletIndex (b_ "pause_bridge")).
  - reflexivity.
  - apply (bool_decide_unpack _). vm_compute. exact I.
Defined.

Definition paused_chain : Chain := run_calls [(Root, CallPauseBridge 1)] ready.

Lemma paused_ok : dispatch Root (CallPauseBridge 1) ready = (Ok tt, paused_chain).
Proof. apply run_call_ok. vm_compute. reflexivity. Qed.

Lemma admin_change_needs_right_witness :
  exists i n, required (CallPauseBridge 1) = Some (i, n) /\ may_call ready i n Root.
Proof.
  refine (admin_change_needs_right Root (CallPauseBridge 1) ready (Ok tt) paused_chain
    paused_ok _ _); [done|].
  intros He. assert (Hi : IsPaused (bridge paused_chain) !! 1 = IsPaused (bridge ready) !! 1)
    by (unfold admin_state in He; congruence).
  vm_compute in Hi. discriminate.
Defined.

Definition granted : Chain :=
  run_calls [(Root, CallGrantAccess Mock.BridgePalletIndex (b_ "pause_bridge") Mock.ALICE)] ready.

Lemma granted_ok :
  grant_access Root Mock.BridgePalletIndex (b_ "pause_bridge") Mock.ALICE ready =
  (Ok tt, granted).
Proof.
  exact (run_call_ok Root (CallGrantAccess Mock.BridgePalletIndex (b_ "pause_bridge") Mock.ALICE)
    ready ltac:(vm_compute; reflexivity)).
Qed.

Lemma grant_is_exclusive_witness :
  (has_access granted Mock.BridgePalletIndex (b_ "pause_bridge") (Signed Mock.BOB) = true <->
   Mock.BOB = Mock.ALICE) /\
  forall i' n' o', (i', n') <> (Mock.BridgePalletIndex, b_ "pause_bridge") ->
    has_access granted i' n' o' = has_access ready i' n' o'.
Proof.
  refine (grant_is_exclusive Root Mock.BridgePalletIndex (b_ "pause_bridge") Mock.ALICE ready
    granted Mock.BOB granted_ok _ _); [|reflexivity].
  apply (bool_decide_unpack _). vm_compute. exact I.
Defined.

Lemma mpc_address_write_once_witness :
  MpcAddr (bridge deposited) = MpcAddr (bridge ready).
Proof.
  apply (mpc_address_write_once ready deposited).
  - apply run_calls_reachable. vm_compute. reflexivity.
  - vm_compute. discriminate.
Defined.

(** A chain on which domain 1 is registered and paused and no MPC address is set. *)
Definition unset_chain : Chain :=
  run_calls [(Root, CallRegisterDomain 1 1); (Root, CallPauseBridge 1)] new_test_ext.
Definition opened : Chain := run_calls [(Root, CallSetMpcAddress mpc_address)] unset_chain.

Lemma opened_ok : set_mpc_address Root mpc_address unset_chain = (Ok tt, opened).
Proof.
  exact (run_call_ok Root (CallSetMpcAddress mpc_address) unset_chain
    ltac:(vm_compute; reflexivity)).
Qed.

Lemma set_mpc_address_opens_witness :
  MpcAddr (bridge unset_chain) = mpc_default /\ MpcAddr (bridge opened) = mpc_address /\
  forall d, is_paused opened d = false.
Proof. exact (set_mpc_address_opens Root mpc_address unset_chain opened opened_ok). Defined.

Definition stopped : Chain := run_calls [(Root, CallPauseAllBridges)] ready.

Lemma stopped_ok : pause_all_bridges Root ready = (Ok tt, stopped).
Proof. exact (run_call_ok Root CallPauseAllBridges ready ltac:(vm_compute; reflexivity)). Qed.

Lemma pause_all_stops_bridge_witness :
  is_paused stopped 1 = true /\
  (forall sender asset dest recipient, is_clear (MpcAddr (bridge stopped)) = false ->
     extract_dest dest = Ok (Some (recipient, 1)) ->
     deposit (Signed sender) asset dest stopped = (Err (ModBridge ErrBridgePaused), stopped)) /\
  (forall p, origin_domain_id p = 1 ->
     execute_one p stopped =
     (Ok tt, add_event (failed_event (ModBridge ErrBridgePaused) p) stopped)).
Proof.
  refine (pause_all_stops_bridge Root ready stopped 1 stopped_ok _). vm_compute. reflexivity.
Defined.

Lemma domains_have_chain_ids_witness :
  (dest_domain_supported ready 1 = true <-> is_Some (DestChainIds (bridge ready) !! 1)) /\
  (forall w', unregister_domain Root 1 1 ready <> (Panic, w')) /\
  (bridge_committee_origin Root = true ->
     (unregister_domain Root 1 1 ready).1 = Ok tt <-> DestChainIds (bridge ready) !! 1 = Some 1).
Proof. exact (domains_have_chain_ids genesis_ledger ready 1 1 Root ready_reachable). Defined.
