(* ===== verification/FeeProps.v ===== *)
(** * Properties of fees and of the decimal conversion *)

From S2P Require Import Prelude Xcm Frame Traits AccessSegregator BasicFeeHandler.
From S2P Require Import PercentageFeeHandler FeeHandlerRouter Encode Eip712 Bridge.
From S2P Require Import BridgeNonces BridgeDeposit BridgeExecute BridgeAdmin System.
From S2P Require Import DecimalConverter.

Section Fees.
Context {L : Type} `{BridgeConfig L} `{BasicFeeConfig} `{PercentageFeeConfig}
  `{RouterConfig}.
Implicit Types (w : World L) (d : DomainID) (a : AssetId).

(** C28: percentage fees.  On every reachable state a stored rate is below 100% and its
    bounds are ordered.  For every amount and rate, unsigned numbers both, a fee is quoted: the rate's share, of a product
    that saturates at [u128::MAX] instead of wrapping, rounded down and clamped to the
    bounds.  Where the product fits 128 bits this is the exact share, and it is never more;
    the quote is within the bounds and grows with the amount. *)
Theorem percentage_fee l w d a rate lo hi x y `{!TransactorExt L} :
  rtc step (empty_world l) w -> AssetFeeRate w !! (d, a) = Some (rate, lo, hi) ->
  0 <= rate -> 0 <= x <= y ->
  rate < 10000 /\ lo < hi /\
  exists fx fy,
    percentage_get_fee w d (asset_of a x) = Some fx /\
    percentage_get_fee w d (asset_of a y) = Some fy /\
    fx = clamp lo hi (Z.min u128_max (x * rate) / 10000) /\
    (x * rate <= u128_max -> fx = clamp lo hi (x * rate / 10000)) /\
    (u128_max <= x * rate -> fx = clamp lo hi (u128_max / 10000)) /\
    fx <= clamp lo hi (x * rate / 10000) /\
    lo <= fx <= fy /\ fy <= hi.
Proof.
  intros Hr Ha Hrate Hxy.
  destruct (inv_rates _ (reachable_inv l w Hr) _ _ Ha) as [Hlt Hb]. split_and!; [done..|].
  do 2 eexists. rewrite !(percentage_get_fee_clamp w d a _ rate lo hi) by (done || lia).
  split_and!; try done.
  - intros Hx. by rewrite Z.min_r.
  - intros Hx. by rewrite Z.min_l.
  - apply clamp_mono, Z.div_le_mono; lia.
  - apply clamp_range. lia.
  - apply clamp_mono, Z.div_le_mono; nia.
  - apply clamp_range. lia.
Qed.

(** Configured fees are quoted.  Setting a basic fee and routing a (domain,
    asset) pair to it makes the router quote exactly that fee for every amount of
    the asset; quotes for all other pairs stay; and a pair routed to the dynamic
    handler, or to none, has no quote. *)
Theorem configured_fee_is_quoted o1 o2 d a fee w w1 w2 :
  set_fee o1 d a fee w = (Ok tt, w1) ->
  set_fee_handler o2 d a BasicFeeHandler w1 = (Ok tt, w2) ->
  (forall asset, asset_id asset = a -> router_get_fee w2 d asset = Some fee) /\
  (forall d' asset, (d', asset_id asset) <> (d, a) ->
     router_get_fee w2 d' asset = router_get_fee w d' asset) /\
  (forall d' asset, HandlerType w !! (d', asset_id asset) = None \/
                    HandlerType w !! (d', asset_id asset) = Some DynamicFeeHandler ->
     router_get_fee w d' asset = None).
Proof.
  rewrite set_fee_run. case_match; [|done]. intros [= <-].
  rewrite set_fee_handler_run. case_match; [|done]. intros [= <-].
  unfold router_get_fee, basic_get_fee, percentage_get_fee. simpl. split_and!.
  - intros asset <-. by rewrite !lookup_insert_eq.
  - intros d' asset Hne. by rewrite !lookup_insert_ne.
  - intros d' asset [-> | ->]; done.
Qed.
End Fees.

Section Decimals.
Context `{FixedU112F16} (decimal_pairs : list (AssetId * Z)).

(** Conversion to 18 decimals.  For an asset of the table and an amount that the
    fixed-point type holds, the amount is scaled exactly: unchanged at 18 decimals,
    multiplied up to the largest representable amount below 18, divided and rounded
    down above 18, where an amount that rounds to zero is refused. *)
Theorem convert_to_exact a x decimal :
  decimals_of decimal_pairs a = Some decimal -> 0 <= decimal <= 51 -> 0 <= x <= max_amount ->
  sygma_convert_to decimal_pairs (asset_of a x) =
  Ok (if decimal =? 18 then Some x
      else if decimal <? 18 then Some (Z.min max_amount (x * 10 ^ (18 - decimal)))
      else if x / 10 ^ (decimal - 18) =? 0 then None
      else Some (x / 10 ^ (decimal - 18))).
Proof.
  intros Hd Hb Hx. unfold sygma_convert_to. simpl. rewrite Hd. unfold convert_to_decimals.
  destruct (Z.eqb_spec decimal 18); [done|].
  destruct (Z.ltb_spec 18 decimal).
  - rewrite divide_exact by lia. rewrite (proj2 (Z.ltb_ge _ _)) by lia.
    by destruct (_ =? 0).
  - rewrite exceeds_max_spec, bool_decide_eq_false_2 by lia.
    rewrite multiply_saturates by lia. by rewrite (proj2 (Z.ltb_lt _ _)) by lia.
Qed.

(** C29: conversion round trip.  An amount of an asset with at most 18 decimals that
    fits after scaling comes back unchanged from the other side. *)
Theorem decimal_roundtrip a x decimal :
  decimals_of decimal_pairs a = Some decimal -> 0 <= decimal <= 18 ->
  0 < x -> x * 10 ^ (18 - decimal) <= max_amount ->
  exists y, sygma_convert_to decimal_pairs (asset_of a x) = Ok (Some y) /\
    sygma_convert_from decimal_pairs (asset_of a y) = Ok (Some (asset_of a x)).
Proof.
  intros Hd Hb Hx Hm. unfold sygma_convert_to, sygma_convert_from. simpl. rewrite Hd.
  unfold convert_to_decimals, convert_from_decimals.
  destruct (Z.eqb_spec decimal 18); [by eexists|].
  rewrite (proj2 (Z.ltb_ge 18 decimal)) by lia.
  pose proof (pow10_small (18 - decimal) ltac:(lia)) as Hp.
  assert (x <= max_amount) by nia.
  rewrite exceeds_max_spec, bool_decide_eq_false_2 by lia.
  rewrite multiply_saturates, Z.min_r by lia. eexists. split; [done|].
  rewrite divide_exact by nia. rewrite Z.div_mul by lia.
  by rewrite (proj2 (Z.eqb_neq x 0)) by lia.
Qed.

(** Conversion never creates value.  Going out and back never returns more than
    was sent, and for an asset with more than 18 decimals it returns less by at most
    what rounding to 18 decimals drops. *)
Theorem decimal_no_inflation a x y z decimal :
  decimals_of decimal_pairs a = Some decimal -> 0 <= decimal <= 51 -> 0 <= x <= max_amount ->
  sygma_convert_to decimal_pairs (asset_of a x) = Ok (Some y) ->
  sygma_convert_from decimal_pairs (asset_of a y) = Ok (Some (asset_of a z)) ->
  z <= x /\ (18 < decimal -> x - z < 10 ^ (decimal - 18)).
Proof.
  intros Hd Hb Hx. unfold sygma_convert_to, sygma_convert_from. simpl. rewrite Hd.
  unfold convert_to_decimals, convert_from_decimals, asset_of.
  destruct (Z.eqb_spec decimal 18); [naive_solver lia|].
  destruct (Z.ltb_spec 18 decimal).
  - pose proof (pow10_small (decimal - 18) ltac:(lia)) as Hp.
    rewrite divide_exact by lia. case_match; [done|]. intros [= <-].
    set (q := x / 10 ^ (decimal - 18)).
    assert (Hq : q * 10 ^ (decimal - 18) <= x < (q + 1) * 10 ^ (decimal - 18)).
    { pose proof (Z.div_mod x (10 ^ (decimal - 18))). unfold q.
      pose proof (Z.mod_pos_bound x (10 ^ (decimal - 18))). nia. }
    assert (0 <= q) by (apply Z.div_pos; lia).
    rewrite exceeds_max_spec, bool_decide_eq_false_2 by nia.
    rewrite multiply_saturates by nia. intros Hz. simplify_eq/=. rewrite Z.min_r by lia. lia.
  - pose proof (pow10_small (18 - decimal) ltac:(lia)) as Hp.
    rewrite exceeds_max_spec, bool_decide_eq_false_2 by lia.
    rewrite multiply_saturates by lia. intros [= <-].
    rewrite divide_exact by (unfold max_amount; lia). destruct (_ =? 0); simpl; [by intros [=]|].
    intros Hz. simplify_eq/=. split; [|lia].
    etrans; [apply Z.div_le_mono; [lia|apply Z.le_min_r]|]. rewrite Z.div_mul; lia.
Qed.

(** Large amounts are capped without an error.  An amount of an asset with fewer
    than 18 decimals whose scaled value exceeds [U112F16::MAX] is sent as
    5192296858534827628530496329220095, whatever the amount was. *)
Lemma scaling_caps_silently a x decimal :
  decimals_of decimal_pairs a = Some decimal -> 0 <= decimal < 18 ->
  0 <= x <= max_amount -> max_amount < x * 10 ^ (18 - decimal) ->
  sygma_convert_to decimal_pairs (asset_of a x) =
    Ok (Some 5192296858534827628530496329220095).
Proof.
  intros Hd Hb Hx Hm. unfold sygma_convert_to. simpl. rewrite Hd. unfold convert_to_decimals.
  rewrite (proj2 (Z.eqb_neq decimal 18)), (proj2 (Z.ltb_ge 18 decimal)) by lia.
  rewrite exceeds_max_spec, bool_decide_eq_false_2 by lia.
  rewrite multiply_saturates, Z.min_l by lia. done.
Qed.

(** The division branches lack the range guard.  For an asset with more than 18
    decimals an amount of [2^112] or more is not refused as the multiplication branch
    refuses it: the conversion panics, or converts the amount modulo [2^112]. *)
Theorem division_unguarded a x decimal :
  decimals_of decimal_pairs a = Some decimal -> 18 < decimal <= 51 ->
  2 ^ 112 <= x <= u128_max ->
  sygma_convert_to decimal_pairs (asset_of a x) = Panic \/
  sygma_convert_to decimal_pairs (asset_of a x) =
    sygma_convert_to decimal_pairs (asset_of a (x mod 2 ^ 112)).
Proof.
  intros Hd Hb Hx. unfold sygma_convert_to. simpl. rewrite Hd. unfold convert_to_decimals.
  rewrite (proj2 (Z.eqb_neq decimal 18)), (proj2 (Z.ltb_lt 18 decimal)) by lia.
  pose proof (Z.mod_pos_bound x (2 ^ 112) ltac:(lia)) as Hm.
  rewrite (divide_exact (x mod 2 ^ 112)) by (unfold max_amount; lia).
  pose proof (pow10_small (decimal - 18) ltac:(lia)) as Hp.
  unfold divide. destruct (from_pow10 (decimal - 18) ltac:(lia)) as (v & -> & Hv).
  destruct (fx_from_num_wraps x Hx) as [->|(b & -> & Hbits)]; [by left|]. right.
  assert (Hbx : fx_bits b = x mod 2 ^ 112 * 2 ^ 16).
  { rewrite Hbits. change (2 ^ 128) with (2 ^ 112 * 2 ^ 16). by rewrite Z.mul_mod_distr_r. }
  assert (Hq : fx_bits b * 2 ^ 16 / fx_bits v = x mod 2 ^ 112 * 2 ^ 16 / 10 ^ (decimal - 18)).
  { rewrite Hbx, Hv. by rewrite Z.div_mul_cancel_r by lia. }
  destruct (fx_checked_div_fits b v) as (r & -> & Hr).
  - rewrite Hv. lia.
  - rewrite Hq. apply Z.div_lt_upper_bound; [lia|]. nia.
  - simpl. rewrite fx_to_num_spec, Hr, Hq, Z.div_div by lia.
    by rewrite Z.div_mul_cancel_r by lia.
Qed.
End Decimals.

(** ** The hypotheses hold on the concrete chain *)

From S2P Require Import RuntimeCommon BridgeMock Scenario.
#[local] Existing Instances mock_basic mock_percentage mock_router integer_fixed.

(** An amount whose share is exact, and one whose product with the rate exceeds 128 bits. *)
Lemma percentage_fee_witness :
  50 < 10000 /\ 10 < 1000 /\
  exists fx fy,
    percentage_get_fee ready 1 (asset_of usdt 30000) = Some fx /\
    percentage_get_fee ready 1 (asset_of usdt u128_max) = Some fy /\
    fx = clamp 10 1000 (Z.min u128_max (30000 * 50) / 10000) /\
    (30000 * 50 <= u128_max -> fx = clamp 10 1000 (30000 * 50 / 10000)) /\
    (u128_max <= 30000 * 50 -> fx = clamp 10 1000 (u128_max / 10000)) /\
    fx <= clamp 10 1000 (30000 * 50 / 10000) /\
    10 <= fx <= fy /\ fy <= 1000.
Proof.
  refine (percentage_fee genesis_ledger ready 1 usdt 50 10 1000 30000 u128_max ready_reachable
    _ _ _); [vm_compute; reflexivity|lia|]. unfold u128_max. lia.
Defined.

Definition fee_stored : Chain := run_calls [(Root, CallSetFee 3 astr 77)] ready.
Definition fee_routed : Chain := run_calls [(Root, CallSetFeeHandler 3 astr BasicFeeHandler)] fee_stored.

Lemma fee_stored_ok : set_fee Root 3 astr 77 ready = (Ok tt, fee_stored).
Proof. exact (run_call_ok Root (CallSetFee 3 astr 77) ready ltac:(vm_compute; reflexivity)). Qed.
Lemma fee_routed_ok : set_fee_handler Root 3 astr BasicFeeHandler fee_stored = (Ok tt, fee_routed).
Proof.
  exact (run_call_ok Root (CallSetFeeHandler 3 astr BasicFeeHandler) fee_stored
    ltac:(vm_compute; reflexivity)).
Qed.

Lemma configured_fee_is_quoted_witness :
  (forall asset, asset_id asset = astr -> router_get_fee fee_routed 3 asset = Some 77) /\
  (forall d' asset, (d', asset_id asset) <> (3, astr) ->
     router_get_fee fee_routed d' asset = router_get_fee ready d' asset) /\
  (forall d' asset, HandlerType ready !! (d', asset_id asset) = None \/
                    HandlerType ready !! (d', asset_id asset) = Some DynamicFeeHandler ->
     router_get_fee ready d' asset = None).
Proof.
  exact (configured_fee_is_quoted Root Root 3 astr 77 ready fee_stored fee_routed fee_stored_ok
    fee_routed_ok).
Defined.

(** Astar has 24 decimals, the native asset 12. *)
Lemma convert_to_exact_witness :
  sygma_convert_to Mock.AssetDecimalPairs (asset_of astr 123456789) =
  Ok (if 24 =? 18 then Some 123456789
      else if 24 <? 18 then Some (Z.min max_amount (123456789 * 10 ^ (18 - 24)))
      else if 123456789 / 10 ^ (24 - 18) =? 0 then None
      else Some (123456789 / 10 ^ (24 - 18))).
Proof.
  apply (convert_to_exact Mock.AssetDecimalPairs astr 123456789 24);
    [vm_compute; reflexivity|lia|unfold max_amount; lia].
Defined.

Lemma decimal_roundtrip_witness :
  exists y, sygma_convert_to Mock.AssetDecimalPairs (asset_of native 5) = Ok (Some y) /\
    sygma_convert_from Mock.AssetDecimalPairs (asset_of native y) = Ok (Some (asset_of native 5)).
Proof.
  apply (decimal_roundtrip Mock.AssetDecimalPairs native 5 12);
    [vm_compute; reflexivity|lia|lia|]. vm_compute. discriminate.
Defined.

Lemma decimal_no_inflation_witness :
  123000000 <= 123456789 /\ (18 < 24 -> 123456789 - 123000000 < 10 ^ (24 - 18)).
Proof.
  apply (decimal_no_inflation Mock.AssetDecimalPairs astr 123456789 123 123000000 24);
    [vm_compute; reflexivity|lia|unfold max_amount; lia|vm_compute; reflexivity|
     vm_compute; reflexivity].
Defined.

Lemma division_unguarded_witness :
  sygma_convert_to Mock.AssetDecimalPairs (asset_of astr (2 ^ 113)) = Panic \/
  sygma_convert_to Mock.AssetDecimalPairs (asset_of astr (2 ^ 113)) =
    sygma_convert_to Mock.AssetDecimalPairs (asset_of astr (2 ^ 113 mod 2 ^ 112)).
Proof.
  apply (division_unguarded Mock.AssetDecimalPairs astr (2 ^ 113) 24);
    [vm_compute; reflexivity|lia|vm_compute; split; discriminate].
Defined.
