(* ===== verification/RuntimeProps.v ===== *)
(** * Properties of the runtimes' configuration *)

From S2P Require Import Prelude Xcm Frame Traits AccessSegregator BasicFeeHandler.
From S2P Require Import PercentageFeeHandler FeeHandlerRouter Encode Eip712 Bridge.
From S2P Require Import BridgeNonces BridgeDeposit BridgeExecute BridgeAdmin System.
From S2P Require Import DecimalConverter Forwarder XcmBridge XcmBridgeFacts ParachainInfo.
From S2P Require Import Migration RuntimeCommon StandaloneRuntime ParachainRuntime BridgeMock.
From S2P Require Import Pegs.

(** ** Tables *)

Section Tables.
Context {L : Type} `{BridgeConfig L}.

(** Every bound asset can be resolved back from its resource id, has an account that
    holds it, and has its decimals listed. *)
Definition config_consistent (decimals : list (AssetId * Z)) : Prop :=
  forall asset rid amount ty, extract_asset asset = Some (rid, amount, ty) ->
    rid_to_assetid rid = Some (asset_id asset) /\
    is_Some (get_token_reserved_account (asset_id asset)) /\
    is_Some (decimals_of decimals (asset_id asset)).

Lemma config_consistent_tables decimals :
  NoDup resource_pairs.*2 ->
  Forall (fun p => is_Some (transfer_reserve_accounts !! p.1) /\
                   is_Some (decimals_of decimals p.1)) resource_pairs ->
  config_consistent decimals.
Proof.
  intros Hn Ht asset rid amount ty Ha. unfold extract_asset in Ha.
  destruct (asset_fun asset); [|done].
  destruct (position _ _) as [i|] eqn:Hp; simpl in Ha; [|done].
  apply position_some in Hp as ([a r] & Hi & Hd). rewrite Hi in Ha. simplify_eq/=.
  apply bool_decide_eq_true in Hd as ->.
  assert (Hin : (asset_id asset, rid) ∈ resource_pairs) by by eapply list_elem_of_lookup_2.
  rewrite Forall_forall in Ht. destruct (Ht _ Hin) as [Hacc Hdec]. split_and!; try done.
  destruct (position_unique snd resource_pairs _ Hn Hin) as (j & Hj & Hl). simpl in Hj.
  unfold rid_to_assetid. rewrite Hj. simpl. by rewrite Hl.
Qed.
End Tables.

Section Runtimes.
Context {L : Type} `{Crypto} `{EthAbi} `{LocationCodec} `{XcmLocations} `{FixedU112F16}
  `{PalletIdAccounts} `{XcmReanchor}.
Context (currency fungibles transactor : TransactAsset L)
  (weigh : Xcm -> option Weight * Xcm) (encode : Xcm -> bytes)
  (execute : MultiLocation -> Xcm -> bytes -> Weight -> Weight -> M Empty_set (World L) Outcome)
  (error_str : DispatchError -> bytes).
Implicit Types (w : World L).

(** The three configurations, and the parachain's transactor cut at a depth. *)
Definition standalone : BridgeConfig L := Standalone.bridge_config transactor error_str.
Definition mock : BridgeConfig L := Mock.bridge_config transactor error_str.
Definition parachain_transactor (depth : nat) : TransactAsset L :=
  Para.asset_transactor currency fungibles weigh encode execute error_str depth.
Definition parachain : BridgeConfig L :=
  Para.bridge_config error_str (parachain_transactor 1).

(** The tables of the runtimes fit together.  In each of the three runtimes an
    asset that [deposit] accepts is found again by its resource id when it comes back,
    and has a holding account and decimals. *)
Theorem runtime_tables_consistent :
  config_consistent (H := standalone) Standalone.AssetDecimalPairs /\
  config_consistent (H := parachain) Para.AssetDecimalPairs /\
  config_consistent (H := mock) Mock.AssetDecimalPairs.
Proof.
  split_and!; apply config_consistent_tables;
    try (apply (bool_decide_unpack _); vm_compute; exact I);
    repeat (apply Forall_cons; split; [split; vm_compute; by eexists|]); apply Forall_nil_2.
Qed.


(** An overlong key makes [deposit] panic.  [GeneralKey] carries its length as a
    byte, and the parsers slice the 32 data bytes by it: with an MPC address set, any
    signed caller who gives a length above 32 makes the deposit extrinsic panic, on
    the standalone runtime and on the parachain. *)
Theorem long_keys_panic w sender asset len dat l2 d rest :
  is_clear (MpcAddr (bridge w)) = false -> 32 < len -> length dat = 32%nat -> d <> 0 ->
  deposit (H := standalone) (Signed sender) asset
    (ML 0 (X2 (GeneralKey len dat) (GeneralKey l2 (d :: rest)))) w = (Panic, w) /\
  deposit (H := parachain) (Signed sender) asset
    (ML 0 (X3 (GeneralKey len dat) (GeneralIndex d) (GeneralKey l2 (d :: rest)))) w
    = (Panic, w).
Proof.
  intros Hm Hl Hd Hne.
  assert (Hk : key_slice len dat = Panic) by (apply key_slice_panics; lia).
  split; apply deposit_panics; try done; simpl;
    unfold Standalone.extract_dest, Para.extract_dest; cbn [parents interior head default].
  - unfold from_option, id. rewrite (proj2 (Z.eqb_neq d 0)) by done. by rewrite Hk.
  - by rewrite Hk.
Qed.

(** C31: one forward is enough.  The parachain's asset transactor calls the bridge
    forwarder, which calls the bridge pallet, which calls the transactor; a deposit
    credits local accounts only, so the recursion ends after one round: cut at any
    greater depth, the transactor is the same function. *)
Theorem forwarding_ends n : parachain_transactor (S n) = parachain_transactor 1.
Proof. apply Para.asset_transactor_depth. Qed.

(** Over adapters and an executor that leave the pallets' storage alone, so does the
    parachain's transactor, through all its forwards. *)
Lemma parachain_transactor_ext depth :
  TransactorExt (H := currency) L -> TransactorExt (H := fungibles) L ->
  ExecutorExt (H := Para.xcm_bridge_config weigh encode execute) ->
  TransactorExt (H := parachain_transactor depth) L.
Proof.
  intros Hc Hf He. unfold parachain_transactor.
  induction depth as [|depth IH]; apply xcm_asset_transactor_ext; try done.
  - split; intros o what dest w r w' [= <- <-]; done.
  - apply bridge_forwarder_ext; [|by apply xcm_bridge_ext]. intros o what dest mw.
    by apply (deposit_preserves_ext (H := Para.bridge_config error_str _)).
Qed.

(** C30: the invariants hold on the parachain.  With the forwarding transactor in
    place and whatever id the parachain has at genesis, every state it reaches by
    extrinsics has consecutive deposit nonces, paired domain tables, ordered fee rates,
    64-bit words of used nonces, and executes each proposal at most once. *)
Theorem parachain_invariants l i w :
  TransactorExt (H := currency) L -> TransactorExt (H := fungibles) L ->
  ExecutorExt (H := Para.xcm_bridge_config weigh encode execute) ->
  rtc (step (H := parachain) (H0 := Para.basic_config) (H1 := Para.percentage_config)
         (H2 := Para.router_config)) (set_parachain_id i (empty_world l)) w ->
  chain_inv w /\ forall d n, 0 <= n -> (executions d n (events w) <= 1)%nat.
Proof.
  intros Hc Hf He Hr.
  pose proof (parachain_transactor_ext 1 Hc Hf He) as Ht.
  pose proof (steps_inv (H := parachain) (TransactorExt0 := Ht) _ w Hr
    (parachain_id_inv i _ (empty_inv l))) as Hi.
  split; [done|]. intros d n Hn. rewrite (inv_executed _ Hi d n Hn). by case_match; lia.
Qed.

(** C37: forwarding to other worlds never works on the parachain.  The transactor forwards
    locations [sygma / sygma-bridge / domain / recipient] with four junctions; the
    runtime's destination parser accepts three.  In every state such a deposit ends as the
    credit to the temporary account does if that fails, and otherwise with an error, after
    the credit and without undoing it: [MissingMpcAddress] while no MPC address is set, else
    [ExtractDestDataFailed]. *)
Theorem other_world_forward_fails w what p domain len recipient ctx :
  let '(credit, w1) := local_deposit currency fungibles Para.native_asset_type_identifier what
    (loc_of_account (tmp_account 1)) ctx w in
  deposit_asset (TransactAsset := parachain_transactor 1) what
    (other_world_location p domain len recipient) ctx w =
  (match credit with
   | Ok _ => Err (FailedToTransactAsset (error_str (ModBridge
       (if is_clear (MpcAddr (bridge w1)) then MissingMpcAddress else ExtractDestDataFailed))))
   | Err e => Err e
   | Panic => Panic
   end, w1).
Proof.
  destruct (local_deposit _ _ _ _ _ _ w) as [credit w1] eqn:Hl. simpl. unfold xcm_deposit_asset.
  rewrite (proj2 (route_other_world _)) by by do 4 eexists.
  unfold mbind, M_bind. rewrite Hl. destruct credit as [[]|e|]; [|done..].
  simpl. unfold map_err, forward_other_world.
  unfold mbind at 1, M_bind. simpl. unfold bridge_transfer.
  rewrite (deposit_refused (H := Para.bridge_config error_str (parachain_transactor 0)) w1
    (Signed (tmp_account 1)) what (other_world_location p domain len recipient)
    (ModBridge (if is_clear (MpcAddr (bridge w1)) then MissingMpcAddress
                else ExtractDestDataFailed))); [done|].
  unfold deposit_refusal. simpl. destruct (is_clear _); [done|]. by destruct p.
Qed.

(** An adapter of the XCM crates refuses the assets its matcher does not match; the
    matcher of the parachain's currency is [IsConcrete<RelayLocation>]. *)
Definition handles_only (adapter : TransactAsset L) (id : AssetId) : Prop :=
  forall what who w, asset_id what <> id ->
    (forall ctx, exists e, withdraw_asset (TransactAsset := adapter) what who ctx w = (Err e, w)) /\
    (forall ctx, exists e, deposit_asset (TransactAsset := adapter) what who ctx w = (Err e, w)).

(** The transactor takes the native asset to the currency adapter. *)
Lemma native_withdraw_refused depth w x who ctx :
  handles_only currency (Concrete Para.RelayLocation) ->
  exists e, withdraw_asset (TransactAsset := parachain_transactor depth)
    (asset_of (Concrete Para.NativeLocation) x) who ctx w = (Err e, w).
Proof.
  intros Hc. destruct (Hc (asset_of (Concrete Para.NativeLocation) x) who w) as [Hw _]; [done|].
  destruct (Hw ctx) as [e He]. exists e. by destruct depth.
Qed.

Lemma convert_from_native amount out :
  Para.convert_from (asset_of (Concrete Para.NativeLocation) amount) = Ok (Some out) ->
  exists x, out = asset_of (Concrete Para.NativeLocation) x.
Proof.
  unfold Para.convert_from, sygma_convert_from. simpl.
  destruct (convert_from_decimals _ _) as [[x|]| |]; simpl; try done. intros [= <-]. by exists x.
Qed.

(** C36: the native asset cannot cross the bridge of the parachain.  Its currency adapter
    handles the relay chain's location only, while the native asset is [here]: a deposit
    of it that passes every guard fails with [TransactFailed] and changes nothing, and a
    proposal that pays it is only ever reported as failed. *)
Theorem native_asset_stuck :
  handles_only currency (Concrete Para.RelayLocation) ->
  (forall w sender x dest,
     deposit_refusal (H := parachain) w (Signed sender)
       (asset_of (Concrete Para.NativeLocation) x) dest = None ->
     Para.extract_dest dest <> Panic ->
     deposit (H := parachain) (Signed sender) (asset_of (Concrete Para.NativeLocation) x) dest w =
       (Err (ModBridge TransactFailed), w)) /\
  (forall w p, resource_id p = Para.NativeResourceId ->
     (execute_one (H := parachain) p w).1 <> Panic ->
     exists e, execute_one (H := parachain) p w =
       (Ok tt, add_event (failed_event (H := parachain) e p) w)).
Proof.
  intros Hc. split.
  - intros w sender x dest Hr Hd.
    destruct (native_withdraw_refused 1 w x (loc_of_account sender) None Hc) as [e He].
    exact (deposit_withdraw_fails (H := parachain) w sender _ dest e w Hr Hd He).
  - intros w p Hrid Hnp.
    assert (exists e, execute_proposal_internal (H := parachain) p w = (Err e, w)) as [e He];
      [|exists e; unfold execute_one; by rewrite He].
    destruct (proposal_refusal (H := parachain) w p) as [e|] eqn:Href.
    { exists e. exact (execute_internal_refused (H := parachain) w p e Href). }
    assert (Ha : rid_to_assetid (H := parachain) (resource_id p) =
      Some (Concrete Para.NativeLocation)) by (rewrite Hrid; vm_compute; reflexivity).
    revert Href Hnp. unfold execute_one, proposal_refusal, execute_proposal_internal. run_frame.
    destruct (is_paused _ _); simpl; [done|]. destruct (dest_domain_supported _ _); simpl; [|done].
    destruct (is_proposal_executed _ _ _); simpl; [done|]. rewrite Ha. simpl.
    destruct (extract_deposit_data _) as [[amount l]|e|]; simpl; [|done|done].
    destruct (Para.convert_from _) as [[out|]|e|] eqn:Hout; simpl; [|done|done|done].
    destruct (get_token_reserved_account _) as [account|]; simpl; [|done]. intros _ _.
    apply convert_from_native in Hout as [x ->].
    destruct (native_withdraw_refused 1 w x (loc_of_account account) None Hc) as [e He].
    simpl in He. exists (ModBridge TransactFailed).
    rewrite (proj2 (reserve_contains_here _)) by (do 2 eexists; split; [done|by left]).
    by rewrite He.
Qed.

(** C38: forwarding to other parachains works for the native asset only.  The runtime
    configures a minimum XCM fee for its native location and for nothing else, so the
    forward of any other asset fails before a message is built, and the asset stays
    credited to the temporary account. *)
Theorem foreign_remote_forward_fails w what who ctx w1 :
  route who = RemoteParachain -> asset_id what <> Concrete Para.NativeLocation ->
  local_deposit currency fungibles Para.native_asset_type_identifier what
    (loc_of_account (tmp_account 2)) ctx w = (Ok tt, w1) ->
  deposit_asset (TransactAsset := parachain_transactor 1) what who ctx w =
  (Err (FailedToTransactAsset (error_str (ModXcmBridge
     match xcm_extract_dest (H := Para.xcm_bridge_config weigh encode execute) who with
     | Some _ => NoXcmMinFeeSet
     | None => InvalidDestination
     end))), w1).
Proof.
  intros Hroute Hid Hl. simpl. unfold xcm_deposit_asset. rewrite Hroute.
  unfold mbind, M_bind. rewrite Hl. simpl. unfold map_err, forward_xcm.
  unfold mbind at 1, M_bind. simpl. unfold xcm_transfer. run_frame.
  destruct (xcm_extract_dest who) as [[chain recipient]|]; run_frame; [|done].
  assert (min_fee_of (H := Para.xcm_bridge_config weigh encode execute) (asset_id what) = None)
    as ->; [|done].
  unfold min_fee_of. simpl. by rewrite bool_decide_eq_false_2 by congruence.
Qed.
End Runtimes.

(** ** The storage migration *)

Section Upgrade.
Context {L : Type} (db : DbWeight).
Implicit Types (w : World L).

(** The migration runs once.  On storage version 0 the upgrade installs the fixed
    20-byte MPC address, whatever was stored, and version 1, so that the checks around
    it pass; it touches nothing else; on any other version it changes nothing, so a
    second run is harmless. *)
Theorem migration_runs_once w :
  (forall s, pre_upgrade w = Some s ->
     post_upgrade (on_runtime_upgrade db w).2 s = true /\
     (on_runtime_upgrade db w).2 =
       set_bridge (fun b => set_version 1 (set_mpc migrated_address b)) w /\
     is_array 20 migrated_address /\ is_clear migrated_address = false) /\
  (pre_upgrade w = None -> on_runtime_upgrade db w = (db_reads db 1, w)) /\
  (on_runtime_upgrade db (on_runtime_upgrade db w).2).2 = (on_runtime_upgrade db w).2.
Proof.
  split_and!.
  - intros s. unfold pre_upgrade, on_runtime_upgrade. case_match; [|done]. intros _.
    split_and!; [done|done|apply migrated_address_ok..].
  - unfold pre_upgrade, on_runtime_upgrade. by case_match.
  - apply on_runtime_upgrade_twice.
Qed.
End Upgrade.

(** ** The hypotheses hold on concrete runtimes *)

From S2P Require Import System Scenario.
#[local] Existing Instances toy_crypto word_abi toy_codec list_locations integer_fixed
  padded_accounts toy_reanchor.


Abbreviation concrete_parachain :=
  (parachain account_ledger account_ledger toy_weigh toy_encode toy_execute error_name).

#[local] Existing Instance account_ledger_ext.

Lemma toy_execute_ext : ExecutorExt (H := para_xcm).
Proof.
  split. intros origin msg hash limit credit. simpl. unfold toy_execute.
  assert (Ht : forall assets w b w', take_all assets origin w = (b, w') -> ext w w').
  { induction assets as [|a assets IH]; intros w b w'; simpl; [by intros [= _ <-]|].
    destruct (ledger_withdraw a origin None w) as [r w1] eqn:Hw.
    assert (ext w w1).
    { eapply (withdraw_ext (H := account_ledger) a origin None); [exact Hw|].
      unfold ledger_withdraw in Hw. by repeat case_match; simplify_eq. }
    destruct r; intros Hr; [etrans; [done|by eapply IH]|by simplify_eq..]. }
  intros w r w'. destruct (take_all _ origin w) as [b w1] eqn:Hr.
  destruct b; intros [= _ <-] _; by eapply Ht.
Qed.

(** The parachain after the committee has registered a domain. *)
Abbreviation para_dispatch :=
  (dispatch (H := concrete_parachain) (H0 := Para.basic_config) (H1 := Para.percentage_config)
     (H2 := Para.router_config)).
Definition para_registered : Chain :=
  (para_dispatch Root (CallRegisterDomain 1 1)
     (set_parachain_id (Some 1000) (empty_world genesis_ledger))).2.

Lemma parachain_invariants_witness :
  chain_inv para_registered /\
  forall d n, 0 <= n -> (executions d n (events para_registered) <= 1)%nat.
Proof.
  apply (parachain_invariants account_ledger account_ledger toy_weigh toy_encode toy_execute
    error_name genesis_ledger (Some 1000) para_registered account_ledger_ext account_ledger_ext
    toy_execute_ext).
  apply rtc_once. refine (step_call _ _ Root (CallRegisterDomain 1 1) (Ok tt) I _ _); [|done].
  reflexivity.
Defined.

Lemma long_keys_panic_witness :
  deposit (H := standalone account_ledger error_name) (Signed Mock.ALICE) (asset_of native 5)
    (ML 0 (X2 (GeneralKey 33 (replicate 32 7)) (GeneralKey 1 (1 :: replicate 31 0)))) ready =
    (Panic, ready) /\
  deposit (H := concrete_parachain) (Signed Mock.ALICE) (asset_of native 5)
    (ML 0 (X3 (GeneralKey 33 (replicate 32 7)) (GeneralIndex 1)
       (GeneralKey 1 (1 :: replicate 31 0)))) ready = (Panic, ready).
Proof.
  apply (long_keys_panic account_ledger account_ledger account_ledger toy_weigh toy_encode
    toy_execute error_name ready Mock.ALICE (asset_of native 5) 33 (replicate 32 7) 1 1
    (replicate 31 0)); [vm_compute; reflexivity|lia|reflexivity|lia].
Defined.

Definition credited : Chain :=
  (local_deposit account_ledger account_ledger Para.native_asset_type_identifier
     (asset_of native 5) (loc_of_account (tmp_account 1)) no_message ready).2.

Lemma credited_ok :
  local_deposit account_ledger account_ledger Para.native_asset_type_identifier
    (asset_of native 5) (loc_of_account (tmp_account 1)) no_message ready = (Ok tt, credited).
Proof. refine (run_result _ (Ok tt) _). vm_compute. reflexivity. Qed.

Lemma other_world_forward_fails_witness :
  deposit_asset (TransactAsset := parachain_transactor account_ledger account_ledger toy_weigh
      toy_encode toy_execute error_name 1) (asset_of native 5)
    (other_world_location 0 1 3 (b_ "bob" ++ replicate 29 0)) no_message ready =
  (Err (FailedToTransactAsset (error_name (ModBridge ExtractDestDataFailed))), credited).
Proof.
  pose proof (other_world_forward_fails account_ledger account_ledger toy_weigh toy_encode
    toy_execute error_name ready (asset_of native 5) 0 1 3 (b_ "bob" ++ replicate 29 0)
    no_message) as Hf.
  rewrite credited_ok in Hf.
  assert (Hm : is_clear (MpcAddr (bridge credited)) = false) by (vm_compute; reflexivity).
  rewrite Hm in Hf. exact Hf.
Defined.

(** USDT on its way to an account of parachain 2005: credited to the temporary account. *)
Abbreviation some_usdt := (asset_of (Concrete Para.UsdtLocation) 5).
Abbreviation bob_elsewhere := (ML 1 (X2 (Parachain 2005) (AccountId32 None Mock.BOB))).
Definition usdt_credited : Chain :=
  (local_deposit account_ledger account_ledger Para.native_asset_type_identifier
     some_usdt (loc_of_account (tmp_account 2)) no_message ready).2.

Lemma usdt_credited_ok :
  local_deposit account_ledger account_ledger Para.native_asset_type_identifier
    some_usdt (loc_of_account (tmp_account 2)) no_message ready = (Ok tt, usdt_credited).
Proof. refine (run_result _ (Ok tt) _). vm_compute. reflexivity. Qed.

Lemma foreign_remote_forward_fails_witness :
  deposit_asset (TransactAsset := parachain_transactor account_ledger account_ledger toy_weigh
      toy_encode toy_execute error_name 1) some_usdt bob_elsewhere no_message ready =
  (Err (FailedToTransactAsset (error_name (ModXcmBridge NoXcmMinFeeSet))), usdt_credited).
Proof.
  refine (foreign_remote_forward_fails account_ledger account_ledger toy_weigh toy_encode
    toy_execute error_name ready some_usdt bob_elsewhere no_message usdt_credited
    eq_refl _ usdt_credited_ok).
  discriminate.
Defined.

(** The ledger behind an adapter for the relay chain's asset. *)
Definition relay_currency : TransactAsset Ledger :=
  {| withdraw_asset what who ctx :=
       if bool_decide (asset_id what = Concrete Para.RelayLocation)
       then ledger_withdraw what who ctx else fail (OtherXcmError 3);
     deposit_asset what who ctx :=
       if bool_decide (asset_id what = Concrete Para.RelayLocation)
       then ledger_deposit what who ctx else fail (OtherXcmError 3) |}.

Lemma relay_currency_handles : handles_only relay_currency (Concrete Para.RelayLocation).
Proof.
  intros what who w Hid.
  split; intros ctx; exists (OtherXcmError 3); simpl; by rewrite bool_decide_eq_false_2.
Qed.

Lemma native_asset_stuck_witness :
  deposit (H := parachain relay_currency account_ledger toy_weigh toy_encode toy_execute
      error_name) (Signed Mock.ALICE) (asset_of native 1000)
    (ML 0 (X3 (general_key (b_ "sygma")) (GeneralIndex 1) (general_key (b_ "bob")))) ready =
  (Err (ModBridge TransactFailed), ready).
Proof.
  refine (proj1 (native_asset_stuck relay_currency account_ledger toy_weigh toy_encode
    toy_execute error_name relay_currency_handles) ready Mock.ALICE 1000 _ _ _).
  - vm_compute. reflexivity.
  - vm_compute. congruence.
Defined.

Lemma runtime_tables_consistent_witness :
  rid_to_assetid (H := concrete_parachain) Para.UsdtResourceId =
    Some (Concrete Para.UsdtLocation).
Proof.
  refine (proj1 (proj1 (proj2 (runtime_tables_consistent account_ledger account_ledger
    account_ledger toy_weigh toy_encode toy_execute error_name))
    (asset_of (Concrete Para.UsdtLocation) 5) _ 5 FungibleTransfer _)).
  vm_compute. reflexivity.
Defined.

(** The ready chain, at storage version 0, upgraded; database operations are free. *)
Definition free_db : DbWeight :=
  {| db_reads := fun _ => from_parts 0 0; db_writes := fun _ => from_parts 0 0 |}.

Lemma migration_runs_once_witness :
  MpcAddr (bridge (on_runtime_upgrade free_db ready).2) = migrated_address.
Proof.
  destruct (pre_upgrade ready) as [s|] eqn:Hs; [|vm_compute in Hs; discriminate].
  destruct (proj1 (migration_runs_once free_db ready) s Hs) as (_ & -> & _).
  reflexivity.
Defined.
