(* ===== verification/XcmProps.v ===== *)
(** * Properties of the XCM bridge and of the asset transactor *)

From S2P Require Import Prelude Xcm Frame Traits Encode Eip712 Bridge BridgeDeposit Forwarder.
From S2P Require Import XcmBridge XcmBridgeFacts.

(** The sum of the amounts of a list of assets. *)
Definition total_amount (assets : list MultiAsset) : Z :=
  foldr (fun a s => fungible_amount a + s) 0 assets.

Section Xcm.
Context {L : Type} `{XcmBridgeConfig L}.
Implicit Types (w : World L).

(** C32: what an XCM transfer does.  A transfer succeeds exactly when the destination
    is the relay chain or a sibling, a minimum fee is configured for the asset, a
    program can be built for it, and the executor runs the weighed program to
    completion; the state is the executor's, with the event [XCMTransferSend].  A
    transfer refused for its destination, fee or reserve leaves the state alone. *)
Theorem xcm_transfer_spec sender asset dest mw w :
  (forall w', xcm_transfer sender asset dest mw w = (Ok tt, w') <->
              xcm_effect w sender asset dest mw w') /\
  (xcm_extract_dest dest = None \/ min_fee_of (asset_id asset) = None \/
   xcm_reserved_location asset = None ->
     exists e, xcm_transfer sender asset dest mw w = (Err (ModXcmBridge e), w)).
Proof.
  split; [intros w'; apply xcm_transfer_effect|apply xcm_transfer_refused].
Qed.

(** C33: where an XCM program goes.  The program built for a transfer takes exactly the
    asset from the sender; it visits the destination alone when this chain or the
    destination is the asset's reserve, and otherwise the reserve and then the
    destination; it credits the recipient and nobody else; at each stop it buys
    execution, limited to the given weight, with a fee reanchored to that stop, and
    the fees offered add up to at most the minimum fee. *)
Theorem xcm_message_route w x msg :
  0 <= fungible_amount (xo_fee x) -> create_instructions w x = Ok msg ->
  exists chains fees,
    itinerary w x = Some chains /\
    flat_map stops msg = stops_of chains /\
    flat_map beneficiaries msg = [xo_recipient x] /\
    flat_map taken_here msg = [xo_asset x] /\
    Forall2 (fun p f => reanchored p.1 p.2 (interior (self_location w)) = Some f)
      (zip (fee_offers x chains) chains) fees /\
    flat_map bought msg = (fun f => (f, Limited (xo_weight x))) <$> fees /\
    total_amount (fee_offers x chains) <= fungible_amount (xo_fee x).
Proof.
  intros Hf Hm. destruct (create_instructions_stops w x msg Hm)
    as (chains & fees & Hi & Hs & Hb & Ht & Hr & Hbt).
  exists chains, fees. split_and!; try done.
  pose proof (half_bounds (xo_fee x) Hf).
  destruct chains as [|c [|c2 cs]]; simpl; lia.
Qed.

(** Destinations split in chain and recipient.  [extract_dest] accepts exactly the
    locations one hop up, and returns the sibling parachain or the relay chain and the
    rest of the path, which together are the given location. *)
Lemma xcm_destination_split dest chain recipient :
  xcm_extract_dest dest = Some (chain, recipient) <->
  parents dest = 1 /\ parents chain = 1 /\ parents recipient = 0 /\
  junctions_list (interior dest) =
    junctions_list (interior chain) ++ junctions_list (interior recipient) /\
  match interior chain with
  | X1 (Parachain _) => True
  | Here => forall i, head (junctions_list (interior recipient)) <> Some (Parachain i)
  | _ => False
  end.
Proof. apply xcm_extract_dest_spec. Qed.
End Xcm.

(** ** The hypotheses hold for a concrete transfer *)

From S2P Require Import AccessSegregator RuntimeCommon ParachainRuntime BridgeMock System.
From S2P Require Import Scenario.

(** Ten native tokens to an account of sibling 2005. *)
Definition sibling : MultiLocation := ML 1 (X1 (Parachain 2005)).
Definition concrete_object : XcmObject :=
  transfer_object Mock.ALICE (asset_of native 10000000000000) 1000000000000 sibling
    (loc_of_account Mock.BOB) None.
Definition concrete_message : Xcm :=
  match create_instructions ready concrete_object with Ok msg => msg | _ => [] end.

Lemma concrete_message_ok :
  create_instructions ready concrete_object = Ok concrete_message.
Proof.
  unfold concrete_message.
  assert (exists msg, create_instructions ready concrete_object = Ok msg) as [msg ->]; [|done].
  unfold create_instructions, transfer_kind. simpl. by eexists.
Qed.

Lemma xcm_message_route_witness :
  exists chains fees,
    itinerary ready concrete_object = Some chains /\
    flat_map stops concrete_message = stops_of chains /\
    flat_map beneficiaries concrete_message = [xo_recipient concrete_object] /\
    flat_map taken_here concrete_message = [xo_asset concrete_object] /\
    Forall2 (fun p f => reanchored p.1 p.2 (interior (self_location ready)) = Some f)
      (zip (fee_offers concrete_object chains) chains) fees /\
    flat_map bought concrete_message =
      (fun f => (f, Limited (xo_weight concrete_object))) <$> fees /\
    total_amount (fee_offers concrete_object chains) <= fungible_amount (xo_fee concrete_object).
Proof.
  refine (xcm_message_route ready concrete_object concrete_message _ concrete_message_ok).
  vm_compute. discriminate.
Defined.

(** Bob's account on the sibling. *)
Definition bob_on_sibling : MultiLocation :=
  ML 1 (X2 (Parachain 2005) (AccountId32 None Mock.BOB)).
Definition sent : Chain :=
  (xcm_transfer Mock.ALICE (asset_of native 10000000000000) bob_on_sibling None ready).2.

Lemma xcm_transfer_spec_witness :
  xcm_effect ready Mock.ALICE (asset_of native 10000000000000) bob_on_sibling None sent /\
  exists e, xcm_transfer Mock.ALICE (asset_of native 5) (ML 2 Here) None ready =
    (Err (ModXcmBridge e), ready).
Proof.
  split.
  - refine (proj1 (proj1 (xcm_transfer_spec Mock.ALICE (asset_of native 10000000000000)
      bob_on_sibling None ready) sent) (run_result _ (Ok tt) _)).
    vm_compute. reflexivity.
  - refine (proj2 (xcm_transfer_spec Mock.ALICE (asset_of native 5) (ML 2 Here) None ready) _).
    left. reflexivity.
Defined.
