(* ===== verification/NetworkProps.v ===== *)
(** * Properties of the bridge between two chains

    What the pallets guarantee end to end, over any interleaving of extrinsics on the two
    chains and any behaviour of honest relayers; and that storage stays typed. *)

From S2P Require Import Prelude Xcm Frame Traits AccessSegregator BasicFeeHandler.
From S2P Require Import PercentageFeeHandler FeeHandlerRouter Encode Eip712 Bridge.
From S2P Require Import BridgeNonces BridgeDeposit BridgeExecute BridgeAdmin DepositData.
From S2P Require Import Conservation System Relay Typing Supply Holding Network Channel.
From S2P Require Import Circulation.

Section Types.
Context {L : Type} `{BridgeConfig L} `{BasicFeeConfig} `{PercentageFeeConfig}
  `{RouterConfig} `{!TypedConfig L} `{!TypedTransactor L}.

(** C15: types.  From genesis, whatever calls are decoded at their types, every value
    in the storage and in the events stays in the range of its Rust type. *)
Theorem storage_stays_typed (l : L) w :
  rtc typed_step (empty_world l) w -> world_typed w.
Proof. apply typed_reachable. Qed.
End Types.

Section Accounts.
Context {L : Type} `{BridgeConfig L} `{BasicFeeConfig} `{PercentageFeeConfig}
  `{RouterConfig} `{!TypedConfig L} `{!AssetLedger L} `{!FailsafeLedger L}.

(** C16: holding accounts.  Along any history of calls that the holding account does not
    sign, its balance is at least what it was at genesis, plus what deposits locked on
    it, minus what proposals took out of it. *)
Theorem holding_account_covered id (l : L) w moves a :
  history id (empty_world l) w moves -> fee_reserve_account <> id ->
  balance l id a + sumZ (move_at id a) moves <= balance (ledger w) id a.
Proof. intros Hh Hf. exact (history_holding id _ w moves a Hh Hf). Qed.
End Accounts.

Section Network.
Context {LA LB : Type} {CA : ChainParams LA} {CB : ChainParams LB} (dA dB : DomainID)
  `{!TransactorExt LA} `{!TypedConfig LA} `{!TypedTransactor LA} `{!SupplyLedger LA}
  `{!TransactorExt LB} `{!TypedConfig LB} `{!TypedTransactor LB} `{!SupplyLedger LB}.
Implicit Types (a : Node LA) (b : Node LB) (p : Proposal).
Abbreviation net_step := (net_step (LA := LA) (LB := LB) dA dB).

(** C14: no forged payment.  In every state two chains reach by any interleaving of typed
    extrinsics, where signed batches hold only announced proposals of the other chain,
    the proposals of [a] that [b] has paid are, with multiplicity, among the deposits
    [a] has announced to [b]: nothing is paid that was not deposited, and nothing
    twice. *)
Theorem no_forged_payment lA lB a b :
  rtc net_step (net_genesis lA lB) (a, b) ->
  filter (fun p => origin_domain_id p = dA) (paid b) ⊆+ relayed dA dB (events (state a)).
Proof.
  intros Hr. apply (net_reachable_inv dA dB lA lB) in Hr.
  exact (paid_announced dA dB lA lB (a, b) Hr).
Qed.

(** The supply is backed.  In every reachable state of the network, the supply of an
    asset on [b] exceeds its supply at genesis by at most what the deposits announced on
    [a], and the paid proposals of third domains, entitle [b] to mint; a proposal whose
    asset [b] itself keeps in reserve entitles it to nothing. *)
Theorem supply_is_backed lA lB a b asset :
  is_u u8_max dA -> rtc net_step (net_genesis lA lB) (a, b) ->
  supply (ledger (state b)) asset <=
    supply lB asset
    + sumZ (minted asset) (relayed dA dB (events (state a)))
    + sumZ (minted asset) (filter (fun p => ~ origin_domain_id p = dA) (paid b)).
Proof.
  intros HdA Hr. apply (net_reachable_inv dA dB lA lB) in Hr.
  pose proof (node_supply _ _ (net_b _ _ _ _ _ Hr) asset) as Hs. simpl in Hs.
  rewrite (sumZ_filter (fun p => origin_domain_id p = dA)) in Hs.
  pose proof (paid_announced dA dB lA lB (a, b) Hr) as Hsub.
  apply (sumZ_submseteq (minted asset)) in Hsub; [simpl in Hsub; lia|].
  intros p Hp. apply minted_nonneg.
  pose proof (relayed_wf (state a) dA dB (node_typed _ _ (net_a _ _ _ _ _ Hr)) HdA) as Hwf.
  rewrite Forall_forall in Hwf. by apply Hwf.
Qed.

(** C12: refinement.  The two chains implement a pair of channels that deliver every
    transfer at most once, unaltered and in any order: genesis is the idle pair, and
    each step of the network from a reachable state, whatever the extrinsic, is a
    sequence of sends and deliveries of the specification; the positions delivered are
    the nonces whose bits are set in [UsedNonces] of the receiving chain. *)
Theorem bridge_refines_channels lA lB n n' :
  rtc net_step (net_genesis lA lB) n -> net_step n n' ->
  channels_of dA dB (net_genesis lA lB) = (idle, idle) /\
  rtc channels_step (channels_of dA dB n) (channels_of dA dB n') /\
  (forall i, i ∈ (delivered (channels_of dA dB n').1).*1 <->
     is_proposal_executed (state n'.2) (Z.of_nat i) dA = true) /\
  (forall i, i ∈ (delivered (channels_of dA dB n').2).*1 <->
     is_proposal_executed (state n'.1) (Z.of_nat i) dB = true).
Proof.
  intros Hr Hs. apply (net_reachable_inv dA dB lA lB) in Hr.
  pose proof (net_step_inv dA dB lA lB _ _ Hs Hr) as Hr'.
  split_and!; [done|by eapply net_step_refines|..]; intros i.
  - apply (delivered_used dA dB lB), Hr'.
  - apply (delivered_used dB dA lA), Hr'.
Qed.

(** C13: delivery.  A deposit on [a] towards [b] that [b] can pay is deliverable at
    once, whatever happened before: after the deposit the MPC can sign the announced
    proposal, submitting it is a step of the network, the beneficiary is credited with
    the converted amount and no other balance but the holding account's moves; and in
    every later state of the network the proposal has been paid exactly once. *)
Theorem deposit_is_delivered `{!AssetLedger LB} lA lB a b sender asset dest wa
    recipient rid y location out wb sign o :
  rtc net_step (net_genesis lA lB) (a, b) -> is_u u8_max dA ->
  sends (state a) sender asset dest wa recipient dB rid y ->
  encodes (L := LB) recipient location ->
  can_pay (state b) dA rid y location out wb -> signs (state b) sign -> origin_typed o ->
  exists p a' b' beneficiary x account,
    net_step (a, b) (a', b) /\ state a' = wa /\
    p ∈ relayed dA dB (events wa) /\ resource_id p = rid /\
    net_step (a', b) (a', b') /\ paid b' = paid b ++ [p] /\
    location_account location = Some beneficiary /\ asset_fun out = Fungible x /\
    (forall id c, balance (ledger (state b')) id c = balance (ledger (state b)) id c
       - (if contains out loc_here then at_entry account (asset_id out) id c x else 0)
       + at_entry beneficiary (asset_id out) id c x) /\
    forall n, rtc net_step (a', b') n ->
      length (filter (fun q => proposal_key q = proposal_key p) (paid n.2)) = 1%nat.
Proof.
  intros Hr HdA Hsend Henc Hpay Hsign Ho.
  pose proof Hsend as [(Hs & Ha & Hd) Hdep Hdest (amount & ty & fee & Hasset & Hfee & Hy)].
  pose proof (net_reachable_inv dA dB lA lB _ Hr) as Hinv.
  destruct (deposit_announced _ _ _ _ _ dA _ _ _ _ _ _ _ Hdep Hdest Hasset Hfee Hy)
    as (k & p & Hk & Hp & Hann).
  set (a' := {| state := wa; paid := paid a |}).
  assert (Hst : net_step (a, b) (a', b)) by by eapply deposit_step.
  pose proof (net_step_inv dA dB lA lB _ _ Hst Hinv) as Hinv'.
  assert (Hpwf : proposal_wf p).
  { pose proof (relayed_wf wa dA dB (node_typed _ _ (net_a _ _ _ _ _ Hinv')) HdA) as Hwf.
    rewrite Forall_forall in Hwf. by apply Hwf. }
  assert (Hex : execute_proposal_internal p (state b) = (Ok tt, wb)).
  { subst p. eapply can_pay_effect; [|done..|].
    { eapply (sends_amount_typed (state a)); [|done]. apply Hinv. } simpl.
    apply (next_nonce_fresh dA dB lA lB (a, b) k Hinv). simpl. lia. }
  assert (Hauth : authorised (state b) [p] (sign (construct_ecdsa_signing_proposals_data
    eip712_chain_id dest_verifying_contract_address [p]))).
  { split_and!; [by eapply pay_mpc|done|by apply Hsign]. }
  pose proof (delivery_step dA dB a' b p o _ _ Ho Hpwf Hann Hauth Hex) as Hdl.
  destruct (can_pay_balances _ _ _ _ _ _ _ Hpay) as (ben & x & account & Hben & Hx & Hbal).
  exists p, a'. eexists. exists ben, x, account. split_and!; try done; [by subst p|].
  intros n Hn. eapply (paid_forever dA dB lA lB); [|..|exact Hn].
  - by eapply net_step_inv.
  - simpl. apply elem_of_app. right. by left.
Qed.
End Network.

Section Circulation.
Context {LA LB : Type} {CA : ChainParams LA} {CB : ChainParams LB} (dA dB : DomainID)
  `{!TransactorExt LA} `{!TypedConfig LA} `{!TypedTransactor LA} `{!AssetLedger LA}
  `{!FailsafeLedger LA} `{!SupplyLedger LA} `{!PlainTransactor LA}
  `{!TransactorExt LB} `{!TypedConfig LB} `{!TypedTransactor LB} `{!AssetLedger LB}
  `{!FailsafeLedger LB} `{!SupplyLedger LB} `{!PlainTransactor LB}.

(** The bridge does not inflate.  A resource is represented by an asset on each of two
    chains, held in reserve or wrapped.  In every reachable state of the network, what
    circulates of it on both chains together, at its worth in the relayers' decimals, has
    grown since genesis by no more than the worth of what was paid in the name of third
    domains: what one chain lets circulate the other has locked or burned, whatever the
    interleaving, the fees and the rounding of the conversions. *)
Theorem bridge_never_inflates sA sB rid lA lB (a : Node LA) (b : Node LB) :
  pegged (L := LA) sA rid -> pegged (L := LB) sB rid ->
  is_u u8_max dA -> is_u u8_max dB ->
  rtc (keyless_net_step dA dB sA sB) (net_genesis lA lB) (a, b) ->
  peg_num sA * peg_den sB * (circulating sA (state a) - circulating sA (empty_world lA)) +
  peg_num sB * peg_den sA * (circulating sB (state b) - circulating sB (empty_world lB)) <=
  peg_den sA * peg_den sB *
    (sumZ (worth rid) (filter (fun p => ~ origin_domain_id p = dB) (paid a)) +
     sumZ (worth rid) (filter (fun p => ~ origin_domain_id p = dA) (paid b))).
Proof.
  intros HpA HpB HdA HdB Hr.
  destruct (keyless_reachable dA dB sA sB rid HpA HpB lA lB _ Hr) as (Hn & Ha & Hb).
  pose proof (paid_worth dA dB rid lA lB _ HdA Hn) as Hab.
  pose proof (paid_worth (LA := LB) (LB := LA) dB dA rid lB lA _ HdB
    (net_swap dA dB lA lB _ Hn)) as Hba.
  destruct (peg_positive _ _ HpA) as [_ Hda]. destruct (peg_positive _ _ HpB) as [_ Hdb].
  unfold covered, exposure, announced in Ha, Hb. simpl in *.
  apply (Z.mul_le_mono_nonneg_l _ _ (peg_den sB)) in Ha; [|lia].
  apply (Z.mul_le_mono_nonneg_l _ _ (peg_den sA)) in Hb; [|lia].
  apply (Z.mul_le_mono_nonneg_l _ _ (peg_den sA * peg_den sB)) in Hab; [|nia].
  apply (Z.mul_le_mono_nonneg_l _ _ (peg_den sA * peg_den sB)) in Hba; [|nia].
  lia.
Qed.
End Circulation.

(** ** The standalone chain *)

From S2P Require Import DecimalConverter RuntimeCommon StandaloneRuntime TypingRuntimes Pegs.
From S2P Require Import XcmConfig Adapters StandaloneLedger.

Section Standalone.
Context {L : Type} `{Crypto} `{EthAbi} `{LocationCodec} `{XcmLocations} `{FixedU112F16}
  `{PalletIdAccounts} `{LocationConverters} (error_str : DispatchError -> bytes)
  (amount : L -> Place -> AccountId -> Z) (total : L -> Place -> Z)
  (not_found : XcmError -> bool)
  (currency fungibles transactors : TransactAsset L).

(** C17: the pallets of the standalone chain are covered.  For every resource of the
    runtime, kept by the balances or by the assets pallet: along any calls, none signed by
    the account that holds the reserve, what the pallet has issued outside that account,
    together with what deposits announced towards any set of domains, has grown since genesis
    by no more than the proposals paid were worth, each in the relayers' decimals. *)
Theorem standalone_pallets_covered aid rid decimal p holder self ds l n :
  NoDup ds ->
  standalone_environment amount total not_found currency fungibles transactors ->
  (aid, rid) ∈ Standalone.ResourcePairs ->
  decimals_of Standalone.AssetDecimalPairs aid = Some decimal ->
  standalone_place aid = Some p ->
  get_token_reserved_account (H := Standalone.bridge_config transactors error_str) aid
    = Some holder ->
  rtc (keyless_step (C := standalone_chain transactors error_str)
         (standalone_peg transactors error_str aid decimal) any_batch) (genesis l) n ->
  let num := if decimal <=? 18 then 10 ^ (18 - decimal) else 1 in
  let den := if decimal <=? 18 then 1 else 10 ^ (decimal - 18) in
  let outside l := total l p - amount l p holder in
  num * (outside (ledger (state n)) - outside l)
    + den * announced rid self ds (events (state n))
  <= den * sumZ (worth rid) (paid n).
Proof.
  intros Hds He Hin Hdec Hplace Hacc Hr.
  exact (standalone_covered error_str amount total not_found currency fungibles
    transactors He aid rid decimal p holder self ds l n Hds Hin Hdec Hplace Hacc Hr).
Qed.
End Standalone.

From S2P Require Import Forwarder XcmBridge ParachainRuntime ParachainLedger.

Section Parachain.
Context {L : Type} `{Crypto} `{EthAbi} `{LocationCodec} `{XcmLocations} `{FixedU112F16}
  `{PalletIdAccounts} `{XcmReanchor} `{LocationConverters} (error_str : DispatchError -> bytes)
  (amount : L -> Place -> AccountId -> Z) (total : L -> Place -> Z)
  (not_found : XcmError -> bool)
  (currency fungibles : TransactAsset L)
  (weigh : Xcm -> option Weight * Xcm) (encode : Xcm -> bytes)
  (execute : MultiLocation -> Xcm -> bytes -> Weight -> Weight -> M Empty_set (World L) Outcome).
Abbreviation chain := (parachain_chain currency fungibles weigh encode execute error_str).

(** C18: the foreign assets of the parachain are covered.  With the forwarding transactor
    of the runtime, as long as the MPC signs batches for local recipients only: what the
    assets pallet has issued of a resource outside the account that holds its reserve,
    together with what deposits announced towards any set of domains, has grown since
    genesis by no more than the proposals paid were worth, each in the relayers' decimals. *)
Theorem parachain_assets_covered aid rid decimal p self ds l n :
  NoDup ds ->
  parachain_environment amount total not_found currency fungibles ->
  (aid, rid) ∈ Para.ResourcePairs ->
  decimals_of Para.AssetDecimalPairs aid = Some decimal ->
  parachain_place aid = Some p ->
  let s := parachain_peg currency fungibles weigh encode execute error_str aid decimal in
  rtc (keyless_step (C := chain) s (local_batch (H := @chain_bridge L chain))) (genesis l) n ->
  peg_num s * (outside amount total s p (ledger (state n)) - outside amount total s p l)
    + peg_den s * announced rid self ds (events (state n))
  <= peg_den s * sumZ (worth rid) (paid n).
Proof.
  intros Hds He Hin Hdec Hplace s Hr.
  exact (parachain_covered amount total not_found currency fungibles He weigh encode
    execute error_str aid rid decimal p self ds l n Hds Hin Hdec Hplace Hr).
Qed.
End Parachain.

(** ** The hypotheses hold on the concrete network *)

From S2P Require Import BridgeMock Scenario NetworkScenario StandaloneScenario.
#[local] Existing Instances toy_crypto word_abi list_locations toy_codec integer_fixed
  padded_accounts plain_converters mock_basic mock_percentage mock_router.

Lemma storage_stays_typed_witness : world_typed final.
Proof.
  apply (storage_stays_typed genesis_ledger).
  exact (typed_calls_reachable reserve_native _ _ all_calls_typed).
Defined.

Lemma holding_account_covered_witness :
  balance genesis_ledger reserve_native native
    + sumZ (move_at reserve_native native)
        [(reserve_native, native, 999900); (reserve_native, native, -200000)]
    <= balance (ledger final) reserve_native native.
Proof.
  refine (holding_account_covered reserve_native genesis_ledger final _ native final_history _).
  vm_compute. congruence.
Defined.

Lemma no_forged_payment_witness :
  paid net_delivered.2 = [carol_proposal] /\
  filter (fun p => origin_domain_id p = 1) (paid net_delivered.2)
    ⊆+ relayed 1 1 (events (state net_delivered.1)).
Proof.
  split; [exact net_delivered_paid|].
  refine (no_forged_payment (CA := mock_chain) (CB := wrapping_chain) 1 1 genesis_ledger
    wrapping_ledger net_delivered.1 net_delivered.2 _).
  exact net_delivered_pair.
Defined.

Lemma bridge_refines_channels_witness :
  delivered (channels_of 1 1 net_delivered).1 = [(0%nat, transfer_of carol_proposal)] /\
  channels_of 1 1 (net_genesis genesis_ledger wrapping_ledger) = (idle, idle) /\
  rtc channels_step (channels_of 1 1 net_sent) (channels_of 1 1 net_delivered) /\
  (forall i, i ∈ (delivered (channels_of 1 1 net_delivered).1).*1 <->
     is_proposal_executed (state net_delivered.2) (Z.of_nat i) 1 = true) /\
  (forall i, i ∈ (delivered (channels_of 1 1 net_delivered).2).*1 <->
     is_proposal_executed (state net_delivered.1) (Z.of_nat i) 1 = true).
Proof.
  split; [vm_compute; reflexivity|].
  exact (bridge_refines_channels (CA := mock_chain) (CB := wrapping_chain) 1 1 genesis_ledger
    wrapping_ledger net_sent net_delivered net_sent_reachable net_delivered_step).
Defined.

Lemma supply_is_backed_witness :
  supply (ledger (state net_delivered.2)) wrapped <=
    supply wrapping_ledger wrapped
    + sumZ (minted (H := wrapping_config) wrapped)
        (relayed 1 1 (events (state net_delivered.1)))
    + sumZ (minted (H := wrapping_config) wrapped)
        (filter (fun p => ~ origin_domain_id p = 1) (paid net_delivered.2)).
Proof.
  refine (supply_is_backed (CA := mock_chain) (CB := wrapping_chain) 1 1 genesis_ledger
    wrapping_ledger net_delivered.1 net_delivered.2 wrapped _ _).
  - by split.
  - exact net_delivered_pair.
Defined.

Lemma deposit_is_delivered_witness :
  exists p a' b' beneficiary x account,
    mock_net_step (net_ready.1, net_ready.2) (a', net_ready.2) /\ state a' = carol_sent /\
    p ∈ relayed 1 1 (events carol_sent) /\ resource_id p = Mock.NativeResourceId /\
    mock_net_step (a', net_ready.2) (a', b') /\ paid b' = paid net_ready.2 ++ [p] /\
    location_account loc_carol = Some beneficiary /\
    Fungible 1000000000000 = Fungible x /\
    (forall id c, balance (ledger (state b')) id c = balance (ledger (state net_ready.2)) id c
       - (if contains (ContainsPair := Mock.reserve_checker)
               (asset_of wrapped 1000000000000) loc_here
          then at_entry account wrapped id c x else 0)
       + at_entry beneficiary wrapped id c x) /\
    forall n, rtc mock_net_step (a', b') n ->
      length (filter (fun q => proposal_key q = proposal_key p) (paid n.2)) = 1%nat.
Proof.
  refine (deposit_is_delivered (CA := mock_chain) (CB := wrapping_chain) 1 1 genesis_ledger
    wrapping_ledger net_ready.1 net_ready.2 Mock.ALICE (asset_of native 1000100) dest_carol
    carol_sent recipient_carol Mock.NativeResourceId 1000000000000 loc_carol
    (asset_of wrapped 1000000000000) carol_credited sign (Signed Mock.BOB)
    net_ready_pair _ carol_sends carol_encoded carol_can_be_paid
    (toy_signs _ ready_mpc) _).
  - by split.
  - apply (bool_decide_unpack _). vm_compute. done.
Defined.

Lemma bridge_never_inflates_witness :
  peg_num native_peg * peg_den wrapped_peg *
    (circulating (H := mock_config) native_peg (state net_delivered.1)
       - circulating (H := mock_config) native_peg (empty_world genesis_ledger)) +
  peg_num wrapped_peg * peg_den native_peg *
    (circulating (H := wrapping_config) wrapped_peg (state net_delivered.2)
       - circulating (H := wrapping_config) wrapped_peg (empty_world wrapping_ledger)) <=
  peg_den native_peg * peg_den wrapped_peg *
    (sumZ (worth Mock.NativeResourceId)
       (filter (fun p => ~ origin_domain_id p = 1) (paid net_delivered.1)) +
     sumZ (worth Mock.NativeResourceId)
       (filter (fun p => ~ origin_domain_id p = 1) (paid net_delivered.2))).
Proof.
  refine (bridge_never_inflates (CA := mock_chain) (CB := wrapping_chain) 1 1 native_peg
    wrapped_peg Mock.NativeResourceId genesis_ledger wrapping_ledger net_delivered.1
    net_delivered.2 native_pegged wrapped_pegged _ _ net_delivered_keyless).
  - by split.
  - by split.
Defined.

Lemma two_domains : NoDup [1; 2].
Proof. apply (bool_decide_unpack _). vm_compute. exact I. Qed.

Lemma standalone_pallets_covered_witness :
  let outside l := pallet_total l InBalances - pallet_amount l InBalances sa_holder in
  10 ^ 6 * (outside (ledger (state sa_final)) - outside pallets0)
    + 1 * announced Standalone.NativeResourceId 5 [1; 2] (events (state sa_final))
  <= 1 * sumZ (worth Standalone.NativeResourceId) (paid sa_final).
Proof.
  apply (standalone_pallets_covered error_name pallet_amount pallet_total
    unknown_asset balances_transactor assets_transactor pallet_transactors native_asset
    Standalone.NativeResourceId 12 InBalances sa_holder 5 [1; 2] pallets0 sa_final two_domains
    concrete_environment).
  - unfold Standalone.ResourcePairs. rewrite elem_of_cons. by left.
  - reflexivity.
  - reflexivity.
  - vm_compute. reflexivity.
  - exact sa_final_keyless.
Defined.

From S2P Require Import ParachainScenario.
#[local] Existing Instance toy_reanchor.

Lemma parachain_assets_covered_witness :
  let out := outside pallet_amount pallet_total pa_peg (InAssets 2000) in
  peg_num pa_peg * (out (ledger (state pa_final)) - out pa_pallets0)
    + peg_den pa_peg * announced Para.UsdtResourceId 5 [1; 2] (events (state pa_final))
  <= peg_den pa_peg * sumZ (worth Para.UsdtResourceId) (paid pa_final).
Proof.
  refine (parachain_assets_covered error_name pallet_amount pallet_total
    unknown_asset relay_balances para_assets toy_weigh toy_encode refuse_message usdt_asset
    Para.UsdtResourceId 12 (InAssets 2000) 5 [1; 2] pa_pallets0 pa_final two_domains
    concrete_para_environment _ _ _ pa_final_keyless).
  - unfold Para.ResourcePairs. rewrite !elem_of_cons. by right; left.
  - reflexivity.
  - vm_compute. reflexivity.
Defined.

