(* ===== verification/MeshProps.v ===== *)
(** * Properties of networks of any number of chains *)

From S2P Require Import Prelude Xcm Frame Traits AccessSegregator BasicFeeHandler.
From S2P Require Import PercentageFeeHandler FeeHandlerRouter Encode Eip712 Bridge.
From S2P Require Import BridgeNonces BridgeDeposit BridgeExecute BridgeAdmin DepositData.
From S2P Require Import Conservation System Relay Typing Supply Holding Network Circulation Mesh.

Section Mesh.
Context {L : DomainID -> Type} {C : forall d, ChainParams (L d)}
  `{!forall d, TransactorExt (L d)} `{!forall d, TypedConfig (L d)}
  `{!forall d, TypedTransactor (L d)} `{!forall d, AssetLedger (L d)}
  `{!forall d, FailsafeLedger (L d)} `{!forall d, SupplyLedger (L d)}
  `{!forall d, PlainTransactor (L d)}.

(** C11: the bridge does not inflate.  A resource is represented by an asset on each chain of
    a network, held in reserve or wrapped, [k d] being the weight that brings the unit of
    chain [d] to one common unit.  In every state the network reaches by any interleaving
    of typed calls, what circulates of the resource on all chains together has grown since
    genesis by no more than the worth of what was paid in the name of domains outside the
    network: what one chain lets circulate another has locked or burned, whatever the
    routes, the fees and the rounding of the conversions. *)
Theorem mesh_never_inflates domains (s : DomainID -> Peg) rid (l0 : forall d, L d) n
    (k : DomainID -> Z) K :
  NoDup domains -> Forall (is_u u8_max) domains ->
  (forall d, d ∈ domains -> pegged (L := L d) (s d) rid) ->
  (forall d, d ∈ domains -> 0 <= k d /\ k d * peg_den (s d) = K) -> 0 <= K ->
  rtc (mesh_step domains s) (mesh_genesis l0) n ->
  sumZ (fun d => k d * peg_num (s d) *
    (circulating (s d) (state (n d)) - circulating (s d) (empty_world (l0 d)))) domains
  <= K * sumZ (fun d =>
       sumZ (worth rid) (filter (fun p => origin_domain_id p ∉ domains) (paid (n d)))) domains.
Proof. intros Ho Ht Hp Hk HK Hr. by apply mesh_circulation. Qed.
End Mesh.

(** ** The hypotheses hold on three chains *)

From S2P Require Import BridgeMock Scenario NetworkScenario MeshScenario.
#[local] Existing Instances mesh_ext mesh_config_typed mesh_typed mesh_assets mesh_failsafe
  mesh_supply mesh_plain.

Lemma mesh_never_inflates_witness :
  sumZ (fun d => 1 * peg_num (mesh_peg d) *
    (circulating (H := @chain_bridge _ (mesh_chain d)) (mesh_peg d) (state (mesh_final d))
     - circulating (H := @chain_bridge _ (mesh_chain d)) (mesh_peg d)
         (empty_world (mesh_ledger d)))) three_domains
  <= 1 * sumZ (fun d => sumZ (worth Mock.NativeResourceId)
       (filter (fun p => origin_domain_id p ∉ three_domains) (paid (mesh_final d)))) three_domains.
Proof.
  apply (mesh_never_inflates (L := fun _ => Ledger) (C := mesh_chain) three_domains mesh_peg
    Mock.NativeResourceId mesh_ledger mesh_final (fun _ => 1) 1).
  - apply (bool_decide_unpack _). vm_compute. exact I.
  - repeat constructor; unfold is_u, u8_max; lia.
  - exact mesh_pegged.
  - intros d _. unfold mesh_peg. by destruct (d =? 1).
  - lia.
  - exact mesh_final_reachable.
Defined.
