(* ===== verification/NodeProps.v ===== *)
(** * Properties of the chains the nodes start *)

From S2P Require Import Prelude Xcm Frame Traits AccessSegregator BasicFeeHandler.
From S2P Require Import PercentageFeeHandler FeeHandlerRouter Encode Eip712 Bridge.
From S2P Require Import BridgeNonces BridgeDeposit BridgeExecute BridgeAdmin System Typing.
From S2P Require Import ParachainInfo RuntimeWeights NodeSpec NodeService NodeServiceFacts.
From S2P Require Import NodeCommand NodeCommandFacts NodeBenchmarking.

Section Genesis.
Context {L : Type} `{BridgeConfig L} `{Keys}.
Context (wasm : option bytes) (xcm_version : Z)
  (from_json_file : string -> outcome string ChainSpec)
  (ledger_of : list (AccountId * Z) -> L).

(** The accounts a list of seeds endows. *)
Definition endowed (seeds : list string) (g : RuntimeGenesisConfig) : Prop :=
  Forall2 (fun seed b => get_account_id_from_seed seed = Ok b.1 /\ b.2 = 2 ^ 60)
    seeds (balances g).

Lemma endowed_each seeds accounts :
  each get_account_id_from_seed seeds = Ok accounts ->
  Forall2 (fun seed (b : AccountId * Z) => get_account_id_from_seed seed = Ok b.1 /\ b.2 = 2 ^ 60)
    seeds ((fun k => (k, Z.shiftl 1 60)) <$> accounts).
Proof.
  intros He%each_ok. apply Forall2_fmap_r. eapply Forall2_impl; [exact He|].
  intros seed a Ha. by split.
Qed.

Lemma genesis_world_inv (g : RuntimeGenesisConfig) : chain_inv (genesis_world ledger_of g).
Proof. by destruct (empty_inv (ledger_of (balances g))). Qed.

Lemma genesis_typed (g : RuntimeGenesisConfig) : world_typed (genesis_world ledger_of g).
Proof. by destruct (empty_typed (ledger_of (balances g))). Qed.

(** While no MPC address is set nothing crosses the bridge. *)
Lemma unset_mpc_closed (w : World L) :
  MpcAddr (bridge w) = mpc_default ->
  (forall who asset dest,
     deposit (Signed who) asset dest w = (Err (ModBridge MissingMpcAddress), w)) /\
  (forall o ps sig, execute_proposal o ps sig w = (Err (ModBridge MissingMpcAddress), w)).
Proof.
  intros Hm. split.
  - intros who asset dest. apply deposit_refused. unfold deposit_refusal, is_clear. simpl.
    by rewrite Hm, bool_decide_eq_true_2.
  - intros o ps sig. rewrite execute_proposal_unauthorised.
    + unfold is_clear. by rewrite bool_decide_eq_true_2.
    + by intros [? _].
Qed.

(** What holds of a genesis state. *)
Record starts_closed (g : RuntimeGenesisConfig) : Prop := {
  starts_inv : chain_inv (genesis_world ledger_of g);
  starts_typed : world_typed (genesis_world ledger_of g);
  starts_no_deposit who asset dest :
    deposit (Signed who) asset dest (genesis_world ledger_of g) =
      (Err (ModBridge MissingMpcAddress), genesis_world ledger_of g);
  starts_no_execution o ps sig :
    execute_proposal o ps sig (genesis_world ledger_of g) =
      (Err (ModBridge MissingMpcAddress), genesis_world ledger_of g)
}.

Lemma genesis_starts_closed g : starts_closed g.
Proof.
  destruct (unset_mpc_closed (genesis_world ledger_of g)) as [Hd Hx]; [done|].
  split; auto using genesis_world_inv, genesis_typed.
Qed.

(** The collator's chains.  Every chain id the collator knows by name selects a
    specification whose parachain id is the one its genesis state reads; the twelve
    development accounts are endowed with [2^60] each, the first of them holds the sudo
    key, the collators are the first two; and the state satisfies the invariants, is typed
    and lets nothing cross the bridge. *)
Theorem collator_genesis id spec g :
  id ∈ ["dev"; "template-rococo"; ""; "local"]%string ->
  ParaNode.load_spec wasm xcm_version from_json_file id = Ok spec ->
  genesis_of spec tt = Ok g ->
  ParaNode.start_para_id spec = Ok (parachain_id (genesis_world ledger_of g)) /\
  endowed all_seeds g /\
  head ((balances g).*1) = sudo_key g /\ invulnerables g = take 2 ((balances g).*1) /\
  starts_closed g.
Proof.
  intros Hid Hspec Hg.
  assert (extensions spec = Some {| relay_chain := "rococo-local"; para_id := 1000 |} /\
    ParaNode.genesis wasm xcm_version = Ok g) as [Hext Hgen].
  { rewrite !elem_of_cons in Hid. destruct Hid as [->|[->|[->|[->|Hn]]]];
      try (simpl in Hspec; injection Hspec as <-; split; [done|exact Hg]).
    by apply not_elem_of_nil in Hn. }
  clear Hid Hspec Hg.
  apply bind_outcome_ok in Hgen as (cs & Hcs & Hgen).
  apply bind_outcome_ok in Hgen as (accounts & Has & Hgen).
  apply bind_outcome_ok in Hgen as (root & Hroot & Hgen).
  unfold ParaNode.testnet_genesis in Hgen. destruct wasm as [code|]; [|done].
  injection Hgen as <-. split; [|split; [|split; [|split]]].
  - unfold ParaNode.start_para_id, ParaNode.try_get. by rewrite Hext.
  - by apply endowed_each.
  - simpl. apply each_ok in Has. inversion Has as [|s a ss accs Ha _]; subst. simpl. congruence.
  - simpl. rewrite <- list_fmap_compose. simpl. rewrite list_fmap_id.
    apply each_ok in Has. inversion Has as [|s1 a1 ss1 accs1 H1' Hr1]; subst.
    inversion Hr1 as [|s2 a2 ss2 accs2 H2' _]; subst.
    apply each_ok in Hcs. inversion Hcs as [|t1 c1 ts1 cs1 Hc1 Hs1]; subst.
    inversion Hs1 as [|t2 c2 ts2 cs2 Hc2 Hs2]; subst. inversion Hs2; subst. simpl.
    unfold ParaNode.collator in Hc1, Hc2. rewrite H1' in Hc1. rewrite H2' in Hc2.
    simpl in Hc1, Hc2. destruct (ParaNode.get_collator_keys_from_seed "Alice"); try done.
    destruct (ParaNode.get_collator_keys_from_seed "Bob"); try done. simpl in *.
    by injection Hc1 as <-; injection Hc2 as <-.
  - apply genesis_starts_closed.
Qed.

(** The standalone chains. *)
Lemma standalone_genesis id spec g :
  id ∈ ["dev"; ""; "local"]%string ->
  StandaloneNode.load_spec wasm from_json_file id = Ok spec -> genesis_of spec tt = Ok g ->
  parachain_id (genesis_world ledger_of g) = 1000 /\
  endowed (if decide (id = "dev"%string) then dev_seeds else all_seeds) g /\
  starts_closed g.
Proof.
  intros Hid Hspec Hg.
  assert (exists code auth, StandaloneNode.genesis code auth
    (if decide (id = "dev"%string) then dev_seeds else all_seeds) = Ok g) as (code & auth & Hgen).
  { rewrite !elem_of_cons in Hid. destruct Hid as [->|[->|[->|Hn]]];
      try (by apply not_elem_of_nil in Hn);
      unfold StandaloneNode.load_spec in Hspec; simpl in Hspec;
      unfold StandaloneNode.development_config, StandaloneNode.local_testnet_config in Hspec;
      destruct wasm; try done; injection Hspec as <-; eauto. }
  clear Hspec Hg.
  apply bind_outcome_ok in Hgen as (ks & _ & Hgen).
  apply bind_outcome_ok in Hgen as (root & _ & Hgen).
  apply bind_outcome_ok in Hgen as (accounts & Has & Hgen).
  injection Hgen as <-. split_and!; [done|by apply endowed_each|apply genesis_starts_closed].
Qed.
End Genesis.

(** ** The services *)

Section Services.
Context `{Substrate} `{Keys} (f : Features) (config : Configuration).

(** Only the voter of an authority is given a keystore. *)
Definition voter_has_keys (a : Action) : Prop :=
  match a with
  | Spawn _ _ _ _ (GrandpaVoter c) => grandpa_keystore c = is_authority (role config)
  | _ => True
  end.

Lemma standalone_voter : emits voter_has_keys (StandaloneService.new_full config).
Proof.
  unfold StandaloneService.new_full, StandaloneService.new_partial, start_telemetry,
    StandaloneService.start_authoring, StandaloneService.start_finality, expect, when, spawn,
    attempt.
  emit; done.
Qed.

(** C39: start of the standalone node.  Whatever the calls into the client answer, the node
    joins the network exactly when it starts without error, as its last action, and then
    runs these tasks: telemetry for endpoints that are not empty, offchain workers when
    enabled, Aura on an authority, and the Grandpa voter unless disabled, with a keystore
    on an authority only; the last two end the node when they end.  Otherwise no task runs
    that such a start would not, and the error is that of the last call made. *)
Theorem standalone_node_start r tr :
  StandaloneService.new_full config [] = (r, tr) ->
  (r = Ok tt <-> StartNetwork ∈ tr) /\
  (r = Ok tt -> last tr = Some StartNetwork /\ spawned tr = standalone_tasks config) /\
  (r <> Ok tt -> spawned tr `prefix_of` standalone_tasks config /\ reported r tr) /\
  Forall voter_has_keys tr.
Proof.
  intros Hr.
  destruct (follows_start _ _ _ [] r tr (standalone_follows config) (Forall_nil_2 _)
    (standalone_no_start config) (standalone_ok config) (standalone_spawned config) Hr)
    as (H1 & H2 & H3).
  split_and!; [done..|]. by destruct (standalone_voter _ _ _ Hr) as (u & -> & Hu).
Qed.

(** C40: start of the collator.  The same for the parachain node: telemetry of the machine's
    benchmark is reported when there are both, Aura runs on an authority and ends the node
    when it ends, there is no voter, and data is recovered in the role of the node; without
    a collator key an authority panics before it joins the network. *)
Theorem collator_node_start para_id hwbench r tr :
  ParaService.start_parachain_node config para_id hwbench [] = (r, tr) ->
  (r = Ok tt <-> StartNetwork ∈ tr) /\
  (r = Ok tt -> last tr = Some StartNetwork /\ spawned tr = collator_tasks config hwbench /\
     StartRelayChainTasks para_id
       (if is_authority (role config) then Collator else FullNode) 6 ∈ tr) /\
  (r <> Ok tt -> spawned tr `prefix_of` collator_tasks config hwbench /\ reported r tr) /\
  (r = Ok tt -> role config = Authority -> is_Some collator_key).
Proof.
  intros Hr.
  destruct (follows_start _ _ _ [] r tr (collator_follows config para_id hwbench) (Forall_nil_2 _)
    (collator_no_start config para_id hwbench) (collator_ok config para_id hwbench)
    (collator_spawned config para_id hwbench) Hr) as (H1 & H2 & H3).
  destruct (follows_network _ _ [] r tr (collator_follows config para_id hwbench)
    (collator_no_start config para_id hwbench) Hr) as (_ & Hyes & _).
  split_and!; [done| |done|].
  - intros Hok. destruct (H2 Hok) as [Hl Hs]. split_and!; [done..|]. rewrite (Hyes Hok), app_nil_l.
    apply elem_of_app. left. by apply collator_relays.
  - intros -> Ha. by eapply collator_key_needed.
Qed.

(** Subcommands.  No subcommand of either node builds or starts a network, produces or
    finalises blocks or runs an essential task, and those of the standalone node that do
    not work on blocks do not open its database either; the bare command joins the network
    exactly when it succeeds. *)
Theorem subcommands_stay_offline alice wasm xcm_version from_json exe gather account
    (cli : ParaCommand.ParaCli) :
  (forall c r tr, StandaloneCommand.run alice f (Some c) config [] = (r, tr) ->
     Forall (fun a => joins a = false) tr /\
     (standalone_offline f c = true -> Forall (fun a => opens a = false) tr)) /\
  (forall c r tr, ParaCommand.subcommand cli = Some c ->
     ParaCommand.run wasm xcm_version from_json exe gather account f cli config [] = (r, tr) ->
     Forall (fun a => joins a = false) tr) /\
  (forall r tr, StandaloneCommand.run alice f None config [] = (r, tr) ->
     r = Ok tt <-> StartNetwork ∈ tr).
Proof.
  split_and!.
  - intros c r tr Hr. split.
    + by destruct (standalone_subcommand_emits f config alice c _ _ _ Hr) as (u & -> & Hu).
    + intros Hc. by destruct (standalone_offline_emits f config alice c Hc _ _ _ Hr) as (u & -> & Hu).
  - intros c r tr Hc Hr.
    by destruct (collator_subcommand_emits f config _ _ _ _ _ _ _ _ Hc _ _ _ Hr) as (u & -> & Hu).
  - intros r tr Hr. by eapply bare_command_joins.
Qed.

(** The machine is measured even when the command line disables it: the flag only drops
    the result. *)
Theorem hardware_measured_anyway wasm xcm_version from_json exe gather account relay_args path :
  database_path config = Some path ->
  (forall t a, call_error t a = None) ->
  let cli := {| ParaCommand.subcommand := None; ParaCommand.no_hardware_benchmarks := true;
                ParaCommand.relay_chain_args := relay_args |} in
  GatherHwbench path ∈
    (ParaCommand.run wasm xcm_version from_json exe gather account f cli config []).2.
Proof.
  intros Hp He cli. unfold ParaCommand.run. simpl.
  unfold runner, call, call_with, mbind at 1, M_bind at 1. rewrite He.
  unfold mbind at 1, M_bind at 1. rewrite He. simpl.
  unfold ParaCommand.start_node.
  assert (Hm : ParaCommand.hwbench gather cli config
    [CreateRunner "run"; RunnerStarts RunNodeUntilExit] = (Ok None,
    [CreateRunner "run"; RunnerStarts RunNodeUntilExit; CreateDirAll path; GatherHwbench path])).
  { unfold ParaCommand.hwbench, ParaCommand.measure. by rewrite Hp. }
  rewrite (bind_ok _ _ _ _ _ Hm). apply (emits_keeps (fun _ => True)).
  - unfold ParaCommand.polkadot_config, service. emit; try done. apply collator_start_emits.
  - rewrite !elem_of_cons. tauto.
Qed.
End Services.

(** ** The hypotheses hold for concrete keys *)

From S2P Require Import Scenario.

(** Keys that spell their seed, padded to 32 bytes. *)
#[local] Instance spelled_keys : Keys :=
  {| from_string _ s := Some (take 32 (b_ s ++ replicate 32 0)); into_account p := p |}.

Definition no_file (path : string) : outcome string ChainSpec :=
  Err "file not found"%string.
Definition native_ledger (endowments : list (AccountId * Z)) : Ledger :=
  foldr (fun e l => <[(e.1, native) := e.2]> l) ∅ endowments.

Lemma collator_genesis_witness :
  exists spec g,
    ParaNode.load_spec (Some [0]) 3 no_file "local" = Ok spec /\
    genesis_of spec tt = Ok g /\
    ParaNode.start_para_id spec = Ok (parachain_id (genesis_world native_ledger g)) /\
    endowed all_seeds g /\
    head ((balances g).*1) = sudo_key g /\ invulnerables g = take 2 ((balances g).*1) /\
    starts_closed native_ledger g.
Proof.
  eexists _, _. split; [reflexivity|]. split; [reflexivity|].
  refine (collator_genesis (Some [0]) 3 no_file native_ledger "local" _ _ _ _ _).
  - rewrite !elem_of_cons. tauto.
  - reflexivity.
  - reflexivity.
Defined.

(** ** The hypotheses hold for concrete answers of the client *)

(** Every call succeeds. *)
Definition quiet_substrate : Substrate :=
  {| call_error _ _ := None; block_hash_0 := Some (replicate 32 7); slot_duration := 6000;
     collator_key := Some (replicate 32 8); check_hardware _ := true |}.
(** The database cannot be opened. *)
Definition no_database : Substrate :=
  {| call_error _ a := if opens a then Some "locked"%string else None;
     block_hash_0 := Some (replicate 32 7); slot_duration := 6000;
     collator_key := Some (replicate 32 8); check_hardware _ := true |}.

Definition validator_config : Configuration :=
  {| telemetry_endpoints := Some ["wss://telemetry"]%string; role := Authority;
     offchain_worker_enabled := false; force_authoring := false; disable_grandpa := false;
     node_name := "alice"; default_heap_pages := None; wasm_method := "compiled";
     max_runtime_instances := 8; runtime_cache_size := 2;
     chain_spec := ParaNode.local_testnet_config (Some [0]) 3;
     config_base_path := "/data"; database_path := Some "/data/db"%string |}.

Lemma standalone_node_start_witness :
  exists tr tr',
    StandaloneService.new_full (H := quiet_substrate) validator_config [] = (Ok tt, tr) /\
    spawned tr = [(false, "telemetry"); (true, "aura"); (true, "grandpa-voter")]%string /\
    StandaloneService.new_full (H := no_database) validator_config [] =
      (Err (Converted (NewFullParts true) "locked"), tr') /\
    (Err (Converted (NewFullParts true) "locked") <> Ok tt ->
       spawned tr' `prefix_of` standalone_tasks validator_config /\
       reported (H := no_database) (Err (Converted (NewFullParts true) "locked")) tr').
Proof.
  eexists _, _. split; [vm_compute; reflexivity|].
  split; [apply (standalone_node_start (H := quiet_substrate) validator_config _ _ eq_refl); done|].
  split; [vm_compute; reflexivity|].
  apply (standalone_node_start (H := no_database) validator_config _ _ eq_refl).
Defined.

Lemma collator_node_start_witness :
  exists tr,
    ParaService.start_parachain_node (H := quiet_substrate) validator_config 1000 None [] =
      (Ok tt, tr) /\
    last tr = Some StartNetwork /\
    spawned tr = [(false, "telemetry"); (true, "aura")]%string /\
    StartRelayChainTasks 1000 Collator 6 ∈ tr.
Proof.
  eexists. split; [vm_compute; reflexivity|].
  apply (collator_node_start (H := quiet_substrate) validator_config 1000 None _ _ eq_refl).
  done.
Defined.

Lemma subcommands_stay_offline_witness :
  exists r tr,
    StandaloneCommand.run (H := quiet_substrate) (replicate 32 1)
      {| runtime_benchmarks := false; try_runtime := false |}
      (Some StandaloneCommand.PurgeChain) validator_config [] = (r, tr) /\
    Forall (fun a => joins a = false) tr /\ Forall (fun a => opens a = false) tr.
Proof.
  eexists _, _. split; [vm_compute; reflexivity|].
  destruct (subcommands_stay_offline (H := quiet_substrate)
    {| runtime_benchmarks := false; try_runtime := false |} validator_config (replicate 32 1)
    (Some [0]) 3 no_file "node" (fun _ => {| cpu_score := 0; memory_score := 0 |}) (fun _ => [])
    {| ParaCommand.subcommand := None; ParaCommand.no_hardware_benchmarks := true;
       ParaCommand.relay_chain_args := [] |}) as [Hs _].
  destruct (Hs StandaloneCommand.PurgeChain _ _ eq_refl) as [H1 H2]. split; [exact H1|].
  by apply H2.
Defined.
